(* ===== verification/_CoqProject ===== *)
-Q . S2P
Prelude.v
GoStrings.v
Json.v
Digest.v
ContextRef.v
Steps.v
Policy.v
Constraints.v
Hubs.v
ToolCommands.v
ToolValidate.v
Sandbox.v
Artifacts.v
ToolApi.v
Http.v
Auth.v
ToolRouter.v
Shelves.v
Store.v
Library.v
LibraryLaws.v
EventGate.v
Gateway.v
Plans.v
Registry.v
RegistryLaws.v
Graph.v
Lifecycle.v
Hooks.v
Executor.v
Templates.v
Catalogue.v
Workflows.v
Watcher.v
Pollers.v
Collectors.v
Watching.v
Admin.v
Streams.v
Requests.v
Routes.v
Slack.v
Serving.v
RouterServer.v
Remote.v
Secrets.v
Config.v
Services.v
Prompt.v
Redaction.v
Startup.v
Planner.v
GatewayStart.v
Ctl.v
Background.v
EndToEnd.v
Orchestrator.v
Pages.v
Programs.v
