(* ===== verification/Prelude.v ===== *)
(** * Carapulse: a verification library

    Carapulse is an operations assistant.  A request (an HTTP call, a chat command, an
    alert, a webhook or a schedule) becomes a plan, a policy engine and people decide
    whether it may run, and an executor runs its steps through a tool router, which
    builds and sandboxes command lines or calls APIs; everything is kept in PostgreSQL
    and audited.  The sources are Go: cmd/ has the programs, internal/ their packages,
    migrations/ the tables.  This library models the gateway (cmd/gateway with
    internal/web, policy, auth, context, approvals, llm, db), the executor and the
    workflows (internal/workflows), the tool router (internal/tools), the programs that run
    them from their configuration (internal/config, secrets, cmd/tool-router,
    cmd/orchestrator), the chat agent (cmd/agent with internal/chatops) and the command
    lines (cmd/assistantctl, sandbox-exec, migrate), and proves what each promises and what
    follows where they meet.

    ** How the code is read

    A Go function is a Rocq function of the same name; a method takes its receiver as an
    argument.  A pair of a value and an error is a [result] (Prelude).  A handler, or any
    body with early returns over some state, is a [handler]: explicit state passing where
    [return] leaves the body; its Hoare-style rules are [wp]'s.  A Go string is a byte
    string; an int or int64 is a Z whose wrap-around is written where the code can
    reach it ([wrap64]); a float64 is a binary64 [spec_float]; a map is a gmap (its order
    of iteration an argument where the code depends on it); a slice that may be nil is an
    [option].  Instants are nanoseconds.  A struct is a Record, an interface a Class, with
    its implementations as Instances, so that a client is proved against the interface.
    What other machines answer is a state (or an oracle over what happened before), so a
    theorem holds whatever they answer; a database statement can fail, one by one.

    ** The files

    What everything uses:
    - Prelude: errors, handlers and their program logic.
    - GoStrings, Json, Digest: strings, strconv, path/filepath, encoding/json,
      crypto/sha1, sha256 and hmac, as far as the program uses them, executable.
    - ContextRef, Steps, Http: what a request is about (context_validate.go,
      read_policy.go, tenancy_helpers.go), a plan's steps and the drafts in a model's
      text (plan_parse.go, plan_helpers.go, constraints.go), requests and responses.

    What decides:
    - Policy: risk, tier, blast radius and the decision (internal/policy,
      web/policy.go, risk.go).
    - Constraints: environments, maintenance windows, target limits (constraints.go).
    - Auth: bearer tokens, claims, key sets and their cache (internal/auth,
      web/auth.go).

    The tool router (internal/tools), in the order a call goes through it:
    - ToolRouter (router_exec.go, tool_router_server.go), ToolValidate (validate.go,
      sanitize.go, schema.go), ToolCommands (commands.go), ToolApi (api_exec.go,
      api_fallbacks.go), Artifacts (artifacts.go, helm_values.go), Sandbox (sandbox.go,
      egress_proxy.go).
    - RouterServer, Remote: its HTTP server (tool_router_server.go, resources_loader.go) and
      the client of it (router_client.go), composed with each other; Redaction: what its
      redactor hides (redact.go).

    The database (internal/db, migrations/):
    - Store: plans, steps, approvals, executions, tool calls, schedules, the audit log.
    - Shelves, Library, LibraryLaws: sessions, playbooks, runbooks, memory, the workflow
      catalogue, the service graph and its snapshots; integrity of the whole.

    The gateway (internal/web), over an interface of the database:
    - Gateway: the server's state and what every handler uses; Plans, Registry, Catalogue,
      Admin, Graph, Hooks: its handlers; EventGate, Hubs, Streams: webhook gates, hubs,
      server-sent events and WebSocket; Pollers: schedules, alerts, the rate limiter.
    - RegistryLaws, Lifecycle: the handlers on the tables.
    - Requests, Routes: every handler together, as the route table puts them; Serving: the
      listeners and middleware of cmd/gateway.

    What feeds and runs it:
    - Collectors, Watching: the pollers and watchers (internal/context/collectors) and the
      goroutines of the context service, as a step relation; Background: the loops of the
      scheduler, the alert poller, the approval watcher and the executor, and what becomes of
      the gateway when one ends.
    - Executor: the polling executor (executor.go, stages.go); Templates, Workflows: the
      catalogue's steps, the Temporal workflows and the direct ones.
    - Watcher: approvals filed and decided in Linear (internal/approvals).
    - Prompt, Planner: the prompt, the models' clients and their credential files
      (internal/llm).
    - Slack: the chat agent and its client of the gateway (internal/chatops, cmd/agent).
    - Config: every section of the configuration, its decoding and its checks
      (internal/config); Secrets: Vault's agent and Boundary's sessions (internal/secrets);
      Services: OPA's client, the object store, the diagnostics and the egress proxy
      (internal/policy/opa.go, internal/storage, diagnostics.go, egress_proxy.go).
    - Startup, Orchestrator, GatewayStart: from a configuration to the running tool router,
      orchestrator and gateway (their cmd/ programs, clients_builder.go, api_auth.go).
    - Ctl, Programs: the command lines, with the flag package's parsing, and what every
      program shares (cmd/assistantctl, sandbox-exec, agent, migrate, internal/logging,
      audit, db.go); Pages: the gateway's pages (ui.go).
    - EndToEnd: from the gateway's handler through the workflow engine to the tools.

    ** What is shown

    - Nothing runs unapproved.  [EndToEnd.only_admitted_steps_run]: the tools a request
      leads to run the steps that passed the gate, and in the context it checked, whatever
      the engine loses or tries again; [Plans.execute_is_gated]: every branch of an execution
      request; [Lifecycle]: over the tables, what was executed was approved, what was
      changed after approval is refused while the database answers, and which approval a
      created plan has; [Hooks]: no webhook approves or executes; [Routes.authority_endpoints]: no other endpoint does either;
      [Catalogue], [Workflows]: the same of workflows.
    - Who asks.  [Routes.requests_are_authenticated], [Auth], [ToolRouter], [Slack]: a
      request that is not authentic changes nothing; [RegistryLaws]: creations and updates
      ask the policy about the tenant whose rows they write, and reads stay within the
      tenant.
    - What runs is what was planned.  [Executor.executePlan_saga] and
      [Workflows.PlanExecution_saga]: both engines implement one abstract saga
      (stages, compensation, final status); [Workflows.PlanExecution_attempts]: how often
      an activity is tried;
      [ToolRouter.Execute_cli_screened], [Sandbox]: the command line that runs is the one
      built, screened and confined; [Templates]: what the catalogue builds is valid;
      [Startup.enforced_router_contained], [Orchestrator.enforced_orchestrator_contained],
      [Ctl.sandbox_exec_hardened]: every process of a whole run is a hardened container when
      the configuration says so; [Remote.remote_call_is_local_call]: a call over HTTP is the
      call itself.
    - What is kept.  [LibraryLaws.tables_integrity]: the constraints of the schema hold
      together, whatever statements fail; [ToolRouter.Execute_no_leak]: no temporary file
      and no proxy is left; [Routes.requests_keep_history]: the audit
      log and executions only grow; [Watching]: the service graph is complete in every
      interleaving; [Hubs]: an invariant of subscriptions and channels.
    - What is sent and read back.  Round trips of WebSocket frames ([Streams]), Linear
      issues ([Watcher]), queries ([Slack]), credential files ([Planner], [Ctl]), tool calls
      ([Remote]); the prompt is
      sanitized ([Prompt]); the evicting deduplication equals the one that never forgets
      ([Pollers]).
    - Where the code does not do what it means to: [Services.undefined_policy_allows],
      [Redaction.default_redaction_hides_nothing], [Startup.no_opa_two_ways],
      [Pages.pages_show_nothing], [Background.failed_pass_is_last], [Slack.slack_plan_and_audit_refused], and concrete runs,
      each beside the component it is about.

    ** Bounds and fuel

    Recursion that is not structural takes fuel, and each use passes enough: the length of
    the text for the scanners (trimming, replacing, splitting, frames: each step consumes a
    byte), twice the length plus two for JSON (a value consumes a byte per two calls), the
    text's length and the pattern's size for the matcher ([match_here_complete]), the
    depth of the document for nested profiles.  An activity of a Temporal workflow is tried
    at most [MaximumAttempts] = 5 times, as the retry policy says.  A 64-bit counter or
    duration wraps where it is written.

    ** What is not modelled, and why

    Code outside the sources is a parameter: PostgreSQL's treatment of a JSON column, RSA
    verification, the fetch of a key set, RFC 3339, duration and cron parsing, time zones,
    JSON schemas, regular expressions beyond the subset of Prompt and Redaction, OPA's and
    Linear's and the models' answers, Temporal's choice of attempts, the operating system
    under the sandbox and the secrets.  Listeners, signals and shutdown, the lines of logs,
    the registry of Prometheus, the driver of end-to-end tests (cmd/e2e) and the writing of
    helm's values file are left out: they are input and output without decisions of their
    own.  What fmt makes of a directive in a text that should hold none is a parameter
    (Pages).  Go's memory model is not modelled: a method that holds a mutex is one step. *)

From stdpp Require Export base gmap strings list fin_maps pretty.
From Stdlib Require Export ZArith Lia.

#[global] Set Default Goal Selector "!".

Declare Scope go_scope.
Delimit Scope go_scope with go.

(** ** Errors

    A Go call that returns [(T, error)] is a [result T]: the error carries the
    text [err.Error()] would give. *)

Inductive result (A : Type) :=
| Ok (a : A)
| Err (e : string).
Arguments Ok {A} a.
Arguments Err {A} e.

#[export] Instance result_ret : MRet result := @Ok.
#[export] Instance result_bind : MBind result := λ A B f r,
  match r with Ok a => f a | Err e => Err e end.
#[export] Instance result_fmap : FMap result := λ A B f r,
  match r with Ok a => Ok (f a) | Err e => Err e end.

Definition is_ok {A} (r : result A) : bool :=
  match r with Ok _ => true | Err _ => false end.

Definition of_option {A} (e : string) (o : option A) : result A :=
  match o with Some a => Ok a | None => Err e end.

(** [if cond { return errors.New(e) }] in a function that returns [error]. *)
Definition check (b : bool) (e : string) : result unit :=
  if b then Ok tt else Err e.

Lemma bind_Ok {A B} (m : result A) (f : A → result B) b :
  m ≫= f = Ok b ↔ ∃ a, m = Ok a ∧ f a = Ok b.
Proof. destruct m; cbn; naive_solver. Qed.

Lemma check_Ok b e u : check b e = Ok u ↔ b = true.
Proof. destruct b, u; unfold check; naive_solver. Qed.

Lemma of_option_Ok {A} e (o : option A) a : of_option e o = Ok a ↔ o = Some a.
Proof. destruct o; unfold of_option; naive_solver. Qed.

Lemma forallb_elem {A} (f : A → bool) l x : forallb f l = true → x ∈ l → f x = true.
Proof. intros H Hin. induction Hin; simpl in H; apply andb_true_iff in H as [? ?]; auto. Qed.

(** ** Handlers with early return

    A Go function body over a world [W] that may [return] an [R] before its end:
    either the value the rest of the body uses, or the value returned. *)

Definition handler (W R A : Type) : Type := W → (A + R) * W.

#[export] Instance handler_ret {W R} : MRet (handler W R) := λ A a w, (inl a, w).
#[export] Instance handler_bind {W R} : MBind (handler W R) := λ A B f m w,
  match m w with
  | (inl a, w') => f a w'
  | (inr r, w') => (inr r, w')
  end.

Section handler_ops.
Context {W R : Type}.

(** [return r]. *)
Definition return_ {A} (r : R) : handler W R A := λ w, (inr r, w).

(** A statement that changes the world and cannot fail. *)
Definition effect (f : W → W) : handler W R unit := λ w, (inl tt, f w).

(** A read of the world. *)
Definition reads {A} (f : W → A) : handler W R A := λ w, (inl (f w), w).

(** A call with an effect: its value, whatever it is. *)
Definition call {A} (f : W → A * W) : handler W R A :=
  λ w, let '(a, w') := f w in (inl a, w').

(** [if cond { return r }]. *)
Definition return_if (b : bool) (r : R) : handler W R unit :=
  if b then return_ r else mret tt.

(** [x, err := e; if err != nil { ... }] for a pure [e]. *)
Definition or_return {A} (e : result A) (k : string → handler W R A) :
    handler W R A :=
  match e with Ok a => mret a | Err m => k m end.

(** The same for a call with an effect. *)
Definition call_or {A} (f : W → result A * W) (k : string → handler W R A) :
    handler W R A :=
  λ w, match f w with
       | (Ok a, w') => (inl a, w')
       | (Err m, w') => k m w'
       end.

(** A body all of whose paths end in [return]. *)
Definition run_handler (m : handler W R R) (w : W) : R * W :=
  match m w with (inl r, w') => (r, w') | (inr r, w') => (r, w') end.
End handler_ops.

(** ** Weakest preconditions

    [wp m Q E w]: run from [w], the body [m] either goes on with a value that [Q]
    holds of, or has returned an [R] that [E] holds of. *)

Section wp.
Context {W R : Type}.

Definition wp {A} (m : handler W R A) (Q : A → W → Prop) (E : R → W → Prop) (w : W) : Prop :=
  match m w with (inl a, w') => Q a w' | (inr r, w') => E r w' end.

Lemma wp_ret {A} (a : A) Q E w : wp (mret a) Q E w ↔ Q a w.
Proof. done. Qed.

Lemma wp_bind {A B} (m : handler W R A) (f : A → handler W R B) Q E w :
  wp (m ≫= f) Q E w ↔ wp m (λ a, wp (f a) Q E) E w.
Proof. unfold wp, mbind, handler_bind. by destruct (m w) as [[a|r] w']. Qed.

Lemma wp_mono {A} (m : handler W R A) (Q Q' : A → W → Prop) (E E' : R → W → Prop) w :
  wp m Q E w → (∀ a w', Q a w' → Q' a w') → (∀ r w', E r w' → E' r w') → wp m Q' E' w.
Proof. unfold wp. destruct (m w) as [[a|r] w']; auto. Qed.

Lemma wp_return {A} r (Q : A → W → Prop) E w : wp (return_ r) Q E w ↔ E r w.
Proof. done. Qed.

Lemma wp_effect f Q (E : R → W → Prop) w : wp (effect f) Q E w ↔ Q tt (f w).
Proof. done. Qed.

Lemma wp_reads {A} (f : W → A) Q (E : R → W → Prop) w : wp (reads f) Q E w ↔ Q (f w) w.
Proof. done. Qed.

Lemma wp_call {A} (f : W → A * W) Q (E : R → W → Prop) w :
  wp (call f) Q E w ↔ Q (f w).1 (f w).2.
Proof. unfold wp, call. by destruct (f w). Qed.

Lemma wp_return_if b r Q (E : R → W → Prop) w :
  wp (return_if b r) Q E w ↔ (b = true → E r w) ∧ (b = false → Q tt w).
Proof. destruct b; unfold wp, return_if, return_, mret, handler_ret; intuition discriminate. Qed.

Lemma wp_or_return {A} (e : result A) k Q (E : R → W → Prop) w :
  wp (or_return e k) Q E w ↔
  (∀ a, e = Ok a → Q a w) ∧ (∀ x, e = Err x → wp (k x) Q E w).
Proof.
  destruct e; unfold or_return; [rewrite wp_ret|]; split;
    try (intros H; split; congruence); intros [H1 H2]; auto.
Qed.

Lemma wp_call_or {A} (f : W → result A * W) k Q (E : R → W → Prop) w :
  wp (call_or f k) Q E w ↔
  (∀ a w', f w = (Ok a, w') → Q a w') ∧ (∀ x w', f w = (Err x, w') → wp (k x) Q E w').
Proof.
  unfold call_or. split.
  - intros H. unfold wp in H.
    split; intros ? ? Hf; rewrite Hf in H; exact H.
  - intros [H1 H2]. unfold wp. destruct (f w) as [[a|x] w']; [by apply H1|by apply H2].
Qed.

(** What holds of every result and every world holds after any body. *)
Lemma wp_always {A} (m : handler W R A) (Q : A → W → Prop) (E : R → W → Prop) w :
  (∀ a w', Q a w') → (∀ r w', E r w') → wp m Q E w.
Proof. unfold wp. destruct (m w) as [[a|r] w']; auto. Qed.

(** What holds of every way out of a body holds of its result. *)
Lemma wp_run (m : handler W R R) (Q : R → W → Prop) w :
  wp m Q Q w ↔ Q (run_handler m w).1 (run_handler m w).2.
Proof. unfold wp, run_handler. by destruct (m w) as [[r|r] w']. Qed.

Lemma wp_run_eq (m : handler W R R) (Q : R → W → Prop) w r w' :
  run_handler m w = (r, w') → wp m Q Q w → Q r w'.
Proof. intros H. rewrite wp_run, H. done. Qed.

(** Two things that a body does it does together. *)
Lemma wp_and {A} (m : handler W R A) (Q Q' : A → W → Prop) (E E' : R → W → Prop) w :
  wp m Q E w → wp m Q' E' w → wp m (λ a w', Q a w' ∧ Q' a w') (λ r w', E r w' ∧ E' r w') w.
Proof. unfold wp. by destruct (m w) as [[a|r] w']. Qed.

(** An invariant that a body keeps, whichever way it ends. *)
Definition preserves {A} (I : W → Prop) (m : handler W R A) : Prop :=
  ∀ w, I w → wp m (λ _, I) (λ _, I) w.

Section preserves.
Variable I : W → Prop.

Lemma preserves_ret {A} (a : A) : preserves I (mret a).
Proof. by intros w. Qed.
Lemma preserves_return {A} r : preserves I (return_ r : handler W R A).
Proof. by intros w. Qed.
Lemma preserves_bind {A B} (m : handler W R A) (f : A → handler W R B) :
  preserves I m → (∀ a, preserves I (f a)) → preserves I (m ≫= f).
Proof. intros Hm Hf w Hw. apply wp_bind. eapply wp_mono; [by apply Hm| |done]. intros a w'. apply Hf. Qed.
Lemma preserves_effect f : (∀ w, I w → I (f w)) → preserves I (effect f).
Proof. intros H w. apply H. Qed.
Lemma preserves_reads {A} (f : W → A) : preserves I (reads f).
Proof. by intros w. Qed.
Lemma preserves_call {A} (f : W → A * W) : (∀ w, I w → I (f w).2) → preserves I (call f).
Proof. intros H w Hw. by apply wp_call, H. Qed.
Lemma preserves_return_if b r : preserves I (return_if b r).
Proof. by destruct b; intros w. Qed.
Lemma preserves_or_return {A} (e : result A) k :
  (∀ x, preserves I (k x)) → preserves I (or_return e k).
Proof. intros Hk. destruct e; [apply preserves_ret|apply Hk]. Qed.
End preserves.

Lemma preserves_run (I : W → Prop) (m : handler W R R) w :
  preserves I m → I w → I (run_handler m w).2.
Proof. intros Hm Hw. apply (wp_run m (λ _, I)). by apply Hm. Qed.
End wp.

#[global] Opaque wp.

(** ** Tactics *)

(** Go through a body: every statement opens into the cases it has. *)
Ltac wp_step :=
  match goal with
  | |- wp (_ ≫= _) _ _ _ => apply wp_bind
  | |- wp (mret _) _ _ _ => apply wp_ret
  | |- wp (return_ _) _ _ _ => apply wp_return
  | |- wp (effect _) _ _ _ => apply wp_effect
  | |- wp (reads _) _ _ _ => apply wp_reads
  | |- wp (call _) _ _ _ => apply wp_call
  | |- wp (return_if _ _) _ _ _ => apply wp_return_if; split; intros ?
  | |- wp (or_return _ _) _ _ _ => apply wp_or_return; split; intros ? ?
  | |- wp (call_or _ _) _ _ _ => apply wp_call_or; split; intros ? ? ?
  end.
Ltac wp_steps := repeat (wp_step; cbn beta iota).

(** Go through a body whose every statement keeps the invariant. *)
Ltac preserves_step :=
  match goal with
  | |- preserves _ (_ ≫= _) => apply preserves_bind; [|intros ?]
  | |- preserves _ (mret _) => apply preserves_ret
  | |- preserves _ (return_ _) => apply preserves_return
  | |- preserves _ (effect _) => apply preserves_effect; intros ? ?
  | |- preserves _ (reads _) => apply preserves_reads
  | |- preserves _ (call _) => apply preserves_call; intros ? ?
  | |- preserves _ (return_if _ _) => apply preserves_return_if
  | |- preserves _ (or_return _ _) => apply preserves_or_return; intros ?
  | |- preserves _ (let '(_, _) := ?p in _) => destruct p
  | |- preserves _ (match ?x with _ => _ end) => destruct x
  end.

(** Case analysis on the test that blocks the goal. *)
Ltac case_test :=
  match goal with
  | |- context [if ?b then _ else _] => destruct b eqn:?
  | |- context [match ?x with _ => _ end] => destruct x eqn:?
  end.

Ltac case_test_in H :=
  match type of H with
  | context [if ?b then _ else _] => destruct b eqn:?
  | context [match ?x with _ => _ end] => destruct x eqn:?
  end.

(** Turn boolean equations of the context into propositions. *)
Ltac bool_hyps :=
  repeat match goal with
  | H : andb _ _ = true |- _ => apply andb_prop in H as [? ?]
  | H : orb _ _ = false |- _ => apply orb_false_elim in H as [? ?]
  | H : negb _ = true |- _ => apply negb_true_iff in H
  | H : negb _ = false |- _ => apply negb_false_iff in H
  | H : String.eqb _ _ = true |- _ => apply String.eqb_eq in H
  | H : String.eqb _ _ = false |- _ => apply String.eqb_neq in H
  | H : bool_decide _ = true |- _ => apply bool_decide_eq_true in H
  | H : bool_decide _ = false |- _ => apply bool_decide_eq_false in H
  | H : Z.ltb _ _ = true |- _ => apply Z.ltb_lt in H
  | H : Z.ltb _ _ = false |- _ => apply Z.ltb_ge in H
  | H : Z.leb _ _ = true |- _ => apply Z.leb_le in H
  | H : Z.leb _ _ = false |- _ => apply Z.leb_gt in H
  | H : Z.eqb _ _ = true |- _ => apply Z.eqb_eq in H
  | H : Z.eqb _ _ = false |- _ => apply Z.eqb_neq in H
  end.

(** Open [H : m = Ok b] for a chain [m] of fallible calls. *)
Ltac ok_inv H :=
  match type of H with
  | mbind _ _ = Ok _ =>
      let a := fresh "a" in let H1 := fresh H "_" in
      apply bind_Ok in H as (a & H1 & H); ok_inv H1; ok_inv H
  | check _ _ = Ok _ => apply check_Ok in H
  | of_option _ _ = Ok _ => apply of_option_Ok in H
  | Ok _ = Ok _ => injection H as H
  | Err _ = Ok _ => discriminate H
  | (let '(_, _) := ?p in _) = Ok _ => destruct p; ok_inv H
  | _ => idtac
  end.

(** Unfold the early-return monad in the goal or a hypothesis. *)
Ltac run_steps :=
  unfold run_handler, call_or, or_return, return_if, return_, effect, reads, call,
    mbind, mret, handler_bind, handler_ret in *; cbn beta iota in *.

Create HintDb go.
