(* ===== verification/GoStrings.v ===== *)
(** * GoStrings: the parts of Go's [strings], [strconv] and [unicode] packages
    the program uses

    A Go string is a byte string, here Stdlib's [string] of 8-bit [ascii].
    White space is Unicode's, as UTF-8 sequences.  Case mapping is exact for
    every rune whose lower case (or simple fold) is an ASCII letter; the other
    non-ASCII runes are left as they are: the program only compares the result
    with, or looks in it for, ASCII text. *)

From S2P Require Import Prelude.
From Stdlib Require Import Ascii.

Local Open Scope string_scope.

Definition byte (n : nat) : ascii := ascii_of_nat n.
Definition bytes (l : list nat) : string := fold_right (λ n s, String (byte n) s) "" l.
Definition code (c : ascii) : Z := Z.of_N (N_of_ascii c).

(** ** Prefixes, suffixes, search *)

Fixpoint strip_prefix (p s : string) : option string :=
  match p, s with
  | EmptyString, _ => Some s
  | String a p', String b s' => if Ascii.eqb a b then strip_prefix p' s' else None
  | String _ _, EmptyString => None
  end.

(** strings.HasPrefix, strings.TrimPrefix *)
Definition has_prefix (s p : string) : bool :=
  match strip_prefix p s with Some _ => true | None => false end.
Definition trim_prefix (s p : string) : string := default s (strip_prefix p s).

Fixpoint rev_app (s acc : string) : string :=
  match s with "" => acc | String c s' => rev_app s' (String c acc) end.
Definition srev (s : string) : string := rev_app s "".

(** strings.HasSuffix, strings.TrimSuffix *)
Definition has_suffix (s p : string) : bool := has_prefix (srev s) (srev p).
Definition trim_suffix (s p : string) : string :=
  match strip_prefix (srev p) (srev s) with Some r => srev r | None => s end.

(** strings.Contains *)
Fixpoint contains (s sub : string) : bool :=
  has_prefix s sub || match s with "" => false | String _ s' => contains s' sub end.

(** strings.Cut: the text before and the text after the first match. *)
Fixpoint cut_at (s sub : string) : option (string * string) :=
  match strip_prefix sub s with
  | Some rest => Some ("", rest)
  | None => match s with
            | "" => None
            | String c s' => (λ '(a, b), (String c a, b)) <$> cut_at s' sub
            end
  end.

(** strings.Split on a one-byte separator. *)
Fixpoint split_byte (sep : ascii) (s : string) : list string :=
  match s with
  | "" => [""]
  | String c s' =>
      if Ascii.eqb c sep then "" :: split_byte sep s'
      else match split_byte sep s' with
           | p :: ps => String c p :: ps
           | [] => [String c ""]
           end
  end.

(** strings.Join *)
Definition join (l : list string) (sep : string) : string :=
  match l with
  | [] => ""
  | x :: l => x +:+ fold_right (λ y acc, sep +:+ y +:+ acc) "" l
  end.

(** strings.ContainsAny for a set of ASCII characters. *)
Fixpoint string_in (c : ascii) (set : string) : bool :=
  match set with "" => false | String d set' => Ascii.eqb c d || string_in c set' end.
Fixpoint contains_any (s set : string) : bool :=
  match s with "" => false | String c s' => string_in c set || contains_any s' set end.

(** [s[:n]] and [s[n:]] for [0 <= n <= len(s)]. *)
Fixpoint take_bytes (n : nat) (s : string) : string :=
  match n, s with
  | S n', String c s' => String c (take_bytes n' s')
  | _, _ => ""
  end.
Fixpoint drop_bytes (n : nat) (s : string) : string :=
  match n, s with
  | S n', String _ s' => drop_bytes n' s'
  | _, _ => s
  end.

(** ** White space *)

Definition spaces : list string :=
  [bytes [9]; bytes [10]; bytes [11]; bytes [12]; bytes [13]; bytes [32];
   bytes [194; 133]; bytes [194; 160]; bytes [225; 154; 128];
   bytes [226; 128; 128]; bytes [226; 128; 129]; bytes [226; 128; 130];
   bytes [226; 128; 131]; bytes [226; 128; 132]; bytes [226; 128; 133];
   bytes [226; 128; 134]; bytes [226; 128; 135]; bytes [226; 128; 136];
   bytes [226; 128; 137]; bytes [226; 128; 138]; bytes [226; 128; 168];
   bytes [226; 128; 169]; bytes [226; 128; 175]; bytes [226; 129; 159];
   bytes [227; 128; 128]].

(** The rest of [s] after one of the sequences of [pats], if it starts with one. *)
Fixpoint strip_one (pats : list string) (s : string) : option string :=
  match pats with
  | [] => None
  | p :: pats' => match strip_prefix p s with
                  | Some r => Some r
                  | None => strip_one pats' s
                  end
  end.

Fixpoint strip_all (fuel : nat) (pats : list string) (s : string) : string :=
  match fuel with
  | O => s
  | S n => match strip_one pats s with
           | Some r => strip_all n pats r
           | None => s
           end
  end.

Definition trim_with (pats : list string) (s : string) : string :=
  strip_all (String.length s) pats s.

(** strings.TrimSpace *)
Definition TrimSpace (s : string) : string :=
  srev (trim_with (map srev spaces) (srev (trim_with spaces s))).

(** strings.TrimRight of slashes *)
Definition trim_right_slashes (s : string) : string :=
  srev (strip_all (String.length s) ["/"] (srev s)).

(** [strings.TrimSpace(s) == ""] *)
Definition blank (s : string) : bool := String.eqb (TrimSpace s) "".

(** ** Case *)

Definition lower_ascii (c : ascii) : ascii :=
  let n := nat_of_ascii c in
  if (65 <=? n)%nat && (n <=? 90)%nat then ascii_of_nat (n + 32) else c.

Fixpoint replace_prefixes (fuel : nat) (rules : list (string * string)) (s : string) : string :=
  match fuel with
  | O => s
  | S n =>
      let fix first rs :=
        match rs with
        | [] => match s with
                | "" => ""
                | String c s' => String (lower_ascii c) (replace_prefixes n rules s')
                end
        | (p, q) :: rs' => match strip_prefix p s with
                           | Some r => q +:+ replace_prefixes n rules r
                           | None => first rs'
                           end
        end
      in first rules
  end.

(** strings.ToLower: U+0130 and U+212A are the two non-ASCII runes whose lower
    case is ASCII. *)
Definition ToLower (s : string) : string :=
  replace_prefixes (String.length s)
    [(bytes [196; 176], "i"); (bytes [226; 132; 170], "k")] s.

(** strings.EqualFold: under simple folding U+212A folds with k, U+017F with s. *)
Definition fold_case (s : string) : string :=
  replace_prefixes (String.length s)
    [(bytes [197; 191], "s"); (bytes [226; 132; 170], "k")] s.
Definition EqualFold (s t : string) : bool := String.eqb (fold_case s) (fold_case t).

(** The test [strings.ToLower(strings.TrimSpace(s))]. *)
Definition norm (s : string) : string := ToLower (TrimSpace s).

(** ** Integers *)

Definition is_digit (c : ascii) : bool := (48 <=? code c)%Z && (code c <=? 57)%Z.

Fixpoint digits_value (acc : Z) (s : string) : option Z :=
  match s with
  | "" => Some acc
  | String c s' => if is_digit c then digits_value (acc * 10 + (code c - 48))%Z s' else None
  end.

Definition int_min : Z := - 2 ^ 63.
Definition int_max : Z := 2 ^ 63 - 1.

(** strconv.Atoi *)
Definition Atoi (s : string) : result Z :=
  let '(neg, body) :=
    match s with
    | String c s' => if Ascii.eqb c "-" then (true, s')
                     else if Ascii.eqb c "+" then (false, s') else (false, s)
    | "" => (false, s)
    end in
  match body with
  | "" => Err "invalid syntax"
  | _ => match digits_value 0 body with
         | None => Err "invalid syntax"
         | Some v =>
             let v := if neg : bool then (- v)%Z else v in
             if (int_min <=? v)%Z && (v <=? int_max)%Z then Ok v
             else Err "value out of range"
         end
  end.

(** ** path/filepath *)

(** A segment after those [done]; [rooted] paths have nothing above them. *)
Definition clean_segment (rooted : bool) (done : list string) (seg : string) : list string :=
  if String.eqb seg "" || String.eqb seg "." then done
  else if String.eqb seg ".." then
    match rev done with
    | last :: _ => if String.eqb last ".." then done ++ [seg] else removelast done
    | [] => if rooted then [] else [seg]
    end
  else done ++ [seg].

Definition filepath_Clean (path : string) : string :=
  let rooted := has_prefix path "/" in
  let segs := fold_left (clean_segment rooted) (split_byte "/" path) [] in
  if rooted then "/" +:+ join segs "/"
  else match segs with [] => "." | _ => join segs "/" end.

(** filepath.Join: empty first elements are left out. *)
Fixpoint filepath_Join (elems : list string) : string :=
  match elems with
  | [] => ""
  | e :: rest => if String.eqb e "" then filepath_Join rest else filepath_Clean (join elems "/")
  end.

(** fmt's %d *)
Definition itoa (z : Z) : string := pretty z.

(** Two's complement, 64 bits: the value an [int] holds. *)
Definition wrap64 (z : Z) : Z := (z + 2 ^ 63) mod 2 ^ 64 - 2 ^ 63.

(** [for _, s := range l { if s == x }] *)
Definition mem (x : string) (l : list string) : bool := existsb (String.eqb x) l.

#[global] Arguments mem : simpl never.
#[global] Arguments TrimSpace : simpl never.
#[global] Arguments ToLower : simpl never.
#[global] Arguments EqualFold : simpl never.
#[global] Arguments blank : simpl never.
#[global] Arguments contains : simpl never.

(** ** Lemmas *)

#[local] Arguments String.append !_ _ / : simpl nomatch.

Lemma string_app_assoc (s t u : string) : (s +:+ t) +:+ u = s +:+ (t +:+ u).
Proof. induction s as [|c s IH]; simpl; [done|by rewrite IH]. Qed.

Lemma srev_rev_app s acc : rev_app s acc = srev s +:+ acc.
Proof.
  unfold srev. revert acc.
  induction s as [|c s IH]; intros acc; [done|]; simpl.
  rewrite (IH (String c acc)), (IH (String c "")).
  by rewrite string_app_assoc.
Qed.

Lemma srev_cons c s : srev (String c s) = srev s +:+ String c "".
Proof. unfold srev at 1. simpl. apply srev_rev_app. Qed.

Lemma string_app_nil_r (s : string) : s +:+ "" = s.
Proof. induction s as [|c s IH]; simpl; [done|by rewrite IH]. Qed.

Lemma srev_app s t : srev (s +:+ t) = srev t +:+ srev s.
Proof.
  induction s as [|c s IH]; [by rewrite string_app_nil_r|].
  change (String c s +:+ t) with (String c (s +:+ t)).
  by rewrite !srev_cons, IH, <- string_app_assoc.
Qed.

Lemma srev_involutive s : srev (srev s) = s.
Proof.
  induction s as [|c s IH]; [done|]. by rewrite srev_cons, srev_app, IH.
Qed.

Lemma strip_prefix_Some p s r : strip_prefix p s = Some r ↔ s = p +:+ r.
Proof.
  revert s. induction p as [|a p IH]; intros s; simpl.
  { naive_solver. }
  destruct s as [|b s]; [naive_solver|].
  destruct (Ascii.eqb_spec a b) as [->|Hab].
  - rewrite IH. naive_solver.
  - naive_solver.
Qed.

Lemma strip_prefix_app p s t r :
  strip_prefix p s = Some r → strip_prefix p (s +:+ t) = Some (r +:+ t).
Proof.
  rewrite !strip_prefix_Some. intros ->. by rewrite string_app_assoc.
Qed.

Lemma strip_one_None_app pats s t :
  strip_one pats (s +:+ t) = None → strip_one pats s = None.
Proof.
  induction pats as [|p pats IH]; [done|]; simpl.
  destruct (strip_prefix p s) as [r|] eqn:E.
  - by rewrite (strip_prefix_app _ _ t _ E).
  - destruct (strip_prefix p (s +:+ t)); [done|]. apply IH.
Qed.

Lemma strip_one_Some pats s r :
  strip_one pats s = Some r → ∃ p, p ∈ pats ∧ s = p +:+ r.
Proof.
  induction pats as [|p pats IH]; [done|]; simpl.
  destruct (strip_prefix p s) as [r'|] eqn:E.
  - intros [= <-]. exists p. split; [left|by apply strip_prefix_Some].
  - intros (q & Hq & ->)%IH. exists q. split; [by right|done].
Qed.

Lemma strip_all_stuck n pats s : strip_one pats s = None → strip_all n pats s = s.
Proof. destruct n; simpl; [done|]. by intros ->. Qed.

Lemma strip_all_suffix n pats s : ∃ pre, s = pre +:+ strip_all n pats s.
Proof.
  revert s. induction n as [|n IH]; intros s; simpl.
  { by exists "". }
  destruct (strip_one pats s) as [r|] eqn:E; [|by exists ""].
  apply strip_one_Some in E as (p & _ & ->).
  destruct (IH r) as [pre Hpre]. exists (p +:+ pre).
  by rewrite string_app_assoc, <- Hpre.
Qed.

Lemma length_string_app s t :
  String.length (s +:+ t) = (String.length s + String.length t)%nat.
Proof. induction s as [|c s IH]; simpl; [done|by rewrite IH]. Qed.

Lemma strip_all_normal n pats s :
  Forall (λ p, p ≠ "") pats → (String.length s ≤ n)%nat →
  strip_one pats (strip_all n pats s) = None.
Proof.
  intros Hpats. revert s.
  induction n as [|n IH]; intros s Hn; simpl; destruct (strip_one pats s) as [r|] eqn:E.
  1, 3: apply strip_one_Some in E as (p & Hp & ->); rewrite Forall_forall in Hpats;
    specialize (Hpats p Hp); destruct p as [|c p]; [done|]; simpl in Hn;
    rewrite length_string_app in Hn.
  - lia.
  - apply IH. lia.
  - done.
  - by rewrite E.
Qed.

Lemma trim_with_normal pats s :
  Forall (λ p, p ≠ "") pats → strip_one pats (trim_with pats s) = None.
Proof. intros. by apply strip_all_normal. Qed.

Lemma spaces_nonempty : Forall (λ p, p ≠ "") spaces.
Proof. repeat constructor; discriminate. Qed.

Lemma rev_spaces_nonempty : Forall (λ p, p ≠ "") (map srev spaces).
Proof. repeat constructor; discriminate. Qed.

Lemma TrimSpace_idemp s : TrimSpace (TrimSpace s) = TrimSpace s.
Proof.
  unfold TrimSpace at 1 3.
  set (t := trim_with spaces s).
  set (u := trim_with (map srev spaces) (srev t)).
  assert (Ht : strip_one spaces (srev u) = None).
  { destruct (strip_all_suffix (String.length (srev t)) (map srev spaces) (srev t))
      as [pre Hpre].
    fold (trim_with (map srev spaces) (srev t)) in Hpre. fold u in Hpre.
    apply (f_equal srev) in Hpre. rewrite srev_involutive, srev_app in Hpre.
    apply (strip_one_None_app _ _ (srev pre)). rewrite <- Hpre.
    apply trim_with_normal, spaces_nonempty. }
  assert (Hu : TrimSpace s = srev u) by done.
  rewrite Hu. unfold trim_with at 2. rewrite (strip_all_stuck _ _ _ Ht).
  rewrite srev_involutive. unfold trim_with.
  rewrite strip_all_stuck; [done|]. apply trim_with_normal, rev_spaces_nonempty.
Qed.

(** Trimmed: no space starts it and none ends it. *)
Lemma TrimSpace_ends s :
  strip_one spaces (TrimSpace s) = None ∧ strip_one (map srev spaces) (srev (TrimSpace s)) = None.
Proof.
  unfold TrimSpace. rewrite srev_involutive. split.
  - set (t := trim_with spaces s).
    destruct (strip_all_suffix (String.length (srev t)) (map srev spaces) (srev t)) as [pre Hpre].
    apply (f_equal srev) in Hpre. rewrite srev_involutive, srev_app in Hpre.
    apply (strip_one_None_app _ _ (srev pre)). unfold trim_with at 1. rewrite <- Hpre.
    apply trim_with_normal, spaces_nonempty.
  - apply trim_with_normal, rev_spaces_nonempty.
Qed.

Lemma TrimSpace_fixed s :
  strip_one spaces s = None → strip_one (map srev spaces) (srev s) = None → TrimSpace s = s.
Proof.
  intros H1 H2. unfold TrimSpace, trim_with. rewrite (strip_all_stuck _ _ s) by done.
  rewrite strip_all_stuck by done. apply srev_involutive.
Qed.

Lemma blank_TrimSpace s : blank (TrimSpace s) = blank s.
Proof. unfold blank. by rewrite TrimSpace_idemp. Qed.

Lemma blank_true s : blank s = true ↔ TrimSpace s = "".
Proof. apply String.eqb_eq. Qed.

Lemma blank_false s : blank s = false ↔ TrimSpace s ≠ "".
Proof. apply String.eqb_neq. Qed.

Lemma mem_spec x l : mem x l = true ↔ x ∈ l.
Proof.
  unfold mem. rewrite existsb_exists. split.
  - intros (y & Hy & ->%String.eqb_eq). by apply list_elem_of_In.
  - intros Hx. exists x. split; [by apply list_elem_of_In|apply String.eqb_refl].
Qed.

Lemma mem_false x l : mem x l = false ↔ x ∉ l.
Proof. rewrite <- mem_spec. destruct (mem x l); naive_solver. Qed.

(** The characters of a string. *)
Fixpoint chars (s : string) : list ascii :=
  match s with "" => [] | String c s' => c :: chars s' end.

Lemma string_in_spec c set : string_in c set = true ↔ c ∈ chars set.
Proof.
  induction set as [|d set IH]; simpl; [set_solver|].
  rewrite orb_true_iff, IH, Ascii.eqb_eq. set_solver.
Qed.

Lemma string_app_split (a b c d : string) :
  a +:+ b = c +:+ d → (∃ e, a = c +:+ e ∧ d = e +:+ b) ∨ (∃ e, c = a +:+ e ∧ b = e +:+ d).
Proof.
  revert c. induction a as [|x a IH]; intros c; [intros H; right; by exists c|].
  destruct c as [|y c]; [intros H; left; exists (String x a); done|].
  intros [= -> [(e & -> & ->)|(e & -> & ->)]%IH]; [left|right]; by exists e.
Qed.

Lemma has_prefix_app p s : has_prefix (p +:+ s) p = true.
Proof. unfold has_prefix. by rewrite (proj2 (strip_prefix_Some p _ s) eq_refl). Qed.

Lemma string_in_app c s t : string_in c (s +:+ t) = string_in c s || string_in c t.
Proof. induction s as [|d s IH]; simpl; [done|]. by rewrite IH, orb_assoc. Qed.

Lemma string_in_cons c d s : string_in c (String d s) = string_in c (String d "") || string_in c s.
Proof. apply (string_in_app c (String d "") s). Qed.

Lemma contains_any_spec s set :
  contains_any s set = true ↔ ∃ c, c ∈ chars s ∧ c ∈ chars set.
Proof.
  induction s as [|d s IH]; simpl; [set_solver|].
  rewrite orb_true_iff, IH, string_in_spec. set_solver.
Qed.

Lemma contains_any_app s t set :
  contains_any (s +:+ t) set = contains_any s set || contains_any t set.
Proof. induction s as [|c s IH]; simpl; [done|]. by rewrite IH, orb_assoc. Qed.

Lemma itoa_inj z z' : itoa z = itoa z' → z = z'.
Proof. apply pretty_Z_inj. Qed.

Lemma wrap64_id z : (int_min ≤ z ≤ int_max)%Z → wrap64 z = z.
Proof.
  unfold int_min, int_max, wrap64. intros ?. rewrite Z.mod_small; lia.
Qed.

Lemma wrap64_bounds z : (int_min ≤ wrap64 z ≤ int_max)%Z.
Proof.
  unfold int_min, int_max, wrap64.
  pose proof (Z.mod_pos_bound (z + 2 ^ 63) (2 ^ 64)). lia.
Qed.

Lemma take_bytes_length n s : String.length (take_bytes n s) = min n (String.length s).
Proof. revert s. induction n as [|n IH]; intros [|c s]; simpl; auto. Qed.

Lemma take_bytes_all n s : (String.length s ≤ n)%nat → take_bytes n s = s.
Proof.
  revert s. induction n as [|n IH]; intros [|c s] ?; simpl in *; try done; [lia|].
  rewrite IH; [done|lia].
Qed.

#[export] Hint Rewrite TrimSpace_idemp blank_TrimSpace srev_involutive : go.
#[export] Hint Resolve TrimSpace_idemp wrap64_bounds : go.

(** ** Sanity checks on concrete inputs *)
Example trim_ex : TrimSpace (bytes [194; 160; 9; 97; 32; 98; 227; 128; 128; 10]) = "a b".
Proof. reflexivity. Qed.
Example lower_ex : ToLower ("PrOd" +:+ bytes [226; 132; 170]) = "prodk".
Proof. reflexivity. Qed.
Example fold_ex : EqualFold "DOC" "doc" && negb (EqualFold "doc" "docs") = true.
Proof. reflexivity. Qed.
Example atoi_ex : (Atoi "-12", Atoi "9223372036854775808", Atoi "1x")
  = (Ok (-12)%Z, Err "value out of range", Err "invalid syntax").
Proof. reflexivity. Qed.
Example split_ex : split_byte "." "a.b..c" = ["a"; "b"; ""; "c"].
Proof. reflexivity. Qed.
Example suffix_ex : (trim_suffix "/v1/x/logs" "/logs", has_suffix "abc" "bc") = ("/v1/x", true).
Proof. reflexivity. Qed.

Example join_ex :
  (filepath_Join [""; "/home/ops/"; "../dev"; "./.carapulse"], filepath_Join ["a"; "../../b"], filepath_Join [""; ""])
  = ("/home/dev/.carapulse", "../b", "").
Proof. reflexivity. Qed.
