(* ===== verification/Json.v ===== *)
(** * Json: Go's dynamic values and [encoding/json]

    [json] is a JSON document (object members in order, number literals as
    written); [any] is a Go value of type [any], with the dynamic types the
    program switches on.  [Marshal] and [Unmarshal] are given at two levels:
    between [any] and [json] ([to_json], [of_json], and the struct decoders
    [fld_*]), and between [json] and text ([print_json], [parse_json]).
    Payloads that only travel between components are kept as [doc]s: the
    document their bytes spell.

    A float64 is an IEEE binary64 [spec_float]; a decimal literal is rounded to
    nearest even, and printed with the shortest digits that read back.  Nesting
    depth is not limited (the decoder's limit is 10,000).  A nil slice is
    [ANil]. *)

From S2P Require Import Prelude GoStrings.
From Stdlib Require Import Ascii SpecFloat.

Local Open Scope string_scope.

(** ** Values *)

Inductive json :=
| JNull
| JBool (b : bool)
| JNum (lit : string)
| JStr (s : string)
| JArr (l : list json)
| JObj (fs : list (string * json)).

Inductive any :=
| ANil
| ABool (b : bool)
| AInt (z : Z)                                      (* int *)
| AInt64 (z : Z)
| AFloat (f : spec_float)                           (* float64 *)
| AStr (s : string)
| ABytes (s : string)                               (* []byte *)
| ARaw (j : json)                                   (* json.RawMessage *)
| AStrs (l : list string)                           (* []string *)
| AList (l : list any)                              (* []any *)
| AMap (m : gmap string any)                        (* map[string]any *)
| AStruct (ty : string) (fs : list (string * any))  (* a struct, JSON field names *)
| ASlice (ty : string) (l : list any).              (* a slice of [ty] structs *)

(** A [[]byte] payload, up to the text: no bytes, not JSON, or a document. *)
Inductive doc := doc_empty | doc_invalid | doc_json (j : json).

(** [m[key]] on a [map[string]any]: [nil] when the key is absent. *)
Definition mget (m : gmap string any) (key : string) : any := default ANil (m !! key).

(** [v, _ := x.(string)] and the other comma-ok assertions. *)
Definition as_string (v : any) : option string :=
  match v with AStr s => Some s | _ => None end.
Definition as_bool (v : any) : option bool :=
  match v with ABool b => Some b | _ => None end.
Definition as_map (v : any) : option (gmap string any) :=
  match v with AMap m => Some m | _ => None end.
Definition as_list (v : any) : option (list any) :=
  match v with AList l => Some l | _ => None end.

(** ** float64 *)

(** The number of decimal digits of [n], 0 for 0. *)
Definition ndigits (n : Z) : Z :=
  if (n <=? 0)%Z then 0%Z else Z.of_nat (String.length (itoa n)).

(** strconv.ParseFloat on [m * 10^e], [m >= 0]: nearest even. *)
Definition decimal_to_float (neg : bool) (m e : Z) : spec_float :=
  if (m =? 0)%Z then S754_zero neg
  else if (310 <? ndigits m + e)%Z then S754_infinity neg
  else if (ndigits m + e <? -330)%Z then S754_zero neg
  else if (0 <=? e)%Z then
    match (m * 10 ^ e)%Z with
    | Zpos p => binary_round 53 1024 neg p 0
    | _ => S754_zero neg
    end
  else
    let '(q, e', loc) := SFdiv_core_binary 53 1024 m 0 (10 ^ (- e)) 0 in
    binary_round_aux 53 1024 neg q e' loc.

(** A number literal of the JSON grammar: sign, mantissa, decimal exponent. *)
Fixpoint take_digits (s : string) : string * string :=
  match s with
  | String c s' => if is_digit c then let '(d, r) := take_digits s' in (String c d, r)
                   else ("", s)
  | "" => ("", "")
  end.

Definition opt_sign (s : string) (plus : bool) : bool * string :=
  match s with
  | String c s' => if Ascii.eqb c "-" then (true, s')
                   else if plus && Ascii.eqb c "+" then (false, s') else (false, s)
  | "" => (false, "")
  end.

(** The literal at the head of [s], with its value and the rest. *)
Definition scan_number (s : string) : option (bool * Z * Z * string) :=
  let '(neg, s1) := opt_sign s false in
  let '(ip, s2) := take_digits s1 in
  match ip with
  | "" => None
  | String c more =>
      if Ascii.eqb c "0" && negb (String.eqb more "") then None
      else
        '(fp, s3) ← match s2 with
                    | String d s3 =>
                        if Ascii.eqb d "." then
                          let '(fp, s4) := take_digits s3 in
                          if String.eqb fp "" then None else Some (fp, s4)
                        else Some ("", s2)
                    | "" => Some ("", "")
                    end;
        '(ex, s5) ← match s3 with
                    | String d s4 =>
                        if Ascii.eqb d "e" || Ascii.eqb d "E" then
                          let '(eneg, s5) := opt_sign s4 true in
                          let '(ed, s6) := take_digits s5 in
                          if String.eqb ed "" then None
                          else v ← digits_value 0 ed;
                               Some (if eneg : bool then (- v)%Z else v, s6)
                        else Some (0%Z, s3)
                    | "" => Some (0%Z, "")
                    end;
        m ← digits_value 0 (ip +:+ fp);
        Some (neg, m, (ex - Z.of_nat (String.length fp))%Z, s5)
  end.

(** The float64 of a whole literal; [None] when it is out of range. *)
Definition lit_float (lit : string) : option spec_float :=
  '(neg, m, e, _) ← scan_number lit;
  match decimal_to_float neg m e with
  | S754_infinity _ => None
  | f => Some f
  end.

(** Go's [int(f)] on amd64: towards zero, and the least int out of range. *)
Definition float_to_int (f : spec_float) : Z :=
  match f with
  | S754_zero _ => 0
  | S754_finite sg m e =>
      let a := if (0 <=? e)%Z then (Zpos m * 2 ^ e)%Z else (Zpos m / 2 ^ (- e))%Z in
      let v := if sg then (- a)%Z else a in
      if (int_min <=? v)%Z && (v <=? int_max)%Z then v else int_min
  | _ => int_min
  end.

(** The decimal point position [k]: 10^(k-1) <= num/den < 10^k. *)
Fixpoint small_exp (fuel : nat) (num den : Z) (k : Z) : Z :=
  match fuel with
  | O => k
  | S n => if (den <=? num * 10)%Z then k else small_exp n (num * 10)%Z den (k - 1)%Z
  end.
Definition point_of (num den : Z) : Z :=
  if (den <=? num)%Z then ndigits (num / den) else small_exp 400 num den 0.

Definition sf_eqb (f g : spec_float) : bool :=
  match f, g with
  | S754_zero a, S754_zero b => Bool.eqb a b
  | S754_finite a m e, S754_finite b n k =>
      Bool.eqb a b && Pos.eqb m n && Z.eqb e k
  | _, _ => false
  end.

(** The shortest decimal [d * 10^(k-n)] that reads back as [f], nearest first. *)
Fixpoint shortest (fuel : nat) (f : spec_float) (num den k n : Z) : Z * Z :=
  let sn := if (n <=? k)%Z then num else (num * 10 ^ (n - k))%Z in
  let sd := if (n <=? k)%Z then (den * 10 ^ (k - n))%Z else den in
  let q := (sn / sd)%Z in
  let r := (sn mod sd)%Z in
  let '(c1, c2) := if (2 * r <=? sd)%Z then (q, q + 1)%Z else (q + 1, q)%Z in
  let reads d := sf_eqb (decimal_to_float false d (k - n)) f in
  match fuel with
  | O => (c1, n)
  | S fuel' =>
      if reads c1 then (c1, n) else if reads c2 then (c2, n)
      else shortest fuel' f num den k (n + 1)
  end.

Fixpoint zeros (n : nat) : string := match n with O => "" | S n => String "0" (zeros n) end.

(** encoding/json's floatEncoder. *)
Definition format_float (f : spec_float) : option string :=
  match f with
  | S754_zero sg => Some (if sg then "-0" else "0")
  | S754_finite sg m e =>
      let num := if (0 <=? e)%Z then (Zpos m * 2 ^ e)%Z else Zpos m in
      let den := if (0 <=? e)%Z then 1%Z else (2 ^ (- e))%Z in
      let k0 := point_of num den in
      let '(d0, n0) := shortest 17 (S754_finite false m e) num den k0 1 in
      (* a candidate rounded up to 10^n has one digit more *)
      let k := if (n0 <? ndigits d0)%Z then (k0 + 1)%Z else k0 in
      let ds := if (n0 <? ndigits d0)%Z then "1" else itoa d0 in
      let n := String.length ds in
      let body :=
        if (k <? -5)%Z || (21 <? k)%Z then
          let x := (k - 1)%Z in
          take_bytes 1 ds +:+ (if (1 <? n)%nat then "." +:+ drop_bytes 1 ds else "")
          +:+ "e" +:+ (if (x <? 0)%Z then "-" else "+")
          +:+ itoa (Z.abs x)
        else if (k <=? 0)%Z then "0." +:+ zeros (Z.to_nat (- k)) +:+ ds
        else if (Z.of_nat n <=? k)%Z then ds +:+ zeros (Z.to_nat k - n)
        else take_bytes (Z.to_nat k) ds +:+ "." +:+ drop_bytes (Z.to_nat k) ds
      in Some (if sg then "-" +:+ body else body)
  | _ => None
  end.

Example float_ex1 : (lit_float "0.1" ≫= format_float) = Some "0.1".
Proof. vm_compute. reflexivity. Qed.
Example float_ex2 : (lit_float "1e21" ≫= format_float) = Some "1e+21".
Proof. vm_compute. reflexivity. Qed.
Example float_ex3 : (lit_float "123456789012345678" ≫= format_float) = Some "123456789012345680".
Proof. vm_compute. reflexivity. Qed.
Example float_ex4 : (lit_float "-2.50e-9" ≫= format_float) = Some "-2.5e-9".
Proof. vm_compute. reflexivity. Qed.
Example float_ex5 : float_to_int <$> lit_float "-3.99" = Some (-3)%Z.
Proof. vm_compute. reflexivity. Qed.
Example float_ex6 : (lit_float "5e-324" ≫= format_float) = Some "5e-324".
Proof. vm_compute. reflexivity. Qed.

(** ** UTF-8 *)

Definition dq : ascii := byte 34.
Definition bsl : ascii := byte 92.
Definition between (lo hi : Z) (c : ascii) : bool := (lo <=? code c)%Z && (code c <=? hi)%Z.
Definition cont : ascii → bool := between 128 191.

(** Length of the valid multi-byte sequence at the head of [c s], 0 if none. *)
Definition utf8_len (c : ascii) (s : string) : nat :=
  match s with
  | String c2 s2 =>
      if between 194 223 c && cont c2 then 2
      else match s2 with
      | String c3 s3 =>
          let ok2 :=
            if between 224 224 c then between 160 191 c2
            else if between 237 237 c then between 128 159 c2
            else between 225 239 c && cont c2 in
          if ok2 && cont c3 then 3
          else match s3 with
          | String c4 _ =>
              let ok2 :=
                if between 240 240 c then between 144 191 c2
                else if between 244 244 c then between 128 143 c2
                else between 241 243 c && cont c2 in
              if ok2 && cont c3 && cont c4 then 4 else 0
          | "" => 0
          end
      | "" => 0
      end
  | "" => 0
  end%nat.

(** U+FFFD *)
Definition replacement : string := bytes [239; 191; 189].

Definition chr (n : Z) : ascii := ascii_of_nat (Z.to_nat n).

Definition encode_rune (r : Z) : string :=
  if (r <? 128)%Z then String (chr r) ""
  else if (r <? 2048)%Z then
    String (chr (192 + r / 64)) (String (chr (128 + r mod 64)) "")
  else if (r <? 65536)%Z then
    String (chr (224 + r / 4096)) (String (chr (128 + (r / 64) mod 64))
      (String (chr (128 + r mod 64)) ""))
  else
    String (chr (240 + r / 262144)) (String (chr (128 + (r / 4096) mod 64))
      (String (chr (128 + (r / 64) mod 64)) (String (chr (128 + r mod 64)) ""))).

(** Invalid bytes become U+FFFD, one each. *)
Fixpoint valid_utf8 (s : string) : string :=
  match s with
  | "" => ""
  | String c s1 =>
      if (code c <? 128)%Z then String c (valid_utf8 s1)
      else match utf8_len c s1, s1 with
      | 2%nat, String c2 s2 => String c (String c2 (valid_utf8 s2))
      | 3%nat, String c2 (String c3 s3) =>
          String c (String c2 (String c3 (valid_utf8 s3)))
      | 4%nat, String c2 (String c3 (String c4 s4)) =>
          String c (String c2 (String c3 (String c4 (valid_utf8 s4))))
      | _, _ => replacement +:+ valid_utf8 s1
      end
  end.

(** ** Text to document: json.Unmarshal's grammar *)

Definition hex_val (c : ascii) : option Z :=
  if is_digit c then Some (code c - 48)%Z
  else if between 97 102 c then Some (code c - 87)%Z
  else if between 65 70 c then Some (code c - 55)%Z
  else None.
Definition hex4 (a b c d : ascii) : option Z :=
  x ← hex_val a; y ← hex_val b; z ← hex_val c; w ← hex_val d;
  Some (((x * 16 + y) * 16 + z) * 16 + w)%Z.

Definition unescape (e : ascii) : option ascii :=
  if Ascii.eqb e dq || Ascii.eqb e bsl || Ascii.eqb e "/" then Some e
  else if Ascii.eqb e "b" then Some (byte 8)
  else if Ascii.eqb e "f" then Some (byte 12)
  else if Ascii.eqb e "n" then Some (byte 10)
  else if Ascii.eqb e "r" then Some (byte 13)
  else if Ascii.eqb e "t" then Some (byte 9)
  else None.

Definition prepend (t : string) (o : option (string * string)) : option (string * string) :=
  (λ '(a, r), (t +:+ a, r)) <$> o.

Definition high_surr (u : Z) : bool := (55296 <=? u)%Z && (u <? 56320)%Z.
Definition low_surr (u : Z) : bool := (56320 <=? u)%Z && (u <? 57344)%Z.

(** The string literal whose opening quote has been read. *)
Fixpoint scan_string (s : string) : option (string * string) :=
  match s with
  | "" => None
  | String c s1 =>
      if Ascii.eqb c dq then Some ("", s1)
      else if Ascii.eqb c bsl then
        match s1 with
        | "" => None
        | String e s2 =>
            if Ascii.eqb e "u" then
              match s2 with
              | String a (String b (String c' (String d s3))) =>
                  match hex4 a b c' d with
                  | None => None
                  | Some u =>
                      if high_surr u then
                        match s3 with
                        | String x (String y (String a2 (String b2 (String c2 (String d2 s4))))) =>
                            match (if Ascii.eqb x bsl && Ascii.eqb y "u"
                                   then hex4 a2 b2 c2 d2 else None) with
                            | Some v =>
                                if low_surr v then
                                  prepend (encode_rune
                                    (65536 + (u - 55296) * 1024 + (v - 56320)))
                                    (scan_string s4)
                                else prepend replacement (scan_string s3)
                            | None => prepend replacement (scan_string s3)
                            end
                        | _ => prepend replacement (scan_string s3)
                        end
                      else if low_surr u then prepend replacement (scan_string s3)
                      else prepend (encode_rune u) (scan_string s3)
                  end
              | _ => None
              end
            else match unescape e with
                 | Some x => prepend (String x "") (scan_string s2)
                 | None => None
                 end
        end
      else if (code c <? 32)%Z then None
      else if (code c <? 128)%Z then prepend (String c "") (scan_string s1)
      else match utf8_len c s1, s1 with
      | 2%nat, String c2 s2 => prepend (String c (String c2 "")) (scan_string s2)
      | 3%nat, String c2 (String c3 s3) =>
          prepend (String c (String c2 (String c3 ""))) (scan_string s3)
      | 4%nat, String c2 (String c3 (String c4 s4)) =>
          prepend (String c (String c2 (String c3 (String c4 "")))) (scan_string s4)
      | _, _ => prepend replacement (scan_string s1)
      end
  end.

Fixpoint skip_ws (s : string) : string :=
  match s with
  | String c s' =>
      if Ascii.eqb c " " || Ascii.eqb c (byte 9) || Ascii.eqb c (byte 10)
         || Ascii.eqb c (byte 13)
      then skip_ws s' else s
  | "" => ""
  end.

Definition head_is (c : ascii) (s : string) : option string :=
  match s with
  | String d s' => if Ascii.eqb c d then Some s' else None
  | "" => None
  end.

(** A value, the elements of an array after its bracket, the members of an
    object after its brace.  Every second call consumes a byte, so twice the
    length is fuel enough. *)
Fixpoint parse_value (fuel : nat) (s : string) : option (json * string) :=
  match fuel with
  | O => None
  | S n =>
      let s := skip_ws s in
      match strip_prefix "null" s, strip_prefix "true" s, strip_prefix "false" s with
      | Some r, _, _ => Some (JNull, r)
      | _, Some r, _ => Some (JBool true, r)
      | _, _, Some r => Some (JBool false, r)
      | _, _, _ =>
      match s with
      | "" => None
      | String c s1 =>
          if Ascii.eqb c dq then '(t, r) ← scan_string s1; Some (JStr t, r)
          else if Ascii.eqb c "[" then
            match head_is "]" (skip_ws s1) with
            | Some r => Some (JArr [], r)
            | None => '(l, r) ← parse_elems n s1; Some (JArr l, r)
            end
          else if Ascii.eqb c "{" then
            match head_is "}" (skip_ws s1) with
            | Some r => Some (JObj [], r)
            | None => '(l, r) ← parse_members n s1; Some (JObj l, r)
            end
          else
            '(_, _, _, r) ← scan_number s;
            Some (JNum (take_bytes (String.length s - String.length r) s), r)
      end
      end
  end
with parse_elems (fuel : nat) (s : string) : option (list json * string) :=
  match fuel with
  | O => None
  | S n =>
      '(v, r) ← parse_value n s;
      let r := skip_ws r in
      match head_is "]" r, head_is "," r with
      | Some r', _ => Some ([v], r')
      | _, Some r' => '(l, r'') ← parse_elems n r'; Some (v :: l, r'')
      | _, _ => None
      end
  end
with parse_members (fuel : nat) (s : string) : option (list (string * json) * string) :=
  match fuel with
  | O => None
  | S n =>
      s1 ← head_is dq (skip_ws s);
      '(k, r) ← scan_string s1;
      r ← head_is ":" (skip_ws r);
      '(v, r) ← parse_value n r;
      let r := skip_ws r in
      match head_is "}" r, head_is "," r with
      | Some r', _ => Some ([(k, v)], r')
      | _, Some r' => '(l, r'') ← parse_members n r'; Some ((k, v) :: l, r'')
      | _, _ => None
      end
  end.

(** The whole text is one document. *)
Definition parse_json (s : string) : option json :=
  '(v, r) ← parse_value (2 * String.length s + 2) s;
  if String.eqb (skip_ws r) "" then Some v else None.

(** The payload some bytes are. *)
Definition doc_of_text (s : string) : doc :=
  if String.eqb s "" then doc_empty
  else match parse_json s with Some j => doc_json j | None => doc_invalid end.

(** ** Document to text: json.Marshal *)

Definition hex_digit (n : Z) : ascii := if (n <? 10)%Z then chr (48 + n) else chr (87 + n).
Definition u00 (c : ascii) : string :=
  String bsl ("u00" +:+ String (hex_digit (code c / 16)) (String (hex_digit (code c mod 16)) "")).

Definition escape_char (c : ascii) : string :=
  let e x := String bsl (String x "") in
  if Ascii.eqb c dq || Ascii.eqb c bsl then e c
  else if Ascii.eqb c (byte 8) then e "b"%char
  else if Ascii.eqb c (byte 12) then e "f"%char
  else if Ascii.eqb c (byte 10) then e "n"%char
  else if Ascii.eqb c (byte 13) then e "r"%char
  else if Ascii.eqb c (byte 9) then e "t"%char
  else if (code c <? 32)%Z || Ascii.eqb c "<" || Ascii.eqb c ">" || Ascii.eqb c "&" then u00 c
  else String c "".

(** U+2028 and U+2029 are escaped too. *)
Fixpoint escape_text (s : string) : string :=
  match s with
  | "" => ""
  | String c s1 =>
      match strip_prefix (bytes [226; 128; 168]) s, strip_prefix (bytes [226; 128; 169]) s, s1 with
      | Some _, _, String _ (String _ s3) => String bsl "u2028" +:+ escape_text s3
      | _, Some _, String _ (String _ s3) => String bsl "u2029" +:+ escape_text s3
      | _, _, _ => escape_char c +:+ escape_text s1
      end
  end.

Definition quoted (s : string) : string :=
  String dq (escape_text s +:+ String dq "").

Fixpoint print_json (j : json) : string :=
  match j with
  | JNull => "null"
  | JBool b => if b then "true" else "false"
  | JNum lit => lit
  | JStr s => quoted s
  | JArr l => "[" +:+ join (map print_json l) "," +:+ "]"
  | JObj fs => "{" +:+ join (map (λ '(k, v), quoted k +:+ ":" +:+ print_json v) fs) "," +:+ "}"
  end.

(** ** Standard base64, for [[]byte] values *)

Definition b64_char (n : Z) : ascii :=
  if (n <? 26)%Z then chr (65 + n) else if (n <? 52)%Z then chr (71 + n)
  else if (n <? 62)%Z then chr (n - 4) else if (n =? 62)%Z then "+"%char else "/"%char.

Fixpoint base64 (s : string) : string :=
  match s with
  | String a (String b (String c r)) =>
      let n := ((code a * 256 + code b) * 256 + code c)%Z in
      String (b64_char (n / 262144)) (String (b64_char ((n / 4096) mod 64))
        (String (b64_char ((n / 64) mod 64)) (String (b64_char (n mod 64)) (base64 r))))
  | String a (String b "") =>
      let n := (code a * 256 + code b)%Z in
      String (b64_char (n / 1024)) (String (b64_char ((n / 16) mod 64))
        (String (b64_char ((n mod 16) * 4)) "="))
  | String a "" =>
      String (b64_char (code a / 4)) (String (b64_char ((code a mod 4) * 16)) "==")
  | "" => ""
  end.

(** ** Values to documents *)

Definition opt_map {A B} (f : A → option B) : list A → option (list B) :=
  fold_right (λ a acc, b ← f a; bs ← acc; Some (b :: bs)) (Some []).

Lemma opt_map_cons {A B} (f : A → option B) a l :
  opt_map f (a :: l) = b ← f a; bs ← opt_map f l; Some (b :: bs).
Proof. reflexivity. Qed.

Lemma opt_map_In {A B} (f : A → option B) l bs b :
  opt_map f l = Some bs → b ∈ bs → ∃ a, a ∈ l ∧ f a = Some b.
Proof.
  revert bs. induction l as [|a l IH]; simpl; intros bs; [by intros [= <-] ?%elem_of_nil|].
  destruct (f a) as [b'|] eqn:E; simpl; [|done].
  destruct (opt_map f l) as [bs'|] eqn:E'; simpl; [|done]. intros [= <-].
  intros [->|Hb]%elem_of_cons; [exists a; split; [left|done]|].
  destruct (IH _ eq_refl Hb) as (a' & ? & ?). exists a'. split; [by right|done].
Qed.

(** Object members are written in the order of their keys. *)
Fixpoint insert_member (k : string) (v : json) (l : list (string * json)) :=
  match l with
  | [] => [(k, v)]
  | (k', v') :: l' =>
      if String.ltb k k' then (k, v) :: l else (k', v') :: insert_member k v l'
  end.

(** json.Marshal; fails on NaN and the infinities. *)
Fixpoint to_json (v : any) : option json :=
  match v with
  | ANil => Some JNull
  | ABool b => Some (JBool b)
  | AInt z | AInt64 z => Some (JNum (itoa z))
  | AFloat f => JNum <$> format_float f
  | AStr s => Some (JStr (valid_utf8 s))
  | ABytes s => Some (JStr (base64 s))
  | ARaw j => Some j
  | AStrs l => Some (JArr (map (λ s, JStr (valid_utf8 s)) l))
  | AList l | ASlice _ l => JArr <$> opt_map to_json l
  | AMap m =>
      JObj <$> map_fold (λ k x acc,
        ms ← acc; j ← to_json x; Some (insert_member (valid_utf8 k) j ms)) (Some []) m
  | AStruct _ fs =>
      JObj <$> opt_map (λ '(k, x), (λ j, (k, j)) <$> to_json x) fs
  end.

(** ** Documents to values *)

(** json.Unmarshal into an [any]; the last of two equal keys wins. *)
Fixpoint of_json (j : json) : option any :=
  match j with
  | JNull => Some ANil
  | JBool b => Some (ABool b)
  | JNum lit => AFloat <$> lit_float lit
  | JStr s => Some (AStr s)
  | JArr l => AList <$> opt_map of_json l
  | JObj fs =>
      AMap <$> fold_left (λ acc '(k, x),
        m ← acc; v ← of_json x; Some (<[k := v]> m)) fs (Some ∅)
  end.

Definition json_error : string := "invalid json".

Definition unmarshal (d : doc) : result json :=
  match d with doc_json j => Ok j | _ => Err json_error end.

(** [var m map[string]any; json.Unmarshal(data, &m)]: [null] leaves the nil map. *)
Definition decode_map (j : json) : result (gmap string any) :=
  match j with
  | JNull => Ok ∅
  | JObj _ => match of_json j with Some (AMap m) => Ok m | _ => Err json_error end
  | _ => Err json_error
  end.
Definition unmarshal_map (d : doc) : result (gmap string any) :=
  j ← unmarshal d; decode_map j.

Definition decode_any (j : json) : result any := of_option json_error (of_json j).

(** [[]map[string]any] *)
Definition decode_maps (j : json) : result (list (gmap string any)) :=
  match j with
  | JNull => Ok []
  | JArr l => of_option json_error
      (opt_map (λ x, match decode_map x with Ok m => Some m | Err _ => None end) l)
  | _ => Err json_error
  end.

Definition marshal (v : any) : result json := of_option "unsupported value" (to_json v).

(** *** Struct fields

    A member is a field's when their names fold to the same text; members are
    taken in order, so the last one wins; [null] leaves a string, number or
    bool as it is. *)

Section fields.
Context {A : Type}.
Variable step : A → json → result A.

Definition fld (name : string) (init : A) (fs : list (string * json)) : result A :=
  fold_left (λ acc '(k, x),
    a ← acc; if EqualFold k name then step a x else Ok a) fs (Ok init).
End fields.

Definition fld_string : string → list (string * json) → result string :=
  λ name, fld (λ a x, match x with JStr s => Ok s | JNull => Ok a | _ => Err json_error end)
    name "".
Definition fld_bool : string → list (string * json) → result bool :=
  λ name, fld (λ a x, match x with JBool b => Ok b | JNull => Ok a | _ => Err json_error end)
    name false.
Definition fld_int : string → list (string * json) → result Z :=
  λ name, fld (λ a x, match x with JNum l => Atoi l | JNull => Ok a | _ => Err json_error end)
    name 0%Z.
Definition fld_any : string → list (string * json) → result any :=
  λ name, fld (λ _ x, decode_any x) name ANil.
(** A json.RawMessage field; [None] is the nil one. *)
Definition fld_raw : string → list (string * json) → result (option json) :=
  λ name, fld (λ _ x, Ok (Some x)) name None.
(** A field holding a slice; [null] makes it nil. *)
Definition fld_slice {B} (dec : json → result B) :
    string → list (string * json) → result (list B) :=
  λ name, fld (λ _ x, match x with
    | JArr l => of_option json_error
        (opt_map (λ y, match dec y with Ok b => Some b | Err _ => None end) l)
    | JNull => Ok []
    | _ => Err json_error end) name [].

(** Go's zero time.Time, in nanoseconds from 1970. *)
Definition zero_time : Z := -62135596800000000000.

(** A time.Time field: absent and [null] leave the zero time. *)
Definition fld_time (time_parse : string → result Z) : string → list (string * json) → result Z :=
  λ name, fld (λ a x, match x with
    | JStr s => time_parse s | JNull => Ok a | _ => Err json_error end) name zero_time.

(** The members of a struct's document; [null] decodes as no member. *)
Definition members (j : json) : result (list (string * json)) :=
  match j with JObj fs => Ok fs | JNull => Ok [] | _ => Err json_error end.

Definition raw_any (o : option json) : any :=
  match o with Some j => ARaw j | None => ANil end.

(** The value of an object literal of [map[string]any]. *)
Definition amap (l : list (string * any)) : gmap string any := list_to_map l.

(** A key no member has is absent from the decoded map. *)
Lemma decode_map_absent (fs : list (string * json)) (k : string) (m : gmap string any) :
  decode_map (JObj fs) = Ok m → k ∉ map fst fs → m !! k = None.
Proof.
  unfold decode_map, of_json. fold of_json.
  match goal with |- context [fold_left ?f fs _] => set (step := f) end.
  assert (Hnone : ∀ fs, fold_left step fs None = None) by (induction fs0 as [|[]]; done).
  assert (H : ∀ fs m0 m1, fold_left step fs (Some m0) = Some m1 → k ∉ map fst fs →
    m1 !! k = m0 !! k).
  { induction fs0 as [|[k' x] fs' IH]; simpl; intros m0 m1; [by intros [= ->]|].
    destruct (of_json x) as [v|]; simpl; [|by rewrite Hnone].
    intros Hf [Hk Hin]%not_elem_of_cons. rewrite (IH _ _ Hf Hin). by apply lookup_insert_ne. }
  destruct (fold_left step fs (Some ∅)) as [m1|] eqn:E; simpl; [|done].
  intros [= <-] Hk. rewrite (H _ _ _ E Hk). apply lookup_empty.
Qed.

(** *** What a map keeps through a document

    The members of a marshalled map are its entries, each key once; decoding gives
    every key what its value decodes to. *)
Lemma insert_member_Permutation k v l : insert_member k v l ≡ₚ (k, v) :: l.
Proof.
  induction l as [|[k' v'] l IH]; simpl; [done|]. destruct (String.ltb k k'); [done|].
  rewrite IH. constructor.
Qed.

(** A text that marshalling writes as it is. *)
Definition plain_text (s : string) : bool := valid_utf8 s =? s.

Lemma to_json_map (m : gmap string any) j :
  (∀ k, is_Some (m !! k) → plain_text k = true) →
  to_json (AMap m) = Some j →
  ∃ ms, j = JObj ms ∧ NoDup (map fst ms) ∧
    (∀ k x, (k, x) ∈ ms ↔ ∃ v, m !! k = Some v ∧ to_json v = Some x) ∧
    ∀ k v, m !! k = Some v → is_Some (to_json v).
Proof.
  intros Hkeys. simpl. match goal with |- context [map_fold ?f _ m] => set (step := f) end.
  intros H. apply fmap_Some in H as (ms & Hms & ->). exists ms. split; [done|].
  revert Hkeys ms Hms.
  apply (map_fold_weak_ind (λ r (m : gmap string any),
    (∀ k, is_Some (m !! k) → plain_text k = true) → ∀ ms, r = Some ms →
    NoDup (map fst ms) ∧ (∀ k x, (k, x) ∈ ms ↔ ∃ v, m !! k = Some v ∧ to_json v = Some x) ∧
    ∀ k v, m !! k = Some v → is_Some (to_json v))).
  - intros _ ms [= <-]. split; [constructor|]. split.
    + intros k x. rewrite elem_of_nil.
      split; [done|]. intros (v & Hv & _). by rewrite lookup_empty in Hv.
    + intros k v Hv. by rewrite lookup_empty in Hv.
  - intros k v m' r Hk IH Hkeys ms. unfold step.
    destruct r as [ms0|]; simpl; [|done]. destruct (to_json v) as [x|] eqn:Hx; simpl; [|done].
    intros [= <-].
    assert (Hutf : valid_utf8 k = k).
    { apply String.eqb_eq, Hkeys. rewrite lookup_insert_eq. by eexists. }
    rewrite Hutf. destruct (IH (λ k' H, Hkeys k' (proj2 (lookup_insert_is_Some' _ _ _ _) (or_intror H)))
      ms0 eq_refl) as (Hnd & Hin & Hall).
    split_and!.
    + rewrite (Permutation_map fst (insert_member_Permutation k x ms0)). simpl.
      constructor; [|done]. intros ([k' x'] & Hk' & Hx')%list_elem_of_fmap. simpl in Hk'. subst k'.
      apply Hin in Hx' as (v' & Hv' & _). congruence.
    + intros k' x'. rewrite (insert_member_Permutation k x ms0), elem_of_cons, Hin.
      destruct (decide (k = k')) as [<-|Hne].
      * rewrite lookup_insert_eq. split.
        { intros [[= ->]|(v' & Hv' & _)]; [by eexists|congruence]. }
        intros (v' & [= <-] & Hx'). left. congruence.
      * rewrite lookup_insert_ne by done. split; [|by right].
        intros [[= -> ->]|H]; done.
    + intros k' v'. destruct (decide (k = k')) as [<-|Hne].
      * rewrite lookup_insert_eq. intros [= <-]. by eexists.
      * rewrite lookup_insert_ne by done. apply Hall.
Qed.

(** A map is a document when its values are. *)
Lemma to_json_map_ok (m : gmap string any) :
  (∀ k v, m !! k = Some v → is_Some (to_json v)) → is_Some (to_json (AMap m)).
Proof.
  intros H. simpl. rewrite fmap_is_Some. revert H.
  apply (map_fold_weak_ind (λ r (m : gmap string any), (∀ k v, m !! k = Some v → is_Some (to_json v)) → is_Some r)).
  - by eexists.
  - intros k v m' r Hk IH H. destruct IH as [ms ->].
    + intros k' v' Hv'. apply (H k'). rewrite lookup_insert_ne; [done|]. intros <-. congruence.
    + destruct (H k v) as [x ->]; [apply lookup_insert_eq|]. by eexists.
Qed.

Lemma decode_map_member ms m' :
  decode_map (JObj ms) = Ok m' → NoDup (map fst ms) →
  ∀ k x, (k, x) ∈ ms → ∃ v, of_json x = Some v ∧ m' !! k = Some v.
Proof.
  unfold decode_map, of_json. fold of_json.
  match goal with |- context [fold_left ?f ms _] => set (step := f) end.
  assert (Hnone : ∀ fs, fold_left step fs None = None) by (induction fs as [|[]]; done).
  assert (H : ∀ fs m0 m1, fold_left step fs (Some m0) = Some m1 → NoDup (map fst fs) →
    (∀ k x, (k, x) ∈ fs → ∃ v, of_json x = Some v ∧ m1 !! k = Some v) ∧
    ∀ k, k ∉ map fst fs → m1 !! k = m0 !! k).
  { induction fs as [|[k' x'] fs' IH]; simpl; intros m0 m1.
    - intros [= ->] _. split; [intros ? ? ?%elem_of_nil; done|done].
    - destruct (of_json x') as [v'|] eqn:Hx'; simpl; [|by rewrite Hnone].
      intros Hf [Hk' Hnd]%NoDup_cons. destruct (IH _ _ Hf Hnd) as [IH1 IH2]. split.
      + intros k x [[= -> ->]|Hin]%elem_of_cons; [|by apply IH1].
        exists v'. split; [done|]. rewrite IH2 by done. apply lookup_insert_eq.
      + intros k [Hk Hin]%not_elem_of_cons. rewrite IH2 by done. by apply lookup_insert_ne. }
  destruct (fold_left step ms (Some ∅)) as [m1|] eqn:E; simpl; [|done].
  intros [= <-] Hnd. by apply (H _ _ _ E Hnd).
Qed.

Lemma map_roundtrip (m m' : gmap string any) j :
  (∀ k, is_Some (m !! k) → plain_text k = true) →
  marshal (AMap m) = Ok j → decode_map j = Ok m' →
  ∀ k, m' !! k = (m !! k ≫= to_json) ≫= of_json.
Proof.
  intros Hkeys Hj Hm' k. apply of_option_Ok in Hj.
  destruct (to_json_map m j Hkeys Hj) as (ms & -> & Hnd & Hin & Hall).
  destruct (m !! k) as [v|] eqn:Hv; simpl.
  - destruct (Hall _ _ Hv) as [x Hx]. rewrite Hx. simpl.
    destruct (decode_map_member _ _ Hm' Hnd k x) as (v' & -> & Hk); [|done].
    apply Hin. by eexists.
  - apply (decode_map_absent _ _ _ Hm'). intros ([k' x] & Hk' & Hx)%list_elem_of_fmap.
    simpl in Hk'. subst k'. apply Hin in Hx as (v & Hv' & _). congruence.
Qed.

(** Object literals: the first of two equal keys (a literal has none). *)
Lemma amap_cons k v l k' :
  amap ((k, v) :: l) !! k' = if k =? k' then Some v else amap l !! k'.
Proof.
  unfold amap. simpl. destruct (String.eqb_spec k k') as [->|];
    [apply lookup_insert_eq|by apply lookup_insert_ne].
Qed.

Fixpoint assoc (k : string) (l : list (string * any)) : option any :=
  match l with
  | [] => None
  | (k', v) :: l' => if k' =? k then Some v else assoc k l'
  end.

Lemma amap_assoc l k : amap l !! k = assoc k l.
Proof.
  induction l as [|[k' v] l IH]; [apply lookup_empty|]. rewrite amap_cons. simpl. by rewrite IH.
Qed.

Definition plain_keys (m : gmap string any) : Prop :=
  ∀ k, is_Some (m !! k) → plain_text k = true.

Lemma plain_insert k v m : plain_text k = true → plain_keys m → plain_keys (<[k:=v]> m).
Proof. intros Hk Hm k'. rewrite lookup_insert_is_Some'. intros [<-|H]; auto. Qed.

Lemma plain_amap l : forallb (λ kv, plain_text kv.1) l = true → plain_keys (amap l).
Proof.
  induction l as [|[k v] l IH]; simpl; [by intros _ k [? H]; rewrite lookup_empty in H|].
  intros [Hk Hl]%andb_prop. by apply plain_insert; [|apply IH].
Qed.

(** A string member keeps its text, made valid UTF-8. *)
Lemma decoded_string (plan m : gmap string any) payload k s :
  plain_keys plan → marshal (AMap plan) = Ok payload → decode_map payload = Ok m →
  plan !! k = Some (AStr s) → mget m k = AStr (valid_utf8 s).
Proof.
  intros Hk Hp Hm Hs. unfold mget. rewrite (map_roundtrip _ _ _ Hk Hp Hm), Hs. done.
Qed.

(** ** Sanity checks *)

Definition dquote_str (s : string) : string :=
  (fix go s := match s with
               | "" => ""
               | String c s' => String (if Ascii.eqb c "'" then dq else c) (go s')
               end) s.

Example parse_ex :
  parse_json (dquote_str "{'a': [1, -2.5e3, true, null], 'b' :{'c':'x\u0041\n'}} ")
  = Some (JObj [("a", JArr [JNum "1"; JNum "-2.5e3"; JBool true; JNull]);
                ("b", JObj [("c", JStr ("xA" +:+ bytes [10]))])]).
Proof. vm_compute. reflexivity. Qed.

Example marshal_ex :
  print_json <$> (to_json (AMap (amap [("b", AStr "<x>"); ("a", AList [AInt 3; ABool true])])))
  = Some (dquote_str "{'a':[3,true],'b':'\u003cx\u003e'}").
Proof. vm_compute. reflexivity. Qed.

Example unmarshal_ex :
  (match parse_json (dquote_str "{'k':1,'k':'v'}") ≫= of_json with
   | Some (AMap m) => Some (mget m "k") | _ => None end) = Some (AStr "v").
Proof. vm_compute. reflexivity. Qed.

(** ** Lemmas *)
Lemma mget_amap_cons k v l : mget (amap ((k, v) :: l)) k = v.
Proof. unfold mget, amap. simpl. by rewrite lookup_insert_eq. Qed.

Lemma mget_insert m k v : mget (<[k := v]> m) k = v.
Proof. unfold mget. by rewrite lookup_insert_eq. Qed.

Lemma mget_insert_ne m k k' v : k ≠ k' → mget (<[k := v]> m) k' = mget m k'.
Proof. intros. unfold mget. by rewrite lookup_insert_ne. Qed.

Lemma opt_map_Some {A B} (f : A → option B) l l' :
  opt_map f l = Some l' ↔ Forall2 (λ a b, f a = Some b) l l'.
Proof.
  revert l'. induction l as [|a l IH]; intros l'; simpl.
  - split; [intros [= <-]; constructor|by inversion 1].
  - destruct (f a) as [b|] eqn:E; simpl; [|split; [done|by inversion 1; simplify_eq]].
    fold (opt_map f l). destruct (opt_map f l) as [bs|] eqn:E'; simpl.
    + split.
      * intros [= <-]. constructor; [done|]. by apply IH.
      * inversion 1; simplify_eq. f_equal. f_equal.
        apply (inj Some). by apply IH.
    + split; [done|]. inversion 1; simplify_eq. by apply IH in H4.
Qed.

#[export] Hint Rewrite mget_insert : go.
