(* ===== verification/Digest.v ===== *)
(** * Digest: crypto/sha1, crypto/sha256, crypto/hmac and encoding/hex

    The digests of the Go standard library the program uses, executable, on words of
    32 bits held in Z: of artifacts, approved steps, events and tokens, of WebSocket
    keys, and of the queries the service graph names.  The examples are the
    published test vectors. *)

From S2P Require Import Prelude GoStrings Json.

Local Open Scope string_scope.
Local Open Scope list_scope.

(** ** Words and bytes *)

Definition w32 (z : Z) : Z := Z.land z (2 ^ 32 - 1).
Definition rotl (n x : Z) : Z := w32 (Z.lor (Z.shiftl x n) (Z.shiftr x (32 - n))).
Definition rotr (n x : Z) : Z := rotl (32 - n) x.
Definition not32 (x : Z) : Z := Z.lxor x (2 ^ 32 - 1).

(** The big-endian number some bytes write, and [n] bytes of a number. *)
Definition big_endian (l : list Z) : Z := fold_left (λ acc b, Z.shiftl acc 8 + b)%Z l 0%Z.
Fixpoint be_bytes (n : nat) (z : Z) : list Z :=
  match n with O => [] | S n' => be_bytes n' (Z.shiftr z 8) ++ [Z.land z 255] end.

(** A message, a one bit, zeros, and its length in bits: whole blocks of 64 bytes. *)
Definition sha_pad (msg : list Z) : list Z :=
  let len := Z.of_nat (length msg) in
  msg ++ [128%Z] ++ repeat 0%Z (Z.to_nat ((55 - len) mod 64)) ++ be_bytes 8 (8 * len).

(** The pieces of length [k]. *)
Fixpoint chunks {A} (k fuel : nat) (l : list A) : list (list A) :=
  match fuel, l with
  | S fuel', _ :: _ => take k l :: chunks k fuel' (drop k l)
  | _, _ => []
  end.
Definition blocks (s : string) : list (list Z) :=
  let padded := sha_pad (map code (chars s)) in chunks 64 (length padded) padded.

Definition of_words (l : list Z) : string := fold_right (λ b s, String (chr b) s) "" (flat_map (be_bytes 4) l).

(** The words of a block: sixteen, and [n] more that [next] makes of those before,
    the newest first. *)
Definition schedule (next : list Z → Z) (n : nat) (block : list Z) : list Z :=
  rev (Nat.iter n (λ ws, next ws :: ws) (rev (map big_endian (chunks 4 16 block)))).
Definition word (ws : list Z) (i : nat) : Z := nth i ws 0%Z.

(** ** SHA-1 *)

Definition sha1_next (ws : list Z) : Z :=
  rotl 1 (Z.lxor (Z.lxor (word ws 2) (word ws 7)) (Z.lxor (word ws 13) (word ws 15))).

Definition sha1_round (h : list Z) (iw : nat * Z) : list Z :=
  let '(i, w) := iw in
  let '(a, b, c, d, e) := (word h 0, word h 1, word h 2, word h 3, word h 4) in
  let '(f, k) :=
    if (i <? 20)%nat then (Z.lor (Z.land b c) (Z.land (not32 b) d), 1518500249%Z)
    else if (i <? 40)%nat then (Z.lxor (Z.lxor b c) d, 1859775393%Z)
    else if (i <? 60)%nat
         then (Z.lor (Z.lor (Z.land b c) (Z.land b d)) (Z.land c d), 2400959708%Z)
         else (Z.lxor (Z.lxor b c) d, 3395469782%Z) in
  [w32 (rotl 5 a + f + e + k + w); a; rotl 30 b; c; d].

Definition add_words (h h' : list Z) : list Z := zip_with (λ x y, w32 (x + y)) h h'.

Definition sha1_block (h block : list Z) : list Z :=
  add_words h (fold_left sha1_round (combine (seq 0 80) (schedule sha1_next 64 block)) h).

Definition sha1 (s : string) : string :=
  of_words (fold_left sha1_block (blocks s)
    [1732584193; 4023233417; 2562383102; 271733878; 3285377520]%Z).

(** ** SHA-256 *)

Definition sha256_keys : list Z :=
  [1116352408; 1899447441; 3049323471; 3921009573; 961987163; 1508970993; 2453635748;
   2870763221; 3624381080; 310598401; 607225278; 1426881987; 1925078388; 2162078206;
   2614888103; 3248222580; 3835390401; 4022224774; 264347078; 604807628; 770255983;
   1249150122; 1555081692; 1996064986; 2554220882; 2821834349; 2952996808; 3210313671;
   3336571891; 3584528711; 113926993; 338241895; 666307205; 773529912; 1294757372;
   1396182291; 1695183700; 1986661051; 2177026350; 2456956037; 2730485921; 2820302411;
   3259730800; 3345764771; 3516065817; 3600352804; 4094571909; 275423344; 430227734;
   506948616; 659060556; 883997877; 958139571; 1322822218; 1537002063; 1747873779;
   1955562222; 2024104815; 2227730452; 2361852424; 2428436474; 2756734187; 3204031479;
   3329325298]%Z.

Definition sha256_next (ws : list Z) : Z :=
  let s0 := λ x, Z.lxor (Z.lxor (rotr 7 x) (rotr 18 x)) (Z.shiftr x 3) in
  let s1 := λ x, Z.lxor (Z.lxor (rotr 17 x) (rotr 19 x)) (Z.shiftr x 10) in
  w32 (s1 (word ws 1) + word ws 6 + s0 (word ws 14) + word ws 15).

Definition sha256_round (h : list Z) (kw : Z * Z) : list Z :=
  let '(k, w) := kw in
  let '(a, b, c, d, e, f, g, i) :=
    (word h 0, word h 1, word h 2, word h 3, word h 4, word h 5, word h 6, word h 7) in
  let S1 := Z.lxor (Z.lxor (rotr 6 e) (rotr 11 e)) (rotr 25 e) in
  let ch := Z.lxor (Z.land e f) (Z.land (not32 e) g) in
  let t1 := (i + S1 + ch + k + w)%Z in
  let S0 := Z.lxor (Z.lxor (rotr 2 a) (rotr 13 a)) (rotr 22 a) in
  let maj := Z.lxor (Z.lxor (Z.land a b) (Z.land a c)) (Z.land b c) in
  [w32 (t1 + S0 + maj); a; b; c; w32 (d + t1); e; f; g].

Definition sha256_block (h block : list Z) : list Z :=
  add_words h (fold_left sha256_round (combine sha256_keys (schedule sha256_next 48 block)) h).

Definition sha256 (s : string) : string :=
  of_words (fold_left sha256_block (blocks s)
    [1779033703; 3144134277; 1013904242; 2773480762; 1359893119; 2600822924; 528734635;
     1541459225]%Z).

(** ** hex.EncodeToString *)

Fixpoint hex (s : string) : string :=
  match s with
  | "" => ""
  | String c s' => String (hex_digit (Z.shiftr (code c) 4)) (String (hex_digit (Z.land (code c) 15)) (hex s'))
  end.

Definition sha256_hex (s : string) : string := hex (sha256 s).

(** ** crypto/hmac, of SHA-256 *)

Definition xor_bytes (pad : Z) (s : string) : string :=
  fold_right (λ c t, String (chr (Z.lxor (code c) pad)) t) "" (chars s).
Fixpoint zero_bytes (n : nat) : string :=
  match n with O => "" | S n' => String (byte 0) (zero_bytes n') end.
(** A key longer than a block is its digest; it is filled up with zeros. *)
Definition hmac_key (key : string) : string :=
  let key := if (64 <? String.length key)%nat then sha256 key else key in
  key +:+ zero_bytes (64 - String.length key).
Definition hmac_sha256 (key msg : string) : string :=
  let k := hmac_key key in
  sha256 (xor_bytes 92 k +:+ sha256 (xor_bytes 54 k +:+ msg)).

#[global] Arguments hmac_sha256 : simpl never.
#[global] Arguments sha1 : simpl never.
#[global] Arguments sha256 : simpl never.
#[global] Arguments sha256_hex : simpl never.

Example sha1_abc : hex (sha1 "abc") = "a9993e364706816aba3e25717850c26c9cd0d89d".
Proof. vm_compute. reflexivity. Qed.
Example sha1_two_blocks :
  hex (sha1 "abcdbcdecdefdefgefghfghighijhijkijkljklmklmnlmnomnopnopq")
  = "84983e441c3bd26ebaae4aa1f95129e5e54670f1".
Proof. vm_compute. reflexivity. Qed.
Example sha256_empty :
  sha256_hex "" = "e3b0c44298fc1c149afbf4c8996fb92427ae41e4649b934ca495991b7852b855".
Proof. vm_compute. reflexivity. Qed.
Example sha256_abc :
  sha256_hex "abc" = "ba7816bf8f01cfea414140de5dae2223b00361a396177a9cb410ff61f20015ad".
Proof. vm_compute. reflexivity. Qed.
Example sha256_two_blocks :
  sha256_hex "abcdbcdecdefdefgefghfghighijhijkijkljklmklmnlmnomnopnopq"
  = "248d6a61d20638b8e5c026930c3e6039a33ce45964ff2167f6ecedd419db06c1".
Proof. vm_compute. reflexivity. Qed.
(** RFC 4231, test case 2. *)
Example hmac_jefe : hex (hmac_sha256 "Jefe" "what do ya want for nothing?")
  = "5bdcc146bf60754e6a042426089575c75a003f089d2739839dec58b964ec3843".
Proof. vm_compute. reflexivity. Qed.
