(* ===== verification/ContextRef.v ===== *)
(** * ContextRef: what a request is about, and whose it is

    The context reference (tenant, environment, cluster, ...) every plan,
    schedule and tool call carries, its validation levels, how it is read from
    headers, JSON maps and webhook payloads, and the tenant filters of the list
    endpoints (internal/web/context_validate.go, read_policy.go,
    tenancy_helpers.go, http.go; internal/tools/validate.go;
    internal/workflows/context.go). *)

From S2P Require Import Prelude GoStrings Json.

Local Open Scope string_scope.

Record ContextRef := mkContextRef {
  TenantID : string;
  Environment : string;
  ClusterID : string;
  Namespace : string;
  AWSAccountID : string;
  Region : string;
  ArgoCDProject : string;
  GrafanaOrgID : string }.

Definition empty_ref : ContextRef := mkContextRef "" "" "" "" "" "" "" "".

#[export] Instance ContextRef_eq_dec : EqDecision ContextRef.
Proof. solve_decision. Defined.

(** Its fields with their JSON names, in declaration order. *)
Definition ref_fields (c : ContextRef) : list (string * string) :=
  [("tenant_id", TenantID c); ("environment", Environment c);
   ("cluster_id", ClusterID c); ("namespace", Namespace c);
   ("aws_account_id", AWSAccountID c); ("region", Region c);
   ("argocd_project", ArgoCDProject c); ("grafana_org_id", GrafanaOrgID c)].

Definition ref_any (c : ContextRef) : any :=
  AStruct "ContextRef" (map (λ '(k, v), (k, AStr v)) (ref_fields c)).

(** json.Unmarshal into a ContextRef. *)
Definition decode_ref (j : json) : result ContextRef :=
  fs ← members j;
  t ← fld_string "tenant_id" fs; e ← fld_string "environment" fs;
  c ← fld_string "cluster_id" fs; n ← fld_string "namespace" fs;
  a ← fld_string "aws_account_id" fs; r ← fld_string "region" fs;
  p ← fld_string "argocd_project" fs; g ← fld_string "grafana_org_id" fs;
  Ok (mkContextRef t e c n a r p g).

(** ** Validation levels *)

Definition required (v name : string) : result unit :=
  check (negb (blank v)) (name +:+ " required").

(** validateContextRefStrict, the same in internal/web and internal/tools. *)
Definition validateContextRefStrict (ctx : ContextRef) : result unit :=
  _ ← required (TenantID ctx) "tenant_id";
  _ ← required (Environment ctx) "environment";
  _ ← required (ClusterID ctx) "cluster_id";
  _ ← required (Namespace ctx) "namespace";
  _ ← required (AWSAccountID ctx) "aws_account_id";
  _ ← required (Region ctx) "region";
  _ ← required (ArgoCDProject ctx) "argocd_project";
  required (GrafanaOrgID ctx) "grafana_org_id".

Definition validateContextRefTenantOnly (ctx : ContextRef) : result unit :=
  required (TenantID ctx) "tenant_id".

Definition validateContextRefMinimal (ctx : ContextRef) : result unit :=
  _ ← required (TenantID ctx) "tenant_id";
  required (Environment ctx) "environment".

(** ** Where a reference comes from *)

Section from_headers.
(** [r.Header.Get]. *)
Variable header : string → string.

Definition contextFromHeaders : ContextRef := {|
  TenantID := TrimSpace (header "X-Tenant-Id");
  Environment := TrimSpace (header "X-Environment");
  ClusterID := TrimSpace (header "X-Cluster-Id");
  Namespace := TrimSpace (header "X-Namespace");
  AWSAccountID := TrimSpace (header "X-AWS-Account-Id");
  Region := TrimSpace (header "X-Region");
  ArgoCDProject := TrimSpace (header "X-ArgoCD-Project");
  GrafanaOrgID := TrimSpace (header "X-Grafana-Org-Id") |}.
End from_headers.

Definition hasContextValues (c : ContextRef) : bool :=
  existsb (λ '(_, v), negb (String.eqb v "")) (ref_fields c).

(** The first key whose value is a string, whatever its text. *)
Fixpoint stringFromMap (data : gmap string any) (keys : list string) : string :=
  match keys with
  | [] => ""
  | key :: keys' => match data !! key with
                    | Some (AStr v) => v
                    | _ => stringFromMap data keys'
                    end
  end.

Definition contextFromMap (data : gmap string any) : ContextRef := {|
  TenantID := stringFromMap data ["tenant_id"; "tenant"; "org"];
  Environment := stringFromMap data ["environment"; "env"];
  ClusterID := stringFromMap data ["cluster_id"; "cluster"];
  Namespace := stringFromMap data ["namespace"];
  AWSAccountID := stringFromMap data ["aws_account_id"; "account_id"];
  Region := stringFromMap data ["region"];
  ArgoCDProject := stringFromMap data ["argocd_project"; "project"];
  GrafanaOrgID := stringFromMap data ["grafana_org_id"; "grafana_org"] |}.

(** The executor's reading of a stored plan context: the canonical keys only. *)
Definition workflows_contextFromMap (values : gmap string any) : ContextRef :=
  let get key := default "" (as_string (mget values key)) in {|
  TenantID := get "tenant_id";
  Environment := get "environment";
  ClusterID := get "cluster_id";
  Namespace := get "namespace";
  AWSAccountID := get "aws_account_id";
  Region := get "region";
  ArgoCDProject := get "argocd_project";
  GrafanaOrgID := get "grafana_org_id" |}.

(** *** Alertmanager payloads *)

Definition extractAlertLabels (payload : gmap string any) : gmap string any :=
  match mget payload "alerts" with
  | AList (AMap first :: _) => default ∅ (as_map (mget first "labels"))
  | _ => ∅
  end.

(** The label of the first alert, or the common one. *)
Definition alert_label (key : string) (payload : gmap string any) : string :=
  let labels := extractAlertLabels payload in
  match mget labels key with
  | AStr name => name
  | _ => match mget payload "commonLabels" with
         | AMap common => default "" (as_string (mget common key))
         | _ => ""
         end
  end.
Definition extractAlertName : gmap string any → string := alert_label "alertname".
Definition extractAlertSeverity : gmap string any → string := alert_label "severity".

Definition contextFromHook (payload : gmap string any) : ContextRef :=
  match mget payload "context" with
  | AMap ctx => contextFromMap ctx
  | _ =>
      let labels := extractAlertLabels payload in
      if (0 <? size labels)%nat then contextFromMap labels else empty_ref
  end.

(** ** Tenancy *)

Definition resolveTenant (bodyTenant headerTenant : string) : result string :=
  let bodyTenant := TrimSpace bodyTenant in
  let headerTenant := TrimSpace headerTenant in
  if String.eqb bodyTenant "" then
    _ ← check (negb (String.eqb headerTenant "")) "tenant_id required"; Ok headerTenant
  else if negb (String.eqb headerTenant "") && negb (String.eqb headerTenant bodyTenant)
  then Err "tenant_id mismatch"
  else Ok bodyTenant.

Definition tenant_at (m : gmap string any) : string :=
  match mget m "tenant_id" with AStr v => TrimSpace v | _ => "" end.
Definition tenantFromMap : gmap string any → string := tenant_at.
Definition tenantFromContext (item : gmap string any) : string :=
  match mget item "context" with AMap ctx => tenant_at ctx | _ => "" end.
Definition tenantFromLabels (item : gmap string any) : string :=
  match mget item "labels" with AMap labels => tenant_at labels | _ => "" end.

Definition tenantMatch (itemTenant tenantID : string) (includeGlobal : bool) : bool :=
  let itemTenant := TrimSpace itemTenant in
  let tenantID := TrimSpace tenantID in
  if String.eqb tenantID "" then false
  else if String.eqb itemTenant "" then includeGlobal
  else String.eqb itemTenant tenantID.

Definition filter_tenant (from : gmap string any → string) (tenantID : string)
    (includeGlobal : bool) (items : list (gmap string any)) : list (gmap string any) :=
  List.filter (λ item, tenantMatch (from item) tenantID includeGlobal) items.

Definition filterItemsByTenant (items : list (gmap string any)) (tenantID : string)
    (includeGlobal : bool) := filter_tenant tenantFromMap tenantID includeGlobal items.
Definition filterItemsByLabelTenant (items : list (gmap string any)) (tenantID : string)
    (includeGlobal : bool) := filter_tenant tenantFromLabels tenantID includeGlobal items.

(** The JSON list endpoints decode, filter and encode again. *)
Definition filterJSONByTenant (payload : doc) (tenantID : string) (includeGlobal : bool)
    : result json :=
  j ← unmarshal payload; items ← decode_maps j;
  match j with
  | JNull => Ok JNull  (* an empty slice is returned as it is, and a nil one is null *)
  | _ => marshal (AList (map AMap (filterItemsByTenant items tenantID includeGlobal)))
  end.
Definition filterJSONByTenantContext (payload : doc) (tenantID : string) : result json :=
  j ← unmarshal payload; items ← decode_maps j;
  marshal (AList (map AMap (filter_tenant tenantFromContext tenantID false items))).

(** ** Lemmas *)
Lemma required_ok v name : required v name = Ok tt ↔ blank v = false.
Proof. unfold required, check. destruct (blank v); naive_solver. Qed.

Lemma required_then {A} v name (k : unit → result A) a :
  (required v name ≫= k) = Ok a ↔ blank v = false ∧ k tt = Ok a.
Proof.
  unfold required, check. destruct (blank v); cbn [negb mbind result_bind]; split;
    try discriminate; naive_solver.
Qed.

Lemma validate_strict_ok c :
  validateContextRefStrict c = Ok tt ↔
  Forall (λ '(_, v), blank v = false) (ref_fields c).
Proof.
  unfold validateContextRefStrict, ref_fields.
  rewrite !required_then, required_ok, !Forall_cons, Forall_nil. tauto.
Qed.

Lemma strict_minimal c : validateContextRefStrict c = Ok tt → validateContextRefMinimal c = Ok tt.
Proof.
  rewrite validate_strict_ok. unfold ref_fields. rewrite !Forall_cons.
  intros (H1 & H2 & _). unfold validateContextRefMinimal.
  by rewrite required_then, required_ok.
Qed.

Lemma tenantMatch_true it t g :
  tenantMatch it t g = true ↔
  TrimSpace t ≠ "" ∧ (TrimSpace it = TrimSpace t ∨ TrimSpace it = "" ∧ g = true).
Proof.
  unfold tenantMatch.
  destruct (String.eqb_spec (TrimSpace t) ""); [intuition congruence|].
  destruct (String.eqb_spec (TrimSpace it) ""); [intuition congruence|].
  rewrite String.eqb_eq. intuition congruence.
Qed.

#[export] Hint Resolve strict_minimal : go.

(** ** Theorems *)

(** Tenant isolation of the list endpoints: the filtered list is the items,
    in their order, whose trimmed tenant is the (non-blank) tenant asked for,
    plus the tenantless ones when global items are included. *)
Theorem filterItemsByTenant_isolates items tenantID includeGlobal item :
  (item ∈ filterItemsByTenant items tenantID includeGlobal ↔
   item ∈ items ∧ TrimSpace tenantID ≠ "" ∧
   (tenantFromMap item = TrimSpace tenantID ∨
    tenantFromMap item = "" ∧ includeGlobal = true)) ∧
  sublist (filterItemsByTenant items tenantID includeGlobal) items.
Proof.
  assert (Htrim : ∀ m, TrimSpace (tenantFromMap m) = tenantFromMap m).
  { intros m. unfold tenantFromMap, tenant_at. case_match; auto using TrimSpace_idemp. }
  unfold filterItemsByTenant, filter_tenant. split.
  - rewrite !list_elem_of_In, filter_In, tenantMatch_true, Htrim. tauto.
  - induction items as [|i items IH]; simpl; [constructor|].
    case_match; by constructor.
Qed.

(** The tenant a tenant-scoped write is filed under: the body's and the
    header's must agree when both are given, one must be given, and it is
    trimmed. *)
Theorem resolveTenant_spec body header t :
  resolveTenant body header = Ok t ↔
  t ≠ "" ∧
  ((TrimSpace body = t ∧ (TrimSpace header = t ∨ TrimSpace header = "")) ∨
   (TrimSpace body = "" ∧ TrimSpace header = t)).
Proof.
  unfold resolveTenant, check.
  destruct (String.eqb_spec (TrimSpace body) "") as [Hb|Hb].
  - destruct (String.eqb_spec (TrimSpace header) "") as [Hh|Hh]; cbn; split;
      intuition congruence.
  - destruct (String.eqb_spec (TrimSpace header) "") as [Hh|Hh]; cbn.
    + split; intuition congruence.
    + destruct (String.eqb_spec (TrimSpace header) (TrimSpace body)); cbn; split;
        intuition congruence.
Qed.
