(* ===== verification/Steps.v ===== *)
(** * Steps: plan steps, and the drafts a planner's text holds

    PlanStep and planStepDraft, how steps are read from stored JSON and from an
    LLM's answer, and the verify steps added to a write plan
    (internal/web/constraints.go, plan_parse.go, plan_helpers.go,
    event_loop_helpers.go; internal/tools/registry.go). *)

From S2P Require Import Prelude GoStrings Json.

Local Open Scope string_scope.

(** ** The tool registry *)

Record Tool := mkTool { Name : string; CLI : string; SupportsAPI : bool }.

Definition Registry : list Tool :=
  [mkTool "aws" "aws" true;
   mkTool "vault" "vault" true;
   mkTool "kubectl" "kubectl" true;
   mkTool "helm" "helm" true;
   mkTool "boundary" "boundary" true;
   mkTool "argocd" "argocd" true;
   mkTool "git" "git" false;
   mkTool "prometheus" "" true;
   mkTool "alertmanager" "" true;
   mkTool "thanos" "" true;
   mkTool "grafana" "" true;
   mkTool "tempo" "" true;
   mkTool "github" "gh" true;
   mkTool "gitlab" "glab" true;
   mkTool "linear" "" true;
   mkTool "pagerduty" "" true].

Definition isRegisteredTool (tool : string) : bool :=
  mem (ToLower (TrimSpace tool)) (map (λ t, ToLower (Name t)) Registry).

(** ** Steps *)

Record PlanStep := mkStep {
  StepID : string;
  Stage : string;
  Action : string;
  Tool_ : string;
  Input : any;
  Preconditions : any;   (* []any in internal/web, any in internal/workflows *)
  Rollback : any }.

Record planStepDraft := mkDraft {
  d_Stage : string;
  d_Action : string;
  d_Tool : string;
  d_Input : option json;
  d_Preconditions : option json;
  d_Rollback : option json }.

Definition with_stage (st : string) (s : PlanStep) : PlanStep :=
  mkStep (StepID s) st (Action s) (Tool_ s) (Input s) (Preconditions s) (Rollback s).

Definition draft_with_stage (st : string) (s : planStepDraft) : planStepDraft :=
  mkDraft st (d_Action s) (d_Tool s) (d_Input s) (d_Preconditions s) (d_Rollback s).

(** Go values of these struct types. *)
Definition step_any (s : PlanStep) : any :=
  AStruct "PlanStep" [("step_id", AStr (StepID s)); ("stage", AStr (Stage s));
    ("action", AStr (Action s)); ("tool", AStr (Tool_ s)); ("input", Input s);
    ("preconditions", Preconditions s); ("rollback", Rollback s)].
Definition draft_any (s : planStepDraft) : any :=
  AStruct "planStepDraft" [("stage", AStr (d_Stage s)); ("action", AStr (d_Action s));
    ("tool", AStr (d_Tool s)); ("input", raw_any (d_Input s));
    ("preconditions", raw_any (d_Preconditions s)); ("rollback", raw_any (d_Rollback s))].
Definition drafts_any (l : list planStepDraft) : any := ASlice "planStepDraft" (map draft_any l).

(** The PlanStep a Go value of that type is. *)
Definition step_of_any (v : any) : option PlanStep :=
  match v with
  | AStruct _ [(_, AStr id); (_, AStr st); (_, AStr ac); (_, AStr tl); (_, inp); (_, pre); (_, rb)] =>
      Some (mkStep id st ac tl inp pre rb)
  | _ => None
  end.

(** A []any field. *)
Definition fld_list (name : string) (fs : list (string * json)) : result any :=
  fld (λ _ x, match x with
              | JArr l => decode_any x
              | JNull => Ok ANil
              | _ => Err json_error end) name ANil fs.

(** json.Unmarshal into internal/web's PlanStep. *)
Definition decode_step (j : json) : result PlanStep :=
  fs ← members j;
  id ← fld_string "step_id" fs; st ← fld_string "stage" fs;
  ac ← fld_string "action" fs; tl ← fld_string "tool" fs;
  inp ← fld_any "input" fs; pre ← fld_list "preconditions" fs;
  rb ← fld_any "rollback" fs;
  Ok (mkStep id st ac tl inp pre rb).

Definition decode_list {A} (dec : json → result A) (j : json) : result (list A) :=
  match j with
  | JArr l => of_option json_error
      (opt_map (λ x, match dec x with Ok a => Some a | Err _ => None end) l)
  | JNull => Ok []
  | _ => Err json_error
  end.

(** What holds of everything the elements decode to holds of the list. *)
Lemma decode_list_Forall {A} (dec : json → result A) l bs (P : A → Prop) :
  decode_list dec (JArr l) = Ok bs → (∀ j b, j ∈ l → dec j = Ok b → P b) → Forall P bs.
Proof.
  intros H%of_option_Ok HP. apply Forall_forall. intros b Hb.
  destruct (opt_map_In _ _ _ _ H Hb) as (j & Hj & Hd).
  destruct (dec j) as [b'|] eqn:E; [|done]. injection Hd as ->. by eapply HP.
Qed.

Definition default_stage (s : PlanStep) : PlanStep :=
  if blank (Stage s) then with_stage "act" s else s.

Definition parsePlanStepsJSON (data : doc) : result (list PlanStep) :=
  match data with
  | doc_empty => Ok []
  | _ => j ← unmarshal data; steps ← decode_list decode_step j; Ok (map default_stage steps)
  end.

(** The type switch on [plan["steps"]]: a value of any other dynamic type, a
    slice of drafts for one, gives no steps and no error. *)
Definition parsePlanStepsPayload (raw : any) : result (list PlanStep) :=
  match raw with
  | ANil => Ok []
  | AList v =>
      data ← marshal (AList v); parsePlanStepsJSON (doc_json data)
  | ARaw j => parsePlanStepsJSON (doc_json j)
  | ABytes s => parsePlanStepsJSON (doc_of_text s)
  | ASlice ty l =>
      if String.eqb ty "PlanStep" then Ok (omap step_of_any l) else Ok []
  | _ => Ok []
  end.

(** ** Drafts from a planner's text *)

Definition decode_draft (j : json) : result planStepDraft :=
  fs ← members j;
  st ← fld_string "stage" fs; ac ← fld_string "action" fs; tl ← fld_string "tool" fs;
  inp ← fld_raw "input" fs; pre ← fld_raw "preconditions" fs; rb ← fld_raw "rollback" fs;
  Ok (mkDraft st ac tl inp pre rb).

Definition fence : string := "```".

(** The text inside the first Markdown fence, if there is one. *)
Definition extractJSONBlock (text : string) : string :=
  match cut_at text fence with
  | None => text
  | Some (_, rest) =>
      let rest := match cut_at rest (bytes [10]) with Some (_, r) => r | None => rest end in
      match cut_at rest fence with
      | Some (before, _) => TrimSpace before
      | None => TrimSpace rest
      end
  end.

(** [[step, ...]] or [{"steps": [step, ...]}]. *)
Definition decodePlanStepsPayload (text : string) : list planStepDraft :=
  match unmarshal (doc_of_text text) with
  | Err _ => []
  | Ok j =>
      match decode_list decode_draft j with
      | Ok steps => steps
      | Err _ =>
          match (fs ← members j; fld_slice decode_draft "steps" fs) with
          | Ok steps => steps
          | Err _ => []
          end
      end
  end.

(** Steps without an action or a tool, or with a tool the registry does not
    hold, are dropped; the stage defaults to act. *)
Definition keep_draft (step : planStepDraft) : bool :=
  negb (blank (d_Action step) || blank (d_Tool step)) && isRegisteredTool (d_Tool step).

Definition draft_default_stage (step : planStepDraft) : planStepDraft :=
  if blank (d_Stage step) then draft_with_stage "act" step else step.

Definition parsePlanSteps (planText : string) : list planStepDraft :=
  let text := TrimSpace planText in
  if String.eqb text "" then []
  else map draft_default_stage
         (List.filter keep_draft (decodePlanStepsPayload (extractJSONBlock text))).

(** ** Verify steps *)

Record DiagnosticEvidence := mkDiag {
  diag_Type : string; diag_Query : string; diag_ResultRef : string; diag_Link : string }.

Definition latency_query : string :=
  "histogram_quantile(0.95, sum(rate(http_request_duration_seconds_bucket[5m])) by (le))".
Definition error_query : string :=
  "sum(rate(http_requests_total{status=~" +:+ String dq "5.." +:+ String dq "}[5m]))".

Definition defaultQueryFromIntent (intent : string) : string :=
  let intent := ToLower (TrimSpace intent) in
  if String.eqb intent "" then "up"
  else if contains intent "latency" then latency_query
  else if contains intent "error" then error_query
  else "up".

Definition query_input (query : string) : option json :=
  to_json (AMap (amap [("query", AStr query)])).

Definition prom_verify (query : string) : planStepDraft :=
  mkDraft "verify" "query" "prometheus" (query_input query) None None.
Definition tempo_verify (query : string) : planStepDraft :=
  mkDraft "verify" "traceql" "tempo" (query_input query) None None.

(** The first usable diagnostic, else a default query for the intent. *)
Fixpoint defaultVerifySteps (diagnostics : list DiagnosticEvidence) (intent : string)
    : list planStepDraft :=
  match diagnostics with
  | [] =>
      let query := defaultQueryFromIntent intent in
      if String.eqb query "" then [] else [prom_verify query]
  | diag :: rest =>
      let query := TrimSpace (diag_Query diag) in
      let kind := ToLower (TrimSpace (diag_Type diag)) in
      if String.eqb kind "promql" then
        let query := if String.eqb query "" then defaultQueryFromIntent intent else query in
        if negb (String.eqb query "") then [prom_verify query]
        else defaultVerifySteps rest intent
      else if String.eqb kind "traceql" && negb (String.eqb query "") then
        [tempo_verify query]
      else defaultVerifySteps rest intent
  end.

Definition hasVerifyStage (steps : list planStepDraft) : bool :=
  existsb (λ step, EqualFold (TrimSpace (d_Stage step)) "verify") steps.

Definition ensureVerifySteps (steps : list planStepDraft)
    (diagnostics : list DiagnosticEvidence) (intent : string) : list planStepDraft :=
  match steps with
  | [] => steps
  | _ => if hasVerifyStage steps then steps
         else steps ++ defaultVerifySteps diagnostics intent
  end.
