(* ===== verification/Policy.v ===== *)
(** * Policy: risk, tier, blast radius and the gateway's policy decision

    The risk read from an intent's words and from a plan's steps
    (internal/web/plan_helpers.go), its tier and blast radius (risk.go), the
    evaluator (internal/policy/middleware.go, opa.go's types) and the decision
    the gateway takes on top of it (internal/web/policy.go). *)

From S2P Require Import Prelude GoStrings Json ContextRef Steps.

Local Open Scope string_scope.

(** ** Risk from the intent *)

Definition contains_one (s : string) (words : list string) : bool := existsb (contains s) words.

Definition high_words : list string :=
  ["destroy"; "delete"; "terminate"; "iam"; "policy"; "role"; "user"; "network"; "vpc";
   "subnet"; "security group"; "firewall"].
Definition medium_words : list string := ["sync"; "restart"; "rollout"; "migrate"; "upgrade"].
Definition low_words : list string := ["deploy"; "scale"; "rollback"].

Definition riskFromIntent (intent : string) : string :=
  let intent := ToLower intent in
  if contains_one intent high_words then "high"
  else if contains_one intent medium_words then "medium"
  else if contains_one intent low_words then "low"
  else "read".

Definition isWriteAction (intent : string) : bool :=
  negb (String.eqb (riskFromIntent intent) "read").

(** ** Risk from the steps *)

(** A Go map from tool names to action patterns; an absent tool has none. *)
Definition actions_of (table : list (string * list string)) (tool : string) : list string :=
  match List.find (λ '(t, _), String.eqb t tool) table with
  | Some (_, ps) => ps
  | None => []
  end.

Definition highRiskActions : list (string * list string) :=
  [("kubectl", ["delete"; "exec"; "apply"; "patch"; "replace"; "drain"; "cordon"; "taint"]);
   ("helm", ["uninstall"; "delete"]);
   ("aws", ["delete"; "terminate"; "remove"; "destroy"; "put-role-policy"; "create-role";
            "delete-role"; "attach-role-policy"]);
   ("vault", ["delete"; "revoke"; "destroy"]);
   ("argocd", ["delete"])].

Definition mediumRiskActions : list (string * list string) :=
  [("kubectl", ["scale"; "rollout"]);
   ("helm", ["upgrade"; "install"; "rollback"]);
   ("argocd", ["sync"]);
   ("aws", ["update"; "modify"; "put"; "create"; "run"])].

Definition matchesAny (action : string) (patterns : list string) : bool :=
  existsb (contains action) patterns.

(** Unknown levels count as read. *)
Definition riskOrd (level : string) : Z :=
  if String.eqb level "read" then 0
  else if String.eqb level "low" then 1
  else if String.eqb level "medium" then 2
  else if String.eqb level "high" then 3
  else 0.

Definition read_verbs : list string :=
  ["get"; "list"; "describe"; "status"; "query"; "search"; "show"].

(** The loop of riskFromSteps, from the highest level so far. *)
Fixpoint risk_loop (highest : string) (steps : list PlanStep) : string :=
  match steps with
  | [] => highest
  | step :: rest =>
      let tool := ToLower (TrimSpace (Tool_ step)) in
      let action := ToLower (TrimSpace (Action step)) in
      if String.eqb tool "" || String.eqb action "" then risk_loop highest rest
      else if matchesAny action (actions_of highRiskActions tool) then "high"
      else if matchesAny action (actions_of mediumRiskActions tool) then
        risk_loop (if (riskOrd highest <? riskOrd "medium")%Z then "medium" else highest) rest
      else if negb (mem action read_verbs) then
        risk_loop (if (riskOrd highest <? riskOrd "low")%Z then "low" else highest) rest
      else risk_loop highest rest
  end.
Definition riskFromSteps : list PlanStep → string := risk_loop "read".

(** The same loop on drafts. *)
Fixpoint draft_risk_loop (highest : string) (steps : list planStepDraft) : string :=
  match steps with
  | [] => highest
  | step :: rest =>
      let tool := ToLower (TrimSpace (d_Tool step)) in
      let action := ToLower (TrimSpace (d_Action step)) in
      if String.eqb tool "" || String.eqb action "" then draft_risk_loop highest rest
      else if matchesAny action (actions_of highRiskActions tool) then "high"
      else if matchesAny action (actions_of mediumRiskActions tool) then
        draft_risk_loop
          (if (riskOrd highest <? riskOrd "medium")%Z then "medium" else highest) rest
      else if negb (mem action read_verbs) then
        draft_risk_loop (if (riskOrd highest <? riskOrd "low")%Z then "low" else highest) rest
      else draft_risk_loop highest rest
  end.
Definition riskFromStepDrafts : list planStepDraft → string := draft_risk_loop "read".

Definition effectiveRisk (intentRisk : string) (steps : list PlanStep) : string :=
  let stepRisk := riskFromSteps steps in
  if (riskOrd intentRisk <? riskOrd stepRisk)%Z then stepRisk else intentRisk.

Definition effectiveRiskDrafts (intentRisk : string) (steps : list planStepDraft) : string :=
  let stepRisk := riskFromStepDrafts steps in
  if (riskOrd intentRisk <? riskOrd stepRisk)%Z then stepRisk else intentRisk.

(** ** Tier and blast radius *)

Definition tierForRisk (risk : string) : string :=
  let r := ToLower (TrimSpace risk) in
  if String.eqb r "read" then "read"
  else if mem r ["low"; "medium"] then "safe"
  else "break_glass".

Definition blastRadius (ctx : ContextRef) (targets : Z) : string :=
  if (targets <=? 0)%Z then "namespace"
  else if (targets <=? 10)%Z && negb (blank (Namespace ctx)) then "namespace"
  else if (targets <=? 50)%Z then "cluster"
  else "account".

(** ** The evaluator *)

Record PolicyInput := mkPolicyInput {
  pi_Actor : any;
  pi_ActionName : string;
  pi_ActionType : string;
  pi_Context : ContextRef;
  pi_RiskLevel : string;
  pi_Targets : Z;
  pi_BlastRadius : string;
  pi_Tier : string;
  pi_Time : string;
  pi_BreakGlass : bool }.

Record PolicyDecision := mkDecision {
  Decision_ : string;
  Constraints : gmap string any;
  TTL : Z }.

Definition decide_as (d : string) (dec : PolicyDecision) : PolicyDecision :=
  mkDecision d (Constraints dec) (TTL dec).
Definition plain_decision (d : string) : PolicyDecision := mkDecision d ∅ 0.

(** A Checker: OPA behind HTTP, or a function of a test. *)
Definition Checker : Type := PolicyInput → result PolicyDecision.

(** Evaluator.Check: no checker means allow. *)
Definition Evaluator_Check (checker : option Checker) (input : PolicyInput)
    : result PolicyDecision :=
  match checker with
  | None => Ok (plain_decision "allow")
  | Some c => c input
  end.

(** ** The gateway's decision *)

Record Actor := mkActor { ActorID : string; ActorEmail : string; ActorRoles : list string }.

Definition actor_any (a : Actor) : any :=
  AStruct "Actor" [("ID", AStr (ActorID a)); ("Email", AStr (ActorEmail a));
                   ("Roles", AStrs (ActorRoles a))].
Definition no_actor : Actor := mkActor "" "" [].

(** What policyDecision reads of the request: the actor of its context, the
    X-Break-Glass header and the time. *)
Record policy_env := mkPolicyEnv {
  pe_actor : option Actor;
  pe_break_glass : string;
  pe_time : string }.

Section decision.
(** [s.Policy.Checker]; [None] when the policy or its checker is nil. *)
Variable checker : option Checker.
Variable env : policy_env.

Definition break_glass : bool := EqualFold (TrimSpace (pe_break_glass env)) "true".

(** The overrides after the evaluator's answer, in the source's order. *)
Definition escalate (actionType : string) (ctxRef : ContextRef) (risk : string)
    (targets : Z) (dec : PolicyDecision) : PolicyDecision :=
  let tier := tierForRisk risk in
  let blast := blastRadius ctxRef targets in
  let write := String.eqb actionType "write" in
  let dec := if write && EqualFold (TrimSpace (Environment ctxRef)) "prod"
                && String.eqb (Decision_ dec) "allow"
             then decide_as "require_approval" dec else dec in
  let dec := if write && String.eqb (Decision_ dec) "allow"
                && negb (String.eqb risk "read") && negb (String.eqb risk "low")
             then decide_as "require_approval" dec else dec in
  let dec := if write && String.eqb blast "account"
             then decide_as "require_approval" dec else dec in
  if write && String.eqb tier "break_glass" && negb break_glass
  then decide_as "deny" dec else dec.

Definition policy_input (actionName actionType : string) (ctxRef : ContextRef)
    (risk : string) (targets : Z) : PolicyInput := {|
  pi_Actor := actor_any (default no_actor (pe_actor env));
  pi_ActionName := actionName;
  pi_ActionType := actionType;
  pi_Context := ctxRef;
  pi_RiskLevel := risk;
  pi_Targets := targets;
  pi_BlastRadius := blastRadius ctxRef targets;
  pi_Tier := tierForRisk risk;
  pi_Time := pe_time env;
  pi_BreakGlass := break_glass |}.

Definition policyDecision (actionName actionType : string) (ctxRef : ContextRef)
    (risk : string) (targets : Z) : result PolicyDecision :=
  match checker with
  | None => Ok (plain_decision "allow")
  | Some _ =>
      match Evaluator_Check checker
              (policy_input actionName actionType ctxRef risk targets) with
      | Err e => if String.eqb actionType "read" then Ok (plain_decision "allow") else Err e
      | Ok dec =>
          let dec := if String.eqb (Decision_ dec) "" then decide_as "allow" dec else dec in
          Ok (escalate actionType ctxRef risk targets dec)
      end
  end.

Definition policyCheck (actionName actionType : string) (ctxRef : ContextRef)
    (risk : string) (targets : Z) : result unit :=
  dec ← policyDecision actionName actionType ctxRef risk targets;
  check (String.eqb (Decision_ dec) "allow") ("policy decision " +:+ Decision_ dec).
End decision.

(** ** Specification of the step risk *)

Definition levels : list string := ["read"; "low"; "medium"; "high"].
Definition level_name (z : Z) : string := nth (Z.to_nat z) levels "read".

(** The level one step calls for. *)
Definition step_level (tool action : string) : Z :=
  let tool := ToLower (TrimSpace tool) in
  let action := ToLower (TrimSpace action) in
  if String.eqb tool "" || String.eqb action "" then 0
  else if matchesAny action (actions_of highRiskActions tool) then 3
  else if matchesAny action (actions_of mediumRiskActions tool) then 2
  else if mem action read_verbs then 0 else 1.

Definition max_level (steps : list PlanStep) : Z :=
  foldr (λ s, Z.max (step_level (Tool_ s) (Action s))) 0%Z steps.

(** The step a draft becomes once its raw fields are decoded. *)
Definition step_of_draft (d : planStepDraft) : PlanStep :=
  mkStep "" (d_Stage d) (d_Action d) (d_Tool d) (raw_any (d_Input d))
    (raw_any (d_Preconditions d)) (raw_any (d_Rollback d)).

(** What the gateway's overrides make of the evaluator's answer [d]. *)
Definition decision_table (actionType env risk blast tier : string) (bg : bool) (d : string)
    : string :=
  if negb (String.eqb actionType "write") then d
  else if String.eqb tier "break_glass" && negb bg then "deny"
  else if String.eqb blast "account" then "require_approval"
  else if String.eqb d "allow"
       && (EqualFold (TrimSpace env) "prod" || negb (mem risk ["read"; "low"]))
  then "require_approval"
  else d.

Definition blast_ord (b : string) : Z :=
  if String.eqb b "namespace" then 0 else if String.eqb b "cluster" then 1 else 2.

(** ** Lemmas *)
Lemma riskOrd_level_name z : (0 ≤ z ≤ 3)%Z → riskOrd (level_name z) = z.
Proof.
  intros. assert (z = 0 ∨ z = 1 ∨ z = 2 ∨ z = 3)%Z as [-> | [-> | [-> | ->]]] by lia; done.
Qed.

Lemma step_level_bounds t a : (0 ≤ step_level t a ≤ 3)%Z.
Proof. unfold step_level. repeat case_match; lia. Qed.

Lemma max_level_bounds steps : (0 ≤ max_level steps ≤ 3)%Z.
Proof.
  induction steps as [|s steps IH]; simpl; [lia|].
  pose proof (step_level_bounds (Tool_ s) (Action s)). lia.
Qed.

Lemma levels_inv h : h ∈ levels → ∃ z, (0 ≤ z ≤ 3)%Z ∧ h = level_name z.
Proof.
  unfold levels. rewrite !elem_of_cons, elem_of_nil.
  intros [-> | [-> | [-> | [-> | []]]]];
    [exists 0%Z | exists 1%Z | exists 2%Z | exists 3%Z]; split; done || lia.
Qed.

Lemma raise_level z n :
  (0 ≤ z ≤ 3)%Z → (0 ≤ n ≤ 3)%Z →
  (if (riskOrd (level_name z) <? n)%Z then level_name n else level_name z)
  = level_name (Z.max z n).
Proof.
  intros Hz Hn. rewrite riskOrd_level_name by done.
  destruct (Z.ltb_spec z n); [rewrite Z.max_r by lia|rewrite Z.max_l by lia]; done.
Qed.

Lemma risk_loop_spec steps : ∀ z, (0 ≤ z ≤ 3)%Z →
  risk_loop (level_name z) steps = level_name (Z.max z (max_level steps)).
Proof.
  induction steps as [|s steps IH]; intros z Hz; simpl.
  { by rewrite Z.max_l by lia. }
  pose proof (max_level_bounds steps).
  unfold step_level. rewrite negb_if.
  set (t := ToLower (TrimSpace (Tool_ s))). set (a := ToLower (TrimSpace (Action s))).
  destruct (String.eqb t "" || String.eqb a ""); [rewrite IH by lia; f_equal; lia|].
  destruct (matchesAny a (actions_of highRiskActions t)).
  { change "high" with (level_name 3). apply f_equal; lia. }
  destruct (matchesAny a (actions_of mediumRiskActions t)).
  { change (riskOrd "medium") with 2%Z. change "medium" with (level_name 2).
    rewrite raise_level, IH by lia. apply f_equal; lia. }
  destruct (mem a read_verbs).
  - rewrite IH by lia. apply f_equal; lia.
  - change (riskOrd "low") with 1%Z. change "low" with (level_name 1).
    rewrite raise_level, IH by lia. apply f_equal; lia.
Qed.

Lemma draft_risk_loop_steps ds : ∀ h,
  draft_risk_loop h ds = risk_loop h (map step_of_draft ds).
Proof.
  induction ds as [|d ds IH]; intros h; simpl; [done|].
  repeat case_match; done.
Qed.

Lemma riskFromSteps_level steps : riskFromSteps steps = level_name (max_level steps).
Proof.
  unfold riskFromSteps. change "read" with (level_name 0).
  rewrite risk_loop_spec by lia. f_equal. pose proof (max_level_bounds steps). lia.
Qed.

Lemma escalate_table env actionType ctx risk targets dec :
  Decision_ (escalate env actionType ctx risk targets dec)
  = decision_table actionType (Environment ctx) risk (blastRadius ctx targets)
      (tierForRisk risk) (break_glass env) (Decision_ dec).
Proof.
  unfold escalate, decision_table. simpl.
  destruct (String.eqb actionType "write"); [|done]. cbn [andb negb].
  unfold mem. simpl. rewrite orb_false_r.
  destruct (String.eqb (tierForRisk risk) "break_glass"), (break_glass env),
    (String.eqb (blastRadius ctx targets) "account"),
    (EqualFold (TrimSpace (Environment ctx)) "prod"),
    (String.eqb (Decision_ dec) "allow") eqn:E,
    (String.eqb risk "read"), (String.eqb risk "low"); simpl;
    try rewrite E; simpl; try rewrite E; simpl; try done.
Qed.

Lemma decision_table_allow env risk blast tier bg d :
  decision_table "write" env risk blast tier bg d = "allow" ↔
  d = "allow" ∧ EqualFold (TrimSpace env) "prod" = false ∧ mem risk ["read"; "low"] = true ∧
  blast ≠ "account" ∧ (tier ≠ "break_glass" ∨ bg = true).
Proof.
  unfold decision_table. cbn [negb]. change ("write" =? "write")%string with true.
  cbn [negb].
  destruct (String.eqb_spec tier "break_glass"), bg, (String.eqb_spec blast "account"),
    (String.eqb_spec d "allow"), (EqualFold (TrimSpace env) "prod"),
    (mem risk ["read"; "low"]); cbn [negb andb orb]; intuition congruence.
Qed.

Lemma escalate_read env actionType ctx risk targets dec :
  actionType ≠ "write" → escalate env actionType ctx risk targets dec = dec.
Proof. intros H%String.eqb_neq. unfold escalate. by rewrite H. Qed.

Lemma tierForRisk_low risk : mem risk ["read"; "low"] = true → tierForRisk risk ≠ "break_glass".
Proof.
  rewrite mem_spec, !elem_of_cons, elem_of_nil. intros [-> | [-> | []]]; vm_compute; discriminate.
Qed.

(** ** Theorems *)

(** The risk of a plan's steps is the highest any step calls for, whatever
    the order of the steps; the loop's early return and its running maximum
    compute the maximum of the steps' levels. *)
Theorem riskFromSteps_is_max (steps : list PlanStep) :
  riskFromSteps steps = level_name (max_level steps) ∧
  riskOrd (riskFromSteps steps) = max_level steps.
Proof.
  rewrite riskFromSteps_level. split; [done|].
  apply riskOrd_level_name, max_level_bounds.
Qed.

(** Re-assessing a draft plan can only raise its risk: the effective risk
    is the higher of the intent's and of every step's, and it agrees with the
    assessment of the decoded steps. *)
Theorem effectiveRiskDrafts_join (intentRisk : string) (ds : list planStepDraft) :
  riskOrd (effectiveRiskDrafts intentRisk ds)
  = Z.max (riskOrd intentRisk) (max_level (map step_of_draft ds)) ∧
  effectiveRiskDrafts intentRisk ds = effectiveRisk intentRisk (map step_of_draft ds).
Proof.
  unfold effectiveRiskDrafts, effectiveRisk, riskFromStepDrafts.
  rewrite draft_risk_loop_steps. split; [|done].
  fold riskFromSteps. rewrite riskFromSteps_level.
  pose proof (max_level_bounds (map step_of_draft ds)).
  rewrite riskOrd_level_name by done.
  destruct (Z.ltb_spec (riskOrd intentRisk) (max_level (map step_of_draft ds)));
    [rewrite riskOrd_level_name by done|]; lia.
Qed.

(** A write is allowed outright exactly when the evaluator allows it, the
    environment is not prod, the risk is read or low and the blast radius is
    below the account. *)
Theorem write_allowed_iff (c : Checker) env name ctx risk targets :
  (∃ dec, policyDecision (Some c) env name "write" ctx risk targets = Ok dec ∧
          Decision_ dec = "allow") ↔
  (∃ dec0, c (policy_input env name "write" ctx risk targets) = Ok dec0 ∧
           (Decision_ dec0 = "" ∨ Decision_ dec0 = "allow")) ∧
  EqualFold (TrimSpace (Environment ctx)) "prod" = false ∧
  mem risk ["read"; "low"] = true ∧
  blastRadius ctx targets ≠ "account".
Proof.
  unfold policyDecision, Evaluator_Check.
  destruct (c _) as [dec0|e]; simpl; [|split; [intros (? & ? & _)|intros ((? & ? & _) & _)]; done].
  split.
  - intros (dec & [= <-] & Hd). rewrite escalate_table, decision_table_allow in Hd.
    destruct Hd as (Hd & Hp & Hr & Hb & _). repeat split; try done. exists dec0.
    split; [done|]. destruct (String.eqb_spec (Decision_ dec0) ""); auto.
  - intros ((dec & [= ->] & Hd) & Hp & Hr & Hb). eexists. split; [done|].
    rewrite escalate_table, decision_table_allow.
    pose proof (tierForRisk_low _ Hr).
    repeat split; auto. destruct Hd as [Hd|Hd]; rewrite Hd; done.
Qed.

(** When the evaluator fails, reads are allowed and nothing else is: the
    error is returned. *)
Theorem policy_error_closed (c : Checker) env name actionType ctx risk targets e :
  c (policy_input env name actionType ctx risk targets) = Err e →
  policyDecision (Some c) env name actionType ctx risk targets
  = (if String.eqb actionType "read" then Ok (plain_decision "allow") else Err e).
Proof. intros H. unfold policyDecision, Evaluator_Check. by rewrite H. Qed.

Definition down : Checker := λ _, Err "opa down".
Definition env0 : policy_env := mkPolicyEnv None "" "".

Lemma policy_error_closed_witness :
  policyDecision (Some down) env0 "plan.execute" "write" empty_ref "low" 1 = Err "opa down".
Proof. apply (policy_error_closed down env0 "plan.execute" "write"). reflexivity. Defined.

(** Without the break-glass header, a write whose risk tier is break_glass
    (high, or any level the tiers do not name) is denied, whatever the
    evaluator answers. *)
Theorem break_glass_denied (c : Checker) env name ctx risk targets dec0 :
  c (policy_input env name "write" ctx risk targets) = Ok dec0 →
  tierForRisk risk = "break_glass" →
  break_glass env = false →
  ∃ dec, policyDecision (Some c) env name "write" ctx risk targets = Ok dec ∧
         Decision_ dec = "deny".
Proof.
  intros Hc Ht Hb. unfold policyDecision, Evaluator_Check. rewrite Hc.
  eexists. split; [done|]. rewrite escalate_table. unfold decision_table.
  by rewrite Ht, Hb.
Qed.

Definition answer (d : string) : Checker := λ _, Ok (plain_decision d).

Lemma break_glass_denied_witness :
  ∃ dec, policyDecision (Some (answer "allow")) env0 "plan.execute" "write" empty_ref "high" 1
         = Ok dec ∧ Decision_ dec = "deny".
Proof.
  apply (break_glass_denied (answer "allow") env0 "plan.execute" empty_ref "high" 1
           (plain_decision "allow")); reflexivity.
Defined.

(** Above 50 targets the blast radius is the account and the override
    replaces the evaluator's answer: a write the evaluator denies is answered
    [require_approval], unless the break-glass rule denies it again. *)
Theorem account_overrides_deny (c : Checker) env name ctx risk targets dec0 :
  c (policy_input env name "write" ctx risk targets) = Ok dec0 →
  Decision_ dec0 = "deny" →
  (50 < targets)%Z →
  tierForRisk risk ≠ "break_glass" ∨ break_glass env = true →
  ∃ dec, policyDecision (Some c) env name "write" ctx risk targets = Ok dec ∧
         Decision_ dec = "require_approval".
Proof.
  intros Hc Hd Ht Hb. unfold policyDecision, Evaluator_Check. rewrite Hc, Hd.
  eexists. split; [done|]. rewrite escalate_table. unfold decision_table.
  assert (blastRadius ctx targets = "account") as ->.
  { unfold blastRadius. repeat case_match; bool_hyps; try lia; done. }
  simpl. destruct Hb as [Hb%String.eqb_neq | Hb]; rewrite Hb; [done|].
  by rewrite andb_false_r.
Qed.

Lemma account_overrides_deny_witness :
  ∃ dec, policyDecision (Some (answer "deny")) env0 "plan.execute" "write" empty_ref "medium" 51
         = Ok dec ∧ Decision_ dec = "require_approval".
Proof.
  apply (account_overrides_deny (answer "deny") env0 "plan.execute" empty_ref "medium" 51
           (plain_decision "deny")); [reflexivity|reflexivity|lia|].
  left. vm_compute. discriminate.
Defined.

(** The blast radius never shrinks as the targets grow. *)
Theorem blastRadius_mono ctx t t' :
  (t ≤ t')%Z → (blast_ord (blastRadius ctx t) ≤ blast_ord (blastRadius ctx t'))%Z.
Proof.
  intros Ht. unfold blastRadius.
  destruct (Z.leb_spec t 0), (Z.leb_spec t' 0), (Z.leb_spec t 10), (Z.leb_spec t' 10),
    (Z.leb_spec t 50), (Z.leb_spec t' 50), (blank (Namespace ctx)); cbn [andb negb];
    lia || (vm_compute; discriminate).
Qed.

Lemma blastRadius_mono_witness :
  (10 ≤ 60)%Z ∧ (blast_ord (blastRadius empty_ref 10) ≤ blast_ord (blastRadius empty_ref 60))%Z.
Proof. split; [lia|]. apply (blastRadius_mono empty_ref 10 60). lia. Defined.
