(* ===== verification/Constraints.v ===== *)
(** * Constraints: environments, maintenance windows and target limits

    The constraints a request and the policy engine put on a plan, how they
    are merged, and their enforcement before an execution
    (internal/web/constraints.go).

    Instants are nanoseconds since the Unix epoch.  A time zone is what the Go
    runtime reads from the zone database: for a Unix second, the offset in force
    and the seconds between which it is.  Clock arithmetic does not wrap. *)

From S2P Require Import Prelude GoStrings Json ContextRef Steps.
From Stdlib Require Import Ascii.

Local Open Scope string_scope.

(** ** Reading values *)

Definition intFromAny (value : any) : Z :=
  match value with
  | AInt v | AInt64 v => v
  | AFloat f => float_to_int f
  | _ => 0
  end.

Definition anyToSlice (value : any) : list any :=
  match value with
  | AList v => v
  | AStrs v => map AStr v
  | _ => []
  end.

Definition stringSliceFromAny (value : any) : list string :=
  match value with
  | AStr v => if blank v then [] else [v]
  | AStrs v => v
  | AList v => omap as_string v
  | _ => []
  end.

(** ** Merging *)

Definition copyConstraintMap (out : gmap string any) (src : any) : gmap string any :=
  match src with
  | AMap v => v ∪ out
  | ARaw j => match decode_map j with Ok v => v ∪ out | Err _ => out end
  | ABytes s => match unmarshal_map (doc_of_text s) with Ok v => v ∪ out | Err _ => out end
  | _ => out
  end.

(** The policy's entries win; no entry at all is the nil map. *)
Definition mergeConstraints (request : any) (policy : gmap string any)
    : option (gmap string any) :=
  let out := policy ∪ copyConstraintMap ∅ request in
  if (size out =? 0)%nat then None else Some out.

Definition constraints_any (c : option (gmap string any)) : any :=
  match c with Some m => AMap m | None => ANil end.

Definition constraintsFromPlan (plan : gmap string any) : option (gmap string any) :=
  mergeConstraints (mget plan "constraints") ∅.

(** ** Targets *)

Definition targetsFromInput (input : any) : Z :=
  match input with
  | AMap m =>
      if (size m =? 0)%nat then 0
      else
        let n key := Z.of_nat (length (anyToSlice (mget m key))) in
        if (0 <? n "targets")%Z then n "targets"
        else if (0 <? n "resources")%Z then n "resources"
        else if (0 <? n "namespaces")%Z then n "namespaces"
        else if (0 <? n "items")%Z then n "items"
        else match mget m "resource", mget m "name" with
             | AStr _, _ => 1
             | _, AStr _ => 1
             | _, _ => 0
             end
  | _ => 0
  end.

Definition estimateTargets (steps : list PlanStep) : Z :=
  match steps with
  | [] => 1
  | _ =>
      let count := foldl (λ c step, c + targetsFromInput (Input step))%Z 0%Z steps in
      if (count =? 0)%Z then 1 else count
  end.

(** ** Environments *)

Definition envAllowed (env : string) (constraints : gmap string any) : bool :=
  let allowed := stringSliceFromAny (mget constraints "allowed_envs") in
  let allowed := match allowed with
                 | [] => stringSliceFromAny (mget constraints "environments")
                 | _ => allowed
                 end in
  match allowed with
  | [] => true
  | _ => existsb (λ item, String.eqb (norm item) (norm env)) allowed
  end.

Definition maxTargetsConstraint (constraints : gmap string any) : Z :=
  match constraints !! "max_targets" with
  | None => 0
  | Some val => intFromAny val
  end.

(** ** Maintenance windows *)

(** lookup: the offset at a Unix second and the validity [start, end). *)
Definition zone : Type := Z → Z * Z * Z.
Definition UTC : zone := λ _, (0, - 2 ^ 63, 2 ^ 63 - 1)%Z.

Definition second : Z := 1000000000.

(** The wall clock of [local]: the start of its day, in wall seconds. *)
Definition wall_day (loc : zone) (local : Z) : Z :=
  let sec := (local / second)%Z in
  let wall := (sec + (loc sec).1.1)%Z in
  (wall - wall mod 86400)%Z.

(** time.Date of a wall clock time in [loc]. *)
Definition instant_of (loc : zone) (wall : Z) : Z :=
  let '(offset, start, end_) := loc wall in
  let offset :=
    if (offset =? 0)%Z then 0%Z
    else
      let utc := (wall - offset)%Z in
      if (utc <? start)%Z || (end_ <=? utc)%Z then (loc utc).1.1 else offset in
  ((wall - offset) * second)%Z.

Definition parseClock (loc : zone) (base : Z) (value : string) : result Z :=
  match split_byte ":" (TrimSpace value) with
  | [h; m] =>
      hour ← Atoi h; minute ← Atoi m;
      Ok (instant_of loc (wall_day loc base + hour * 3600 + minute * 60)%Z)
  | _ => Err "invalid time"
  end.

Section window.
(** time.LoadLocation on the zone database; [None] for an error. *)
Variable zones : string → option zone.

Definition location (tz : any) : zone :=
  match tz with
  | AStr name => if String.eqb name "" then UTC else default UTC (zones name)
  | _ => UTC
  end.

Definition withinMaintenanceWindow (constraints : gmap string any) (now : Z) : bool :=
  match mget constraints "maintenance_window" with
  | AMap window =>
      if (size window =? 0)%nat then true
      else
        let startRaw := default "" (as_string (mget window "start")) in
        let endRaw := default "" (as_string (mget window "end")) in
        if blank startRaw || blank endRaw then true
        else
          let loc := location (mget window "timezone") in
          match parseClock loc now startRaw with
          | Err _ => true
          | Ok start =>
              match parseClock loc now endRaw with
              | Err _ => true
              | Ok end_ =>
                  if (end_ <? start)%Z then (start <=? now)%Z || (now <=? end_)%Z
                  else (start <=? now)%Z && (now <=? end_)%Z
              end
          end
  | _ => true
  end.

(** ** Enforcement *)

Definition violated (what : string) : string := "constraints violated: " +:+ what.

Definition enforceConstraints (ctx : ContextRef) (constraints : option (gmap string any))
    (steps : list PlanStep) (now : Z) (actionType : string) : result unit :=
  match constraints with
  | None =>
      if String.eqb actionType "write" && (50 <? estimateTargets steps)%Z
      then Err (violated "max targets exceeded") else Ok tt
  | Some constraints =>
      _ ← check (envAllowed (Environment ctx) constraints) (violated "environment not allowed");
      if String.eqb actionType "write" then
        _ ← check (withinMaintenanceWindow constraints now)
              (violated "outside maintenance window");
        let maxTargets := maxTargetsConstraint constraints in
        let maxTargets := if (maxTargets =? 0)%Z then 50%Z else maxTargets in
        if (0 <? maxTargets)%Z then
          check (estimateTargets steps <=? maxTargets)%Z (violated "max targets exceeded")
        else Ok tt
      else Ok tt
  end.
End window.

#[global] Arguments maxTargetsConstraint : simpl never.
#[global] Arguments estimateTargets : simpl never.
#[global] Arguments envAllowed : simpl never.

(** ** Lemmas *)
Lemma targetsFromInput_nonneg v : (0 ≤ targetsFromInput v)%Z.
Proof. unfold targetsFromInput. repeat case_match; bool_hyps; lia. Qed.

Lemma foldl_targets steps : ∀ c,
  foldl (λ c step, c + targetsFromInput (Input step))%Z c steps
  = (c + foldr (λ step n, targetsFromInput (Input step) + n) 0 steps)%Z.
Proof. induction steps as [|s steps IH]; intros c; simpl; [lia|]. rewrite IH. lia. Qed.

Lemma foldr_targets_nonneg steps :
  (0 ≤ foldr (λ step n, targetsFromInput (Input step) + n) 0 steps)%Z.
Proof.
  induction steps as [|s steps IH]; simpl; [lia|].
  pose proof (targetsFromInput_nonneg (Input s)). lia.
Qed.

Lemma check_ok b e : check b e = Ok tt ↔ b = true.
Proof. destruct b; simpl; split; done. Qed.

Lemma check_then {A} b e (k : unit → result A) a :
  (check b e ≫= k) = Ok a ↔ b = true ∧ k tt = Ok a.
Proof. destruct b; cbn; intuition congruence. Qed.

Lemma map_size_zero (m : gmap string any) : (size m =? 0)%nat = true ↔ m = ∅.
Proof. rewrite Nat.eqb_eq. apply map_size_empty_iff. Qed.

Lemma wall_day_UTC now : wall_day UTC now = (now / second - (now / second) mod 86400)%Z.
Proof. unfold wall_day, UTC. simpl. by rewrite Z.add_0_r. Qed.

Lemma day_bounds now : (wall_day UTC now * second ≤ now < (wall_day UTC now + 86400) * second)%Z.
Proof.
  rewrite wall_day_UTC. unfold second.
  pose proof (Z.div_mod now 1000000000). pose proof (Z.mod_pos_bound now 1000000000).
  pose proof (Z.mod_pos_bound (now / 1000000000) 86400). lia.
Qed.

(** ** Specification *)

(** The limit on targets a write plan has: 50 unless the constraints name
    another; a negative one is no limit. *)
Definition target_limit (constraints : option (gmap string any)) : option Z :=
  match constraints with
  | None => Some 50%Z
  | Some c =>
      let m := maxTargetsConstraint c in
      if (m =? 0)%Z then Some 50%Z else if (m <? 0)%Z then None else Some m
  end.

(** ** Theorems *)

(** A plan passes the constraints exactly when its environment is allowed
    and, for a write, the instant is inside the maintenance window and the
    targets are within the limit; a read is only checked for its environment. *)
Theorem enforceConstraints_ok_iff zones ctx constraints steps now actionType :
  enforceConstraints zones ctx constraints steps now actionType = Ok tt ↔
  (∀ c, constraints = Some c → envAllowed (Environment ctx) c = true) ∧
  (actionType = "write" →
     (∀ c, constraints = Some c → withinMaintenanceWindow zones c now = true) ∧
     (∀ n, target_limit constraints = Some n → (estimateTargets steps ≤ n)%Z)).
Proof.
  unfold enforceConstraints, target_limit.
  destruct constraints as [c|]; simpl.
  - rewrite check_then. destruct (String.eqb_spec actionType "write") as [->|Hw].
    + rewrite check_then.
      destruct (Z.eqb_spec (maxTargetsConstraint c) 0) as [_|Hm]; simpl.
      * rewrite check_ok, Z.leb_le. naive_solver.
      * destruct (Z.ltb_spec 0 (maxTargetsConstraint c)),
          (Z.ltb_spec (maxTargetsConstraint c) 0); try lia.
        -- rewrite check_ok, Z.leb_le. naive_solver.
        -- naive_solver.
    + naive_solver.
  - destruct (String.eqb_spec actionType "write") as [->|Hw]; simpl.
    + destruct (Z.ltb_spec 50 (estimateTargets steps)); split; try done.
      * intros (_ & H'). destruct (H' eq_refl) as [_ H2]. specialize (H2 _ eq_refl). lia.
      * intros _. repeat split; try done. intros n [= <-]. lia.
    + naive_solver.
Qed.

(** Merged constraints answer every key with the policy's value when it has
    one, the request's otherwise. *)
Theorem mergeConstraints_lookup (request policy : gmap string any) k :
  default ∅ (mergeConstraints (AMap request) policy) !! k
  = match policy !! k with Some v => Some v | None => request !! k end.
Proof.
  unfold mergeConstraints. simpl. rewrite (right_id_L ∅ (∪)).
  destruct (size (policy ∪ request) =? 0)%nat eqn:E; simpl.
  - apply map_size_zero in E.
    assert (H := f_equal (lookup k) E). rewrite lookup_union, lookup_empty in H.
    rewrite lookup_empty. destruct (policy !! k), (request !! k); done.
  - rewrite lookup_union. destruct (policy !! k), (request !! k); done.
Qed.

(** In UTC a maintenance window written [HH:MM]-[HH:MM] is a set of times
    of the day, closed at both ends, that wraps over midnight when it ends
    before it starts. *)
Theorem window_time_of_day zones c w now s e hs ms he me h1 m1 h2 m2 :
  mget c "maintenance_window" = AMap w →
  mget w "start" = AStr s → mget w "end" = AStr e → mget w "timezone" = ANil →
  blank s = false → blank e = false →
  split_byte ":" (TrimSpace s) = [hs; ms] →
  split_byte ":" (TrimSpace e) = [he; me] →
  Atoi hs = Ok h1 → Atoi ms = Ok m1 →
  Atoi he = Ok h2 → Atoi me = Ok m2 →
  let tod := (now - wall_day UTC now * second)%Z in
  let from := ((h1 * 3600 + m1 * 60) * second)%Z in
  let to := ((h2 * 3600 + m2 * 60) * second)%Z in
  withinMaintenanceWindow zones c now
  = (if (to <? from)%Z then (from <=? tod)%Z || (tod <=? to)%Z
     else (from <=? tod)%Z && (tod <=? to)%Z).
Proof.
  intros Hw Hs He Htz Bs Be Ss Se A1 A2 A3 A4. cbn zeta.
  unfold withinMaintenanceWindow. rewrite Hw.
  destruct (size w =? 0)%nat eqn:Ew.
  { apply map_size_zero in Ew as ->. discriminate. }
  rewrite Hs, He, Htz. cbn [as_string default]. simpl. rewrite Bs, Be. simpl.
  unfold parseClock. rewrite Ss, Se, A1, A2, A3, A4. cbn [mbind result_bind].
  unfold instant_of, UTC. cbn zeta beta iota. rewrite !Z.eqb_refl. fold UTC.
  set (d := wall_day UTC now). unfold second.
  assert (∀ a b c : Z, (d + a * 3600 + b * 60 - 0) * c = d * c + (a * 3600 + b * 60) * c)%Z
    as Hshift by lia.
  rewrite !Hshift.
  repeat match goal with |- context [Z.ltb ?a ?b] => destruct (Z.ltb_spec a b) end;
  repeat match goal with |- context [Z.leb ?a ?b] => destruct (Z.leb_spec a b) end;
  simpl; lia || done.
Qed.

Definition night_window : gmap string any :=
  amap [("start", AStr "22:00"); ("end", AStr "04:30")].
Definition night : gmap string any := amap [("maintenance_window", AMap night_window)].

Lemma window_time_of_day_witness :
  withinMaintenanceWindow (λ _, None) night (23 * 3600 * second) = true ∧
  withinMaintenanceWindow (λ _, None) night (12 * 3600 * second) = false.
Proof.
  split.
  - exact (eq_trans (window_time_of_day (λ _, None) night night_window (23 * 3600 * second)
      "22:00" "04:30" "22" "00" "04" "30" 22 0 4 30 eq_refl eq_refl eq_refl eq_refl
      eq_refl eq_refl eq_refl eq_refl eq_refl eq_refl eq_refl eq_refl) eq_refl).
  - exact (eq_trans (window_time_of_day (λ _, None) night night_window (12 * 3600 * second)
      "22:00" "04:30" "22" "00" "04" "30" 22 0 4 30 eq_refl eq_refl eq_refl eq_refl
      eq_refl eq_refl eq_refl eq_refl eq_refl eq_refl eq_refl eq_refl) eq_refl).
Defined.
