(* ===== verification/Hubs.v ===== *)
(** * Hubs: the publish/subscribe hubs and their channels

    EventHub and LogHub of internal/web/events.go and LogHub of
    internal/tools/logs.go.  Every method holds the hub's mutex from its first
    statement to its last, so each is one step on the hub.

    A subscription's channel is shared by the hub, which sends and closes, and
    the subscriber, which receives, also after the subscription is cancelled:
    the channels are a store of their own, indexed by the subscription id the
    hub made them for. *)

From S2P Require Import Prelude GoStrings Json.

Local Open Scope string_scope.

Section hub.
Context {A : Type}.

(** A channel of capacity 8. *)
Record chan := mkChan { buf : list A; closed : bool }.

Definition capacity : nat := 8.

(** [select { case ch <- v: default: }] *)
Definition try_send (v : A) (ch : chan) : chan :=
  if (length (buf ch) <? capacity)%nat then mkChan (buf ch ++ [v])%list (closed ch) else ch.

(** [map[string]map[int]chan]: the ids under each key; their channels are in
    [chans]. *)
Record hub := mkHub {
  nextID : nat;
  subs : gmap string (gset nat);
  chans : gmap nat chan }.

Definition new_hub : hub := mkHub 0 ∅ ∅.

Definition subs_of (h : hub) (key : string) : gset nat := default ∅ (subs h !! key).

Definition Subscribe (key : string) (h : hub) : nat * hub :=
  let id := nextID h in
  (id, mkHub (S id) (<[key := {[id]} ∪ subs_of h key]> (subs h))
         (<[id := mkChan [] false]> (chans h))).

(** The function Subscribe returns. *)
Definition cancel (key : string) (id : nat) (h : hub) : hub :=
  match subs h !! key with
  | None => h
  | Some ids =>
      let h1 := if bool_decide (id ∈ ids)
                then mkHub (nextID h) (<[key := ids ∖ {[id]}]> (subs h))
                       (alter (λ ch, mkChan (buf ch) true) id (chans h))
                else h in
      if bool_decide (subs_of h1 key = ∅)
      then mkHub (nextID h1) (delete key (subs h1)) (chans h1) else h1
  end.

(** [for _, ch := range subs { select { case ch <- ev: default: } }] *)
Definition send_all (v : A) (ids : gset nat) (cs : gmap nat chan) : gmap nat chan :=
  map_imap (λ id ch, Some (if bool_decide (id ∈ ids) then try_send v ch else ch)) cs.

Definition send_key (v : A) (key : string) (h : hub) : hub :=
  mkHub (nextID h) (subs h) (send_all v (subs_of h key) (chans h)).

(** EventHub.Publish: the session's subscribers, then the global ones. *)
Definition Publish (ev : A) (sessionID : string) (h : hub) : hub :=
  let h := send_key ev sessionID h in
  if String.eqb sessionID "" then h else send_key ev "" h.

(** [<-ch]: a value, or [None] when the channel is closed and drained; a
    receive on an open empty channel waits and is no step. *)
Definition Receive (id : nat) (h : hub) : option (option A * hub) :=
  match chans h !! id with
  | Some (mkChan (v :: rest) c) =>
      Some (Some v, mkHub (nextID h) (subs h) (<[id := mkChan rest c]> (chans h)))
  | Some (mkChan [] true) => Some (None, h)
  | _ => None
  end.
End hub.
Arguments chan : clear implicits.
Arguments hub : clear implicits.

(** ** LogHub *)

Section loghub.
Context {L : Type}.
(** The key a line is filed under: its tool call, or its execution. *)
Variable line_key : L → string.

Record LogHub := mkLogHub {
  lh_hub : hub L;
  history : gmap string (list L);
  maxLines : Z;
  maxKeys : Z }.

Definition NewLogHub : LogHub := mkLogHub new_hub ∅ 200 500.

(** [history[len(history)-n:]] *)
Definition last_n (n : Z) (l : list L) : list L := drop (length l - Z.to_nat n) l.

(** The eviction loop: [order] is the order in which the range statement
    happens to visit the keys. *)
Fixpoint evict (order : list string) (key : string) (max : Z) (subscribed : gmap string (gset nat))
    (hist : gmap string (list L)) : gmap string (list L) :=
  match order with
  | [] => hist
  | k :: rest =>
      if String.eqb k key then evict rest key max subscribed hist
      else
        let hist := match subscribed !! k with Some _ => hist | None => delete k hist end in
        if (Z.of_nat (size hist) <=? max)%Z then hist
        else evict rest key max subscribed hist
  end.

(** [trim] is the guard of the trimming: [maxLines > 0 &&] in internal/tools,
    absent in internal/web. *)
Definition append_with (trim : Z → bool) (order : list string) (line : L) (h : LogHub) : LogHub :=
  let key := line_key line in
  let lines := (default [] (history h !! key) ++ [line])%list in
  let lines := if trim (maxLines h) && (maxLines h <? Z.of_nat (length lines))%Z
               then last_n (maxLines h) lines else lines in
  let hist := <[key := lines]> (history h) in
  let hist := if (0 <? maxKeys h)%Z && (maxKeys h <? Z.of_nat (size hist))%Z
              then evict order key (maxKeys h) (subs (lh_hub h)) hist else hist in
  mkLogHub (send_key line key (lh_hub h)) hist (maxLines h) (maxKeys h).

Definition tools_Append : list string → L → LogHub → LogHub := append_with (λ n, (0 <? n)%Z).
Definition web_Append : list string → L → LogHub → LogHub := append_with (λ _, true).

Definition History (key : string) (h : LogHub) : list L := default [] (history h !! key).

Definition lh_Subscribe (key : string) (h : LogHub) : nat * LogHub :=
  let '(id, h') := Subscribe key (lh_hub h) in
  (id, mkLogHub h' (history h) (maxLines h) (maxKeys h)).
Definition lh_cancel (key : string) (id : nat) (h : LogHub) : LogHub :=
  mkLogHub (cancel key id (lh_hub h)) (history h) (maxLines h) (maxKeys h).
End loghub.
Arguments LogHub : clear implicits.

(** ** The hub as a transition system *)

Inductive hub_step {A} : hub A → hub A → Prop :=
| step_subscribe key h : hub_step h (Subscribe key h).2
| step_cancel key id h : hub_step h (cancel key id h)
| step_publish ev key h : hub_step h (Publish ev key h)
| step_receive id v h h' : Receive id h = Some (v, h') → hub_step h h'.

(** Every subscribed id is below the counter and has an open channel, is
    subscribed under one key, and no buffer holds more than its capacity;
    no key is left without subscribers. *)
Record hub_ok {A} (h : hub A) : Prop := {
  ok_ids : ∀ key id, id ∈ subs_of h key →
    (id < nextID h)%nat ∧ ∃ b, chans h !! id = Some (mkChan b false);
  ok_one : ∀ k k' id, id ∈ subs_of h k → id ∈ subs_of h k' → k = k';
  ok_cap : ∀ id ch, chans h !! id = Some ch →
    (id < nextID h)%nat ∧ (length (buf ch) ≤ capacity)%nat;
  ok_nonempty : ∀ key, subs h !! key ≠ Some ∅ }.

(** ** Lemmas *)

Section hub_lemmas.
Context {A : Type}.
Implicit Types (h : hub A) (cs : gmap nat (chan A)).

Lemma lookup_send_all v ids cs id :
  send_all v ids cs !! id
  = (if bool_decide (id ∈ ids) then try_send v <$> cs !! id else cs !! id).
Proof.
  unfold send_all. rewrite map_lookup_imap.
  destruct (cs !! id); simpl; case_bool_decide; done.
Qed.

Lemma chans_send_key v key h id :
  chans (send_key v key h) !! id
  = (if bool_decide (id ∈ subs_of h key) then try_send v <$> chans h !! id
     else chans h !! id).
Proof. apply lookup_send_all. Qed.

Lemma try_send_closed v (ch : chan A) : closed (try_send v ch) = closed ch.
Proof. unfold try_send. by case_match. Qed.

Lemma try_send_length v (ch : chan A) :
  (length (buf ch) ≤ capacity → length (buf (try_send v ch)) ≤ capacity)%nat.
Proof.
  unfold try_send. case_match eqn:E; [|done]. simpl. rewrite length_app. simpl.
  apply Nat.ltb_lt in E. lia.
Qed.

Lemma subs_of_insert h key ids n cs key' :
  subs_of (mkHub n (<[key := ids]> (subs h)) cs : hub A) key'
  = if bool_decide (key = key') then ids else subs_of h key'.
Proof.
  unfold subs_of. simpl. case_bool_decide; subst;
    [by rewrite lookup_insert_eq|by rewrite lookup_insert_ne].
Qed.

Lemma hub_ok_new : hub_ok (new_hub : hub A).
Proof.
  split; unfold subs_of; simpl.
  - intros key id. rewrite lookup_empty. set_solver.
  - intros k k' id. rewrite lookup_empty. set_solver.
  - intros id ch. by rewrite lookup_empty.
  - intros key. by rewrite lookup_empty.
Qed.

Lemma hub_ok_subscribe key h : hub_ok h → hub_ok (Subscribe key h).2.
Proof.
  intros [Hids Hone Hcap Hne]. unfold Subscribe. simpl.
  assert (Hfresh : ∀ k, nextID h ∉ subs_of h k).
  { intros k Hin. destruct (Hids _ _ Hin). lia. }
  split; simpl.
  - intros k id. rewrite subs_of_insert. case_bool_decide; subst.
    + rewrite elem_of_union, elem_of_singleton. intros [-> | Hin].
      * split; [lia|]. exists []. by rewrite lookup_insert_eq.
      * destruct (Hids _ _ Hin) as [? [b Hb]]. split; [lia|]. exists b.
        rewrite lookup_insert_ne by lia. done.
    + intros Hin. destruct (Hids _ _ Hin) as [? [b Hb]]. split; [lia|]. exists b.
      rewrite lookup_insert_ne by lia. done.
  - intros k k' id. rewrite !subs_of_insert.
    pose proof (Hone k k' id). pose proof (Hfresh k). pose proof (Hfresh k').
    repeat case_bool_decide; subst; try done; set_solver.
  - intros id ch. destruct (decide (id = nextID h)) as [->|].
    + rewrite lookup_insert_eq. intros [= <-]. simpl. unfold capacity. lia.
    + rewrite lookup_insert_ne by done. intros Hch. destruct (Hcap _ _ Hch). lia.
  - intros k. destruct (decide (key = k)) as [->|].
    + rewrite lookup_insert_eq. intros [=]. set_solver.
    + by rewrite lookup_insert_ne.
Qed.

Lemma hub_ok_send v key h : hub_ok h → hub_ok (send_key v key h).
Proof.
  intros [Hids Hone Hcap Hne]. split; simpl.
  - intros k id Hin. destruct (Hids k id Hin) as [? [b Hb]]. split; [done|].
    fold (send_key v key h). rewrite lookup_send_all, Hb.
    case_bool_decide; [|by exists b]. simpl. unfold try_send.
    case_match; by eexists.
  - done.
  - intros id ch. rewrite lookup_send_all. case_bool_decide; [|by apply Hcap].
    rewrite fmap_Some. intros (ch0 & Hch & ->). destruct (Hcap _ _ Hch).
    split; [done|]. by apply try_send_length.
  - done.
Qed.

Lemma hub_ok_publish v key h : hub_ok h → hub_ok (Publish v key h).
Proof. intros. unfold Publish. case_match; auto using hub_ok_send. Qed.
End hub_lemmas.

Section cancel_lemmas.
Context {A : Type}.
Implicit Types (h : hub A).

Lemma subs_of_delete n key k (s : gmap string (gset nat)) (cs : gmap nat (chan A)) :
  subs_of (mkHub n (delete key s) cs) k
  = if bool_decide (key = k) then ∅ else default ∅ (s !! k).
Proof.
  unfold subs_of. simpl. case_bool_decide; subst;
    [by rewrite lookup_delete_eq|by rewrite lookup_delete_ne].
Qed.

Lemma subs_of_cancel key id h k :
  subs_of (cancel key id h) k
  = if bool_decide (key = k) then subs_of h key ∖ {[id]} else subs_of h k.
Proof.
  unfold cancel. destruct (subs h !! key) as [ids|] eqn:E.
  2: { case_bool_decide; subst; [|done]. unfold subs_of. rewrite E. set_solver. }
  assert (Eids : subs_of h key = ids) by (unfold subs_of; by rewrite E).
  destruct (decide (id ∈ ids)) as [Hin|Hin].
  - rewrite (bool_decide_eq_true_2 _ Hin), subs_of_insert,
      (bool_decide_eq_true_2 (key = key) eq_refl).
    case_bool_decide as Hemp.
    + rewrite subs_of_delete. case_bool_decide; [subst; set_solver|].
      simpl. by rewrite lookup_insert_ne.
    + rewrite subs_of_insert. case_bool_decide; [by rewrite Eids|done].
  - rewrite (bool_decide_eq_false_2 _ Hin), Eids.
    case_bool_decide as Hemp.
    + subst ids. rewrite subs_of_delete. case_bool_decide; [set_solver|done].
    + case_bool_decide; subst; set_solver.
Qed.

Lemma chans_cancel key id h :
  chans (cancel key id h)
  = if bool_decide (id ∈ subs_of h key)
    then alter (λ ch, mkChan (buf ch) true) id (chans h) else chans h.
Proof.
  unfold cancel, subs_of. destruct (subs h !! key) as [ids|]; simpl; [|done].
  destruct (decide (id ∈ ids)) as [Hin|Hin];
    [rewrite !(bool_decide_eq_true_2 _ Hin)|rewrite !(bool_decide_eq_false_2 _ Hin)];
    case_bool_decide; done.
Qed.

Lemma nextID_cancel key id h : nextID (cancel key id h) = nextID h.
Proof. unfold cancel. repeat case_match; done. Qed.

Lemma hub_ok_cancel key id h : hub_ok h → hub_ok (cancel key id h).
Proof.
  intros [Hids Hone Hcap Hne]. split.
  - intros k id' Hin. rewrite nextID_cancel, chans_cancel.
    assert (Hin' : id' ∈ subs_of h k ∧ (k = key → id' ≠ id)).
    { rewrite subs_of_cancel in Hin. case_bool_decide; subst; set_solver. }
    destruct Hin' as [Hin' Hnid]. destruct (Hids _ _ Hin') as [? [b Hb]].
    split; [done|]. exists b. case_bool_decide as Hc; [|done].
    rewrite lookup_alter_ne; [done|]. intros ->.
    apply Hnid; [|done]. by apply (Hone _ _ id').
  - intros k k' id'. rewrite !subs_of_cancel. pose proof (Hone k k' id').
    repeat case_bool_decide; subst; set_solver.
  - intros id' ch. rewrite nextID_cancel, chans_cancel.
    case_bool_decide; [|by apply Hcap].
    destruct (decide (id = id')) as [->|]; [|rewrite lookup_alter_ne by done; by apply Hcap].
    rewrite lookup_alter_eq, fmap_Some. intros (ch0 & Hch & ->). by apply (Hcap _ ch0).
  - intros k Hk. unfold cancel in Hk.
    destruct (subs h !! key) as [ids|] eqn:E; [|by apply (Hne k)].
    destruct (decide (id ∈ ids)) as [Hin|Hin];
      [rewrite (bool_decide_eq_true_2 _ Hin) in Hk|rewrite (bool_decide_eq_false_2 _ Hin) in Hk];
      case_bool_decide as He; simpl in Hk.
    2: { unfold subs_of in He. simpl in He. rewrite lookup_insert_eq in He. simpl in He.
         apply lookup_insert_Some in Hk as [[??]|[? Hk]]; [done|by apply (Hne k)]. }
    3: by apply (Hne k).
    all: apply lookup_delete_Some in Hk as [Hk0 Hk];
      rewrite ?lookup_insert_ne in Hk by done; by apply (Hne k).
Qed.

Lemma hub_ok_pop id v rest c h :
  hub_ok h → chans h !! id = Some (mkChan (v :: rest) c) →
  hub_ok (mkHub (nextID h) (subs h) (<[id := mkChan rest c]> (chans h))).
Proof.
  intros [Hids Hone Hcap Hne] E. split; simpl; try done.
  - intros k id' Hin. destruct (Hids k id' Hin) as [? [b Hb]]. split; [done|].
    destruct (decide (id = id')) as [->|].
    + rewrite lookup_insert_eq. rewrite E in Hb. simplify_eq. by eexists.
    + rewrite lookup_insert_ne by done. by exists b.
  - intros id' ch. destruct (decide (id = id')) as [->|];
      [rewrite lookup_insert_eq|rewrite lookup_insert_ne by done; by apply Hcap].
    intros [= <-]. destruct (Hcap _ _ E) as [? Hl]. simpl in *. split; [done|lia].
Qed.

Lemma hub_ok_receive id v h h' : hub_ok h → Receive id h = Some (v, h') → hub_ok h'.
Proof.
  intros Hok. unfold Receive.
  destruct (chans h !! id) as [[[|x rest] [|]]|] eqn:E; intros [=]; subst;
    eauto using hub_ok_pop.
Qed.

Lemma hub_step_ok h h' : hub_ok h → hub_step h h' → hub_ok h'.
Proof.
  intros Hok Hs. destruct Hs;
    eauto using hub_ok_subscribe, hub_ok_cancel, hub_ok_publish, hub_ok_receive.
Qed.
End cancel_lemmas.

#[export] Hint Resolve hub_ok_new hub_ok_subscribe hub_ok_cancel hub_ok_publish : go.

(** ** Specification of a subscriber's view *)

(** The events a subscriber of [key] is sent: those of its session, or all of
    them for the global key. *)
Definition relevant {A} (key : string) (ev : string * A) : bool :=
  String.eqb key "" || String.eqb (fst ev) key.

Definition publish_list {A} (evs : list (string * A)) (h : hub A) : hub A :=
  foldl (λ h ev, Publish (snd ev) (fst ev) h) h evs.

Section delivery.
Context {A : Type}.
Implicit Types (h : hub A).

Lemma chans_Publish ev s h id :
  hub_ok h →
  chans (Publish ev s h) !! id
  = (if bool_decide (id ∈ subs_of h s ∪ subs_of h "")
     then try_send ev <$> chans h !! id else chans h !! id).
Proof.
  intros [_ Hone _ _]. unfold Publish.
  destruct (String.eqb_spec s "") as [->|Hs].
  - rewrite chans_send_key. repeat case_bool_decide; set_solver.
  - rewrite chans_send_key. change (subs_of (send_key ev s h) "") with (subs_of h "").
    rewrite chans_send_key. pose proof (Hone s "" id).
    repeat case_bool_decide; try set_solver.
Qed.

Lemma subs_of_Publish ev s h k : subs_of (Publish ev s h) k = subs_of h k.
Proof. unfold Publish. by case_match. Qed.

Lemma publish_list_buf evs : ∀ h key id b,
  hub_ok h → id ∈ subs_of h key → chans h !! id = Some (mkChan b false) →
  (length b ≤ capacity)%nat →
  chans (publish_list evs h) !! id
  = Some (mkChan (take capacity (b ++ map snd (List.filter (relevant key) evs))%list) false).
Proof.
  induction evs as [|[s ev] evs IH]; intros h key id b Hok Hin Hch Hb; simpl.
  { by rewrite app_nil_r, take_ge. }
  assert (Hok' : hub_ok (Publish ev s h)) by (by apply hub_ok_publish).
  assert (Hin' : id ∈ subs_of (Publish ev s h) key) by (by rewrite subs_of_Publish).
  pose proof (chans_Publish ev s h id Hok) as Hc. rewrite Hch in Hc. simpl in Hc.
  destruct (relevant key (s, ev)) eqn:Hr; unfold relevant in Hr; simpl in Hr.
  - assert (id ∈ subs_of h s ∪ subs_of h "") as Hs.
    { apply orb_true_iff in Hr as [->%String.eqb_eq | ->%String.eqb_eq]; set_solver. }
    rewrite bool_decide_eq_true_2 in Hc by done. unfold try_send in Hc. simpl in Hc.
    destruct (Nat.ltb_spec (length b) capacity).
    + fold (publish_list evs (Publish ev s h)).
      erewrite (IH _ key _ _ Hok' Hin' Hc); [by rewrite <- app_assoc|].
      rewrite length_app. simpl. lia.
    + fold (publish_list evs (Publish ev s h)).
      erewrite (IH _ key _ _ Hok' Hin' Hc) by done.
      rewrite !take_app_ge by lia. assert (capacity - length b = 0)%nat as -> by lia. done.
  - fold (publish_list evs (Publish ev s h)). apply orb_false_iff in Hr as [Hk Hsk].
    apply String.eqb_neq in Hk, Hsk.
    rewrite bool_decide_eq_false_2 in Hc.
    + by apply (IH _ key _ _ Hok' Hin' Hc).
    + pose proof (ok_one _ Hok s key id). pose proof (ok_one _ Hok "" key id). set_solver.
Qed.
End delivery.

(** ** Theorems: EventHub *)

(** C31: the hub's invariant holds in every state reachable by subscriptions,
    cancellations, publications and receptions in any order: a subscribed
    channel is open and known to one key only, a closed channel is never sent
    to, no buffer exceeds its capacity and no empty subscription set is kept. *)
Theorem hub_invariant {A} (h : hub A) : rtc hub_step new_hub h → hub_ok h.
Proof.
  revert h. apply (rtc_ind_r (R := hub_step)); eauto using hub_ok_new, hub_step_ok.
Qed.

Lemma hub_invariant_witness :
  hub_ok (Publish 7%nat "s" (Subscribe "s" (new_hub : hub nat)).2).
Proof.
  apply hub_invariant. eapply rtc_l; [apply (step_subscribe "s")|].
  eapply rtc_l; [apply (step_publish 7%nat "s")|]. apply rtc_refl.
Defined.

(** Session isolation and drop-when-full: after a fresh subscription to
    [key], whatever is published, the subscriber's buffer is the first eight of
    the events of its own session (of all sessions for the global key), in
    order, and nothing of another session. *)
Theorem subscriber_view {A} (h : hub A) key evs :
  hub_ok h →
  let '(id, h1) := Subscribe key h in
  chans (publish_list evs h1) !! id
  = Some (mkChan (take capacity (map snd (List.filter (relevant key) evs))) false).
Proof.
  intros Hok. unfold Subscribe. simpl.
  apply (publish_list_buf evs _ key (nextID h) []).
  - by apply (hub_ok_subscribe key).
  - rewrite subs_of_insert, bool_decide_eq_true_2 by done. set_solver.
  - simpl. by rewrite lookup_insert_eq.
  - simpl. lia.
Qed.

Lemma subscriber_view_witness :
  chans (publish_list [("a", 1%nat); ("b", 2%nat)] (Subscribe "a" new_hub).2) !! 0%nat
  = Some (mkChan [1%nat] false).
Proof. exact (subscriber_view new_hub "a" [("a", 1%nat); ("b", 2%nat)] hub_ok_new). Defined.

(** Cancelling closes the subscriber's channel once and for all: nothing
    published later reaches it, other subscriptions are as they were, and a
    second call does nothing. *)
Theorem cancel_closes {A} (h : hub A) key id ch ev s :
  hub_ok h → id ∈ subs_of h key → chans h !! id = Some ch →
  let h' := cancel key id h in
  chans h' !! id = Some (mkChan (buf ch) true) ∧
  chans (Publish ev s h') !! id = Some (mkChan (buf ch) true) ∧
  (∀ id', id' ≠ id → chans h' !! id' = chans h !! id') ∧
  cancel key id h' = h'.
Proof.
  intros Hok Hin Hch h'.
  assert (Hok' : hub_ok h') by (by apply hub_ok_cancel).
  assert (Hc : chans h' !! id = Some (mkChan (buf ch) true)).
  { unfold h'. by rewrite chans_cancel, bool_decide_eq_true_2, lookup_alter_eq, Hch. }
  assert (Hno : ∀ k, id ∉ subs_of h' k).
  { intros k Hk. destruct (ok_ids _ Hok' _ _ Hk) as [_ [b Hb]]. congruence. }
  repeat split.
  - done.
  - rewrite chans_Publish, bool_decide_eq_false_2 by (done || (pose proof (Hno s);
      pose proof (Hno ""); set_solver)). done.
  - intros id' Hne. unfold h'. rewrite chans_cancel, bool_decide_eq_true_2 by done.
    by rewrite lookup_alter_ne.
  - pose proof (Hno key) as Hk. unfold cancel at 1.
    destruct (subs h' !! key) as [ids|] eqn:E; [|done].
    unfold subs_of in Hk. rewrite E in Hk. simpl in Hk.
    rewrite (bool_decide_eq_false_2 _ Hk), bool_decide_eq_false_2; [done|].
    unfold subs_of. rewrite E. simpl. intros ->. by apply (ok_nonempty _ Hok' key).
Qed.

Lemma cancel_closes_witness :
  chans (cancel "a" 0 (Subscribe "a" (new_hub : hub nat)).2) !! 0%nat = Some (mkChan [] true).
Proof.
  apply (cancel_closes (Subscribe "a" (new_hub : hub nat)).2 "a" 0 (mkChan [] false) 1%nat "a").
  - apply hub_ok_subscribe, hub_ok_new.
  - apply (bool_decide_unpack _). vm_compute. exact I.
  - reflexivity.
Defined.

(** ** Log history *)

Section loghub_lemmas.
Context {L : Type}.
Implicit Types (hist : gmap string (list L)).

Lemma last_n_length n (l : list L) : (0 ≤ n)%Z → (Z.of_nat (length (last_n n l)) ≤ n)%Z.
Proof. intros. unfold last_n. rewrite length_drop. lia. Qed.

Lemma last_n_short n (l : list L) : (Z.of_nat (length l) ≤ n)%Z → last_n n l = l.
Proof. intros. unfold last_n. by replace (length l - Z.to_nat n)%nat with 0%nat by lia. Qed.

(** Eviction keeps an entry as it is or removes one that nobody follows, and
    never the key just written. *)
Lemma evict_lookup order key max subscribed : ∀ hist k,
  evict order key max subscribed hist !! k = hist !! k ∨
  (evict order key max subscribed hist !! k = None ∧ k ≠ key ∧ subscribed !! k = None).
Proof.
  induction order as [|x rest IH]; intros hist k; simpl; [by left|].
  destruct (String.eqb_spec x key) as [->|Hx]; [apply IH|].
  set (hist' := match subscribed !! x with Some _ => hist | None => delete x hist end).
  assert (Hstep : hist' !! k = hist !! k ∨
                  (hist' !! k = None ∧ k ≠ key ∧ subscribed !! k = None)).
  { unfold hist'. destruct (subscribed !! x) eqn:E; [by left|].
    destruct (decide (x = k)) as [->|]; [right|left; by rewrite lookup_delete_ne].
    by rewrite lookup_delete_eq. }
  case_match; [done|].
  destruct (IH hist' k) as [-> | (-> & ? & ?)]; [done|by right].
Qed.

(** Once every key has been visited, the size is within bounds or only the key
    just written and followed keys are left. *)
Lemma evict_size order key max subscribed : ∀ hist,
  (∀ k, is_Some (hist !! k) → k ∈ order ∨ k = key ∨ is_Some (subscribed !! k)) →
  let hist' := evict order key max subscribed hist in
  (Z.of_nat (size hist') ≤ max)%Z ∨
  (∀ k, is_Some (hist' !! k) → k = key ∨ is_Some (subscribed !! k)).
Proof.
  induction order as [|x rest IH]; intros hist Hdom; simpl.
  { right. intros k Hk. destruct (Hdom k Hk) as [?|?]; [set_solver|done]. }
  destruct (String.eqb_spec x key) as [->|Hx].
  { apply IH. intros k Hk. destruct (Hdom k Hk); set_solver. }
  case_match eqn:E; [left; by bool_hyps|].
  apply IH. intros k Hk.
  destruct (subscribed !! x) as [ids|] eqn:Es.
  - destruct (Hdom k Hk) as [Hin|?]; [|by right].
    apply elem_of_cons in Hin as [-> |?]; [right; right; by rewrite Es|by left].
  - destruct (decide (x = k)) as [->|Hne].
    + rewrite lookup_delete_eq in Hk. by destruct Hk.
    + rewrite lookup_delete_ne in Hk by done.
      destruct (Hdom k Hk) as [Hin|?]; [|by right].
      apply elem_of_cons in Hin as [-> |?]; [done|by left].
Qed.
End loghub_lemmas.

(** The log history of a tool call (or execution) is the last [maxLines]
    lines appended to it, at most [maxLines] long; appending never touches
    another history except to drop one without subscribers, and when the range
    statement visits every key the number of histories is back within
    [maxKeys] unless all the others are followed. *)
Theorem append_history {L} (line_key : L → string) (order : list string) line (h : LogHub L) :
  (0 < maxLines h)%Z →
  (∀ k, is_Some (history h !! k) → k ∈ order) →
  let h' := tools_Append line_key order line h in
  let key := line_key line in
  h' = web_Append line_key order line h ∧
  History key h' = last_n (maxLines h) (History key h ++ [line])%list ∧
  (Z.of_nat (length (History key h')) ≤ maxLines h)%Z ∧
  (∀ k, k ≠ key → history h' !! k = history h !! k ∨
                  (history h' !! k = None ∧ subs (lh_hub h) !! k = None)) ∧
  ((0 < maxKeys h)%Z → (Z.of_nat (size (history h')) ≤ maxKeys h)%Z ∨
     ∀ k, is_Some (history h' !! k) → k = key ∨ is_Some (subs (lh_hub h) !! k)).
Proof.
  intros Hpos Hord h' key.
  set (lines := (default [] (history h !! key) ++ [line])%list).
  set (kept := last_n (maxLines h) lines).
  set (hist := <[key := kept]> (history h)).
  assert (Hh' : history h' =
    if (0 <? maxKeys h)%Z && (maxKeys h <? Z.of_nat (size hist))%Z
    then evict order key (maxKeys h) (subs (lh_hub h)) hist else hist).
  { unfold h', tools_Append, append_with. simpl. fold key. fold lines.
    rewrite (proj2 (Z.ltb_lt _ _) Hpos). cbn [andb].
    assert ((if (maxLines h <? Z.of_nat (length lines))%Z then last_n (maxLines h) lines
             else lines) = kept) as ->; [|done].
    case_match; [done|]. bool_hyps. symmetry. by apply last_n_short. }
  assert (Hlk : ∀ k, history h' !! k = hist !! k ∨
    (history h' !! k = None ∧ k ≠ key ∧ subs (lh_hub h) !! k = None)).
  { intros k. rewrite Hh'. case_match; [apply evict_lookup|by left]. }
  assert (HH : History key h' = kept).
  { unfold History. destruct (Hlk key) as [-> | (_ & ? & _)]; [|done].
    unfold hist. by rewrite lookup_insert_eq. }
  repeat split.
  - unfold h', tools_Append, web_Append, append_with.
    by rewrite (proj2 (Z.ltb_lt _ _) Hpos).
  - rewrite HH. done.
  - rewrite HH. apply last_n_length. lia.
  - intros k Hk. destruct (Hlk k) as [-> | (? & _ & ?)]; [left|by right].
    unfold hist. by rewrite lookup_insert_ne.
  - intros Hk. rewrite Hh'. rewrite (proj2 (Z.ltb_lt _ _) Hk). cbn [andb].
    destruct (Z.ltb_spec (maxKeys h) (Z.of_nat (size hist))); [|left; lia].
    apply evict_size. intros k. unfold hist.
    destruct (decide (key = k)) as [->|]; [auto|].
    rewrite lookup_insert_ne by done. auto.
Qed.

Definition full_log : LogHub nat :=
  mkLogHub (Subscribe "y" new_hub).2 (list_to_map [("x", [1%nat]); ("y", [2%nat; 3%nat])]) 2 2.

Lemma append_history_witness :
  History "y" (tools_Append (λ _, "y") ["x"; "y"] 4%nat full_log) = [3%nat; 4%nat].
Proof.
  refine (eq_trans (proj1 (proj2 (append_history (λ _, "y") ["x"; "y"] 4%nat full_log _ _))) eq_refl).
  - reflexivity.
  - intros k [v Hv]. unfold full_log in Hv. cbn [history] in Hv.
    apply elem_of_list_to_map_2 in Hv. set_solver.
Defined.
