(* ===== verification/ToolCommands.v ===== *)
(** * ToolCommands: the command lines built for each tool

    One function per tool of internal/tools/commands.go, from the action and
    the decoded input to the argument vector, and the dispatcher of
    router_exec.go. *)

From S2P Require Import Prelude GoStrings Json.

Local Open Scope string_scope.
Local Open Scope list_scope.

(** ** Reading the input *)

(** [m, _ := input.(map[string]any)] *)
Definition input_obj (input : any) : gmap string any := default ∅ (as_map input).

(** [v, _ := m[key].(string)] *)
Definition str (m : gmap string any) (key : string) : string :=
  default "" (as_string (mget m key)).

Definition intFromAny_cmd (v : any) : Z :=
  match v with AInt t => t | AFloat f => float_to_int f | _ => 0 end.

Definition intFromAnyOK (v : any) : option Z :=
  match v with
  | AInt t | AInt64 t => Some t
  | AFloat f => Some (float_to_int f)
  | _ => None
  end.

(** [if v, ok := m[key].(string); ok && v != "" { cmd = append(cmd, flag, v) }] *)
Definition opt_flag (m : gmap string any) (key flag : string) (cmd : list string) : list string :=
  if str m key =? "" then cmd else cmd ++ [flag; str m key].

(** The same for a switch without a value. *)
Definition opt_switch (m : gmap string any) (key flag : string) (cmd : list string) : list string :=
  match as_bool (mget m key) with
  | Some true => cmd ++ [flag]
  | _ => cmd
  end.

(** The non-empty strings of a list value. *)
Definition nonempty_strings (v : any) : list string :=
  match v with
  | AList l => List.filter (λ s, negb (s =? "")) (omap as_string l)
  | _ => []
  end.

(** ** kubectl *)

Definition BuildKubectlCmd (action : string) (input : any) : list string :=
  let m := input_obj input in
  if action =? "scale" then
    let cmd := ["kubectl"; "scale"; str m "resource";
                "--replicas=" +:+ itoa (intFromAny_cmd (mget m "replicas"))] in
    let cmd := match intFromAnyOK (mget m "current_replicas") with
               | Some current => cmd ++ ["--current-replicas=" +:+ itoa current]
               | None => cmd
               end in
    if str m "resource_version" =? "" then cmd
    else cmd ++ ["--resource-version=" +:+ str m "resource_version"]
  else if action =? "rollout-status" then
    ["kubectl"; "rollout"; "status"; str m "resource"]
  else if action =? "get" then
    opt_flag m "selector" "--selector"
      (opt_flag m "namespace" "-n" ["kubectl"; "get"; str m "resource"; "-o"; "json"])
  else if action =? "watch" then
    let cmd := opt_flag m "resource_version" "--resource-version"
      (opt_flag m "selector" "--selector"
        (opt_flag m "namespace" "-n"
          ["kubectl"; "get"; str m "resource"; "-o"; "json"; "--watch";
           "--output-watch-events"])) in
    let cmd := opt_switch m "allow_bookmarks" "--allow-watch-bookmarks" cmd in
    let cmd := match as_bool (mget m "send_initial_events") with
               | Some false => cmd ++ ["--watch-only"]
               | _ => cmd
               end in
    match intFromAnyOK (mget m "timeout_seconds") with
    | Some timeout => if (0 <? timeout)%Z
                      then cmd ++ ["--request-timeout=" +:+ itoa timeout +:+ "s"] else cmd
    | None => cmd
    end
  else ["kubectl"].

(** ** helm *)

Definition BuildHelmCmd (action : string) (input : any) : list string :=
  let m := input_obj input in
  let release := str m "release" in
  if action =? "status" then
    opt_flag m "namespace" "--namespace" ["helm"; "status"; release]
  else if action =? "list" then
    opt_flag m "namespace" "--namespace" ["helm"; "list"; "-o"; "json"]
  else if action =? "get" then
    opt_flag m "namespace" "--namespace" ["helm"; "get"; "all"; release]
  else if action =? "upgrade" then
    let chart := str m "chart" in
    let valuesFile := str m "values_file" in
    if chart =? "" then
      if valuesFile =? "" then
        opt_flag m "namespace" "--namespace" ["helm"; "upgrade"; "--install"; release]
      else
        opt_flag m "namespace" "--namespace"
          ["helm"; "upgrade"; "--install"; release; "-f"; valuesFile]
    else if valuesFile =? "" then
      opt_flag m "namespace" "--namespace" ["helm"; "upgrade"; "--install"; release; chart]
    else
      opt_flag m "namespace" "--namespace"
        ["helm"; "upgrade"; "--install"; release; chart; "-f"; valuesFile]
  else if action =? "rollback" then
    opt_flag m "namespace" "--namespace" ["helm"; "rollback"; release]
  else ["helm"].

(** ** argocd *)

Definition BuildArgoCmd (action : string) (input : any) : list string :=
  let m := input_obj input in
  let app := str m "app" in
  if action =? "sync" then ["argocd"; "app"; "sync"; app]
  else if action =? "sync-dry-run" then ["argocd"; "app"; "sync"; app; "--dry-run"]
  else if action =? "sync-preview" then
    ["argocd"; "app"; "sync"; app; "--dry-run"; "--preview-changes"]
  else if action =? "wait" then ["argocd"; "app"; "wait"; app; "--health"]
  else if action =? "rollback" then
    if str m "revision" =? "" then ["argocd"; "app"; "rollback"; app]
    else ["argocd"; "app"; "rollback"; app; str m "revision"]
  else if action =? "status" then ["argocd"; "app"; "get"; app; "-o"; "json"]
  else if action =? "list" then ["argocd"; "app"; "list"; "-o"; "json"]
  else if action =? "project_token_create" then
    ["argocd"; "proj"; "role"; "create-token"; str m "project"; str m "role"]
  else if action =? "project_token_delete" then
    ["argocd"; "proj"; "role"; "delete-token"; str m "project"; str m "role"; str m "token_id"]
  else ["argocd"].

(** ** aws *)

Definition aws_filter (f : any) : list string :=
  match f with
  | AMap fm =>
      let key := str fm "key" in
      let vals := nonempty_strings (mget fm "values") in
      if key =? "" then []
      else match vals with
           | [] => []
           | _ => ["--tag-filters"; "Key=" +:+ key +:+ ",Values=" +:+ join vals ","]
           end
  | _ => []
  end.

Definition aws_attribute (attr : any) : list string :=
  match attr with
  | AMap am =>
      let key := str am "key" in
      let val := str am "value" in
      if (key =? "") || (val =? "") then []
      else ["--lookup-attributes"; "AttributeKey=" +:+ key +:+ ",AttributeValue=" +:+ val]
  | _ => []
  end.

Definition BuildAwsCmd (action : string) (input : any) : list string :=
  let m := input_obj input in
  let withRegion cmd := opt_flag m "region" "--region" cmd in
  let withOutput cmd :=
    if str m "output" =? "" then cmd ++ ["--output"; "json"]
    else cmd ++ ["--output"; str m "output"] in
  if action =? "assume-role" then
    let sessionName := if str m "session_name" =? "" then "carapulse" else str m "session_name" in
    let cmd := ["aws"; "sts"; "assume-role"; "--role-arn"; str m "role_arn";
                "--role-session-name"; sessionName] in
    let cmd := match intFromAnyOK (mget m "duration_seconds") with
               | Some dur => if (0 <? dur)%Z
                             then cmd ++ ["--duration-seconds=" +:+ itoa dur] else cmd
               | None => cmd
               end in
    withOutput (withRegion cmd)
  else if action =? "tagging-get-resources" then
    let cmd := ["aws"; "resourcegroupstaggingapi"; "get-resources"] in
    withOutput (withRegion
      (cmd ++ match mget m "tag_filters" with AList l => concat (map aws_filter l) | _ => [] end))
  else if action =? "cloudtrail-lookup-events" then
    let cmd := ["aws"; "cloudtrail"; "lookup-events"] in
    withOutput (withRegion
      (cmd ++ match mget m "lookup_attributes" with
              | AList l => concat (map aws_attribute l) | _ => [] end))
  else if action =? "cloudwatch-get-metric-data" then
    let cmd := ["aws"; "cloudwatch"; "get-metric-data"] in
    let cmd := match m !! "metric_data_queries" with
               | Some queries =>
                   match to_json queries with
                   | Some data => cmd ++ ["--metric-data-queries"; print_json data]
                   | None => cmd
                   end
               | None => cmd
               end in
    withOutput (withRegion cmd)
  else ["aws"; action].

(** ** vault, boundary *)

Definition BuildVaultCmd (action : string) (input : any) : list string :=
  let m := input_obj input in
  if action =? "health" then ["vault"; "status"; "-format=json"]
  else if action =? "audit_enable" then
    let typ := if str m "type" =? "" then "file" else str m "type" in
    let path := str m "path" in
    let cmd := ["vault"; "audit"; "enable"; typ] in
    if negb (path =? "") && EqualFold typ "file" then cmd ++ ["file_path=" +:+ path] else cmd
  else if action =? "token_renew" then ["vault"; "token"; "renew"]
  else ["vault"; action].

Definition BuildBoundaryCmd (action : string) (_ : any) : list string := ["boundary"; action].

(** ** github, gitlab *)

Definition repeat_flag (flag : string) (l : list string) : list string :=
  concat (map (λ s, [flag; s]) l).

(** [if v != "" { cmd = append(cmd, "-f", name+"="+v) }] *)
Definition opt_field (name v : string) (cmd : list string) : list string :=
  if v =? "" then cmd else cmd ++ ["-f"; name +:+ "=" +:+ v].

Definition fill_if_bare (cmd : list string) : list string :=
  if (length cmd =? 3)%nat then cmd ++ ["--fill"] else cmd.

Definition commit_status_fields (m : gmap string any) (cmd : list string) : list string :=
  opt_field "target_url" (str m "target_url")
    (opt_field "description" (str m "description")
      (opt_field "context" (str m "context") cmd)).

Definition BuildGhCmd (action : string) (input : any) : list string :=
  let m := input_obj input in
  if action =? "pr" then
    let cmd := opt_switch m "draft" "--draft"
      (opt_flag m "head" "--head" (opt_flag m "base" "--base"
        (opt_flag m "body" "--body" (opt_flag m "title" "--title" ["gh"; "pr"; "create"])))) in
    fill_if_bare (cmd ++ repeat_flag "--label" (nonempty_strings (mget m "labels"))
                      ++ repeat_flag "--reviewer" (nonempty_strings (mget m "reviewers")))
  else if action =? "pr_status" then
    ["gh"; "pr"; "status"; "--json"; "number,url,headRefName,headRefOid,state"]
  else if action =? "pr_merge" then
    let method := ToLower (str m "method") in
    ["gh"; "pr"; "merge"; str m "pr";
     if method =? "squash" then "--squash"
     else if method =? "rebase" then "--rebase" else "--merge"]
  else if action =? "pr_view" then
    ["gh"; "pr"; "view"; str m "pr"; "--json";
     "number,url,headRefName,headRefOid,state,mergeCommit"]
  else if action =? "branch_create" then
    ["gh"; "api"; "-X"; "POST"; "repos/" +:+ str m "repo" +:+ "/git/refs";
     "-f"; "ref=" +:+ ("refs/heads/" +:+ str m "branch"); "-f"; "sha=" +:+ str m "sha"]
  else if action =? "commit_status" then
    commit_status_fields m
      ["gh"; "api"; "-X"; "POST"; "repos/" +:+ str m "repo" +:+ "/statuses/" +:+ str m "sha";
       "-f"; "state=" +:+ str m "state"]
  else ["gh"; action].

Definition BuildGlabCmd (action : string) (input : any) : list string :=
  let m := input_obj input in
  if action =? "mr" then
    let cmd := opt_switch m "draft" "--draft"
      (opt_flag m "target" "--target-branch" (opt_flag m "source" "--source-branch"
        (opt_flag m "body" "--description"
          (opt_flag m "title" "--title" ["glab"; "mr"; "create"])))) in
    fill_if_bare (cmd ++ repeat_flag "--label" (nonempty_strings (mget m "labels")))
  else if action =? "mr_status" then
    if str m "mr" =? "" then ["glab"; "mr"; "list"]
    else ["glab"; "mr"; "view"; str m "mr"; "--json"]
  else if action =? "mr_merge" then
    opt_switch m "squash" "--squash" ["glab"; "mr"; "merge"; str m "mr"]
  else if action =? "mr_view" then ["glab"; "mr"; "view"; str m "mr"; "--json"]
  else if action =? "branch_create" then
    ["glab"; "api"; "-X"; "POST"; "projects/" +:+ str m "project" +:+ "/repository/branches";
     "-f"; "branch=" +:+ str m "branch"; "-f"; "ref=" +:+ str m "ref"]
  else if action =? "commit_status" then
    commit_status_fields m
      ["glab"; "api"; "-X"; "POST";
       "projects/" +:+ str m "project" +:+ "/statuses/" +:+ str m "sha";
       "-f"; "state=" +:+ str m "state"]
  else ["glab"; action].

(** ** git *)

Definition opt_arg (v : string) (cmd : list string) : list string :=
  if v =? "" then cmd else cmd ++ [v].

Definition BuildGitCmd (action : string) (input : any) : list string :=
  let m := input_obj input in
  if action =? "branch" then
    opt_arg (str m "base") ["git"; "checkout"; "-b"; str m "name"]
  else if action =? "add" then
    ["git"; "add"] ++ nonempty_strings (mget m "paths")
  else if action =? "commit" then
    let cmd := opt_switch m "all" "-a" ["git"; "commit"] in
    let cmd := if str m "message" =? "" then cmd else cmd ++ ["-m"; str m "message"] in
    match mget m "paths" with
    | AList (p :: ps) => cmd ++ ["--"] ++ nonempty_strings (AList (p :: ps))
    | _ => cmd
    end
  else if action =? "push" then
    opt_arg (str m "branch") (opt_arg (str m "remote")
      (opt_switch m "set_upstream" "-u" ["git"; "push"]))
  else if action =? "status" then ["git"; "status"; "--porcelain"]
  else if action =? "checkout" then ["git"; "checkout"; str m "ref"]
  else if action =? "merge" then ["git"; "merge"; str m "ref"]
  else if action =? "fetch" then
    opt_arg (str m "ref") (opt_arg (str m "remote") ["git"; "fetch"])
  else ["git"].

(** ** Dispatch *)

Definition buildCmd (tool action : string) (input : any) : list string :=
  if tool =? "kubectl" then BuildKubectlCmd action input
  else if tool =? "helm" then BuildHelmCmd action input
  else if tool =? "argocd" then BuildArgoCmd action input
  else if tool =? "aws" then BuildAwsCmd action input
  else if tool =? "vault" then BuildVaultCmd action input
  else if tool =? "boundary" then BuildBoundaryCmd action input
  else if tool =? "github" then BuildGhCmd action input
  else if tool =? "gitlab" then BuildGlabCmd action input
  else if tool =? "git" then BuildGitCmd action input
  else [tool].

(** ** Sanity checks *)
Example kubectl_scale_ex :
  buildCmd "kubectl" "scale" (AMap (amap [("resource", AStr "deploy/web"); ("replicas", AInt 3)]))
  = ["kubectl"; "scale"; "deploy/web"; "--replicas=3"].
Proof. vm_compute. reflexivity. Qed.

Example aws_filters_ex :
  buildCmd "aws" "tagging-get-resources"
    (AMap (amap [("region", AStr "eu-west-1");
      ("tag_filters", AList [AMap (amap [("key", AStr "env"); ("values", AList [AStr "a"; AStr "b"])])])]))
  = ["aws"; "resourcegroupstaggingapi"; "get-resources"; "--tag-filters"; "Key=env,Values=a,b";
     "--region"; "eu-west-1"; "--output"; "json"].
Proof. vm_compute. reflexivity. Qed.
