(* ===== verification/ToolValidate.v ===== *)
(** * ToolValidate: what a tool call must be before it runs

    The argument screen (internal/tools/sanitize.go), the validation of an
    execution request (validate.go), the artifact references of a Helm upgrade
    (helm_values.go) and the JSON-schema step (schema.go), whose schema files
    and third-party validator are parameters. *)

From S2P Require Import Prelude GoStrings Json ContextRef Steps ToolCommands.

Local Open Scope string_scope.
Local Open Scope list_scope.

(** ** The argument screen *)

Definition shellMetaChars : string :=
  ";|&$`!(){}[]<>" +:+ bytes [92; 34] +:+ "'" +:+ bytes [10; 13].

Definition errDangerousArg : string := "argument contains shell metacharacters".
Definition errEmptyArg : string := "empty argument in command".

Definition validateArg (arg : string) : result unit :=
  if arg =? "" then Err errEmptyArg
  else if contains_any arg shellMetaChars then Err errDangerousArg
  else Ok tt.

(** The loop over the arguments: the first error. *)
Fixpoint validate_args (args : list string) : result unit :=
  match args with
  | [] => Ok tt
  | arg :: rest => _ ← validateArg arg; validate_args rest
  end.

(** The tool's name, [cmd[0]], is not checked. *)
Definition ValidateToolArgs (cmd : list string) : result unit :=
  match cmd with
  | [] => Ok tt
  | _ :: args => validate_args args
  end.

(** ** Finding the tool *)

Definition findTool (name : string) : option Tool :=
  List.find (λ t, Name t =? name) Registry.

Definition errToolRequired : string := "tool required".
Definition errActionRequired : string := "action required".

Definition ValidateToolName (name : string) : result Tool :=
  let name := TrimSpace name in
  if name =? "" then Err errToolRequired
  else of_option ("unknown tool: " +:+ name) (findTool name).

(** ** Reading the input *)

Definition input_required : string := "input required".

Definition decodeInputMap (data : string) : result (gmap string any) :=
  if data =? "" then Err input_required else unmarshal_map (doc_of_text data).

Definition inputMap (input : any) : result (gmap string any) :=
  match input with
  | AMap m => Ok m
  | ABytes s | AStr s => decodeInputMap s
  | ARaw j => decode_map j
  | _ => Err input_required
  end.

(** [strings.TrimSpace(m[key].(string))] *)
Definition stringField (m : gmap string any) (key : string) : string := TrimSpace (str m key).

Definition stringFieldFromInput (input : any) (key : string) : string :=
  match inputMap input with Ok m => stringField m key | Err _ => "" end.

(** [if stringField(m, key) == "" { return errors.New(key + " required") }] *)
Definition need (m : gmap string any) (key : string) : result unit :=
  check (negb (stringField m key =? "")) (key +:+ " required").

Definition unsupported (action : string) : string := "unsupported action: " +:+ action.

(** ** Artifact references *)

Record ArtifactRef := mkArtifact { Kind : string; Ref : string; SHA : string }.

Definition artifact_kinds : list string := ["git_path"; "object_store"; "inline"].
Definition ErrInvalidArtifact : string := "invalid artifact ref".

(** [None] for an absent reference ([false, nil]). *)
Definition parseArtifactRef (value : any) : result (option ArtifactRef) :=
  let accept ref :=
    if blank (Kind ref) || blank (Ref ref) then Err ErrInvalidArtifact
    else if mem (Kind ref) artifact_kinds then Ok (Some ref) else Err ErrInvalidArtifact in
  match value with
  | ANil => Ok None
  | AMap v =>
      accept (mkArtifact (TrimSpace (stringField v "kind")) (TrimSpace (stringField v "ref"))
                (TrimSpace (stringField v "sha")))
  | AStruct _ [("Kind", AStr k); ("Ref", AStr r); ("SHA", AStr s)] => accept (mkArtifact k r s)
  | _ => Err ErrInvalidArtifact
  end.

Definition validateValuesRef (value : any) : result unit :=
  _ ← parseArtifactRef value; Ok tt.

(** ** The validators of the four CLIs *)

Definition validateKubectl (action : string) (input : any) : result unit :=
  m ← inputMap input;
  if action =? "scale" then
    _ ← need m "resource";
    match intFromAnyOK (mget m "replicas") with
    | None => Err "replicas required"
    | Some replicas => check (0 <=? replicas)%Z "replicas must be >= 0"
    end
  else if (action =? "rollout-status") || (action =? "get") then need m "resource"
  else if action =? "watch" then
    _ ← need m "resource";
    match intFromAnyOK (mget m "timeout_seconds") with
    | Some timeout => check (0 <? timeout)%Z "timeout_seconds must be > 0"
    | None => Ok tt
    end
  else Err (unsupported action).

Definition validateHelm (action : string) (input : any) : result unit :=
  m ← inputMap input;
  if mem action ["status"; "upgrade"; "rollback"; "get"] then
    _ ← need m "release";
    if action =? "upgrade" then validateValuesRef (mget m "values_ref") else Ok tt
  else if action =? "list" then Ok tt
  else Err (unsupported action).

Definition validateArgo (action : string) (input : any) : result unit :=
  m ← inputMap input;
  if mem action ["sync"; "wait"; "sync-dry-run"; "sync-preview"; "rollback"; "status"]
  then need m "app"
  else if action =? "list" then Ok tt
  else if action =? "project_token_create" then _ ← need m "project"; need m "role"
  else if action =? "project_token_delete" then
    _ ← need m "project"; _ ← need m "role"; need m "token_id"
  else Err (unsupported action).

Definition some_path (v : any) : bool :=
  match v with
  | AList paths => existsb (λ p, match p with AStr s => negb (blank s) | _ => false end) paths
  | _ => false
  end.

Definition validateGit (action : string) (input : any) : result unit :=
  m ← inputMap input;
  if action =? "branch" then need m "name"
  else if action =? "add" then check (some_path (mget m "paths")) "paths required"
  else if action =? "commit" then need m "message"
  else if mem action ["push"; "status"; "fetch"] then Ok tt
  else if mem action ["checkout"; "merge"] then need m "ref"
  else Err (unsupported action).

(** ** The schema step *)

Definition normalizeSchemaInput (input : any) : any :=
  let decoded s := match j ← unmarshal (doc_of_text s); decode_any j with
                   | Ok out => out | Err _ => input end in
  match input with
  | ANil => AMap ∅
  | ABytes s => decoded s
  | ARaw j => match decode_any j with Ok out => out | Err _ => input end
  | AStr s => if blank s then AMap ∅ else decoded s
  | _ => input
  end.

Record ExecuteRequest := mkRequest {
  req_Tool : string;
  req_Action : string;
  req_Input : any;
  req_ToolCallID : string;
  req_ExecutionID : string;
  req_Context : ContextRef }.

Section schema.
(** The embedded directory internal/tools/schemas: the text of [tool].json. *)
Variable schemaFS : string → option string.
(** gojsonschema.Validate: its error, or the messages of an invalid value. *)
Variable gojsonschema : any → any → result (list string).

(** The actions map of a schema document; raw members are kept as documents. *)
Definition loadToolSchema (tool : string) : result (list (string * json)) :=
  data ← of_option "file does not exist" (schemaFS tool);
  j ← unmarshal (doc_of_text data);
  fs ← members j;
  actions ← fld (λ _ x, members x) "actions" [] fs;
  _ ← check (negb (Nat.eqb (length actions) 0)) "no actions";
  Ok actions.

(** A Go map keeps the last of equal keys. *)
Definition action_schema (actions : list (string * json)) (key : string) : option json :=
  snd <$> List.find (λ '(k, _), k =? key) (rev actions).

Definition validateSchema (tool action : string) (input : any) : result unit :=
  match loadToolSchema tool with
  | Err _ => Ok tt
  | Ok actions =>
      match (match action_schema actions action with
             | Some raw => Some raw
             | None => action_schema actions "*"
             end) with
      | None => Ok tt
      | Some raw =>
          schema ← decode_any raw;
          errs ← gojsonschema schema (normalizeSchemaInput input);
          match errs with
          | [] => Ok tt
          | e :: _ => Err ("schema validation failed: " +:+ e)
          end
      end
  end.

Definition validateExecuteRequest (req : ExecuteRequest) : result Tool :=
  let toolName := TrimSpace (req_Tool req) in
  if toolName =? "" then Err errToolRequired
  else
    let action := TrimSpace (req_Action req) in
    if action =? "" then Err errActionRequired
    else
      tool ← of_option "unknown tool" (findTool toolName);
      _ ← validateSchema toolName action (req_Input req);
      _ ← (if toolName =? "kubectl" then validateKubectl action (req_Input req)
           else if toolName =? "helm" then validateHelm action (req_Input req)
           else if toolName =? "argocd" then validateArgo action (req_Input req)
           else if toolName =? "git" then validateGit action (req_Input req)
           else Ok tt);
      Ok tool.
End schema.

(** ** Specification: what each CLI action requires *)

(** The fields that must be non-blank strings; [None] for an action the tool
    does not have. *)
Definition required_fields (tool action : string) : option (list string) :=
  let table := List.find (λ '(t, a, _), (tool =? t) && (action =? a))
    [("kubectl", "scale", ["resource"]); ("kubectl", "rollout-status", ["resource"]);
     ("kubectl", "get", ["resource"]); ("kubectl", "watch", ["resource"]);
     ("helm", "status", ["release"]); ("helm", "upgrade", ["release"]);
     ("helm", "rollback", ["release"]); ("helm", "get", ["release"]); ("helm", "list", []);
     ("argocd", "sync", ["app"]); ("argocd", "wait", ["app"]);
     ("argocd", "sync-dry-run", ["app"]); ("argocd", "sync-preview", ["app"]);
     ("argocd", "rollback", ["app"]); ("argocd", "status", ["app"]); ("argocd", "list", []);
     ("argocd", "project_token_create", ["project"; "role"]);
     ("argocd", "project_token_delete", ["project"; "role"; "token_id"]);
     ("git", "branch", ["name"]); ("git", "add", []); ("git", "commit", ["message"]);
     ("git", "push", []); ("git", "status", []); ("git", "fetch", []);
     ("git", "checkout", ["ref"]); ("git", "merge", ["ref"])]
  in snd <$> table.

(** What an action asks for beyond its fields. *)
Definition extra_ok (tool action : string) (m : gmap string any) : bool :=
  if (tool =? "kubectl") && (action =? "scale") then
    match intFromAnyOK (mget m "replicas") with Some n => (0 <=? n)%Z | None => false end
  else if (tool =? "kubectl") && (action =? "watch") then
    match intFromAnyOK (mget m "timeout_seconds") with Some n => (0 <? n)%Z | None => true end
  else if (tool =? "helm") && (action =? "upgrade") then
    is_ok (parseArtifactRef (mget m "values_ref"))
  else if (tool =? "git") && (action =? "add") then some_path (mget m "paths")
  else true.

Definition cli_ok (tool action : string) (input : any) : bool :=
  match inputMap input, required_fields tool action with
  | Ok m, Some fields =>
      forallb (λ f, negb (blank (str m f))) fields && extra_ok tool action m
  | _, _ => false
  end.

(** The tools whose actions the table lists. *)
Definition validated_tools : list string := ["kubectl"; "helm"; "argocd"; "git"].

(** ** Lemmas *)
Lemma validateArg_ok arg :
  validateArg arg = Ok tt ↔ arg ≠ "" ∧ ∀ c, c ∈ chars arg → c ∉ chars shellMetaChars.
Proof.
  unfold validateArg. destruct (String.eqb_spec arg "") as [->|Hne].
  { split; [discriminate|]. by intros [? _]. }
  destruct (contains_any arg shellMetaChars) eqn:E.
  - split; [discriminate|]. intros [_ H].
    apply contains_any_spec in E as (c & Hc & Hs). by apply H in Hc.
  - split; [|done]. intros _. split; [done|]. intros c Hc Hs.
    enough (contains_any arg shellMetaChars = true) by congruence.
    apply contains_any_spec. eauto.
Qed.

Lemma validate_args_ok args : validate_args args = Ok tt ↔ Forall (λ a, validateArg a = Ok tt) args.
Proof.
  induction args as [|a args IH]; simpl; [by split; constructor|].
  rewrite Forall_cons, <- IH.
  destruct (validateArg a) as [[]|]; simpl; [tauto|]. split; [discriminate|]. by intros [? _].
Qed.

Lemma need_eq m key : need m key = check (negb (blank (str m key))) (key +:+ " required").
Proof. done. Qed.

Lemma need_is_ok {A} m key (k : unit → result A) :
  is_ok (need m key ≫= k) = negb (blank (str m key)) && is_ok (k tt).
Proof. rewrite need_eq. destruct (blank _); done. Qed.

Lemma check_is_ok b e : is_ok (check b e) = b.
Proof. by destruct b. Qed.

Lemma findTool_Some name tool :
  findTool name = Some tool → tool ∈ Registry ∧ Name tool = name.
Proof.
  intros H. apply List.find_some in H as [Hin Hn].
  apply String.eqb_eq in Hn. by rewrite list_elem_of_In.
Qed.

Lemma is_ok_unit (r : result unit) : r = Ok tt ↔ is_ok r = true.
Proof. destruct r as [[]|]; naive_solver. Qed.

(** Split on which action it is; every constant comparison computes away. *)
Ltac split_actions action :=
  repeat match goal with
  | |- context [String.eqb action ?s] =>
      let E := fresh "E" in
      destruct (String.eqb_spec action s) as [->|E]
  end.

Ltac validator action :=
  let m := fresh "m" in
  match goal with |- context [inputMap ?i] => destruct (inputMap i) as [m|]; [|done] end;
  unfold required_fields, extra_ok, validateValuesRef, mem; cbn;
  split_actions action; cbn;
  rewrite ?need_is_ok, ?need_eq, ?check_is_ok, ?andb_true_r; try done.

Lemma validateKubectl_ok action input :
  is_ok (validateKubectl action input) = cli_ok "kubectl" action input.
Proof.
  unfold validateKubectl, cli_ok. validator action; f_equal; case_match; simpl;
    by rewrite ?check_is_ok.
Qed.

Lemma validateHelm_ok action input :
  is_ok (validateHelm action input) = cli_ok "helm" action input.
Proof.
  unfold validateHelm, cli_ok. validator action.
  f_equal. by destruct (parseArtifactRef _).
Qed.

Lemma validateArgo_ok action input :
  is_ok (validateArgo action input) = cli_ok "argocd" action input.
Proof. unfold validateArgo, cli_ok. validator action. Qed.

Lemma validateGit_ok action input :
  is_ok (validateGit action input) = cli_ok "git" action input.
Proof. unfold validateGit, cli_ok. validator action. Qed.

(** ** Theorems *)

(** A command line passes the screen exactly when each argument after the
    tool's name is non-empty and free of every shell metacharacter. *)
Theorem ValidateToolArgs_spec (cmd : list string) :
  ValidateToolArgs cmd = Ok tt ↔
  ∀ arg, arg ∈ tail cmd → arg ≠ "" ∧ ∀ c, c ∈ chars arg → c ∉ chars shellMetaChars.
Proof.
  unfold ValidateToolArgs. destruct cmd as [|name args]; simpl.
  { split; [set_solver|done]. }
  rewrite validate_args_ok, Forall_forall. by setoid_rewrite validateArg_ok.
Qed.

(** ValidateExecuteRequest accepts a request exactly when it names a
    registered tool and an action, the schema step accepts the input, and, for
    the four CLIs with a validator, the action is one of the tool's, its
    required fields are non-blank strings and its other conditions hold; the
    tool returned is the registry's entry of the trimmed name. *)
Theorem validateExecuteRequest_spec schemaFS gojsonschema (req : ExecuteRequest) (tool : Tool) :
  let name := TrimSpace (req_Tool req) in
  let action := TrimSpace (req_Action req) in
  validateExecuteRequest schemaFS gojsonschema req = Ok tool ↔
  findTool name = Some tool ∧ action ≠ "" ∧
  validateSchema schemaFS gojsonschema name action (req_Input req) = Ok tt ∧
  (name ∈ validated_tools → cli_ok name action (req_Input req) = true).
Proof.
  intros name action. unfold validateExecuteRequest. fold name action.
  destruct (String.eqb_spec name "") as [->|_].
  { split; [discriminate|]. intros [? _]. discriminate. }
  destruct (String.eqb_spec action "") as [->|Ha].
  { split; [discriminate|]. by intros (_ & ? & _). }
  destruct (findTool name) as [t|]; simpl; [|split; [discriminate|by intros [? _]]].
  destruct (validateSchema _ _ _ _ _) as [[]|]; simpl; [|split; [discriminate|intuition discriminate]].
  rewrite <- (mem_spec name). unfold mem, validated_tools. simpl.
  destruct (String.eqb_spec name "kubectl") as [->|_]; [|
  destruct (String.eqb_spec name "helm") as [->|_]; [|
  destruct (String.eqb_spec name "argocd") as [->|_]; [|
  destruct (String.eqb_spec name "git") as [->|_]]]]; simpl.
  5: intuition congruence.
  all: rewrite <- ?validateKubectl_ok, <- ?validateHelm_ok, <- ?validateArgo_ok,
         <- ?validateGit_ok.
  1: destruct (validateKubectl _ _) as [[]|].
  3: destruct (validateHelm _ _) as [[]|].
  5: destruct (validateArgo _ _) as [[]|].
  7: destruct (validateGit _ _) as [[]|].
  all: simpl; intuition congruence.
Qed.

Definition no_schema : string → option string := λ _, None.
Definition any_valid : any → any → result (list string) := λ _ _, Ok [].

Example helm_upgrade_ok :
  is_ok (validateExecuteRequest no_schema any_valid
    (mkRequest " helm" "upgrade" (AMap (amap [("release", AStr "web");
      ("values_ref", AMap (amap [("kind", AStr "inline"); ("ref", AStr "a: 1")]))]))
      "" "" empty_ref)) = true.
Proof. vm_compute. reflexivity. Qed.

Example helm_upgrade_bad_ref :
  validateExecuteRequest no_schema any_valid
    (mkRequest "helm" "upgrade" (AMap (amap [("release", AStr "web");
      ("values_ref", AStr "values.yaml")])) "" "" empty_ref) = Err ErrInvalidArtifact.
Proof. vm_compute. reflexivity. Qed.
