(* ===== verification/Sandbox.v ===== *)
(** * Sandbox: running a tool's command line

    Sandbox.Run and the container arguments of internal/tools/sandbox.go, the
    proxy environment and host allowlist of egress_proxy.go and
    api_fallbacks.go, and the truncation of outputs.

    What the operating system does is an oracle that sees the events so far; the
    events are the processes started, the proxies and temporary files opened
    and removed, and the HTTP calls made. *)

From S2P Require Import Prelude GoStrings Json.

Local Open Scope string_scope.
Local Open Scope list_scope.

(** [[]byte, error]: both may be set. *)
Definition output : Type := string * option string.

Record Sandbox := mkSandbox {
  RunFunc : option (list string → output);
  Enabled : bool;
  Enforce : bool;
  Runtime : string;
  Image : string;
  Egress : list string;
  Mounts : list string;
  ReadOnlyRoot : bool;
  Tmpfs : list string;
  User : string;
  SeccompProfile : string;
  NoNewPrivs : bool;
  DropCaps : list string;
  Env : gmap string string;
  RequireSeccomp : bool;
  RequireNoNewPrivs : bool;
  RequireUser : bool;
  RequireDropCaps : bool;
  RequireOnWrite : bool;
  RequireEgressAllowlist : bool;
  MaxOutputBytes : Z }.

(** [&Sandbox{Enabled: enabled, Enforce: enforce, ...}], the rest zero. *)
Definition bare_sandbox (enabled enforce : bool) (runtime image : string)
    (egress mounts : list string) : Sandbox :=
  mkSandbox None enabled enforce runtime image egress mounts false [] "" "" false [] ∅
    false false false false false false 0.

Definition NewSandbox : Sandbox := bare_sandbox false true "" "" [] [].
Definition NewSandboxPermissive : Sandbox := bare_sandbox false false "" "" [] [].
Definition NewSandboxWithConfig (enabled : bool) (runtime image : string)
    (egress mounts : list string) : Sandbox := bare_sandbox enabled true runtime image egress mounts.

(** ** Events and the operating system *)

Inductive event :=
| Exec (argv env : list string)            (* a process and the variables added *)
| ProxyOpen (port : string)
| ProxyClose (port : string)
| TempCreate (name : string)
| TempRemove (name : string)
| HTTPCall (method url : string) (body : option json).

Record system := mkSystem {
  (* exec.LookPath *)
  sys_look : list event → string → result unit;
  (* CombinedOutput of the process just started *)
  sys_process : list event → output;
  (* net.Listen on 127.0.0.1:0: the port of the listener's address *)
  sys_listen : list event → result string;
  (* os.CreateTemp's name, and the errors of writing and closing the file *)
  sys_temp : list event → result string;
  sys_write : list event → string → option string;
  sys_close : list event → option string;
  (* an HTTP exchange: the body read, or the transport's error *)
  sys_http : list event → result string;
  (* the order in which a range statement visits a map *)
  sys_range : gmap string string → list (string * string) }.

(** ** Limits *)

(** [output[:n]] and the marker. *)
Definition limitOutput (s : option Sandbox) (out : string) : string :=
  match s with
  | None => out
  | Some s =>
      if (MaxOutputBytes s <=? 0)%Z || (Z.of_nat (String.length out) <=? MaxOutputBytes s)%Z
      then out
      else take_bytes (Z.to_nat (MaxOutputBytes s)) out +:+ "...(truncated)"
  end.

#[global] Arguments limitOutput : simpl never.

(** A nil base is an empty map. *)
Definition mergeEnv (base extra : gmap string string) : gmap string string := extra ∪ base.

(** ** Allowed hosts *)

Section hosts.
(** url.Parse and Hostname. *)
Variable url_hostname : string → option string.

Definition allow_one (host allowed : string) : bool :=
  let allowed := TrimSpace allowed in
  if allowed =? "" then false
  else EqualFold host allowed
       || has_prefix allowed "*." && has_suffix host (trim_prefix allowed "*").

Definition allowHost (baseURL : string) (allowlist : list string) : bool :=
  match url_hostname (TrimSpace baseURL) with
  | None => false
  | Some host => if host =? "" then false else existsb (allow_one host) allowlist
  end.
End hosts.

(** ** Run *)

Section run.
Variable sys : system.

Definition emit {R} (e : event) : handler (list event) R unit := effect (λ tr, tr ++ [e]).

(** The process runs; its output and error. *)
Definition exec_cmd {R} (argv env : list string) : handler (list event) R output :=
  _ ← emit (Exec argv env); reads (sys_process sys).

Definition formatEnv (env : gmap string string) : list string :=
  map (λ '(k, v), k +:+ "=" +:+ v) (sys_range sys env).

(** The variables, and the proxy to close. *)
Definition proxyEnv {R} (allowlist : list string) (runtime : string) :
    handler (list event) R (result (gmap string string * option string)) :=
  match allowlist with
  | [] => mret (Ok (∅, None))
  | _ =>
      port ← reads (sys_listen sys);
      match port with
      | Err e => mret (Err e)
      | Ok port =>
          _ ← emit (ProxyOpen port);
          let runtime := TrimSpace runtime in
          let host := if EqualFold runtime "docker" then "host.docker.internal" else "127.0.0.1" in
          let host := if EqualFold runtime "podman" then "host.containers.internal" else host in
          let url := "http://" +:+ host +:+ ":" +:+ port in
          mret (Ok (list_to_map [("HTTP_PROXY", url); ("HTTPS_PROXY", url); ("ALL_PROXY", url)],
                    Some port))
      end
  end.

(** [defer closeFn()] *)
Definition close_proxy {R} (proxy : option string) : handler (list event) R unit :=
  match proxy with Some port => emit (ProxyClose port) | None => mret tt end.

(** [-flag v] for the trimmed entries that are not empty. *)
Definition each (flag : string) (l : list string) : list string :=
  concat (map (λ v, if TrimSpace v =? "" then [] else [flag; TrimSpace v]) l).

Definition env_args (env : gmap string string) : list string :=
  concat (map (λ '(k, v), ["-e"; k +:+ "=" +:+ v]) (sys_range sys env)).

(** The arguments up to the network's. *)
Definition hardening (s : Sandbox) : list string :=
  (if ReadOnlyRoot s then ["--read-only"] else []) ++
  each "--tmpfs" (match Tmpfs s with [] => ["/tmp"] | l => l end) ++
  (if NoNewPrivs s then ["--security-opt"; "no-new-privileges"] else []) ++
  (if blank (SeccompProfile s) then []
   else ["--security-opt"; "seccomp=" +:+ TrimSpace (SeccompProfile s)]) ++
  each "--cap-drop" (DropCaps s) ++
  (if blank (User s) then [] else ["--user"; TrimSpace (User s)]).

(** The arguments from the environment's on. *)
Definition container_tail (s : Sandbox) (cmd : list string) : list string :=
  concat (map (λ '(k, v), if blank k then [] else ["-e"; k +:+ "=" +:+ v])
              (sys_range sys (Env s))) ++
  concat (map (λ m, if blank m then [] else ["-v"; m]) (Mounts s)) ++
  [Image s] ++ cmd.

Definition runContainer (s : Sandbox) (cmd : list string) :
    handler (list event) output output :=
  let runtime := TrimSpace (Runtime s) in
  let runtime := if runtime =? "" then "docker" else runtime in
  found ← reads (λ tr, sys_look sys tr runtime);
  _ ← or_return found (λ e, return_ ("", Some e));
  let args := ["run"; "--rm"] ++ hardening s in
  match Egress s with
  | [] =>
      '(out, err) ← exec_cmd (runtime :: args ++ ["--network=none"] ++ container_tail s cmd) [];
      mret (limitOutput (Some s) out, err)
  | _ =>
      proxy ← proxyEnv (Egress s) runtime;
      '(vars, closer) ← or_return proxy (λ e, return_ ("", Some e));
      let host := if EqualFold runtime "docker"
                  then ["--add-host"; "host.docker.internal:host-gateway"] else [] in
      '(out, err) ← exec_cmd (runtime :: args ++ env_args vars ++ host ++ container_tail s cmd) [];
      _ ← close_proxy closer;
      mret (limitOutput (Some s) out, err)
  end.

(** The requirements an enforcing sandbox checks before anything runs. *)
Definition enforced_checks (s : Sandbox) : result unit :=
  _ ← check (negb (RequireSeccomp s && blank (SeccompProfile s))) "seccomp required";
  _ ← check (negb (RequireNoNewPrivs s && negb (NoNewPrivs s))) "no_new_privs required";
  _ ← check (negb (RequireUser s && blank (User s))) "user required";
  _ ← check (negb (RequireDropCaps s && Nat.eqb (length (DropCaps s)) 0)) "drop_caps required";
  if Enabled s then
    _ ← check (negb (blank (SeccompProfile s))) "seccomp required";
    _ ← check (NoNewPrivs s) "no_new_privs required";
    _ ← check (negb (blank (User s))) "user required";
    check (negb (Nat.eqb (length (DropCaps s)) 0)) "drop_caps required"
  else Ok tt.

Definition when_enforced (so : option Sandbox) (f : Sandbox → result unit) : result unit :=
  match so with Some s => if Enforce s then f s else Ok tt | None => Ok tt end.

(** The command on the host itself, with the proxy and the sandbox's variables. *)
Definition run_host (so : option Sandbox) (cmd : list string) :
    handler (list event) output output :=
  let '(egress, runtime, vars) :=
    match so with Some s => (Egress s, Runtime s, Env s) | None => ([], "", ∅) end in
  proxy ← proxyEnv egress runtime;
  '(penv, closer) ← or_return proxy (λ e, return_ ("", Some e));
  let env := mergeEnv (mergeEnv ∅ penv) vars in
  '(out, err) ← exec_cmd cmd (formatEnv env);
  _ ← close_proxy closer;
  mret (limitOutput so out, err).

Definition Run (so : option Sandbox) (cmd : list string) : handler (list event) output output :=
  match so ≫= RunFunc with
  | Some f => mret (f cmd)
  | None =>
      match cmd with
      | [] => mret ("", Some "executable file not found in $PATH")
      | _ =>
          _ ← or_return (when_enforced so (λ s, check (Enabled s) "sandbox required"))
                (λ e, return_ ("", Some e));
          _ ← or_return (when_enforced so enforced_checks) (λ e, return_ ("", Some e));
          match so with
          | Some s => if Enabled s && negb (Image s =? "") then runContainer s cmd
                      else run_host so cmd
          | None => run_host so cmd
          end
      end
  end.
End run.

(** ** Lemmas *)

(** The events one run adds. *)
Inductive run_events : list event → Prop :=
| run_none : run_events []
| run_plain argv env : run_events [Exec argv env]
| run_proxied port argv env : run_events [ProxyOpen port; Exec argv env; ProxyClose port].

#[export] Hint Constructors run_events : go.

Section trace.
Variable sys : system.

(** What a body adds to the trace: events [P] holds of, and nothing if it returns an
    error first. *)
Definition adds (P : list event → Prop) (m : handler (list event) output output) : Prop :=
  ∀ tr, ∃ evs, (run_handler m tr).2 = tr ++ evs ∧ P evs.

Lemma adds_none P o : P [] → adds P (mret o).
Proof. intros HP tr. exists []. by rewrite app_nil_r. Qed.

Lemma adds_return P o : P [] → adds P (return_ o).
Proof. intros HP tr. exists []. by rewrite app_nil_r. Qed.

Lemma adds_or_return {A} (P : list event → Prop) (e : result A) k m :
  P [] → (∀ a, e = Ok a → adds P (m a)) →
  adds P (or_return e (λ x, return_ (k x)) ≫= m).
Proof.
  intros HP Hm tr. destruct e as [a|x].
  - by apply (Hm a).
  - exists []. by rewrite app_nil_r.
Qed.

Lemma adds_reads {A} (P : list event → Prop) (f : list event → A) m :
  (∀ a, adds P (m a)) → adds P (reads f ≫= m).
Proof. intros Hm tr. apply (Hm (f tr)). Qed.

(** A process alone. *)
Lemma adds_exec (P : list event → Prop) argv env f :
  P [Exec argv env] →
  adds P ('(out, err) ← exec_cmd sys argv env; mret (f out, err)).
Proof.
  intros HP tr. exists [Exec argv env]. unfold exec_cmd, emit. run_steps.
  by destruct (sys_process _ _).
Qed.

(** A process between the opening and the closing of its proxy. *)
Lemma adds_proxied (P : list event → Prop) allowlist runtime argv env f :
  P [] →
  (allowlist = [] → ∀ vars, P [Exec (argv vars) (env vars)]) →
  (∀ port vars, P [ProxyOpen port; Exec (argv vars) (env vars); ProxyClose port]) →
  adds P (proxy ← proxyEnv sys allowlist runtime;
          '(vars, closer) ← or_return proxy (λ e, return_ ("", Some e));
          '(out, err) ← exec_cmd sys (argv vars) (env vars);
          _ ← close_proxy closer;
          mret (f out, err)).
Proof.
  intros HP Hplain Hproxy tr. unfold proxyEnv, exec_cmd, emit, close_proxy.
  destruct allowlist as [|a l]; run_steps.
  - destruct (sys_process _ _). eexists. split; [done|]. by apply Hplain.
  - destruct (sys_listen sys tr) as [port|e]; cbn.
    + destruct (sys_process _ _). eexists. cbn. rewrite <- !(assoc_L (++)).
      split; [done|]. apply Hproxy.
    + exists []. by rewrite app_nil_r.
Qed.

Lemma run_host_adds (P : list event → Prop) so cmd :
  P [] → (∀ env, P [Exec cmd env]) →
  (∀ port env, P [ProxyOpen port; Exec cmd env; ProxyClose port]) →
  adds P (run_host sys so cmd).
Proof.
  intros. unfold run_host. destruct so as [s|];
    (apply (adds_proxied P _ _ (λ _, cmd)); auto).
Qed.

Lemma runContainer_adds (P : list event → Prop) s cmd :
  P [] →
  (∀ rt mid, (Egress s = [] → mid = ["--network=none"]) →
     let argv := rt :: ["run"; "--rm"] ++ hardening s ++ mid ++ container_tail sys s cmd in
     P [Exec argv []] ∧ ∀ port, P [ProxyOpen port; Exec argv []; ProxyClose port]) →
  adds P (runContainer sys s cmd).
Proof.
  intros HP Hrun. unfold runContainer. apply adds_reads. intros found.
  apply adds_or_return; [done|]. intros _ _.
  destruct (Egress s) as [|e l] eqn:E.
  - apply adds_exec. rewrite <- (assoc_L (++)). by apply Hrun.
  - apply (adds_proxied P (e :: l) _
      (λ vars, _ :: (["run"; "--rm"] ++ hardening s) ++ env_args sys vars ++ _ ++ _) (λ _, []));
      [done|done|].
    intros port vars. rewrite <- (assoc_L (++) ["run"; "--rm"]).
    rewrite (assoc_L (++) (env_args sys vars)). by apply Hrun.
Qed.

Lemma enforced_checks_ok s :
  enforced_checks s = Ok tt → Enabled s = true →
  blank (SeccompProfile s) = false ∧ NoNewPrivs s = true ∧ blank (User s) = false ∧
  DropCaps s ≠ [].
Proof.
  unfold enforced_checks, check. intros H He. rewrite He in H.
  repeat (case_test_in H; cbn in H; try discriminate); bool_hyps.
  repeat split; auto. by destruct (DropCaps s).
Qed.
End trace.

Lemma take_bytes_app n s t : (n ≤ String.length s)%nat → take_bytes n (s +:+ t) = take_bytes n s.
Proof.
  revert s. induction n as [|n IH]; intros [|c s] Hn; [done|done|simpl in Hn; lia|].
  change (String c s +:+ t) with (String c (s +:+ t)). cbn in *. rewrite IH; [done|lia].
Qed.

Lemma take_bytes_prefix n s : ∃ rest, s = take_bytes n s +:+ rest.
Proof.
  revert s. induction n as [|n IH]; intros [|c s]; [by exists ""|by exists (String c s)|by exists ""|].
  destruct (IH s) as [rest E]. exists rest. cbn.
  change (String c (take_bytes n s) +:+ rest) with (String c (take_bytes n s +:+ rest)).
  by rewrite <- E.
Qed.

Lemma take_bytes_idemp n s : take_bytes n (take_bytes n s) = take_bytes n s.
Proof. apply take_bytes_all. rewrite take_bytes_length. lia. Qed.

(** ** Theorems *)

(** One call of Run starts at most one process, and whatever its outcome the
    proxy it opened for the egress allowlist is closed when it returns: the
    process runs between the two. *)
Theorem Run_one_process sys (so : option Sandbox) (cmd : list string) (tr : list event) :
  ∃ evs, (run_handler (Run sys so cmd) tr).2 = tr ++ evs ∧ run_events evs.
Proof.
  revert tr. change (adds run_events (Run sys so cmd)).
  unfold Run. destruct (so ≫= RunFunc); [apply adds_none; constructor|].
  destruct cmd as [|c cmd]; [apply adds_none; constructor|].
  do 2 (apply adds_or_return; [constructor|intros _ _]).
  destruct so as [s|]; [destruct (Enabled s && negb (Image s =? ""))|];
    auto using run_host_adds, runContainer_adds with go.
Qed.

(** The command line of a hardened container. *)
Definition hardened_argv (s : Sandbox) (cmd argv : list string) : Prop :=
  ∃ rt pre mid,
    argv = rt :: ["run"; "--rm"] ++ pre ++
      ["--security-opt"; "no-new-privileges";
       "--security-opt"; "seccomp=" +:+ TrimSpace (SeccompProfile s)] ++
      each "--cap-drop" (DropCaps s) ++ ["--user"; TrimSpace (User s)] ++ mid ++
      [Image s] ++ cmd ∧
    (Egress s = [] → head mid = Some "--network=none").

(** What an enforcing sandbox lets a process be. *)
Definition contained (s : Sandbox) (cmd argv : list string) : Prop :=
  Enabled s = true ∧ NoNewPrivs s = true ∧ blank (SeccompProfile s) = false ∧
  blank (User s) = false ∧ DropCaps s ≠ [] ∧
  (if Image s =? "" then argv = cmd else hardened_argv s cmd argv).

Lemma enforced_Run_adds sys s cmd :
  RunFunc s = None → Enforce s = true →
  adds (λ evs, ∀ argv env, Exec argv env ∈ evs → contained s cmd argv) (Run sys (Some s) cmd).
Proof.
  intros Hf He. unfold contained. match goal with |- adds ?Q _ => set (P := Q) end.
  assert (HP0 : P []) by (intros a e ?%elem_of_nil; done).
  unfold Run. change (Some s ≫= RunFunc) with (RunFunc s). rewrite Hf.
  destruct cmd as [|c cmd]; [by apply adds_none|].
  unfold when_enforced. rewrite He.
  apply adds_or_return; [done|]. intros [] Hen.
  assert (En : Enabled s = true) by (destruct (Enabled s); done).
  apply adds_or_return; [done|]. intros [] Hck. rewrite En. cbn [andb].
  destruct (enforced_checks_ok s Hck En) as (Hsec & Hnnp & Huser & Hcaps).
  destruct (Image s =? "") eqn:Eimg; cbn [negb].
  - apply run_host_adds; [done| |]; intros; intros a e;
      rewrite ?elem_of_cons, ?elem_of_nil; naive_solver.
  - apply runContainer_adds; [done|]. intros rt mid Hmid. cbn zeta.
    assert (Hargv : hardened_argv s (c :: cmd)
      (rt :: ["run"; "--rm"] ++ hardening s ++ mid ++ container_tail sys s (c :: cmd))).
    { exists rt,
        ((if ReadOnlyRoot s then ["--read-only"] else []) ++
         each "--tmpfs" (match Tmpfs s with [] => ["/tmp"] | l => l end)),
        (mid ++ concat (map (λ '(k, v), if blank k then [] else ["-e"; k +:+ "=" +:+ v])
                         (sys_range sys (Env s)))
             ++ concat (map (λ m, if blank m then [] else ["-v"; m]) (Mounts s))).
      split; [|intros Hnone; by rewrite (Hmid Hnone)].
      unfold hardening, container_tail. rewrite Hnnp, Hsec, Huser, <- !app_assoc. done. }
    split; intros; intros a e; rewrite ?elem_of_cons, ?elem_of_nil; intuition congruence.
Qed.

(** An enforcing sandbox starts a process only when it is enabled and has a
    seccomp profile, no-new-privileges, a user and capabilities to drop; the
    process is then a container carrying every one of these flags, without
    network when there is no allowlist, that ends in the image and the command
    — or, when no image is configured, the command on the host. *)
Theorem enforced_Run_hardened sys s cmd tr o evs argv env :
  RunFunc s = None → Enforce s = true →
  run_handler (Run sys (Some s) cmd) tr = (o, tr ++ evs) →
  Exec argv env ∈ evs →
  Enabled s = true ∧ NoNewPrivs s = true ∧ blank (SeccompProfile s) = false ∧
  blank (User s) = false ∧ DropCaps s ≠ [] ∧
  (if Image s =? "" then argv = cmd else hardened_argv s cmd argv).
Proof.
  intros Hf He Hrun Hin. destruct (enforced_Run_adds sys s cmd Hf He tr) as (evs' & Heq & HP).
  rewrite Hrun in Heq. apply (inj (app tr)) in Heq as <-. by apply (HP argv env).
Qed.

(** A system for the witnesses: docker is installed, every process prints "ok",
    the proxy gets port 4242. *)
Definition demo_system : system := mkSystem
  (λ _ name, if name =? "docker" then Ok tt else Err "not found")
  (λ _, ("ok", None)) (λ _, Ok "4242")
  (λ _, Ok "/tmp/helm-values-1.yaml") (λ _ _, None) (λ _, None) (λ _, Ok "{}") map_to_list.

Definition demo_sandbox (image : string) : Sandbox :=
  mkSandbox None true true "" image [] [] true [] "1000" "default.json" true ["ALL"] ∅
    true true true true true false 16.

Definition demo_argv : list string :=
  ["docker"; "run"; "--rm"; "--read-only"; "--tmpfs"; "/tmp";
   "--security-opt"; "no-new-privileges"; "--security-opt"; "seccomp=default.json";
   "--cap-drop"; "ALL"; "--user"; "1000"; "--network=none"; "tools:1"; "kubectl"; "version"].

Lemma enforced_Run_hardened_witness :
  hardened_argv (demo_sandbox "tools:1") ["kubectl"; "version"] demo_argv.
Proof.
  destruct (enforced_Run_hardened demo_system (demo_sandbox "tools:1") ["kubectl"; "version"] []
    ("ok", None) [Exec demo_argv []] demo_argv []) as (_ & _ & _ & _ & _ & H).
  - reflexivity.
  - reflexivity.
  - vm_compute. reflexivity.
  - apply list_elem_of_singleton. reflexivity.
  - exact H.
Defined.

(** Enforcement alone is no isolation: a sandbox that is enabled, enforced
    and passes every hardening check but has no image runs the command on the
    host as it is, none of the hardening applied. *)
Theorem enforced_without_image_runs_on_host sys s c cmd tr :
  RunFunc s = None → Enforce s = true → Enabled s = true → Image s = "" →
  blank (SeccompProfile s) = false → NoNewPrivs s = true → blank (User s) = false →
  DropCaps s ≠ [] → Egress s = [] →
  (run_handler (Run sys (Some s) (c :: cmd)) tr).2
  = tr ++ [Exec (c :: cmd) (formatEnv sys (Env s))].
Proof.
  intros Hf He Hen Hi Hs Hn Hu Hd Hg.
  unfold Run. change (Some s ≫= RunFunc) with (RunFunc s). rewrite Hf.
  unfold when_enforced, enforced_checks. rewrite He, Hen, Hi, Hs, Hn, Hu, !andb_false_r.
  destruct (DropCaps s) as [|d ds]; [done|]. rewrite !andb_false_r.
  unfold run_host. rewrite Hg. unfold mergeEnv, proxyEnv, exec_cmd, emit, close_proxy, check.
  run_steps. cbn -[union]. rewrite !(right_id_L ∅ (∪)).
  by destruct (sys_process _ _).
Qed.

Lemma enforced_without_image_runs_on_host_witness :
  (run_handler (Run demo_system (Some (demo_sandbox "")) ["rm"; "-rf"; "data"]) []).2
  = [Exec ["rm"; "-rf"; "data"] []].
Proof.
  apply (enforced_without_image_runs_on_host demo_system (demo_sandbox "") "rm" ["-rf"; "data"] []);
    try reflexivity; discriminate.
Defined.

(** Truncation is bounded by the limit and the marker's 14 bytes, keeps a
    prefix of the output, changes nothing within the limit, and truncating
    twice — Run and Execute both do — is truncating once. *)
Theorem limitOutput_spec (s : Sandbox) (out : string) :
  let out' := limitOutput (Some s) out in
  limitOutput (Some s) out' = out' ∧
  ((0 < MaxOutputBytes s)%Z → (Z.of_nat (String.length out') ≤ MaxOutputBytes s + 14)%Z) ∧
  (out' = out ∨
   (0 < MaxOutputBytes s < Z.of_nat (String.length out))%Z ∧
   out' = take_bytes (Z.to_nat (MaxOutputBytes s)) out +:+ "...(truncated)").
Proof.
  unfold limitOutput.
  destruct (Z.leb_spec (MaxOutputBytes s) 0); cbn [orb]; [repeat split; auto; lia|].
  destruct (Z.leb_spec (Z.of_nat (String.length out)) (MaxOutputBytes s)).
  { destruct (Z.leb_spec (Z.of_nat (String.length out)) (MaxOutputBytes s)); [|lia].
    repeat split; auto; lia. }
  set (n := Z.to_nat (MaxOutputBytes s)).
  assert (Hl : String.length (take_bytes n out) = n) by (rewrite take_bytes_length; lia).
  rewrite length_string_app, Hl. change (String.length "...(truncated)") with 14%nat.
  destruct (Z.leb_spec (Z.of_nat (n + 14)) (MaxOutputBytes s)); [lia|].
  rewrite take_bytes_app, take_bytes_idemp by (rewrite Hl; lia).
  split; [done|]. split; [lia|]. right. split; [lia|done].
Qed.
