(* ===== verification/Artifacts.v ===== *)
(** * Artifacts: resolving artifact references and preparing Helm input

    internal/tools/artifacts.go and prepareHelmCLIInput of helm_values.go.
    SHA-256 is Digest's. *)

From S2P Require Import Prelude GoStrings Json Digest ContextRef Steps ToolCommands ToolValidate.
From S2P Require Import Sandbox.
From Stdlib Require Import Ascii.

Local Open Scope string_scope.
Local Open Scope list_scope.

Definition ErrUnsupportedArtifact : string := "unsupported artifact ref".
Definition ErrNotImplemented : string := "artifact resolver not implemented".

(** Split at the last [c] (strings.LastIndex). *)
Fixpoint cut_last (c : ascii) (s : string) : option (string * string) :=
  match s with
  | "" => None
  | String d s' =>
      match cut_last c s' with
      | Some (a, b) => Some (String d a, b)
      | None => if Ascii.eqb d c then Some ("", s') else None
      end
  end.

(** repo@rev:path, with the defaults for the absent parts. *)
Definition parseGitRef (ref : string) : result (string * string * string) :=
  if blank ref then Err ErrInvalidArtifact
  else match cut_at ref ":" with
  | None => Ok (".", "HEAD", ref)
  | Some (repoPart, path) =>
      if path =? "" then Err ErrInvalidArtifact
      else
        let repo := if repoPart =? "" then "." else repoPart in
        match cut_last "@" repoPart with
        | None => Ok (repo, "HEAD", path)
        | Some (repo, rev) =>
            if rev =? "" then Err ErrInvalidArtifact
            else Ok (if repo =? "" then "." else repo, rev, path)
        end
  end.

Definition parseObjectRef (ref : string) : result string :=
  let trimmed := TrimSpace ref in
  if trimmed =? "" then Err ErrInvalidArtifact
  else if has_prefix trimmed "s3://" then Ok trimmed
  else if contains trimmed "://" then Err ErrInvalidArtifact
  else Ok ("s3://" +:+ trim_prefix trimmed "/").

Section resolve.
Variable sys : system.

Definition verifySHA (data expected : string) : result unit :=
  if blank expected then Ok tt
  else
    let normalized := trim_prefix (ToLower (TrimSpace expected)) "sha256:" in
    if negb (Nat.eqb (String.length normalized) 64) then Err ErrInvalidArtifact
    else check (sha256_hex data =? normalized) ErrInvalidArtifact.

(** An external command's output, or its failure with the output. *)
Definition fetch (name what : string) (args : list string) :
    handler (list event) (result string) string :=
  found ← reads (λ tr, sys_look sys tr name);
  _ ← or_return found (λ _, return_ (Err ErrNotImplemented));
  '(out, err) ← exec_cmd sys (name :: args) [];
  match err with
  | Some e => return_ (Err (what +:+ " failed: " +:+ e +:+ ": " +:+ TrimSpace out))
  | None => mret out
  end.

Definition resolveGitPath (ref : string) : handler (list event) (result string) string :=
  '(repo, rev, path) ← or_return (parseGitRef ref) (λ e, return_ (Err e));
  fetch "git" "git show" ["-C"; repo; "show"; rev +:+ ":" +:+ path].

Definition resolveObjectStore (ref : string) : handler (list event) (result string) string :=
  uri ← or_return (parseObjectRef ref) (λ e, return_ (Err e));
  fetch "aws" "aws s3 cp" ["s3"; "cp"; "--only-show-errors"; uri; "-"].

Definition ResolveArtifact (ref : ArtifactRef) :
    handler (list event) (result string) (result string) :=
  data ← (if Kind ref =? "git_path" then resolveGitPath (Ref ref)
          else if Kind ref =? "object_store" then resolveObjectStore (Ref ref)
          else if Kind ref =? "inline" then mret (Ref ref)
          else return_ (Err ErrUnsupportedArtifact));
  _ ← or_return (verifySHA data (SHA ref)) (λ e, return_ (Err e));
  mret (Ok data).

(** The input with the values file, and the file to remove afterwards. *)
Definition prepareHelmCLIInput (input : any) :
    handler (list event) (result (gmap string any * option string))
            (result (gmap string any * option string)) :=
  m ← or_return (inputMap input) (λ e, return_ (Err e));
  ref ← or_return (parseArtifactRef (mget m "values_ref")) (λ e, return_ (Err e));
  match ref with
  | None => mret (Ok (m, None))
  | Some ref =>
      data ← call_or (run_handler (ResolveArtifact ref)) (λ e, return_ (Err e));
      name ← reads (sys_temp sys);
      name ← or_return name (λ e, return_ (Err e));
      _ ← emit (TempCreate name);
      werr ← reads (λ tr, sys_write sys tr data);
      cerr ← reads (sys_close sys);
      match werr, cerr with
      | Some e, _ | None, Some e => _ ← emit (TempRemove name); return_ (Err e)
      | None, None => mret (Ok (<["values_file" := AStr name]> m, Some name))
      end
  end.
End resolve.

(** ** Theorems *)

Definition digest_matches (ref : ArtifactRef) (data : string) : Prop :=
  blank (SHA ref) = false →
  sha256_hex data = trim_prefix (ToLower (TrimSpace (SHA ref))) "sha256:".

Lemma verifySHA_ok data expected :
  verifySHA data expected = Ok tt →
  blank expected = false →
  sha256_hex data = trim_prefix (ToLower (TrimSpace expected)) "sha256:".
Proof.
  unfold verifySHA, check. intros H Hb. rewrite Hb in H.
  repeat (case_test_in H; try discriminate). by bool_hyps.
Qed.

(** Fetching only returns early with an error. *)
Lemma fetch_no_ok sys name what args (Q : string → list event → Prop) w :
  (∀ d w', Q d w') →
  wp (fetch sys name what args) Q (λ r _, is_ok r = false) w.
Proof.
  intros HQ. unfold fetch, exec_cmd, emit. wp_steps; [|done].
  destruct (sys_process _ _) as [out [e|]]; wp_steps; done.
Qed.

Lemma resolveGitPath_no_ok sys ref w :
  wp (resolveGitPath sys ref) (λ _ _, true = true) (λ r _, is_ok r = false) w.
Proof.
  unfold resolveGitPath. wp_steps; [|done].
  match goal with |- context [let '(_, _) := ?p in _] => destruct p as [[? ?] ?] end.
  by apply fetch_no_ok.
Qed.

Lemma resolveObjectStore_no_ok sys ref w :
  wp (resolveObjectStore sys ref) (λ _ _, true = true) (λ r _, is_ok r = false) w.
Proof. unfold resolveObjectStore. wp_steps; [|done]. by apply fetch_no_ok. Qed.

(** Whatever its kind, an artifact whose reference carries a digest is
    returned only if the bytes fetched have that digest. *)
Theorem ResolveArtifact_verified sys ref tr data tr' :
  run_handler (ResolveArtifact sys ref) tr = (Ok data, tr') →
  digest_matches ref data ∧ mem (Kind ref) artifact_kinds = true.
Proof.
  intros Hrun.
  refine (wp_run_eq _ (λ r _, ∀ d, r = Ok d →
    digest_matches ref d ∧ mem (Kind ref) artifact_kinds = true) _ _ _ Hrun _ data eq_refl).
  unfold ResolveArtifact. apply wp_bind.
  apply wp_mono with (Q := λ _ _, mem (Kind ref) artifact_kinds = true)
                     (E := λ r _, is_ok r = false).
  - unfold mem, artifact_kinds. simpl.
    destruct (Kind ref =? "git_path"); [|destruct (Kind ref =? "object_store");
      [|destruct (Kind ref =? "inline")]]; wp_steps; try done.
    + apply resolveGitPath_no_ok.
    + apply resolveObjectStore_no_ok.
  - intros d w Hkind. wp_steps; [|done]. intros ? [= <-]. split; [|done].
    match goal with a : () |- _ => destruct a end. intros ?. by apply verifySHA_ok.
  - intros r w Hr d ->. done.
Qed.

Lemma ResolveArtifact_verified_witness :
  digest_matches
    (mkArtifact "inline" "a: 1"
      " SHA256:16C3C6D78678D53D39AB2C7A5A7BC4596567B46A1A57000A2D707334F779B824") "a: 1".
Proof.
  destruct (ResolveArtifact_verified demo_system
    (mkArtifact "inline" "a: 1"
      " SHA256:16C3C6D78678D53D39AB2C7A5A7BC4596567B46A1A57000A2D707334F779B824") [] "a: 1" [])
    as [H _]; [vm_compute; reflexivity|exact H].
Defined.

(** ** The events of a preparation *)

(** The command that fetches an artifact: of git, or of aws for an object. *)
Definition fetched (argv : list string) : Prop :=
  (∃ repo rev path, argv = ["git"; "-C"; repo; "show"; rev +:+ ":" +:+ path]) ∨
  ∃ uri, has_prefix uri "s3://" = true ∧ argv = ["aws"; "s3"; "cp"; "--only-show-errors"; uri; "-"].

(** At most one process, on the host. *)
Inductive fetch_events : list event → Prop :=
| fetch_nothing : fetch_events []
| fetch_process argv : fetched argv → fetch_events [Exec argv []].

(** What preparing the input adds, and the temporary file it leaves. *)
Inductive prep_events : option string → list event → Prop :=
| prep_fetch l : fetch_events l → prep_events None l
| prep_file l name : fetch_events l → prep_events (Some name) (l ++ [TempCreate name])
| prep_undone l name :
    fetch_events l → prep_events None (l ++ [TempCreate name; TempRemove name]).

#[export] Hint Constructors fetch_events prep_events : go.

Lemma fetch_adds sys name what args tr :
  let added (tr' : list event) := ∃ l, tr' = tr ++ l ∧ fetch_events l in
  fetched (name :: args) → wp (fetch sys name what args) (λ _ tr', added tr') (λ _ tr', added tr') tr.
Proof.
  cbn zeta. intros Hf. unfold fetch, exec_cmd, emit. wp_steps.
  - destruct (sys_process _ _) as [out [e|]]; wp_steps; eauto with go.
  - exists []. rewrite app_nil_r. eauto with go.
Qed.

Lemma parseObjectRef_uri ref uri : parseObjectRef ref = Ok uri → has_prefix uri "s3://" = true.
Proof.
  unfold parseObjectRef. destruct (_ =? ""); [done|]. destruct (has_prefix (TrimSpace ref) "s3://") eqn:E.
  - by intros [= <-].
  - destruct (contains _ _); [done|]. intros [= <-]. apply has_prefix_app.
Qed.

Lemma ResolveArtifact_adds sys ref tr :
  ∃ l, (run_handler (ResolveArtifact sys ref) tr).2 = tr ++ l ∧ fetch_events l.
Proof.
  apply (wp_run _ (λ _ tr', ∃ l, tr' = tr ++ l ∧ fetch_events l)).
  assert (Hnil : ∃ l, tr = tr ++ l ∧ fetch_events l).
  { exists []. rewrite app_nil_r. eauto with go. }
  unfold ResolveArtifact. apply wp_bind.
  apply wp_mono with (Q := λ _ tr', ∃ l, tr' = tr ++ l ∧ fetch_events l)
                     (E := λ _ tr', ∃ l, tr' = tr ++ l ∧ fetch_events l); [|by intros; wp_steps|done].
  destruct (Kind ref =? "git_path"); [|destruct (Kind ref =? "object_store");
    [|destruct (Kind ref =? "inline")]]; try (wp_steps; exact Hnil).
  - unfold resolveGitPath. wp_steps; [|done].
    match goal with |- context [let '(_, _) := ?p in _] => destruct p as [[? ?] ?] end.
    apply fetch_adds. left. by eexists _, _, _.
  - unfold resolveObjectStore. wp_steps; [|done]. apply fetch_adds. right. eexists. split; [|done].
    by eapply parseObjectRef_uri.
Qed.

Lemma prepareHelmCLIInput_adds sys input tr r tr' :
  run_handler (prepareHelmCLIInput sys input) tr = (r, tr') →
  ∃ l, tr' = tr ++ l ∧ prep_events (match r with Ok (_, file) => file | Err _ => None end) l.
Proof.
  intros Hrun.
  refine (wp_run_eq _ (λ r tr', ∃ l, tr' = tr ++ l ∧
    prep_events (match r with Ok (_, file) => file | Err _ => None end) l) _ _ _ Hrun _).
  clear Hrun r tr'.
  assert (Hnil : ∃ l, tr = tr ++ l ∧ prep_events None l).
  { exists []. rewrite app_nil_r. eauto with go. }
  unfold prepareHelmCLIInput. apply wp_bind, wp_or_return; split; [|intros; exact Hnil].
  intros m _. apply wp_bind, wp_or_return; split; [|intros; exact Hnil].
  intros [ref|] _; [|exact Hnil].
  apply wp_bind, wp_call_or.
  destruct (ResolveArtifact_adds sys ref tr) as (l & Hl & Hf).
  unfold emit. split; intros x tr1 Heq; rewrite Heq in Hl; simpl in Hl; subst tr1; wp_steps;
    [|eauto with go..].
  repeat case_match; wp_steps; rewrite <- ?(assoc_L (++));
    eauto with go.
Qed.
