(* ===== verification/ToolApi.v ===== *)
(** * ToolApi: the HTTP APIs behind the tools

    APIClient.Do (internal/tools/api_fallbacks.go) and the table of tool
    actions with an API (api_exec.go). *)

From S2P Require Import Prelude GoStrings Json ContextRef Steps ToolCommands ToolValidate.
From S2P Require Import Sandbox.
From Stdlib Require Import Ascii.

Local Open Scope string_scope.
Local Open Scope list_scope.

Definition ErrNoCLI : string := "cli not available".

(** ** URL escaping (net/url) *)

Definition alnum (c : ascii) : bool := between 48 57 c || between 65 90 c || between 97 122 c.

Definition upper_hex (n : Z) : ascii := if (n <? 10)%Z then chr (48 + n) else chr (55 + n).
Definition percent (c : ascii) : string :=
  String "%" (String (upper_hex (code c / 16)) (String (upper_hex (code c mod 16)) "")).

Fixpoint escape_with (keep : ascii → bool) (plus : bool) (s : string) : string :=
  match s with
  | "" => ""
  | String c s' =>
      (if keep c then String c ""
       else if plus && Ascii.eqb c " " then "+" else percent c) +:+ escape_with keep plus s'
  end.

Definition PathEscape : string → string :=
  escape_with (λ c, alnum c || string_in c "-_.~$&+:=@") false.
Definition QueryEscape : string → string :=
  escape_with (λ c, alnum c || string_in c "-_.~") true.

(** Values.Encode on keys in order. *)
Definition encode_values (kvs : list (string * string)) : string :=
  join (map (λ '(k, v), QueryEscape k +:+ "=" +:+ QueryEscape v) kvs) "&".

(** ** The client *)

Record APIClient := mkClient {
  BaseURL : string;
  Allowlist : list string;
  c_MaxOutputBytes : Z }.

Record HTTPClients := mkClients {
  Prometheus : option APIClient;
  Alertmanager : option APIClient;
  Thanos : option APIClient;
  Grafana : option APIClient;
  Tempo : option APIClient;
  Linear : option APIClient;
  PagerDuty : option APIClient;
  Vault : option APIClient;
  Boundary : option APIClient;
  ArgoCD : option APIClient;
  AWS : option APIClient }.

Definition no_clients : HTTPClients :=
  mkClients None None None None None None None None None None None.

Section api.
Variable sys : system.
Variable url_hostname : string → option string.

(** The headers (content type, credentials) are not modelled. *)
Definition Do (c : APIClient) (method path : string) (body : any) :
    handler (list event) output output :=
  _ ← return_if (negb (Nat.eqb (length (Allowlist c)) 0)
                 && negb (allowHost url_hostname (BaseURL c) (Allowlist c)))
        ("", Some "egress denied");
  data ← match body with
         | ANil => mret None
         | _ => j ← or_return (marshal body) (λ e, return_ ("", Some e)); mret (Some j)
         end;
  _ ← emit (HTTPCall method (BaseURL c +:+ path) data);
  resp ← reads (sys_http sys);
  data ← or_return resp (λ e, return_ ("", Some e));
  if (0 <? c_MaxOutputBytes c)%Z && (c_MaxOutputBytes c <? Z.of_nat (String.length data))%Z
  then mret (take_bytes (Z.to_nat (c_MaxOutputBytes c)) data +:+ "...(truncated)", None)
  else mret (data, None).

(** ** Requests *)

Definition thanosQueryParams (input : any) : string :=
  match inputMap input with
  | Err _ => ""
  | Ok m =>
      encode_values
        ((match mget m "dedup" with
          | ABool b => [("dedup", if b then "true" else "false")]
          | _ => []
          end) ++
         (match mget m "max_source_resolution" with
          | AStr msr => if blank msr then [] else [("max_source_resolution", TrimSpace msr)]
          | _ => []
          end))
  end.

Definition grafanaSearchParams (input : any) : string :=
  match inputMap input with
  | Err _ => ""
  | Ok m =>
      encode_values
        ((match mget m "folder_ids" with
          | AList folders => map (λ id, ("folderIds", itoa id)) (omap intFromAnyOK folders)
          | _ => []
          end) ++
         (match mget m "query" with
          | AStr query => if blank query then [] else [("query", TrimSpace query)]
          | _ => []
          end))
  end.

(** [path += "?" + q] when there is a query. *)
Definition with_query (path q : string) : string :=
  if q =? "" then path else path +:+ "?" +:+ q.

Definition vault_audit (input : any) : string * any :=
  let path := stringFieldFromInput input "path" in
  let type := stringFieldFromInput input "type" in
  ("/v1/sys/audit/" +:+ PathEscape (if path =? "" then "file" else path),
   AMap (amap ([("type", AStr (if type =? "" then "file" else type))] ++
               (if path =? "" then []
                else [("options", AMap (amap [("file_path", AStr path)]))])))).

(** A path that needs an identifier of the input. *)
Definition path_with (input : any) (key pre post : string) : option string :=
  let id := stringFieldFromInput input key in
  if id =? "" then None else Some (pre +:+ PathEscape id +:+ post).

(** The client, method, path and body of an action; [None] is ErrNoCLI. *)
Definition api_request (tool action : string) (input : any) (cs : HTTPClients)
    : option (APIClient * string * string * any) :=
  let req c m p b := c ← (c : option APIClient); Some (c, m, p, b) in
  let act := String.eqb action in
  if tool =? "prometheus" then
    if act "query" then req (Prometheus cs) "POST" "/api/v1/query" input
    else if act "query_range" then req (Prometheus cs) "POST" "/api/v1/query_range" input
    else if act "rules" then req (Prometheus cs) "GET" "/api/v1/rules" ANil
    else if act "query_exemplars" then req (Prometheus cs) "POST" "/api/v1/query_exemplars" input
    else None
  else if tool =? "alertmanager" then
    if act "alerts_list" then req (Alertmanager cs) "GET" "/api/v2/alerts" ANil else None
  else if tool =? "thanos" then
    if act "query" then
      req (Thanos cs) "POST" (with_query "/api/v1/query" (thanosQueryParams input)) input
    else if act "query_range" then
      req (Thanos cs) "POST" (with_query "/api/v1/query_range" (thanosQueryParams input)) input
    else None
  else if tool =? "grafana" then
    if act "annotate" then req (Grafana cs) "POST" "/api/annotations" input
    else if act "dashboard_get" then
      p ← path_with input "uid" "/api/dashboards/uid/" ""; req (Grafana cs) "GET" p ANil
    else if act "dashboard_upsert" then req (Grafana cs) "POST" "/api/dashboards/db" input
    else if act "dashboard_list" then
      req (Grafana cs) "GET" (with_query "/api/search" (grafanaSearchParams input)) ANil
    else if act "dashboard_delete" then
      p ← path_with input "uid" "/api/dashboards/uid/" ""; req (Grafana cs) "DELETE" p ANil
    else None
  else if tool =? "tempo" then
    if act "query" || act "traceql" then req (Tempo cs) "POST" "/api/search" input
    else if act "trace_by_id" then
      p ← path_with input "trace_id" "/api/v2/traces/" ""; req (Tempo cs) "GET" p ANil
    else None
  else if tool =? "vault" then
    if act "login_k8s" then req (Vault cs) "POST" "/v1/auth/kubernetes/login" input
    else if act "login_approle" then req (Vault cs) "POST" "/v1/auth/approle/login" input
    else if act "renew" then req (Vault cs) "POST" "/v1/sys/leases/renew" input
    else if act "revoke" then req (Vault cs) "POST" "/v1/sys/leases/revoke" input
    else if act "health" then req (Vault cs) "GET" "/v1/sys/health" ANil
    else if act "audit_enable" then
      let '(p, b) := vault_audit input in req (Vault cs) "POST" p b
    else if act "token_renew" then
      req (Vault cs) "POST" "/v1/auth/token/renew-self" (AMap ∅)
    else None
  else if tool =? "boundary" then
    if act "authenticate" then req (Boundary cs) "POST" "/v1/auth-methods/login" input
    else if act "session_open" then req (Boundary cs) "POST" "/v1/sessions" input
    else if act "session_close" then
      p ← path_with input "session_id" "/v1/sessions/" ":cancel"; req (Boundary cs) "POST" p ANil
    else None
  else if tool =? "argocd" then
    if act "status" then
      p ← path_with input "app" "/api/v1/applications/" ""; req (ArgoCD cs) "GET" p ANil
    else None
  else if tool =? "aws" then
    if act "cloudtrail_lookup_events" || act "cloudtrail-lookup-events" then
      req (AWS cs) "POST" "/cloudtrail/lookup" input
    else if act "cloudwatch_get_metric_data" || act "cloudwatch-get-metric-data" then
      req (AWS cs) "POST" "/cloudwatch/metric-data" input
    else None
  else if tool =? "linear" then req (Linear cs) "POST" "/graphql" input
  else if tool =? "pagerduty" then req (PagerDuty cs) "POST" "/v2/enqueue" input
  else None.

Definition ExecuteAPI (tool action : string) (input : any) (cs : HTTPClients) :
    handler (list event) output output :=
  match api_request tool action input cs with
  | None => mret ("", Some ErrNoCLI)
  | Some (c, method, path, body) => Do c method path body
  end.
End api.

Definition one_client (c : APIClient) : HTTPClients :=
  mkClients (Some c) None None (Some c) None None None None None None None.

Example grafana_path_ex :
  api_request "grafana" "dashboard_get" (AMap (amap [("uid", AStr " a b/c ")]))
    (one_client (mkClient "https://g" [] 0))
  = Some (mkClient "https://g" [] 0, "GET", "/api/dashboards/uid/a%20b%2Fc", ANil).
Proof. vm_compute. reflexivity. Qed.

Example grafana_search_ex :
  grafanaSearchParams (AMap (amap [("query", AStr "cpu load");
    ("folder_ids", AList [AInt 3; AStr "x"; AInt 7])]))
  = "folderIds=3&folderIds=7&query=cpu+load".
Proof. vm_compute. reflexivity. Qed.
