(* ===== verification/Http.v ===== *)
(** * Http: the requests and responses the handlers see

    The parts of net/http's Request and ResponseWriter the handlers use.  A
    request's body is the first JSON value of its bytes, which is what a
    json.Decoder reads; bodies over the 1 MB limit are invalid documents. *)

From S2P Require Import Prelude GoStrings Json.

Local Open Scope string_scope.

Record Request := mkReq {
  Method : string;
  Path : string;
  Query : string → string;     (* r.URL.Query().Get *)
  Header : string → string;    (* r.Header.Get *)
  Body : doc }.

(** The handlers of the gateway and of the tool router read at most 1 MB of a body
    (http.MaxBytesReader; both packages have the constant): a longer text is no document
    to them. *)
Definition maxRequestBody : Z := 1048576.
Definition MaxBytesReader (limit : Z) (d : doc) : doc :=
  match d with
  | doc_json j => if (limit <? Z.of_nat (String.length (print_json j)))%Z then doc_invalid else d
  | _ => d
  end.

(** The request as a handler reads it, when its body is the text json.Marshal wrote. *)
Definition over_the_wire (r : Request) : Request :=
  mkReq (Method r) (Path r) (Query r) (Header r) (MaxBytesReader maxRequestBody (Body r)).

Inductive body :=
| Empty
| Text (s : string)            (* http.Error *)
| Encoded (v : any)            (* json.NewEncoder(w).Encode *)
| Raw (d : doc)                (* w.Write of stored bytes *)
| Streamed (s : string).       (* what a stream wrote until it ended *)

Record Response := mkResp { Status : Z; Content : body }.

Definition ok_json (v : any) : Response := mkResp 200 (Encoded v).
Definition http_error (msg : string) (status : Z) : Response := mkResp status (Text msg).
Definition StatusMethodNotAllowed : Response := mkResp 405 Empty.
Definition unauthorized : Response := http_error "unauthorized" 401.

(** Anything but a 2xx answer. *)
Definition refused (r : Response) : Prop := (400 ≤ Status r)%Z.
