(* ===== verification/Auth.v ===== *)
(** * Auth: bearer tokens, JWT claims and keys

    internal/auth (bearer.go, claims.go, jwt.go, jwks_cache.go) and the
    gateway's AuthMiddleware (internal/web/auth.go).  SHA-256 is Digest's; the RSA
    signature check is a parameter. *)

From S2P Require Import Prelude GoStrings Json Digest Policy Http.
From Stdlib Require Import Ascii SpecFloat.

Local Open Scope string_scope.
Local Open Scope list_scope.

Record AuthConfig := mkAuthConfig {
  Issuer : string;
  Audience : string;
  JWKSURL : string;
  DevMode : bool;
  Token : string }.

(** ** Bearer tokens *)

Definition ParseBearer (r : Request) : result string :=
  let hdr := TrimSpace (Header r "Authorization") in
  if hdr =? "" then Err "authorization required"
  else match cut_at hdr " " with
       | Some (scheme, token) =>
           if EqualFold scheme "bearer" then Ok (TrimSpace token)
           else Err "invalid authorization"
       | None => Err "invalid authorization"
       end.

(** ** base64.RawURLEncoding *)

Definition b64url_val (c : ascii) : option Z :=
  if between 65 90 c then Some (code c - 65)%Z
  else if between 97 122 c then Some (code c - 71)%Z
  else if between 48 57 c then Some (code c + 4)%Z
  else if Ascii.eqb c "-" then Some 62%Z
  else if Ascii.eqb c "_" then Some 63%Z
  else None.

(** Groups of four digits; a last group of two or three gives one or two bytes,
    and its spare bits are not checked. *)
Fixpoint b64_groups (l : list Z) : option string :=
  match l with
  | a :: b :: c :: d :: rest =>
      s ← b64_groups rest;
      Some (String (chr (a * 4 + b / 16)) (String (chr ((b mod 16) * 16 + c / 4))
              (String (chr ((c mod 4) * 64 + d)) s)))
  | [a; b; c] => Some (String (chr (a * 4 + b / 16)) (String (chr ((b mod 16) * 16 + c / 4)) ""))
  | [a; b] => Some (String (chr (a * 4 + b / 16)) "")
  | [_] => None
  | [] => Some ""
  end.

Definition newline (c : ascii) : bool := Ascii.eqb c (byte 10) || Ascii.eqb c (byte 13).

(** Carriage returns and line feeds are skipped. *)
Definition DecodeString (s : string) : result string :=
  of_option "illegal base64 data"
    (l ← opt_map b64url_val (List.filter (λ c, negb (newline c)) (chars s)); b64_groups l).

(** ** Claims *)

Record JWTPayload := mkClaims {
  Sub : string; Email : string; Groups : list string; Iss : string; Aud : any;
  Exp : spec_float; Nbf : spec_float; TenantID_ : string }.

Record JWTHeader := mkHeader { Alg : string; Kid : string; Typ : string }.

Definition no_claims : JWTPayload :=
  mkClaims "" "" [] "" ANil (S754_zero false) (S754_zero false) "".

Definition fld_float (name : string) : list (string * json) → result spec_float :=
  fld (λ a x, match x with
              | JNum l => of_option json_error (lit_float l)
              | JNull => Ok a
              | _ => Err json_error end) name (S754_zero false).

Definition decode_text (j : json) : result string :=
  match j with JStr s => Ok s | JNull => Ok "" | _ => Err json_error end.

Definition decode_claims (j : json) : result JWTPayload :=
  fs ← members j;
  sub ← fld_string "sub" fs; email ← fld_string "email" fs;
  groups ← fld_slice decode_text "groups" fs;
  iss ← fld_string "iss" fs; aud ← fld_any "aud" fs;
  exp ← fld_float "exp" fs; nbf ← fld_float "nbf" fs;
  tenant ← fld_string "tenant_id" fs;
  Ok (mkClaims sub email groups iss aud exp nbf tenant).

Definition decode_header (j : json) : result JWTHeader :=
  fs ← members j;
  alg ← fld_string "alg" fs; kid ← fld_string "kid" fs; typ ← fld_string "typ" fs;
  Ok (mkHeader alg kid typ).

Definition dot : ascii := byte 46.

(** The segment [parts[i]] as a document. *)
Definition segment {A} (dec : json → result A) (part : string) : result A :=
  data ← DecodeString part; j ← unmarshal (doc_of_text data); dec j.

Definition ParseJWTClaims (token : string) : result JWTPayload :=
  match split_byte dot token with
  | _ :: payload :: _ => segment decode_claims payload
  | _ => Err "invalid jwt"
  end.

Definition ParseJWTHeader (token : string) : result JWTHeader :=
  match split_byte dot token with
  | header :: _ :: _ => segment decode_header header
  | _ => Err "invalid jwt"
  end.

Definition AudienceMatches (aud : any) (target : string) : bool :=
  match aud with
  | AStr v => v =? target
  | AStrs v => mem target v
  | AList v => mem target (omap as_string v)
  | _ => false
  end.

(** [float64(n)] of a Unix time. *)
Definition float_of_int (n : Z) : spec_float :=
  match n with
  | Z0 => S754_zero false
  | Zpos p => binary_round 53 1024 false p 0
  | Zneg p => binary_round 53 1024 true p 0
  end.

Definition float_pos (f : spec_float) : bool := SFltb (S754_zero false) f.

(** [now] is the clock, in seconds. *)
Definition ValidateClaims (now : Z) (claims : JWTPayload) (cfg : AuthConfig) : result unit :=
  _ ← check ((Issuer cfg =? "") || (Iss claims =? Issuer cfg)) "issuer mismatch";
  _ ← check ((Audience cfg =? "") || AudienceMatches (Aud claims) (Audience cfg))
        "audience mismatch";
  let now := float_of_int now in
  _ ← check (negb (float_pos (Exp claims) && SFleb (Exp claims) now)) "token expired";
  check (negb (float_pos (Nbf claims) && SFltb now (Nbf claims))) "token not yet valid".

(** ** Keys *)

Record JWK := mkJWK { Kty : string; k_Kid : string; k_Alg : string; Use : string;
                      N_ : string; E_ : string }.

Definition SelectJWK (keys : list JWK) (kid : string) : result JWK :=
  if negb (kid =? "") then
    of_option "jwks kid not found" (List.find (λ k, k_Kid k =? kid) keys)
  else match keys with
       | [key] => Ok key
       | _ => Err "jwks kid required"
       end.

(** big.Int.SetBytes *)
Definition SetBytes (s : string) : Z := foldl (λ acc c, acc * 256 + code c)%Z 0%Z (chars s).

(** The modulus and the exponent. *)
Definition RSAKeyFromJWK (key : JWK) : result (Z * Z) :=
  if negb (Kty key =? "") && negb (Kty key =? "RSA") then Err "unsupported jwk kty"
  else if (N_ key =? "") || (E_ key =? "") then Err "invalid jwk"
  else
    nBytes ← DecodeString (N_ key);
    eBytes ← DecodeString (E_ key);
    let e := SetBytes eBytes in
    _ ← check (e <=? int_max)%Z "invalid jwk exponent";
    _ ← check (0 <? e)%Z "invalid jwk exponent";
    Ok (SetBytes nBytes, e).

Section verify.
(** rsa.VerifyPKCS1v15 for SHA-256: modulus, exponent, digest, signature. *)
Variable VerifyPKCS1v15 : Z → Z → string → string → result unit.
(** FetchJWKS, for the trimmed URL. *)
Variable FetchJWKS : string → result (list JWK).

Definition VerifyRS256 (signed sig : string) (key : Z * Z) : result unit :=
  VerifyPKCS1v15 key.1 key.2 (sha256 signed) sig.

Definition parseJWTForVerify (token : string) : result (JWTHeader * string * string) :=
  match split_byte dot token with
  | [h; p; s] =>
      header ← segment decode_header h;
      sig ← DecodeString s;
      Ok (header, h +:+ "." +:+ p, sig)
  | _ => Err "invalid jwt"
  end.

Definition VerifyJWTSignature (token : string) (cfg : AuthConfig) : result unit :=
  let jwksURL := TrimSpace (JWKSURL cfg) in
  if jwksURL =? "" then
    if DevMode cfg then Ok tt else Err "jwks url required"
  else
    '(header, signed, sig) ← parseJWTForVerify token;
    _ ← check (negb (Alg header =? "")) "jwt alg required";
    _ ← check (Alg header =? "RS256") "unsupported jwt alg";
    keys ← FetchJWKS jwksURL;
    key ← SelectJWK keys (Kid header);
    pub ← RSAKeyFromJWK key;
    VerifyRS256 signed sig pub.

(** AuthMiddleware: the handler behind it runs for the actor of the token, or
    the request is answered 401. *)
Definition AuthMiddleware {A} (now : Z) (cfg : AuthConfig) (answer : Response → A)
    (next : Actor → Request → A) (r : Request) : A :=
  match (token ← ParseBearer r;
         _ ← check (negb (token =? "")) "unauthorized";
         claims ← ParseJWTClaims token;
         _ ← ValidateClaims now claims cfg;
         _ ← VerifyJWTSignature token cfg;
         Ok claims) with
  | Ok claims => next (mkActor (Sub claims) (Email claims) (Groups claims)) r
  | Err _ => answer unauthorized
  end.
End verify.

(** ** Lemmas *)
Lemma find_Some_eqb {A} (f : A → string) (x : string) (l : list A) (a : A) :
  List.find (λ y, f y =? x) l = Some a → a ∈ l ∧ f a = x.
Proof.
  intros H. apply List.find_some in H as [Hin He].
  split; [by apply list_elem_of_In|by apply String.eqb_eq].
Qed.

Lemma SelectJWK_Ok keys kid key :
  SelectJWK keys kid = Ok key → key ∈ keys ∧ (kid ≠ "" → k_Kid key = kid).
Proof.
  unfold SelectJWK. destruct (String.eqb_spec kid "") as [->|Hk]; cbn.
  - destruct keys as [|k [|]]; try discriminate. intros [= ->]. set_solver.
  - intros H%of_option_Ok%find_Some_eqb. naive_solver.
Qed.

(** A token whose signature is one of the published keys' RS256. *)
Definition signed_by (VerifyPKCS1v15 : Z → Z → string → string → result unit)
    (keys : list JWK) (h p s : string) : Prop :=
  ∃ header key n e sig,
    segment decode_header h = Ok header ∧ Alg header = "RS256" ∧
    key ∈ keys ∧ (Kid header ≠ "" → k_Kid key = Kid header) ∧
    RSAKeyFromJWK key = Ok (n, e) ∧ DecodeString s = Ok sig ∧
    VerifyPKCS1v15 n e (sha256 (h +:+ "." +:+ p)) sig = Ok tt.

Lemma VerifyJWTSignature_Ok V F token cfg :
  VerifyJWTSignature V F token cfg = Ok tt →
  (blank (JWKSURL cfg) = true ∧ DevMode cfg = true) ∨
  ∃ h p s keys, split_byte dot token = [h; p; s] ∧
    F (TrimSpace (JWKSURL cfg)) = Ok keys ∧ signed_by V keys h p s.
Proof.
  unfold VerifyJWTSignature. fold (blank (JWKSURL cfg)).
  destruct (blank (JWKSURL cfg)); [destruct (DevMode cfg); [auto|discriminate]|].
  intros H. right. apply bind_Ok in H as ([[header signed] sig] & Hp & H).
  unfold parseJWTForVerify in Hp.
  destruct (split_byte dot token) as [|h [|p [|s [|]]]]; try discriminate.
  ok_inv Hp. ok_inv H. simplify_eq. bool_hyps.
  exists h, p, s, a3. repeat split; auto.
  match goal with H : SelectJWK _ _ = Ok _ |- _ => apply SelectJWK_Ok in H as [??] end.
  destruct a5 as [n e]. by exists header, a4, n, e, sig.
Qed.

Lemma ValidateClaims_Ok now claims cfg :
  ValidateClaims now claims cfg = Ok tt →
  (Issuer cfg ≠ "" → Iss claims = Issuer cfg) ∧
  (Audience cfg ≠ "" → AudienceMatches (Aud claims) (Audience cfg) = true) ∧
  (float_pos (Exp claims) = true → SFleb (Exp claims) (float_of_int now) = false) ∧
  (float_pos (Nbf claims) = true → SFltb (float_of_int now) (Nbf claims) = false).
Proof.
  unfold ValidateClaims. intros H. ok_inv H.
  rewrite !orb_true_iff, !negb_true_iff, !andb_false_iff, !String.eqb_eq in *.
  intuition congruence.
Qed.

(** ** The key cache *)

Record jwksEntry := mkEntry {
  e_jwks : list JWK; fetchedAt : Z; expiresAt : Z; refreshing : bool; backoff : Z }.

Record JWKSCache := mkCache { ttl : Z; entries : gmap string jwksEntry }.

(** Nanoseconds. *)
Definition sec : Z := 1000000000.
Definition hour : Z := 3600 * sec.
Definition five_minutes : Z := 300 * sec.

Definition NewJWKSCache (d : Z) : JWKSCache := mkCache (if (d <=? 0)%Z then hour else d) ∅.

(** Get under the read lock: the cached keys, while they last. *)
Definition cache_lookup (c : JWKSCache) (u : string) (now : Z) : option (list JWK) :=
  match entries c !! u with
  | Some ent => if (now <? expiresAt ent)%Z then Some (e_jwks ent) else None
  | None => None
  end.

(** Get after its fetch, under the lock; [now] is read before the fetch.  A
    refresh loop starts with the first fetch of a URL. *)
Definition cache_store (c : JWKSCache) (u : string) (now : Z) (jwks : list JWK) : JWKSCache :=
  let b := match entries c !! u with Some ent => backoff ent | None => 0%Z end in
  mkCache (ttl c)
    (<[u := mkEntry jwks now (now + ttl c) true (if (b <=? 0)%Z then sec else b)]> (entries c)).

(** refreshLoop: a successful fetch, and a failed one. *)
Definition refresh_ok (c : JWKSCache) (u : string) (now : Z) (jwks : list JWK) : JWKSCache :=
  mkCache (ttl c)
    (alter (λ ent, mkEntry jwks now (now + ttl c) (refreshing ent) sec) u (entries c)).

Definition next_backoff (b : Z) : Z :=
  let b := (b * 2)%Z in
  let b := if (b <=? 0)%Z then (2 * sec)%Z else b in
  if (five_minutes <? b)%Z then five_minutes else b.

Definition refresh_fail (c : JWKSCache) (u : string) : JWKSCache :=
  mkCache (ttl c)
    (alter (λ ent, mkEntry (e_jwks ent) (fetchedAt ent) (expiresAt ent) (refreshing ent)
                     (next_backoff (backoff ent))) u (entries c)).

(** The steps of the cache, with the fetches made so far: URL, time, keys. *)
Definition fetch_log : Type := list (string * Z * list JWK).

Inductive cache_step : JWKSCache * fetch_log → JWKSCache * fetch_log → Prop :=
| step_fetch c l u now jwks :
    cache_step (c, l) (cache_store c u now jwks, (u, now, jwks) :: l)
| step_refresh c l u now jwks :
    refreshing <$> entries c !! u = Some true →
    cache_step (c, l) (refresh_ok c u now jwks, (u, now, jwks) :: l)
| step_refresh_fail c l u :
    refreshing <$> entries c !! u = Some true →
    cache_step (c, l) (refresh_fail c u, l).

(** Every entry was fetched, expires its lifetime after the fetch, has one
    refresh loop and a bounded backoff. *)
Definition cache_ok (d : Z) (s : JWKSCache * fetch_log) : Prop :=
  ttl s.1 = d ∧
  map_Forall (λ u ent,
    (u, fetchedAt ent, e_jwks ent) ∈ s.2 ∧ expiresAt ent = (fetchedAt ent + d)%Z ∧
    refreshing ent = true ∧ (sec ≤ backoff ent ≤ five_minutes)%Z) (entries s.1).

Lemma cache_step_ok d s s' : cache_step s s' → cache_ok d s → cache_ok d s'.
Proof.
  intros Hs [Ht He]. assert (five_minutes = 300 * sec ∧ 0 < sec)%Z as [E5 Epos] by done.
  destruct Hs as [c l u now jwks|c l u now jwks Hr|c l u Hr]; simpl in *; (split; [done|]);
    intros k ent; simpl; rewrite ?lookup_insert_Some, ?lookup_alter_Some.
  - intros [[-> <-]|[Hk Hent]]; simpl.
    + repeat split; [set_solver|by subst| |];
        destruct (entries c !! k) as [e|] eqn:E;
        try (destruct (He _ _ E) as (? & ? & ? & ?));
        repeat case_match; bool_hyps; lia.
    + destruct (He _ _ Hent) as (? & ? & ? & ?). repeat split; try done; try lia. set_solver.
  - intros [(-> & e & Hent & ->)|[Hk Hent]]; destruct (He _ _ Hent) as (? & ? & ? & ?); simpl;
      repeat split; try done; try lia; set_solver.
  - intros [(-> & e & Hent & ->)|[Hk Hent]]; destruct (He _ _ Hent) as (? & ? & ? & ?); simpl;
      repeat split; try done; try lia; unfold next_backoff; repeat case_match; bool_hyps; lia.
Qed.

Lemma cache_steps_ok d s s' : rtc cache_step s s' → cache_ok d s → cache_ok d s'.
Proof. induction 1 as [|x y z Hs _ IH]; eauto using cache_step_ok. Qed.

Lemma cache_reachable_ok d s :
  rtc cache_step (NewJWKSCache d, []) s → cache_ok (ttl (NewJWKSCache d)) s.
Proof.
  intros H. apply (cache_steps_ok _ _ _ H). split; [done|]. apply map_Forall_empty.
Qed.

(** ** Theorems *)

(** The claims a request is let through for: the token of its Authorization
    header holds them, its issuer and audience are the configured ones, it has
    not run out and is not yet to start; and, unless no key URL is configured in
    development mode, they are signed with RS256 by a published key, the one the
    header names when it names one. *)
Definition authentic V F (now : Z) (cfg : AuthConfig) (r : Request) (claims : JWTPayload) : Prop :=
  ∃ token, ParseBearer r = Ok token ∧ ParseJWTClaims token = Ok claims ∧
    (Issuer cfg ≠ "" → Iss claims = Issuer cfg) ∧
    (Audience cfg ≠ "" → AudienceMatches (Aud claims) (Audience cfg) = true) ∧
    (float_pos (Exp claims) = true → SFleb (Exp claims) (float_of_int now) = false) ∧
    (float_pos (Nbf claims) = true → SFltb (float_of_int now) (Nbf claims) = false) ∧
    (blank (JWKSURL cfg) = true ∧ DevMode cfg = true ∨
     ∃ h p s keys,
       split_byte dot token = [h; p; s] ∧ segment decode_claims p = Ok claims ∧
       F (TrimSpace (JWKSURL cfg)) = Ok keys ∧ signed_by V keys h p s).

Definition actor_of (claims : JWTPayload) : Actor :=
  mkActor (Sub claims) (Email claims) (Groups claims).

(** The handler behind the middleware runs for the subject, email and groups of
    authentic claims; any other request is answered 401. *)
Lemma AuthMiddleware_cases {A} V F now cfg (answer : Response → A) next r :
  AuthMiddleware V F now cfg answer next r = answer unauthorized ∨
  ∃ claims, authentic V F now cfg r claims ∧
    AuthMiddleware V F now cfg answer next r = next (actor_of claims) r.
Proof.
  unfold AuthMiddleware.
  match goal with |- context [match ?m with Ok _ => _ | Err _ => _ end] =>
    destruct m as [claims|e] eqn:E end; [right|by left].
  ok_inv E. subst. exists claims. split; [|done]. exists a.
  repeat match goal with H : ValidateClaims _ _ _ = Ok ?x |- _ =>
    destruct x; apply ValidateClaims_Ok in H as (? & ? & ? & ?) end.
  match goal with H : VerifyJWTSignature _ _ _ _ = Ok ?x |- _ =>
    destruct x; apply VerifyJWTSignature_Ok in H as [?|(h & p & s & keys & Hs & Hk & Hv)] end;
    [by repeat split; auto|].
  repeat split; auto. right. exists h, p, s, keys. repeat split; auto.
  match goal with H : ParseJWTClaims _ = Ok _ |- _ => unfold ParseJWTClaims in H end.
  by rewrite Hs in *.
Qed.

(** C35: the keys the cache answers with were fetched from that URL less than one
    lifetime before, whatever fetches, refreshes and failed refreshes came in
    between, and a failing refresh waits between one second and five minutes. *)
Theorem JWKSCache_fresh d s u now keys :
  rtc cache_step (NewJWKSCache d, []) s →
  cache_lookup s.1 u now = Some keys →
  ∃ t, (u, t, keys) ∈ s.2 ∧ (now < t + ttl (NewJWKSCache d))%Z ∧
       ∃ ent, entries s.1 !! u = Some ent ∧ (sec ≤ backoff ent ≤ five_minutes)%Z.
Proof.
  intros [_ He]%cache_reachable_ok. unfold cache_lookup.
  destruct (entries s.1 !! u) as [ent|] eqn:E; [|done].
  destruct (He _ _ E) as (Hin & Hx & _ & Hb).
  case_match; [|done]. bool_hyps. intros [= <-].
  exists (fetchedAt ent). repeat split; [done|lia|eauto].
Qed.

Lemma JWKSCache_fresh_witness :
  ∃ t, ("https://idp/keys", t, [mkJWK "RSA" "1" "" "" "AA" "AQAB"])
       ∈ [("https://idp/keys", 7%Z, [mkJWK "RSA" "1" "" "" "AA" "AQAB"])] ∧ (20 < t + hour)%Z ∧
       ∃ ent, entries (cache_store (NewJWKSCache 0) "https://idp/keys" 7
                         [mkJWK "RSA" "1" "" "" "AA" "AQAB"]) !! "https://idp/keys" = Some ent ∧
              (sec ≤ backoff ent ≤ five_minutes)%Z.
Proof.
  apply (JWKSCache_fresh 0
    (cache_store (NewJWKSCache 0) "https://idp/keys" 7 [mkJWK "RSA" "1" "" "" "AA" "AQAB"],
     [("https://idp/keys", 7%Z, [mkJWK "RSA" "1" "" "" "AA" "AQAB"])])).
  - apply rtc_once. apply step_fetch.
  - vm_compute. reflexivity.
Defined.
