(* ===== verification/ToolRouter.v ===== *)
(** * ToolRouter: executing a tool call

    Router.Execute (internal/tools/router_exec.go, logs.go), the router's
    policy (policy_helpers.go, Server.authorize) and its HTTP handler
    (tool_router_server.go). *)

From S2P Require Import Prelude GoStrings Json Digest ContextRef Steps Policy Hubs ToolCommands.
From S2P Require Import ToolValidate Sandbox Artifacts ToolApi Http Auth.

Local Open Scope string_scope.
Local Open Scope list_scope.

(** ** Action types and risks *)

Definition actionTypeForTool (tool action : string) : string :=
  let tool := norm tool in
  let action := norm action in
  let read_if (b : bool) := if b then "read" else "write" in
  if mem tool ["prometheus"; "thanos"; "tempo"] then "read"
  else if tool =? "grafana" then read_if (action =? "dashboard_get")
  else if tool =? "argocd" then read_if (mem action ["wait"; "status"; "list"])
  else if tool =? "kubectl" then read_if (mem action ["rollout-status"; "get"])
  else if tool =? "helm" then read_if (mem action ["status"; "list"; "get"])
  else if tool =? "aws" then
    read_if (contains action "lookup" || contains action "get" || contains action "list")
  else if tool =? "vault" then read_if (contains action "read")
  else if tool =? "boundary" then read_if (contains action "list" || contains action "get")
  else "write".

Definition riskForToolAction (tool action : string) : string :=
  let action := norm action in
  if contains_one action ["delete"; "terminate"; "rollback"; "iam"; "policy"; "network"]
  then "high"
  else if contains_one action ["sync"; "restart"; "upgrade"; "scale"] then "medium"
  else if actionTypeForTool tool action =? "read" then "read" else "low".

Definition blastRadiusForContext (ctx : ContextRef) : string :=
  if negb (blank (Namespace ctx)) then "namespace"
  else if negb (blank (ClusterID ctx)) then "cluster" else "account".

(** ** State *)

Record LogLine := mkLine {
  l_ToolCallID : string; l_ExecutionID : string; l_Tool : string; l_Action : string;
  l_Level : string; l_Message : string; l_Timestamp : Z }.

Definition Redactor : Type := list (string → string).   (* ReplaceAllString, per pattern *)

(** The process's state: the router's log hub, the call counter, the events. *)
Record world := mkWorld {
  w_Logs : option (LogHub LogLine);
  w_counter : Z;
  w_trace : list event }.

Record ExecuteResponse := mkExecResp {
  resp_ToolCallID : string; Output : string; Used : string }.

(** [(ExecuteResponse, error)] *)
Definition answer_ : Type := ExecuteResponse * option string.

Definition truncateMessage (msg : string) : string :=
  let msg := TrimSpace msg in
  if (String.length msg <=? 4096)%nat then msg else take_bytes 4096 msg +:+ "...".

Definition RedactString (r : option Redactor) (input : string) : string :=
  match r with
  | None => input
  | Some patterns => if input =? "" then input else foldl (λ s re, re s) input patterns
  end.

Section router.
Variable sys : system.
Variable url_hostname : string → option string.
Variable schemaFS : string → option string.
Variable gojsonschema : any → any → result (list string).
Variable redactor : option Redactor.
(** The clock, and the order in which the history map is visited. *)
Variable now : list event → Z.
Variable visit : gmap string (list LogLine) → list string.

Section steps_.
Context {R : Type}.

(** A computation on the events, run in the process. *)
Definition on_trace {A} (m : list event → A * list event) : handler world R A :=
  call (λ w, let '(a, tr) := m (w_trace w) in (a, mkWorld (w_Logs w) (w_counter w) tr)).

Definition newToolCallID : handler world R string :=
  call (λ w, let n := ((w_counter w + 1) mod 2 ^ 64)%Z in
             ("tool_" +:+ itoa n, mkWorld (w_Logs w) n (w_trace w))).

(** logHub().Append(line) *)
Definition append_log (line : Z → LogLine) : handler world R unit :=
  effect (λ w,
    let hub := default NewLogHub (w_Logs w) in
    mkWorld (Some (tools_Append l_ToolCallID (visit (history hub)) (line (now (w_trace w))) hub))
            (w_counter w) (w_trace w)).
End steps_.

Definition log_outcome {R} (callID : string) (req : ExecuteRequest) (tool : Tool)
    (out : string) (err : option string) : handler world R unit :=
  let text := match err with Some e => e | None => out end in
  append_log (mkLine callID (TrimSpace (req_ExecutionID req)) (Name tool) (req_Action req)
    (match err with Some _ => "error" | None => "info" end)
    (truncateMessage (RedactString redactor text))).

(** The input of the command line and the file to remove after it. *)
Definition cli_input (req : ExecuteRequest) (tool : Tool) :
    handler world answer_ (any * option string) :=
  if (Name tool =? "helm") && (req_Action req =? "upgrade") then
    prepared ← on_trace (run_handler (prepareHelmCLIInput sys (req_Input req)));
    '(m, file) ← or_return prepared (λ e, return_ (mkExecResp "" "" "", Some e));
    mret (AMap m, file)
  else mret (req_Input req, None).

(** [defer cleanup()] *)
Definition remove_temp {R} (file : option string) : handler world R unit :=
  match file with
  | Some name => on_trace (λ tr, (tt, tr ++ [TempRemove name]))
  | None => mret tt
  end.

Definition execute_cli (callID : string) (req : ExecuteRequest) (sandbox : Sandbox) (tool : Tool) :
    handler world answer_ answer_ :=
  '(input, file) ← cli_input req tool;
  let cmd := buildCmd (Name tool) (req_Action req) input in
  match ValidateToolArgs cmd with
  | Err e => _ ← remove_temp file; return_ (mkExecResp callID "" "", Some e)
  | Ok _ =>
      '(out, err) ← on_trace (run_handler (Run sys (Some sandbox) cmd));
      _ ← log_outcome callID req tool out err;
      _ ← remove_temp file;
      mret (mkExecResp callID (limitOutput (Some sandbox) out) "cli", err)
  end.

Definition execute_api (callID : string) (req : ExecuteRequest) (sandbox : Sandbox) (tool : Tool)
    (clients : HTTPClients) : handler world answer_ answer_ :=
  '(out, err) ← on_trace (run_handler
     (ExecuteAPI sys url_hostname (Name tool) (req_Action req) (req_Input req) clients));
  let out := limitOutput (Some sandbox) out in
  _ ← log_outcome callID req tool out err;
  mret (mkExecResp callID out "api", err).

(** [return ExecuteResponse{ToolCallID: callID}, err] *)
Definition fail {A} (callID e : string) : handler world answer_ A :=
  return_ (mkExecResp callID "" "", Some e).

Definition Execute (req : ExecuteRequest) (sandbox : option Sandbox) (clients : HTTPClients) :
    handler world answer_ answer_ :=
  let callID := TrimSpace (req_ToolCallID req) in
  callID ← (if callID =? "" then newToolCallID else mret callID);
  sandbox ← or_return (of_option "sandbox required" sandbox) (fail callID);
  tool ← or_return (validateExecuteRequest schemaFS gojsonschema req) (fail callID);
  let actionType := actionTypeForTool (Name tool) (req_Action req) in
  _ ← or_return (check (negb (RequireOnWrite sandbox && (actionType =? "write")
                              && negb (Enabled sandbox))) "sandbox required for write") (fail callID);
  _ ← or_return (check (negb (RequireEgressAllowlist sandbox && Nat.eqb (length (Egress sandbox)) 0))
                   "egress allowlist required") (fail callID);
  _ ← or_return (check (negb (RequireEgressAllowlist sandbox && negb (Enabled sandbox)))
                   "sandbox required for egress") (fail callID);
  _ ← append_log (mkLine callID (TrimSpace (req_ExecutionID req)) (Name tool) (req_Action req)
        "info" "execute start");
  cli ← reads (λ w, if CLI tool =? "" then Err ErrNoCLI
                    else match sys_look sys (w_trace w) (CLI tool) with
                         | Ok _ => Ok tt | Err _ => Err ErrNoCLI end);
  match cli with
  | Ok _ => execute_cli callID req sandbox tool
  | Err _ =>
      if SupportsAPI tool then execute_api callID req sandbox tool clients
      else fail callID ErrNoCLI
  end.
End router.

(** ** The outcomes of a call *)

Definition cleanup (file : option string) : list event :=
  match file with Some name => [TempRemove name] | None => [] end.

Inductive api_events : list event → Prop :=
| api_nothing : api_events []
| api_call method url body : api_events [HTTPCall method url body].

#[export] Hint Constructors api_events : go.

Lemma ExecuteAPI_adds sys url tool action input clients tr :
  ∃ l, (run_handler (ExecuteAPI sys url tool action input clients) tr).2 = tr ++ l ∧ api_events l.
Proof.
  apply (wp_run _ (λ _ tr', ∃ l, tr' = tr ++ l ∧ api_events l)).
  assert (Hnil : ∃ l, tr = tr ++ l ∧ api_events l).
  { exists []. rewrite app_nil_r. eauto with go. }
  unfold ExecuteAPI. destruct (api_request _ _ _ _) as [[[[c method] path] body]|]; [|wp_steps; done].
  unfold Do, emit. apply wp_bind, wp_return_if; split; intros _; [exact Hnil|].
  apply wp_bind.
  apply wp_mono with (Q := λ _ tr', tr' = tr)
    (E := λ _ tr', ∃ l, tr' = tr ++ l ∧ api_events l); [|intros data tr' ->|done].
  - destruct body; wp_steps; auto.
  - wp_steps; [case_match|]; wp_steps; eauto with go.
Qed.

Section outcomes.
Variable sys : system.
Variable url_hostname : string → option string.
Variable schemaFS : string → option string.
Variable gojsonschema : any → any → result (list string).
Variable redactor : option Redactor.
Variable now : list event → Z.
Variable visit : gmap string (list LogLine) → list string.
Variable req : ExecuteRequest.

(** What the guards before the first log line have established. *)
Record admitted (so : option Sandbox) (sb : Sandbox) (tool : Tool) : Prop := {
  adm_sandbox : so = Some sb;
  adm_valid : validateExecuteRequest schemaFS gojsonschema req = Ok tool;
  adm_write : RequireOnWrite sb = true →
    actionTypeForTool (Name tool) (req_Action req) = "write" → Enabled sb = true;
  adm_egress : RequireEgressAllowlist sb = true → Egress sb ≠ [] ∧ Enabled sb = true }.

(** The input a command is built from, and the file that was made for it: the request's
    own input, except that a helm upgrade gets the name of its values file. *)
Definition helm_upgrade (tool : Tool) : bool := (Name tool =? "helm") && (req_Action req =? "upgrade").
Inductive command_input (tool : Tool) : option string → any → Prop :=
| own_input : helm_upgrade tool = false → command_input tool None (req_Input req)
| without_values m :
    helm_upgrade tool = true → inputMap (req_Input req) = Ok m →
    parseArtifactRef (mget m "values_ref") = Ok None → command_input tool None (AMap m)
| with_values m ref name :
    helm_upgrade tool = true → inputMap (req_Input req) = Ok m →
    parseArtifactRef (mget m "values_ref") = Ok (Some ref) →
    command_input tool (Some name) (AMap (<["values_file" := AStr name]> m)).

(** The command run: built for the tool from the request's input, screened, and started
    by the sandbox after the events [pre]. *)
Record ran (sb : Sandbox) (tool : Tool) (file : option string) (tr pre evs : list event) (cmd : list string)
    (o : output) : Prop := {
  ran_cmd : ∃ input, command_input tool file input ∧ cmd = buildCmd (Name tool) (req_Action req) input;
  ran_screened : ValidateToolArgs cmd = Ok tt;
  ran_by_sandbox : run_handler (Run sys (Some sb) cmd) (tr ++ pre) = (o, (tr ++ pre) ++ evs);
  ran_events : run_events evs }.

Inductive outcome (so : option Sandbox) (tr : list event) : answer_ → list event → Prop :=
| refused_early resp e :
    Used resp = "" → outcome so tr (resp, Some e) []
| rejected sb tool resp e file pre :
    admitted so sb tool → Used resp = "" → prep_events file pre →
    outcome so tr (resp, Some e) (pre ++ cleanup file)
| ran_cli sb tool id file pre evs cmd out err :
    admitted so sb tool → CLI tool ≠ "" → prep_events file pre →
    ran sb tool file tr pre evs cmd (out, err) →
    outcome so tr (mkExecResp id (limitOutput so out) "cli", err) (pre ++ evs ++ cleanup file)
| ran_api sb tool id out err evs :
    admitted so sb tool → SupportsAPI tool = true → api_events evs →
    outcome so tr (mkExecResp id (limitOutput so out) "api", err) evs.

(** [Q w]: the answer and the events added to [w] are an outcome's. *)
Definition outcome_of (so : option Sandbox) (tr : list event) (r : answer_) (w' : world) : Prop :=
  ∃ evs, w_trace w' = tr ++ evs ∧ outcome so tr r evs.

Lemma refused_outcome so w r :
  Used r.1 = "" → is_Some r.2 → outcome_of so (w_trace w) r w.
Proof.
  destruct r as [resp [e|]]; intros Hu [? ?]; [|done].
  exists []. rewrite app_nil_r. by repeat constructor.
Qed.

Lemma wp_on_trace {R A} (m : list event → A * list event) Q (E : R → world → Prop) w :
  wp (on_trace m) Q E w ↔
  ∀ a tr', m (w_trace w) = (a, tr') → Q a (mkWorld (w_Logs w) (w_counter w) tr').
Proof.
  unfold on_trace. rewrite wp_call. destruct (m (w_trace w)) as [a tr'] eqn:Em. simpl.
  split; [by intros H a' tr'' [= <- <-]|auto].
Qed.

(** Logging leaves the events. *)
Lemma wp_append_log {R} line Q (E : R → world → Prop) w :
  (∀ w', w_trace w' = w_trace w → Q tt w') → wp (append_log now visit line) Q E w.
Proof. intros H. unfold append_log. apply wp_effect. by apply H. Qed.

Lemma wp_remove_temp {R} file Q (E : R → world → Prop) w :
  (∀ w', w_trace w' = w_trace w ++ cleanup file → Q tt w') → wp (remove_temp file) Q E w.
Proof.
  intros H. destruct file as [name|]; simpl.
  - apply wp_on_trace. intros a tr' [= <- <-]. by apply H.
  - apply wp_ret, H. by rewrite app_nil_r.
Qed.

Lemma prepared_input tool tr m file tr' :
  helm_upgrade tool = true →
  run_handler (prepareHelmCLIInput sys (req_Input req)) tr = (Ok (m, file), tr') → command_input tool file (AMap m).
Proof.
  intros Hu Hrun.
  set (Q := λ (r : result (gmap string any * option string)) (_ : list event),
    match r with Ok (m, file) => command_input tool file (AMap m) | Err _ => True end).
  refine (wp_run_eq _ Q _ _ _ Hrun _). unfold prepareHelmCLIInput.
  apply wp_bind, wp_or_return; split; [intros m0 Hm|done].
  apply wp_bind, wp_or_return; split; [intros oref Href|done].
  destruct oref as [ref|]; [|by apply wp_ret, without_values].
  apply wp_bind, wp_call_or. unfold emit. split; intros ? ? _; wp_steps; try done.
  repeat case_match; wp_steps; try done; by eapply with_values.
Qed.

(** The prepared input leaves at most its temporary file; a failure to prepare
    leaves none. *)
Lemma wp_cli_input tool Q (E : answer_ → world → Prop) w :
  (∀ input file pre w', command_input tool file input → prep_events file pre →
     w_trace w' = w_trace w ++ pre → Q (input, file) w') →
  (∀ e pre w', prep_events None pre → w_trace w' = w_trace w ++ pre →
     E (mkExecResp "" "" "", Some e) w') →
  wp (cli_input sys req tool) Q E w.
Proof.
  intros HQ HE. unfold cli_input.
  fold (helm_upgrade tool). destruct (helm_upgrade tool) eqn:Hu.
  - apply wp_bind, wp_on_trace. intros r tr' Hr.
    pose proof (prepareHelmCLIInput_adds _ _ _ _ _ Hr) as (l & -> & Hl).
    wp_steps; subst; [|by eapply HE].
    match goal with a : gmap string any * option string |- _ => destruct a as [m file] end.
    wp_steps. eapply HQ; [by eapply prepared_input|done..].
  - wp_steps. apply (HQ _ _ []); [by apply own_input|eauto with go|by rewrite app_nil_r].
Qed.

Lemma Run_ran sb tool file tr pre cmd o tr' :
  (∃ input, command_input tool file input ∧ cmd = buildCmd (Name tool) (req_Action req) input) →
  ValidateToolArgs cmd = Ok tt →
  run_handler (Run sys (Some sb) cmd) (tr ++ pre) = (o, tr') →
  ∃ evs, tr' = (tr ++ pre) ++ evs ∧ ran sb tool file tr pre evs cmd o.
Proof.
  intros Hc Hv Hr. destruct (Run_one_process sys (Some sb) cmd (tr ++ pre)) as (evs & He & Hev).
  rewrite Hr in He. simpl in He. subst. exists evs. by split.
Qed.

Lemma execute_cli_outcome so sb tool callID w :
  admitted so sb tool → CLI tool ≠ "" →
  wp (execute_cli sys redactor now visit callID req sb tool)
     (outcome_of so (w_trace w)) (outcome_of so (w_trace w)) w.
Proof.
  intros Hadm Hcli. pose proof (adm_sandbox _ _ _ Hadm) as ->.
  unfold execute_cli. apply wp_bind, wp_cli_input.
  2: { intros e pre w' Hp Hw. exists (pre ++ cleanup None). split; [by rewrite app_nil_r|].
       by eapply rejected. }
  intros input file pre w' Hi Hp Hw.
  destruct (ValidateToolArgs _) as [[]|e] eqn:Hv.
  - apply wp_bind, wp_on_trace. intros [out err] tr' Hr. rewrite Hw in Hr.
    apply (Run_ran sb tool file) in Hr as (evs & -> & Hran); [|by eexists|done].
    unfold log_outcome. apply wp_bind, wp_append_log. simpl. intros w2 Hw2.
    apply wp_bind, wp_remove_temp. intros w3 Hw3. apply wp_ret.
    exists (pre ++ evs ++ cleanup file). split; [by rewrite Hw3, Hw2, <- !(assoc_L (++))|].
    by eapply ran_cli.
  - apply wp_bind, wp_remove_temp. intros w2 Hw2. apply wp_return.
    exists (pre ++ cleanup file). split; [by rewrite Hw2, Hw, <- (assoc_L (++))|].
    by eapply rejected.
Qed.

Lemma execute_api_outcome so sb tool callID clients w :
  admitted so sb tool → SupportsAPI tool = true →
  wp (execute_api sys url_hostname redactor now visit callID req sb tool clients)
     (outcome_of so (w_trace w)) (outcome_of so (w_trace w)) w.
Proof.
  intros Hadm Hapi. pose proof (adm_sandbox _ _ _ Hadm) as ->.
  unfold execute_api. apply wp_bind, wp_on_trace. intros [out err] tr' Hr.
  destruct (ExecuteAPI_adds sys url_hostname (Name tool) (req_Action req) (req_Input req)
              clients (w_trace w)) as (evs & He & Hev).
  rewrite Hr in He. simpl in He. subst tr'.
  unfold log_outcome. apply wp_bind, wp_append_log. simpl. intros w2 Hw2. apply wp_ret.
  exists evs. split; [done|]. by eapply ran_api.
Qed.

Lemma Execute_outcome so clients w :
  let '(r, w') := run_handler (Execute sys url_hostname schemaFS gojsonschema
                                redactor now visit req so clients) w in
  outcome_of so (w_trace w) r w'.
Proof.
  enough (H : wp (Execute sys url_hostname schemaFS gojsonschema redactor now visit
                    req so clients)
                (outcome_of so (w_trace w)) (outcome_of so (w_trace w)) w).
  { apply wp_run in H. by destruct (run_handler _ w). }
  unfold Execute. apply wp_bind.
  apply wp_mono with (Q := λ _ w', w_trace w' = w_trace w) (E := λ _ _, False);
    [|intros callID w1 <-|done].
  { case_match; [|by apply wp_ret]. unfold newToolCallID. by apply wp_call. }
  assert (Hearly : ∀ e, outcome_of so (w_trace w1) (mkExecResp callID "" "", Some e) w1).
  { intros e. by apply refused_outcome. }
  unfold fail. do 5 (apply wp_bind, wp_or_return; split;
    [intros ? ?|intros e _; apply wp_return, Hearly]).
  rename a into sb, a0 into tool. rewrite of_option_Ok, ?check_Ok in *.
  assert (Hadm : admitted so sb tool).
  { split; [done|done| |]; intros Hreq; rewrite Hreq in *; cbn [andb] in *; bool_hyps.
    - intros Hw. rewrite Hw in *. by destruct (Enabled sb).
    - split; [|by destruct (Enabled sb)]. intros Hempty. by rewrite Hempty in *. }
  apply wp_bind, wp_append_log. intros w2 Hw2. rewrite <- Hw2 in *.
  apply wp_bind, wp_reads.
  destruct (String.eqb_spec (CLI tool) "") as [|Hcli]; [|destruct (sys_look _ _ _)].
  2: by apply execute_cli_outcome.
  all: destruct (SupportsAPI tool) eqn:Hapi; [by apply execute_api_outcome|].
  all: apply wp_return; by apply refused_outcome.
Qed.
End outcomes.

(** ** The HTTP handler *)

Record ToolServer := mkServer {
  srv_Sandbox : option Sandbox;
  srv_Clients : HTTPClients;
  srv_Auth : AuthConfig;
  srv_Policy : option Checker }.   (* None: no policy or no checker *)

Definition decode_execute_request (j : json) : result ExecuteRequest :=
  fs ← members j;
  tool ← fld_string "Tool" fs; action ← fld_string "Action" fs;
  input ← fld_any "Input" fs; id ← fld_string "ToolCallID" fs;
  ex ← fld_string "ExecutionID" fs;
  ctx ← fld (λ a x, match x with JNull => Ok a | _ => decode_ref x end) "Context" empty_ref fs;
  Ok (mkRequest tool action input id ex ctx).

Definition service_claims : JWTPayload :=
  mkClaims "service" "service" ["service"] "" ANil (SpecFloat.S754_zero false)
    (SpecFloat.S754_zero false) "".

Section server.
Variable VerifyPKCS1v15 : Z → Z → string → string → result unit.
Variable FetchJWKS : string → result (list JWK).
Variable clock : Z.

(** The service token, or a signed JWT; the router has no development mode. *)
Definition authenticate (cfg : AuthConfig) (r : Request) : result JWTPayload :=
  match ParseBearer r with
  | Err _ => Err "unauthorized"
  | Ok token =>
      if token =? "" then Err "unauthorized"
      else if negb (Token cfg =? "") && (token =? Token cfg) then Ok service_claims
      else
        let cfg := mkAuthConfig (Issuer cfg) (Audience cfg) (JWKSURL cfg) false (Token cfg) in
        claims ← ParseJWTClaims token;
        _ ← ValidateClaims clock claims cfg;
        _ ← VerifyJWTSignature VerifyPKCS1v15 FetchJWKS token cfg;
        Ok claims
  end.

Definition router_break_glass (r : Request) : bool :=
  EqualFold (TrimSpace (Header r "X-Break-Glass")) "true".

(** contextWithActor and the session header, as the policy input's actor. *)
Definition router_actor (claims : JWTPayload) (r : Request) : any :=
  let session := TrimSpace (Header r "X-Session-Id") in
  AMap (amap [("id", AStr (Sub claims)); ("email", AStr (Email claims));
    ("roles", AStrs (Groups claims)); ("tenant_id", AStr (TenantID_ claims));
    ("session_id", if session =? "" then ANil else AStr session)]).

Definition router_policy_input (claims : JWTPayload) (r : Request) (tool action : string)
    (ctxRef : ContextRef) (time : string) : PolicyInput :=
  let risk := riskForToolAction tool action in {|
  pi_Actor := router_actor claims r;
  pi_ActionName := "tool.execute";
  pi_ActionType := actionTypeForTool tool action;
  pi_Context := ctxRef;
  pi_RiskLevel := risk;
  pi_Targets := 0;
  pi_BlastRadius := blastRadiusForContext ctxRef;
  pi_Tier := tierForRisk risk;
  pi_Time := time;
  pi_BreakGlass := router_break_glass r |}.

Definition authorize (policy : option Checker) (claims : JWTPayload) (r : Request)
    (tool action : string) (ctxRef : ContextRef) (time : string) : result unit :=
  match policy with
  | None => Err "policy required"
  | Some _ =>
      let actionType := actionTypeForTool tool action in
      let risk := riskForToolAction tool action in
      _ ← validateContextRefStrict ctxRef;
      match Evaluator_Check policy (router_policy_input claims r tool action ctxRef time) with
      | Err e => if actionType =? "read" then Ok tt else Err e
      | Ok dec =>
          if (risk =? "high") && negb (router_break_glass r) then Err "break-glass required"
          else if mem (Decision_ dec) [""; "allow"] then Ok tt
          else Err ("policy decision " +:+ Decision_ dec)
      end
  end.

Variable sys : system.
Variable url_hostname : string → option string.
Variable schemaFS : string → option string.
Variable gojsonschema : any → any → result (list string).
Variable redactor : option Redactor.
Variable now : list event → Z.
Variable visit : gmap string (list LogLine) → list string.

Definition exec_resp_any (r : ExecuteResponse) : any :=
  AStruct "ExecuteResponse" [("tool_call_id", AStr (resp_ToolCallID r));
    ("Output", ABytes (Output r)); ("Used", AStr (Used r))].

Definition handleExecute (s : ToolServer) (time : string) (r : Request) :
    handler world Response Response :=
  _ ← return_if (negb (Method r =? "POST")) StatusMethodNotAllowed;
  claims ← or_return (authenticate (srv_Auth s) r) (λ _, return_ unauthorized);
  req ← or_return (j ← unmarshal (Body r); decode_execute_request j)
          (λ _, return_ (http_error "invalid json" 400));
  _ ← or_return (authorize (srv_Policy s) claims r (req_Tool req) (req_Action req)
                   (req_Context req) time)
        (λ _, return_ (http_error "policy denied" 403));
  '(resp, err) ← call (run_handler (Execute sys url_hostname schemaFS gojsonschema
                       redactor now visit req (srv_Sandbox s) (srv_Clients s)));
  match err with
  | Some e => return_ (http_error e 400)
  | None => mret (ok_json (exec_resp_any resp))
  end.
End server.

(** ** Theorems *)

Definition temps_created : list event → list string :=
  omap (λ e, match e with TempCreate n => Some n | _ => None end).
Definition temps_removed : list event → list string :=
  omap (λ e, match e with TempRemove n => Some n | _ => None end).
Definition proxies_opened : list event → list string :=
  omap (λ e, match e with ProxyOpen p => Some p | _ => None end).
Definition proxies_closed : list event → list string :=
  omap (λ e, match e with ProxyClose p => Some p | _ => None end).

Definition balanced (evs : list event) : Prop :=
  temps_created evs = temps_removed evs ∧ proxies_opened evs = proxies_closed evs.

Lemma outcome_balanced sys fs gj req so tr r evs :
  outcome sys fs gj req so tr r evs → balanced evs.
Proof.
  intros H. unfold balanced, temps_created, temps_removed, proxies_opened, proxies_closed.
  destruct H as [|sb tool resp e file pre Ha Hu Hp|sb tool id file pre evs cmd out err Ha Hc Hp Hr|
                 sb tool id out err evs Ha Hs He]; [done| | |by destruct He].
  - rewrite !omap_app. destruct Hp as [? []|? ? []|? ? []]; done.
  - pose proof (ran_events _ _ _ _ _ _ _ _ _ _ Hr) as Hev. rewrite !omap_app.
    destruct Hp as [? []|? ? []|? ? []], Hev; done.
Qed.

(** C10: every path through Execute, errors included, removes the temporary values
    file it created and closes the egress proxy it opened. *)
Theorem Execute_no_leak sys url fs gj red now visit req so clients w :
  ∃ evs, w_trace (run_handler (Execute sys url fs gj red now visit req so clients) w).2
         = w_trace w ++ evs ∧ balanced evs.
Proof.
  pose proof (Execute_outcome sys url fs gj red now visit req so clients w) as H.
  destruct (run_handler _ w) as [r w']. destruct H as (evs & Hw & Ho).
  exists evs. split; [done|]. by eapply outcome_balanced.
Qed.


(** A process for the witnesses: every tool is installed. *)
Definition demo_sys : system := mkSystem
  (λ _ _, Ok tt) (λ _, ("pod/web", None)) (λ _, Ok "4242")
  (λ _, Ok "/tmp/helm-values-1.yaml") (λ _ _, None) (λ _, None) (λ _, Ok "{}") map_to_list.
Definition world0 : world := mkWorld None 0 [].
Definition no_host : string → option string := λ _, None.
Definition demo_execute (req : ExecuteRequest) (so : option Sandbox) : answer_ * world :=
  run_handler (Execute demo_sys no_host no_schema any_valid None (λ _, 0%Z) (λ _, [])
    req so no_clients) world0.


(** C30: Execute fails closed: without a sandbox, with a request the validation
    rejects, or with a sandbox that is required for writes or for egress and not
    enabled or without an allowlist, it returns an error, and neither runs, nor
    calls, nor logs anything. *)
Theorem Execute_fails_closed sys url fs gj red now visit req so clients w resp err w' :
  (∀ sb tool, ¬ admitted fs gj req so sb tool) →
  run_handler (Execute sys url fs gj red now visit req so clients) w = ((resp, err), w') →
  is_Some err ∧ Used resp = "" ∧ w_trace w' = w_trace w ∧ w_Logs w' = w_Logs w.
Proof.
  intros Hno Hrun.
  refine (wp_run_eq _ (λ r w', is_Some r.2 ∧ Used r.1 = "" ∧ w_trace w' = w_trace w ∧
    w_Logs w' = w_Logs w) _ _ _ Hrun _). clear Hrun.
  unfold Execute. apply wp_bind.
  apply wp_mono with (Q := λ _ w', w_trace w' = w_trace w ∧ w_Logs w' = w_Logs w)
    (E := λ _ _, False); [|intros callID w1 [<- <-]|done].
  { case_match; [|by apply wp_ret]. unfold newToolCallID. by apply wp_call. }
  unfold fail. do 5 (apply wp_bind, wp_or_return; split;
    [intros ? ?|intros e _; apply wp_return; by eauto]).
  rename a into sb, a0 into tool. rewrite of_option_Ok, ?check_Ok in *.
  exfalso. apply (Hno sb tool).
  split; [done|done| |]; intros Hreq; rewrite Hreq in *; cbn [andb] in *; bool_hyps.
  - intros Hw. rewrite Hw in *. by destruct (Enabled sb).
  - split; [|by destruct (Enabled sb)]. intros Hempty. by rewrite Hempty in *.
Qed.

Definition scale_web : ExecuteRequest :=
  mkRequest "kubectl" "scale" (AMap (amap [("resource", AStr "deploy/web"); ("replicas", AInt (-1))]))
    "call-2" "" empty_ref.

Lemma Execute_fails_closed_witness :
  is_Some (demo_execute scale_web (Some (demo_sandbox "tools:1"))).1.2 ∧
  Used (demo_execute scale_web (Some (demo_sandbox "tools:1"))).1.1 = "" ∧
  w_trace (demo_execute scale_web (Some (demo_sandbox "tools:1"))).2 = [] ∧
  w_Logs (demo_execute scale_web (Some (demo_sandbox "tools:1"))).2 = None.
Proof.
  apply (Execute_fails_closed demo_sys no_host no_schema any_valid None (λ _, 0%Z)
    (λ _, []) scale_web (Some (demo_sandbox "tools:1")) no_clients world0
    (demo_execute scale_web (Some (demo_sandbox "tools:1"))).1.1
    (demo_execute scale_web (Some (demo_sandbox "tools:1"))).1.2
    (demo_execute scale_web (Some (demo_sandbox "tools:1"))).2).
  - intros sb tool [_ Hv _ _]. vm_compute in Hv. discriminate.
  - vm_compute. reflexivity.
Defined.

(** The router authorises a call exactly when it has a policy and the
    context is complete, and the evaluator either answers allow (with the
    break-glass header when the action's risk is high) or fails on a read. *)
Theorem authorize_spec policy claims r tool action ctx time :
  authorize policy claims r tool action ctx time = Ok tt ↔
  ∃ c, policy = Some c ∧ Forall (λ '(_, v), blank v = false) (ref_fields ctx) ∧
    match c (router_policy_input claims r tool action ctx time) with
    | Err _ => actionTypeForTool tool action = "read"
    | Ok dec => (Decision_ dec = "" ∨ Decision_ dec = "allow") ∧
                (riskForToolAction tool action = "high" → router_break_glass r = true)
    end.
Proof.
  unfold authorize. setoid_rewrite <- validate_strict_ok.
  destruct policy as [c|]; [|split; [done|by intros (? & ? & _)]]. simpl.
  destruct (validateContextRefStrict ctx) as [[]|]; simpl;
    [|split; [done|by intros (? & _ & ? & _)]].
  destruct (c _) as [dec|e] eqn:Ec.
  - assert (Hd : mem (Decision_ dec) [""; "allow"] = true ↔
                 Decision_ dec = "" ∨ Decision_ dec = "allow").
    { rewrite mem_spec. set_solver. }
    destruct (String.eqb_spec (riskForToolAction tool action) "high"),
      (router_break_glass r), (mem (Decision_ dec) [""; "allow"]); cbn;
      (split; [intros|intros (c' & [= <-] & _ & H); rewrite Ec in H]);
      try discriminate; try (exists c; rewrite Ec); intuition congruence.
  - destruct (String.eqb_spec (actionTypeForTool tool action) "read");
      (split; [intros|intros (c' & [= <-] & _ & H); rewrite Ec in H]);
      try discriminate; try (exists c; rewrite Ec); intuition congruence.
Qed.

(** What the handler has done when it answers: nothing, or the call. *)
Definition handled V F clock sys url fs gj red now visit s time r w (resp : Response) (w' : world) : Prop :=
  (w' = w ∧ refused resp) ∨
  ∃ claims j req,
    Method r = "POST" ∧ authenticate V F clock (srv_Auth s) r = Ok claims ∧
    unmarshal (Body r) = Ok j ∧ decode_execute_request j = Ok req ∧
    authorize (srv_Policy s) claims r (req_Tool req) (req_Action req) (req_Context req) time
      = Ok tt ∧
    w' = (run_handler (Execute sys url fs gj red now visit req (srv_Sandbox s)
            (srv_Clients s)) w).2.

Lemma handleExecute_handled V F clock sys url fs gj red now visit s time r w :
  let Q := handled V F clock sys url fs gj red now visit s time r w in
  wp (handleExecute V F clock sys url fs gj red now visit s time r) Q Q w.
Proof.
  cbv zeta. unfold handleExecute.
  apply wp_bind, wp_return_if; split; intros Hm; [left; split; [done|by vm_compute]|].
  apply wp_bind, wp_or_return; split; intros claims Hc; [|left; split; [done|by vm_compute]].
  apply wp_bind, wp_or_return; split; intros req Hr; [|left; split; [done|by vm_compute]].
  apply wp_bind, wp_or_return; split; [intros [] Ha|intros e Ha; left; split; [done|by vm_compute]].
  apply bind_Ok in Hr as (j & Hj & Hd). bool_hyps.
  apply wp_bind, wp_call. cbn beta.
  destruct (run_handler _ w) as [[resp [e|]] w'] eqn:He; cbn; [apply wp_return|apply wp_ret];
    right; exists claims, j, req; rewrite He; auto 10.
Qed.

(** The handler runs nothing for a request that is not a POST, not
    authenticated, not decodable or not authorised: every answer but those
    Execute itself gave leaves the process as it was. *)
Theorem handleExecute_guarded V F clock sys url fs gj red now visit s time r w :
  let '(resp, w') := run_handler
    (handleExecute V F clock sys url fs gj red now visit s time r) w in
  handled V F clock sys url fs gj red now visit s time r w resp w'.
Proof.
  pose proof (handleExecute_handled V F clock sys url fs gj red now visit s time r w) as H.
  apply wp_run in H. by destruct (run_handler _ w).
Qed.

(** ** Two gaps *)
Lemma print_json_meta j :
  match j with JStr _ | JArr _ | JObj _ => contains_any (print_json j) shellMetaChars = true
             | _ => True end.
Proof. by destruct j. Qed.

(** The CloudWatch query the builder puts on the command line is JSON text,
    and the screen rejects its brackets and quotes: the CLI form of
    cloudwatch-get-metric-data with queries can never run. *)
Theorem cloudwatch_queries_rejected (m : gmap string any) (queries : any) (j : json) :
  m !! "metric_data_queries" = Some queries →
  to_json queries = Some j →
  (match j with JStr _ | JArr _ | JObj _ => True | _ => False end) →
  ValidateToolArgs (buildCmd "aws" "cloudwatch-get-metric-data" (AMap m)) = Err errDangerousArg.
Proof.
  intros Hq Hj Hshape.
  assert (Hbad : validateArg (print_json j) = Err errDangerousArg).
  { unfold validateArg. pose proof (print_json_meta j) as Hmeta.
    destruct j; try done; rewrite Hmeta; by case_match. }
  set (rest := ["--metric-data-queries"; print_json j]).
  assert (Hargs : ∀ tail, validate_args (["cloudwatch"; "get-metric-data"] ++ rest ++ tail)
                          = Err errDangerousArg).
  { intros tail. unfold rest. cbn [app validate_args]. rewrite Hbad. reflexivity. }
  change (buildCmd "aws" "cloudwatch-get-metric-data" (AMap m))
    with (BuildAwsCmd "cloudwatch-get-metric-data" (AMap m)).
  unfold BuildAwsCmd. change (input_obj (AMap m)) with m. unfold opt_flag.
  cbv zeta. rewrite Hq, Hj. fold rest.
  destruct (str m "region" =? ""), (str m "output" =? ""); cbn [String.eqb];
    rewrite <- ?(assoc_L (++)); apply (Hargs _).
Qed.

Definition two_queries : gmap string any :=
  amap [("metric_data_queries", AList [AMap (amap [("Id", AStr "m1")])])].

Lemma cloudwatch_queries_rejected_witness :
  ValidateToolArgs (buildCmd "aws" "cloudwatch-get-metric-data" (AMap two_queries))
  = Err errDangerousArg.
Proof.
  apply (cloudwatch_queries_rejected two_queries (AList [AMap (amap [("Id", AStr "m1")])])
           (JArr [JObj [("Id", JStr "m1")]])); [vm_compute; reflexivity..|exact I].
Defined.

Definition upgrade_from (ref : string) : ExecuteRequest :=
  mkRequest "helm" "upgrade" (AMap (amap [("release", AStr "web");
    ("values_ref", AMap (amap [("kind", AStr "git_path"); ("ref", AStr ref)]))]))
    "call-3" "" empty_ref.

(** The values of a Helm upgrade are fetched outside the sandbox: with an
    enforced container sandbox, the git command built from the reference's text
    runs on the host, and none of its arguments is screened. *)
Theorem helm_values_fetched_on_host :
  w_trace (demo_execute (upgrade_from "/srv/repo@--output=x;y:values.yaml")
             (Some (demo_sandbox "tools:1"))).2
  = [Exec ["git"; "-C"; "/srv/repo"; "show"; "--output=x;y:values.yaml"] [];
     TempCreate "/tmp/helm-values-1.yaml";
     Exec ["docker"; "run"; "--rm"; "--read-only"; "--tmpfs"; "/tmp";
           "--security-opt"; "no-new-privileges"; "--security-opt"; "seccomp=default.json";
           "--cap-drop"; "ALL"; "--user"; "1000"; "--network=none"; "tools:1";
           "helm"; "upgrade"; "--install"; "web"; "-f"; "/tmp/helm-values-1.yaml"] [];
     TempRemove "/tmp/helm-values-1.yaml"].
Proof. vm_compute. reflexivity. Qed.
