(* ===== verification/Shelves.v ===== *)
(** * Shelves: the rows of the tables no plan depends on

    Sessions and their members, playbooks, runbooks, operator memory, the
    workflow catalogue, and the service graph with its snapshots, as
    migrations/ declares them.  Store keeps them beside the plan tables; Library
    has the operations. *)

From S2P Require Import Prelude GoStrings Json.

Local Open Scope string_scope.

(** ** internal/context's graph

    A node's labels are a map or nil. *)
Record Node := mkNode {
  NodeID : string; node_Kind : string; node_Name : string; node_Labels : option (gmap string string); OwnerTeam : string }.
Record Edge := mkEdge {
  EdgeID : string; FromNodeID : string; ToNodeID : string; Relation : string }.
Record ServiceGraph := mkGraph { Nodes : list Node; Edges : list Edge }.

(** json.Marshal of them. *)
Definition labels_any (labels : option (gmap string string)) : any :=
  match labels with Some m => AMap (AStr <$> m) | None => ANil end.
Definition node_any (n : Node) : any :=
  AStruct "Node" [("node_id", AStr (NodeID n)); ("kind", AStr (node_Kind n));
    ("name", AStr (node_Name n)); ("labels", labels_any (node_Labels n)); ("owner_team", AStr (OwnerTeam n))].
Definition edge_any (e : Edge) : any :=
  AStruct "Edge" [("edge_id", AStr (EdgeID e)); ("from_node_id", AStr (FromNodeID e));
    ("to_node_id", AStr (ToNodeID e)); ("relation", AStr (Relation e))].
Definition graph_any (g : ServiceGraph) : any :=
  AStruct "ServiceGraph" [("nodes", ASlice "Node" (map node_any (Nodes g)));
                          ("edges", ASlice "Edge" (map edge_any (Edges g)))].

(** ** Rows

    A nullable column is an [option]; tenant_id is nullable in playbooks and
    runbooks too, but every insert sets it. *)
Record session_row := mkSession {
  ss_id : string; ss_name : string; ss_tenant : string; ss_group : option string;
  ss_owner : option string; ss_meta : option json; ss_created : Z; ss_updated : Z }.

Record member_row := mkMember {
  mb_session : string; mb_member : string; mb_role : string; mb_added : Z }.

Record playbook_row := mkPlaybook {
  pb_id : string; pb_tenant : string; pb_name : string; pb_version : Z;
  pb_tags : option json; pb_spec : json; pb_created : Z }.

Record runbook_row := mkRunbook {
  rb_id : string; rb_tenant : string; rb_service : string; rb_name : string; rb_version : Z;
  rb_tags : option json; rb_body : option string; rb_spec : option json; rb_created : Z }.

Record memory_row := mkMemory {
  om_id : string; om_tenant : string; om_title : string; om_body : string;
  om_tags : option json; om_meta : option json; om_owner : option string;
  om_created : Z; om_updated : Z }.

Record workflow_row := mkWorkflow {
  wf_id : string; wf_tenant : option string; wf_name : string; wf_version : Z;
  wf_spec : json; wf_created : Z }.

Record node_row := mkNodeRow {
  gn_id : string; gn_kind : string; gn_name : string; gn_labels : json;
  gn_owner : option string }.

Record edge_row := mkEdgeRow {
  ge_id : string; ge_from : string; ge_to : string; ge_relation : string }.

Record snapshot_row := mkSnapshot {
  sn_id : string; sn_source : string; sn_at : Z; sn_nodes : json; sn_edges : json;
  sn_labels : option json }.

Record shelves := mkShelves {
  sessions : list session_row;
  session_members : list member_row;
  playbooks : list playbook_row;
  runbooks : list runbook_row;
  memories : list memory_row;
  workflow_catalog : list workflow_row;
  context_nodes : list node_row;
  context_edges : list edge_row;
  snapshots : list snapshot_row }.

Definition no_shelves : shelves := mkShelves [] [] [] [] [] [] [] [] [].

Definition set_sessions f (h : shelves) : shelves :=
  mkShelves (f (sessions h)) (session_members h) (playbooks h) (runbooks h) (memories h)
    (workflow_catalog h) (context_nodes h) (context_edges h) (snapshots h).
Definition set_members f (h : shelves) : shelves :=
  mkShelves (sessions h) (f (session_members h)) (playbooks h) (runbooks h) (memories h)
    (workflow_catalog h) (context_nodes h) (context_edges h) (snapshots h).
Definition set_playbooks f (h : shelves) : shelves :=
  mkShelves (sessions h) (session_members h) (f (playbooks h)) (runbooks h) (memories h)
    (workflow_catalog h) (context_nodes h) (context_edges h) (snapshots h).
Definition set_runbooks f (h : shelves) : shelves :=
  mkShelves (sessions h) (session_members h) (playbooks h) (f (runbooks h)) (memories h)
    (workflow_catalog h) (context_nodes h) (context_edges h) (snapshots h).
Definition set_memories f (h : shelves) : shelves :=
  mkShelves (sessions h) (session_members h) (playbooks h) (runbooks h) (f (memories h))
    (workflow_catalog h) (context_nodes h) (context_edges h) (snapshots h).
Definition set_workflows f (h : shelves) : shelves :=
  mkShelves (sessions h) (session_members h) (playbooks h) (runbooks h) (memories h)
    (f (workflow_catalog h)) (context_nodes h) (context_edges h) (snapshots h).
Definition set_nodes f (h : shelves) : shelves :=
  mkShelves (sessions h) (session_members h) (playbooks h) (runbooks h) (memories h)
    (workflow_catalog h) (f (context_nodes h)) (context_edges h) (snapshots h).
Definition set_edges f (h : shelves) : shelves :=
  mkShelves (sessions h) (session_members h) (playbooks h) (runbooks h) (memories h)
    (workflow_catalog h) (context_nodes h) (f (context_edges h)) (snapshots h).
Definition set_snapshots f (h : shelves) : shelves :=
  mkShelves (sessions h) (session_members h) (playbooks h) (runbooks h) (memories h)
    (workflow_catalog h) (context_nodes h) (context_edges h) (f (snapshots h)).
