(* ===== verification/Store.v ===== *)
(** * Store: the database behind the gateway and the executor

    The tables of migrations/ the core uses and the operations of internal/db
    on them (queries.go, approvals.go, executions.go, ids.go, db.go).

    Every statement may fail ([fault], by the number of statements made before
    it); the clock is read once per id or timestamp ([clock], by the number of
    readings made before it).  What PostgreSQL does to a JSON document stored in
    a jsonb column is [jsonb]; which of the rows that tie for LIMIT 1 comes first
    is [pick]. *)

From S2P Require Import Prelude GoStrings Json Shelves.

Local Open Scope string_scope.
Local Open Scope list_scope.

(** ** Tables *)

Record plan_row := mkPlan {
  p_created : Z; p_trigger : string; p_summary : string; p_context : json; p_risk : string;
  p_intent : option string; p_constraints : option json; p_text : option string;
  p_session : option string; p_meta : option json }.

(** A row of plan_steps: there is no column for the stage. *)
Record step_row := mkStepRow {
  s_id : string; s_plan : string; s_action : string; s_tool : string; s_input : json;
  s_pre : option json; s_rollback : option json }.

(** A row of approvals; expires_at is NULL in every row the program writes. *)
Record approval_row := mkApproval {
  a_id : string; a_plan : string; a_status : string; a_source : string; a_hash : option string }.

Record exec_row := mkExec {
  x_id : string; x_plan : string; x_status : string; x_started : Z; x_completed : option Z;
  x_workflow : option string }.

Record call_row := mkCall {
  t_id : string; t_exec : string; t_tool : string; t_input : option string;
  t_output : option string; t_status : string }.

Record evidence_row := mkEvid {
  v_id : string; v_exec : string; v_type : string; v_query : option string;
  v_result : option string; v_link : option string; v_at : Z; v_external : option json }.

Record audit_row := mkAudit {
  u_id : string; u_at : Z; u_actor : json; u_action : string; u_decision : string;
  u_context : json; u_evidence : json; u_hash : string }.

Record schedule_row := mkSchedule {
  h_id : string; h_created : Z; h_cron : string; h_context : json; h_summary : string;
  h_intent : string; h_constraints : option json; h_trigger : string; h_enabled : bool;
  h_last : option Z }.

Record tables := mkTables {
  plans : gmap string plan_row;
  plan_steps : list step_row;
  approvals : list approval_row;
  executions : list exec_row;
  tool_calls : list call_row;
  evidence : list evidence_row;
  audits : list audit_row;
  schedules : list schedule_row;
  shelf : shelves }.

Definition no_tables : tables := mkTables ∅ [] [] [] [] [] [] [] no_shelves.

Record store := mkStore { tabs : tables; stmts : nat; ticks : nat }.
Definition empty_store : store := mkStore no_tables 0 0.

Definition set_plans f (t : tables) : tables :=
  mkTables (f (plans t)) (plan_steps t) (approvals t) (executions t) (tool_calls t)
    (evidence t) (audits t) (schedules t) (shelf t).
Definition set_steps f (t : tables) : tables :=
  mkTables (plans t) (f (plan_steps t)) (approvals t) (executions t) (tool_calls t)
    (evidence t) (audits t) (schedules t) (shelf t).
Definition set_approvals f (t : tables) : tables :=
  mkTables (plans t) (plan_steps t) (f (approvals t)) (executions t) (tool_calls t)
    (evidence t) (audits t) (schedules t) (shelf t).
Definition set_executions f (t : tables) : tables :=
  mkTables (plans t) (plan_steps t) (approvals t) (f (executions t)) (tool_calls t)
    (evidence t) (audits t) (schedules t) (shelf t).
Definition set_calls f (t : tables) : tables :=
  mkTables (plans t) (plan_steps t) (approvals t) (executions t) (f (tool_calls t))
    (evidence t) (audits t) (schedules t) (shelf t).
Definition set_evidence f (t : tables) : tables :=
  mkTables (plans t) (plan_steps t) (approvals t) (executions t) (tool_calls t)
    (f (evidence t)) (audits t) (schedules t) (shelf t).
Definition set_audits f (t : tables) : tables :=
  mkTables (plans t) (plan_steps t) (approvals t) (executions t) (tool_calls t)
    (evidence t) (f (audits t)) (schedules t) (shelf t).
Definition set_schedules f (t : tables) : tables :=
  mkTables (plans t) (plan_steps t) (approvals t) (executions t) (tool_calls t)
    (evidence t) (audits t) (f (schedules t)) (shelf t).

Definition set_shelf f (t : tables) : tables :=
  mkTables (plans t) (plan_steps t) (approvals t) (executions t) (tool_calls t)
    (evidence t) (audits t) (schedules t) (f (shelf t)).

(** ** The statement monad *)

Definition db (A : Type) : Type := store → result A * store.

#[export] Instance db_ret : MRet db := λ A a s, (Ok a, s).
#[export] Instance db_bind : MBind db := λ A B f m s,
  match m s with
  | (Ok a, s') => f a s'
  | (Err e, s') => (Err e, s')
  end.

Definition db_err {A} (e : string) : db A := λ s, (Err e, s).
Definition db_lift {A} (r : result A) : db A := λ s, (r, s).
Definition db_read {A} (f : tables → A) : db A := λ s, (Ok (f (tabs s)), s).
Definition db_write (f : tables → tables) : db unit :=
  λ s, (Ok tt, mkStore (f (tabs s)) (stmts s) (ticks s)).
Definition db_check (b : bool) (e : string) : db unit := db_lift (check b e).

(** sql.ErrNoRows *)
Definition ErrNoRows : string := "sql: no rows in result set".
Definition duplicate_key : string := "duplicate key value violates unique constraint".
Definition fk_violation : string := "violates foreign key constraint".

(** strings.TrimSpace is not applied to optional text: empty is NULL. *)
Definition nullString (value : string) : option string :=
  if value =? "" then None else Some value.

(** Rows in the order of a key; rows with equal keys keep their order. *)
Fixpoint insert_by {A} (before : A → A → bool) (x : A) (l : list A) : list A :=
  match l with
  | [] => [x]
  | y :: l' => if before y x then y :: insert_by before x l' else x :: l
  end.
Definition order_by {A} (before : A → A → bool) (l : list A) : list A :=
  fold_left (λ acc x, insert_by (λ y x, negb (before x y)) x acc) l [].

(** Default limit 50, at most 200; the offset is not negative. *)
Definition clampPagination (limit offset : Z) : Z * Z :=
  let limit := if (limit <=? 0)%Z then 50%Z else limit in
  let limit := if (200 <? limit)%Z then 200%Z else limit in
  let offset := if (offset <? 0)%Z then 0%Z else offset in
  (limit, offset).

(** LIMIT and OFFSET. *)
Definition page {A} (limit offset : Z) (l : list A) : list A :=
  take (Z.to_nat limit) (drop (Z.to_nat offset) l).

Section statements.
Variable clock : nat → Z.
Variable fault : nat → option string.
Variable jsonb : json → json.
Variable pick : list approval_row → option approval_row.
(** The text of a timestamp, and time.Parse(time.RFC3339, text). *)
Variable time_text : Z → string.
Variable time_parse : string → result Z.

(** A statement reaches the server. *)
Definition stmt : db unit := λ s,
  let s' := mkStore (tabs s) (S (stmts s)) (ticks s) in
  match fault (stmts s) with Some e => (Err e, s') | None => (Ok tt, s') end.

(** time.Now() *)
Definition time_now : db Z := λ s,
  (Ok (clock (ticks s)), mkStore (tabs s) (stmts s) (S (ticks s))).

Definition newID (prefix : string) : db string :=
  t ← time_now; mret (prefix +:+ "_" +:+ itoa t).

(** BEGIN; the body; COMMIT or ROLLBACK. *)
Definition withTx {A} (body : db A) : db A := λ s,
  match stmt s with
  | (Err e, s') => (Err ("begin tx: " +:+ e), s')
  | (Ok _, s1) =>
      match body s1 with
      | (Err e, s2) => (Err e, mkStore (tabs s1) (stmts s2) (ticks s2))
      | (Ok a, s2) =>
          match stmt s2 with
          | (Err e, s3) => (Err e, mkStore (tabs s1) (stmts s3) (ticks s3))
          | (Ok _, s3) => (Ok a, s3)
          end
      end
  end.

(** The row's plan (or execution) must exist. *)
Definition references_plan (planID : string) : db unit :=
  found ← db_read (λ t, bool_decide (is_Some (plans t !! planID)));
  db_check found fk_violation.
Definition references_execution (execID : string) : db unit :=
  found ← db_read (λ t, existsb (λ x, x_id x =? execID) (executions t));
  db_check found fk_violation.

(** ** Plans *)

Record planStepPayload := mkStepPayload {
  y_action : string; y_tool : string; y_input : option json; y_pre : option json;
  y_rollback : option json }.

Definition decode_step_payload (j : json) : result planStepPayload :=
  fs ← Json.members j;
  ac ← fld_string "action" fs; tl ← fld_string "tool" fs;
  inp ← fld_raw "input" fs; pre ← fld_raw "preconditions" fs; rb ← fld_raw "rollback" fs;
  Ok (mkStepPayload ac tl inp pre rb).

Definition decodePlanSteps (raw : any) : result (list planStepPayload) :=
  match raw with
  | ANil => Ok []
  | _ =>
      data ← marshal raw;
      match data with
      | JNull => Ok []
      | JArr l => of_option json_error
          (opt_map (λ j, match decode_step_payload j with Ok a => Some a | Err _ => None end) l)
      | _ => Err json_error
      end
  end.

Definition new_step_row (id planID : string) (step : planStepPayload) : step_row :=
  mkStepRow id planID (y_action step) (y_tool step) (jsonb (default (JObj []) (y_input step)))
    (jsonb <$> y_pre step) (jsonb <$> y_rollback step).

(** Steps without an action or a tool are skipped. *)
Fixpoint insertPlanStepsConn (planID : string) (l : list planStepPayload) : db unit :=
  match l with
  | [] => mret tt
  | step :: rest =>
      if (y_action step =? "") || (y_tool step =? "") then insertPlanStepsConn planID rest
      else
        id ← newID "step";
        _ ← stmt;
        dup ← db_read (λ t, existsb (λ r, s_id r =? id) (plan_steps t));
        _ ← db_check (negb dup) duplicate_key;
        _ ← references_plan planID;
        _ ← db_write (set_steps (λ rows, rows ++ [new_step_row id planID step]));
        insertPlanStepsConn planID rest
  end.

(** A JSON column of an optional member: absent and null are SQL NULL. *)
Definition optional_json (payload : gmap string any) (key : string) : option json :=
  match mget payload key with ANil => None | v => jsonb <$> to_json v end.

Definition text_of (payload : gmap string any) (key : string) : string :=
  default "" (as_string (mget payload key)).

Definition new_plan_row (now : Z) (payload : gmap string any) (contextJSON : json) : plan_row :=
  mkPlan now (text_of payload "trigger") (text_of payload "summary")
    (jsonb contextJSON) (text_of payload "risk_level") (nullString (text_of payload "intent"))
    (optional_json payload "constraints") (nullString (text_of payload "plan_text"))
    (nullString (text_of payload "session_id")) (optional_json payload "meta").

Definition CreatePlan (planJSON : json) : db string :=
  planID ← newID "plan";
  payload ← db_lift (decode_map planJSON);
  steps ← db_lift (decodePlanSteps (mget payload "steps"));
  now ← time_now;
  contextJSON ← db_lift (marshal (mget payload "context"));  (* decoded values marshal *)
  let row := new_plan_row now payload contextJSON in
  withTx (
    _ ← stmt;
    dup ← db_read (λ t, bool_decide (is_Some (plans t !! planID)));
    _ ← db_check (negb dup) duplicate_key;
    _ ← db_write (set_plans (<[planID := row]>));
    insertPlanStepsConn planID steps);;
  mret planID.

(** The columns as members of a JSON object, NULLs left out. *)
Definition opt_member (k : string) (v : option json) : list (string * json) :=
  match v with Some j => [(k, j)] | None => [] end.

(** json.Marshal of the map GetPlan builds: keys in order. *)
Definition plan_json (planID : string) (p : plan_row) : json :=
  JObj (opt_member "constraints" (p_constraints p) ++
    [("context", p_context p); ("created_at", JStr (time_text (p_created p)))] ++
    opt_member "intent" (JStr ∘ valid_utf8 <$> p_intent p) ++
    opt_member "meta" (p_meta p) ++
    [("plan_id", JStr (valid_utf8 planID))] ++
    opt_member "plan_text" (JStr ∘ valid_utf8 <$> p_text p) ++
    [("risk_level", JStr (valid_utf8 (p_risk p)))] ++
    opt_member "session_id" (JStr ∘ valid_utf8 <$> p_session p) ++
    [("summary", JStr (valid_utf8 (p_summary p))); ("trigger", JStr (valid_utf8 (p_trigger p)))]).

(** [nil, nil] for a plan that does not exist. *)
Definition GetPlan (planID : string) : db (option json) :=
  _ ← stmt; db_read (λ t, plan_json planID <$> plans t !! planID).

Definition null_or {A} (f : A → json) (v : option A) : json :=
  match v with Some a => f a | None => JNull end.

Definition step_members (r : step_row) : list (string * json) :=
  [("step_id", JStr (s_id r)); ("action", JStr (s_action r)); ("tool", JStr (s_tool r));
   ("input", s_input r); ("preconditions", default JNull (s_pre r));
   ("rollback", default JNull (s_rollback r))].
Definition step_json (r : step_row) : json := JObj (step_members r).

(** No member of a stored step is its stage. *)
Lemma step_members_stage r : fld_string "stage" (step_members r) = Ok "".
Proof. reflexivity. Qed.

Definition ListPlanSteps (planID : string) : db json :=
  _ ← stmt;
  db_read (λ t, JArr (map step_json
    (order_by (λ a b, String.ltb (s_id a) (s_id b))
       (List.filter (λ r, s_plan r =? planID) (plan_steps t))))).

Definition approval_json (a : approval_row) : json :=
  JObj [("approval_id", JStr (a_id a)); ("status", JStr (a_status a)); ("approver", JNull);
        ("expires_at", JNull); ("source", JStr (a_source a))].

Definition of_plan (planID : string) (a : approval_row) : bool := a_plan a =? planID.

Definition ListApprovalsByPlan (planID : string) : db json :=
  _ ← stmt;
  db_read (λ t, JArr (map approval_json (List.filter (of_plan planID) (approvals t)))).

Definition ListPlans (limit offset : Z) : db (json * Z) :=
  let '(limit, offset) := clampPagination limit offset in
  _ ← stmt;
  db_read (λ t,
    let rows := page limit offset
      (order_by (λ a b, p_created b.2 <? p_created a.2)%Z (map_to_list (plans t))) in
    let status planID := match pick (List.filter (of_plan planID) (approvals t)) with
                         | Some a => a_status a | None => "none" end in
    (JArr (map (λ '(id, p),
       JObj [("plan_id", JStr id); ("created_at", JStr (time_text (p_created p)));
             ("trigger", JStr (p_trigger p)); ("summary", JStr (p_summary p));
             ("context", p_context p); ("risk_level", JStr (p_risk p));
             ("intent", null_or JStr (p_intent p)); ("status", JStr (status id))]) rows),
     Z.of_nat (size (plans t)))).

Definition DeletePlan (planID : string) : db unit :=
  _ ← stmt;
  used ← db_read (λ t, existsb (λ r, s_plan r =? planID) (plan_steps t)
                       || existsb (of_plan planID) (approvals t)
                       || existsb (λ x, x_plan x =? planID) (executions t));
  _ ← db_check (negb used) fk_violation;
  db_write (set_plans (delete planID)).

(** ** Approvals *)

(** INSERT INTO approvals, with the conditions its keys and references set. *)
Definition insert_approval (row : approval_row) : db unit :=
  _ ← stmt;
  dup ← db_read (λ t, existsb (λ a, a_id a =? a_id row) (approvals t));
  _ ← db_check (negb dup) duplicate_key;
  _ ← references_plan (a_plan row);
  db_write (set_approvals (λ rows, rows ++ [row])).

Definition CreateApproval (planID : string) : db string :=
  id ← newID "approval";
  insert_approval (mkApproval id planID "pending" "linear" None);; mret id.

Definition CreateAndApprove (planID : string) : db string :=
  id ← newID "approval";
  withTx (insert_approval (mkApproval id planID "approved" "auto" None));; mret id.

Definition with_status (status : string) (a : approval_row) : approval_row :=
  mkApproval (a_id a) (a_plan a) status (a_source a) (a_hash a).
Definition with_hash (hash : string) (a : approval_row) : approval_row :=
  mkApproval (a_id a) (a_plan a) (a_status a) (a_source a) (Some hash).

(** UPDATE ... WHERE *)
Definition update_where {A} (sel : A → bool) (f : A → A) : list A → list A :=
  map (λ a, if sel a then f a else a).

Definition UpdateApprovalStatusByPlan (planID status : string) : db unit :=
  _ ← stmt; db_write (set_approvals (update_where (of_plan planID) (with_status status))).

Definition UpdateApprovalStatus (approvalID status : string) : db unit :=
  _ ← stmt;
  db_write (set_approvals (update_where (λ a, a_id a =? approvalID) (with_status status))).

Definition SetApprovalHash (planID hash : string) : db unit :=
  _ ← stmt; db_write (set_approvals (update_where (of_plan planID) (with_hash hash))).

(** The row LIMIT 1 gives, or ErrNoRows. *)
Definition pick_approval (planID : string) : db approval_row :=
  _ ← stmt;
  row ← db_read (λ t, pick (List.filter (of_plan planID) (approvals t)));
  db_lift (of_option ErrNoRows row).

Definition GetApprovalStatus (planID : string) : db string :=
  row ← pick_approval planID; mret (a_status row).

Definition GetApprovalHash (planID : string) : db string :=
  row ← pick_approval planID; mret (default "" (a_hash row)).

Definition GetApprovalStatusByToken (planID approvalID : string) : db string :=
  _ ← stmt;
  row ← db_read (λ t, List.find (λ a, of_plan planID a && (a_id a =? approvalID)) (approvals t));
  db_lift (a_status <$> of_option ErrNoRows row).

(** ** Executions *)

Definition CreateExecution (planID : string) : db string :=
  id ← newID "exec";
  now ← time_now;
  _ ← stmt;
  dup ← db_read (λ t, existsb (λ x, x_id x =? id) (executions t));
  _ ← db_check (negb dup) duplicate_key;
  _ ← references_plan planID;
  _ ← db_write (set_executions (λ rows, rows ++ [mkExec id planID "pending" now None None]));
  mret id.

Definition active_status (s : string) : bool := mem s ["pending"; "running"].

Definition HasActiveExecution (planID : string) : db bool :=
  _ ← stmt;
  db_read (λ t, existsb (λ x, (x_plan x =? planID) && active_status (x_status x)) (executions t)).

Definition find_exec (execID : string) (t : tables) : option exec_row :=
  List.find (λ x, x_id x =? execID) (executions t).

(** A NULL completion time is Go's zero time. *)
Definition GetExecution (execID : string) : db (option json) :=
  _ ← stmt;
  db_read (λ t, (λ x, JObj
    ([("completed_at", JStr (time_text (default zero_time (x_completed x))));
      ("execution_id", JStr (valid_utf8 execID)); ("plan_id", JStr (valid_utf8 (x_plan x)));
      ("started_at", JStr (time_text (x_started x))); ("status", JStr (valid_utf8 (x_status x)))] ++
     opt_member "workflow_id" (JStr ∘ valid_utf8 <$> x_workflow x))) <$> find_exec execID t).

Definition with_xstatus (status : string) (x : exec_row) : exec_row :=
  mkExec (x_id x) (x_plan x) status (x_started x) (x_completed x) (x_workflow x).
Definition with_completed (status : string) (at_ : Z) (x : exec_row) : exec_row :=
  mkExec (x_id x) (x_plan x) status (x_started x) (Some at_) (x_workflow x).
Definition with_workflow (wf : string) (x : exec_row) : exec_row :=
  mkExec (x_id x) (x_plan x) (x_status x) (x_started x) (x_completed x) (Some wf).

Definition update_exec (execID : string) (f : exec_row → exec_row) : tables → tables :=
  set_executions (update_where (λ x, x_id x =? execID) f).

Definition UpdateExecutionStatus (execID status : string) : db unit :=
  _ ← stmt; db_write (update_exec execID (with_xstatus status)).

Definition UpdateExecutionWorkflowID (execID workflowID : string) : db unit :=
  _ ← stmt; db_write (update_exec execID (with_workflow workflowID)).

Definition CompleteExecution (execID status : string) : db unit :=
  _ ← db_check (negb (execID =? "")) "execution id required";
  now ← time_now;
  _ ← stmt; db_write (update_exec execID (with_completed status now)).

(** The condition on the status and the update are one statement; NOW() is the
    server's clock. *)
Definition CancelExecution (execID : string) : db unit :=
  _ ← stmt;
  now ← time_now;
  let sel x := (x_id x =? execID) && active_status (x_status x) in
  n ← db_read (λ t, length (List.filter sel (executions t)));
  _ ← db_write (set_executions (update_where sel (with_completed "cancelled" now)));
  db_check (negb (Nat.eqb n 0)) ErrNoRows.

Definition ListExecutionsByStatus (status : string) (limit : Z) : db (list (string * string)) :=
  let limit := if (limit <=? 0)%Z then 50%Z else limit in
  _ ← stmt;
  db_read (λ t, map (λ x, (x_id x, x_plan x)) (page limit 0
    (order_by (λ a b, x_started a <? x_started b)%Z
       (List.filter (λ x, x_status x =? status) (executions t))))).

Definition exec_json (x : exec_row) : json :=
  JObj [("execution_id", JStr (x_id x)); ("plan_id", JStr (x_plan x));
        ("status", JStr (x_status x)); ("started_at", JStr (time_text (x_started x)));
        ("completed_at", null_or (λ z, JStr (time_text z)) (x_completed x))].

Definition ListExecutions (limit offset : Z) : db (json * Z) :=
  let '(limit, offset) := clampPagination limit offset in
  _ ← stmt;
  db_read (λ t,
    (JArr (map exec_json (page limit offset
       (order_by (λ a b, x_started b <? x_started a)%Z (executions t)))),
     Z.of_nat (length (executions t)))).

(** ** Tool calls, evidence and the audit log *)

(** [json.Unmarshal(payload, &data)] when there is a payload. *)
Definition payload_fields (payload : doc) : result (list (string * json)) :=
  match payload with
  | doc_empty => Ok []
  | _ => j ← unmarshal payload; Json.members j
  end.

Definition or_else (v default : string) : string := if v =? "" then default else v.

Definition InsertToolCall (execID : string) (payload : doc) : db string :=
  id ← newID "tool";
  '(name, status, inp, out) ← db_lift (
    fs ← payload_fields payload;
    name ← fld_string "tool_name" fs; inp ← fld_string "input_ref" fs;
    out ← fld_string "output_ref" fs; status ← fld_string "status" fs;
    Ok (or_else name "unknown", or_else status "pending", inp, out));
  _ ← stmt;
  dup ← db_read (λ t, existsb (λ r, t_id r =? id) (tool_calls t));
  _ ← db_check (negb dup) duplicate_key;
  _ ← references_execution execID;
  _ ← db_write (set_calls (λ rows, rows ++
        [mkCall id execID name (nullString inp) (nullString out) status]));
  mret id.

Definition UpdateToolCall (callID status inputRef outputRef : string) : db unit :=
  _ ← db_check (negb (callID =? "")) "tool call id required";
  _ ← stmt;
  db_write (set_calls (update_where (λ r, t_id r =? callID)
    (λ r, mkCall (t_id r) (t_exec r) (t_tool r) (nullString inputRef) (nullString outputRef) status))).

Definition InsertEvidence (execID : string) (payload : doc) : db string :=
  id ← newID "evid";
  now ← time_now;
  '(typ, query, ref, link, at_, ext) ← db_lift (
    fs ← payload_fields payload;
    typ ← fld_string "type" fs; query ← fld_string "query" fs;
    ref ← fld_string "result_ref" fs; link ← fld_string "link" fs;
    collected ← fld_string "collected_at" fs; ext ← fld_raw "external_ids" fs;
    at_ ← (if collected =? "" then Ok now else time_parse collected);
    Ok (or_else typ "unknown", query, ref, link, at_, ext));
  _ ← stmt;
  dup ← db_read (λ t, existsb (λ r, v_id r =? id) (evidence t));
  _ ← db_check (negb dup) duplicate_key;
  _ ← references_execution execID;
  _ ← db_write (set_evidence (λ rows, rows ++
        [mkEvid id execID typ (nullString query) (nullString ref) (nullString link) at_
           (jsonb <$> ext)]));
  mret id.

Definition InsertAuditEvent (payload : doc) : db string :=
  id ← newID "audit";
  now ← time_now;
  '(at_, actor, action, decision, ctx, refs, hash) ← db_lift (
    fs ← payload_fields payload;
    occurred ← fld_string "occurred_at" fs; actor ← fld_raw "actor" fs;
    action ← fld_string "action" fs; decision ← fld_string "decision" fs;
    ctx ← fld_raw "context" fs; refs ← fld_raw "evidence_refs" fs; hash ← fld_string "hash" fs;
    at_ ← (if occurred =? "" then Ok now else time_parse occurred);
    Ok (at_, actor, or_else action "unknown", or_else decision "allow", ctx, refs, hash));
  _ ← stmt;
  dup ← db_read (λ t, existsb (λ r, u_id r =? id) (audits t));
  _ ← db_check (negb dup) duplicate_key;
  _ ← db_write (set_audits (λ rows, rows ++
        [mkAudit id at_ (jsonb (default (JObj []) actor)) action decision
           (jsonb (default (JObj []) ctx)) (jsonb (default (JArr []) refs)) hash]));
  mret id.

(** ** Schedules *)

Definition CreateSchedule (payload : json) : db string :=
  id ← newID "schedule";
  data ← db_lift (decode_map payload);
  ctx ← db_lift (marshal (mget data "context"));
  now ← time_now;
  let row := mkSchedule id now (text_of data "cron") (jsonb ctx) (text_of data "summary")
    (text_of data "intent") (optional_json data "constraints") (text_of data "trigger")
    (default true (as_bool (mget data "enabled"))) None in
  _ ← stmt;
  dup ← db_read (λ t, existsb (λ r, h_id r =? id) (schedules t));
  _ ← db_check (negb dup) duplicate_key;
  _ ← db_write (set_schedules (λ rows, rows ++ [row]));
  mret id.

Definition schedule_json (h : schedule_row) : json :=
  JObj [("schedule_id", JStr (h_id h)); ("created_at", JStr (time_text (h_created h)));
        ("cron", JStr (h_cron h)); ("context", h_context h); ("summary", JStr (h_summary h));
        ("intent", JStr (h_intent h)); ("constraints", default JNull (h_constraints h));
        ("trigger", JStr (h_trigger h)); ("enabled", JBool (h_enabled h));
        ("last_run_at", null_or (λ z, JStr (time_text z)) (h_last h))].

Definition ListSchedules (limit offset : Z) : db (json * Z) :=
  let '(limit, offset) := clampPagination limit offset in
  _ ← stmt;
  db_read (λ t,
    (JArr (map schedule_json (page limit offset
       (order_by (λ a b, h_created b <? h_created a)%Z (schedules t)))),
     Z.of_nat (length (schedules t)))).

Definition UpdateScheduleLastRun (scheduleID : string) (at_ : Z) : db unit :=
  _ ← stmt;
  db_write (set_schedules (update_where (λ h, h_id h =? scheduleID)
    (λ h, mkSchedule (h_id h) (h_created h) (h_cron h) (h_context h) (h_summary h) (h_intent h)
            (h_constraints h) (h_trigger h) (h_enabled h) (Some at_)))).

Definition DeleteSchedule (scheduleID : string) : db unit :=
  _ ← stmt;
  db_write (set_schedules (List.filter (λ h, negb (h_id h =? scheduleID)))).

(** ** Session members *)

Definition IsSessionMember (sessionID memberID : string) : db bool :=
  let sessionID := TrimSpace sessionID in
  let memberID := TrimSpace memberID in
  _ ← db_check (negb ((sessionID =? "") || (memberID =? "")))
        "session_id and member_id required";
  _ ← stmt;
  db_read (λ t, existsb (λ m, (mb_session m =? sessionID) && (mb_member m =? memberID))
                  (session_members (shelf t))).
End statements.

(** ** What statements do to the tables

    [db_rel R m]: whatever its result, [m] relates the tables before and after
    it by [R].  A preorder passes through sequencing, failures and rollbacks. *)

Definition db_rel (R : tables → tables → Prop) {A} (m : db A) : Prop :=
  ∀ s, R (tabs s) (tabs (m s).2).

Section rel.
Variable R : tables → tables → Prop.
Context `{!PreOrder R}.

Lemma rel_ret {A} (a : A) : db_rel R (mret a).
Proof. intros s. simpl. reflexivity. Qed.

Lemma rel_bind {A B} (m : db A) (f : A → db B) :
  db_rel R m → (∀ a, db_rel R (f a)) → db_rel R (m ≫= f).
Proof.
  intros Hm Hf s. unfold mbind, db_bind. specialize (Hm s).
  destruct (m s) as [[a|e] s']; simpl in *; [|done]. etrans; [done|apply Hf].
Qed.

Lemma rel_lift {A} (r : result A) : db_rel R (db_lift r).
Proof. intros s. simpl. reflexivity. Qed.

Lemma rel_check b e : db_rel R (db_check b e).
Proof. apply rel_lift. Qed.

Lemma rel_read {A} (f : tables → A) : db_rel R (db_read f).
Proof. intros s. simpl. reflexivity. Qed.

Lemma rel_stmt fault : db_rel R (stmt fault).
Proof. intros s. unfold stmt. simpl. by destruct (fault _). Qed.

Lemma rel_now clock : db_rel R (time_now clock).
Proof. intros s. simpl. reflexivity. Qed.

Lemma rel_newID clock p : db_rel R (newID clock p).
Proof. apply rel_bind; [apply rel_now|intros; apply rel_ret]. Qed.

Lemma rel_write f : (∀ t, R t (f t)) → db_rel R (db_write f).
Proof. intros Hf s. apply Hf. Qed.

Lemma rel_withTx fault {A} (m : db A) : db_rel R m → db_rel R (withTx fault m).
Proof.
  intros Hm s. unfold withTx. pose proof (rel_stmt fault s) as H0.
  destruct (stmt fault s) as [[?|?] s1]; simpl in *; [|done].
  specialize (Hm s1). destruct (m s1) as [[v|e0] s2]; simpl in *; [|done].
  pose proof (rel_stmt fault s2) as H2.
  destruct (stmt fault s2) as [[?|?] s3]; simpl in *; [|done].
  etrans; [done|]. by etrans.
Qed.
End rel.

(** Go through the statements of an operation. *)
Ltac rel_step :=
  match goal with
  | |- PreOrder _ => apply _
  | |- db_rel _ (_ ≫= _) => apply rel_bind; [| |intros ?]
  | |- db_rel _ (mret _) => apply rel_ret
  | |- db_rel _ (db_lift _) => apply rel_lift
  | |- db_rel _ (db_check _ _) => apply rel_check
  | |- db_rel _ (db_read _) => apply rel_read
  | |- db_rel _ (stmt _) => apply rel_stmt
  | |- db_rel _ (time_now _) => apply rel_now
  | |- db_rel _ (newID _ _) => apply rel_newID
  | |- db_rel _ (withTx _ _) => apply rel_withTx
  | |- db_rel _ (references_plan _) => unfold references_plan
  | |- db_rel _ (references_execution _) => unfold references_execution
  | |- db_rel _ (let '(_, _) := ?p in _) => destruct p
  | |- db_rel _ (match ?x with _ => _ end) => destruct x
  end.

(** *** Frames: a part of the tables an operation does not touch *)

Definition keeps {V} (view : tables → V) (t t' : tables) : Prop := view t' = view t.

#[export] Instance keeps_preorder {V} (view : tables → V) : PreOrder (keeps view).
Proof. split; unfold keeps; [by intros ?|by intros ??? -> ->]. Qed.

Ltac frame := repeat rel_step; try apply rel_write; try done.

Section frames.
Variable clock : nat → Z.
Variable fault : nat → option string.
Variable jsonb : json → json.
Variable pick : list approval_row → option approval_row.
Variable time_text : Z → string.
Variable time_parse : string → result Z.

Lemma insert_steps_keeps {V} (view : tables → V) planID l :
  (∀ f t, view (set_steps f t) = view t) →
  db_rel (keeps view) (insertPlanStepsConn clock fault jsonb planID l).
Proof.
  intros Hv. induction l as [|st l IH]; simpl; [apply rel_ret; apply _|].
  case_match; [done|].
  frame. intros t. apply Hv.
Qed.

(** What only CreatePlan, the approval operations, ... may change. *)
Lemma CreatePlan_keeps {V} (view : tables → V) payload :
  (∀ f t, view (set_plans f t) = view t) → (∀ f t, view (set_steps f t) = view t) →
  db_rel (keeps view) (CreatePlan clock fault jsonb payload).
Proof.
  intros Hp Hs. unfold CreatePlan. frame; [intros t; apply Hp|].
  by apply insert_steps_keeps.
Qed.

Lemma approvals_ops_keep {V} (view : tables → V) :
  (∀ f t, view (set_approvals f t) = view t) →
  (∀ p, db_rel (keeps view) (CreateApproval clock fault p)) ∧
  (∀ p, db_rel (keeps view) (CreateAndApprove clock fault p)) ∧
  (∀ p st, db_rel (keeps view) (UpdateApprovalStatusByPlan fault p st)) ∧
  (∀ p h, db_rel (keeps view) (SetApprovalHash fault p h)).
Proof.
  intros Hv. unfold CreateApproval, CreateAndApprove, insert_approval,
    UpdateApprovalStatusByPlan, SetApprovalHash.
  repeat split; intros; frame; intros t; apply Hv.
Qed.

Lemma audit_keeps {V} (view : tables → V) payload :
  (∀ f t, view (set_audits f t) = view t) →
  db_rel (keeps view) (InsertAuditEvent clock fault jsonb time_parse payload).
Proof. intros Hv. unfold InsertAuditEvent. frame. intros t. apply Hv. Qed.
End frames.

(** *** Integrity: keys and references *)

Record tables_ok (t : tables) : Prop := {
  ok_step_keys : NoDup (s_id <$> plan_steps t);
  ok_approval_keys : NoDup (a_id <$> approvals t);
  ok_exec_keys : NoDup (x_id <$> executions t);
  ok_call_keys : NoDup (t_id <$> tool_calls t);
  ok_evidence_keys : NoDup (v_id <$> evidence t);
  ok_audit_keys : NoDup (u_id <$> audits t);
  ok_schedule_keys : NoDup (h_id <$> schedules t);
  ok_step_refs : ∀ r, r ∈ plan_steps t → is_Some (plans t !! s_plan r);
  ok_approval_refs : ∀ a, a ∈ approvals t → is_Some (plans t !! a_plan a);
  ok_exec_refs : ∀ x, x ∈ executions t → is_Some (plans t !! x_plan x);
  ok_call_refs : ∀ r, r ∈ tool_calls t → t_exec r ∈ x_id <$> executions t;
  ok_evidence_refs : ∀ r, r ∈ evidence t → v_exec r ∈ x_id <$> executions t }.

Definition keeps_ok (t t' : tables) : Prop := tables_ok t → tables_ok t'.

#[export] Instance keeps_ok_preorder : PreOrder keeps_ok.
Proof. split; unfold keeps_ok; intros ?; auto. Qed.

(** The same, knowing [P] of the tables an operation starts from. *)
Definition db_rel_at (P : tables → Prop) (R : tables → tables → Prop) {A} (m : db A) : Prop :=
  ∀ s, P (tabs s) → R (tabs s) (tabs (m s).2).

Section rel_at.
Variable R : tables → tables → Prop.
Context `{!PreOrder R}.

Lemma rel_at_intro {A} (m : db A) : db_rel_at (λ _, True) R m → db_rel R m.
Proof. intros H s. by apply H. Qed.

Lemma rel_at_read {A B} P (f : tables → A) (m : A → db B) :
  (∀ v, db_rel_at (λ t, P t ∧ f t = v) R (m v)) → db_rel_at P R (db_read f ≫= m).
Proof. intros H s HP. by apply H. Qed.

Lemma rel_at_check {B} P b e (m : unit → db B) :
  (b = true → db_rel_at P R (m tt)) → db_rel_at P R (db_check b e ≫= m).
Proof. intros H s HP. destruct b; [by apply H|]. simpl. reflexivity. Qed.

Lemma rel_at_write {B} P f (m : unit → db B) :
  (∀ t, P t → R t (f t)) → db_rel R (m tt) → db_rel_at P R (db_write f ≫= m).
Proof. intros Hf Hm s HP. etrans; [by apply Hf|apply (Hm (mkStore _ _ _))]. Qed.

Lemma rel_at_assoc {A B C} P (m : db A) (f : A → db B) (g : B → db C) :
  db_rel_at P R (m ≫= (λ x, f x ≫= g)) → db_rel_at P R ((m ≫= f) ≫= g).
Proof.
  intros H s HP. specialize (H s HP). unfold mbind, db_bind in *.
  by destruct (m s) as [[v|e] s'].
Qed.

Lemma rel_at_write_end P f : (∀ t, P t → R t (f t)) → db_rel_at P R (db_write f).
Proof. intros Hf s HP. by apply Hf. Qed.
End rel_at.

(** A guarded insert: read, check, read, check, write. *)
Ltac guarded :=
  apply rel_at_intro;
  repeat match goal with
  | |- db_rel_at _ _ (references_plan _ ≫= _) => unfold references_plan
  | |- db_rel_at _ _ (references_execution _ ≫= _) => unfold references_execution
  | |- db_rel_at _ _ ((_ ≫= _) ≫= _) => apply rel_at_assoc
  | |- db_rel_at _ _ (db_read _ ≫= _) => apply rel_at_read; intros ?
  | |- db_rel_at _ _ (db_check _ _ ≫= _) => apply rel_at_check; [apply _|intros ?]
  end.

Lemma NoDup_snoc {A} (l : list A) x : NoDup l → x ∉ l → NoDup (l ++ [x]).
Proof. intros. apply NoDup_app. split; [done|]. split; [set_solver|apply NoDup_singleton]. Qed.

Lemma fmap_snoc {A B} (f : A → B) l x : f <$> (l ++ [x]) = (f <$> l) ++ [f x].
Proof. by rewrite fmap_app. Qed.

Lemma existsb_key {A} (key : A → string) l k :
  existsb (λ r, key r =? k) l = true ↔ k ∈ key <$> l.
Proof.
  rewrite existsb_exists, list_elem_of_fmap. setoid_rewrite String.eqb_eq.
  setoid_rewrite <- list_elem_of_In. naive_solver.
Qed.

Lemma existsb_key_false {A} (key : A → string) l k :
  existsb (λ r, key r =? k) l = false ↔ k ∉ key <$> l.
Proof. rewrite <- existsb_key. by destruct (existsb _ l). Qed.

Lemma update_where_key {A B} (key : A → B) sel f l :
  (∀ a, key (f a) = key a) → key <$> update_where sel f l = key <$> l.
Proof.
  intros H. unfold update_where. induction l as [|a l IH]; simpl; [done|].
  f_equal; [by case_match|done].
Qed.

Lemma update_where_refs {A} (ref : A → string) sel f l r :
  (∀ a, ref (f a) = ref a) → r ∈ update_where sel f l → ∃ r', r' ∈ l ∧ ref r = ref r'.
Proof.
  intros H. unfold update_where. rewrite list_elem_of_In, in_map_iff.
  intros (a & <- & Ha). exists a. split; [by apply list_elem_of_In|]. by case_match.
Qed.

(** Updates that keep keys and references keep the integrity. *)
Lemma set_approvals_ok sel f t :
  (∀ a, a_id (f a) = a_id a) → (∀ a, a_plan (f a) = a_plan a) →
  tables_ok t → tables_ok (set_approvals (update_where sel f) t).
Proof.
  intros Hk Hr []. split; simpl; auto.
  - by rewrite update_where_key.
  - intros a (a' & Ha & ->)%(update_where_refs a_plan); auto.
Qed.

Lemma set_executions_ok sel f t :
  (∀ x, x_id (f x) = x_id x) → (∀ x, x_plan (f x) = x_plan x) →
  tables_ok t → tables_ok (set_executions (update_where sel f) t).
Proof.
  intros Hk Hr []. split; simpl; auto; rewrite ?update_where_key by done; auto.
  intros x (x' & Hx & ->)%(update_where_refs x_plan); auto.
Qed.

(** The statements before the first read: clock, decoding, the server's answer. *)
Ltac leading :=
  repeat match goal with
  | |- db_rel _ (db_read _ ≫= _) => fail 1
  | |- db_rel _ (_ ≫= _) => apply rel_bind; [apply _|solve [frame]|intros ?]
  | |- db_rel _ (let '(_, _) := ?p in _) => destruct p
  end.

(** The facts the reads and checks of a guarded insert leave. *)
Ltac guard_facts :=
  repeat match goal with
  | H : _ ∧ _ |- _ => destruct H
  | H : negb _ = true |- _ => apply negb_true_iff in H
  end; subst;
  repeat match goal with
  | H : existsb _ _ = false |- _ => apply existsb_key_false in H
  | H : existsb _ _ = true |- _ => apply existsb_key in H
  | H : bool_decide _ = true |- _ => apply bool_decide_eq_true in H
  | H : bool_decide _ = false |- _ => apply bool_decide_eq_false in H
  end.

Lemma snoc_refs {A} (l : list A) x (P : A → Prop) :
  (∀ r, r ∈ l → P r) → P x → ∀ r, r ∈ l ++ [x] → P r.
Proof. intros Hl Hx r. rewrite elem_of_app, list_elem_of_singleton. naive_solver. Qed.

(** The write a guarded insert ends in, and what follows it. *)
Ltac insert_row :=
  first [apply rel_at_write; [apply _| |frame] | apply rel_at_write_end];
  intros t HP []; guard_facts; split; cbn;
  rewrite ?fmap_snoc;
  first [assumption | apply NoDup_snoc; assumption | apply snoc_refs; simpl; assumption
        | intros; apply elem_of_app; left; auto | idtac].

Section integrity.
Variable clock : nat → Z.
Variable fault : nat → option string.
Variable jsonb : json → json.
Variable pick : list approval_row → option approval_row.
Variable time_text : Z → string.
Variable time_parse : string → result Z.

Lemma insert_approval_ok row : db_rel keeps_ok (insert_approval fault row).
Proof. unfold insert_approval. leading. guarded. insert_row. Qed.

Lemma insert_steps_ok planID l : db_rel keeps_ok (insertPlanStepsConn clock fault jsonb planID l).
Proof.
  induction l as [|st l IH]; cbn [insertPlanStepsConn]; [apply rel_ret; apply _|].
  case_match; [done|]. leading. guarded.
  apply rel_at_write; [apply _| |done].
  intros t HP []; guard_facts; split; cbn; rewrite ?fmap_snoc;
    first [assumption | apply NoDup_snoc; assumption | apply snoc_refs; simpl; assumption].
Qed.

Lemma set_plans_ok planID row t : tables_ok t → tables_ok (set_plans <[planID := row]> t).
Proof.
  intros []. split; simpl; try done; intros r Hr; rewrite lookup_insert_is_Some'; auto.
Qed.

Lemma CreatePlan_ok payload : db_rel keeps_ok (CreatePlan clock fault jsonb payload).
Proof.
  unfold CreatePlan. leading. apply rel_bind; [apply _| |intros; apply rel_ret; apply _].
  apply rel_withTx; [apply _|]. leading. guarded.
  apply rel_at_write; [apply _| |apply insert_steps_ok].
  intros t _ Hok. by apply set_plans_ok.
Qed.

Lemma DeletePlan_ok planID : db_rel keeps_ok (DeletePlan fault planID).
Proof.
  unfold DeletePlan. leading. guarded. apply rel_at_write_end.
  intros t [_ Hu] []. subst. bool_hyps.
  assert (Hne : ∀ {A} (key : A → string) (l : list A) r,
    existsb (λ r, key r =? planID) l = false → r ∈ l → planID ≠ key r).
  { intros A key l r Hf Hr ->. apply existsb_key_false in Hf. apply Hf.
    by apply list_elem_of_fmap_2. }
  split; simpl; try done; intros r Hr; rewrite lookup_delete_ne; auto.
  - by eapply (Hne _ s_plan).
  - by eapply (Hne _ a_plan).
  - by eapply (Hne _ x_plan).
Qed.

Lemma CreateExecution_ok planID : db_rel keeps_ok (CreateExecution clock fault planID).
Proof. unfold CreateExecution. leading. guarded. insert_row. Qed.

Lemma update_exec_ok execID f :
  (∀ x, x_id (f x) = x_id x) → (∀ x, x_plan (f x) = x_plan x) →
  db_rel keeps_ok (db_write (update_exec execID f)).
Proof. intros Hk Hr. apply rel_write. intros t Hok. by apply set_executions_ok. Qed.

Lemma CancelExecution_ok execID : db_rel keeps_ok (CancelExecution clock fault execID).
Proof.
  unfold CancelExecution. repeat rel_step. apply rel_write. intros t Hok. by apply set_executions_ok.
Qed.

Lemma InsertToolCall_ok execID payload : db_rel keeps_ok (InsertToolCall clock fault execID payload).
Proof. unfold InsertToolCall. leading. guarded. insert_row. Qed.

Lemma InsertEvidence_ok execID payload :
  db_rel keeps_ok (InsertEvidence clock fault jsonb time_parse execID payload).
Proof. unfold InsertEvidence. leading. guarded. insert_row. Qed.

Lemma InsertAuditEvent_ok payload :
  db_rel keeps_ok (InsertAuditEvent clock fault jsonb time_parse payload).
Proof. unfold InsertAuditEvent. leading. guarded. insert_row. Qed.

Lemma CreateSchedule_ok payload : db_rel keeps_ok (CreateSchedule clock fault jsonb payload).
Proof. unfold CreateSchedule. leading. guarded. insert_row. Qed.

Lemma UpdateToolCall_ok id st i o : db_rel keeps_ok (UpdateToolCall fault id st i o).
Proof.
  unfold UpdateToolCall. repeat rel_step. apply rel_write. intros t []. split; simpl; auto.
  - by rewrite update_where_key.
  - intros r (r' & Hr & ->)%(update_where_refs t_exec); auto.
Qed.

Lemma set_schedules_ok f t :
  (NoDup (h_id <$> schedules t) → NoDup (h_id <$> f (schedules t))) →
  tables_ok t → tables_ok (set_schedules f t).
Proof. intros Hf []. split; simpl; auto. Qed.

Lemma UpdateScheduleLastRun_ok id at_ : db_rel keeps_ok (UpdateScheduleLastRun fault id at_).
Proof.
  unfold UpdateScheduleLastRun. repeat rel_step. apply rel_write. intros t Hok.
  apply set_schedules_ok; [|done]. by rewrite update_where_key.
Qed.

Lemma DeleteSchedule_ok id : db_rel keeps_ok (DeleteSchedule fault id).
Proof.
  unfold DeleteSchedule. repeat rel_step. apply rel_write. intros t Hok.
  apply set_schedules_ok; [|done]. intros Hnd. apply (sublist_NoDup _ _ Hnd), fmap_sublist. clear. induction (schedules t) as [|h l IH]; simpl; [constructor|].
  destruct (h_id h =? id); by constructor.
Qed.

Lemma approval_updates_ok :
  (∀ p, db_rel keeps_ok (CreateApproval clock fault p)) ∧
  (∀ p, db_rel keeps_ok (CreateAndApprove clock fault p)) ∧
  (∀ p st, db_rel keeps_ok (UpdateApprovalStatusByPlan fault p st)) ∧
  (∀ a st, db_rel keeps_ok (UpdateApprovalStatus fault a st)) ∧
  (∀ p h, db_rel keeps_ok (SetApprovalHash fault p h)).
Proof.
  unfold CreateApproval, CreateAndApprove, UpdateApprovalStatusByPlan, UpdateApprovalStatus,
    SetApprovalHash.
  refine (conj _ (conj _ (conj _ (conj _ _)))); intros; repeat rel_step;
    try apply insert_approval_ok; apply rel_write; intros t Hok; by apply set_approvals_ok.
Qed.

Lemma execution_updates_ok :
  (∀ x st, db_rel keeps_ok (UpdateExecutionStatus fault x st)) ∧
  (∀ x w, db_rel keeps_ok (UpdateExecutionWorkflowID fault x w)) ∧
  (∀ x st, db_rel keeps_ok (CompleteExecution clock fault x st)).
Proof.
  unfold UpdateExecutionStatus, UpdateExecutionWorkflowID, CompleteExecution.
  refine (conj _ (conj _ _)); intros; repeat rel_step; by apply update_exec_ok.
Qed.

(** The operations that write, with every argument and from every state of the
    counters. *)
Inductive db_op : ∀ {A}, db A → Prop :=
| op_CreatePlan j : db_op (CreatePlan clock fault jsonb j)
| op_DeletePlan p : db_op (DeletePlan fault p)
| op_CreateApproval p : db_op (CreateApproval clock fault p)
| op_CreateAndApprove p : db_op (CreateAndApprove clock fault p)
| op_ApprovalByPlan p st : db_op (UpdateApprovalStatusByPlan fault p st)
| op_Approval a st : db_op (UpdateApprovalStatus fault a st)
| op_ApprovalHash p h : db_op (SetApprovalHash fault p h)
| op_CreateExecution p : db_op (CreateExecution clock fault p)
| op_ExecutionStatus x st : db_op (UpdateExecutionStatus fault x st)
| op_Workflow x w : db_op (UpdateExecutionWorkflowID fault x w)
| op_Complete x st : db_op (CompleteExecution clock fault x st)
| op_Cancel x : db_op (CancelExecution clock fault x)
| op_InsertToolCall x d : db_op (InsertToolCall clock fault x d)
| op_UpdateToolCall c st i o : db_op (UpdateToolCall fault c st i o)
| op_InsertEvidence x d : db_op (InsertEvidence clock fault jsonb time_parse x d)
| op_InsertAudit d : db_op (InsertAuditEvent clock fault jsonb time_parse d)
| op_CreateSchedule j : db_op (CreateSchedule clock fault jsonb j)
| op_LastRun h z : db_op (UpdateScheduleLastRun fault h z)
| op_DeleteSchedule h : db_op (DeleteSchedule fault h).

Inductive store_step : store → store → Prop :=
| step_op A (m : db A) s : db_op m → store_step s (m s).2.

Lemma db_op_ok {A} (m : db A) : db_op m → db_rel keeps_ok m.
Proof.
  destruct approval_updates_ok as (? & ? & ? & ? & ?), execution_updates_ok as (? & ? & ?).
  destruct 1; auto using CreatePlan_ok, DeletePlan_ok, CreateExecution_ok, CancelExecution_ok,
    InsertToolCall_ok, UpdateToolCall_ok, InsertEvidence_ok, InsertAuditEvent_ok,
    CreateSchedule_ok, UpdateScheduleLastRun_ok, DeleteSchedule_ok.
Qed.
End integrity.

(** ** Theorems *)
Lemma no_tables_ok : tables_ok no_tables.
Proof. split; simpl; try constructor; intros ? ?%elem_of_nil; done. Qed.

(** Whatever operations run in whatever order, with whatever statements
    failing, primary keys stay unique and every step, approval, execution, tool
    call and evidence row refers to a row that exists; a transaction that fails
    midway leaves no partial plan. *)
Theorem store_integrity clock fault jsonb time_parse s :
  rtc (store_step clock fault jsonb time_parse) empty_store s → tables_ok (tabs s).
Proof.
  intros H. enough (Hgen : ∀ s0 s, rtc (store_step clock fault jsonb time_parse) s0 s →
    tables_ok (tabs s0) → tables_ok (tabs s)) by (eapply Hgen; [done|apply no_tables_ok]).
  clear. induction 1 as [|s0 s1 s2 [A m s' Hop] _ IH]; [done|].
  intros Hok. apply IH. by apply (db_op_ok _ _ _ _ _ Hop).
Qed.

(** A store for the witnesses: the clock ticks by one, no statement fails. *)
Definition tick_clock : nat → Z := λ n, Z.of_nat n.
Definition no_fault : nat → option string := λ _, None.
Definition same_json : json → json := λ j, j.
Definition time_error : string → result Z := λ _, Err "parsing time".
Definition demo_plan : json :=
  JObj [("trigger", JStr "manual"); ("summary", JStr "s"); ("context", JObj []);
        ("risk_level", JStr "low"); ("intent", JStr "deploy web")].
Definition with_plan : store := (CreatePlan tick_clock no_fault same_json demo_plan empty_store).2.

Lemma store_integrity_witness : tables_ok (tabs with_plan).
Proof.
  apply (store_integrity tick_clock no_fault same_json time_error with_plan).
  apply rtc_once. apply (step_op _ _ _ _ _ (CreatePlan tick_clock no_fault same_json demo_plan)).
  apply op_CreatePlan.
Defined.

(** Cancelling is one conditional statement: it succeeds exactly when the
    statement does and the execution is pending or running, and then every such
    row of that id is cancelled; otherwise, a terminal or unknown execution
    included, no row changes. *)
Theorem CancelExecution_spec clock fault execID s :
  let '(r, s') := CancelExecution clock fault execID s in
  let active x := (x_id x =? execID) && active_status (x_status x) in
  match r with
  | Ok _ => fault (stmts s) = None ∧ existsb active (executions (tabs s)) = true ∧
      executions (tabs s')
      = map (λ x, if active x then with_completed "cancelled" (clock (ticks s)) x else x)
            (executions (tabs s))
  | Err e => (fault (stmts s) = Some e ∨
              e = ErrNoRows ∧ existsb active (executions (tabs s)) = false) ∧
             executions (tabs s') = executions (tabs s)
  end.
Proof.
  unfold CancelExecution, stmt, db_check, check, time_now, db_read, db_write, db_lift.
  unfold mbind, db_bind. cbn. destruct (fault (stmts s)) as [e|]; cbn; [auto|].
  set (active := λ x, (x_id x =? execID) && active_status (x_status x)).
  assert (Hlen : Nat.eqb (length (List.filter active (executions (tabs s)))) 0
                 = negb (existsb active (executions (tabs s)))).
  { induction (executions (tabs s)) as [|x l IH]; simpl; [done|]. by destruct (active x). }
  rewrite Hlen. destruct (existsb active (executions (tabs s))) eqn:E; cbn; [auto|].
  split; [auto|]. clear Hlen. unfold update_where.
  induction (executions (tabs s)) as [|x l IH]; simpl in *; [done|].
  apply orb_false_elim in E as [-> E]. by rewrite IH.
Qed.

Definition run_db {A} (m : db A) (s : store) : store := (m s).2.

(** The check for an active execution and the creation of one are separate
    statements: two requests that both check before either creates leave one
    plan with two pending executions. *)
Theorem active_check_races :
  let s := with_plan in
  let '(first, s) := HasActiveExecution no_fault "plan_0" s in
  let '(second, s) := HasActiveExecution no_fault "plan_0" s in
  let s := run_db (CreateExecution tick_clock no_fault "plan_0") s in
  let s := run_db (CreateExecution tick_clock no_fault "plan_0") s in
  first = Ok false ∧ second = Ok false ∧
  map (λ x, (x_plan x, x_status x)) (executions (tabs s))
  = [("plan_0", "pending"); ("plan_0", "pending")].
Proof. vm_compute. auto. Qed.
