(* ===== verification/Library.v ===== *)
(** * Library: the database operations on the shelves

    internal/db's sessions.go, playbooks.go, runbooks.go, operator_memory.go,
    workflow_catalog.go, context.go, context_snapshots.go and audit_context.go,
    over Store's statements, with the conditions the keys and references of
    migrations/ set.  Rows come in the byte order of the column they are ordered
    by. *)

From S2P Require Import Prelude GoStrings Json Shelves Store.

Local Open Scope string_scope.
Local Open Scope list_scope.

(** ** Columns *)

(** An INT column holds 32 bits. *)
Definition int4 (z : Z) : bool := (- 2 ^ 31 <=? z)%Z && (z <? 2 ^ 31)%Z.
Definition out_of_range : string := "integer out of range".

(** Scanning NULL into a Go string. *)
Definition scan_null : string := "converting NULL to string is unsupported".
Definition scan_text (v : option string) : result string := of_option scan_null v.

Definition trimmed (v : string) : option string := nullString (TrimSpace v).

(** json.Unmarshal of a payload into a struct. *)
Definition payload_members (payload : doc) : result (list (string * json)) :=
  j ← unmarshal payload; Json.members j.

(** The value of a key in a jsonb document, and as text (->>). *)
Definition jget (j : json) (k : string) : json :=
  match j with
  | JObj fs => fold_left (λ acc '(k', v), if k' =? k then v else acc) fs JNull
  | _ => JNull
  end.

Definition find_by {A} (key : A → string) (id : string) (l : list A) : option A :=
  List.find (λ r, key r =? id) l.

(** COALESCE(MAX(version), 0) *)
Definition max_version (l : list Z) : Z :=
  match l with [] => 0 | v :: vs => fold_left Z.max vs v end.

Record sessionPayload := mkSessionPayload {
  sp_name : string; sp_tenant : string; sp_group : string; sp_owner : string;
  sp_meta : option json }.

Definition decode_session_payload (payload : doc) : result sessionPayload :=
  fs ← payload_members payload;
  n ← fld_string "name" fs; t ← fld_string "tenant_id" fs; g ← fld_string "group_id" fs;
  o ← fld_string "owner_actor_id" fs; md ← fld_raw "metadata" fs;
  Ok (mkSessionPayload n t g o md).

Record operatorMemoryPayload := mkMemoryPayload {
  mp_tenant : string; mp_title : string; mp_body : string; mp_tags : option json;
  mp_meta : option json; mp_owner : string }.

Definition decode_memory_payload (payload : doc) : result operatorMemoryPayload :=
  fs ← payload_members payload;
  t ← fld_string "tenant_id" fs; ti ← fld_string "title" fs; b ← fld_string "body" fs;
  tg ← fld_raw "tags" fs; md ← fld_raw "metadata" fs; o ← fld_string "owner_actor_id" fs;
  Ok (mkMemoryPayload t ti b tg md o).

Record AuditFilter := mkFilter {
  af_TenantID : string; af_From : Z; af_To : Z; af_ActorID : string; af_Action : string;
  af_Decision : string; af_Limit : Z; af_Offset : Z }.

Section statements.
Variable clock : nat → Z.
Variable fault : nat → option string.
Variable jsonb : json → json.
Variable time_text : Z → string.
(** The server's text of a JSON value that is no string. *)
Variable json_text : json → string.

Notation stmt := (stmt fault).
Notation newID := (newID clock).
Notation time_now := (time_now clock).

(** INSERT of a row, unless it [clash]es with one under a unique index. *)
Definition insert_unique {A} (clash : A → A → bool) (get : shelves → list A)
    (set : (list A → list A) → shelves → shelves) (row : A) : db unit :=
  _ ← stmt;
  dup ← db_read (λ t, existsb (clash row) (get (shelf t)));
  _ ← db_check (negb dup) duplicate_key;
  db_write (set_shelf (set (λ rows, rows ++ [row]))).

(** The primary key is the only one. *)
Definition insert_shelf {A} (key : A → string) :=
  insert_unique (λ row r : A, key r =? key row).

(** DELETE ... WHERE the key is [id]. *)
Definition delete_shelf {A} (key : A → string)
    (set : (list A → list A) → shelves → shelves) (id : string) : db unit :=
  _ ← stmt; db_write (set_shelf (set (List.filter (λ r, negb (key r =? id))))).

(** A page of the rows, the latest first, and the number of all rows. *)
Definition list_shelf {A} (get : shelves → list A) (before : A → A → bool) (row_json : A → json)
    (limit offset : Z) : db (json * Z) :=
  let '(limit, offset) := clampPagination limit offset in
  _ ← stmt;
  db_read (λ t, (JArr (map row_json (page limit offset (order_by before (get (shelf t))))),
                 Z.of_nat (length (get (shelf t))))).

Definition get_shelf {A} (key : A → string) (get : shelves → list A) (id : string) :
    db (option A) :=
  _ ← stmt; db_read (λ t, find_by key id (get (shelf t))).

(** ** Sessions *)

Definition CreateSession (payload : doc) : db string :=
  p ← db_lift (decode_session_payload payload);
  let name := TrimSpace (sp_name p) in
  let tenant := TrimSpace (sp_tenant p) in
  _ ← db_check (negb ((name =? "") || (tenant =? ""))) "name and tenant_id required";
  id ← newID "session";
  now ← time_now;
  _ ← insert_shelf ss_id sessions set_sessions
        (mkSession id name tenant (trimmed (sp_group p)) (trimmed (sp_owner p))
           (jsonb <$> sp_meta p) now now);
  mret id.

Definition session_json (s : session_row) : json :=
  JObj [("session_id", JStr (ss_id s)); ("name", JStr (ss_name s));
    ("tenant_id", JStr (ss_tenant s)); ("group_id", null_or JStr (ss_group s));
    ("owner_actor_id", null_or JStr (ss_owner s)); ("metadata", default JNull (ss_meta s));
    ("created_at", JStr (time_text (ss_created s))); ("updated_at", JStr (time_text (ss_updated s)))].

Definition ListSessions : Z → Z → db (json * Z) :=
  list_shelf sessions (λ a b, ss_created b <? ss_created a)%Z session_json.

(** group_id and owner_actor_id are scanned into strings. *)
Definition GetSession (sessionID : string) : db (option json) :=
  let sessionID := TrimSpace sessionID in
  _ ← db_check (negb (sessionID =? "")) "session_id required";
  row ← get_shelf ss_id sessions sessionID;
  match row with
  | None => mret None
  | Some s =>
      db_lift (g ← scan_text (ss_group s); o ← scan_text (ss_owner s);
        Ok (Some (JObj
          [("created_at", JStr (time_text (ss_created s))); ("group_id", JStr (valid_utf8 g));
           ("metadata", default JNull (ss_meta s)); ("name", JStr (valid_utf8 (ss_name s)));
           ("owner_actor_id", JStr (valid_utf8 o)); ("session_id", JStr (valid_utf8 sessionID));
           ("tenant_id", JStr (valid_utf8 (ss_tenant s)));
           ("updated_at", JStr (time_text (ss_updated s)))])))
  end.

Definition UpdateSession (sessionID : string) (payload : doc) : db unit :=
  let sessionID := TrimSpace sessionID in
  _ ← db_check (negb (sessionID =? "")) "session_id required";
  p ← db_lift (decode_session_payload payload);
  let name := TrimSpace (sp_name p) in
  let tenant := TrimSpace (sp_tenant p) in
  _ ← db_check (negb ((name =? "") || (tenant =? ""))) "name and tenant_id required";
  now ← time_now;
  _ ← stmt;
  db_write (set_shelf (set_sessions (update_where (λ s, ss_id s =? sessionID)
    (λ s, mkSession (ss_id s) name tenant (trimmed (sp_group p)) (trimmed (sp_owner p))
            (jsonb <$> sp_meta p) (ss_created s) now)))).

(** Deleting a session deletes its members (ON DELETE CASCADE). *)
Definition DeleteSession (sessionID : string) : db unit :=
  let sessionID := TrimSpace sessionID in
  _ ← db_check (negb (sessionID =? "")) "session_id required";
  _ ← stmt;
  db_write (set_shelf (λ h,
    set_members (List.filter (λ m, negb (mb_session m =? sessionID)))
      (set_sessions (List.filter (λ s, negb (ss_id s =? sessionID))) h))).

Definition same_member (sessionID memberID : string) (m : member_row) : bool :=
  (mb_session m =? sessionID) && (mb_member m =? memberID).

(** ON CONFLICT (session_id, member_id) DO UPDATE SET role *)
Definition upsert_member (row : member_row) : db unit :=
  _ ← stmt;
  dup ← db_read (λ t, existsb (same_member (mb_session row) (mb_member row))
                        (session_members (shelf t)));
  if dup : bool then
    db_write (set_shelf (set_members (update_where (same_member (mb_session row) (mb_member row))
      (λ m, mkMember (mb_session m) (mb_member m) (mb_role row) (mb_added m)))))
  else
    found ← db_read (λ t, existsb (λ s, ss_id s =? mb_session row) (sessions (shelf t)));
    _ ← db_check found fk_violation;
    db_write (set_shelf (set_members (λ rows, rows ++ [row]))).

Definition AddSessionMember (sessionID : string) (payload : doc) : db unit :=
  let sessionID := TrimSpace sessionID in
  _ ← db_check (negb (sessionID =? "")) "session_id required";
  '(member, role) ← db_lift (
    fs ← payload_members payload;
    m ← fld_string "member_id" fs; r ← fld_string "role" fs; Ok (TrimSpace m, TrimSpace r));
  _ ← db_check (negb ((member =? "") || (role =? ""))) "member_id and role required";
  now ← time_now;
  upsert_member (mkMember sessionID member role now).

Definition member_json (m : member_row) : json :=
  JObj [("member_id", JStr (mb_member m)); ("role", JStr (mb_role m));
        ("added_at", JStr (time_text (mb_added m)))].

Definition ListSessionMembers (sessionID : string) : db json :=
  let sessionID := TrimSpace sessionID in
  _ ← db_check (negb (sessionID =? "")) "session_id required";
  _ ← stmt;
  db_read (λ t, JArr (map member_json (order_by (λ a b, mb_added b <? mb_added a)%Z
    (List.filter (λ m, mb_session m =? sessionID) (session_members (shelf t)))))).

(** ** Playbooks *)

Definition CreatePlaybook (payload : doc) : db string :=
  '(tenant, name, version, tags, spec) ← db_lift (
    _ ← check (match payload with doc_empty => false | _ => true end) "payload required";
    fs ← payload_members payload;
    t ← fld_string "tenant_id" fs; n ← fld_string "name" fs; v ← fld_int "version" fs;
    tg ← fld_raw "tags" fs; sp ← fld_raw "spec" fs;
    let tenant := TrimSpace t in
    _ ← check (negb ((tenant =? "") || (n =? ""))) "tenant_id and name required";
    sp ← of_option "spec required" sp;
    Ok (tenant, n, if (v =? 0)%Z then 1%Z else v, tg, sp));
  id ← newID "playbook";
  now ← time_now;
  _ ← db_check (int4 version) out_of_range;
  _ ← insert_shelf pb_id playbooks set_playbooks
        (mkPlaybook id tenant name version (jsonb <$> tags) (jsonb spec) now);
  mret id.

Definition playbook_json (p : playbook_row) : json :=
  JObj [("playbook_id", JStr (pb_id p)); ("tenant_id", JStr (pb_tenant p));
    ("name", JStr (pb_name p)); ("version", JNum (itoa (pb_version p)));
    ("tags", default JNull (pb_tags p)); ("spec", pb_spec p);
    ("created_at", JStr (time_text (pb_created p)))].

Definition ListPlaybooks : Z → Z → db (json * Z) :=
  list_shelf playbooks (λ a b, pb_created b <? pb_created a)%Z playbook_json.

Definition GetPlaybook (playbookID : string) : db (option json) :=
  row ← get_shelf pb_id playbooks playbookID;
  mret ((λ p, JObj
    [("created_at", JStr (time_text (pb_created p))); ("name", JStr (valid_utf8 (pb_name p)));
     ("playbook_id", JStr (valid_utf8 playbookID)); ("spec", pb_spec p);
     ("tags", default JNull (pb_tags p)); ("tenant_id", JStr (valid_utf8 (pb_tenant p)));
     ("version", JNum (itoa (pb_version p)))]) <$> row).

Definition DeletePlaybook : string → db unit := delete_shelf pb_id set_playbooks.

(** ** Runbooks *)

Definition runbook_versions (tenant service name : string) (h : shelves) : list Z :=
  map rb_version (List.filter (λ r, (rb_tenant r =? tenant) && (rb_service r =? service)
                                    && (rb_name r =? name)) (runbooks h)).

(** A version that is not positive becomes the next one. *)
Definition next_version (tenant service name : string) (version : Z) : db Z :=
  if (version <=? 0)%Z then
    _ ← stmt;
    m ← db_read (λ t, max_version (runbook_versions tenant service name (shelf t)));
    mret (m + 1)%Z
  else mret version.

Definition CreateRunbook (payload : doc) : db string :=
  '(tenant, service, name, version, tags, body, spec) ← db_lift (
    fs ← payload_members payload;
    t ← fld_string "tenant_id" fs; sv ← fld_string "service" fs; n ← fld_string "name" fs;
    v ← fld_int "version" fs; tg ← fld_raw "tags" fs; b ← fld_string "body" fs;
    sp ← fld_raw "spec" fs;
    Ok (TrimSpace t, TrimSpace sv, TrimSpace n, v, tg, b, sp));
  _ ← db_check (negb ((tenant =? "") || (service =? "") || (name =? "")))
        "tenant_id, service and name required";
  version ← next_version tenant service name version;
  id ← newID "runbook";
  now ← time_now;
  _ ← db_check (int4 version) out_of_range;
  _ ← insert_shelf rb_id runbooks set_runbooks
        (mkRunbook id tenant service name version (jsonb <$> tags) (trimmed body)
           (jsonb <$> spec) now);
  mret id.

Definition runbook_json (r : runbook_row) : json :=
  JObj [("runbook_id", JStr (rb_id r)); ("tenant_id", JStr (rb_tenant r));
    ("service", JStr (rb_service r)); ("name", JStr (rb_name r));
    ("version", JNum (itoa (rb_version r))); ("tags", default JNull (rb_tags r));
    ("created_at", JStr (time_text (rb_created r)))].

Definition ListRunbooks : Z → Z → db (json * Z) :=
  list_shelf runbooks (λ a b, rb_created b <? rb_created a)%Z runbook_json.

(** No row is an error here, and the body is scanned into a string. *)
Definition GetRunbook (runbookID : string) : db json :=
  let runbookID := TrimSpace runbookID in
  _ ← db_check (negb (runbookID =? "")) "runbook_id required";
  row ← get_shelf rb_id runbooks runbookID;
  db_lift (r ← of_option ErrNoRows row; b ← scan_text (rb_body r);
    Ok (JObj
      [("body", JStr (valid_utf8 b)); ("created_at", JStr (time_text (rb_created r)));
       ("name", JStr (valid_utf8 (rb_name r))); ("runbook_id", JStr (valid_utf8 (rb_id r)));
       ("service", JStr (valid_utf8 (rb_service r))); ("spec", default JNull (rb_spec r));
       ("tags", default JNull (rb_tags r)); ("tenant_id", JStr (valid_utf8 (rb_tenant r)));
       ("version", JNum (itoa (rb_version r)))])).

Definition DeleteRunbook : string → db unit := delete_shelf rb_id set_runbooks.

(** ** Operator memory *)

Definition memory_texts (p : operatorMemoryPayload) : db (string * string * string) :=
  let tenant := TrimSpace (mp_tenant p) in
  let title := TrimSpace (mp_title p) in
  let body := TrimSpace (mp_body p) in
  _ ← db_check (negb ((tenant =? "") || (title =? "") || (body =? "")))
        "tenant_id, title, body required";
  mret (tenant, title, body).

Definition CreateOperatorMemory (payload : doc) : db string :=
  p ← db_lift (decode_memory_payload payload);
  '(tenant, title, body) ← memory_texts p;
  id ← newID "memory";
  now ← time_now;
  _ ← insert_shelf om_id memories set_memories
        (mkMemory id tenant title body (jsonb <$> mp_tags p) (jsonb <$> mp_meta p)
           (trimmed (mp_owner p)) now now);
  mret id.

Definition memory_json (m : memory_row) : json :=
  JObj [("memory_id", JStr (om_id m)); ("tenant_id", JStr (om_tenant m));
    ("title", JStr (om_title m)); ("body", JStr (om_body m));
    ("tags", default JNull (om_tags m)); ("metadata", default JNull (om_meta m));
    ("owner_actor_id", null_or JStr (om_owner m));
    ("created_at", JStr (time_text (om_created m))); ("updated_at", JStr (time_text (om_updated m)))].

Definition ListOperatorMemory (tenantID : string) : db json :=
  let tenantID := TrimSpace tenantID in
  _ ← db_check (negb (tenantID =? "")) "tenant_id required";
  _ ← stmt;
  db_read (λ t, JArr (map memory_json (order_by (λ a b, om_created b <? om_created a)%Z
    (List.filter (λ m, om_tenant m =? tenantID) (memories (shelf t)))))).

Definition GetOperatorMemory (memoryID : string) : db (option json) :=
  let memoryID := TrimSpace memoryID in
  _ ← db_check (negb (memoryID =? "")) "memory_id required";
  row ← get_shelf om_id memories memoryID;
  match row with
  | None => mret None
  | Some m =>
      db_lift (o ← scan_text (om_owner m);
        Ok (Some (JObj
          [("body", JStr (valid_utf8 (om_body m))); ("created_at", JStr (time_text (om_created m)));
           ("memory_id", JStr (valid_utf8 memoryID)); ("metadata", default JNull (om_meta m));
           ("owner_actor_id", JStr (valid_utf8 o)); ("tags", default JNull (om_tags m));
           ("tenant_id", JStr (valid_utf8 (om_tenant m))); ("title", JStr (valid_utf8 (om_title m)));
           ("updated_at", JStr (time_text (om_updated m)))])))
  end.

(** The row of that id, whoever's it is. *)
Definition UpdateOperatorMemory (memoryID : string) (payload : doc) : db unit :=
  let memoryID := TrimSpace memoryID in
  _ ← db_check (negb (memoryID =? "")) "memory_id required";
  p ← db_lift (decode_memory_payload payload);
  '(tenant, title, body) ← memory_texts p;
  now ← time_now;
  _ ← stmt;
  db_write (set_shelf (set_memories (update_where (λ m, om_id m =? memoryID)
    (λ m, mkMemory (om_id m) tenant title body (jsonb <$> mp_tags p) (jsonb <$> mp_meta p)
            (trimmed (mp_owner p)) (om_created m) now)))).

Definition DeleteOperatorMemory (memoryID : string) : db unit :=
  let memoryID := TrimSpace memoryID in
  _ ← db_check (negb (memoryID =? "")) "memory_id required";
  delete_shelf om_id set_memories memoryID.
(** ** The workflow catalogue *)

(** A name and version are taken once, over all tenants (the unique index of
    migrations/0011). *)
Definition same_workflow (row w : workflow_row) : bool :=
  (wf_id w =? wf_id row) || (wf_name w =? wf_name row) && (wf_version w =? wf_version row)%Z.

Definition CreateWorkflowCatalog (payload : doc) : db string :=
  '(tenant, name, version, spec) ← db_lift (
    fs ← payload_members payload;
    t ← fld_string "tenant_id" fs; n ← fld_string "name" fs; v ← fld_int "version" fs;
    sp ← fld_raw "spec" fs;
    let name := TrimSpace n in
    _ ← check (negb (name =? "")) "name required";
    sp ← of_option "spec required" sp;
    Ok (TrimSpace t, name, if (v <=? 0)%Z then 1%Z else v, sp));
  id ← newID "workflow";
  now ← time_now;
  _ ← db_check (int4 version) out_of_range;
  _ ← insert_unique same_workflow workflow_catalog set_workflows
        (mkWorkflow id (nullString tenant) name version (jsonb spec) now);
  mret id.

Definition workflow_json (w : workflow_row) : json :=
  JObj [("workflow_id", JStr (wf_id w)); ("tenant_id", null_or JStr (wf_tenant w));
    ("name", JStr (wf_name w)); ("version", JNum (itoa (wf_version w)));
    ("spec", wf_spec w); ("created_at", JStr (time_text (wf_created w)))].

Definition ListWorkflowCatalog : Z → Z → db (json * Z) :=
  list_shelf workflow_catalog (λ a b, wf_created b <? wf_created a)%Z workflow_json.

(** ** The service graph *)

(** INSERT ... ON CONFLICT (key) DO UPDATE of every other column. *)
Definition upsert_by {A} (key : A → string) (row : A) (l : list A) : list A :=
  if existsb (λ r, key r =? key row) l
  then update_where (λ r, key r =? key row) (λ _, row) l else l ++ [row].

Definition UpsertContextNode (node : Node) : db unit :=
  _ ← db_check (negb ((NodeID node =? "") || (node_Kind node =? "") || (node_Name node =? "")))
        "invalid context node";
  let labels := default JNull (to_json (labels_any (node_Labels node))) in
  _ ← stmt;
  db_write (set_shelf (set_nodes (upsert_by gn_id
    (mkNodeRow (NodeID node) (node_Kind node) (node_Name node) (jsonb labels)
       (nullString (OwnerTeam node)))))).

Definition UpsertContextEdge (edge : Edge) : db unit :=
  _ ← db_check (negb ((FromNodeID edge =? "") || (ToNodeID edge =? "") || (Relation edge =? "")))
        "invalid context edge";
  edgeID ← (if EdgeID edge =? "" then newID "edge" else mret (EdgeID edge));
  _ ← stmt;
  found ← db_read (λ t, existsb (λ n, gn_id n =? FromNodeID edge) (context_nodes (shelf t))
                        && existsb (λ n, gn_id n =? ToNodeID edge) (context_nodes (shelf t)));
  _ ← db_check found fk_violation;
  db_write (set_shelf (set_edges (upsert_by ge_id
    (mkEdgeRow edgeID (FromNodeID edge) (ToNodeID edge) (Relation edge))))).

Definition node_json (n : node_row) : json :=
  JObj [("node_id", JStr (gn_id n)); ("kind", JStr (gn_kind n)); ("name", JStr (gn_name n));
        ("labels", gn_labels n); ("owner_team", null_or JStr (gn_owner n))].
Definition edge_json (e : edge_row) : json :=
  JObj [("edge_id", JStr (ge_id e)); ("from_node_id", JStr (ge_from e));
        ("to_node_id", JStr (ge_to e)); ("relation", JStr (ge_relation e))].

(** The three common table expressions of GetServiceGraph: the service's nodes,
    the edges at them, and the nodes at those. *)
Definition service_nodes (service : string) (h : shelves) : list string :=
  map gn_id (List.filter (λ n, (gn_kind n =? "service") &&
    ((gn_id n =? service) || (gn_name n =? service))) (context_nodes h)).
Definition graph_edges (service : string) (h : shelves) : list edge_row :=
  let ids := service_nodes service h in
  List.filter (λ e, mem (ge_from e) ids || mem (ge_to e) ids) (context_edges h).
Definition graph_nodes (service : string) (h : shelves) : list node_row :=
  let ids := service_nodes service h in
  let es := graph_edges service h in
  List.filter (λ n, mem (gn_id n) ids || mem (gn_id n) (map ge_from es)
                    || mem (gn_id n) (map ge_to es)) (context_nodes h).

Definition GetServiceGraph (service : string) : db json :=
  _ ← db_check (negb (service =? "")) "invalid context service";
  _ ← stmt;
  db_read (λ t, JObj
    [("nodes", JArr (map node_json (order_by (λ a b, String.ltb (gn_name a) (gn_name b))
        (graph_nodes service (shelf t)))));
     ("edges", JArr (map edge_json (order_by (λ a b, String.ltb (ge_id a) (ge_id b))
        (graph_edges service (shelf t)))))]).

Definition service_json (n : node_row) : json :=
  JObj [("service_id", JStr (gn_id n)); ("name", JStr (gn_name n));
        ("owner_team", null_or JStr (gn_owner n)); ("labels", gn_labels n)].

Definition ListContextServices : Z → Z → db (json * Z) :=
  list_shelf (λ h, List.filter (λ n, gn_kind n =? "service") (context_nodes h))
    (λ a b, String.ltb (gn_name a) (gn_name b)) service_json.

(** ** Snapshots of the graph *)

Definition InsertContextSnapshot (source : string) (nodes edges labels : doc) : db string :=
  match nodes, edges with
  | doc_empty, _ | _, doc_empty => db_err "snapshot data required"
  | _, _ =>
      id ← newID "snapshot";
      now ← time_now;
      nodes ← db_lift (unmarshal nodes);
      edges ← db_lift (unmarshal edges);
      labels ← db_lift (match labels with
                        | doc_empty => Ok None
                        | d => l ← unmarshal d; Ok (Some l) end);
      _ ← insert_shelf sn_id snapshots set_snapshots
            (mkSnapshot id source now (jsonb nodes) (jsonb edges) (jsonb <$> labels));
      mret id
  end.

Definition snapshot_json (s : snapshot_row) : json :=
  JObj [("snapshot_id", JStr (sn_id s)); ("source", JStr (sn_source s));
    ("collected_at", JStr (time_text (sn_at s))); ("labels", default JNull (sn_labels s))].

Definition ListContextSnapshots : Z → Z → db (json * Z) :=
  list_shelf snapshots (λ a b, sn_at b <? sn_at a)%Z snapshot_json.

Definition GetContextSnapshot (snapshotID : string) : db (option json) :=
  let snapshotID := TrimSpace snapshotID in
  _ ← db_check (negb (snapshotID =? "")) "snapshot_id required";
  row ← get_shelf sn_id snapshots snapshotID;
  mret ((λ s, JObj
    [("collected_at", JStr (time_text (sn_at s))); ("edges", sn_edges s);
     ("labels", default JNull (sn_labels s)); ("nodes", sn_nodes s);
     ("snapshot_id", JStr (valid_utf8 (sn_id s))); ("source", JStr (valid_utf8 (sn_source s)))]) <$> row).

(** ** The audit log *)

(** [j->>k] *)
Definition jtext (j : json) (k : string) : option string :=
  match jget j k with
  | JStr s => Some s
  | JNull => None
  | v => Some (json_text v)
  end.
Definition text_is (v : option string) (s : string) : bool :=
  match v with Some v => v =? s | None => false end.

(** One condition per filter that is set; the tenant is looked for in three
    places. *)
Definition audit_matches (f : AuditFilter) (u : audit_row) : bool :=
  let unset s := s =? "" in
  let ctx := u_context u in
  let t := af_TenantID f in
  (unset t || text_is (jtext ctx "tenant_id") t
   || text_is (jtext (jget ctx "context") "tenant_id") t
   || text_is (jtext (jget ctx "labels") "tenant_id") t) &&
  ((af_From f =? zero_time)%Z || (af_From f <=? u_at u)%Z) &&
  ((af_To f =? zero_time)%Z || (u_at u <=? af_To f)%Z) &&
  (unset (af_ActorID f) || text_is (jtext (u_actor u) "id") (af_ActorID f)) &&
  (unset (af_Action f) || (u_action u =? af_Action f)) &&
  (unset (af_Decision f) || (u_decision u =? af_Decision f)).

Definition audit_json (u : audit_row) : json :=
  JObj [("event_id", JStr (u_id u)); ("occurred_at", JStr (time_text (u_at u)));
    ("actor", u_actor u); ("action", JStr (u_action u)); ("decision", JStr (u_decision u));
    ("context", u_context u); ("evidence_refs", u_evidence u); ("hash", JStr (u_hash u))].

(** The total is read off the page's rows: 0 when the page is empty. *)
Definition ListAuditEvents (f : AuditFilter) : db (json * Z) :=
  let '(limit, offset) := clampPagination (af_Limit f) (af_Offset f) in
  _ ← stmt;
  db_read (λ t,
    let filtered := List.filter (audit_matches f) (audits t) in
    let paged := page limit offset (order_by (λ a b, u_at b <? u_at a)%Z filtered) in
    (JArr (map audit_json paged),
     match paged with [] => 0%Z | _ => Z.of_nat (length filtered) end)).
End statements.
