(* ===== verification/LibraryLaws.v ===== *)
(** * LibraryLaws: what the operations on the shelves keep and promise

    The integrity of the tables of Store and Library under the constraints of
    migrations/, which their statements check,
    the listings, the service graph, runbook versions and the audit log. *)

From S2P Require Import Prelude GoStrings Json Shelves Store Library.
From Stdlib Require Import Sorting.Sorted.

Local Open Scope string_scope.
Local Open Scope list_scope.

(** ** Integrity of the shelves *)

Definition member_key (m : member_row) : string * string := (mb_session m, mb_member m).
Definition version_key (w : workflow_row) : string * Z := (wf_name w, wf_version w).

Record shelves_ok (h : shelves) : Prop := {
  ok_sessions : NoDup (ss_id <$> sessions h);
  ok_members : NoDup (member_key <$> session_members h);
  ok_playbooks : NoDup (pb_id <$> playbooks h);
  ok_runbooks : NoDup (rb_id <$> runbooks h);
  ok_memories : NoDup (om_id <$> memories h);
  ok_workflows : NoDup (wf_id <$> workflow_catalog h);
  ok_versions : NoDup (version_key <$> workflow_catalog h);
  ok_nodes : NoDup (gn_id <$> context_nodes h);
  ok_edges : NoDup (ge_id <$> context_edges h);
  ok_snapshots : NoDup (sn_id <$> snapshots h);
  ok_member_refs : ∀ m, m ∈ session_members h → mb_session m ∈ ss_id <$> sessions h;
  ok_edge_refs : ∀ e, e ∈ context_edges h →
    ge_from e ∈ gn_id <$> context_nodes h ∧ ge_to e ∈ gn_id <$> context_nodes h }.

Definition keeps_shelves_ok (t t' : tables) : Prop := shelves_ok (shelf t) → shelves_ok (shelf t').

#[export] Instance keeps_shelves_ok_preorder : PreOrder keeps_shelves_ok.
Proof. split; unfold keeps_shelves_ok; intros ?; auto. Qed.

Lemma set_shelf_tables_ok f t : tables_ok t → tables_ok (set_shelf f t).
Proof. by intros []. Qed.

Lemma keeps_shelf_ok {A} (m : db A) : db_rel (keeps shelf) m → db_rel keeps_shelves_ok m.
Proof. intros H s Hok. by rewrite (H s). Qed.

(** A write of the shelves keeps the plan tables' integrity. *)
Lemma rel_shelf_write f : db_rel keeps_ok (db_write (set_shelf f)).
Proof. apply rel_write. intros t Hok. by apply set_shelf_tables_ok. Qed.

Lemma rel_shelves_write f : (∀ h, shelves_ok h → shelves_ok (f h)) →
  db_rel keeps_shelves_ok (db_write (set_shelf f)).
Proof. intros Hf. apply rel_write. intros t Hok. by apply Hf. Qed.

Lemma filter_keys {A B} (key : A → B) (sel : A → bool) l :
  NoDup (key <$> l) → NoDup (key <$> List.filter sel l).
Proof.
  intros H. apply (sublist_NoDup _ _ H), fmap_sublist.
  clear. induction l as [|a l IH]; simpl; [constructor|]. destruct (sel a); by constructor.
Qed.

Lemma elem_of_List_filter {A} (sel : A → bool) l a :
  a ∈ List.filter sel l ↔ a ∈ l ∧ sel a = true.
Proof. by rewrite !list_elem_of_In, filter_In. Qed.

Lemma upsert_keys {A} (key : A → string) row l :
  NoDup (key <$> l) → NoDup (key <$> upsert_by key row l).
Proof.
  intros H. unfold upsert_by. destruct (existsb _ l) eqn:E.
  - enough (key <$> update_where (λ r, key r =? key row) (λ _, row) l = key <$> l) as -> by done.
    clear. unfold update_where. induction l as [|a l IH]; simpl; [done|]. f_equal; [|done].
    by destruct (String.eqb_spec (key a) (key row)).
  - rewrite fmap_snoc. apply NoDup_snoc; [done|]. by apply existsb_key_false.
Qed.

Lemma upsert_key_in {A} (key : A → string) row l k :
  k ∈ key <$> upsert_by key row l ↔ k ∈ key <$> l ∨ k = key row.
Proof.
  unfold upsert_by. destruct (existsb _ l) eqn:E.
  - assert (key <$> update_where (λ r, key r =? key row) (λ _, row) l = key <$> l) as ->.
    { clear. unfold update_where. induction l as [|a l IH]; simpl; [done|]. f_equal; [|done].
      by destruct (String.eqb_spec (key a) (key row)). }
    apply existsb_key in E. naive_solver.
  - rewrite fmap_snoc, elem_of_app, list_elem_of_singleton. done.
Qed.

Lemma upsert_in {A} (key : A → string) row l a : a ∈ upsert_by key row l → a ∈ l ∨ a = row.
Proof.
  unfold upsert_by, update_where. case_match.
  - rewrite list_elem_of_In, in_map_iff. intros (b & <- & Hb%list_elem_of_In). case_match; auto.
  - rewrite elem_of_app, list_elem_of_singleton. tauto.
Qed.

(** No row clashing under a key: the key is new. *)
Lemma clash_key {A} (key : A → string) row l :
  existsb (λ r, key r =? key row) l = false → key row ∉ key <$> l.
Proof. apply existsb_key_false. Qed.

Lemma rel_insert_unique {A} fault (clash : A → A → bool) get set row :
  (∀ h, existsb (clash row) (get h) = false → shelves_ok h →
        shelves_ok (set (λ rows, rows ++ [row]) h)) →
  db_rel keeps_shelves_ok (insert_unique fault clash get set row).
Proof.
  intros H. unfold insert_unique. leading. guarded. apply rel_at_write_end.
  intros t [_ Hd] Hok. guard_facts. apply H; [by destruct (existsb _ _)|done].
Qed.

Section integrity.
Variable clock : nat → Z.
Variable fault : nat → option string.
Variable jsonb : json → json.
Variable time_parse : string → result Z.

(** The operations that write shelves. *)
Inductive lib_op : ∀ {A}, db A → Prop :=
| op_CreateSession d : lib_op (CreateSession clock fault jsonb d)
| op_UpdateSession x d : lib_op (UpdateSession clock fault jsonb x d)
| op_DeleteSession x : lib_op (DeleteSession fault x)
| op_AddSessionMember x d : lib_op (AddSessionMember clock fault x d)
| op_CreatePlaybook d : lib_op (CreatePlaybook clock fault jsonb d)
| op_DeletePlaybook x : lib_op (DeletePlaybook fault x)
| op_CreateRunbook d : lib_op (CreateRunbook clock fault jsonb d)
| op_DeleteRunbook x : lib_op (DeleteRunbook fault x)
| op_CreateMemory d : lib_op (CreateOperatorMemory clock fault jsonb d)
| op_UpdateMemory x d : lib_op (UpdateOperatorMemory clock fault jsonb x d)
| op_DeleteMemory x : lib_op (DeleteOperatorMemory fault x)
| op_CreateWorkflow d : lib_op (CreateWorkflowCatalog clock fault jsonb d)
| op_UpsertNode n : lib_op (UpsertContextNode fault jsonb n)
| op_UpsertEdge e : lib_op (UpsertContextEdge clock fault e)
| op_InsertSnapshot src n e l : lib_op (InsertContextSnapshot clock fault jsonb src n e l).

(** One operation on the tables of Store and Library.  Two tables are kept apart from
    them: alert_events, which only the alert poller writes (a parameter of Pollers) and
    nothing reads, and event_gates (EventGate). *)
Inductive tables_step : store → store → Prop :=
| step_plans s s' : store_step clock fault jsonb time_parse s s' → tables_step s s'
| step_shelves A (m : db A) s : lib_op m → tables_step s (m s).2.

Lemma store_step_shelf s s' :
  store_step clock fault jsonb time_parse s s' → shelf (tabs s') = shelf (tabs s).
Proof.
  destruct (approvals_ops_keep clock fault shelf (λ _ _, eq_refl)) as (H1 & H2 & H3 & H4).
  destruct 1 as [A m s Hop].
  enough (H : db_rel (keeps shelf) m) by apply (H s).
  destruct Hop; auto using CreatePlan_keeps, audit_keeps; try apply H1; try apply H2;
    try apply H3; try apply H4;
    unfold DeletePlan, UpdateApprovalStatus, CreateExecution, UpdateExecutionStatus,
      UpdateExecutionWorkflowID, CompleteExecution, CancelExecution, InsertToolCall,
      UpdateToolCall, InsertEvidence, CreateSchedule, UpdateScheduleLastRun, DeleteSchedule;
    frame.
Qed.

(** *** Every operation *)
Lemma rel_err R `{!PreOrder R} {A} e : db_rel R (db_err (A := A) e).
Proof. by intros s. Qed.

Ltac shelf_key := intros h Hd []; apply clash_key in Hd; split; cbn; rewrite ?fmap_snoc;
  first [assumption | by apply NoDup_snoc | idtac].

Lemma CreateSession_ok d : db_rel keeps_shelves_ok (CreateSession clock fault jsonb d).
Proof.
  unfold CreateSession, insert_shelf. repeat first [apply rel_insert_unique; shelf_key | rel_step].
  intros m Hm. apply elem_of_app. auto.
Qed.

Lemma UpdateSession_ok x d : db_rel keeps_shelves_ok (UpdateSession clock fault jsonb x d).
Proof.
  unfold UpdateSession. repeat rel_step. apply rel_shelves_write.
  intros h []; split; cbn; rewrite ?update_where_key; auto.
Qed.

Lemma DeleteSession_ok x : db_rel keeps_shelves_ok (DeleteSession fault x).
Proof.
  unfold DeleteSession. repeat rel_step. apply rel_shelves_write.
  intros h []; split; cbn; auto using filter_keys.
  intros m [Hm Hx]%elem_of_List_filter.
  destruct (proj1 (list_elem_of_fmap _ _ _) (ok_member_refs0 _ Hm)) as (s & Hs & Hin).
  apply list_elem_of_fmap. exists s. split; [done|]. apply elem_of_List_filter.
  by rewrite <- Hs.
Qed.

Lemma same_member_key s m l :
  existsb (same_member s m) l = false → (s, m) ∉ member_key <$> l.
Proof.
  intros H (r & Hr & Hin)%list_elem_of_fmap. injection Hr as -> ->.
  apply list_elem_of_In in Hin. apply not_true_iff_false in H. apply H, existsb_exists.
  exists r. unfold same_member. by rewrite !String.eqb_refl.
Qed.

Lemma upsert_member_ok row : db_rel keeps_shelves_ok (upsert_member fault row).
Proof.
  unfold upsert_member. leading. guarded. destruct v eqn:Ev.
  - apply rel_at_write_end. intros t _ []. split; cbn; auto.
    + by rewrite update_where_key.
    + intros m (m' & Hm & ->)%(update_where_refs mb_session); auto.
  - apply rel_at_read. intros found. apply rel_at_check; [apply _|]. intros ->.
    apply rel_at_write_end. intros t [[_ Hd] Hs] []. split; cbn; auto.
    + rewrite fmap_snoc. apply NoDup_snoc; [done|]. by apply same_member_key.
    + apply snoc_refs; [done|]. by apply existsb_key.
Qed.

Lemma AddSessionMember_ok x d : db_rel keeps_shelves_ok (AddSessionMember clock fault x d).
Proof. unfold AddSessionMember. repeat first [apply upsert_member_ok | rel_step]. Qed.

Lemma CreatePlaybook_ok d : db_rel keeps_shelves_ok (CreatePlaybook clock fault jsonb d).
Proof.
  unfold CreatePlaybook, insert_shelf. repeat first [apply rel_insert_unique; shelf_key | rel_step].
Qed.

Lemma CreateRunbook_ok d : db_rel keeps_shelves_ok (CreateRunbook clock fault jsonb d).
Proof.
  unfold CreateRunbook, next_version, insert_shelf.
  repeat first [apply rel_insert_unique; shelf_key | rel_step].
Qed.

Lemma CreateMemory_ok d : db_rel keeps_shelves_ok (CreateOperatorMemory clock fault jsonb d).
Proof.
  unfold CreateOperatorMemory, memory_texts, insert_shelf.
  repeat first [apply rel_insert_unique; shelf_key | rel_step].
Qed.

Lemma UpdateMemory_ok x d : db_rel keeps_shelves_ok (UpdateOperatorMemory clock fault jsonb x d).
Proof.
  unfold UpdateOperatorMemory, memory_texts. repeat rel_step. apply rel_shelves_write.
  intros h []; split; cbn; rewrite ?update_where_key; auto.
Qed.

Lemma deletes_ok :
  (∀ x, db_rel keeps_shelves_ok (DeletePlaybook fault x)) ∧
  (∀ x, db_rel keeps_shelves_ok (DeleteRunbook fault x)) ∧
  (∀ x, db_rel keeps_shelves_ok (DeleteOperatorMemory fault x)).
Proof.
  unfold DeletePlaybook, DeleteRunbook, DeleteOperatorMemory, delete_shelf.
  split_and!; intros; repeat rel_step; apply rel_shelves_write; intros h [];
    split; cbn; auto using filter_keys.
Qed.

Lemma CreateWorkflow_ok d : db_rel keeps_shelves_ok (CreateWorkflowCatalog clock fault jsonb d).
Proof.
  unfold CreateWorkflowCatalog. repeat first [apply rel_insert_unique | rel_step].
  intros h Hd []. split; cbn; rewrite ?fmap_snoc; auto; apply NoDup_snoc; try done;
    intros (w & Hw & Hin)%list_elem_of_fmap; apply list_elem_of_In in Hin;
    apply not_true_iff_false in Hd; apply Hd, existsb_exists; exists w; split; try done;
    unfold same_workflow; simpl in *.
  - rewrite <- Hw. by rewrite String.eqb_refl.
  - injection Hw as -> ->. by rewrite String.eqb_refl, Z.eqb_refl, orb_true_r.
Qed.

Lemma UpsertNode_ok n : db_rel keeps_shelves_ok (UpsertContextNode fault jsonb n).
Proof.
  unfold UpsertContextNode. repeat rel_step. apply rel_shelves_write.
  intros h []; split; cbn; auto using upsert_keys.
  intros e He. rewrite !upsert_key_in. destruct (ok_edge_refs0 e He). auto.
Qed.

Lemma UpsertEdge_ok e : db_rel keeps_shelves_ok (UpsertContextEdge clock fault e).
Proof.
  unfold UpsertContextEdge. leading. guarded. apply rel_at_write_end.
  intros t [_ Hf] []. subst. bool_hyps. split; cbn; auto using upsert_keys.
  intros r [Hr| ->]%upsert_in; [by apply ok_edge_refs0|].
  split; by apply existsb_key.
Qed.

Lemma InsertSnapshot_ok src n e l :
  db_rel keeps_shelves_ok (InsertContextSnapshot clock fault jsonb src n e l).
Proof.
  unfold InsertContextSnapshot, insert_shelf.
  repeat first [apply rel_insert_unique; shelf_key | apply rel_err | rel_step].
Qed.

Lemma lib_op_ok {A} (m : db A) : lib_op m → db_rel keeps_shelves_ok m.
Proof.
  destruct deletes_ok as (? & ? & ?).
  destruct 1; auto using CreateSession_ok, UpdateSession_ok, DeleteSession_ok, AddSessionMember_ok,
    CreatePlaybook_ok, CreateRunbook_ok, CreateMemory_ok, UpdateMemory_ok, CreateWorkflow_ok,
    UpsertNode_ok, UpsertEdge_ok, InsertSnapshot_ok.
Qed.

Lemma lib_op_tables_ok {A} (m : db A) : lib_op m → db_rel keeps_ok m.
Proof.
  destruct 1; unfold CreateSession, UpdateSession, DeleteSession, AddSessionMember, upsert_member,
    CreatePlaybook, DeletePlaybook, CreateRunbook, next_version, DeleteRunbook,
    CreateOperatorMemory, UpdateOperatorMemory, DeleteOperatorMemory, memory_texts, delete_shelf,
    CreateWorkflowCatalog, UpsertContextNode, UpsertContextEdge, InsertContextSnapshot,
    insert_shelf, insert_unique;
    repeat first [apply rel_shelf_write | apply rel_err | rel_step].
Qed.
End integrity.

Lemma no_shelves_ok : shelves_ok no_shelves.
Proof. split; simpl; try apply NoDup_nil_2; intros ? ?%elem_of_nil; done. Qed.

(** The constraints hold together: in every state the operations of Store and Library
    can reach, in any order and with any statements failing, every table's keys are
    unique, a workflow name has a version once, a session member belongs to a session
    that exists, and both ends of an edge of the service graph are nodes. *)
Lemma tables_integrity clock fault jsonb time_parse s :
  rtc (tables_step clock fault jsonb time_parse) empty_store s →
  tables_ok (tabs s) ∧ shelves_ok (shelf (tabs s)).
Proof.
  intros H. enough (Hgen : ∀ s0 s, rtc (tables_step clock fault jsonb time_parse) s0 s →
    tables_ok (tabs s0) ∧ shelves_ok (shelf (tabs s0)) →
    tables_ok (tabs s) ∧ shelves_ok (shelf (tabs s)))
    by (eapply Hgen; [done|split; [apply no_tables_ok|apply no_shelves_ok]]).
  clear. induction 1 as [|s0 s1 s2 Hstep _ IH]; [done|]. intros [Ht Hs]. apply IH.
  destruct Hstep as [s s' Hstep|A m s Hop].
  - rewrite (store_step_shelf _ _ _ _ _ _ Hstep). destruct Hstep as [A m s Hop].
    split; [|done]. by apply (db_op_ok _ _ _ _ _ Hop).
  - split; [by apply (lib_op_tables_ok _ _ _ _ Hop)|by apply (lib_op_ok _ _ _ _ Hop)].
Qed.

(** *** Orders and pages *)
Lemma insert_by_Permutation {A} (before : A → A → bool) x l : insert_by before x l ≡ₚ x :: l.
Proof.
  induction l as [|y l IH]; simpl; [done|]. case_match; [|done]. rewrite IH. constructor.
Qed.

Lemma order_by_Permutation {A} (before : A → A → bool) l : order_by before l ≡ₚ l.
Proof.
  unfold order_by. set (f := λ (acc : list A) x, insert_by _ x acc).
  assert (H : ∀ acc, fold_left f l acc ≡ₚ acc ++ l).
  { induction l as [|x l IH]; intros acc; simpl; [by rewrite app_nil_r|].
    rewrite IH. unfold f at 1. rewrite insert_by_Permutation. apply Permutation_middle. }
  apply H.
Qed.

(** Ordering by a number, the greatest first, sorts. *)
Definition later {A} (key : A → Z) (a b : A) : bool := (key b <? key a)%Z.
Definition newest_first {A} (key : A → Z) : list A → Prop := StronglySorted (λ a b, key b ≤ key a)%Z.

Lemma order_by_sorted {A} (key : A → Z) l : newest_first key (order_by (later key) l).
Proof.
  unfold order_by. set (f := λ (acc : list A) x, insert_by _ x acc).
  assert (Hf : ∀ x acc, newest_first key acc → newest_first key (f acc x)).
  { intros x acc. unfold f, later, newest_first. induction 1 as [|y acc Hs IH Hy]; simpl.
    - repeat constructor.
    - destruct (Z.ltb_spec (key y) (key x)); simpl.
      + constructor; [by constructor|]. constructor; [lia|].
        eapply Forall_impl; [done|]. simpl. lia.
      + constructor; [done|]. rewrite insert_by_Permutation. by constructor. }
  assert (H : ∀ acc, newest_first key acc → newest_first key (fold_left f l acc)).
  { induction l as [|x l IH]; intros acc Hacc; simpl; auto. }
  apply H. constructor.
Qed.

Lemma page_in {A} limit offset (l : list A) a : a ∈ page limit offset l → a ∈ l.
Proof.
  unfold page. intros H%list_elem_of_In. apply list_elem_of_In.
  rewrite <- (firstn_skipn (Z.to_nat offset) l). apply in_or_app. right.
  rewrite <- (firstn_skipn (Z.to_nat limit) (skipn (Z.to_nat offset) l)). apply in_or_app. by left.
Qed.

Lemma page_length {A} limit offset (l : list A) : (length (page limit offset l) ≤ Z.to_nat limit)%nat.
Proof. unfold page. rewrite length_take. lia. Qed.

Lemma clamp_bounds limit offset :
  let '(l, o) := clampPagination limit offset in (1 ≤ l ≤ 200 ∧ 0 ≤ o)%Z.
Proof. unfold clampPagination. repeat case_match; bool_hyps; lia. Qed.

Lemma and_iff_compat_l_dep (A B C : Prop) : (A → (B ↔ C)) → (A ∧ B ↔ A ∧ C).
Proof. tauto. Qed.

(** Rows with the same key are the same row. *)
Lemma nodup_key_inj {A B} (key : A → B) l a b :
  NoDup (key <$> l) → a ∈ l → b ∈ l → key a = key b → a = b.
Proof.
  induction l as [|c l IH]; simpl; [by intros _ ?%elem_of_nil|].
  intros [Hc Hl]%NoDup_cons Ha Hb Hk.
  apply elem_of_cons in Ha as [->|Ha], Hb as [->|Hb]; auto;
    destruct Hc; [rewrite Hk|rewrite <- Hk]; by apply list_elem_of_fmap_2.
Qed.

Section theorems.
Variable clock : nat → Z.
Variable fault : nat → option string.
Variable jsonb : json → json.
Variable time_text : Z → string.

(** A listing of shelf rows by their creation time: what the list operations
    promise. *)
Definition lists_newest {A} (get : shelves → list A) (created : A → Z) (row_json : A → json)
    (list : Z → Z → db (json * Z)) : Prop :=
  ∀ limit offset s, let '(r, s') := list limit offset s in
    tabs s' = tabs s ∧
    ∀ j n, r = Ok (j, n) →
    ∃ rows, j = JArr (map row_json (page (clampPagination limit offset).1
                                         (clampPagination limit offset).2 rows)) ∧
      rows ≡ₚ get (shelf (tabs s)) ∧ newest_first created rows ∧
      n = Z.of_nat (length rows).

Lemma list_shelf_newest {A} (get : shelves → list A) created row_json :
  lists_newest get created row_json (list_shelf fault get (later created) row_json).
Proof.
  intros limit offset s. unfold list_shelf, stmt, db_read, mbind, db_bind.
  destruct (clampPagination limit offset) as [l o]. destruct (fault (stmts s)); cbn; [by split|].
  split; [done|]. intros j n [= <- <-].
  exists (order_by (later created) (get (shelf (tabs s)))).
  pose proof (order_by_Permutation (later created) (get (shelf (tabs s)))) as Hp.
  split; [done|]. split; [done|]. split; [apply order_by_sorted|]. by rewrite Hp.
Qed.

(** The listings of sessions, playbooks, runbooks, workflows and snapshots
    change nothing, and answer one page of at most 200 of all the rows ordered
    from the newest to the oldest, with the number of all rows, whosever they
    are: no tenant restricts the query. *)
Theorem listings_newest_first :
  lists_newest sessions ss_created (session_json time_text) (ListSessions fault time_text) ∧
  lists_newest playbooks pb_created (playbook_json time_text) (ListPlaybooks fault time_text) ∧
  lists_newest runbooks rb_created (runbook_json time_text) (ListRunbooks fault time_text) ∧
  lists_newest workflow_catalog wf_created (workflow_json time_text)
    (ListWorkflowCatalog fault time_text) ∧
  lists_newest snapshots sn_at (snapshot_json time_text) (ListContextSnapshots fault time_text) ∧
  (∀ limit offset, (1 ≤ (clampPagination limit offset).1 ≤ 200)%Z).
Proof.
  refine (conj _ (conj _ (conj _ (conj _ (conj _ _))))); try apply list_shelf_newest.
  intros limit offset. pose proof (clamp_bounds limit offset). destruct (clampPagination _ _); simpl; lia.
Qed.

(** ** The service graph *)

Definition in_service (service : string) (n : node_row) : Prop :=
  gn_kind n = "service" ∧ (gn_id n = service ∨ gn_name n = service).

Lemma service_nodes_spec service h k :
  k ∈ service_nodes service h ↔ ∃ n, n ∈ context_nodes h ∧ in_service service n ∧ gn_id n = k.
Proof.
  unfold service_nodes, in_service. rewrite list_elem_of_fmap.
  setoid_rewrite elem_of_List_filter. split.
  - intros (n & -> & Hn & Hb). bool_hyps. apply orb_prop in H0.
    exists n. split; [done|]. split; [|done]. split; [done|].
    destruct H0; bool_hyps; auto.
  - intros (n & Hn & [Hk Hs] & <-). exists n. split; [done|]. split; [done|].
    rewrite Hk. simpl. destruct Hs as [->| ->]; by rewrite String.eqb_refl, ?orb_true_r.
Qed.

(** The graph of a service is what it should be, and closed: its edges are
    exactly the edges at one of the service's nodes, its nodes are exactly those
    nodes and the nodes at the other ends, and both ends of every edge are among
    them. *)
Theorem service_graph_closed service h :
  shelves_ok h →
  (∀ e, e ∈ graph_edges service h ↔ e ∈ context_edges h ∧
     (ge_from e ∈ service_nodes service h ∨ ge_to e ∈ service_nodes service h)) ∧
  (∀ n, n ∈ graph_nodes service h ↔ n ∈ context_nodes h ∧
     (in_service service n ∨
      ∃ e, e ∈ graph_edges service h ∧ (gn_id n = ge_from e ∨ gn_id n = ge_to e))) ∧
  (∀ e, e ∈ graph_edges service h → ge_from e ∈ gn_id <$> graph_nodes service h ∧
                                    ge_to e ∈ gn_id <$> graph_nodes service h).
Proof.
  intros Hok.
  assert (He : ∀ e, e ∈ graph_edges service h ↔ e ∈ context_edges h ∧
    (ge_from e ∈ service_nodes service h ∨ ge_to e ∈ service_nodes service h)).
  { intros e. unfold graph_edges. rewrite elem_of_List_filter, orb_true_iff, !mem_spec. done. }
  assert (Hn : ∀ n, n ∈ graph_nodes service h ↔ n ∈ context_nodes h ∧
    (in_service service n ∨
     ∃ e, e ∈ graph_edges service h ∧ (gn_id n = ge_from e ∨ gn_id n = ge_to e))).
  { intros n. unfold graph_nodes. rewrite elem_of_List_filter, !orb_true_iff, !mem_spec.
    rewrite (list_elem_of_fmap ge_from), (list_elem_of_fmap ge_to).
    apply and_iff_compat_l_dep. intros Hn. split.
    - intros [[(n' & Hn' & Hs & Hid)%service_nodes_spec|(e & -> & He')]|(e & -> & He')]; eauto.
      left. by rewrite <- (nodup_key_inj gn_id _ n' n (ok_nodes _ Hok) Hn' Hn Hid).
    - intros [Hs|(e & He' & [Hid|Hid])]; [left; left; apply service_nodes_spec; eauto|..]; eauto. }
  split; [done|]. split; [done|]. intros e Hin.
  pose proof (proj1 (He e) Hin) as [Hce _].
  destruct (ok_edge_refs _ Hok e Hce) as [(a & Ha & Hina)%list_elem_of_fmap
    (b & Hb & Hinb)%list_elem_of_fmap].
  split; apply list_elem_of_fmap; [exists a|exists b]; (split; [done|]); apply Hn; eauto 6.
Qed.

(** ** Runbook versions *)
Lemma fold_max_ge vs v : (v ≤ fold_left Z.max vs v)%Z ∧ ∀ x, x ∈ vs → (x ≤ fold_left Z.max vs v)%Z.
Proof.
  revert v. induction vs as [|y vs IH]; intros v; simpl; [split; [lia|by intros ? ?%elem_of_nil]|].
  destruct (IH (Z.max v y)) as [H1 H2]. split; [lia|].
  intros x [->|Hx]%elem_of_cons; [lia|by apply H2].
Qed.

Lemma max_version_ge l v : v ∈ l → (v ≤ max_version l)%Z.
Proof.
  destruct l as [|x l]; [by intros ?%elem_of_nil|]. simpl. destruct (fold_max_ge l x) as [H1 H2].
  intros [->|H]%elem_of_cons; auto.
Qed.

(** A runbook that is the same but for its version. *)
Definition same_runbook (a b : runbook_row) : Prop :=
  rb_tenant a = rb_tenant b ∧ rb_service a = rb_service b ∧ rb_name a = rb_name b.

Lemma next_version_spec tenant service name version s :
  let '(r, s') := next_version fault tenant service name version s in
  tabs s' = tabs s ∧
  ∀ v, r = Ok v →
    v = version ∧ (0 < version)%Z ∨
    (version ≤ 0)%Z ∧ ∀ b, b ∈ runbooks (shelf (tabs s)) →
      (rb_tenant b = tenant ∧ rb_service b = service ∧ rb_name b = name) → (rb_version b < v)%Z.
Proof.
  unfold next_version. destruct (Z.leb_spec version 0); [|cbn; split; [done|]; intros v [= <-]; by left].
  unfold stmt, db_read, mbind, db_bind. destruct (fault (stmts s)); cbn; [by split|].
  split; [done|]. intros v [= <-]. right. split; [done|]. intros b Hb (<- & <- & <-).
  apply Z.lt_succ_r, max_version_ge. unfold runbook_versions.
  apply list_elem_of_fmap. exists b. split; [done|]. apply elem_of_List_filter.
  by rewrite !String.eqb_refl.
Qed.

(** What a guarded insert leaves. *)
Lemma insert_unique_spec {A} (clash : A → A → bool) get set row s :
  (∀ f h, get (set f h) = f (get h)) →
  let '(r, s') := insert_unique fault clash get set row s in
  match r with
  | Ok _ => existsb (clash row) (get (shelf (tabs s))) = false ∧
            get (shelf (tabs s')) = get (shelf (tabs s)) ++ [row]
  | Err _ => tabs s' = tabs s
  end.
Proof.
  intros Hset. unfold insert_unique, stmt, db_read, db_check, db_lift, check, db_write, mbind, db_bind.
  destruct (fault (stmts s)); cbn; [done|].
  destruct (existsb _ _) eqn:E; cbn; [done|]. by rewrite Hset.
Qed.

(** Creating a runbook adds one row, of a fresh id, or nothing; a version
    that is given is kept, and without one the row is a new version: above every
    version the same tenant, service and name have; the version fits 32 bits
    either way. *)
Theorem CreateRunbook_versions d s :
  let '(r, s') := CreateRunbook clock fault jsonb d s in
  match r with
  | Ok id => ∃ row v,
      runbooks (shelf (tabs s')) = runbooks (shelf (tabs s)) ++ [row] ∧
      rb_id row = id ∧ (id ∉ rb_id <$> runbooks (shelf (tabs s))) ∧
      (payload_members d ≫= fld_int "version") = Ok v ∧
      ((0 < v)%Z → rb_version row = v) ∧
      ((v ≤ 0)%Z → ∀ b, b ∈ runbooks (shelf (tabs s)) → same_runbook b row →
         (rb_version b < rb_version row)%Z) ∧
      int4 (rb_version row) = true
  | Err _ => tabs s' = tabs s
  end.
Proof.
  unfold CreateRunbook. cbv [mbind db_bind db_lift result_bind].
  destruct (payload_members d) as [fs|e]; [|done].
  destruct (fld_string "tenant_id" fs) as [t|]; [|done].
  destruct (fld_string "service" fs) as [sv|]; [|done].
  destruct (fld_string "name" fs) as [n|]; [|done].
  destruct (fld_int "version" fs) as [v|] eqn:Ev; [|done].
  destruct (fld_raw "tags" fs) as [tg|]; [|done].
  destruct (fld_string "body" fs) as [b|]; [|done].
  destruct (fld_raw "spec" fs) as [sp|]; [|done].
  unfold db_check, db_lift, check. destruct (negb _); cbn [fst snd]; [|done].
  pose proof (next_version_spec (TrimSpace t) (TrimSpace sv) (TrimSpace n) v s) as Hv.
  destruct (next_version _ _ _ _ _ s) as [[ver|e] s1]; destruct Hv as [Ht Hv]; [|done].
  unfold newID, time_now, mbind, db_bind, mret, db_ret. cbn [tabs stmts ticks].
  destruct (int4 ver) eqn:Hi; [|done].
  match goal with |- context [insert_shelf _ _ _ _ ?r ?s0] =>
    pose proof (insert_unique_spec (λ row r0, rb_id r0 =? rb_id row) runbooks set_runbooks r s0
      (λ _ _, eq_refl)) as Hins; set (row := r) in * end.
  unfold insert_shelf. destruct (insert_unique _ _ _ _ row _) as [[[]|e] s2]; cbn in Hins |- *;
    [|by rewrite Hins].
  destruct Hins as [Hfresh Hrows]. rewrite Ht in Hfresh, Hrows.
  exists row, v. split_and!; try done.
  - by apply (clash_key rb_id row).
  - intros Hpos. destruct (Hv _ eq_refl) as [[-> _]|[? _]]; [done|lia].
  - intros Hneg b0 Hb (H1 & H2 & H3). destruct (Hv _ eq_refl) as [[_ ?]|[_ Hlt]]; [lia|].
    by apply Hlt.
Qed.

End theorems.

(** ** The audit log *)

Section audit_log.
Variable fault : nat → option string.
Variable time_text : Z → string.
Variable json_text : json → string.

(** Where an event's tenant is looked for. *)
Definition audit_tenant (tenant : string) (u : audit_row) : Prop :=
  ∃ where_, where_ ∈ [u_context u; jget (u_context u) "context"; jget (u_context u) "labels"] ∧
            jtext json_text where_ "tenant_id" = Some tenant.

Lemma audit_matches_tenant f u :
  audit_matches json_text f u = true → af_TenantID f ≠ "" → audit_tenant (af_TenantID f) u.
Proof.
  unfold audit_matches. intros H Ht. bool_hyps. destruct (String.eqb_spec (af_TenantID f) ""); [done|].
  simpl in H.
  assert (Hx : ∀ v, text_is v (af_TenantID f) = true → v = Some (af_TenantID f)).
  { intros [v|]; simpl; [|done]. by intros ->%String.eqb_eq. }
  rewrite !orb_true_iff in H. unfold audit_tenant.
  destruct H as [[H|H]|H]; apply Hx in H; eexists; (split; [|exact H]); set_solver.
Qed.

(** A listing of the audit log for a tenant changes nothing and shows only
    events of the log that name the tenant, in their context, the context
    reference in it or its labels; at most 200. *)
Theorem audit_listing_scoped f s :
  let '(r, s') := ListAuditEvents fault time_text json_text f s in
  tabs s' = tabs s ∧
  ∀ j n, r = Ok (j, n) →
  ∃ rows, j = JArr (map (audit_json time_text) rows) ∧ (length rows ≤ 200)%nat ∧
    ∀ u, u ∈ rows → u ∈ audits (tabs s) ∧
                    (af_TenantID f ≠ "" → audit_tenant (af_TenantID f) u) ∧
                    (af_Action f ≠ "" → u_action u = af_Action f).
Proof.
  unfold ListAuditEvents. pose proof (clamp_bounds (af_Limit f) (af_Offset f)) as Hb.
  destruct (clampPagination _ _) as [l o]. unfold stmt, db_read, mbind, db_bind.
  destruct (fault (stmts s)); cbn; [by split|]. split; [done|]. intros j n [= <- <-].
  eexists. split; [done|]. split; [etrans; [apply page_length|lia]|].
  intros u Hu%page_in. rewrite order_by_Permutation in Hu. apply elem_of_List_filter in Hu as [Hu Hm].
  split; [done|]. split; [by apply audit_matches_tenant|].
  intros Ha. unfold audit_matches in Hm. bool_hyps.
  destruct (String.eqb_spec (af_Action f) ""); [done|]. by apply String.eqb_eq.
Qed.

(** An event whose context is only a plan's (or an execution's, or a session's)
    id, as those of executing, approving and cancelling are, is in no tenant's
    audit log. *)
Theorem plan_events_have_no_tenant f u k id :
  af_TenantID f ≠ "" → k ≠ "tenant_id" → k ≠ "context" → k ≠ "labels" →
  u_context u = JObj [(k, JStr id)] → audit_matches json_text f u = false.
Proof.
  intros Ht H1 H2 H3 Hu. apply not_true_iff_false. intros H.
  destruct (audit_matches_tenant f u H Ht) as (x & Hx & Hj). rewrite Hu in Hx. simpl in Hx.
  apply String.eqb_neq in H1, H2, H3.
  rewrite H2, H3 in Hx.
  assert (x = JObj [(k, JStr id)] ∨ x = JNull) as [->| ->] by set_solver; [|done].
  unfold jtext in Hj. simpl in Hj. by rewrite H1 in Hj.
Qed.
End audit_log.

(** ** Witnesses *)

Definition demo_shelves : shelves :=
  mkShelves [] [] [] [] [] []
    [mkNodeRow "a" "service" "web" JNull None; mkNodeRow "b" "host" "h1" JNull None;
     mkNodeRow "c" "host" "h2" JNull None]
    [mkEdgeRow "e1" "a" "b" "runs_on"; mkEdgeRow "e2" "c" "c" "self"] [].

Lemma demo_shelves_ok : shelves_ok demo_shelves.
Proof.
  split; simpl; try apply NoDup_nil_2; try (by intros ? ?%elem_of_nil);
    try (repeat (apply NoDup_cons; split; [set_solver|]); apply NoDup_nil_2).
  intros e He. assert (e = mkEdgeRow "e1" "a" "b" "runs_on" ∨ e = mkEdgeRow "e2" "c" "c" "self")
    as [->| ->] by set_solver; simpl; set_solver.
Qed.

Lemma service_graph_closed_witness :
  map gn_id (graph_nodes "web" demo_shelves) = ["a"; "b"] ∧
  ∀ e, e ∈ graph_edges "web" demo_shelves → ge_to e ∈ gn_id <$> graph_nodes "web" demo_shelves.
Proof.
  split; [reflexivity|]. intros e He.
  destruct (service_graph_closed "web" demo_shelves demo_shelves_ok) as (_ & _ & H).
  apply (H e He).
Defined.

Lemma plan_events_have_no_tenant_witness :
  audit_matches (λ _, "") (mkFilter "acme" zero_time zero_time "" "" "" 0 0)
    (mkAudit "audit_1" 5 (JObj []) "plan.execute" "deny" (JObj [("plan_id", JStr "plan_1")])
       (JArr []) "") = false.
Proof. by apply (plan_events_have_no_tenant (λ _, "") _ _ "plan_id" "plan_1"). Defined.

(** The catalogue's unique index knows no tenants: a version one tenant has
    created cannot be created by another. *)
Theorem workflow_versions_are_global :
  let payload tenant := doc_json (JObj [("tenant_id", JStr tenant); ("name", JStr "deploy");
                                        ("version", JNum "1"); ("spec", JObj [])]) in
  let create tenant := CreateWorkflowCatalog tick_clock no_fault same_json (payload tenant) in
  let '(first, s) := create "acme" empty_store in
  let '(second, s) := create "globex" s in
  first = Ok "workflow_0" ∧ second = Err duplicate_key ∧
  map wf_tenant (workflow_catalog (shelf (tabs s))) = [Some "acme"].
Proof. vm_compute. auto. Qed.
