(* ===== verification/EventGate.v ===== *)
(** * EventGate: which webhook events reach the event loop

    EventGate of internal/web/event_gate.go and UpsertEventGate with its table
    (internal/db/event_gates.go, migrations/0014_event_gates.sql).

    Times and durations are nanoseconds. *)

From S2P Require Import Prelude GoStrings Json Digest ContextRef Store.

Local Open Scope string_scope.
Local Open Scope list_scope.

(** A row of event_gates; EventGateState has the same fields. *)
Record EventGateState := mkGate {
  FirstSeen : Z; LastSeen : Z; Count : Z; SuppressedUntil : option Z }.

Record gates := mkGates { rows : gmap (string * string) EventGateState; gate_stmts : nat }.
Definition no_gates : gates := mkGates ∅ 0.

Section gate.
Variable fault : nat → option string.
(** time.Now, for a caller that gives no time. *)
Variable now_default : Z.

(** A statement fails, or does [f] to the rows. *)
Definition gate_stmt (f : gmap (string * string) EventGateState → gmap (string * string) EventGateState)
    (g : gates) : result unit * gates :=
  match fault (gate_stmts g) with
  | Some e => (Err e, mkGates (rows g) (S (gate_stmts g)))
  | None => (Ok tt, mkGates (f (rows g)) (S (gate_stmts g)))
  end.

(** The suppression an allowed event starts. *)
Definition suppression (allowed : bool) (backoff now : Z) (keep : option Z) : option Z :=
  if allowed && (0 <? backoff)%Z then Some (now + backoff)%Z else keep.

(** An event outside a suppression: the window restarts when it has passed, and
    the event is allowed when enough were seen. *)
Definition next_open (st : EventGateState) (now window backoff minCount : Z) :
    bool * EventGateState :=
  let st := if (0 <? window)%Z && (window <? now - FirstSeen st)%Z
            then mkGate now (LastSeen st) 0 None else st in
  let allowed := (minCount <=? 1)%Z || (minCount <=? Count st + 1)%Z in
  (allowed, mkGate (FirstSeen st) now (Count st + 1)
              (suppression allowed backoff now (SuppressedUntil st))).

Definition suppressed (st : EventGateState) (now : Z) : bool :=
  match SuppressedUntil st with Some until => (now <? until)%Z | None => false end.

(** Whether an event is allowed, the state returned, and what is written over the
    row: a suppressed event leaves two columns as they are, and NULL ends a
    suppression unless the event starts one. *)
Definition next_gate (row : option EventGateState) (now window backoff minCount : Z) :
    bool * EventGateState * (EventGateState → EventGateState) :=
  match row with
  | None =>
      let allowed := (minCount <=? 1)%Z in
      let st := mkGate now now 1 (suppression allowed backoff now None) in
      (allowed, st, λ _, st)
  | Some st =>
      if suppressed st now then
        (false, mkGate (FirstSeen st) now (Count st + 1) (SuppressedUntil st),
         λ cur, mkGate (FirstSeen cur) now (Count st + 1) (SuppressedUntil cur))
      else
        let '(allowed, st') := next_open st now window backoff minCount in
        (allowed, st',
         λ _, mkGate (FirstSeen st') now (Count st') (suppression allowed backoff now None))
  end.

(** SELECT, then INSERT or UPDATE: two statements, no transaction.  An INSERT of
    a key another request inserted in between fails; an UPDATE overwrites. *)
Definition select_gate (source fingerprint : string) (g : gates) :
    result (option EventGateState) * gates :=
  match gate_stmt (λ r, r) g with
  | (Err e, g') => (Err e, g')
  | (Ok _, g') => (Ok (rows g' !! (source, fingerprint)), g')
  end.

Definition write_gate (source fingerprint : string) (row : option EventGateState)
    (write : EventGateState → EventGateState) (st : EventGateState) (g : gates) :
    result unit * gates :=
  match row with
  | Some _ => gate_stmt (alter write (source, fingerprint)) g
  | None =>
      match gate_stmt (λ r, r) g, rows g !! (source, fingerprint) with
      | (Err e, g'), _ => (Err e, g')
      | (Ok _, g'), Some _ => (Err duplicate_key, g')
      | (Ok _, g'), None => (Ok tt, mkGates (<[(source, fingerprint) := st]> (rows g')) (gate_stmts g'))
      end
  end.

Definition UpsertEventGate (source fingerprint : string) (now window backoff minCount : Z) (g : gates)
    : result (bool * EventGateState) * gates :=
  let source := TrimSpace source in
  let fingerprint := TrimSpace fingerprint in
  if (source =? "") || (fingerprint =? "") then (Err "source and fingerprint required", g)
  else
    let now := if (now =? zero_time)%Z then now_default else now in
    match select_gate source fingerprint g with
    | (Err e, g1) => (Err e, g1)
    | (Ok row, g1) =>
        let '(allowed, st, write) := next_gate row now window backoff minCount in
        match write_gate source fingerprint row write st g1 with
        | (Err e, g2) => (Err e, g2)
        | (Ok _, g2) => (Ok (allowed, st), g2)
        end
    end.
End gate.

(** ** The gate *)

Record EventGate := mkEventGate {
  gt_Store : bool;                     (* g.Store != nil *)
  gt_Backoff : Z; gt_Window : Z; gt_MinCount : Z; AllowSeverities : list string }.

Definition hashEvent (source : string)
    (payload : gmap string any) : string :=
  sha256_hex (source +:+ ":" +:+ match marshal (AMap payload) with
                                 | Ok data => print_json data | Err _ => "" end).

Definition severity_allowed (allow : list string) (payload : gmap string any) : bool :=
  match allow with
  | [] => true
  | _ => let sev := ToLower (TrimSpace (extractAlertSeverity payload)) in
         negb (sev =? "") && existsb (λ s, EqualFold (TrimSpace s) sev) allow
  end.

(** Whether the event goes on, and its fingerprint; no gate lets everything
    through. *)
Definition Accept (fault : nat → option string) (gate : option EventGate) (source : string) (payload : gmap string any) (now : Z) (g : gates) :
    result bool * string * gates :=
  match gate with
  | None => (Ok true, "", g)
  | Some gate =>
      if negb (gt_Store gate) then (Ok true, "", g)
      else if negb (severity_allowed (AllowSeverities gate) payload) then (Ok false, "", g)
      else
        let fingerprint := hashEvent source payload in
        let '(r, g') := UpsertEventGate fault now source fingerprint now (gt_Window gate)
                          (gt_Backoff gate) (gt_MinCount gate) g in
        (fst <$> r, fingerprint, g')
  end.

(** ** Events in a row *)

Record gate_event := mkGateEvent { e_source : string; e_fingerprint : string; e_now : Z }.

Section run.
Variable fault : nat → option string.
Variable now_default : Z.
Variables window backoff minCount : Z.
Hypothesis fault_none : ∀ n, fault n = None.

Definition e_key (e : gate_event) : string * string :=
  (TrimSpace (e_source e), TrimSpace (e_fingerprint e)).
Definition e_time (e : gate_event) : Z :=
  if (e_now e =? zero_time)%Z then now_default else e_now e.

Definition event_step (e : gate_event) (g : gates) : result (bool * EventGateState) * gates :=
  UpsertEventGate fault now_default (e_source e) (e_fingerprint e) (e_now e) window backoff minCount g.

Definition run_gate (evs : list gate_event) (g : gates) : gates :=
  fold_left (λ g e, (event_step e g).2) evs g.

(** The row an event leaves. *)
Definition new_row (row : option EventGateState) (now : Z) : EventGateState :=
  let '(_, st, write) := next_gate row now window backoff minCount in
  match row with None => st | Some cur => write cur end.

Definition identified (e : gate_event) : bool :=
  negb (((e_key e).1 =? "") || ((e_key e).2 =? "")).

Lemma event_step_rows e g :
  identified e = true →
  (event_step e g).1 = Ok (next_gate (rows g !! e_key e) (e_time e) window backoff minCount).1 ∧
  rows (event_step e g).2 = <[e_key e := new_row (rows g !! e_key e) (e_time e)]> (rows g).
Proof.
  unfold identified, event_step, UpsertEventGate, new_row, select_gate, write_gate, gate_stmt.
  simpl. intros ->%negb_true_iff. rewrite fault_none. simpl. fold (e_time e).
  change (TrimSpace (e_source e), TrimSpace (e_fingerprint e)) with (e_key e).
  destruct (rows g !! e_key e) as [cur|] eqn:E.
  - destruct (next_gate (Some cur) _ _ _ _) as [[allowed st] write]. simpl.
    rewrite fault_none. simpl. split; [done|].
    apply map_eq. intros k. destruct (decide (k = e_key e)) as [->|].
    + by rewrite lookup_alter_eq, E, lookup_insert_eq.
    + by rewrite lookup_alter_ne, lookup_insert_ne by done.
  - destruct (next_gate None _ _ _ _) as [[allowed st] write]. simpl.
    rewrite fault_none. simpl. by rewrite ?E.
Qed.

Lemma event_step_none e g : identified e = false → event_step e g = (Err "source and fingerprint required", g).
Proof. unfold identified, event_step, UpsertEventGate. simpl. by intros ->%negb_false_iff. Qed.

(** *** Suppression *)

Definition until_is (k : string * string) (u : Z) (g : gates) : Prop :=
  ∃ row, rows g !! k = Some row ∧ SuppressedUntil row = Some u.

Lemma until_kept k u e g : until_is k u g → (e_time e < u)%Z → until_is k u (event_step e g).2.
Proof.
  intros (row & Hrow & Hu) Ht. destruct (identified e) eqn:Hid.
  2: { rewrite event_step_none by done. by exists row. }
  destruct (event_step_rows e g Hid) as [_ Hr]. unfold until_is. rewrite Hr.
  destruct (decide (e_key e = k)) as [<-|].
  - rewrite lookup_insert_eq, Hrow. eexists. split; [done|].
    unfold new_row, next_gate, suppressed. rewrite Hu.
    by rewrite (proj2 (Z.ltb_lt _ _) Ht).
  - rewrite lookup_insert_ne by done. by exists row.
Qed.

Lemma until_run k u evs g :
  until_is k u g → Forall (λ e, (e_time e < u)%Z) evs → until_is k u (run_gate evs g).
Proof.
  intros H Hall. revert g H. induction Hall as [|e evs He _ IH]; intros g H; [done|].
  simpl. apply IH. by apply until_kept.
Qed.

Lemma allowed_starts e g st g' :
  (0 < backoff)%Z → event_step e g = (Ok (true, st), g') →
  until_is (e_key e) (e_time e + backoff) g'.
Proof.
  intros Hb Hstep. destruct (identified e) eqn:Hid.
  2: { by rewrite event_step_none in Hstep. }
  destruct (event_step_rows e g Hid) as [Ho Hr]. rewrite Hstep in Ho, Hr. simpl in *.
  exists (new_row (rows g !! e_key e) (e_time e)). rewrite Hr. split; [apply lookup_insert_eq|].
  injection Ho as Ho. unfold new_row, next_gate, suppression in *.
  apply Z.ltb_lt in Hb. destruct (rows g !! e_key e) as [cur|].
  - destruct (suppressed cur _); [done|]. unfold next_open, suppression in *. simpl in *.
    injection Ho as <- _. by rewrite Hb.
  - injection Ho as <- _. simpl. by rewrite Hb.
Qed.

(** An event that goes through silences its like: with a back-off, no event of
    the same source and fingerprint is allowed until the back-off has passed,
    whatever other events come in between. *)
Theorem gate_suppresses e g st g' evs e' :
  (0 < backoff)%Z →
  event_step e g = (Ok (true, st), g') →
  Forall (λ x, e_time x < e_time e + backoff)%Z evs →
  e_key e' = e_key e → (e_time e' < e_time e + backoff)%Z →
  ∃ st', (event_step e' (run_gate evs g')).1 = Ok (false, st').
Proof.
  intros Hb Hstep Hevs Hk Ht.
  pose proof (until_run _ _ _ _ (allowed_starts _ _ _ _ Hb Hstep) Hevs) as (row & Hrow & Hu).
  assert (Hid : identified e' = true).
  { destruct (identified e) eqn:Hid; [by unfold identified in *; rewrite Hk|].
    by rewrite event_step_none in Hstep. }
  destruct (event_step_rows e' (run_gate evs g') Hid) as [-> _].
  rewrite Hk, Hrow. unfold next_gate, suppressed. rewrite Hu, (proj2 (Z.ltb_lt _ _) Ht).
  by eexists.
Qed.

(** *** The threshold *)

(** The events of [k] from the time [from] on. *)
Definition seen_since (k : string * string) (from : Z) (evs : list gate_event) : nat :=
  length (List.filter (λ e, bool_decide (e_key e = k) && (from <=? e_time e)%Z) evs).

Lemma seen_since_snoc k from evs e :
  seen_since k from (evs ++ [e]) =
  (seen_since k from evs + if bool_decide (e_key e = k) && (from <=? e_time e)%Z then 1 else 0)%nat.
Proof. unfold seen_since. rewrite List.filter_app, length_app. simpl. by case_match. Qed.

Definition counts_ok (evs : list gate_event) (g : gates) : Prop :=
  ∀ k row, rows g !! k = Some row →
    (Count row ≤ Z.of_nat (seen_since k (FirstSeen row) evs))%Z ∧
    (∃ e, e ∈ evs ∧ e_time e = FirstSeen row).

(** Every event is at or after all those before it. *)
Fixpoint monotone (evs : list gate_event) : Prop :=
  match evs with
  | [] => True
  | e :: rest => Forall (λ e', e_time e ≤ e_time e')%Z rest ∧ monotone rest
  end.

Lemma monotone_snoc evs e :
  monotone (evs ++ [e]) → monotone evs ∧ Forall (λ x, e_time x ≤ e_time e)%Z evs.
Proof.
  induction evs as [|x evs IH]; simpl; [done|]. intros [Hx Hm].
  apply Forall_app in Hx as [Hx1 Hx2]. apply IH in Hm as [? ?].
  split; [done|]. constructor; [by inversion Hx2|done].
Qed.

(** The next row counts the event, from its own first one. *)
Lemma new_row_counts row now :
  let st := new_row row now in
  (FirstSeen st = now ∧ Count st = 1)%Z ∨
  ∃ cur, row = Some cur ∧ FirstSeen st = FirstSeen cur ∧ (Count st = Count cur + 1)%Z.
Proof.
  unfold new_row, next_gate, next_open. destruct row as [cur|]; simpl; [|by left].
  destruct (suppressed cur now); simpl; [right; by eexists|].
  destruct (_ && _); simpl; [by left|right; by eexists].
Qed.

Lemma counts_step evs e g :
  counts_ok evs g → Forall (λ x, e_time x ≤ e_time e)%Z evs →
  counts_ok (evs ++ [e]) (event_step e g).2.
Proof.
  intros Hok Hle. assert (Hgrow : counts_ok (evs ++ [e]) g).
  { intros k row Hrow. destruct (Hok k row Hrow) as [Hc (x & Hx & Hxt)]. rewrite seen_since_snoc.
    split; [lia|]. exists x. split; [|done]. apply elem_of_app. by left. }
  destruct (identified e) eqn:Hid; [|by rewrite event_step_none].
  destruct (event_step_rows e g Hid) as [_ Hr]. intros k row. rewrite Hr.
  destruct (decide (e_key e = k)) as [<-|Hne]; [rewrite lookup_insert_eq|rewrite lookup_insert_ne by done; apply Hgrow].
  intros [= <-].
  assert (Hfirst : ∀ cur, rows g !! e_key e = Some cur → (FirstSeen cur ≤ e_time e)%Z).
  { intros cur Hcur. destruct (Hok _ _ Hcur) as [_ (x & Hx & <-)].
    rewrite Forall_forall in Hle. by apply Hle. }
  rewrite seen_since_snoc, bool_decide_eq_true_2 by done. simpl.
  destruct (new_row_counts (rows g !! e_key e) (e_time e)) as [[-> ->]|(cur & Hcur & Hf & ->)].
  - rewrite Z.leb_refl. split; [lia|]. exists e. split; [|done]. apply elem_of_app. right. by left.
  - rewrite Hf, (proj2 (Z.leb_le _ _) (Hfirst _ Hcur)).
    destruct (Hok _ _ Hcur) as [Hc (x & Hx & Hxt)]. split; [lia|].
    exists x. split; [|done]. apply elem_of_app. by left.
Qed.

Lemma run_gate_snoc evs e g : run_gate (evs ++ [e]) g = (event_step e (run_gate evs g)).2.
Proof. unfold run_gate. by rewrite fold_left_app. Qed.

Lemma counts_run evs : monotone evs → counts_ok evs (run_gate evs no_gates).
Proof.
  induction evs as [|e evs IH] using rev_ind.
  - intros _ k row. cbn. by rewrite lookup_empty.
  - intros [Hm Hle]%monotone_snoc. rewrite run_gate_snoc. by apply counts_step; [apply IH|].
Qed.

(** The threshold: starting from an empty table and with a clock that does not
    go back, an event is allowed only when at least [minCount] events of its
    source and fingerprint, itself included, were received since some moment that
    is no further back than the window. *)
Theorem gate_threshold evs e st g' :
  monotone (evs ++ [e]) →
  event_step e (run_gate evs no_gates) = (Ok (true, st), g') →
  (minCount ≤ 1)%Z ∨
  ∃ from, (0 < window → e_time e - from ≤ window)%Z ∧
    (minCount ≤ Z.of_nat (seen_since (e_key e) from (evs ++ [e])))%Z.
Proof.
  intros Hm Hstep. destruct (Z.le_gt_cases minCount 1) as [|Hmin]; [by left|right].
  destruct (monotone_snoc _ _ Hm) as [Hm' _].
  pose proof (counts_run _ Hm) as Hok. rewrite run_gate_snoc, Hstep in Hok. simpl in Hok.
  destruct (identified e) eqn:Hid; [|by rewrite event_step_none in Hstep].
  destruct (event_step_rows e (run_gate evs no_gates) Hid) as [Ho Hr].
  rewrite Hstep in Ho, Hr. simpl in Ho, Hr.
  destruct (Hok (e_key e) (new_row (rows (run_gate evs no_gates) !! e_key e) (e_time e))) as [Hc _].
  { rewrite Hr. apply lookup_insert_eq. }
  injection Ho as Ho. revert Ho Hc. clear -Hmin. unfold new_row, next_gate.
  destruct (rows _ !! e_key e) as [cur|]; simpl.
  - destruct (suppressed cur _); [done|]. unfold next_open. simpl.
    intros [= Ha _] Hc. eexists. split; [|etrans; [|exact Hc]].
    + intros Hw. destruct (Z.ltb_spec 0 window), (Z.ltb_spec window (e_time e - FirstSeen cur));
        simpl; lia.
    + symmetry in Ha. apply orb_prop in Ha as [Ha|Ha]; bool_hyps; lia.
  - intros [= Ha _]. symmetry in Ha. bool_hyps. lia.
Qed.
End run.

(** ** Witnesses *)

Definition alert_at (now : Z) : gate_event := mkGateEvent "alertmanager" "f" now.

Lemma gate_suppresses_witness :
  let fault := λ _, None in
  let '(r, g) := event_step fault 0 0 100 1 (alert_at 5) no_gates in
  is_ok r = true ∧
  ∃ st', (event_step fault 0 0 100 1 (alert_at 104) (run_gate fault 0 0 100 1 [alert_at 50] g)).1
         = Ok (false, st').
Proof.
  split; [vm_compute; reflexivity|].
  refine (gate_suppresses _ 0 0 100 1 (λ _, eq_refl) (alert_at 5) no_gates _ _ [alert_at 50]
    (alert_at 104) _ eq_refl _ eq_refl _); [lia| |vm_compute; reflexivity].
  constructor; [vm_compute; reflexivity|constructor].
Defined.

Lemma gate_threshold_witness :
  let fault := λ _, None in
  let evs := [alert_at 5; alert_at 6] in
  is_ok (event_step fault 0 50 100 3 (alert_at 7) (run_gate fault 0 50 100 3 evs no_gates)).1 = true ∧
  ∃ from, (0 < 50 → 7 - from ≤ 50)%Z ∧
    (3 ≤ Z.of_nat (seen_since 0 ("alertmanager", "f") from (evs ++ [alert_at 7])))%Z.
Proof.
  split; [reflexivity|].
  destruct (gate_threshold _ 0 50 100 3 (λ _, eq_refl) [alert_at 5; alert_at 6] (alert_at 7)
    _ _ ltac:(repeat constructor; vm_compute; discriminate) eq_refl) as [H|H]; [lia|exact H].
Defined.

(** The gate's read and write are separate statements: of two equal events
    that are both read before either is written, both are allowed when the row
    exists, and when it does not the second fails with a duplicate key. *)
Theorem gate_races :
  let race row g :=
    let '(_, st, write) := next_gate row 200 0 100 1 in
    let '(first, g) := write_gate no_fault "s" "f" row write st g in
    let '(second, g) := write_gate no_fault "s" "f" row write st g in
    ((next_gate row 200 0 100 1).1.1, first, second) in
  race (Some (mkGate 5 5 1 (Some 105%Z)))
    (mkGates {[("s", "f") := mkGate 5 5 1 (Some 105%Z)]} 0) = (true, Ok tt, Ok tt) ∧
  race None no_gates = (true, Ok tt, Err duplicate_key).
Proof. vm_compute. auto. Qed.
