(* ===== verification/Gateway.v ===== *)
(** * Gateway: the server's state, its database interface and shared helpers

    internal/web/http.go's Server and DBWriter (with the optional interfaces the
    handlers assert on it), session.go, approvals_helpers.go, read_policy.go and
    the helpers every handler uses.

    The handlers are proved against the interface [GatewayDB]; [FrameDB] is what
    they need to know of an implementation, and the store satisfies it. *)

From S2P Require Import Prelude GoStrings Json Digest ContextRef Steps Policy Constraints Hubs Http.
From S2P Require Import Shelves Store EventGate.

Local Open Scope string_scope.
Local Open Scope list_scope.

(** ** The database interface *)

(** DBWriter; an optional interface the database may not implement is an
    [option]. *)
Class GatewayDB (S : Type) := {
  db_CreatePlan : json → S → result string * S;
  db_GetPlan : string → S → result (option json) * S;
  db_ListPlans : Z → Z → S → result (json * Z) * S;
  db_DeletePlan : string → S → result unit * S;
  db_CreateExecution : string → S → result string * S;
  db_GetExecution : string → S → result (option json) * S;
  db_ListExecutions : Z → Z → S → result (json * Z) * S;
  db_CancelExecution : string → S → result unit * S;
  db_CreateApproval : string → S → result string * S;
  db_UpdateApprovalStatusByPlan : string → string → S → result unit * S;
  db_CreateSchedule : json → S → result string * S;
  db_ListSchedules : Z → Z → S → result (json * Z) * S;
  db_DeleteSchedule : string → S → result unit * S;
  (* ExecutionWorkflowUpdater, ActiveExecutionChecker, PlanDetailsProvider *)
  db_UpdateExecutionWorkflowID : option (string → string → S → result unit * S);
  db_HasActiveExecution : option (string → S → result bool * S);
  db_ListPlanSteps : option (string → S → result json * S);
  db_ListApprovalsByPlan : option (string → S → result json * S);
  (* ApprovalStatusReader, ApprovalTokenReader, ApprovalHashWriter, ApprovalHashReader *)
  db_GetApprovalStatus : option (string → S → result string * S);
  db_GetApprovalStatusByToken : option (string → string → S → result string * S);
  db_SetApprovalHash : option (string → string → S → result unit * S);
  db_GetApprovalHash : option (string → S → result string * S);
  (* SessionMemberChecker, AuditWriter *)
  db_IsSessionMember : option (string → string → S → result bool * S);
  db_InsertAuditEvent : option (doc → S → result string * S) }.

(** *** What the handlers rely on

    A view of the database's state that the read operations and the audit log
    leave as it is, and one that creating plans and deciding approvals leave as
    it is too. *)

Definition unchanged {S E A} (view : S → E) (f : S → A * S) : Prop :=
  ∀ s, view (f s).2 = view s.
Definition opt_unchanged {S E A B} (view : S → E) (f : option (A → S → B * S)) : Prop :=
  match f with Some f => ∀ a, unchanged view (f a) | None => True end.
Definition opt_unchanged2 {S E A B C} (view : S → E) (f : option (A → B → S → C * S)) : Prop :=
  match f with Some f => ∀ a b, unchanged view (f a b) | None => True end.

Class ReadFrame {S E : Type} `{!GatewayDB S} (view : S → E) : Prop := {
  frame_GetPlan p : unchanged view (db_GetPlan p);
  frame_HasActive : opt_unchanged view db_HasActiveExecution;
  frame_ListPlanSteps : opt_unchanged view db_ListPlanSteps;
  frame_ApprovalStatus : opt_unchanged view db_GetApprovalStatus;
  frame_ApprovalToken : opt_unchanged2 view db_GetApprovalStatusByToken;
  frame_GetHash : opt_unchanged view db_GetApprovalHash;
  frame_Session : opt_unchanged2 view db_IsSessionMember;
  frame_Audit : opt_unchanged view db_InsertAuditEvent }.

Class WriteFrame {S E : Type} `{!GatewayDB S} (view : S → E) : Prop := {
  write_reads :: ReadFrame view;
  frame_CreatePlan j : unchanged view (db_CreatePlan j);
  frame_CreateApproval p : unchanged view (db_CreateApproval p);
  frame_UpdateApproval p st : unchanged view (db_UpdateApprovalStatusByPlan p st);
  frame_SetHash : opt_unchanged2 view db_SetApprovalHash }.

(** The executions in a view: their ids, plans and statuses. *)
Class ExecView {S E : Type} `{!GatewayDB S} (view : S → E)
    (execs : E → list (string * string * string)) : Prop := {
  exec_reads :: ReadFrame view;
  exec_create p s :
    let '(r, s') := db_CreateExecution p s in
    execs (view s') = match r with
                      | Ok id => execs (view s) ++ [(id, p, "pending")]
                      | Err _ => execs (view s)
                      end;
  exec_workflow : match db_UpdateExecutionWorkflowID with
                  | Some f => ∀ x wf s, execs (view (f x wf s).2) = execs (view s)
                  | None => True
                  end }.

(** *** The store implements the interface *)

Section implementation.
Variable clock : nat → Z.
Variable fault : nat → option string.
Variable jsonb : json → json.
Variable pick : list approval_row → option approval_row.
Variable time_text : Z → string.
Variable time_parse : string → result Z.

Definition store_db : GatewayDB store := {|
  db_CreatePlan := CreatePlan clock fault jsonb;
  db_GetPlan := GetPlan fault time_text;
  db_ListPlans := ListPlans fault pick time_text;
  db_DeletePlan := DeletePlan fault;
  db_CreateExecution := CreateExecution clock fault;
  db_GetExecution := GetExecution fault time_text;
  db_ListExecutions := ListExecutions fault time_text;
  db_CancelExecution := CancelExecution clock fault;
  db_CreateApproval := CreateApproval clock fault;
  db_UpdateApprovalStatusByPlan := UpdateApprovalStatusByPlan fault;
  db_CreateSchedule := CreateSchedule clock fault jsonb;
  db_ListSchedules := ListSchedules fault time_text;
  db_DeleteSchedule := DeleteSchedule fault;
  db_UpdateExecutionWorkflowID := Some (UpdateExecutionWorkflowID fault);
  db_HasActiveExecution := Some (HasActiveExecution fault);
  db_ListPlanSteps := Some (ListPlanSteps fault);
  db_ListApprovalsByPlan := Some (ListApprovalsByPlan fault);
  db_GetApprovalStatus := Some (GetApprovalStatus fault pick);
  db_GetApprovalStatusByToken := Some (GetApprovalStatusByToken fault);
  db_SetApprovalHash := Some (SetApprovalHash fault);
  db_GetApprovalHash := Some (GetApprovalHash fault pick);
  db_IsSessionMember := Some (IsSessionMember fault);
  db_InsertAuditEvent := Some (InsertAuditEvent clock fault jsonb time_parse) |}.

(** The tables the audit log is not part of, and the executions. *)
Definition core (t : tables) : tables := set_audits (λ _, []) t.
Definition core_of (s : store) : tables := core (tabs s).
Definition executions_of (s : store) : list exec_row := executions (tabs s).

Lemma keeps_unchanged {V A} (view : tables → V) (m : db A) :
  db_rel (keeps view) m → unchanged (λ s, view (tabs s)) m.
Proof. intros H s. apply (H s). Qed.

#[local] Existing Instance store_db.

Lemma store_reads {V} (view : tables → V) :
  (∀ f t, view (set_audits f t) = view t) → ReadFrame (λ s, view (tabs s)).
Proof.
  intros Hv. split; simpl; intros; apply keeps_unchanged; auto using audit_keeps;
    unfold GetPlan, HasActiveExecution, ListPlanSteps, GetApprovalStatus, GetApprovalHash,
      pick_approval, GetApprovalStatusByToken, IsSessionMember; frame.
Qed.

Lemma store_core : ReadFrame core_of.
Proof. by apply (store_reads core). Qed.

Definition exec_triple (x : exec_row) : string * string * string := (x_id x, x_plan x, x_status x).
Definition exec_triples (t : tables) : list (string * string * string) :=
  map exec_triple (executions t).

Lemma store_exec_view : ExecView core_of exec_triples.
Proof.
  split; [apply store_core| |].
  - intros p s. simpl. unfold CreateExecution, newID, time_now, stmt, db_read, db_check, db_lift,
      check, db_write, references_plan, mbind, db_bind, mret, db_ret. cbn.
    destruct (fault _); cbn; [done|]. destruct (existsb _ _); cbn; [done|].
    case_bool_decide; cbn; [|done].
    unfold core_of, exec_triples. simpl. by rewrite map_app.
  - intros x wf s. simpl. unfold UpdateExecutionWorkflowID, stmt, db_write, mbind, db_bind. cbn.
    destruct (fault (stmts s)); simpl; [done|]. unfold core_of, exec_triples, update_where. simpl.
    rewrite map_map. apply map_ext. intros a. by case_match.
Qed.

Lemma store_executions : WriteFrame executions_of.
Proof.
  destruct (approvals_ops_keep clock fault executions (λ _ _, eq_refl))
    as (Hca & _ & Hua & Hsh).
  split; [by apply (store_reads executions)|..]; simpl; intros;
    apply (keeps_unchanged executions); auto using CreatePlan_keeps.
Qed.
End implementation.

(** ** The server *)

Record Event := mkEvent {
  ev_Event : string; ev_Data : any; ev_TS : Z; ev_SessionID : string }.

(** Calls out of the gateway. *)
Inductive out_event :=
| IssueCreated (planID : string)                                  (* ApprovalCreator *)
| Started (planID execID : string) (ctx : ContextRef) (steps : list PlanStep)  (* Executor *)
| Planned (intent : string).                                      (* Planner *)

Record gateway (S : Type) := mkGateway {
  g_db : S; g_gates : gates; g_ticks : nat; g_hub : hub Event; g_out : list out_event }.
Arguments mkGateway {S}.
Arguments g_db {S}.
Arguments g_gates {S}.
Arguments g_ticks {S}.
Arguments g_hub {S}.
Arguments g_out {S}.

Definition with_db {S} (s : S) (w : gateway S) : gateway S :=
  mkGateway s (g_gates w) (g_ticks w) (g_hub w) (g_out w).

(** The configuration and collaborators of a server, and its environment: the
    clock and how timestamps are written. *)
Record Server := mkServer_ {
  sv_DB : bool;                                  (* s.DB != nil *)
  sv_Policy : option Checker;
  sv_Approvals : option (list out_event → string → result string);
  sv_Executor : option (list out_event → string → string → result string);
  sv_Planner : option (list out_event → string → any → list DiagnosticEvidence → result string);
  sv_Diagnostics : option (list out_event → ContextRef → string → any →
                           result (list DiagnosticEvidence));
  sv_Context : option (list out_event → string → result ServiceGraph);
  sv_EventGate : option EventGate;
  sv_AutoApproveLow : bool;
  sv_SessionRequired : bool;
  sv_EnableEventLoop : bool;
  sv_EventLoopSources : list string;
  sv_clock : nat → Z;
  sv_rfc3339 : Z → string;
  sv_zones : string → option Constraints.zone }.

(** A request and who makes it. *)
Record call_ctx := mkCall_ { cc_req : Request; cc_actor : option Actor }.

Section helpers.
Context {S : Type} `{!GatewayDB S}.
Variable sv : Server.
Variable cc : call_ctx.

Notation world := (gateway S).

Section steps.
Context {R : Type}.

(** A database operation, and the answer whatever it is. *)
Definition on_db {A} (f : S → A * S) : handler world R A :=
  call (λ w, let '(a, s) := f (g_db w) in (a, with_db s w)).

Definition now_ : handler world R Z :=
  call (λ w, (sv_clock sv (g_ticks w),
              mkGateway (g_db w) (g_gates w) (Datatypes.S (g_ticks w)) (g_hub w) (g_out w))).

(** A call to a collaborator, recorded as made. *)
Definition outward {A} (e : out_event) (f : list out_event → A) : handler world R A :=
  call (λ w, (f (g_out w), mkGateway (g_db w) (g_gates w) (g_ticks w) (g_hub w) (g_out w ++ [e]))).

Definition emit_event (event : string) (data : any) (sessionID : string) :
    handler world R unit :=
  t ← now_;
  effect (λ w, mkGateway (g_db w) (g_gates w) (g_ticks w)
    (Publish (mkEvent event data t sessionID) sessionID (g_hub w)) (g_out w)).

(** The failure to marshal or to insert is ignored. *)
Definition auditEvent (action decision : string) (ctxRef : any) (note : string) :
    handler world R unit :=
  match db_InsertAuditEvent with
  | None => mret tt
  | Some insert =>
      t ← now_;
      let payload := AMap (amap
        ([("occurred_at", AStr (sv_rfc3339 sv t));
          ("actor", actor_any (default no_actor (cc_actor cc)));
          ("action", AStr action); ("decision", AStr decision); ("context", ctxRef)] ++
         (if note =? "" then [] else [("note", AStr note)]))) in
      match marshal payload with
      | Err _ => mret tt
      | Ok data => _ ← on_db (insert (doc_json data)); mret tt
      end
  end.

Definition gateway_policy (actionName actionType : string) (ctxRef : ContextRef) (risk : string)
    (targets : Z) : handler world R (result PolicyDecision) :=
  t ← now_;
  mret (policyDecision (sv_Policy sv)
    (mkPolicyEnv (cc_actor cc) (Header (cc_req cc) "X-Break-Glass") (sv_rfc3339 sv t))
    actionName actionType ctxRef risk targets).

(** policyCheck *)
Definition gateway_check (actionName actionType : string) (ctxRef : ContextRef) (risk : string)
    (targets : Z) : handler world R (result unit) :=
  dec ← gateway_policy actionName actionType ctxRef risk targets;
  mret (dec ← dec; check (Decision_ dec =? "allow") ("policy decision " +:+ Decision_ dec)).

(** ** Sessions *)

Definition sessionIDFromRequest : string := TrimSpace (Header (cc_req cc) "X-Session-Id").

Definition sessionFromPlan (plan : gmap string any) : string :=
  match mget plan "session_id" with AStr v => TrimSpace v | _ => "" end.

Definition enforceSessionMatch (plan : gmap string any) : result unit :=
  let planSession := sessionFromPlan plan in
  if planSession =? "" then Ok tt
  else
    _ ← check (negb (sessionIDFromRequest =? "")) "session required";
    check (planSession =? sessionIDFromRequest) "session mismatch".

(** An actor without an id, or a database without members, is not checked. *)
Definition requireSession : handler world R (result string) :=
  if negb (sv_SessionRequired sv) then mret (Ok "")
  else if sessionIDFromRequest =? "" then mret (Err "session required")
  else match cc_actor cc, db_IsSessionMember with
  | Some actor, Some is_member =>
      if blank (ActorID actor) then mret (Ok sessionIDFromRequest)
      else
        allowed ← on_db (is_member sessionIDFromRequest (ActorID actor));
        mret (b ← allowed; _ ← check b "session unauthorized"; Ok sessionIDFromRequest)
  | _, _ => mret (Ok sessionIDFromRequest)
  end.

Definition enforceSessionRequired (plan : gmap string any) : handler world R (result unit) :=
  session ← requireSession;
  mret (_ ← session; enforceSessionMatch plan).

(** ** Reads *)

Definition policyCheckRead (action : string) : handler world R (result unit) :=
  session ← requireSession;
  let ctxRef := contextFromHeaders (Header (cc_req cc)) in
  match (_ ← session;
         if hasContextValues ctxRef then validateContextRefTenantOnly ctxRef
         else check (negb (sv_SessionRequired sv)) "tenant_id required") with
  | Err e => mret (Err e)
  | Ok _ => gateway_check action "read" ctxRef "read" 0
  end.

Definition plan_context (plan : gmap string any) : ContextRef :=
  match mget plan "context" with AMap ctx => contextFromMap ctx | _ => empty_ref end.

Definition policyCheckReadPlan (plan : gmap string any) (action : string) :
    handler world R (result ContextRef) :=
  session ← enforceSessionRequired plan;
  let ctxRef := plan_context plan in
  match (_ ← session; validateContextRefTenantOnly ctxRef) with
  | Err e => mret (Err e)
  | Ok _ =>
      ok ← gateway_check action "read" ctxRef "read" 0;
      mret (_ ← ok; Ok ctxRef)
  end.

(** policyCheckTenantRead *)
Definition policyCheckTenantRead (action tenantID : string) : handler world R (result unit) :=
  session ← requireSession;
  let tenantID := TrimSpace tenantID in
  match (_ ← session; check (negb (tenantID =? "")) "tenant_id required") with
  | Err e => mret (Err e)
  | Ok _ =>
      gateway_check action "read"
        (mkContextRef tenantID "" "" "" "" "" "" "") "read" 0
  end.
End steps.
End helpers.

(** ** Lemmas *)

Section wp_lemmas.
Context {S E : Type} `{!GatewayDB S}.
Variable view : S → E.
Context `{!ReadFrame view}.
Variable sv : Server.
Variable cc : call_ctx.
Context {R : Type}.
Implicit Types (w : gateway S) (F : R → gateway S → Prop).

(** [w'] may differ from [w] in the clock, the audit log and the like. *)
Definition same w w' : Prop := view (g_db w') = view (g_db w).

#[export] Instance same_preorder : PreOrder same.
Proof. split; unfold same; [by intros ?|by intros ??? -> ->]. Qed.

(** What holds of every answer of a read, whatever the rest of the state. *)
Lemma wp_on_db {A} (f : S → A * S) Q F w :
  wp (on_db f) Q F w ↔
  Q (f (g_db w)).1 (with_db (f (g_db w)).2 w).
Proof. unfold on_db. rewrite wp_call. by destruct (f (g_db w)). Qed.

Lemma wp_on_db_read {A} (f : S → A * S) Q F w :
  unchanged view f →
  (∀ a w', same w w' → f (g_db w) = (a, g_db w') → Q a w') → wp (on_db f) Q F w.
Proof.
  intros Hf HQ. apply wp_on_db, HQ; [apply Hf|]. simpl. by destruct (f (g_db w)).
Qed.

Lemma wp_now Q F w :
  (∀ w', g_db w' = g_db w → Q (sv_clock sv (g_ticks w)) w') → wp (now_ sv) Q F w.
Proof. intros HQ. apply wp_call, HQ. done. Qed.

Lemma wp_outward {A} e (f : list out_event → A) Q F w :
  (∀ a w', g_db w' = g_db w → Q a w') → wp (outward e f) Q F w.
Proof. intros HQ. apply wp_call, HQ. done. Qed.

Lemma wp_emit event data session Q F w :
  (∀ w', g_db w' = g_db w → Q tt w') → wp (emit_event sv event data session) Q F w.
Proof.
  intros HQ. apply wp_bind, wp_now. intros w1 Hw1. apply wp_effect, HQ. by rewrite <- Hw1.
Qed.

Lemma wp_audit action decision ctx note Q F w :
  (∀ w', same w w' → Q tt w') → wp (auditEvent sv cc action decision ctx note) Q F w.
Proof.
  intros HQ. unfold auditEvent. pose proof frame_Audit as Hf.
  destruct db_InsertAuditEvent as [insert|]; [|by apply wp_ret, HQ].
  apply wp_bind, wp_now. intros w1 Hw1.
  assert (Hs : same w w1) by (unfold same; by rewrite Hw1).
  destruct (marshal _); [|by apply wp_ret, HQ].
  apply wp_bind, wp_on_db_read; [apply Hf|]. intros _ w2 Hw2 _. apply wp_ret, HQ. by etrans.
Qed.

Lemma wp_policy name type ref risk targets Q F w :
  (∀ time w', same w w' →
     Q (policyDecision (sv_Policy sv)
          (mkPolicyEnv (cc_actor cc) (Header (cc_req cc) "X-Break-Glass") time)
          name type ref risk targets) w') →
  wp (gateway_policy sv cc name type ref risk targets) Q F w.
Proof.
  intros HQ. apply wp_bind, wp_now. intros w1 Hw1. apply wp_ret, HQ.
  unfold same. by rewrite Hw1.
Qed.

Lemma wp_check name type ref risk targets Q F w :
  (∀ r w', same w w' → Q r w') →
  wp (gateway_check sv cc name type ref risk targets) Q F w.
Proof. intros HQ. apply wp_bind, wp_policy. intros time w1 Hw1. by apply wp_ret, HQ. Qed.

Lemma wp_session Q F w :
  (∀ r w', same w w' → Q r w') → wp (requireSession sv cc) Q F w.
Proof.
  intros HQ. pose proof frame_Session as Hf. unfold requireSession.
  repeat case_match; try (by apply wp_ret, HQ).
  apply wp_bind, wp_on_db_read; [apply Hf|]. intros r w1 Hw1 _. by apply wp_ret, HQ.
Qed.
End wp_lemmas.

(** ** What tells nobody outside anything *)

Section silent.
Context {S R : Type} `{!GatewayDB S}.
Variable sv : Server.
Variable cc : call_ctx.
Variable out : list out_event.

(** The collaborators have been told what they had been. *)
Definition silent {A} (m : handler (gateway S) R A) : Prop := preserves (λ w, g_out w = out) m.

Lemma silent_on_db {A} (f : S → A * S) : silent (on_db f).
Proof. apply preserves_call. intros w Hw. by destruct (f (g_db w)). Qed.
Lemma silent_now : silent (now_ sv).
Proof. by apply preserves_call. Qed.
Lemma silent_emit event data session : silent (emit_event sv event data session).
Proof. apply preserves_bind; [apply silent_now|]. intros t. by apply preserves_effect. Qed.
Lemma silent_audit action decision ctx note : silent (auditEvent sv cc action decision ctx note).
Proof.
  unfold auditEvent. destruct db_InsertAuditEvent; [|apply preserves_ret].
  apply preserves_bind; [apply silent_now|]. intros t. cbv zeta.
  destruct (marshal _); [|apply preserves_ret].
  apply preserves_bind; [apply silent_on_db|intros ?; apply preserves_ret].
Qed.
Lemma silent_policy name type ref risk targets : silent (gateway_policy sv cc name type ref risk targets).
Proof. apply preserves_bind; [apply silent_now|intros t; apply preserves_ret]. Qed.
Lemma silent_session : silent (requireSession sv cc).
Proof.
  unfold requireSession. repeat case_match; try apply preserves_ret.
  apply preserves_bind; [apply silent_on_db|intros ?; apply preserves_ret].
Qed.
End silent.

(** Through a body none of whose statements speaks. *)
Ltac silence :=
  unfold silent; cbv zeta;
  repeat first [apply silent_on_db | apply silent_now | apply silent_emit | apply silent_audit
               | apply silent_policy | apply silent_session | preserves_step].
