(* ===== verification/Plans.v ===== *)
(** * Plans: creating, approving and executing plans

    The plan and approval handlers of internal/web/http.go: handlePlans,
    handlePlanByID (diff, risk, execute, get, delete), handleApprovals,
    createApproval, approvalStatus and ComputePlanHash. *)

From S2P Require Import Prelude GoStrings Json Digest ContextRef Steps Policy Constraints Hubs Http.
From S2P Require Import Store EventGate Gateway.

Local Open Scope string_scope.
Local Open Scope list_scope.

(** ** Requests *)

Record PlanCreateRequest := mkPlanReq {
  rq_Summary : string; rq_Trigger : string; rq_Context : ContextRef; rq_Intent : string;
  rq_Constraints : any; rq_SessionID : string }.

Definition fld_ref : list (string * json) → result ContextRef :=
  fld (λ a x, match x with JNull => Ok a | _ => decode_ref x end) "context" empty_ref.

Definition decode_plan_request (j : json) : result PlanCreateRequest :=
  fs ← Json.members j;
  summary ← fld_string "summary" fs; trigger ← fld_string "trigger" fs; ctx ← fld_ref fs;
  intent ← fld_string "intent" fs; cons ← fld_any "constraints" fs;
  session ← fld_string "session_id" fs;
  Ok (mkPlanReq summary trigger ctx intent cons session).

Record PlanExecuteRequest := mkExecReq { xq_PlanID : string; xq_ApprovalToken : string }.

Definition decode_exec_request (j : json) : result PlanExecuteRequest :=
  fs ← Json.members j;
  p ← fld_string "plan_id" fs; t ← fld_string "approval_token" fs; Ok (mkExecReq p t).

Record ApprovalCreateRequest := mkApprReq {
  aq_PlanID : string; aq_ApproverNote : string; aq_Status : string }.

Definition decode_approval_request (j : json) : result ApprovalCreateRequest :=
  fs ← Json.members j;
  p ← fld_string "plan_id" fs; n ← fld_string "approver_note" fs; st ← fld_string "status" fs;
  Ok (mkApprReq p n st).

(** ** Pagination *)

Definition parsePagination (query : string → string) : Z * Z :=
  let number v ok := match Atoi v with
                     | Ok n => if ok n : bool then Some n else None
                     | Err _ => None end in
  let v := query "limit" in
  let limit := if v =? "" then 50%Z else default 50%Z (number v (λ n, 0 <? n)%Z) in
  let limit := if (200 <? limit)%Z then 200%Z else limit in
  let v := query "offset" in
  let offset := if v =? "" then 0%Z else default 0%Z (number v (λ n, 0 <=? n)%Z) in
  (limit, offset).

Definition paginatedResponse (data : json) (limit offset total : Z) : Response :=
  ok_json (AMap (amap [("data", ARaw data);
    ("pagination", AStruct "PaginationMeta"
       [("limit", AInt limit); ("offset", AInt offset); ("total", AInt total)])])).

(** ** Approvals *)

Definition normalizeApprovalStatus (status : string) : option string :=
  let status := TrimSpace (ToLower status) in
  if status =? "" then Some "pending"
  else if mem status ["pending"; "approved"; "denied"; "expired"] then Some status else None.

Definition hash_stage (s : PlanStep) : PlanStep :=
  if blank (Stage s) then with_stage "act" s else s.

Section handlers.
Context {S : Type} `{!GatewayDB S}.
Variable sv : Server.
Variable cc : call_ctx.

Notation world := (gateway S).
Notation body := (handler world Response Response).

(** The digest of the intent and the steps; no digest when they do not marshal. *)
Definition ComputePlanHash (intent : string) (steps : list PlanStep) : string :=
  match marshal (AStruct "" [("intent", AStr intent);
                             ("steps", ASlice "PlanStep" (map step_any (map hash_stage steps)))]) with
  | Ok data => sha256_hex (print_json data)
  | Err _ => ""
  end.

Section steps.
Context {R : Type}.

Definition createApproval (planID : string) (external : bool) :
    handler world R (result string) :=
  id ← on_db (db_CreateApproval planID);
  match id, sv_Approvals sv with
  | Ok id, Some issue =>
      if external then
        issued ← outward (IssueCreated planID) (λ out, issue out planID);
        mret (_ ← issued; Ok id)
      else mret (Ok id)
  | _, _ => mret id
  end.

Definition approvalStatus (planID approvalToken : string) : handler world R (result string) :=
  if blank planID then mret (Err "plan id required")
  else
    let token := TrimSpace approvalToken in
    if negb (token =? "") then
      match db_GetApprovalStatusByToken with
      | Some reader => on_db (reader planID token)
      | None => mret (Err "approval token unsupported")
      end
    else
      match db_GetApprovalStatus with
      | Some reader => on_db (reader planID)
      | None => mret (Err "approval status unavailable")
      end.

(** [_ = hashWriter.SetApprovalHash(...)] when the database has it. *)
Definition record_hash (planID intent : string) (steps : list PlanStep) : handler world R unit :=
  match db_SetApprovalHash with
  | Some set => _ ← on_db (set planID (ComputePlanHash intent steps)); mret tt
  | None => mret tt
  end.

(** The plan by its id: 500, 404 or its decoded JSON. *)
Definition load_plan (planID : string) : handler world Response (gmap string any) :=
  payload ← on_db (db_GetPlan planID);
  payload ← or_return payload (λ _, return_ (http_error "db error" 500));
  payload ← or_return (of_option "" payload) (λ _, return_ (http_error "404 page not found" 404));
  or_return (decode_map payload) (λ _, return_ (http_error "decode error" 500)).
End steps.

Definition planned_steps (v : any) : list PlanStep :=
  match parsePlanStepsPayload v with Ok steps => steps | Err _ => [] end.

Definition step_any_list (l : list PlanStep) : any := ASlice "PlanStep" (map step_any l).

(** deny with an audit event *)
Definition deny {A} (action : string) (ctx : any) (note msg : string) (status : Z) :
    handler world Response A :=
  _ ← auditEvent sv cc action "deny" ctx note; return_ (http_error msg status).

(** The switch on the decision: allow, or an approval for a write. *)
Definition admit_decision (action actionType : string) (ctx : any) (dec : PolicyDecision) :
    handler world Response unit :=
  if Decision_ dec =? "allow" then mret tt
  else if Decision_ dec =? "require_approval" then
    if negb (actionType =? "write") then
      deny action ctx "approval required" "policy denied" 403
    else mret tt
  else deny action ctx ("policy decision " +:+ Decision_ dec) "policy denied" 403.

(** ** GET /v1/plans *)

Definition listPlans : body :=
  let tenantID := TrimSpace (Header (cc_req cc) "X-Tenant-Id") in
  _ ← return_if (tenantID =? "") (http_error "tenant_id required" 400);
  ok ← policyCheckTenantRead sv cc "plan.list" tenantID;
  _ ← or_return ok (λ e, deny "plan.list" (AMap ∅) e "policy denied" 403);
  let '(limit, offset) := parsePagination (Query (cc_req cc)) in
  rows ← on_db (db_ListPlans limit offset);
  '(payload, total) ← or_return rows (λ _, return_ (http_error "db error" 500));
  filtered ← or_return (filterJSONByTenantContext (doc_json payload) tenantID)
               (λ _, return_ (http_error "encode error" 500));
  mret (paginatedResponse filtered limit offset total).

(** ** POST /v1/plans *)

(** The session a new plan belongs to. *)
Definition plan_session (requested required : string) : string :=
  let sessionID := TrimSpace requested in
  if negb (sessionID =? "") then sessionID
  else if negb (required =? "") then required else sessionIDFromRequest cc.

Definition diag_any (d : DiagnosticEvidence) : any :=
  AStruct "DiagnosticEvidence" [("type", AStr (diag_Type d)); ("query", AStr (diag_Query d));
    ("result_ref", AStr (diag_ResultRef d)); ("link", AStr (diag_Link d))].

(** The planner's text; no planner or no intent, no text. *)
Definition draft_plan {R} (intent : string) (ctx : any) (diags : list DiagnosticEvidence) :
    handler world R (result string) :=
  match sv_Planner sv with
  | Some plan => if blank intent then mret (Ok "")
                 else outward (Planned intent) (λ out, plan out intent ctx diags)
  | None => mret (Ok "")
  end.

Definition collect_diagnostics {R} (ctx : ContextRef) (intent : string) (constraints : any) :
    handler world R (list DiagnosticEvidence) :=
  match sv_Diagnostics sv with
  | Some collect =>
      reads (λ w, match collect (g_out w) ctx intent constraints with Ok l => l | Err _ => [] end)
  | None => mret []
  end.

(** The steps of the text, under the key "steps" when there are some. *)
Definition with_plan_text (planText : string) (plan : gmap string any) : gmap string any :=
  if planText =? "" then plan
  else
    let plan := <["plan_text" := AStr planText]> plan in
    match parsePlanSteps planText with
    | [] => plan
    | steps => <["steps" := drafts_any steps]> plan
    end.

(** The approval of a new write plan. *)
Definition approve_new_plan (planID risk : string) (dec : PolicyDecision)
    (plan : gmap string any) : handler world Response unit :=
  if (risk =? "low") && sv_AutoApproveLow sv && negb (Decision_ dec =? "require_approval") then
    id ← createApproval planID false;
    id ← or_return id (λ _, return_ (http_error "approval error" 502));
    ok ← on_db (db_UpdateApprovalStatusByPlan planID "approved");
    _ ← or_return ok (λ _, return_ (http_error "db error" 500));
    _ ← record_hash planID (default "" (as_string (mget plan "intent")))
          (planned_steps (mget plan "steps"));
    auditEvent sv cc "approval.auto" "allow" (AMap (amap [("plan_id", AStr planID);
      ("approval_id", AStr id); ("status", AStr "approved")])) ""
  else
    id ← createApproval planID true;
    _ ← or_return id (λ _, return_ (http_error "approval error" 502));
    mret tt.

Definition createPlan : body :=
  session ← requireSession sv cc;
  requiredSession ← or_return session (λ _, return_ (http_error "session denied" 403));
  req ← or_return (j ← unmarshal (Body (cc_req cc)); decode_plan_request j)
          (λ _, return_ (http_error "invalid json" 400));
  let ctx := ref_any (rq_Context req) in
  let risk := riskFromIntent (rq_Intent req) in
  let actionType := if risk =? "read" then "read" else "write" in
  _ ← or_return (validateContextRefMinimal (rq_Context req))
        (λ e, deny "plan.create" ctx e "invalid context" 400);
  dec ← gateway_policy sv cc "plan.create" actionType (rq_Context req) risk 0;
  dec ← or_return dec (λ e, deny "plan.create" ctx e "policy denied" 403);
  let merged := mergeConstraints (rq_Constraints req) (Policy.Constraints dec) in
  _ ← admit_decision "plan.create" actionType ctx dec;
  createdAt ← now_ sv;
  let sessionID := plan_session (rq_SessionID req) requiredSession in
  _ ← return_if (negb (requiredSession =? "") && negb (sessionID =? requiredSession))
        (http_error "session mismatch" 403);
  diags ← collect_diagnostics (rq_Context req) (rq_Intent req) (rq_Constraints req);
  text ← draft_plan (rq_Intent req) (AMap (amap [("context", ctx);
           ("constraints", rq_Constraints req); ("summary", AStr (rq_Summary req));
           ("trigger", AStr (rq_Trigger req)); ("session_id", AStr sessionID)])) diags;
  planText ← or_return text (λ e, deny "plan.create" ctx e "planner error" 502);
  let created := AStr (sv_rfc3339 sv createdAt) in
  let plan := amap ([("trigger", AStr (rq_Trigger req)); ("summary", AStr (rq_Summary req));
    ("context", ctx); ("constraints", constraints_any merged); ("risk_level", AStr risk);
    ("intent", AStr (rq_Intent req)); ("created_at", created); ("session_id", AStr sessionID)] ++
    (match diags with
     | [] => []
     | _ => [("meta", AMap (amap [("diagnostics", ASlice "DiagnosticEvidence" (map diag_any diags))]))]
     end)) in
  let plan := with_plan_text planText plan in
  payload ← or_return (marshal (AMap plan)) (λ _, return_ (http_error "encode error" 500));
  planID ← on_db (db_CreatePlan payload);
  planID ← or_return planID (λ _, return_ (http_error "db error" 500));
  let plan := <["plan_id" := AStr planID]> plan in
  _ ← (if actionType =? "write" then approve_new_plan planID risk dec plan else mret tt);
  _ ← auditEvent sv cc "plan.create" "allow" (AMap (amap [("plan_id", AStr planID);
        ("context", ctx); ("trigger", AStr (rq_Trigger req)); ("intent", AStr (rq_Intent req))])) "";
  _ ← emit_event sv "plan.updated" (AMap (amap [("plan_id", AStr planID)])) sessionID;
  mret (ok_json (AMap (amap [("plan", AMap plan); ("plan_id", AStr planID);
                             ("created_at", created)]))).

Definition handlePlans : body :=
  let db_required := return_if (negb (sv_DB sv)) (http_error "db unavailable" 503) in
  if Method (cc_req cc) =? "GET" then _ ← db_required; listPlans
  else if Method (cc_req cc) =? "POST" then _ ← db_required; createPlan
  else mret StatusMethodNotAllowed.

(** ** /v1/plans/{id} *)

Definition plans_prefix : string := "/v1/plans/".
Definition has_db : handler world Response unit :=
  return_if (negb (sv_DB sv)) (http_error "db unavailable" 503).

(** The text of the member, when it is not blank. *)
Definition nonblank (plan : gmap string any) (key : string) : option string :=
  match mget plan key with AStr v => if blank v then None else Some v | _ => None end.

Definition read_plan (planID action : string) :
    handler world Response (gmap string any * ContextRef) :=
  plan ← load_plan planID;
  ref ← policyCheckReadPlan sv cc plan action;
  ref ← or_return ref (λ _, return_ (http_error "policy denied" 403));
  mret (plan, ref).

Definition planDiff (path : string) : body :=
  let planID := trim_suffix (trim_prefix path plans_prefix) "/diff" in
  '(plan, _) ← read_plan planID "plan.diff";
  let steps := planned_steps (mget plan "steps") in
  mret (ok_json (AMap (amap [("plan_id", AStr planID); ("changes", step_any_list steps);
                             ("targets", AInt (estimateTargets steps))]))).

Definition planRisk (path : string) : body :=
  let planID := trim_suffix (trim_prefix path plans_prefix) "/risk" in
  '(plan, ref) ← read_plan planID "plan.risk";
  let risk := default "medium" (TrimSpace <$> nonblank plan "risk_level") in
  let targets := estimateTargets (planned_steps (mget plan "steps")) in
  mret (ok_json (AMap (amap [("plan_id", AStr planID); ("risk_level", AStr risk);
    ("tier", AStr (tierForRisk risk)); ("blast_radius", AStr (blastRadius ref targets));
    ("targets", AInt targets)]))).

Definition getPlan (path : string) : body :=
  let planID := trim_prefix path plans_prefix in
  '(plan, _) ← read_plan planID "plan.get";
  match db_ListPlanSteps, db_ListApprovalsByPlan with
  | Some list_steps, Some list_approvals =>
      steps ← on_db (list_steps planID);
      steps ← or_return steps (λ _, return_ (http_error "db error" 500));
      approvals ← on_db (list_approvals planID);
      approvals ← or_return approvals (λ _, return_ (http_error "db error" 500));
      mret (ok_json (AMap (<["approvals" := ARaw approvals]> (<["steps" := ARaw steps]> plan))))
  | _, _ => mret (ok_json (AMap plan))
  end.

Definition deletePlan (path : string) : body :=
  ok ← on_db (db_DeletePlan (trim_prefix path plans_prefix));
  _ ← or_return ok (λ _, return_ (http_error "delete failed" 500));
  mret (mkResp 204 Empty).

(** *** POST /v1/plans/{id}:execute *)

(** The risk a stored plan is executed at. *)
Definition execution_risk (plan : gmap string any) : string :=
  match nonblank plan "risk_level", nonblank plan "intent" with
  | Some v, _ => TrimSpace v
  | None, Some intent => riskFromIntent intent
  | None, None => "medium"
  end.

Definition execution_type (risk : string) : string := if risk =? "read" then "read" else "write".

(** The steps of the plan, or the stored ones; those that cannot be read count
    as none. *)
Definition execution_steps (planID : string) (plan : gmap string any) :
    handler world Response (list PlanStep) :=
  match planned_steps (mget plan "steps"), db_ListPlanSteps with
  | [], Some list_steps =>
      data ← on_db (list_steps planID);
      mret (match (j ← data; parsePlanStepsJSON (doc_json j)) with
            | Ok steps => steps | Err _ => [] end)
  | steps, _ => mret steps
  end.

Definition plan_note (planID : string) : any := AMap (amap [("plan_id", AStr planID)]).

(** A write needs an approved plan. *)
Definition require_approved (planID token : string) : handler world Response unit :=
  status ← approvalStatus planID token;
  status ← or_return status (λ e, deny "plan.execute" (plan_note planID) e "approval required" 403);
  if negb (status =? "approved") then
    deny "plan.execute" (plan_note planID) "approval required" "approval required" 403
  else mret tt.

(** The recorded digest, when there is one, is the plan's. *)
Definition require_hash (planID intent : string) (steps : list PlanStep) :
    handler world Response unit :=
  match db_GetApprovalHash with
  | None => mret tt
  | Some get =>
      approved ← on_db (get planID);
      match approved with
      | Ok approvedHash =>
          if negb (approvedHash =? "") && negb (ComputePlanHash intent steps =? approvedHash) then
            deny "plan.execute" (plan_note planID) "plan modified after approval"
              "plan modified after approval" 403
          else mret tt
      | Err _ => mret tt
      end
  end.

Definition require_idle (planID : string) : handler world Response unit :=
  match db_HasActiveExecution with
  | None => mret tt
  | Some has_active =>
      active ← on_db (has_active planID);
      active ← or_return active (λ _, return_ (http_error "db error" 500));
      return_if active (http_error "execution already in progress" 409)
  end.

(** A failure to start is ignored: the execution stays pending. *)
Definition start_execution (planID execID : string) (ctx : ContextRef) (steps : list PlanStep) :
    handler world Response unit :=
  match sv_Executor sv with
  | None => mret tt
  | Some start =>
      started ← outward (Started planID execID ctx steps) (λ out, start out planID execID);
      match started, db_UpdateExecutionWorkflowID with
      | Ok workflowID, Some update =>
          if workflowID =? "" then mret tt
          else _ ← on_db (update execID workflowID); mret tt
      | _, _ => mret tt
      end
  end.

(** Every check of an execution, and the plan and steps that pass. *)
Definition admit_execution (planID : string) : handler world Response (gmap string any * list PlanStep) :=
  _ ← return_if (blank planID) (http_error "plan id required" 400);
  req ← or_return (match Body (cc_req cc) with
                   | doc_empty => Ok (mkExecReq "" "")     (* io.EOF *)
                   | d => j ← unmarshal d; decode_exec_request j
                   end) (λ _, return_ (http_error "invalid json" 400));
  plan ← load_plan planID;
  session ← requireSession sv cc;
  _ ← or_return session (λ _, return_ (http_error "session denied" 403));
  _ ← or_return (enforceSessionMatch cc plan) (λ _, return_ (http_error "session denied" 403));
  let risk := execution_risk plan in
  let actionType := execution_type risk in
  let ref := plan_context plan in
  _ ← or_return (validateContextRefStrict ref)
        (λ e, deny "plan.execute" (plan_note planID) e "invalid context" 400);
  steps ← execution_steps planID plan;
  dec ← gateway_policy sv cc "plan.execute" actionType ref risk (estimateTargets steps);
  dec ← or_return dec (λ e, deny "plan.execute" (plan_note planID) e "policy denied" 403);
  _ ← admit_decision "plan.execute" actionType (plan_note planID) dec;
  now ← now_ sv;
  _ ← or_return (enforceConstraints (sv_zones sv) ref (constraintsFromPlan plan) steps now actionType)
        (λ e, deny "plan.execute" (plan_note planID) e "constraints violated" 403);
  _ ← (if actionType =? "write" then require_approved planID (xq_ApprovalToken req) else mret tt);
  _ ← require_hash planID (default "" (as_string (mget plan "intent"))) steps;
  _ ← require_idle planID;
  mret (plan, steps).

Definition executePlan_ (path : string) : body :=
  let planID := trim_prefix (trim_suffix path ":execute") plans_prefix in
  '(plan, steps) ← admit_execution planID;
  execID ← on_db (db_CreateExecution planID);
  execID ← or_return execID (λ _, return_ (http_error "db error" 500));
  _ ← start_execution planID execID (plan_context plan) steps;
  _ ← auditEvent sv cc "plan.execute" "allow"
        (AMap (amap [("plan_id", AStr planID); ("execution_id", AStr execID)])) "";
  _ ← emit_event sv "execution.updated"
        (AMap (amap [("execution_id", AStr execID); ("plan_id", AStr planID)]))
        (sessionFromPlan plan);
  mret (ok_json (AMap (amap [("execution_id", AStr execID)]))).

Definition handlePlanByID : body :=
  let path := Path (cc_req cc) in
  let get := Method (cc_req cc) =? "GET" in
  if get && has_suffix path "/diff" then _ ← has_db; planDiff path
  else if get && has_suffix path "/risk" then _ ← has_db; planRisk path
  else if (Method (cc_req cc) =? "POST") && has_suffix path ":execute" then
    _ ← has_db; executePlan_ path
  else if get then _ ← has_db; getPlan path
  else if Method (cc_req cc) =? "DELETE" then _ ← has_db; deletePlan path
  else mret StatusMethodNotAllowed.

(** ** POST /v1/approvals *)

(** On approval, the digest of the plan as GetPlan gives it. *)
Definition record_plan_hash (planID : string) : handler world Response unit :=
  match db_SetApprovalHash with
  | None => mret tt
  | Some _ =>
      payload ← on_db (db_GetPlan planID);
      match (p ← payload; j ← of_option "" p; decode_map j) with
      | Ok planData => record_hash planID (default "" (as_string (mget planData "intent")))
                         (planned_steps (mget planData "steps"))
      | Err _ => mret tt
      end
  end.

Definition handleApprovals : body :=
  _ ← return_if (negb (Method (cc_req cc) =? "POST")) StatusMethodNotAllowed;
  _ ← has_db;
  req ← or_return (j ← unmarshal (Body (cc_req cc)); decode_approval_request j)
          (λ _, return_ (http_error "invalid json" 400));
  _ ← return_if (aq_PlanID req =? "") (http_error "plan_id required" 400);
  status ← or_return (of_option "" (normalizeApprovalStatus (aq_Status req)))
             (λ _, return_ (http_error "invalid status" 400));
  ok ← gateway_check sv cc "approval.create" "read" empty_ref "read" 0;
  _ ← or_return ok (λ e, deny "approval.create"
        (AMap (amap [("plan_id", AStr (aq_PlanID req)); ("status", AStr status)]))
        e "policy denied" 403);
  approvalID ←
    (if status =? "pending" then
       id ← createApproval (aq_PlanID req) true;
       or_return id (λ _, return_ (http_error "approval error" 502))
     else
       ok ← on_db (db_UpdateApprovalStatusByPlan (aq_PlanID req) status);
       _ ← or_return ok (λ _, return_ (http_error "db error" 500));
       _ ← (if status =? "approved" then record_plan_hash (aq_PlanID req) else mret tt);
       mret "");
  _ ← auditEvent sv cc "approval.create" "allow" (AMap (amap [("plan_id", AStr (aq_PlanID req));
        ("status", AStr status); ("approval_id", AStr approvalID)])) "";
  mret (ok_json (AMap (amap [("approval_id", AStr approvalID); ("status", AStr status)]))).
End handlers.

(** ** What the helpers do *)

Section wp_plans.
Context {S E : Type} `{!GatewayDB S}.
Variable view : S → E.
Context `{!ReadFrame view}.
Variable sv : Server.
Variable cc : call_ctx.
Implicit Types (w : gateway S) (F : Response → gateway S → Prop).
Local Notation same := (same view).

Lemma wp_deny {A} action ctx note msg status (Q : A → _ → Prop) F w :
  (∀ w', same w w' → F (http_error msg status) w') →
  wp (deny sv cc action ctx note msg status) Q F w.
Proof. intros HF. apply wp_bind, (wp_audit view). intros w1 Hw1. by apply wp_return, HF. Qed.

Lemma wp_admit action type ctx dec Q F w :
  (Decision_ dec = "allow" ∨ Decision_ dec = "require_approval" ∧ type = "write" → Q tt w) →
  (∀ w', same w w' → F (http_error "policy denied" 403) w') →
  wp (admit_decision sv cc action type ctx dec) Q F w.
Proof.
  intros HQ HF. unfold admit_decision.
  destruct (String.eqb_spec (Decision_ dec) "allow"); [by apply wp_ret, HQ; left|].
  destruct (String.eqb_spec (Decision_ dec) "require_approval"); [|by apply wp_deny].
  destruct (String.eqb_spec type "write"); cbn; [by apply wp_ret, HQ; right|by apply wp_deny].
Qed.

Lemma wp_load_plan planID Q F w :
  (∀ j plan w', same w w' → (db_GetPlan planID (g_db w)).1 = Ok (Some j) →
     decode_map j = Ok plan → Q plan w') →
  (∀ r w', same w w' → refused r → F r w') →
  wp (load_plan planID) Q F w.
Proof.
  intros HQ HF. unfold load_plan. apply wp_bind, (wp_on_db_read view); [apply frame_GetPlan|].
  intros r w1 Hw1 Hr.
  apply wp_bind, wp_or_return; split; intros p Hp; [|apply wp_return, HF; [done|by vm_compute]].
  apply wp_bind, wp_or_return; split; intros j Hj; [|apply wp_return, HF; [done|by vm_compute]].
  apply of_option_Ok in Hj. subst.
  apply wp_or_return; split; intros plan Hplan; [|apply wp_return, HF; [done|by vm_compute]].
  eapply HQ; [done| |done]. by rewrite Hr.
Qed.

(** The steps a plan is executed with: its own, or those the database lists. *)
Definition steps_given (planID : string) (plan : gmap string any) (s : S) : list PlanStep :=
  match planned_steps (mget plan "steps"), db_ListPlanSteps with
  | [], Some list_steps =>
      match (j ← (list_steps planID s).1; parsePlanStepsJSON (doc_json j)) with
      | Ok steps => steps | Err _ => [] end
  | steps, _ => steps
  end.

Lemma wp_steps planID plan Q F w :
  (∀ w', same w w' → Q (steps_given planID plan (g_db w)) w') →
  wp (execution_steps planID plan) Q F w.
Proof.
  intros HQ. pose proof frame_ListPlanSteps as Hf. unfold execution_steps, steps_given in *.
  destruct (planned_steps _); [|by apply wp_ret, HQ].
  destruct db_ListPlanSteps; [|by apply wp_ret, HQ].
  apply wp_bind, (wp_on_db_read view); [apply Hf|]. intros r w1 Hw1 Hr. rewrite Hr in HQ.
  by apply wp_ret, HQ.
Qed.

(** The approval status the database gives, by token or by plan. *)
Definition approval_given (planID token : string) (s : S) : result string :=
  if blank planID then Err "plan id required"
  else if negb (TrimSpace token =? "") then
    match db_GetApprovalStatusByToken with
    | Some reader => (reader planID (TrimSpace token) s).1
    | None => Err "approval token unsupported"
    end
  else match db_GetApprovalStatus with
       | Some reader => (reader planID s).1
       | None => Err "approval status unavailable"
       end.

Lemma wp_approved planID token Q F w :
  (∀ w', same w w' → approval_given planID token (g_db w) = Ok "approved" → Q tt w') →
  (∀ r w', same w w' → refused r → F r w') →
  wp (require_approved sv cc planID token) Q F w.
Proof.
  intros HQ HF. unfold require_approved. apply wp_bind.
  apply wp_mono with (Q := λ r w', same w w' ∧ approval_given planID token (g_db w) = r)
    (E := λ _ _, False); [|intros r w1 [Hw1 Hr]|done].
  { unfold approvalStatus, approval_given. pose proof frame_ApprovalStatus as H1.
    pose proof frame_ApprovalToken as H2.
    destruct (blank planID); [by apply wp_ret|]. destruct (negb _);
      [destruct db_GetApprovalStatusByToken|destruct db_GetApprovalStatus]; try by apply wp_ret.
    all: apply (wp_on_db_read view); [by apply H1 || apply H2|]; intros r w1 Hw1 Hr;
      (split; [done|]; by rewrite Hr). }
  apply wp_bind, wp_or_return; split; intros st Hst.
  - destruct (String.eqb_spec st "approved"); cbn; [apply wp_ret, HQ; congruence|].
    apply wp_deny. intros w2 Hw2. apply HF; [by etrans|by vm_compute].
  - apply wp_deny. intros w2 Hw2. apply HF; [by etrans|by vm_compute].
Qed.

(** The digest on record, when one can be read. *)
Definition hash_on_record (planID : string) (s : S) : option string :=
  match db_GetApprovalHash with
  | Some get => match (get planID s).1 with
                | Ok h => if h =? "" then None else Some h
                | Err _ => None
                end
  | None => None
  end.

Lemma wp_hash planID intent steps Q F w :
  (∀ w', same w w' →
     (∀ h, hash_on_record planID (g_db w) = Some h → ComputePlanHash intent steps = h) →
     Q tt w') →
  (∀ r w', same w w' → refused r → F r w') →
  wp (require_hash sv cc planID intent steps) Q F w.
Proof.
  intros HQ HF. pose proof frame_GetHash as Hf. unfold require_hash, hash_on_record in *.
  destruct db_GetApprovalHash as [get|]; [|by apply wp_ret, HQ].
  apply wp_bind, (wp_on_db_read view); [apply Hf|]. intros r w1 Hw1 Hr. rewrite Hr in *. simpl in *.
  destruct r as [h|e]; [|by apply wp_ret, HQ].
  destruct (String.eqb_spec h "") as [->|Hne]; cbn; [by apply wp_ret, HQ|].
  destruct (String.eqb_spec (ComputePlanHash intent steps) h) as [He|He]; cbn.
  - apply wp_ret, HQ; [done|]. by intros ? [= <-].
  - apply wp_deny. intros w2 Hw2. apply HF; [by etrans|by vm_compute].
Qed.

Definition idle (planID : string) (s : S) : Prop :=
  match db_HasActiveExecution with
  | Some has_active => (has_active planID s).1 = Ok false
  | None => True
  end.

Lemma wp_idle planID Q F w :
  (∀ w', same w w' → idle planID (g_db w) → Q tt w') →
  (∀ r w', same w w' → refused r → F r w') →
  wp (require_idle planID) Q F w.
Proof.
  intros HQ HF. pose proof frame_HasActive as Hf. unfold require_idle, idle in *.
  destruct db_HasActiveExecution as [has|]; [|by apply wp_ret, HQ].
  apply wp_bind, (wp_on_db_read view); [apply Hf|]. intros r w1 Hw1 Hr. rewrite Hr in *. simpl in *.
  apply wp_bind, wp_or_return; split; intros b Hb;
    [|apply wp_return, HF; [done|by vm_compute]].
  apply wp_return_if; split; intros ->; [apply HF; [done|by vm_compute]|]. by apply HQ.
Qed.
End wp_plans.

(** ** The execution gate *)

Section gate.
Context {S E : Type} `{!GatewayDB S}.
Variable view : S → E.
Variable execs : E → list (string * string * string).
Context `{!ExecView view execs}.
Variable sv : Server.
Variable cc : call_ctx.
Local Notation same := (same view).

(** What an accepted execution of [plan] has passed; each check was made in a
    state with the view of [w]. *)
Record gate (w : gateway S) (planID token : string) (plan : gmap string any)
    (steps : list PlanStep) : Prop := {
  gate_plan : ∃ j, (db_GetPlan planID (g_db w)).1 = Ok (Some j) ∧ decode_map j = Ok plan;
  gate_steps : ∃ w1, same w w1 ∧ steps = steps_given planID plan (g_db w1);
  gate_session : enforceSessionMatch cc plan = Ok tt;
  gate_context : validateContextRefStrict (plan_context plan) = Ok tt;
  gate_policy : ∃ time dec,
    policyDecision (sv_Policy sv)
      (mkPolicyEnv (cc_actor cc) (Header (cc_req cc) "X-Break-Glass") time)
      "plan.execute" (execution_type (execution_risk plan)) (plan_context plan)
      (execution_risk plan) (estimateTargets steps) = Ok dec ∧
    (Decision_ dec = "allow" ∨
     Decision_ dec = "require_approval" ∧ execution_type (execution_risk plan) = "write");
  gate_constraints : ∃ now, enforceConstraints (sv_zones sv) (plan_context plan)
    (constraintsFromPlan plan) steps now (execution_type (execution_risk plan)) = Ok tt;
  gate_approved : execution_type (execution_risk plan) = "write" →
    ∃ w1, same w w1 ∧ approval_given planID token (g_db w1) = Ok "approved";
  gate_hash : ∃ w1, same w w1 ∧ ∀ h, hash_on_record planID (g_db w1) = Some h →
    ComputePlanHash (default "" (as_string (mget plan "intent"))) steps = h;
  gate_idle : ∃ w1, same w w1 ∧ idle planID (g_db w1) }.

Definition same_execs (w w' : gateway S) : Prop :=
  execs (view (g_db w')) = execs (view (g_db w)).

Lemma same_same_execs w w' : same w w' → same_execs w w'.
Proof. unfold same_execs. by intros ->. Qed.

Lemma wp_start planID execID ref steps Q (F : Response → gateway S → Prop) w :
  (∀ w', same_execs w w' → Q tt w') →
  wp (start_execution sv planID execID ref steps) Q F w.
Proof.
  intros HQ. pose proof exec_workflow as Hf. unfold start_execution.
  destruct (sv_Executor sv); [|by apply wp_ret, HQ].
  apply wp_bind, wp_outward. intros [wf|e] w1 Hw1;
    [destruct db_UpdateExecutionWorkflowID as [update|]; [destruct (wf =? "")|]|].
  2: { apply wp_bind, wp_on_db. apply wp_ret, HQ. unfold same_execs. simpl.
       by rewrite Hf, Hw1. }
  all: apply wp_ret, HQ; unfold same_execs; by rewrite Hw1.
Qed.

(** What the workflow engine is told of an execution. *)
Definition announced (planID execID : string) (ref : ContextRef) (steps : list PlanStep) : list out_event :=
  match sv_Executor sv with Some _ => [Started planID execID ref steps] | None => [] end.

Lemma wp_announces planID execID ref steps w :
  wp (start_execution sv planID execID ref steps)
    (λ _ w', g_out w' = g_out w ++ announced planID execID ref steps)
    (λ (_ : Response) w', g_out w' = g_out w ++ announced planID execID ref steps) w.
Proof.
  unfold start_execution, announced. destruct (sv_Executor sv) as [start|]; [|apply wp_ret; by rewrite app_nil_r].
  apply wp_bind, wp_call. cbn [snd fst].
  destruct (start _ _ _) as [wf|e], db_UpdateExecutionWorkflowID as [update|]; try by apply wp_ret.
  destruct (wf =? ""); [by apply wp_ret|]. apply wp_bind, wp_on_db. by apply wp_ret.
Qed.

Lemma admit_is_silent planID out : silent out (admit_execution sv cc planID).
Proof.
  unfold admit_execution, load_plan, execution_steps, admit_decision, require_approved, approvalStatus, require_hash,
    require_idle, deny. silence.
Qed.

(** The approval of a write, asked for in a state with the view of [w]. *)
Lemma wp_needed_approval w w' planID type token :
  same w w' →
  wp (if type =? "write" then require_approved sv cc planID token else mret tt)
    (λ _ w'', same w w'' ∧
       (type = "write" → ∃ w1, same w w1 ∧ approval_given planID token (g_db w1) = Ok "approved"))
    (λ r w'', same w w'' ∧ refused r) w'.
Proof.
  intros Hs. destruct (String.eqb_spec type "write"); [|by apply wp_ret].
  apply (wp_approved view).
  - intros w2 Hw2 Ha. split; [by etrans|]. intros _. by exists w'.
  - intros r w2 Hw2 Hr. split; [by etrans|done].
Qed.

Lemma wp_admit_execution planID w :
  wp (admit_execution sv cc planID)
    (λ '(plan, steps) w', same w w' ∧ ∃ token, gate w planID token plan steps)
    (λ r w', same w w' ∧ refused r) w.
Proof.
  assert (Herr : ∀ msg st w', same w w' → (400 ≤ st)%Z → same w w' ∧ refused (http_error msg st))
    by (intros; by split).
  unfold admit_execution.
  apply wp_bind, wp_return_if; split; intros Hid; [by apply Herr|].
  apply wp_bind, wp_or_return; split; intros req _; [|by apply wp_return, Herr].
  apply wp_bind, (wp_load_plan view); [|intros r w' Hs Hr; by split].
  intros j plan w1 Hw1 Hj Hplan.
  apply wp_bind, (wp_session view). intros session w2 Hw2.
  assert (Hs2 : same w w2) by (by etrans).
  apply wp_bind, wp_or_return; split; intros _sess _; [|by apply wp_return, Herr].
  apply wp_bind, wp_or_return; split; [intros [] Hsess|intros ? _; by apply wp_return, Herr].
  apply wp_bind, wp_or_return; split.
  2: { intros e _. apply (wp_deny view). intros w3 Hw3. apply Herr; [by etrans|done]. }
  intros [] Hctx. apply wp_bind, (wp_steps view).
  set (steps := steps_given planID plan (g_db w2)). intros w3 Hw3.
  assert (Hs3 : same w w3) by (by etrans).
  apply wp_bind, (wp_policy view). intros time w4 Hw4.
  assert (Hs4 : same w w4) by (by etrans).
  apply wp_bind, wp_or_return; split.
  2: { intros e _. apply (wp_deny view). intros w5 Hw5. apply Herr; [by etrans|done]. }
  intros dec Hdec. apply wp_bind, (wp_admit view).
  2: { intros w5 Hw5. apply Herr; [by etrans|done]. }
  intros Hadm. apply wp_bind, wp_now. intros w5 Hw5.
  assert (Hs5 : same w w5) by (unfold Gateway.same in *; by rewrite Hw5).
  apply wp_bind, wp_or_return; split.
  2: { intros e _. apply (wp_deny view). intros w6 Hw6. apply Herr; [by etrans|done]. }
  intros [] Hcons. apply wp_bind.
  eapply wp_mono; [apply (wp_needed_approval w w5 planID _ (xq_ApprovalToken req) Hs5)|intros _u w6 [Hs6 Happ]|done].
  apply wp_bind, (wp_hash view).
  2: { intros r w7 Hw7 Hr. split; [by etrans|done]. }
  intros w7 Hw7 Hhash. assert (Hs7 : same w w7) by (by etrans).
  apply wp_bind, (wp_idle view).
  2: { intros r w8 Hw8 Hr. split; [by etrans|done]. }
  intros w8 Hw8 Hidle. assert (Hs8 : same w w8) by (by etrans).
  apply wp_ret. split; [done|]. exists (xq_ApprovalToken req). split; eauto.
Qed.

Definition execute_outcome (planID : string) (w : gateway S) (r : Response) (w' : gateway S) :
    Prop :=
  (refused r ∧ same_execs w w' ∧ g_out w' = g_out w) ∨
  (Status r = 200%Z ∧ ∃ execID token plan steps,
     gate w planID token plan steps ∧
     execs (view (g_db w')) = execs (view (g_db w)) ++ [(execID, planID, "pending")] ∧
     g_out w' = g_out w ++ announced planID execID (plan_context plan) steps).

Lemma wp_execute_plan path w :
  let planID := trim_prefix (trim_suffix path ":execute") plans_prefix in
  wp (executePlan_ sv cc path) (execute_outcome planID w) (execute_outcome planID w) w.
Proof.
  intros planID. unfold executePlan_. fold planID. clearbody planID. apply wp_bind.
  eapply wp_mono; [exact (wp_and _ _ _ _ _ _ (wp_admit_execution planID w) (admit_is_silent planID (g_out w) w eq_refl))|..].
  2: { intros r w' [[Hs Hr] Ho]. left. split_and!; [done|by apply same_same_execs|done]. }
  intros [plan steps] w8 [[Hs8 [token Hgate]] Ho8].
  apply wp_bind, wp_on_db.
  pose proof (exec_create planID (g_db w8)) as Hc.
  destruct (db_CreateExecution planID (g_db w8)) as [[execID|e] s9]; simpl.
  2: { apply wp_bind. cbn. apply wp_return. left. split_and!; [done| |done].
       unfold same_execs. simpl. rewrite Hc. by rewrite Hs8. }
  apply wp_bind. cbn. apply wp_ret. apply wp_bind.
  eapply wp_mono; [apply wp_and; [|apply wp_announces]|..].
  { by apply (wp_start _ _ _ _ (λ _, same_execs (with_db s9 w8)) (λ _ _, False)). }
  2: { by intros r w' []. }
  intros _ w10 [Hw10 Ho10]. cbn [g_out with_db] in Ho10. rewrite Ho8 in Ho10.
  apply wp_bind.
  eapply wp_mono; [apply wp_and; [|by apply (silent_audit sv cc)]|..].
  { by apply (wp_audit view _ _ _ _ _ _ (λ _, same w10) (λ _ _, False)). }
  2: { by intros r w' []. }
  intros _ w11 [Hw11 Ho11]. apply wp_bind.
  eapply wp_mono; [apply wp_and; [|by apply (silent_emit sv)]|..].
  { by apply (wp_emit _ _ _ _ (λ _ w', g_db w' = g_db w11) (λ _ _, False)). }
  2: { by intros r w' []. }
  intros _ w12 [Hw12 Ho12]. apply wp_ret.
  right. split; [done|]. exists execID, token, plan, steps. split_and!; [done| |exact Ho12].
  rewrite Hw12. apply same_same_execs in Hw11. rewrite Hw11, Hw10. simpl. by rewrite Hc, Hs8.
Qed.
End gate.

(** ** A server for concrete runs

    The clock ticks once per reading, no statement fails, the digest of a text is
    the text, and the newest approval comes first. *)

Definition demo_time (z : Z) : string := "t" +:+ itoa z.
Definition demo_db : GatewayDB store :=
  store_db tick_clock no_fault same_json last demo_time time_error.
#[local] Existing Instance demo_db.

Definition demo_server (policy : option Checker) (planner : option string) : Server :=
  mkServer_ true policy None (Some (λ _ _ _, Ok "wf-1"))
    (option_map (λ text _ _ _ _, Ok text) planner) None None None false false false [] tick_clock
    demo_time (λ _, None).

Definition gateway0 : gateway store := mkGateway empty_store no_gates 0 new_hub [].

Definition demo_request (method path : string) (body : doc) : call_ctx :=
  mkCall_ (mkReq method path (λ _, "") (λ _, "") body) None.

Definition demo_context : json :=
  JObj [("tenant_id", JStr "t1"); ("environment", JStr "dev"); ("cluster_id", JStr "c1");
        ("namespace", JStr "web"); ("aws_account_id", JStr "a1"); ("region", JStr "r1");
        ("argocd_project", JStr "p1"); ("grafana_org_id", JStr "g1")].

Definition create_request (intent : string) : call_ctx :=
  demo_request "POST" "/v1/plans" (doc_json (JObj [("summary", JStr "s"); ("trigger", JStr "manual");
    ("context", demo_context); ("intent", JStr intent)])).
Definition execute_request (planID : string) : call_ctx :=
  demo_request "POST" ("/v1/plans/" +:+ planID +:+ ":execute") doc_empty.
Definition approve_request (planID status : string) : call_ctx :=
  demo_request "POST" "/v1/approvals"
    (doc_json (JObj [("plan_id", JStr planID); ("status", JStr status)])).

(** The policy engine allows everything; it is down. *)
Definition allow_all : Checker := λ _, Ok (plain_decision "allow").
Definition policy_down : Checker := λ _, Err "connection refused".

(** A planner's answer: one step that deletes a pod. *)
Definition delete_text : string :=
  print_json (JArr [JObj [("action", JStr "delete"); ("tool", JStr "kubectl");
    ("input", JObj [("resource", JStr "pod/web")]); ("stage", JStr "verify")]]).

(** ** Theorems *)

(** C2: over any database that keeps its interface's promises, a request to
    execute a plan either is refused, creates no execution and tells the workflow
    engine nothing, or is answered 200, creates exactly one pending execution of that
    plan, starts it with the steps and the context that were checked and nothing else,
    and has passed every check: the plan's session, a complete context, the policy
    decision at the plan's risk and targets, the constraints, an approval when the plan
    is a write, the digest on record when there is one, and no active execution. *)
Theorem execute_is_gated {S E} `{!GatewayDB S} (view : S → E)
    (execs : E → list (string * string * string)) (Hview : ExecView view execs)
    (sv : Server) (cc : call_ctx) (path : string) (w : gateway S) :
  let planID := trim_prefix (trim_suffix path ":execute") plans_prefix in
  let '(r, w') := run_handler (executePlan_ sv cc path) w in
  (refused r ∧ execs (view (g_db w')) = execs (view (g_db w)) ∧ g_out w' = g_out w) ∨
  (Status r = 200%Z ∧ ∃ execID token plan steps,
     gate view sv cc w planID token plan steps ∧
     execs (view (g_db w')) = execs (view (g_db w)) ++ [(execID, planID, "pending")] ∧
     g_out w' = g_out w ++ announced sv planID execID (plan_context plan) steps).
Proof.
  intros planID. pose proof (wp_execute_plan view execs sv cc path w) as H.
  apply wp_run in H. by destruct (run_handler _ w).
Qed.

Lemma execute_is_gated_witness :
  let sv := demo_server (Some allow_all) None in
  let cc := execute_request "plan_0" in
  let '(r, w') := run_handler (executePlan_ sv cc "/v1/plans/plan_0:execute") gateway0 in
  (refused r ∧ exec_triples (core_of (g_db w')) = [] ∧ g_out w' = g_out gateway0) ∨
  (Status r = 200%Z ∧ ∃ execID token plan steps,
     gate core_of sv cc gateway0 "plan_0" token plan steps ∧
     exec_triples (core_of (g_db w')) = [] ++ [(execID, "plan_0", "pending")] ∧
     g_out w' = g_out gateway0 ++ announced sv "plan_0" execID (plan_context plan) steps).
Proof.
  exact (execute_is_gated core_of exec_triples
    (store_exec_view tick_clock no_fault same_json last demo_time time_error)
    (demo_server (Some allow_all) None) (execute_request "plan_0") "/v1/plans/plan_0:execute" gateway0).
Defined.

(** The digest of a plan does not depend on whether a missing stage is
    spelled out: hashing the steps as drafted and as defaulted is the same. *)
Theorem hash_stage_default (sv : Server) (intent : string) (steps : list PlanStep) :
  ComputePlanHash intent (map default_stage steps) = ComputePlanHash intent steps.
Proof.
  unfold ComputePlanHash.
  assert (H : map hash_stage (map default_stage steps) = map hash_stage steps); [|by rewrite H].
  rewrite map_map. apply map_ext. intros s.
  unfold hash_stage, default_stage. destruct (blank (Stage s)) eqn:E; [done|by rewrite E].
Qed.

(** The page a list request asks for: the limit is between 1 and 200 and the
    offset is not negative, whatever the query says; and these are values the
    database's own clamping keeps. *)
Theorem parsePagination_bounds (query : string → string) :
  let '(limit, offset) := parsePagination query in
  (1 ≤ limit ≤ 200)%Z ∧ (0 ≤ offset)%Z ∧ clampPagination limit offset = (limit, offset).
Proof.
  unfold parsePagination, clampPagination.
  assert (Hl : ∀ o : option Z, (∀ n, o = Some n → 0 < n)%Z → (0 < default 50 o)%Z).
  { intros [n|] Hn; simpl; [by apply Hn|lia]. }
  set (l0 := if query "limit" =? "" then 50%Z else _).
  set (o0 := if query "offset" =? "" then 0%Z else _).
  assert (0 < l0)%Z.
  { unfold l0. case_match; [lia|]. apply Hl. intros n. case_match; [|done].
    case_match; [|done]. bool_hyps. by intros [= <-]. }
  assert (0 ≤ o0)%Z.
  { unfold o0. case_match; [lia|]. case_match; [|simpl; lia].
    destruct (Z.leb_spec 0 a); simpl; lia. }
  clearbody l0 o0.
  destruct (Z.ltb_spec 200 l0); repeat split; try lia;
    destruct (Z.ltb_spec o0 0); try lia; [done|].
  destruct (Z.leb_spec l0 0); [lia|]. destruct (Z.ltb_spec 200 l0); [lia|done].
Qed.
