(* ===== verification/Registry.v ===== *)
(** * Registry: sessions, playbooks, runbooks and operator memory over HTTP

    internal/web's sessions.go, playbooks.go, runbooks.go with runbook_files.go,
    and operator_memory.go with operator_memory_files.go.  The handlers work on
    any database with the operations of [LibraryDB]; Library's are an instance.

    A file of the workspace is read by [read_file]; its path is given by its
    components. *)

From S2P Require Import Prelude GoStrings Json Digest ContextRef Steps Policy Constraints Hubs Http.
From S2P Require Import Shelves Store Library EventGate Gateway Plans.

Local Open Scope string_scope.
Local Open Scope list_scope.

(** ** The database interface *)

(** The interface OperatorMemoryStore the handlers assert on the database. *)
Record MemoryStore (S : Type) := mkMemoryStore {
  mem_Create : doc → S → result string * S;
  mem_List : string → S → result json * S;
  mem_Get : string → S → result (option json) * S;
  mem_Update : string → doc → S → result unit * S;
  mem_Delete : string → S → result unit * S }.
Arguments mem_Create {S}.
Arguments mem_List {S}.
Arguments mem_Get {S}.
Arguments mem_Update {S}.
Arguments mem_Delete {S}.

(** The rest of DBWriter. *)
Class LibraryDB (S : Type) := {
  lib_CreateSession : doc → S → result string * S;
  lib_ListSessions : Z → Z → S → result (json * Z) * S;
  lib_GetSession : string → S → result (option json) * S;
  lib_UpdateSession : string → doc → S → result unit * S;
  lib_DeleteSession : string → S → result unit * S;
  lib_AddSessionMember : string → doc → S → result unit * S;
  lib_ListSessionMembers : string → S → result json * S;
  lib_CreatePlaybook : doc → S → result string * S;
  lib_ListPlaybooks : Z → Z → S → result (json * Z) * S;
  lib_GetPlaybook : string → S → result (option json) * S;
  lib_DeletePlaybook : string → S → result unit * S;
  lib_CreateRunbook : doc → S → result string * S;
  lib_ListRunbooks : Z → Z → S → result (json * Z) * S;
  lib_GetRunbook : string → S → result (option json) * S;
  lib_DeleteRunbook : string → S → result unit * S;
  lib_CreateWorkflowCatalog : doc → S → result string * S;
  lib_ListWorkflowCatalog : Z → Z → S → result (json * Z) * S;
  lib_ListContextServices : Z → Z → S → result (json * Z) * S;
  lib_ListContextSnapshots : Z → Z → S → result (json * Z) * S;
  lib_GetContextSnapshot : string → S → result (option json) * S;
  lib_ListAuditEvents : AuditFilter → S → result (json * Z) * S;
  lib_memory : option (MemoryStore S) }.

Definition store_library (clock : nat → Z) (fault : nat → option string) (jsonb : json → json)
    (time_text : Z → string) (json_text : json → string) : LibraryDB store := {|
  lib_CreateSession := CreateSession clock fault jsonb;
  lib_ListSessions := ListSessions fault time_text;
  lib_GetSession := GetSession fault time_text;
  lib_UpdateSession := UpdateSession clock fault jsonb;
  lib_DeleteSession := DeleteSession fault;
  lib_AddSessionMember := AddSessionMember clock fault;
  lib_ListSessionMembers := ListSessionMembers fault time_text;
  lib_CreatePlaybook := CreatePlaybook clock fault jsonb;
  lib_ListPlaybooks := ListPlaybooks fault time_text;
  lib_GetPlaybook := GetPlaybook fault time_text;
  lib_DeletePlaybook := DeletePlaybook fault;
  lib_CreateRunbook := CreateRunbook clock fault jsonb;
  lib_ListRunbooks := ListRunbooks fault time_text;
  lib_GetRunbook x s := let '(r, s') := GetRunbook fault time_text x s in (Some <$> r, s');
  lib_DeleteRunbook := DeleteRunbook fault;
  lib_CreateWorkflowCatalog := CreateWorkflowCatalog clock fault jsonb;
  lib_ListWorkflowCatalog := ListWorkflowCatalog fault time_text;
  lib_ListContextServices := ListContextServices fault;
  lib_ListContextSnapshots := ListContextSnapshots fault time_text;
  lib_GetContextSnapshot := GetContextSnapshot fault time_text;
  lib_ListAuditEvents := ListAuditEvents fault time_text json_text;
  lib_memory := Some (mkMemoryStore _ (CreateOperatorMemory clock fault jsonb)
    (ListOperatorMemory fault time_text) (GetOperatorMemory fault time_text)
    (UpdateOperatorMemory clock fault jsonb) (DeleteOperatorMemory fault)) |}.

(** ** Requests *)

(** A map[string]any field; [None] is the nil map. *)
Definition fld_map : string → list (string * json) → result (option (gmap string any)) :=
  λ name, fld (λ a x, match x with
    | JNull => Ok None
    | _ => m ← decode_map x; Ok (Some (m ∪ default ∅ a)) end) name None.
Definition map_any (m : option (gmap string any)) : any :=
  match m with Some m => AMap m | None => ANil end.

(** A []string field; [None] is the nil slice, and a null element is empty. *)
Definition decode_element (j : json) : option string :=
  match j with JStr s => Some s | JNull => Some "" | _ => None end.
Definition fld_strings : string → list (string * json) → result (option (list string)) :=
  λ name, fld (λ _ x, match x with
    | JArr l => l ← of_option json_error (opt_map decode_element l); Ok (Some l)
    | JNull => Ok None
    | _ => Err json_error end) name None.
Definition strings_any (l : option (list string)) : any :=
  match l with Some l => AStrs l | None => ANil end.

Record SessionRequest := mkSessionReq {
  sq_Name : string; sq_TenantID : string; sq_GroupID : string; sq_OwnerActorID : string;
  sq_Metadata : option (gmap string any) }.

Definition decode_session_request (j : json) : result SessionRequest :=
  fs ← Json.members j;
  n ← fld_string "name" fs; t ← fld_string "tenant_id" fs; g ← fld_string "group_id" fs;
  o ← fld_string "owner_actor_id" fs; md ← fld_map "metadata" fs;
  Ok (mkSessionReq n t g o md).

Record PlaybookCreateRequest := mkPlaybookReq {
  pq_TenantID : string; pq_Name : string; pq_Version : Z; pq_Tags : option (list string);
  pq_Spec : any }.

Definition decode_playbook_request (j : json) : result PlaybookCreateRequest :=
  fs ← Json.members j;
  t ← fld_string "tenant_id" fs; n ← fld_string "name" fs; v ← fld_int "version" fs;
  tg ← fld_strings "tags" fs; sp ← fld_any "spec" fs;
  Ok (mkPlaybookReq t n v tg sp).

Record RunbookCreateRequest := mkRunbookReq {
  bq_TenantID : string; bq_Service : string; bq_Name : string; bq_Version : Z;
  bq_Tags : option json; bq_Body : string; bq_Spec : option json }.

Definition decode_runbook_request (j : json) : result RunbookCreateRequest :=
  fs ← Json.members j;
  t ← fld_string "tenant_id" fs; s ← fld_string "service" fs; n ← fld_string "name" fs;
  v ← fld_int "version" fs; tg ← fld_raw "tags" fs; b ← fld_string "body" fs;
  sp ← fld_raw "spec" fs;
  Ok (mkRunbookReq t s n v tg b sp).

Definition runbook_request_any (r : RunbookCreateRequest) : any :=
  AStruct "RunbookCreateRequest" [("tenant_id", AStr (bq_TenantID r));
    ("service", AStr (bq_Service r)); ("name", AStr (bq_Name r)); ("version", AInt (bq_Version r));
    ("tags", raw_any (bq_Tags r)); ("body", AStr (bq_Body r)); ("spec", raw_any (bq_Spec r))].

Record OperatorMemoryRequest := mkMemoryReq {
  mq_TenantID : string; mq_Title : string; mq_Body : string; mq_Tags : option (list string);
  mq_Metadata : option (gmap string any); mq_OwnerActorID : string }.

Definition decode_memory_request (j : json) : result OperatorMemoryRequest :=
  fs ← Json.members j;
  t ← fld_string "tenant_id" fs; ti ← fld_string "title" fs; b ← fld_string "body" fs;
  tg ← fld_strings "tags" fs; md ← fld_map "metadata" fs; o ← fld_string "owner_actor_id" fs;
  Ok (mkMemoryReq t ti b tg md o).

(** ** Files of the workspace *)

Inductive file_read := NotExist | ReadError (e : string) | Contents (d : doc).

Definition load_entries {A} (decode : json → result A) (read_file : list string → file_read)
    (workspaceDir file : string) : result (list A) :=
  let workspaceDir := TrimSpace workspaceDir in
  if workspaceDir =? "" then Ok []
  else match read_file [workspaceDir; "memory"; file] with
  | NotExist => Ok []
  | ReadError e => Err e
  | Contents d =>
      j ← unmarshal d;
      match j with
      | JNull => Ok []
      | JArr l => of_option json_error
          (opt_map (λ x, match decode x with Ok a => Some a | Err _ => None end) l)
      | _ => Err json_error
      end
  end.

Definition LoadRunbooks := λ read_file dir,
  load_entries decode_runbook_request read_file dir "runbooks.json".
Definition LoadOperatorMemory := λ read_file dir,
  load_entries decode_memory_request read_file dir "operator_memory.json".

(** json.Marshal of a slice of maps: a nil one (decoded from null) is null. *)
Definition items_json (payload : json) (items : list (gmap string any)) : json :=
  match payload with
  | JNull => JNull
  | _ => match marshal (AList (map AMap items)) with Ok j => j | Err _ => JNull end
  end.

Definition filterSessions (payload : json) (tenantID groupID : string) : result json :=
  items ← decode_maps payload;
  let tenantID := TrimSpace tenantID in
  let groupID := TrimSpace groupID in
  let has key want (item : gmap string any) :=
    (want =? "") || match mget item key with AStr v => v =? want | _ => false end in
  marshal (AList (map AMap
    (List.filter (λ item, has "tenant_id" tenantID item && has "group_id" groupID item) items))).

Definition runbookKey (item : gmap string any) : string :=
  let text key := TrimSpace (default "" (as_string (mget item key))) in
  let version := match mget item "version" with
                 | AInt v => v | AFloat f => float_to_int f | _ => 0%Z end in
  if (text "service" =? "") || (text "name" =? "") then ""
  else join ([text "service"; text "name"; itoa version] ++
             (if text "tenant_id" =? "" then [] else [text "tenant_id"])) ":".

(** The items of the database, then those of the file whose key is new; the
    items without a key are all kept. *)
Fixpoint merge_new {A} (key : A → string) (nokey : string) (seen : gset string) (l : list A) :
    list A :=
  match l with
  | [] => []
  | a :: l' =>
      if negb (key a =? nokey) && bool_decide (key a ∈ seen) then merge_new key nokey seen l'
      else a :: merge_new key nokey ({[key a]} ∪ seen) l'
  end.

Definition runbook_item (r : RunbookCreateRequest) : gmap string any :=
  amap [("tenant_id", AStr (bq_TenantID r)); ("service", AStr (bq_Service r));
    ("name", AStr (bq_Name r)); ("version", AInt (bq_Version r)); ("tags", raw_any (bq_Tags r));
    ("body", AStr (bq_Body r)); ("spec", raw_any (bq_Spec r))].

Definition combine_runbooks (tenantID : string) (items : list (gmap string any))
    (files : list RunbookCreateRequest) : list (gmap string any) :=
  let mine := List.filter (λ r, tenantMatch (TrimSpace (bq_TenantID r)) tenantID false) files in
  items ++ merge_new runbookKey "" (list_to_set (map runbookKey items)) (map runbook_item mine).

Definition memory_item_key (item : gmap string any) : string :=
  TrimSpace (tenantFromMap item) +:+ ":" +:+ TrimSpace (stringFromMap item ["title"]).
Definition memory_entry_key (e : OperatorMemoryRequest) : string :=
  TrimSpace (mq_TenantID e) +:+ ":" +:+ TrimSpace (mq_Title e).

(** The entries of the tenant the database has none of the same title of. *)
Definition new_entries (tenant : string) (items : list (gmap string any))
    (files : list OperatorMemoryRequest) : list OperatorMemoryRequest :=
  merge_new memory_entry_key ""
    (list_to_set (List.filter (λ k, negb (k =? ":")) (map memory_item_key items)))
    (List.filter (λ e, tenantMatch (mq_TenantID e) tenant false) files).

Section handlers.
Context {S : Type} `{!GatewayDB S} `{!LibraryDB S}.
Variable sv : Server.
Variable cc : call_ctx.
Variable workspaceDir : string.
Variable read_file : list string → file_read.

Notation world := (gateway S).
Notation body := (handler world Response Response).

Definition not_found : Response := http_error "404 page not found" 404.
Definition tenant_ref (tenantID : string) : ContextRef :=
  mkContextRef tenantID "" "" "" "" "" "" "".
Definition header (key : string) : string := TrimSpace (Header (cc_req cc) key).
Definition info (key value : string) : any := AMap (amap [(key, AStr value)]).

Section steps.
Context {A : Type}.

(** [if err != nil { http.Error(w, msg, status); return }] *)
Definition or_error (r : result A) (msg : string) (status : Z) : handler world Response A :=
  or_return r (λ _, return_ (http_error msg status)).

Definition decode_body (decode : json → result A) : handler world Response A :=
  or_error (j ← unmarshal (Body (cc_req cc)); decode j) "invalid json" 400.
End steps.

(** policyCheck of a write, and its refusal. *)
Definition require_write (action : string) (ref : ContextRef) (ctx : any) :
    handler world Response unit :=
  ok ← gateway_check sv cc action "write" ref "low" 0;
  or_return ok (λ e, deny sv cc action ctx e "policy denied" 403).

Definition require_read (action : string) (ctx : any) : handler world Response unit :=
  ok ← policyCheckRead sv cc action;
  or_return ok (λ e, deny sv cc action ctx e "policy denied" 403).

(** The tenant of the X-Tenant-Id header, checked for a read. *)
Definition require_tenant : handler world Response string :=
  _ ← return_if (header "X-Tenant-Id" =? "") (http_error "tenant_id required" 400);
  mret (header "X-Tenant-Id").
Definition require_tenant_read (action tenantID : string) (ctx : any) :
    handler world Response unit :=
  ok ← policyCheckTenantRead sv cc action tenantID;
  or_return ok (λ e, deny sv cc action ctx e "policy denied" 403).

Definition allowed (action : string) (ctx : any) : handler world Response unit :=
  auditEvent sv cc action "allow" ctx "".

Definition no_content : Response := mkResp 204 Empty.

(** ** Sessions *)

Definition session_payload (req : SessionRequest) : list (string * any) :=
  [("name", AStr (sq_Name req)); ("tenant_id", AStr (sq_TenantID req));
   ("group_id", AStr (sq_GroupID req)); ("owner_actor_id", AStr (sq_OwnerActorID req));
   ("metadata", map_any (sq_Metadata req))].

Definition decode_session : handler world Response SessionRequest :=
  req ← decode_body decode_session_request;
  _ ← return_if (blank (sq_Name req) || blank (sq_TenantID req))
        (http_error "name and tenant_id required" 400);
  mret req.

Definition createSession : body :=
  req ← decode_session;
  _ ← require_write "session.create" (tenant_ref (sq_TenantID req))
        (info "tenant_id" (sq_TenantID req));
  now ← now_ sv;
  data ← or_error (marshal (AMap (amap (session_payload req ++
           [("created_at", AStr (sv_rfc3339 sv now))])))) "encode error" 500;
  id ← on_db (lib_CreateSession (doc_json data));
  id ← or_error id "db error" 500;
  _ ← allowed "session.create" (info "session_id" id);
  mret (ok_json (info "session_id" id)).

(** The filter's tenant is the query's before it is the header's. *)
Definition listSessions : body :=
  _ ← require_read "session.list" (AMap ∅);
  let '(limit, offset) := parsePagination (Query (cc_req cc)) in
  rows ← on_db (lib_ListSessions limit offset);
  '(payload, total) ← or_error rows "db error" 500;
  let tenant := TrimSpace (Query (cc_req cc) "tenant_id") in
  let tenant := if tenant =? "" then header "X-Tenant-Id" else tenant in
  let group := TrimSpace (Query (cc_req cc) "group_id") in
  if (tenant =? "") && (group =? "") then mret (paginatedResponse payload limit offset total)
  else
    filtered ← or_error (filterSessions payload tenant group) "encode error" 500;
    mret (paginatedResponse filtered limit offset total).

Definition handleSessions : body :=
  if Method (cc_req cc) =? "POST" then _ ← has_db sv; createSession
  else if Method (cc_req cc) =? "GET" then _ ← has_db sv; listSessions
  else mret StatusMethodNotAllowed.

Definition getSession (sessionID : string) : body :=
  _ ← require_read "session.get" (info "session_id" sessionID);
  payload ← on_db (lib_GetSession sessionID);
  payload ← or_error payload "db error" 500;
  match payload with
  | None => mret not_found
  | Some j => mret (mkResp 200 (Raw (doc_json j)))
  end.

Definition updateSession (sessionID : string) : body :=
  req ← decode_session;
  _ ← require_write "session.update" (tenant_ref (sq_TenantID req)) (info "session_id" sessionID);
  data ← or_error (marshal (AMap (amap (session_payload req)))) "encode error" 500;
  ok ← on_db (lib_UpdateSession sessionID (doc_json data));
  _ ← or_error ok "db error" 500;
  _ ← allowed "session.update" (info "session_id" sessionID);
  mret no_content.

Definition deleteSession (sessionID : string) : body :=
  _ ← require_write "session.delete" empty_ref (info "session_id" sessionID);
  ok ← on_db (lib_DeleteSession sessionID);
  _ ← or_error ok "db error" 500;
  _ ← allowed "session.delete" (info "session_id" sessionID);
  mret no_content.

Definition decode_member (j : json) : result (string * string) :=
  fs ← Json.members j;
  m ← fld_string "member_id" fs; r ← fld_string "role" fs; Ok (m, r).

Definition addSessionMember (sessionID : string) : body :=
  '(member, role) ← decode_body decode_member;
  _ ← return_if (blank member || blank role) (http_error "member_id and role required" 400);
  _ ← require_write "session.member.add" empty_ref (info "session_id" sessionID);
  data ← or_error (marshal (AMap (amap [("member_id", AStr member); ("role", AStr role)])))
           "encode error" 500;
  ok ← on_db (lib_AddSessionMember sessionID (doc_json data));
  _ ← or_error ok "db error" 500;
  _ ← allowed "session.member.add" (AMap (amap [("session_id", AStr sessionID);
                                                ("member_id", AStr member)]));
  mret no_content.

Definition listSessionMembers (sessionID : string) : body :=
  _ ← require_read "session.member.list" (info "session_id" sessionID);
  payload ← on_db (lib_ListSessionMembers sessionID);
  payload ← or_error payload "db error" 500;
  mret (mkResp 200 (Raw (doc_json payload))).

(** strings.Trim(path, "/") *)
Definition trim_slashes (path : string) : string :=
  srev (trim_with ["/"] (srev (trim_with ["/"] path))).

Definition session_required (sessionID : string) : handler world Response unit :=
  _ ← return_if (sessionID =? "") (http_error "session_id required" 400);
  has_db sv.

Definition handleSessionMembers : body :=
  let path := trim_suffix (trim_prefix (Path (cc_req cc)) "/v1/sessions/") "/members" in
  let sessionID := trim_slashes path in
  _ ← session_required sessionID;
  if Method (cc_req cc) =? "POST" then addSessionMember sessionID
  else if Method (cc_req cc) =? "GET" then listSessionMembers sessionID
  else mret StatusMethodNotAllowed.

Definition handleSessionByID : body :=
  let path := trim_prefix (Path (cc_req cc)) "/v1/sessions/" in
  if has_suffix path "/members" then handleSessionMembers
  else
    let sessionID := trim_slashes path in
    _ ← session_required sessionID;
    if Method (cc_req cc) =? "GET" then getSession sessionID
    else if Method (cc_req cc) =? "PUT" then updateSession sessionID
    else if Method (cc_req cc) =? "DELETE" then deleteSession sessionID
    else mret StatusMethodNotAllowed.

(** ** Playbooks *)

(** The tenant of a body and of the header, which must agree. *)
Definition body_tenant (bodyTenant : string) : handler world Response string :=
  or_return (resolveTenant bodyTenant (Header (cc_req cc) "X-Tenant-Id"))
    (λ e, return_ (http_error e 400)).

Definition created (action idKey id : string) (more : list (string * any)) : body :=
  _ ← allowed action (AMap (amap ((idKey, AStr id) :: more)));
  mret (ok_json (info idKey id)).

Definition createPlaybook : body :=
  req ← decode_body decode_playbook_request;
  _ ← return_if (blank (pq_Name req)) (http_error "name required" 400);
  tenantID ← body_tenant (pq_TenantID req);
  let version := if (pq_Version req =? 0)%Z then 1%Z else pq_Version req in
  _ ← return_if (match pq_Spec req with ANil => true | _ => false end)
        (http_error "spec required" 400);
  _ ← require_write "playbook.create" (tenant_ref tenantID) (info "name" (pq_Name req));
  now ← now_ sv;
  data ← or_error (marshal (AMap (amap [("tenant_id", AStr tenantID); ("name", AStr (pq_Name req));
           ("version", AInt version); ("tags", strings_any (pq_Tags req)); ("spec", pq_Spec req);
           ("created_at", AStr (sv_rfc3339 sv now))]))) "encode error" 500;
  id ← on_db (lib_CreatePlaybook (doc_json data));
  id ← or_error id "db error" 500;
  created "playbook.create" "playbook_id" id [("name", AStr (pq_Name req))].

Definition listPlaybooks : body :=
  tenantID ← require_tenant;
  _ ← require_tenant_read "playbook.list" tenantID (AMap ∅);
  let '(limit, offset) := parsePagination (Query (cc_req cc)) in
  rows ← on_db (lib_ListPlaybooks limit offset);
  '(payload, total) ← or_error rows "db error" 500;
  filtered ← or_error (filterJSONByTenant (doc_json payload) tenantID false) "encode error" 500;
  mret (paginatedResponse filtered limit offset total).

Definition handlePlaybooks : body :=
  if Method (cc_req cc) =? "POST" then _ ← has_db sv; createPlaybook
  else if Method (cc_req cc) =? "GET" then _ ← has_db sv; listPlaybooks
  else mret StatusMethodNotAllowed.

(** A stored item is shown to the tenant it names. *)
Definition show_item (payload : result (option json)) (tenantID : string) : body :=
  payload ← or_error payload "db error" 500;
  match payload with
  | None => mret not_found
  | Some j =>
      item ← or_error (decode_map j) "decode error" 500;
      if tenantMatch (tenantFromMap item) tenantID false then mret (mkResp 200 (Raw (doc_json j)))
      else mret not_found
  end.

Definition getPlaybook (playbookID : string) : body :=
  tenantID ← require_tenant;
  _ ← return_if (blank playbookID) (http_error "playbook_id required" 400);
  _ ← require_tenant_read "playbook.get" tenantID (info "playbook_id" playbookID);
  payload ← on_db (lib_GetPlaybook playbookID);
  show_item payload tenantID.

(** No tenant, no policy check and no audit event. *)
Definition deletePlaybook (playbookID : string) : body :=
  ok ← on_db (lib_DeletePlaybook playbookID);
  _ ← or_error ok "delete failed" 500;
  mret no_content.

Definition handlePlaybookByID : body :=
  let playbookID := trim_prefix (Path (cc_req cc)) "/v1/playbooks/" in
  if Method (cc_req cc) =? "GET" then _ ← has_db sv; getPlaybook playbookID
  else if Method (cc_req cc) =? "DELETE" then _ ← has_db sv; deletePlaybook playbookID
  else mret StatusMethodNotAllowed.

(** ** Runbooks *)

Definition with_tenant (tenantID : string) (r : RunbookCreateRequest) : RunbookCreateRequest :=
  mkRunbookReq tenantID (bq_Service r) (bq_Name r) (bq_Version r) (bq_Tags r) (bq_Body r) (bq_Spec r).

Definition createRunbook : body :=
  req ← decode_body decode_runbook_request;
  _ ← return_if (blank (bq_Service req) || blank (bq_Name req))
        (http_error "service and name required" 400);
  tenantID ← body_tenant (bq_TenantID req);
  _ ← require_write "runbook.create" (tenant_ref tenantID) (info "name" (bq_Name req));
  data ← or_error (marshal (runbook_request_any (with_tenant tenantID req))) "encode error" 500;
  id ← on_db (lib_CreateRunbook (doc_json data));
  id ← or_error id "db error" 500;
  created "runbook.create" "runbook_id" id [("name", AStr (bq_Name req))].

(** The files of the workspace, when they can be read and there are some. *)
Definition workspace_files {A} (load : (list string → file_read) → string → result (list A)) :
    list A :=
  if workspaceDir =? "" then []
  else match load read_file workspaceDir with Ok l => l | Err _ => [] end.

Definition listRunbooks : body :=
  tenantID ← require_tenant;
  _ ← require_tenant_read "runbook.list" tenantID (AMap ∅);
  let '(limit, offset) := parsePagination (Query (cc_req cc)) in
  rows ← on_db (lib_ListRunbooks limit offset);
  '(payload, total) ← or_error rows "db error" 500;
  items ← or_error (decode_maps payload) "decode error" 500;
  let items := filterItemsByTenant items tenantID false in
  let out := match workspace_files LoadRunbooks with
             | [] => items_json payload items
             | files => items_json (JArr []) (combine_runbooks tenantID items files)
             end in
  mret (paginatedResponse out limit offset total).

Definition handleRunbooks : body :=
  if Method (cc_req cc) =? "POST" then _ ← has_db sv; createRunbook
  else if Method (cc_req cc) =? "GET" then _ ← has_db sv; listRunbooks
  else mret StatusMethodNotAllowed.

Definition getRunbook (runbookID : string) : body :=
  tenantID ← require_tenant;
  _ ← return_if (blank runbookID) (http_error "runbook_id required" 400);
  _ ← require_tenant_read "runbook.get" tenantID (info "runbook_id" runbookID);
  payload ← on_db (lib_GetRunbook runbookID);
  show_item payload tenantID.

Definition deleteRunbook (runbookID : string) : body :=
  ok ← on_db (lib_DeleteRunbook runbookID);
  _ ← or_error ok "delete failed" 500;
  mret no_content.

Definition handleRunbookByID : body :=
  let runbookID := trim_prefix (Path (cc_req cc)) "/v1/runbooks/" in
  if Method (cc_req cc) =? "GET" then _ ← has_db sv; getRunbook runbookID
  else if Method (cc_req cc) =? "DELETE" then _ ← has_db sv; deleteRunbook runbookID
  else mret StatusMethodNotAllowed.

(** ** Operator memory *)

Definition memory_store : handler world Response (MemoryStore S) :=
  or_error (of_option "" (if sv_DB sv then lib_memory else None)) "store unavailable" 503.

Definition fileMemoryID (e : OperatorMemoryRequest) : string :=
  "file_" +:+ take_bytes 16 (sha256_hex
    (TrimSpace (mq_TenantID e) +:+ ":" +:+ TrimSpace (mq_Title e) +:+ ":" +:+ TrimSpace (mq_Body e))).

Definition memory_fields (req : OperatorMemoryRequest) : list (string * any) :=
  [("title", AStr (mq_Title req)); ("body", AStr (mq_Body req)); ("tags", strings_any (mq_Tags req));
   ("metadata", map_any (mq_Metadata req)); ("owner_actor_id", AStr (mq_OwnerActorID req))].
Definition memory_item (memoryID : string) (e : OperatorMemoryRequest) : gmap string any :=
  amap ([("memory_id", AStr memoryID); ("tenant_id", AStr (mq_TenantID e))] ++ memory_fields e ++
        [("source", AStr "file")]).

Definition decode_memory : handler world Response (OperatorMemoryRequest * string) :=
  req ← decode_body decode_memory_request;
  tenant ← body_tenant (mq_TenantID req);
  _ ← return_if (blank (mq_Title req) || blank (mq_Body req)) (http_error "title and body required" 400);
  mret (req, tenant).

Definition createMemory (store : MemoryStore S) : body :=
  '(req, tenant) ← decode_memory;
  _ ← require_write "memory.create" (tenant_ref tenant) (info "tenant_id" tenant);
  now ← now_ sv;
  data ← or_error (marshal (AMap (amap ([("tenant_id", AStr tenant)] ++ memory_fields req ++
           [("created_at", AStr (sv_rfc3339 sv now))])))) "encode error" 500;
  id ← on_db (mem_Create store (doc_json data));
  id ← or_error id "db error" 500;
  created "memory.create" "memory_id" id [("tenant_id", AStr tenant)].

Definition listMemory (store : MemoryStore S) : body :=
  let tenant := TrimSpace (Query (cc_req cc) "tenant_id") in
  let tenant := if tenant =? "" then header "X-Tenant-Id" else tenant in
  _ ← return_if (tenant =? "") (http_error "tenant_id required" 400);
  _ ← require_tenant_read "memory.list" tenant (info "tenant_id" tenant);
  payload ← on_db (mem_List store tenant);
  payload ← or_error payload "db error" 500;
  items ← or_error (decode_maps payload) "decode error" 500;
  mret (ok_json
    match workspace_files LoadOperatorMemory, payload with
    | [], JNull => ANil
    | files, _ => AList (map AMap (items ++ map (λ e, memory_item (fileMemoryID e) e)
                                              (new_entries tenant items files)))
    end).

Definition handleOperatorMemory : body :=
  store ← memory_store;
  if Method (cc_req cc) =? "POST" then createMemory store
  else if Method (cc_req cc) =? "GET" then listMemory store
  else mret StatusMethodNotAllowed.

(** An entry of the workspace, by the digest of its texts. *)
Definition file_memory (memoryID tenantID : string) : Response :=
  match List.find (λ e, tenantMatch (mq_TenantID e) tenantID false && (fileMemoryID e =? memoryID))
          (workspace_files LoadOperatorMemory) with
  | Some e => ok_json (AMap (memory_item memoryID e))
  | None => not_found
  end.

Definition getMemory (store : MemoryStore S) (memoryID : string) : body :=
  tenantID ← require_tenant;
  _ ← require_tenant_read "memory.get" tenantID (info "memory_id" memoryID);
  payload ← on_db (mem_Get store memoryID);
  payload ← or_error payload "db error" 500;
  match payload with
  | None => mret (file_memory memoryID tenantID)
  | Some j =>
      item ← or_error (decode_map j) "decode error" 500;
      if tenantMatch (tenantFromMap item) tenantID false then mret (mkResp 200 (Raw (doc_json j)))
      else mret (file_memory memoryID tenantID)
  end.

Definition updateMemory (store : MemoryStore S) (memoryID : string) : body :=
  '(req, tenant) ← decode_memory;
  let ctx := AMap (amap [("memory_id", AStr memoryID); ("tenant_id", AStr tenant)]) in
  _ ← require_write "memory.update" (tenant_ref tenant) ctx;
  data ← or_error (marshal (AMap (amap (("tenant_id", AStr tenant) :: memory_fields req))))
           "encode error" 500;
  ok ← on_db (mem_Update store memoryID (doc_json data));
  _ ← or_error ok "db error" 500;
  _ ← allowed "memory.update" ctx;
  mret no_content.

Definition deleteMemory (store : MemoryStore S) (memoryID : string) : body :=
  tenant ← require_tenant;
  _ ← require_write "memory.delete" (tenant_ref tenant) (info "memory_id" memoryID);
  ok ← on_db (mem_Delete store memoryID);
  _ ← or_error ok "db error" 500;
  _ ← allowed "memory.delete" (info "memory_id" memoryID);
  mret no_content.

Definition handleOperatorMemoryByID : body :=
  store ← memory_store;
  let memoryID := trim_slashes (trim_prefix (Path (cc_req cc)) "/v1/memory/") in
  _ ← return_if (memoryID =? "") (http_error "memory_id required" 400);
  if Method (cc_req cc) =? "GET" then getMemory store memoryID
  else if Method (cc_req cc) =? "PUT" then updateMemory store memoryID
  else if Method (cc_req cc) =? "DELETE" then deleteMemory store memoryID
  else mret StatusMethodNotAllowed.
End handlers.
