(* ===== verification/RegistryLaws.v ===== *)
(** * RegistryLaws: what the registry's handlers guarantee, and what they do not

    Reads are confined to the tenant of the request; the writes that ask the
    policy are made only when it allows them; and the cases, by concrete runs,
    in which one tenant reaches another's rows. *)

From S2P Require Import Prelude GoStrings Json ContextRef Steps Policy Constraints Hubs Http.
From S2P Require Import Shelves Store Library LibraryLaws EventGate Gateway Plans Registry.

Local Open Scope string_scope.
Local Open Scope list_scope.

(** ** Helpers *)

(** An answer that shows nothing but items of the tenant. *)
Definition of_tenant (tenant : string) (m : gmap string any) : Prop := tenantFromMap m = tenant.

Inductive serves (tenant : string) : Response → Prop :=
| serves_refusal r : refused r → serves tenant r
| serves_stored j m : decode_map j = Ok m → of_tenant tenant m →
    serves tenant (mkResp 200 (Raw (doc_json j)))
| serves_entry m : of_tenant tenant m → serves tenant (ok_json (AMap m))
| serves_page payload items limit offset total : Forall (of_tenant tenant) items →
    serves tenant (paginatedResponse (items_json payload items) limit offset total)
| serves_list items : Forall (of_tenant tenant) items → serves tenant (ok_json (AList (map AMap items)))
| serves_nothing : serves tenant (ok_json ANil).

Lemma tenantFromMap_trimmed m : TrimSpace (tenantFromMap m) = tenantFromMap m.
Proof. unfold tenantFromMap, tenant_at. case_match; auto using TrimSpace_idemp. Qed.

Lemma match_of_tenant m tenant :
  tenantMatch (tenantFromMap m) (TrimSpace tenant) false = true → of_tenant (TrimSpace tenant) m.
Proof.
  rewrite tenantMatch_true, TrimSpace_idemp, tenantFromMap_trimmed. unfold of_tenant. naive_solver.
Qed.

Lemma filter_of_tenant items tenant :
  Forall (of_tenant (TrimSpace tenant)) (filterItemsByTenant items (TrimSpace tenant) false).
Proof.
  apply List.Forall_forall. intros m [_ Hm]%filter_In. by apply match_of_tenant.
Qed.

Lemma merge_new_in {A} (key : A → string) nokey seen l a : a ∈ merge_new key nokey seen l → a ∈ l.
Proof.
  revert seen. induction l as [|b l IH]; intros seen; simpl; [done|].
  case_match; [intros H'%IH; by right|].
  intros [->|H']%elem_of_cons; [by left|]. right. by eapply IH.
Qed.

Lemma filterJSON_page payload tenant filtered :
  filterJSONByTenant (doc_json payload) (TrimSpace tenant) false = Ok filtered →
  ∃ items, filtered = items_json payload items ∧ Forall (of_tenant (TrimSpace tenant)) items.
Proof.
  unfold filterJSONByTenant. cbn [unmarshal mbind result_bind].
  destruct (decode_maps payload) as [items|]; [|done]. cbn.
  pose proof (filter_of_tenant items tenant) as Hf.
  destruct payload; cbn; intros H; try (by exists []; injection H as <-);
    (exists (filterItemsByTenant items (TrimSpace tenant) false); split; [|done];
     unfold items_json; by rewrite H).
Qed.

Lemma runbook_item_tenant r : tenantFromMap (runbook_item r) = TrimSpace (bq_TenantID r).
Proof. unfold tenantFromMap, tenant_at, runbook_item. by rewrite mget_amap_cons. Qed.

Lemma combine_of_tenant tenant items files :
  Forall (of_tenant (TrimSpace tenant)) items →
  Forall (of_tenant (TrimSpace tenant)) (combine_runbooks (TrimSpace tenant) items files).
Proof.
  intros Hi. unfold combine_runbooks. apply Forall_app. split; [done|].
  apply Forall_forall. intros m (r & -> & [_ Hr]%list_elem_of_In%filter_In)%merge_new_in%list_elem_of_fmap.
  apply tenantMatch_true in Hr. rewrite !TrimSpace_idemp in Hr.
  unfold of_tenant. rewrite runbook_item_tenant. naive_solver.
Qed.

(** ** The helpers of the handlers *)

Section wp_registry.
Context {S E : Type} `{!GatewayDB S}.
Variable view : S → E.
Context `{!ReadFrame view}.
Variable sv : Server.
Variable cc : call_ctx.
Implicit Types (w : gateway S) (F : Response → gateway S → Prop).
Local Notation same := (same view).

Lemma wp_or_error {A} (r : result A) msg status Q F w :
  (∀ a, r = Ok a → Q a w) → F (http_error msg status) w → wp (or_error r msg status) Q F w.
Proof.
  intros HQ HF. apply wp_or_return. split; [done|]. intros e _. by apply wp_return.
Qed.

Lemma wp_or_deny {A} (r : result A) action ctx msg status Q F w :
  (∀ a, r = Ok a → Q a w) → (∀ w', same w w' → F (http_error msg status) w') →
  wp (or_return r (λ e, deny sv cc action ctx e msg status)) Q F w.
Proof.
  intros HQ HF. apply wp_or_return. split; [done|]. intros e _. by apply (wp_deny view).
Qed.

(** The policy's answer to a write of low risk. *)
Definition policy_allows (action : string) (ref : ContextRef) : Prop :=
  ∃ time dec, policyDecision (sv_Policy sv)
      (mkPolicyEnv (cc_actor cc) (Header (cc_req cc) "X-Break-Glass") time)
      action "write" ref "low" 0 = Ok dec ∧ Decision_ dec = "allow".

Lemma wp_require_write action ref ctx Q F w :
  (policy_allows action ref → ∀ w', same w w' → Q tt w') →
  (∀ w', same w w' → F (http_error "policy denied" 403) w') →
  wp (require_write sv cc action ref ctx) Q F w.
Proof.
  intros HQ HF. unfold require_write. apply wp_bind. unfold gateway_check.
  apply wp_bind, (wp_policy view). intros time w1 Hw1. apply wp_ret, wp_or_deny.
  - intros [] Hok. ok_inv Hok. bool_hyps. apply HQ; [|done]. by exists time, a.
  - intros w2 Hw2. apply HF. by etrans.
Qed.

Lemma wp_require_tenant Q F w :
  (header cc "X-Tenant-Id" ≠ "" → Q (header cc "X-Tenant-Id") w) →
  F (http_error "tenant_id required" 400) w → wp (require_tenant cc) Q F w.
Proof.
  intros HQ HF. apply wp_bind, wp_return_if. split; intros H; bool_hyps; [done|].
  by apply wp_ret, HQ.
Qed.

Lemma wp_tenant_read action tenantID ctx Q F w :
  (∀ w', same w w' → Q tt w') → (∀ w', same w w' → F (http_error "policy denied" 403) w') →
  wp (require_tenant_read sv cc action tenantID ctx) Q F w.
Proof.
  intros HQ HF. unfold require_tenant_read, policyCheckTenantRead.
  apply wp_bind, wp_bind, (wp_session view). intros r w1 Hw1.
  assert (Hor : ∀ (r : result unit) w', same w w' →
    wp (or_return r (λ e, deny sv cc action ctx e "policy denied" 403)) Q F w').
  { intros r' w' Hw'. apply wp_or_deny; [intros [] _; by apply HQ|].
    intros w2 Hw2. apply HF. by etrans. }
  case_match; [|by apply wp_ret, Hor].
  apply (wp_check view). intros r2 w2 Hw2. apply Hor. by etrans.
Qed.

Lemma wp_has_db Q F w :
  (sv_DB sv = true → Q tt w) → F (http_error "db unavailable" 503) w → wp (has_db sv) Q F w.
Proof. intros HQ HF. apply wp_return_if. split; intros H; bool_hyps; auto. Qed.
End wp_registry.

(** ** Reads are confined to a tenant *)

Section reads.
Context {S : Type} `{!GatewayDB S} `{!LibraryDB S}.
Variable sv : Server.
Variable cc : call_ctx.
Variable workspaceDir : string.
Variable read_file : list string → file_read.
Implicit Types w : gateway S.

Let anything (s : S) : unit := tt.
#[local] Instance anything_frame : ReadFrame anything.
Proof. split; intros; red; repeat case_match; done. Qed.

Notation tenant := (header cc "X-Tenant-Id").
Definition confined_to (t : string) (h : handler (gateway S) Response Response) : Prop :=
  ∀ w, serves t (run_handler h w).1.
Definition confined := confined_to tenant.

(** The tenant whose memory is listed: the query's before the header's. *)
Definition queried_tenant : string :=
  let t := TrimSpace (Query (cc_req cc) "tenant_id") in if t =? "" then tenant else t.

(** A store that lists the memory of the tenant it is asked for. *)
Definition lists_by_tenant (st : MemoryStore S) : Prop :=
  ∀ t s payload items, (mem_List st (TrimSpace t) s).1 = Ok payload → decode_maps payload = Ok items →
    Forall (of_tenant (TrimSpace t)) items.

Lemma confined_wp t h : (∀ w, wp h (λ r _, serves t r) (λ r _, serves t r) w) → confined_to t h.
Proof. intros H w. specialize (H w). by rewrite wp_run in H. Qed.

Lemma refusal msg status : (400 ≤ status)%Z → serves tenant (http_error msg status).
Proof. intros. by apply serves_refusal. Qed.

Ltac tenant_read :=
  apply confined_wp; intros w;
  apply wp_bind, (wp_require_tenant cc); [intros _|by apply refusal];
  repeat (apply wp_bind, wp_return_if; split; intros ?; [by apply refusal|]);
  apply wp_bind, (wp_tenant_read anything); [intros w1 _|intros; by apply refusal].

Lemma confined_item payload w :
  wp (show_item payload tenant) (λ r _, serves tenant r) (λ r _, serves tenant r) w.
Proof.
  apply wp_bind, wp_or_error; [intros [j|] _|by apply refusal]; [|by apply wp_ret, refusal].
  apply wp_bind, wp_or_error; [intros m Hm|by apply refusal].
  destruct (tenantMatch _ _ _) eqn:E; apply wp_ret; [|by apply refusal].
  apply (serves_stored _ _ m); [done|]. by apply match_of_tenant.
Qed.

Lemma memory_entry_tenant id e t :
  tenantMatch (mq_TenantID e) (TrimSpace t) false = true → of_tenant (TrimSpace t) (memory_item id e).
Proof.
  intros H%tenantMatch_true. rewrite TrimSpace_idemp in H. unfold of_tenant.
  assert (tenantFromMap (memory_item id e) = TrimSpace (mq_TenantID e)) as ->.
  { unfold tenantFromMap, tenant_at, memory_item, mget. by rewrite amap_assoc. }
  by destruct H as [_ [H|[_ H]]].
Qed.

Lemma file_memory_serves id : serves tenant (file_memory workspaceDir read_file id tenant).
Proof.
  unfold file_memory. destruct (List.find _ _) as [e|] eqn:E; [|by apply refusal].
  apply find_some in E as [_ He]. bool_hyps. by apply serves_entry, memory_entry_tenant.
Qed.

Lemma queried_trimmed : queried_tenant = TrimSpace queried_tenant.
Proof. unfold queried_tenant, header. cbv zeta. case_match; by rewrite TrimSpace_idemp. Qed.

Lemma new_entries_of_tenant t items files :
  Forall (of_tenant (TrimSpace t)) (map (λ e, memory_item (fileMemoryID e) e) (new_entries (TrimSpace t) items files)).
Proof.
  apply Forall_forall. intros m (e & -> & He)%list_elem_of_fmap. unfold new_entries in He.
  apply merge_new_in, list_elem_of_In, filter_In in He as [_ He]. by apply memory_entry_tenant.
Qed.

Lemma list_memory_confined st :
  lists_by_tenant st → confined_to queried_tenant (listMemory sv cc workspaceDir read_file st).
Proof.
  intros Hst. apply confined_wp. intros w. unfold listMemory. fold queried_tenant.
  assert (∀ msg status, (400 ≤ status)%Z → serves queried_tenant (http_error msg status)) as Hrefuse
    by (intros; by apply serves_refusal).
  apply wp_bind, wp_return_if. split; intros _; [by apply Hrefuse|].
  apply wp_bind, (wp_tenant_read anything); [intros w1 _|intros; by apply Hrefuse].
  apply wp_bind, wp_on_db. apply wp_bind, wp_or_error; [intros payload Hp|by apply Hrefuse].
  apply wp_bind, wp_or_error; [intros items Hi|by apply Hrefuse]. apply wp_ret.
  rewrite queried_trimmed in Hp. pose proof (Hst _ _ _ _ Hp Hi) as Hall.
  rewrite <- queried_trimmed in Hall.
  pose proof (new_entries_of_tenant queried_tenant items (workspace_files workspaceDir read_file LoadOperatorMemory)) as Hnew.
  rewrite <- queried_trimmed in Hnew.
  destruct (workspace_files _ _ _) as [|e files]; [destruct payload; try apply serves_nothing|];
    apply serves_list, Forall_app; by split.
Qed.

(** C28: whatever the database and the workspace hold and whoever asks, a read of
    a playbook, a runbook or a memory by its id, and the listings of playbooks
    and runbooks, are refused or answer with nothing but items of the tenant the
    X-Tenant-Id header names; the listing of memory, over a store that lists by
    tenant as the SQL store does ([sql_lists_by_tenant]), with nothing but items of
    the tenant the query names, or the header when the query names none. *)
Theorem reads_serve_the_tenant :
  (∀ id, confined (getPlaybook sv cc id)) ∧
  (∀ id, confined (getRunbook sv cc id)) ∧
  (∀ store id, confined (getMemory sv cc workspaceDir read_file store id)) ∧
  confined (listPlaybooks sv cc) ∧
  confined (listRunbooks sv cc workspaceDir read_file) ∧
  (∀ store, lists_by_tenant store → confined_to queried_tenant (listMemory sv cc workspaceDir read_file store)).
Proof.
  refine (conj _ (conj _ (conj _ (conj _ (conj _ list_memory_confined))))).
  - intros id. tenant_read. apply wp_bind, wp_on_db, confined_item.
  - intros id. tenant_read. apply wp_bind, wp_on_db, confined_item.
  - intros store id. tenant_read. apply wp_bind, wp_on_db.
    apply wp_bind, wp_or_error; [intros [j|] _|by apply refusal];
      [|by apply wp_ret, file_memory_serves].
    apply wp_bind, wp_or_error; [intros m Hm|by apply refusal].
    destruct (tenantMatch _ _ _) eqn:E; apply wp_ret; [|by apply file_memory_serves].
    apply (serves_stored _ _ m); [done|]. by apply match_of_tenant.
  - tenant_read. destruct (parsePagination _) as [limit offset]. apply wp_bind, wp_on_db.
    apply wp_bind, wp_or_error; [intros [payload total] _|by apply refusal].
    apply wp_bind, wp_or_error; [intros filtered Hf|by apply refusal].
    apply wp_ret. destruct (filterJSON_page _ _ _ Hf) as (items & -> & Hi). by apply serves_page.
  - tenant_read. destruct (parsePagination _) as [limit offset]. apply wp_bind, wp_on_db.
    apply wp_bind, wp_or_error; [intros [payload total] _|by apply refusal].
    apply wp_bind, wp_or_error; [intros items Hi|by apply refusal].
    apply wp_ret. destruct (workspace_files _ _ _); apply serves_page;
      [apply filter_of_tenant|apply combine_of_tenant, filter_of_tenant].
Qed.
End reads.

(** The SQL store lists by tenant. *)
Lemma memory_row_tenant time_text row m :
  decode_map (memory_json time_text row) = Ok m → tenantFromMap m = TrimSpace (om_tenant row).
Proof.
  intros H. destruct (decode_map_member _ _ H) with "tenant_id" (JStr (om_tenant row)) as (v & Hv & Hm).
  - repeat (constructor; [set_solver|]). constructor.
  - right. left.
  - injection Hv as <-. unfold tenantFromMap, tenant_at, mget. by rewrite Hm.
Qed.

Lemma sql_lists_by_tenant fault time_text create get update delete :
  lists_by_tenant (mkMemoryStore store create (ListOperatorMemory fault time_text) get update delete).
Proof.
  intros t s payload items. cbn [mem_List]. unfold ListOperatorMemory. rewrite TrimSpace_idemp.
  unfold mbind, db_bind, db_check, db_lift. destruct (check _ _); [|done].
  destruct (stmt fault s) as [[u|e] s']; [|done]. intros [= <-] Hi%of_option_Ok.
  apply Forall_forall. intros m Hm. destruct (opt_map_In _ _ _ _ Hi Hm) as (x & Hx & Hd).
  apply list_elem_of_fmap in Hx as (row & -> & Hrow). rewrite order_by_Permutation in Hrow.
  apply list_elem_of_In, filter_In in Hrow as [_ Ht%String.eqb_eq].
  destruct (decode_map (memory_json time_text row)) as [m'|] eqn:E; [|done]. injection Hd as <-.
  unfold of_tenant. by rewrite (memory_row_tenant _ _ _ E), Ht, TrimSpace_idemp.
Qed.

(** ** What the database reads back from a payload *)
Lemma fld_string_member name fs s :
  NoDup (map fst fs) → (name, JStr s) ∈ fs →
  (∀ k x, (k, x) ∈ fs → EqualFold k name = true → k = name) → fld_string name fs = Ok s.
Proof.
  intros Hnd Hin Hall. unfold fld_string, fld.
  match goal with |- fold_left ?f fs _ = _ => set (step := f) end.
  assert (Hskip : ∀ fs acc, (∀ k x, (k, x) ∈ fs → EqualFold k name = false) →
    fold_left step fs (Ok acc) = Ok acc).
  { induction fs0 as [|[k x] fs0 IH]; intros acc H; [done|]. cbn [fold_left]. unfold step at 2.
    cbn [mbind result_bind]. rewrite (H k x) by left. apply IH.
    intros k' x' Hx'. apply (H k' x'). by right. }
  revert Hnd Hin Hall. generalize ("" : string). induction fs as [|[k x] fs IH]; intros acc Hnd Hin Hall.
  { by apply elem_of_nil in Hin. }
  apply NoDup_cons in Hnd as [Hk Hnd]. cbn [fold_left]. unfold step at 2. cbn [mbind result_bind].
  destruct (decide (k = name)) as [->|Hne].
  - assert (x = JStr s) as ->.
    { apply elem_of_cons in Hin as [[= <-]|Hin]; [done|]. exfalso. apply Hk. apply list_elem_of_fmap.
      by exists (name, JStr s). }
    unfold EqualFold at 1. rewrite String.eqb_refl. apply Hskip. intros k' x' Hx'.
    destruct (EqualFold k' name) eqn:E; [|done]. exfalso. apply Hk.
    rewrite <- (Hall k' x') by first [done | by right]. apply list_elem_of_fmap. by exists (k', x').
  - destruct (EqualFold k name) eqn:E; [by rewrite (Hall k x) in Hne by first [done | left]|].
    apply IH; [done| |intros k' x' Hx'; apply (Hall k' x'); by right].
    by apply elem_of_cons in Hin as [[= -> _]|Hin].
Qed.

(** A text member of an object literal, as a payload's reader finds it. *)
Definition distinct_key (k : string) (l : list (string * any)) : bool :=
  forallb (λ kv, plain_text kv.1 && ((kv.1 =? k) || negb (EqualFold kv.1 k))) l.

Lemma assoc_elem k l v : assoc k l = Some v → k ∈ map fst l.
Proof.
  induction l as [|[k' v'] l IH]; simpl; [done|].
  destruct (String.eqb_spec k' k) as [->|]; [left|right; auto].
Qed.

Lemma payload_text k l s data :
  distinct_key k l = true → assoc k l = Some (AStr s) → marshal (AMap (amap l)) = Ok data →
  ∃ fs, payload_members (doc_json data) = Ok fs ∧ fld_string k fs = Ok (valid_utf8 s).
Proof.
  intros Hk Hs Hm. apply of_option_Ok in Hm. unfold distinct_key in Hk.
  assert (Hplain : plain_keys (amap l)).
  { apply plain_amap, forallb_forall. intros kv Hin. rewrite forallb_forall in Hk.
    by apply Hk, andb_prop in Hin as [? _]. }
  destruct (to_json_map _ _ Hplain Hm) as (ms & -> & Hnd & Hin & _). exists ms. split; [done|].
  apply fld_string_member; [done|apply Hin|].
  - exists (AStr s). by rewrite amap_assoc.
  - intros k' x (v & Hv & _)%Hin Hf. rewrite amap_assoc in Hv. apply assoc_elem in Hv.
    apply list_elem_of_fmap in Hv as (kv & -> & Hkv). apply list_elem_of_In in Hkv.
    rewrite forallb_forall in Hk. apply Hk, andb_prop in Hkv as [_ Hkv]. rewrite Hf in Hkv.
    by apply orb_true_iff in Hkv as [->%String.eqb_eq|].
Qed.

(** The tenant a payload states. *)
Definition stated_tenant (data : doc) (raw : string) : Prop :=
  ∃ fs, payload_members data = Ok fs ∧ fld_string "tenant_id" fs = Ok raw.

(** ** The rows a write leaves *)

(** Every row is an old one or the tenant's. *)
Definition rows_of {A} (tenant_of : A → string) (tenant : string) (l l' : list A) : Prop :=
  ∀ r, r ∈ l' → r ∈ l ∨ tenant_of r = tenant.

Lemma rows_of_same {A} (f : A → string) t l : rows_of f t l l.
Proof. intros r. by left. Qed.

Lemma rows_of_trans {A} (f : A → string) t l1 l2 l3 :
  rows_of f t l1 l2 → rows_of f t l2 l3 → rows_of f t l1 l3.
Proof. intros H1 H2 r [H%H1|H]%H2; auto. Qed.

Lemma rows_of_snoc {A} (f : A → string) t l r : f r = t → rows_of f t l (l ++ [r]).
Proof. intros Hr x [Hx|Hx%list_elem_of_singleton]%elem_of_app; [by left|subst; by right]. Qed.

Lemma rows_of_update {A} (f : A → string) t sel g l :
  (∀ r, f (g r) = t) → rows_of f t l (update_where sel g l).
Proof.
  intros Hg r. unfold update_where. rewrite list_elem_of_In, in_map_iff. intros (a & <- & Ha).
  apply list_elem_of_In in Ha. case_match; auto.
Qed.

Record written_for (tenant : string) (h h' : shelves) : Prop := {
  wr_sessions : rows_of ss_tenant tenant (sessions h) (sessions h');
  wr_playbooks : rows_of pb_tenant tenant (playbooks h) (playbooks h');
  wr_runbooks : rows_of rb_tenant tenant (runbooks h) (runbooks h');
  wr_memories : rows_of om_tenant tenant (memories h) (memories h');
  wr_members : session_members h' = session_members h;
  wr_workflows : workflow_catalog h' = workflow_catalog h;
  wr_graph : context_nodes h' = context_nodes h ∧ context_edges h' = context_edges h;
  wr_snapshots : snapshots h' = snapshots h }.

#[export] Instance written_for_preorder tenant : PreOrder (written_for tenant).
Proof.
  split.
  - intros h. by split; try apply rows_of_same.
  - intros h1 h2 h3 [] [].
    split; first [by eapply rows_of_trans | congruence | destruct_and!; split; congruence].
Qed.

Definition tables_for (tenant : string) (t t' : tables) : Prop := written_for tenant (shelf t) (shelf t').
#[export] Instance tables_for_preorder tenant : PreOrder (tables_for tenant).
Proof. unfold tables_for. split; [by intros t|]. intros t1 t2 t3 H1 H2. by etrans. Qed.

Section database.
Variable clock : nat → Z.
Variable fault : nat → option string.
Variable jsonb : json → json.

Lemma rel_lift_bind {R} `{!PreOrder R} {A B} (r : result A) (f : A → db B) :
  (∀ a, r = Ok a → db_rel R (f a)) → db_rel R (db_lift r ≫= f).
Proof.
  intros H s. destruct r as [a|e]; [by apply (H a eq_refl s)|]. unfold mbind, db_bind. simpl. reflexivity.
Qed.

Lemma insert_for {A} tenant (clash : A → A → bool) get set row :
  (∀ h, written_for tenant h (set (λ rows, rows ++ [row]) h)) →
  db_rel (tables_for tenant) (insert_unique fault clash get set row).
Proof.
  intros H. unfold insert_unique. repeat rel_step. apply rel_write. intros t. apply H.
Qed.

Ltac one_row := intros h; split; cbn; auto using rows_of_same, rows_of_snoc, rows_of_update.

Lemma decoded_session_tenant data raw p :
  stated_tenant data raw → decode_session_payload data = Ok p → sp_tenant p = raw.
Proof.
  intros (fs & Hm & Hraw) H. unfold decode_session_payload in H. rewrite Hm in H. cbn [mbind result_bind] in H.
  apply bind_Ok in H as (? & _ & H). rewrite Hraw in H. cbn [mbind result_bind] in H.
  repeat (apply bind_Ok in H as (? & _ & H)). by injection H as <-.
Qed.

Lemma decoded_memory_tenant data raw p :
  stated_tenant data raw → decode_memory_payload data = Ok p → mp_tenant p = raw.
Proof.
  intros (fs & Hm & Hraw) H. unfold decode_memory_payload in H. rewrite Hm in H. cbn [mbind result_bind] in H.
  rewrite Hraw in H. cbn [mbind result_bind] in H.
  repeat (apply bind_Ok in H as (? & _ & H)). by injection H as <-.
Qed.

Section writer.
Variables (raw : string) (data : doc).
Hypothesis stated : stated_tenant data raw.
Notation for_tenant := (db_rel (tables_for (TrimSpace raw))).

Lemma CreateSession_for : for_tenant (CreateSession clock fault jsonb data).
Proof.
  unfold CreateSession, insert_shelf. apply (rel_lift_bind (R := tables_for (TrimSpace raw))). intros p Hp%(decoded_session_tenant _ raw _ stated).
  rewrite Hp. repeat first [apply insert_for; one_row | rel_step].
Qed.

Lemma UpdateSession_for id : for_tenant (UpdateSession clock fault jsonb id data).
Proof.
  unfold UpdateSession. apply rel_bind; [apply _|by repeat rel_step|intros _].
  apply (rel_lift_bind (R := tables_for (TrimSpace raw))). intros p Hp%(decoded_session_tenant _ raw _ stated).
  rewrite Hp. repeat rel_step. apply rel_write. one_row.
Qed.

Lemma CreatePlaybook_for : for_tenant (CreatePlaybook clock fault jsonb data).
Proof.
  destruct stated as (fs & Hm & Hraw). unfold CreatePlaybook, insert_shelf. apply (rel_lift_bind (R := tables_for (TrimSpace raw))).
  intros [[[[tn name] version] tags] spec] H. apply bind_Ok in H as ([] & _ & H).
  rewrite Hm in H. cbn [mbind result_bind] in H. rewrite Hraw in H. cbn [mbind result_bind] in H.
  repeat (apply bind_Ok in H as (? & _ & H)). injection H as <- _ _ _ _.
  repeat first [apply insert_for; one_row | rel_step].
Qed.

Lemma CreateRunbook_for : for_tenant (CreateRunbook clock fault jsonb data).
Proof.
  destruct stated as (fs & Hm & Hraw). unfold CreateRunbook, insert_shelf, next_version. apply (rel_lift_bind (R := tables_for (TrimSpace raw))).
  intros [[[[[[tn sv] name] version] tags] body] spec] H. rewrite Hm in H. cbn [mbind result_bind] in H.
  rewrite Hraw in H. cbn [mbind result_bind] in H.
  repeat (apply bind_Ok in H as (? & _ & H)). injection H as <- _ _ _ _ _ _.
  repeat first [apply insert_for; one_row | rel_step].
Qed.

Lemma memory_texts_bind {A} p (f : string * string * string → db A) :
  mp_tenant p = raw → (∀ title body, for_tenant (f (TrimSpace raw, title, body))) →
  for_tenant (memory_texts p ≫= f).
Proof.
  intros Hp Hf s. unfold memory_texts. rewrite Hp. cbv zeta. unfold mbind at 1, db_bind at 1.
  destruct (negb _); [|simpl; reflexivity]. apply (Hf _ _ s).
Qed.

Lemma CreateMemory_for : for_tenant (CreateOperatorMemory clock fault jsonb data).
Proof.
  unfold CreateOperatorMemory, insert_shelf. apply (rel_lift_bind (R := tables_for (TrimSpace raw))).
  intros p Hp%(decoded_memory_tenant _ raw _ stated). apply memory_texts_bind; [done|]. intros title body.
  repeat first [apply insert_for; one_row | rel_step].
Qed.

Lemma UpdateMemory_for id : for_tenant (UpdateOperatorMemory clock fault jsonb id data).
Proof.
  unfold UpdateOperatorMemory. apply rel_bind; [apply _|by repeat rel_step|intros _].
  apply (rel_lift_bind (R := tables_for (TrimSpace raw))). intros p Hp%(decoded_memory_tenant _ raw _ stated).
  apply memory_texts_bind; [done|]. intros title body. repeat rel_step.
  apply rel_write. one_row.
Qed.
End writer.
End database.

(** ** Writes ask the policy *)

Section writes.
Variable clock : nat → Z.
Variable fault : nat → option string.
Variable jsonb : json → json.
Variable pick : list approval_row → option approval_row.
Variable time_text : Z → string.
Variable time_parse : string → result Z.
Variable json_text : json → string.
Variable sv : Server.
Variable cc : call_ctx.

#[local] Instance writes_db : GatewayDB store :=
  store_db clock fault jsonb pick time_text time_parse.
#[local] Instance writes_lib : LibraryDB store :=
  store_library clock fault jsonb time_text json_text.

Definition shelves_of (s : store) : shelves := shelf (tabs s).
#[local] Instance shelves_frame : ReadFrame shelves_of.
Proof. by apply (store_reads clock fault jsonb pick time_text time_parse shelf). Qed.

(** The tenant a request states: a session's is its body's, and the others' are their
    body's and the header's, which must agree. *)
Definition body_of {A} (decode : json → result A) : result A := j ← unmarshal (Body (cc_req cc)); decode j.
Definition agreed (bodyTenant : string) : result string :=
  resolveTenant bodyTenant (Header (cc_req cc) "X-Tenant-Id").
Definition session_tenant : result string := req ← body_of decode_session_request; Ok (sq_TenantID req).
Definition playbook_tenant : result string := req ← body_of decode_playbook_request; agreed (pq_TenantID req).
Definition runbook_tenant : result string := req ← body_of decode_runbook_request; agreed (bq_TenantID req).
Definition memory_tenant : result string := req ← body_of decode_memory_request; agreed (mq_TenantID req).

(** A write for a tenant: the shelves change only when the policy allows the action on
    that tenant, and then every row is an old one or that tenant's. *)
Definition writes_for (action : string) (tenant : result string)
    (h : handler (gateway store) Response Response) : Prop :=
  ∀ w, let '(_, w') := run_handler h w in
    shelves_of (g_db w') = shelves_of (g_db w) ∨
    ∃ t, tenant = Ok t ∧ policy_allows sv cc action (tenant_ref t) ∧
      written_for (TrimSpace (valid_utf8 t)) (shelves_of (g_db w)) (shelves_of (g_db w')).

(** The shelves change only when the policy allows the action on the reference. *)
Definition asks (action : string) (ref : ContextRef) (h : handler (gateway store) Response Response) : Prop :=
  ∀ w, let '(_, w') := run_handler h w in
    shelves_of (g_db w') = shelves_of (g_db w) ∨ policy_allows sv cc action ref.

Definition written_since (t : string) (w w' : gateway store) : Prop :=
  written_for (TrimSpace (valid_utf8 t)) (shelves_of (g_db w)) (shelves_of (g_db w')).

Lemma written_same t w w' w'' : written_since t w w' → same shelves_of w' w'' → written_since t w w''.
Proof. unfold written_since, same. by intros H ->. Qed.

Lemma preserves_allowed t w0 action ctx : preserves (written_since t w0) (allowed sv cc action ctx).
Proof. intros w Hw. apply (wp_audit shelves_of). intros w' Hs. by eapply written_same. Qed.

Lemma preserves_on_db {A} t w0 (op : db A) :
  db_rel (tables_for (TrimSpace (valid_utf8 t))) op →
  preserves (R := Response) (written_since t w0) (on_db op).
Proof. intros Hop w Hw. apply wp_on_db. unfold written_since in *. etrans; [exact Hw|apply Hop]. Qed.

Definition outcome (action : string) (tenant : result string) (w w' : gateway store) : Prop :=
  shelves_of (g_db w') = shelves_of (g_db w) ∨
  ∃ t, tenant = Ok t ∧ policy_allows sv cc action (tenant_ref t) ∧ written_since t w w'.

Lemma writes_for_wp action tenant h :
  (∀ w, let Q := λ _ w', outcome action tenant w w' in wp h Q Q w) → writes_for action tenant h.
Proof. intros H w. specialize (H w). cbv zeta in H. rewrite wp_run in H. by destruct (run_handler h w). Qed.

Lemma asks_wp action ref h :
  (∀ w, let Q := λ _ w', shelves_of (g_db w') = shelves_of (g_db w) ∨ policy_allows sv cc action ref in
        wp h Q Q w) → asks action ref h.
Proof. intros H w. specialize (H w). cbv zeta in H. rewrite wp_run in H. by destruct (run_handler h w). Qed.

(** The rest of a write, once the policy has allowed it. *)
Lemma wp_allowed_write {A} action tenant t w w1 (m : handler (gateway store) Response A) :
  tenant = Ok t → policy_allows sv cc action (tenant_ref t) → same shelves_of w w1 →
  preserves (written_since t w) m → wp m (λ _ w', outcome action tenant w w') (λ _ w', outcome action tenant w w') w1.
Proof.
  intros Ht Hp Hs Hm. eapply wp_mono; [apply Hm|..]; [|intros ? w' H; right; by exists t..].
  eapply written_same; [|exact Hs]. unfold written_since. reflexivity.
Qed.

Lemma runbook_stated t req data :
  marshal (runbook_request_any (with_tenant t req)) = Ok data → stated_tenant (doc_json data) (valid_utf8 t).
Proof.
  intros Hm%of_option_Ok. unfold runbook_request_any in Hm. cbn [to_json] in Hm. rewrite !opt_map_cons in Hm.
  assert (Hraw : ∀ o, ∃ j, to_json (raw_any o) = Some j) by (intros []; by eexists).
  destruct (Hraw (bq_Tags req)) as [tags Htags], (Hraw (bq_Spec req)) as [spec Hspec].
  cbn [to_json with_tenant bq_TenantID bq_Service bq_Name bq_Version bq_Tags bq_Body bq_Spec] in Hm.
  rewrite Htags, Hspec in Hm. injection Hm as <-.
  eexists. split; [reflexivity|]. apply fld_string_member.
  - repeat (constructor; [set_solver|]). constructor.
  - left.
  - intros k x. rewrite !elem_of_cons, elem_of_nil. intros H E. destruct_or!; try done; injection H as -> _; done.
Qed.

(** The tails of the handlers: the payload is stored, and the rest only audits. *)
Lemma preserves_stored {A B} t w0 (op : db A) msg status (k : A → handler (gateway store) Response B) :
  db_rel (tables_for (TrimSpace (valid_utf8 t))) op → (∀ a, preserves (written_since t w0) (k a)) →
  preserves (written_since t w0) (r ← on_db op; a ← or_error r msg status; k a).
Proof.
  intros Hop Hk. apply preserves_bind; [by apply preserves_on_db|intros r]. unfold or_error.
  apply preserves_bind; [|done]. apply preserves_or_return. intros e. apply preserves_return.
Qed.

Ltac stated Hd :=
  first [refine (payload_text "tenant_id" _ _ _ _ _ Hd); [vm_compute; reflexivity|cbn; reflexivity]
        |exact (runbook_stated _ _ _ Hd)].
Ltac audited := unfold created; repeat first [preserves_step | apply preserves_allowed].

Lemma decode_session_wp Q F w :
  (∀ req, session_tenant = Ok (sq_TenantID req) → Q req w) → (∀ r, F r w) →
  wp (decode_session (S := store) cc) Q F w.
Proof.
  intros HQ HF. apply wp_bind, wp_or_error; [intros req Hr|done].
  apply wp_bind, wp_return_if. split; intros _; [done|]. apply wp_ret, HQ.
  unfold session_tenant, body_of. by rewrite Hr.
Qed.

Lemma body_tenant_wp bt Q F w :
  (∀ t, agreed bt = Ok t → Q t w) → (∀ r, F r w) → wp (body_tenant (S := store) cc bt) Q F w.
Proof. intros HQ HF. apply wp_or_return. split; [done|]. intros e _. by apply wp_return. Qed.

Lemma decode_memory_wp Q F w :
  (∀ req t, memory_tenant = Ok t → Q (req, t) w) → (∀ r, F r w) →
  wp (decode_memory (S := store) cc) Q F w.
Proof.
  intros HQ HF. apply wp_bind, wp_or_error; [intros req Hr|done].
  apply wp_bind, body_tenant_wp; [intros t Ht|done]. apply wp_bind, wp_return_if.
  split; intros _; [done|]. apply wp_ret, HQ. unfold memory_tenant, body_of. by rewrite Hr.
Qed.

Lemma memory_store_wp Q F w :
  Q (mkMemoryStore _ (CreateOperatorMemory clock fault jsonb) (ListOperatorMemory fault time_text)
       (GetOperatorMemory fault time_text) (UpdateOperatorMemory clock fault jsonb) (DeleteOperatorMemory fault)) w →
  (∀ r, F r w) → wp (memory_store (S := store) sv) Q F w.
Proof.
  intros HQ HF. unfold memory_store. apply wp_or_error; [|done]. intros st.
  destruct (sv_DB sv); [|done]. by intros [= <-].
Qed.

(** The clock may be read, the payload is encoded, stored and audited. *)
Ltac stored_by op :=
  try (apply wp_bind, wp_now; intros w2 Hw2);
  apply wp_bind, wp_or_error; [intros data Hd|left; unfold same in *; congruence];
  eapply wp_allowed_write; [eassumption|eassumption|unfold same in *; congruence|];
  apply preserves_stored; [apply op; match goal with H : marshal _ = Ok _ |- _ => stated H end|intros; audited].

(** C27: over the SQL store a session, a playbook, a runbook or a memory is created or
    updated only when the policy allows that action on the tenant the request states -
    a session's is its body's, the others' the one their body and the X-Tenant-Id
    header agree on - and then every row of the shelves is an old one or that tenant's,
    and nothing else of them is touched.  A memory is deleted only when the policy
    allows it on the header's tenant; a session is deleted and a member is added only
    when it allows that on no tenant at all.  (Deleting a playbook or a runbook asks
    nothing: [playbook_deleted_unasked].) *)
Theorem registry_writes_ask_policy :
  writes_for "session.create" session_tenant (createSession sv cc) ∧
  (∀ id, writes_for "session.update" session_tenant (updateSession sv cc id)) ∧
  writes_for "playbook.create" playbook_tenant (createPlaybook sv cc) ∧
  writes_for "runbook.create" runbook_tenant (createRunbook sv cc) ∧
  writes_for "memory.create" memory_tenant (st ← memory_store sv; createMemory sv cc st) ∧
  (∀ id, writes_for "memory.update" memory_tenant (st ← memory_store sv; updateMemory sv cc st id)) ∧
  (∀ id, asks "memory.delete" (tenant_ref (header cc "X-Tenant-Id"))
           (st ← memory_store sv; deleteMemory sv cc st id)) ∧
  (∀ id, asks "session.delete" empty_ref (deleteSession sv cc id)) ∧
  (∀ id, asks "session.member.add" empty_ref (addSessionMember sv cc id)).
Proof.
  refine (conj _ (conj _ (conj _ (conj _ (conj _ (conj _ (conj _ (conj _ _)))))))).
  - apply writes_for_wp. intros w Q.
    apply wp_bind, decode_session_wp; [intros req Ht|by left].
    apply wp_bind, (wp_require_write shelves_of); [intros Hallow w1 Hw1|intros; by left].
    stored_by (CreateSession_for clock fault jsonb).
  - intros id. apply writes_for_wp. intros w Q.
    apply wp_bind, decode_session_wp; [intros req Ht|by left].
    apply wp_bind, (wp_require_write shelves_of); [intros Hallow w1 Hw1|intros; by left].
    stored_by (UpdateSession_for clock fault jsonb).
  - apply writes_for_wp. intros w Q.
    apply wp_bind, wp_or_error; [intros req Hr|by left].
    apply wp_bind, wp_return_if. split; intros _; [by left|].
    apply wp_bind, body_tenant_wp; [intros t Ht|by left].
    assert (playbook_tenant = Ok t) by (unfold playbook_tenant, body_of; by rewrite Hr).
    apply wp_bind, wp_return_if. split; intros _; [by left|].
    apply wp_bind, (wp_require_write shelves_of); [intros Hallow w1 Hw1|intros; by left].
    stored_by (CreatePlaybook_for clock fault jsonb).
  - apply writes_for_wp. intros w Q.
    apply wp_bind, wp_or_error; [intros req Hr|by left].
    apply wp_bind, wp_return_if. split; intros _; [by left|].
    apply wp_bind, body_tenant_wp; [intros t Ht|by left].
    assert (runbook_tenant = Ok t) by (unfold runbook_tenant, body_of; by rewrite Hr).
    apply wp_bind, (wp_require_write shelves_of); [intros Hallow w1 Hw1|intros; by left].
    stored_by (CreateRunbook_for clock fault jsonb).
  - apply writes_for_wp. intros w Q. apply wp_bind, memory_store_wp; [|by left].
    apply wp_bind, decode_memory_wp; [intros req t Ht|by left].
    apply wp_bind, (wp_require_write shelves_of); [intros Hallow w1 Hw1|intros; by left].
    stored_by (CreateMemory_for clock fault jsonb).
  - intros id. apply writes_for_wp. intros w Q. apply wp_bind, memory_store_wp; [|by left].
    apply wp_bind, decode_memory_wp; [intros req t Ht|by left].
    apply wp_bind, (wp_require_write shelves_of); [intros Hallow w1 Hw1|intros; by left].
    stored_by (UpdateMemory_for clock fault jsonb).
  - intros id. apply asks_wp. intros w Q. apply wp_bind, memory_store_wp; [|by left].
    apply wp_bind, wp_require_tenant; [intros _|by left].
    apply wp_bind, (wp_require_write shelves_of); [intros Hallow w1 _|intros; by left].
    apply wp_always; intros; by right.
  - intros id. apply asks_wp. intros w Q.
    apply wp_bind, (wp_require_write shelves_of); [intros Hallow w1 _|intros; by left].
    apply wp_always; intros; by right.
  - intros id. apply asks_wp. intros w Q.
    apply wp_bind, wp_or_error; [intros [m r] _|by left].
    apply wp_bind, wp_return_if. split; intros _; [by left|].
    apply wp_bind, (wp_require_write shelves_of); [intros Hallow w1 _|intros; by left].
    apply wp_always; intros; by right.
Qed.
End writes.

(** ** Runs in which one tenant reaches another's rows *)

#[local] Existing Instance demo_db.
Definition demo_library : LibraryDB store :=
  store_library tick_clock no_fault same_json demo_time (λ _, "").
#[local] Existing Instance demo_library.

(** A policy that keeps the caller away from one tenant, and one that denies. *)
Definition keep_from (tenant : string) : Checker :=
  λ i, Ok (plain_decision (if TenantID (pi_Context i) =? tenant then "deny" else "allow")).
Definition deny_all : Checker := λ _, Ok (plain_decision "deny").

Definition mallory : Actor := mkActor "mallory" "" [].
Definition foreign_request (method path : string) (body : list (string * json)) : call_ctx :=
  mkCall_ (mkReq method path (λ q, if q =? "tenant_id" then "acme" else "")
    (λ h, if h =? "X-Tenant-Id" then "globex" else if h =? "X-Session-Id" then "session_0" else "")
    (doc_json (JObj body))) (Some mallory).

Definition with_rows (s : store) : gateway store := mkGateway s no_gates 0 new_hub [].

Definition acme_playbook : store :=
  (CreatePlaybook tick_clock no_fault same_json (doc_json (JObj [("tenant_id", JStr "acme");
     ("name", JStr "restore"); ("spec", JObj [])])) empty_store).2.
Definition acme_memory : store :=
  (CreateOperatorMemory tick_clock no_fault same_json (doc_json (JObj [("tenant_id", JStr "acme");
     ("title", JStr "failover"); ("body", JStr "use db-2")])) empty_store).2.
Definition acme_session : store :=
  (CreateSession tick_clock no_fault same_json (doc_json (JObj [("tenant_id", JStr "acme");
     ("name", JStr "incident")])) empty_store).2.

(** Acme's memory is listed for globex' header and acme's query, to acme. *)
Lemma reads_serve_the_tenant_witness :
  let cc := foreign_request "GET" "/v1/memory" [] in
  let st := mkMemoryStore store (CreateOperatorMemory tick_clock no_fault same_json)
    (ListOperatorMemory no_fault demo_time) (GetOperatorMemory no_fault demo_time)
    (UpdateOperatorMemory tick_clock no_fault same_json) (DeleteOperatorMemory no_fault) in
  let resp := (run_handler (listMemory (demo_server None None) cc "" (λ _, NotExist) st) (with_rows acme_memory)).1 in
  queried_tenant cc = "acme" ∧ Status resp = 200%Z ∧ serves "acme" resp.
Proof.
  intros cc st resp. split; [vm_compute; reflexivity|]. split; [vm_compute; reflexivity|].
  destruct (reads_serve_the_tenant (demo_server None None) cc "" (λ _, NotExist)) as (_ & _ & _ & _ & _ & H).
  apply (H st), sql_lists_by_tenant.
Defined.

(** Deleting a playbook asks no one and is not in the audit log: with a policy
    that denies everything, another tenant's playbook is gone. *)
Theorem playbook_deleted_unasked :
  let sv := demo_server (Some deny_all) None in
  let '(r, w) := run_handler (handlePlaybookByID sv
    (foreign_request "DELETE" "/v1/playbooks/playbook_0" [])) (with_rows acme_playbook) in
  map pb_tenant (playbooks (shelf (tabs acme_playbook))) = ["acme"] ∧
  Status r = 204%Z ∧ playbooks (shelf (tabs (g_db w))) = [] ∧ audits (tabs (g_db w)) = [].
Proof. vm_compute. auto. Qed.

(** Updating a memory asks about the tenant of the body and updates the row of
    the id, whoever's it is: a caller the policy keeps from acme takes over
    acme's memory. *)
Theorem memory_taken_over :
  let sv := demo_server (Some (keep_from "acme")) None in
  let '(r, w) := run_handler (handleOperatorMemoryByID sv
    (foreign_request "PUT" "/v1/memory/memory_0"
       [("title", JStr "failover"); ("body", JStr "use db-evil")]) "" (λ _, NotExist))
    (with_rows acme_memory) in
  map (λ m, (om_tenant m, om_body m)) (memories (shelf (tabs acme_memory))) = [("acme", "use db-2")] ∧
  Status r = 204%Z ∧
  map (λ m, (om_tenant m, om_body m)) (memories (shelf (tabs (g_db w)))) = [("globex", "use db-evil")].
Proof. vm_compute. auto. Qed.

Definition sessions_required : Server :=
  mkServer_ true (Some (keep_from "acme")) None None None None None None false true false []
    tick_clock demo_time (λ _, None).

(** Adding a member asks about no tenant: a caller the policy keeps from acme,
    and that is no member of acme's session, makes itself one, after which the
    session check lets it in. *)
Theorem session_joined :
  let add := foreign_request "POST" "/v1/sessions/session_0/members"
    [("member_id", JStr "mallory"); ("role", JStr "operator")] in
  let session w := (run_handler (W := gateway store) (requireSession sessions_required add) w).1 in
  let w0 := with_rows acme_session in
  let '(r, w) := run_handler (handleSessionByID sessions_required add) w0 in
  session w0 = Err "session unauthorized" ∧ Status r = 204%Z ∧ session w = Ok "session_0".
Proof. vm_compute. auto. Qed.

(** The tenants of the items of a page. *)
Definition page_tenants (r : Response) : list string :=
  match Content r with
  | Encoded (AMap m) =>
      match mget m "data" with
      | ARaw j => match decode_maps j with Ok items => map tenantFromMap items | Err _ => [] end
      | _ => []
      end
  | _ => []
  end.

(** The sessions listed are the query's tenant's, the policy is asked about the
    header's: a caller the policy keeps from acme lists acme's sessions. *)
Theorem sessions_listed_across_tenants :
  let sv := demo_server (Some (keep_from "acme")) None in
  let '(r, _) := run_handler (handleSessions sv
    (foreign_request "GET" "/v1/sessions" [])) (with_rows acme_session) in
  Status r = 200%Z ∧ page_tenants r = ["acme"].
Proof. vm_compute. auto. Qed.
