(* ===== verification/Graph.v ===== *)
(** * Graph: the service graph and its snapshots

    internal/context/service.go's ContextService over a database with the graph's
    operations, and the context handlers of internal/web (http.go's
    handleContextServices, handleContextSnapshots, handleContextRefresh and
    handleContextGraph, and context_snapshots.go).

    What the pollers and watchers report is an argument; a slice that may be nil
    is an [option]. *)

From S2P Require Import Prelude GoStrings Json ContextRef Steps Policy Constraints Hubs Http.
From S2P Require Import Shelves Store Library LibraryLaws EventGate Gateway Plans Registry.
From Stdlib Require Import Sorting.Sorted.

Local Open Scope string_scope.
Local Open Scope list_scope.

(** ** The context service *)

(** context.Store and context.SnapshotWriter. *)
Class GraphDB (S : Type) := {
  gdb_UpsertContextNode : Node → S → result unit * S;
  gdb_UpsertContextEdge : Edge → S → result unit * S;
  gdb_GetServiceGraph : string → S → result json * S;
  gdb_InsertContextSnapshot : option (string → doc → doc → doc → S → result string * S) }.

Definition store_graph (clock : nat → Z) (fault : nat → option string) (jsonb : json → json) :
    GraphDB store := {|
  gdb_UpsertContextNode := UpsertContextNode fault jsonb;
  gdb_UpsertContextEdge := UpsertContextEdge clock fault;
  gdb_GetServiceGraph := GetServiceGraph fault;
  gdb_InsertContextSnapshot := Some (InsertContextSnapshot clock fault jsonb) |}.

Record Snapshot := mkSnap { sp_Nodes : option (list Node); sp_Edges : option (list Edge) }.
Definition snap_nodes (s : Snapshot) : list Node := default [] (sp_Nodes s).
Definition snap_edges (s : Snapshot) : list Edge := default [] (sp_Edges s).

Definition label_keys : list string :=
  ["tenant_id"; "environment"; "cluster_id"; "namespace"; "aws_account_id"; "region";
   "argocd_project"; "grafana_org_id"].

(** The loop over the nodes: the value so far, until a node differs. *)
Fixpoint consistent_label (key : string) (nodes : list Node) (val : string) : option string :=
  match nodes with
  | [] => Some val
  | node :: rest =>
      match node_Labels node ≫= (λ labels, labels !! key) with
      | Some label =>
          if blank label then consistent_label key rest val
          else if val =? "" then consistent_label key rest label
          else if negb (val =? label) then None
          else consistent_label key rest val
      | None => consistent_label key rest val
      end
  end.

(** An empty result is nil. *)
Definition snapshotLabels (nodes : list Node) : gmap string string :=
  fold_left (λ out key, match consistent_label key nodes "" with
                        | Some val => if val =? "" then out else <[key := val]> out
                        | None => out
                        end) label_keys ∅.

Section service.
Context {S : Type} `{!GraphDB S}.

(** [for _, x := range l { if err := f(x); err != nil { return err } }] *)
Fixpoint each {A} (f : A → S → result unit * S) (l : list A) (s : S) : result unit * S :=
  match l with
  | [] => (Ok tt, s)
  | a :: l' => let '(r, s) := f a s in
               match r with Ok _ => each f l' s | Err e => (Err e, s) end
  end.

Definition IngestSnapshot (nodes : list Node) (edges : list Edge) (s : S) : result unit * S :=
  let '(r, s) := each gdb_UpsertContextNode nodes s in
  match r with
  | Ok _ => each gdb_UpsertContextEdge edges s
  | Err e => (Err e, s)
  end.

(** What every poller answers, in their order; nil pollers are skipped. *)
Definition RefreshContext (pollers : list (option (result Snapshot))) : S → result unit * S :=
  each (λ poller s, match poller with
                    | None => (Ok tt, s)
                    | Some (Err e) => (Err e, s)
                    | Some (Ok snap) => IngestSnapshot (snap_nodes snap) (snap_edges snap) s
                    end) pollers.

Definition slice_any {A} (f : A → any) (ty : string) (l : option (list A)) : any :=
  match l with Some l => ASlice ty (map f l) | None => ANil end.

Definition doc_of (r : result json) : option doc := match r with Ok j => Some (doc_json j) | Err _ => None end.

(** At most one snapshot per interval: the time of the last one, and the state. *)
Definition maybeSnapshot (interval now last : Z) (snap : Snapshot) (s : S) : Z * S :=
  match gdb_InsertContextSnapshot with
  | None => (last, s)
  | Some insert =>
      if match snap_nodes snap, snap_edges snap with [], [] => true | _, _ => false end then (last, s)
      else if negb (last =? zero_time)%Z && (now - last <? interval)%Z then (last, s)
      else match doc_of (marshal (slice_any node_any "Node" (sp_Nodes snap))),
                 doc_of (marshal (slice_any edge_any "Edge" (sp_Edges snap))) with
      | Some nodes, Some edges =>
          let labels := snapshotLabels (snap_nodes snap) in
          let labels := if (0 <? size labels)%nat
                        then default doc_empty (doc_of (marshal (labels_any (Some labels))))
                        else doc_empty in
          let '(r, s) := insert "context" nodes edges labels s in
          (match r with Ok _ => now | Err _ => last end, s)
      | _, _ => (last, s)
      end
  end.

(** One turn of ingestLoop: a snapshot that arrives at a time; the error is
    reported and the snapshot considered all the same. *)
Definition ingest_turn (interval : Z) (arrival : Z * Snapshot) (st : Z * S) :
    result unit * (Z * S) :=
  let '(now, snap) := arrival in
  let '(r, s) := IngestSnapshot (snap_nodes snap) (snap_edges snap) st.2 in
  (r, maybeSnapshot interval now st.1 snap s).

Definition ingestLoop (interval : Z) (arrivals : list (Z * Snapshot)) (st : Z * S) : Z * S :=
  fold_left (λ st a, (ingest_turn interval a st).2) arrivals st.

(** A label that is no string is the zero value of its type. *)
Definition decode_labels (a : option (gmap string string)) (j : json) :
    result (option (gmap string string)) :=
  match j with
  | JNull => Ok None
  | JObj fs =>
      m ← fold_left (λ acc '(k, x),
            m ← acc; v ← (match x with JStr v => Ok v | JNull => Ok "" | _ => Err json_error end);
            Ok (<[k := v]> m)) fs (Ok (default ∅ a));
      Ok (Some m)
  | _ => Err json_error
  end.
Definition fld_labels : list (string * json) → result (option (gmap string string)) :=
  fld decode_labels "labels" None.

Definition decode_node (j : json) : result Node :=
  fs ← Json.members j;
  id ← fld_string "node_id" fs; k ← fld_string "kind" fs; n ← fld_string "name" fs;
  l ← fld_labels fs; o ← fld_string "owner_team" fs; Ok (mkNode id k n l o).
Definition decode_edge (j : json) : result Edge :=
  fs ← Json.members j;
  id ← fld_string "edge_id" fs; f ← fld_string "from_node_id" fs;
  t ← fld_string "to_node_id" fs; r ← fld_string "relation" fs; Ok (mkEdge id f t r).

Definition decode_graph (j : json) : result ServiceGraph :=
  fs ← Json.members j;
  ns ← fld_slice decode_node "nodes" fs; es ← fld_slice decode_edge "edges" fs;
  Ok (mkGraph ns es).

Definition service_GetServiceGraph (service : string) (s : S) : result ServiceGraph * S :=
  let '(r, s) := gdb_GetServiceGraph service s in (j ← r; decode_graph j, s).
End service.

(** ** Comparing snapshots *)

Record snapshotPayload := mkPayload {
  SnapshotID : string; sp_Labels : gmap string any; pl_Nodes : list Node; pl_Edges : list Edge }.

(** json.Unmarshal whose type errors are ignored: a member of the wrong type
    leaves its field, an element of the wrong type is the zero value. *)
Definition loose_string (name : string) (fs : list (string * json)) : string :=
  fold_left (λ a '(k, x), if EqualFold k name then match x with JStr s => s | _ => a end else a) fs "".
Definition loose_labels (fs : list (string * json)) : option (gmap string string) :=
  fold_left (λ a '(k, x), if EqualFold k "labels" then
    match x with
    | JObj ms => Some (fold_left (λ m '(k, v),
        <[k := match v with JStr v => v | _ => "" end]> m) ms (default ∅ a))
    | JNull => None
    | _ => a
    end else a) fs None.
Definition loose_members (j : json) : list (string * json) :=
  match j with JObj fs => fs | _ => [] end.
Definition loose_node (j : json) : Node :=
  let fs := loose_members j in
  mkNode (loose_string "node_id" fs) (loose_string "kind" fs) (loose_string "name" fs)
    (loose_labels fs) (loose_string "owner_team" fs).
Definition loose_edge (j : json) : Edge :=
  let fs := loose_members j in
  mkEdge (loose_string "edge_id" fs) (loose_string "from_node_id" fs)
    (loose_string "to_node_id" fs) (loose_string "relation" fs).

(** [data, err := json.Marshal(raw[key]); json.Unmarshal(data, &slice)] *)
Definition loose_slice {A} (f : json → A) (raw : gmap string any) (key : string) : list A :=
  match raw !! key ≫= to_json with Some (JArr l) => map f l | _ => [] end.

Definition parseSnapshotPayload (payload : json) : result snapshotPayload :=
  raw ← decode_map payload;
  Ok (mkPayload (default "" (as_string (mget raw "snapshot_id")))
        (default ∅ (as_map (mget raw "labels")))
        (loose_slice loose_node raw "nodes") (loose_slice loose_edge raw "edges")).

(** The last element of every id that is not empty; a Go map's elements have no
    order, these come in [map_to_list]'s. *)
Definition by_id {A} (key : A → string) (l : list A) : gmap string A :=
  fold_left (λ m a, if key a =? "" then m else <[key a := a]> m) l ∅.
Definition not_in {A} (m m' : gmap string A) : list A :=
  omap (λ '(k, a), match m' !! k with None => Some a | Some _ => None end) (map_to_list m).

(** Added and removed. *)
Definition diff_by {A} (key : A → string) (current base : list A) : list A * list A :=
  let c := by_id key current in
  let b := by_id key base in
  (not_in c b, not_in b c).
Definition diffNodes : list Node → list Node → list Node * list Node := diff_by NodeID.
Definition diffEdges : list Edge → list Edge → list Edge * list Edge := diff_by EdgeID.

(** An empty slice is nil, and null. *)
Definition found_any {A} (f : A → any) (ty : string) (l : list A) : any :=
  match l with [] => ANil | _ => ASlice ty (map f l) end.

Definition diffSnapshots (current base : snapshotPayload) : gmap string any :=
  let '(addedNodes, removedNodes) := diffNodes (pl_Nodes current) (pl_Nodes base) in
  let '(addedEdges, removedEdges) := diffEdges (pl_Edges current) (pl_Edges base) in
  amap [("added_nodes", found_any node_any "Node" addedNodes);
        ("removed_nodes", found_any node_any "Node" removedNodes);
        ("added_edges", found_any edge_any "Edge" addedEdges);
        ("removed_edges", found_any edge_any "Edge" removedEdges)].

(** ** Handlers *)

Record ContextRefreshRequest := mkRefreshReq {
  fq_Service : string; fq_Nodes : list Node; fq_Edges : list Edge }.

Definition decode_refresh_request (j : json) : result ContextRefreshRequest :=
  fs ← Json.members j;
  s ← fld_string "service" fs; ns ← fld_slice decode_node "nodes" fs;
  es ← fld_slice decode_edge "edges" fs; Ok (mkRefreshReq s ns es).

Section handlers.
Context {S : Type} `{!GatewayDB S} `{!LibraryDB S} `{!GraphDB S}.
Variable sv : Server.
Variable cc : call_ctx.
(** The context service, when there is one: what its pollers answer. *)
Variable context_service : option (list (option (result Snapshot))).

Notation world := (gateway S).
Notation body := (handler world Response Response).

(** A page filtered by the tenant label of its items. *)
Definition list_by_label (action : string) (list : Z → Z → S → result (json * Z) * S) : body :=
  _ ← return_if (negb (Method (cc_req cc) =? "GET")) StatusMethodNotAllowed;
  _ ← has_db sv;
  tenantID ← require_tenant cc;
  _ ← require_tenant_read sv cc action tenantID (AMap ∅);
  let '(limit, offset) := parsePagination (Query (cc_req cc)) in
  rows ← on_db (list limit offset);
  '(payload, total) ← or_error rows "db error" 500;
  items ← or_error (decode_maps payload) "decode error" 500;
  mret (paginatedResponse (items_json payload (filterItemsByLabelTenant items tenantID false))
          limit offset total).

Definition handleContextServices : body :=
  list_by_label "context.services" lib_ListContextServices.
Definition handleContextSnapshots : body :=
  list_by_label "context.snapshots" lib_ListContextSnapshots.

Definition snapshot_tenant (p : snapshotPayload) : string :=
  tenantFromLabels (amap [("labels", AMap (sp_Labels p))]).

Definition getSnapshot (tenantID snapshotID : string) : body :=
  _ ← require_tenant_read sv cc "context.snapshot.get" tenantID (info "snapshot_id" snapshotID);
  payload ← on_db (lib_GetContextSnapshot snapshotID);
  payload ← or_error payload "db error" 500;
  match payload with
  | None => mret not_found
  | Some j =>
      item ← or_error (parseSnapshotPayload j) "decode error" 500;
      if tenantMatch (snapshot_tenant item) tenantID false
      then mret (mkResp 200 (Raw (doc_json j))) else mret not_found
  end.

Definition diffSnapshot (tenantID snapshotID : string) : body :=
  _ ← require_tenant_read sv cc "context.snapshot.diff" tenantID (info "snapshot_id" snapshotID);
  let baseID := TrimSpace (Query (cc_req cc) "base") in
  _ ← return_if (baseID =? "") (http_error "base snapshot required" 400);
  payloadA ← on_db (lib_GetContextSnapshot snapshotID);
  payloadA ← or_error payloadA "db error" 500;
  payloadB ← on_db (lib_GetContextSnapshot baseID);
  payloadB ← or_error payloadB "db error" 500;
  match payloadA, payloadB with
  | Some ja, Some jb =>
      a ← or_error (parseSnapshotPayload ja) "decode error" 500;
      b ← or_error (parseSnapshotPayload jb) "decode error" 500;
      if negb (tenantMatch (snapshot_tenant a) tenantID false)
         || negb (tenantMatch (snapshot_tenant b) tenantID false)
      then mret not_found
      else mret (ok_json (AMap (<["base_snapshot_id" := AStr baseID]>
                   (<["snapshot_id" := AStr snapshotID]> (diffSnapshots a b)))))
  | _, _ => mret not_found
  end.

Definition handleContextSnapshotByID : body :=
  _ ← return_if (negb (Method (cc_req cc) =? "GET")) StatusMethodNotAllowed;
  _ ← has_db sv;
  tenantID ← require_tenant cc;
  let parts := split_byte (byte 47) (trim_slashes (trim_prefix (Path (cc_req cc)) "/v1/context/snapshots/")) in
  match parts with
  | [] => mret (http_error "snapshot_id required" 400)
  | snapshotID :: rest =>
      _ ← return_if (snapshotID =? "") (http_error "snapshot_id required" 400);
      match rest with
      | [] => getSnapshot tenantID snapshotID
      | [verb] => if verb =? "diff" then diffSnapshot tenantID snapshotID
                  else mret (http_error "invalid snapshot path" 400)
      | _ => mret (http_error "invalid snapshot path" 400)
      end
  end.

(** writeJSON(w, http.StatusOK, ...) *)
Definition handleContextRefresh : body :=
  _ ← return_if (negb (Method (cc_req cc) =? "POST")) StatusMethodNotAllowed;
  pollers ← or_error (of_option "" context_service) "context unavailable" 503;
  req ← or_error (match Body (cc_req cc) with
                  | doc_empty => Ok (mkRefreshReq "" [] [])     (* io.EOF *)
                  | d => j ← unmarshal d; decode_refresh_request j
                  end) "invalid json" 400;
  ok ← gateway_check sv cc "context.refresh" "read" empty_ref "read" 0;
  _ ← or_return ok (λ e, deny sv cc "context.refresh" (info "service" (fq_Service req)) e
                           "policy denied" 403);
  ok ← on_db (match fq_Nodes req, fq_Edges req with
              | [], [] => RefreshContext pollers
              | nodes, edges => IngestSnapshot nodes edges
              end);
  _ ← or_error ok "context error" 500;
  _ ← allowed sv cc "context.refresh" (AMap (amap [("service", AStr (fq_Service req));
        ("node_count", AInt (Z.of_nat (length (fq_Nodes req))));
        ("edge_count", AInt (Z.of_nat (length (fq_Edges req))))]));
  mret (ok_json (info "status" "ok")).

Definition handleContextGraph : body :=
  _ ← return_if (negb (Method (cc_req cc) =? "GET")) StatusMethodNotAllowed;
  _ ← or_error (of_option "" context_service) "context unavailable" 503;
  let service := TrimSpace (Query (cc_req cc) "service") in
  _ ← return_if (service =? "") (http_error "service required" 400);
  _ ← require_read sv cc "context.graph" (info "service" service);
  graph ← on_db (service_GetServiceGraph service);
  graph ← or_error graph "context error" 500;
  mret (ok_json (graph_any graph)).
End handlers.

(** ** Lemmas *)
Lemma by_id_lookup {A} (key : A → string) l k :
  by_id key l !! k = last (List.filter (λ a, negb (key a =? "") && (key a =? k)) l).
Proof.
  unfold by_id. set (f := λ (m : gmap string A) a, _).
  assert (H : ∀ m, fold_left f l m !! k
    = match last (List.filter (λ a, negb (key a =? "") && (key a =? k)) l) with
      | Some a => Some a | None => m !! k end).
  { induction l as [|a l IH]; intros m; [done|]. cbn [fold_left List.filter]. rewrite IH.
    unfold f at 1. destruct (String.eqb_spec (key a) ""); simpl; [done|].
    destruct (String.eqb_spec (key a) k) as [<-|Hk].
    - rewrite last_cons. case_match; [done|]. apply lookup_insert_eq.
    - case_match; [done|]. by apply lookup_insert_ne. }
  rewrite H. case_match; [done|apply lookup_empty].
Qed.

Lemma by_id_spec {A} (key : A → string) l k a :
  by_id key l !! k = Some a → k ≠ "" ∧ key a = k ∧ a ∈ l.
Proof.
  rewrite by_id_lookup. intros [l' Hl]%last_Some.
  assert (Ha : a ∈ List.filter (λ a, negb (key a =? "") && (key a =? k)) l)
    by (rewrite Hl; set_solver).
  apply list_elem_of_In, filter_In in Ha as [Ha Hb]. bool_hyps. subst.
  split; [done|]. split; [done|]. by apply list_elem_of_In.
Qed.

Lemma by_id_dom {A} (key : A → string) l k :
  is_Some (by_id key l !! k) ↔ k ≠ "" ∧ k ∈ key <$> l.
Proof.
  split.
  - intros [a (Hk & <- & Ha)%by_id_spec]. split; [done|]. by apply list_elem_of_fmap_2.
  - intros [Hk (a & -> & Ha)%list_elem_of_fmap]. rewrite by_id_lookup. apply last_is_Some.
    intros Hnil. assert (H : a ∈ List.filter (λ b, negb (key b =? "") && (key b =? key a)) l).
    { apply list_elem_of_In, filter_In. split; [by apply list_elem_of_In|].
      apply String.eqb_neq in Hk. by rewrite Hk, String.eqb_refl. }
    rewrite Hnil in H. by apply elem_of_nil in H.
Qed.

Lemma not_in_spec {A} (m m' : gmap string A) a :
  a ∈ not_in m m' ↔ ∃ k, m !! k = Some a ∧ m' !! k = None.
Proof.
  unfold not_in. rewrite list_elem_of_omap. split.
  - intros ([k b] & Hk & Ha). apply elem_of_map_to_list in Hk.
    destruct (m' !! k) eqn:E; [done|]. injection Ha as ->. eauto.
  - intros (k & Hk & Hn). exists (k, a). rewrite elem_of_map_to_list, Hn. auto.
Qed.

(** ** Theorems *)

(** Comparing two snapshots finds what changed: an element counts as added
    when it is the current snapshot's last one of an id (not empty) that the base
    has no element of, as removed with the two exchanged; so the comparison the
    other way exchanges both, and a snapshot compared with itself shows
    nothing. *)
Theorem diffNodes_spec (current base : list Node) :
  let '(added, removed) := diffNodes current base in
  (∀ n, n ∈ added ↔ by_id NodeID current !! NodeID n = Some n ∧
                    (NodeID n ∉ NodeID <$> base)) ∧
  (∀ n, n ∈ removed ↔ by_id NodeID base !! NodeID n = Some n ∧
                      (NodeID n ∉ NodeID <$> current)) ∧
  diffNodes base current = (removed, added) ∧
  diffNodes current current = ([], []).
Proof.
  assert (H : ∀ c b n, n ∈ not_in (by_id NodeID c) (by_id NodeID b) ↔
    by_id NodeID c !! NodeID n = Some n ∧ (NodeID n ∉ NodeID <$> b)).
  { intros c b n. rewrite not_in_spec. split.
    - intros (k & Hk & Hn). destruct (by_id_spec _ _ _ _ Hk) as (Hne & <- & _).
      split; [done|]. intros Hb. apply eq_None_not_Some in Hn. apply Hn, by_id_dom. done.
    - intros [Hc Hb]. exists (NodeID n). split; [done|]. apply eq_None_not_Some.
      intros [_ Hin]%by_id_dom. done. }
  unfold diffNodes, diff_by. split; [apply H|]. split; [apply H|]. split; [done|].
  assert (Hself : not_in (by_id NodeID current) (by_id NodeID current) = []).
  { apply elem_of_nil_inv. intros n (k & Hk & Hn)%not_in_spec. congruence. }
  by rewrite Hself.
Qed.

(** *** Labels *)

(** The node says [v] of the key. *)
Definition says (key v : string) (n : Node) : Prop :=
  node_Labels n ≫= (λ labels, labels !! key) = Some v ∧ blank v = false.

Lemma consistent_label_set key nodes val r :
  val ≠ "" →
  consistent_label key nodes val = Some r ↔
  r = val ∧ ∀ n v, n ∈ nodes → says key v n → v = val.
Proof.
  intros Hval. induction nodes as [|n nodes IH]; simpl.
  { split; [intros [= <-]; split; [done|by intros ? ? ?%elem_of_nil]|by intros [-> _]]. }
  assert (Hskip : (∀ v, ¬ says key v n ∨ v = val) →
    (r = val ∧ (∀ n' v, n' ∈ nodes → says key v n' → v = val)) ↔
    (r = val ∧ (∀ n' v, n' ∈ n :: nodes → says key v n' → v = val))).
  { intros Hn. split; intros [-> H]; (split; [done|]); intros n' v.
    - intros [->|Hin]%elem_of_cons Hs; [destruct (Hn v); done|by eapply H].
    - intros Hin. apply H. by right. }
  destruct (node_Labels n ≫= _) as [label|] eqn:El.
  - destruct (blank label) eqn:Eb.
    + rewrite IH. apply Hskip. intros v. left. intros [Hv Hb]. congruence.
    + destruct (String.eqb_spec val ""); [done|].
      destruct (String.eqb_spec val label) as [<-|Hne]; simpl.
      * rewrite IH. apply Hskip. intros v. destruct (decide (v = val)); [by right|].
        left. intros [Hv _]. congruence.
      * split; [done|]. intros [_ H]. destruct Hne. symmetry. apply (H n label); [by left|done].
  - rewrite IH. apply Hskip. intros v. left. intros [Hv _]. congruence.
Qed.

Lemma consistent_label_spec key nodes v :
  v ≠ "" →
  consistent_label key nodes "" = Some v ↔
  (∃ n, n ∈ nodes ∧ says key v n) ∧ ∀ n v', n ∈ nodes → says key v' n → v' = v.
Proof.
  intros Hv. induction nodes as [|n nodes IH]; simpl.
  { split; [intros [= <-]; done|]. by intros [(? & ?%elem_of_nil & _) _]. }
  assert (Hskip : (∀ v, ¬ says key v n) →
    ((∃ n', n' ∈ nodes ∧ says key v n') ∧ (∀ n' v', n' ∈ nodes → says key v' n' → v' = v)) ↔
    ((∃ n', n' ∈ n :: nodes ∧ says key v n') ∧ (∀ n' v', n' ∈ n :: nodes → says key v' n' → v' = v))).
  { intros Hn. setoid_rewrite elem_of_cons. split.
    - intros [(n' & Hin & Hs) H]. split; [by eauto|]. intros n2 v2 [->|Hin2] Hs2; [by destruct (Hn v2)|eauto].
    - intros [(n' & [->|Hin] & Hs) H]; [by destruct (Hn v)|]. eauto 6. }
  destruct (node_Labels n ≫= _) as [label|] eqn:El.
  - destruct (blank label) eqn:Eb.
    + rewrite IH. apply Hskip. intros v' [Hv' Hb]. congruence.
    + assert (Hsay : says key label n) by done.
      assert (Hone : ∀ v', says key v' n → v' = label) by (intros v' [? _]; congruence).
      assert (Hl : label ≠ "") by (intros ->; by vm_compute in Eb).
      rewrite (consistent_label_set _ _ _ _ Hl).
      setoid_rewrite elem_of_cons. split.
      * intros [-> H]. split; [by eauto|]. intros n' v' [->|Hin] Hs; eauto.
      * intros [(n' & Hn' & Hs) H].
        assert (v = label) as -> by (symmetry; apply (H n label); auto).
        split; [done|]. intros n2 v2 Hin Hs2. apply (H n2 v2); auto.
  - rewrite IH. apply Hskip. intros v' [Hv' _]. congruence.
Qed.

(** A snapshot is labelled with what its nodes agree on: a label key of a
    context reference has a value exactly when some node gives the key that
    (non-blank) value and no node gives it another; no other key is set.  So a
    snapshot whose nodes name two tenants is nobody's. *)
Theorem snapshotLabels_spec (nodes : list Node) (key v : string) :
  snapshotLabels nodes !! key = Some v ↔
  key ∈ label_keys ∧ (∃ n, n ∈ nodes ∧ says key v n) ∧
  ∀ n v', n ∈ nodes → says key v' n → v' = v.
Proof.
  unfold snapshotLabels. set (f := λ (out : gmap string string) key, _).
  assert (H : ∀ keys out, fold_left f keys out !! key = Some v ↔
    (key ∈ keys ∧ v ≠ "" ∧ consistent_label key nodes "" = Some v) ∨
    ((key ∉ keys ∨ ∀ v, v ≠ "" → consistent_label key nodes "" ≠ Some v) ∧ out !! key = Some v)).
  { induction keys as [|k keys IH]; intros out; cbn [fold_left].
    { rewrite elem_of_nil. naive_solver. }
    rewrite IH, not_elem_of_cons, elem_of_cons. clear IH.
    destruct (decide (key = k)) as [<-|Hk].
    - unfold f. destruct (consistent_label key nodes "") as [x|] eqn:Ex.
      + destruct (String.eqb_spec x "") as [->|Hx].
        * assert (Hno : ∀ v', v' ≠ "" → Some "" ≠ Some v') by congruence. naive_solver.
        * rewrite lookup_insert_eq. split.
          { intros [?|[_ [= <-]]]; [naive_solver|]. left. naive_solver. }
          intros [(_ & Hv & [= ->])|[[?|Hno] _]]; [|naive_solver|by destruct (Hno x)].
          destruct (decide (key ∈ keys)); [by left|right]. split; [by left|done].
      + assert (Hno : ∀ v', v' ≠ "" → (None : option string) ≠ Some v') by done. naive_solver.
    - assert (f out k !! key = out !! key) as ->.
      { unfold f. repeat case_match; try done. by apply lookup_insert_ne. }
      naive_solver. }
  rewrite H, lookup_empty. split.
  - intros [(Hk & Hv & Hc)|[_ ?]]; [|done]. apply consistent_label_spec in Hc as [? ?]; auto.
  - intros (Hk & Hex & Hall). left.
    assert (Hv : v ≠ "") by (destruct Hex as (n & _ & _ & Hb); intros ->; by vm_compute in Hb).
    split; [done|]. split; [done|]. by apply consistent_label_spec.
Qed.

(** *** Over the store *)

Section over_store.
Variable clock : nat → Z.
Variable fault : nat → option string.
Variable jsonb : json → json.

#[local] Instance over_store_graph : GraphDB store := store_graph clock fault jsonb.

Notation graph s := (shelf (tabs s)).

(** The row of a node, and the rows of nodes stored one after the other. *)
Definition row_of_node (n : Node) : node_row :=
  mkNodeRow (NodeID n) (node_Kind n) (node_Name n)
    (jsonb (default JNull (to_json (labels_any (node_Labels n))))) (nullString (OwnerTeam n)).
Definition stored_nodes (nodes : list Node) (rows : list node_row) : list node_row :=
  fold_left (λ rows n, upsert_by gn_id (row_of_node n) rows) nodes rows.

Lemma upsert_node_spec n s :
  let '(r, s') := UpsertContextNode fault jsonb n s in
  match r with
  | Ok _ => graph s' = set_nodes (upsert_by gn_id (row_of_node n)) (graph s)
  | Err _ => tabs s' = tabs s
  end.
Proof.
  unfold UpsertContextNode, stmt, db_check, db_lift, check, db_write, mbind, db_bind.
  destruct (negb _); cbn; [|done]. by destruct (fault (stmts s)); cbn.
Qed.

Lemma edges_keep {V} (view : shelves → V) edges s :
  (∀ f h, view (set_edges f h) = view h) →
  view (graph (each (UpsertContextEdge clock fault) edges s).2) = view (graph s).
Proof.
  intros Hv. assert (Hone : ∀ e, db_rel (keeps (λ t, view (shelf t))) (UpsertContextEdge clock fault e)).
  { intros e. unfold UpsertContextEdge. frame. intros t. apply Hv. }
  revert s. induction edges as [|e edges IH]; intros s; simpl; [done|].
  specialize (Hone e s). destruct (UpsertContextEdge clock fault e s) as [[[]|?] s1]; simpl in *; [|done].
  by rewrite IH.
Qed.

Lemma nodes_prefix nodes s :
  let '(r, s') := each (UpsertContextNode fault jsonb) nodes s in
  ∃ stored rest, nodes = stored ++ rest ∧ (is_ok r = true → rest = []) ∧
    graph s' = set_nodes (stored_nodes stored) (graph s).
Proof.
  revert s. induction nodes as [|n nodes IH]; intros s; simpl.
  { exists [], []. split; [done|]. split; [done|]. by destruct (graph s). }
  pose proof (upsert_node_spec n s) as Hn.
  destruct (UpsertContextNode fault jsonb n s) as [[[]|e] s1].
  - specialize (IH s1). destruct (each _ nodes s1) as [r s2].
    destruct IH as (stored & rest & -> & Hr & ->). exists (n :: stored), rest.
    split; [done|]. split; [done|]. by rewrite Hn.
  - exists [], (n :: nodes). split; [done|]. split; [done|]. rewrite Hn. by destruct (graph s).
Qed.

(** Ingesting a snapshot stores the nodes in their order, each replacing the
    row of its id or adding one, up to the first that fails: what came before
    stays (there is no transaction), edges are stored only after all the nodes,
    and no other table changes. *)
Theorem IngestSnapshot_prefix nodes edges s :
  let '(r, s') := IngestSnapshot nodes edges s in
  ∃ stored rest, nodes = stored ++ rest ∧ (is_ok r = true → rest = []) ∧
    context_nodes (graph s') = stored_nodes stored (context_nodes (graph s)) ∧
    (rest ≠ [] → context_edges (graph s') = context_edges (graph s)) ∧
    set_nodes (λ _, []) (set_edges (λ _, []) (graph s'))
    = set_nodes (λ _, []) (set_edges (λ _, []) (graph s)).
Proof.
  unfold IngestSnapshot. cbn [gdb_UpsertContextNode gdb_UpsertContextEdge over_store_graph store_graph].
  pose proof (nodes_prefix nodes s) as Hn.
  destruct (each (UpsertContextNode fault jsonb) nodes s) as [[[]|e] s1].
  - destruct Hn as (stored & rest & -> & Hr & Hg). specialize (Hr eq_refl) as ->.
    pose proof (edges_keep context_nodes edges s1 (λ _ _, eq_refl)) as He.
    pose proof (edges_keep (λ h, set_nodes (λ _, []) (set_edges (λ _, []) h)) edges s1
      (λ _ _, eq_refl)) as Ho.
    destruct (each (UpsertContextEdge clock fault) edges s1) as [r s2]. cbn [snd] in He, Ho.
    exists stored, []. split; [done|]. split; [done|]. rewrite He, Ho, Hg. done.
  - destruct Hn as (stored & rest & -> & Hr & Hg). exists stored, rest.
    split; [done|]. split; [done|]. rewrite Hg. done.
Qed.

Lemma maybeSnapshot_step interval now last_ snap s :
  let '(last', s') := maybeSnapshot interval now last_ snap s in
  (last' = last_ ∧ snapshots (graph s') = snapshots (graph s)) ∨
  (last' = now ∧ (last_ = zero_time ∨ (interval ≤ now - last_)%Z) ∧
   ∃ row, snapshots (graph s') = snapshots (graph s) ++ [row]).
Proof.
  unfold maybeSnapshot. cbn [gdb_InsertContextSnapshot over_store_graph store_graph].
  assert (Hins : ∀ n e l, let '(r, s') := InsertContextSnapshot clock fault jsonb "context" n e l s in
    match r with
    | Ok _ => ∃ row, snapshots (graph s') = snapshots (graph s) ++ [row]
    | Err _ => snapshots (graph s') = snapshots (graph s)
    end).
  { intros n e l. unfold InsertContextSnapshot.
    destruct n as [| |jn], e as [| |je]; try done.
    unfold newID, time_now, db_lift, insert_shelf. cbv [mbind db_bind mret db_ret result_bind].
    cbn [unmarshal tabs stmts ticks].
    destruct (match l with doc_empty => _ | _ => _ end) as [lab|?]; [|done].
    match goal with |- context [insert_unique _ ?c _ _ ?r ?s0] =>
      pose proof (insert_unique_spec fault c snapshots set_snapshots r s0 (λ _ _, eq_refl)) as H;
      destruct (insert_unique _ c _ _ r s0) as [[[]|?] ?] end; simpl in *;
      [destruct H as [_ H]; eauto|by rewrite H]. }
  destruct (match snap_nodes snap with [] => _ | _ => _ end); [by left|].
  destruct (negb _ && _) eqn:Eb; [by left|].
  assert (Hspace : last_ = zero_time ∨ (interval ≤ now - last_)%Z).
  { destruct (Z.eqb_spec last_ zero_time); [by left|right]. simpl in Eb. bool_hyps. lia. }
  destruct (doc_of _) as [dn|]; [|by left]. destruct (doc_of _) as [de|]; [|by left].
  specialize (Hins dn de (if (0 <? size (snapshotLabels (snap_nodes snap)))%nat
    then default doc_empty (doc_of (marshal (labels_any (Some (snapshotLabels (snap_nodes snap))))))
    else doc_empty)).
  destruct (InsertContextSnapshot _ _ _ _ _ _ _ s) as [[id|e] s1]; [right|left]; auto.
Qed.

(** When the loop, from a state, stores a snapshot: the times of the turns after
    which the table has one more. *)
Fixpoint snapshot_times (interval : Z) (arrivals : list (Z * Snapshot)) (st : Z * store) : list Z :=
  match arrivals with
  | [] => []
  | a :: rest =>
      let st' := (ingest_turn interval a st).2 in
      let times := snapshot_times interval rest st' in
      if (length (snapshots (graph st.2)) <? length (snapshots (graph st'.2)))%nat
      then a.1 :: times else times
  end.

Definition spaced (interval t t' : Z) : Prop := t = zero_time ∨ (interval ≤ t' - t)%Z.

Lemma ingest_keeps_snapshots nodes edges s :
  snapshots (graph (IngestSnapshot nodes edges s).2) = snapshots (graph s).
Proof.
  unfold IngestSnapshot. cbn [gdb_UpsertContextNode gdb_UpsertContextEdge over_store_graph store_graph].
  pose proof (nodes_prefix nodes s) as Hn.
  destruct (each (UpsertContextNode fault jsonb) nodes s) as [[[]|e] s1];
    destruct Hn as (stored & rest & _ & _ & Hg); [|by cbn [snd]; rewrite Hg].
  rewrite (edges_keep snapshots); [by rewrite Hg|done].
Qed.

Lemma ingest_turn_step interval a st :
  let st' := (ingest_turn interval a st).2 in
  (st'.1 = st.1 ∧ length (snapshots (graph st'.2)) = length (snapshots (graph st.2))) ∨
  (st'.1 = a.1 ∧ spaced interval st.1 a.1 ∧
   length (snapshots (graph st'.2)) = Datatypes.S (length (snapshots (graph st.2)))).
Proof.
  destruct a as [now snap]. unfold ingest_turn.
  pose proof (ingest_keeps_snapshots (snap_nodes snap) (snap_edges snap) st.2) as Hk.
  destruct (IngestSnapshot _ _ st.2) as [r s1]. cbn [snd] in Hk |- *.
  pose proof (maybeSnapshot_step interval now st.1 snap s1) as Hm.
  destruct (maybeSnapshot _ _ _ _ s1) as [last' s2]. cbn [fst snd].
  destruct Hm as [[-> H]|(-> & Hs & row & H)]; rewrite H, Hk; [by left|right].
  rewrite length_app. simpl. split; [done|]. split; [done|]. lia.
Qed.

(** C37: whatever snapshots arrive when, and whatever fails, the ingest loop
    stores at most one per interval: each stored one comes at least the interval
    after the one stored before it (a time that is Go's zero time counts as
    none). *)
Theorem snapshots_spaced interval arrivals last_ s :
  Sorted (spaced interval) (last_ :: snapshot_times interval arrivals (last_, s)).
Proof.
  enough (H : ∀ st, Sorted (spaced interval) (st.1 :: snapshot_times interval arrivals st))
    by apply (H (last_, s)).
  induction arrivals as [|a arrivals IH]; intros st; cbn [snapshot_times].
  { repeat constructor. }
  pose proof (ingest_turn_step interval a st) as Hstep.
  set (st' := (ingest_turn interval a st).2) in *. specialize (IH st').
  destruct Hstep as [[H1 H2]|(H1 & Hs & H2)]; rewrite H2.
  - rewrite (proj2 (Nat.ltb_ge _ _)) by lia. by rewrite <- H1.
  - rewrite (proj2 (Nat.ltb_lt _ _)) by lia. rewrite H1 in IH.
    constructor; [done|by constructor].
Qed.
End over_store.

(** Refreshing is checked as a read of nothing, and writes the graph: with a
    policy that denies every write, a caller replaces a node. *)
Theorem refresh_writes_as_a_read :
  let deny_writes : Checker := λ i,
    Ok (plain_decision (if pi_ActionType i =? "read" then "allow" else "deny")) in
  let node name := JObj [("node_id", JStr "n1"); ("kind", JStr "service"); ("name", JStr name)] in
  let request name := demo_request "POST" "/v1/context/refresh"
    (doc_json (JObj [("nodes", JArr [node name])])) in
  let refresh name w := run_handler (@handleContextRefresh store demo_db
      (store_graph tick_clock no_fault same_json) (demo_server (Some deny_writes) None) (request name) (Some [])) w in
  let '(_, w) := refresh "web" gateway0 in
  let '(r, w') := refresh "fake" w in
  Status r = 200%Z ∧
  map gn_name (context_nodes (shelf (tabs (g_db w)))) = ["web"] ∧
  map gn_name (context_nodes (shelf (tabs (g_db w')))) = ["fake"].
Proof. vm_compute. auto. Qed.
