(* ===== verification/Lifecycle.v ===== *)
(** * Lifecycle: plans over the store, from creation to execution

    The handlers of Plans.v run on the tables of Store.v: which rows a created,
    approved or executed plan has. *)

From S2P Require Import Prelude GoStrings Json ContextRef Steps Policy Constraints Hubs Http.
From S2P Require Import Store EventGate Gateway Plans.

Local Open Scope string_scope.
Local Open Scope list_scope.

#[local] Existing Instance demo_db.

(** The answer and the state after a request. *)
Definition after (sv : Server) (h : Server → call_ctx → handler (gateway store) Response Response)
    (cc : call_ctx) (w : gateway store) : Response * gateway store :=
  run_handler (h sv cc) w.

(** ** What the statements write *)

Section rows.
Variable clock : nat → Z.
Variable fault : nat → option string.
Variable jsonb : json → json.

(** [m] leaves the tables as they are when it fails. *)
Definition atomic {A} (m : db A) (post : A → tables → tables → Prop) : Prop :=
  ∀ s, match m s with
       | (Ok a, s') => post a (tabs s) (tabs s')
       | (Err _, s') => tabs s' = tabs s
       end.

Lemma CreateApproval_rows p :
  atomic (CreateApproval clock fault p)
    (λ id t t', t' = set_approvals (λ l, l ++ [mkApproval id p "pending" "linear" None]) t).
Proof.
  intros s. unfold CreateApproval, insert_approval, newID, time_now, stmt, db_read, db_check,
    db_lift, check, db_write, references_plan, mbind, db_bind, mret, db_ret. cbn.
  destruct (fault _); cbn; [done|]. destruct (existsb _ _); cbn; [done|].
  by case_bool_decide.
Qed.

Lemma UpdateApproval_rows p st :
  atomic (UpdateApprovalStatusByPlan fault p st)
    (λ _ t t', t' = set_approvals (update_where (of_plan p) (with_status st)) t).
Proof.
  intros s. unfold UpdateApprovalStatusByPlan, stmt, db_write, mbind, db_bind. cbn.
  by destruct (fault _).
Qed.

Lemma SetHash_rows p h :
  atomic (SetApprovalHash fault p h)
    (λ _ t t', t' = set_approvals (update_where (of_plan p) (with_hash h)) t).
Proof.
  intros s. unfold SetApprovalHash, stmt, db_write, mbind, db_bind. cbn. by destruct (fault _).
Qed.

(** What a transaction's body does when it succeeds, the transaction does. *)
Lemma withTx_atomic {A} (m : db A) (R : tables → tables → Prop) :
  (∀ s a s', m s = (Ok a, s') → R (tabs s) (tabs s')) → atomic (withTx fault m) (λ _, R).
Proof.
  intros HR s. unfold withTx, stmt at 1. specialize (HR (mkStore (tabs s) (S (stmts s)) (ticks s))).
  destruct (fault (stmts s)); simpl; [done|].
  destruct (m _) as [[a|e] s2]; [|done]. specialize (HR _ _ eq_refl).
  unfold stmt. by destruct (fault (stmts s2)).
Qed.

(** The steps that are stored: those with an action and a tool. *)
Definition stored_step (step : planStepPayload) : bool :=
  negb ((y_action step =? "") || (y_tool step =? "")).

(** [rows] are the rows of the steps, in their order, under some ids. *)
Definition rows_of_steps (planID : string) (steps : list planStepPayload) (rows : list step_row) :
    Prop :=
  Forall2 (λ step row, ∃ id, row = new_step_row jsonb id planID step)
    (List.filter stored_step steps) rows.

(** A new plan is a new key with the payload's members and steps; approvals and
    executions are as they were. *)
Definition plan_added (payload : json) (id : string) (t t' : tables) : Prop :=
  plans t !! id = None ∧
  (∃ m steps now ctx rows,
     decode_map payload = Ok m ∧ decodePlanSteps (mget m "steps") = Ok steps ∧
     plans t' = <[id := new_plan_row jsonb now m ctx]> (plans t) ∧
     plan_steps t' = plan_steps t ++ rows ∧ rows_of_steps id steps rows) ∧
  approvals t' = approvals t ∧ executions t' = executions t.

Lemma steps_keep id l s :
  let t := tabs s in let t' := tabs (insertPlanStepsConn clock fault jsonb id l s).2 in
  plans t' = plans t ∧ approvals t' = approvals t ∧ executions t' = executions t.
Proof.
  intros t t'. exact (conj (insert_steps_keeps clock fault jsonb plans id l (λ _ _, eq_refl) s)
    (conj (insert_steps_keeps clock fault jsonb approvals id l (λ _ _, eq_refl) s)
          (insert_steps_keeps clock fault jsonb executions id l (λ _ _, eq_refl) s))).
Qed.

Lemma steps_inserted planID l s u s' :
  insertPlanStepsConn clock fault jsonb planID l s = (Ok u, s') →
  ∃ rows, plan_steps (tabs s') = plan_steps (tabs s) ++ rows ∧ rows_of_steps planID l rows.
Proof.
  unfold rows_of_steps. revert s. induction l as [|step l IH]; simpl; intros s.
  - intros [= <- <-]. exists []. split; [by rewrite app_nil_r|constructor].
  - unfold stored_step at 1. destruct ((y_action step =? "") || (y_tool step =? ""));
      [simpl; apply IH|].
    unfold newID, time_now, stmt, db_read, db_check, db_lift, check, db_write, references_plan,
      mbind, db_bind, mret, db_ret. cbn.
    destruct (fault _); cbn; [done|]. destruct (existsb _ _); cbn; [done|].
    case_bool_decide; cbn; [|done]. intros (rows & -> & Hrows)%IH. simpl.
    eexists. rewrite <- (assoc_L (++)). split; [done|]. constructor; [by eexists|done].
Qed.

Lemma CreatePlan_rows payload : atomic (CreatePlan clock fault jsonb payload) (plan_added payload).
Proof.
  intros s. unfold CreatePlan, newID, time_now, db_lift, mbind, db_bind, mret, db_ret. cbn.
  destruct (decode_map payload) as [m|] eqn:Hm; [cbn|done].
  destruct (decodePlanSteps _) as [steps|] eqn:Hsteps; [cbn|done].
  destruct (marshal _) as [ctx|]; [cbn|done].
  set (s1 := mkStore _ _ _). change (tabs s) with (tabs s1). clearbody s1.
  set (id := "plan" +:+ _). clearbody id.
  match goal with |- context [withTx fault ?b s1] => set (bd := b) end.
  assert (Htx : ∀ s0 a s', bd s0 = (Ok a, s') → plan_added payload id (tabs s0) (tabs s')).
  { intros s0 a s'. unfold bd, stmt, db_read, db_check, db_lift, check, db_write, mbind,
      db_bind. cbn. destruct (fault _); cbn; [done|]. case_bool_decide as Hid; cbn; [done|].
    intros Hs.
    match type of Hs with insertPlanStepsConn _ _ _ _ _ ?s1 = _ =>
      pose proof (steps_keep id steps s1) as Hk end.
    apply steps_inserted in Hs as Hrows. destruct Hrows as (rows & Hrows & Hf).
    rewrite Hs in Hk. destruct Hk as (H1 & H2 & H3). simpl in *.
    split; [by apply eq_None_not_Some|]. split; [|done]. by exists m, steps, (clock (S (ticks s))), ctx, rows. }
  pose proof (withTx_atomic bd _ Htx s1) as H.
  by destruct (withTx fault bd s1) as [[?|?] ?].
Qed.
End rows.

(** ** Creation and execution over the store *)

Section over_store.
Variable clock : nat → Z.
Variable fault : nat → option string.
Variable jsonb : json → json.
Variable pick : list approval_row → option approval_row.
Variable time_text : Z → string.
Variable time_parse : string → result Z.
Variable sv : Server.
Variable cc : call_ctx.

#[local] Instance db_inst : GatewayDB store :=
  store_db clock fault jsonb pick time_text time_parse.
#[local] Existing Instance store_core.
#[local] Existing Instance store_exec_view.

Notation world := (gateway store).
Notation tables_of w := (tabs (g_db w)).

Lemma wp_on_db_atomic {A R} (m : db A) post Q (F : R → world → Prop) w :
  atomic m post →
  (∀ a w', post a (tables_of w) (tables_of w') → Q (Ok a) w') →
  (∀ e w', tables_of w' = tables_of w → Q (Err e) w') →
  wp (on_db m) Q F w.
Proof.
  intros Hm HQ HE. apply wp_on_db. specialize (Hm (g_db w)).
  destruct (m (g_db w)) as [[a|e] s']; simpl; [by apply HQ|by apply HE].
Qed.

(** The tables the audit log is not part of. *)
Lemma same_core w w' : same core_of w w' →
  plans (tables_of w') = plans (tables_of w) ∧
  approvals (tables_of w') = approvals (tables_of w) ∧
  executions (tables_of w') = executions (tables_of w).
Proof.
  unfold same, core_of, core. destruct (tables_of w), (tables_of w'). by intros [= -> -> -> -> _ _ _ _].
Qed.

Lemma update_where_other {A} sel (f : A → A) l :
  (∀ a, a ∈ l → sel a = false) → update_where sel f l = l.
Proof.
  intros H. unfold update_where. rewrite <- (map_id l) at 2. apply map_ext_in.
  intros a Ha%list_elem_of_In. by rewrite H.
Qed.

Lemma update_where_last {A} sel (f : A → A) l a :
  (∀ a, a ∈ l → sel a = false) → sel a = true → update_where sel f (l ++ [a]) = l ++ [f a].
Proof.
  intros Hl Ha. unfold update_where. rewrite map_app. simpl. rewrite Ha.
  by rewrite (update_where_other sel f l Hl : map _ l = l).
Qed.

(** The approval a new write plan gets. *)
Definition first_approval (risk planID : string) (a : approval_row) : Prop :=
  a_plan a = planID ∧
  (a_status a = "pending" ∨
   a_status a = "approved" ∧ risk = "low" ∧ sv_AutoApproveLow sv = true).

Definition approved_with (risk planID : string) (t t' : tables) : Prop :=
  (∃ a, first_approval risk planID a ∧ approvals t' = approvals t ++ [a]) ∧
  plans t' = plans t ∧ executions t' = executions t.

Lemma wp_createApproval {R} planID external Q (F : R → world → Prop) w :
  (∀ id w', tables_of w' = set_approvals (λ l, l ++ [mkApproval id planID "pending" "linear" None])
              (tables_of w) → ∀ r, Q r w') →
  (∀ e w', tables_of w' = tables_of w → Q (Err e) w') →
  wp (createApproval sv planID external) Q F w.
Proof.
  intros HQ HE. apply wp_bind, (wp_on_db_atomic _ _ _ _ _ (CreateApproval_rows clock fault planID));
    [|intros e w1 Hw1; apply wp_ret; by apply HE].
  intros id w1 Hw1. destruct (sv_Approvals sv) as [issue|]; [|by apply wp_ret; eapply HQ].
  destruct external; [|by apply wp_ret; eapply HQ].
  apply wp_bind, wp_outward. intros [u|e] w2 Hw2; apply wp_ret; eapply HQ; by rewrite Hw2.
Qed.
Definition not_ok (r : Response) : Prop := Status r ≠ 200%Z.

Lemma wp_record_hash {R} planID intent steps Q (F : R → world → Prop) w :
  (∀ w', tables_of w' = tables_of w → Q tt w') →
  (∀ h w', tables_of w' = set_approvals (update_where (of_plan planID) (with_hash h)) (tables_of w) →
     Q tt w') →
  wp (record_hash planID intent steps) Q F w.
Proof.
  intros H0 HQ. apply wp_bind, (wp_on_db_atomic _ _ _ _ _ (SetHash_rows fault planID _)).
  - intros [] w' Hw'. apply wp_ret. by eapply HQ.
  - intros e w' Hw'. by apply wp_ret, H0.
Qed.

Lemma wp_approve_new planID risk dec plan Q (F : Response → world → Prop) w :
  (∀ a, a ∈ approvals (tables_of w) → a_plan a ≠ planID) →
  (∀ w', approved_with risk planID (tables_of w) (tables_of w') → Q tt w') →
  (∀ r w', not_ok r → F r w') →
  wp (approve_new_plan sv cc planID risk dec plan) Q F w.
Proof.
  intros Hfresh HQ HF. unfold approve_new_plan.
  assert (Hsel : ∀ a, a ∈ approvals (tables_of w) → of_plan planID a = false).
  { intros a Ha. by apply String.eqb_neq, Hfresh. }
  destruct (_ && _ && _) eqn:E.
  - apply wp_bind, wp_createApproval; [|intros e w1 _; apply wp_bind; by apply wp_return, HF].
    intros id w1 Hw1 r. apply wp_bind, wp_or_return; split; intros x _; [|by apply wp_return, HF].
    apply wp_bind, (wp_on_db_atomic _ _ _ _ _ (UpdateApproval_rows fault planID "approved"));
      [|intros e w2 _; apply wp_bind; by apply wp_return, HF].
    intros [] w2 Hw2. apply wp_bind, wp_ret, wp_bind.
    assert (Hplans : plans (tables_of w2) = plans (tables_of w) ∧
                     executions (tables_of w2) = executions (tables_of w))
      by (by rewrite Hw2, Hw1).
    assert (Happ : approvals (tables_of w2)
      = approvals (tables_of w) ++ [mkApproval id planID "approved" "linear" None]).
    { rewrite Hw2, Hw1. simpl. rewrite update_where_last; [done|done|apply String.eqb_refl]. }
    bool_hyps.
    apply wp_record_hash.
    + intros w3 Hw3. apply (wp_audit core_of). intros w4 Hw4%same_core.
      destruct Hw4 as (P4 & A4 & X4), Hplans as [P2 X2].
      apply HQ. split; [|rewrite P4, X4, Hw3, P2, X2; done].
      eexists. split; [|by rewrite A4, Hw3, Happ]. split; [done|]. by right.
    + intros h w3 Hw3. apply (wp_audit core_of). intros w4 Hw4%same_core.
      destruct Hw4 as (P4 & A4 & X4), Hplans as [P2 X2].
      apply HQ. split; [|rewrite P4, X4, Hw3; simpl; by rewrite P2, X2].
      eexists. split; [|rewrite A4, Hw3; simpl; rewrite Happ, update_where_last;
        [done|done|apply String.eqb_refl]].
      split; [done|]. by right.
  - apply wp_bind, wp_createApproval; [|intros e w1 _; apply wp_bind; by apply wp_return, HF].
    intros id w1 Hw1 r. apply wp_bind, wp_or_return; split; intros x _; [|by apply wp_return, HF].
    apply wp_ret, HQ. rewrite Hw1. split; [|done].
    eexists. split; [|done]. split; [done|]. by left.
Qed.
(** A successful POST /v1/plans: one new plan, and an approval when its risk is
    not read. *)
Definition plan_created (w w' : world) : Prop :=
  ∃ planID req row,
    (j ← unmarshal (Body (cc_req cc)); decode_plan_request j) = Ok req ∧
    plans (tables_of w) !! planID = None ∧
    plans (tables_of w') = <[planID := row]> (plans (tables_of w)) ∧
    executions (tables_of w') = executions (tables_of w) ∧
    p_trigger row = valid_utf8 (rq_Trigger req) ∧ p_summary row = valid_utf8 (rq_Summary req) ∧
    p_intent row = nullString (valid_utf8 (rq_Intent req)) ∧
    p_risk row = riskFromIntent (rq_Intent req) ∧
    (if p_risk row =? "read" then approvals (tables_of w') = approvals (tables_of w)
     else ∃ a, first_approval (p_risk row) planID a ∧
               approvals (tables_of w') = approvals (tables_of w) ++ [a]).

Lemma risk_plain intent : valid_utf8 (riskFromIntent intent) = riskFromIntent intent.
Proof. unfold riskFromIntent. repeat case_match; reflexivity. Qed.

(** The text columns of the row of a marshalled plan. *)
Lemma row_texts plan payload m now ctx :
  plain_keys plan → marshal (AMap plan) = Ok payload → decode_map payload = Ok m →
  let row := new_plan_row jsonb now m ctx in
  (∀ s, plan !! "trigger" = Some (AStr s) → p_trigger row = valid_utf8 s) ∧
  (∀ s, plan !! "summary" = Some (AStr s) → p_summary row = valid_utf8 s) ∧
  (∀ s, plan !! "intent" = Some (AStr s) → p_intent row = nullString (valid_utf8 s)) ∧
  (∀ s, plan !! "risk_level" = Some (AStr s) → p_risk row = valid_utf8 s).
Proof.
  intros Hk Hp Hm row. unfold row, new_plan_row, text_of. simpl.
  split_and!; intros s Hs; by rewrite (decoded_string _ _ _ _ _ Hk Hp Hm Hs).
Qed.

Lemma with_plan_text_lookup text plan k :
  k ≠ "plan_text" → k ≠ "steps" → with_plan_text text plan !! k = plan !! k.
Proof.
  intros H1 H2. unfold with_plan_text. destruct (text =? ""); [done|].
  destruct (parsePlanSteps text); by rewrite ?lookup_insert_ne.
Qed.

Lemma with_plan_text_plain text plan : plain_keys plan → plain_keys (with_plan_text text plan).
Proof.
  intros H. unfold with_plan_text. destruct (text =? ""); [done|].
  destruct (parsePlanSteps text); by repeat apply plain_insert.
Qed.

Lemma wp_createPlan w :
  tables_ok (tables_of w) →
  wp (createPlan sv cc) (λ r w', Status r = 200%Z → plan_created w w')
     (λ r w', Status r = 200%Z → plan_created w w') w.
Proof.
  intros Hok. unfold createPlan.
  apply wp_bind, (wp_session core_of). intros session w1 Hw1.
  apply wp_bind, wp_or_return; split; intros required _; [|by apply wp_return].
  apply wp_bind, wp_or_return; split; intros req Hreq; [|by apply wp_return].
  apply wp_bind, wp_or_return; split; intros u _; [|by apply (wp_deny core_of)].
  apply wp_bind, (wp_policy core_of). intros time w2 Hw2.
  apply wp_bind, wp_or_return; split; intros dec _; [|by apply (wp_deny core_of)].
  apply wp_bind, (wp_admit core_of); [intros _|done].
  apply wp_bind, wp_now. intros w3 Hw3.
  apply wp_bind, wp_return_if; split; intros _; [done|].
  apply wp_bind. apply wp_mono with (Q := λ _ w4, w4 = w3) (E := λ _ _, False); [|intros diags w4 ->|done].
  { unfold collect_diagnostics. destruct (sv_Diagnostics sv); [by apply wp_reads|by apply wp_ret]. }
  apply wp_bind. apply wp_mono with (Q := λ _ w4, g_db w4 = g_db w3) (E := λ _ _, False);
    [|intros text w4 Hw4|done].
  { unfold draft_plan. destruct (sv_Planner sv); [|by apply wp_ret].
    destruct (blank _); [by apply wp_ret|]. by apply wp_outward. }
  apply wp_bind, wp_or_return; split; intros planText _; [|by apply (wp_deny core_of)].
  apply wp_bind, wp_or_return; split; intros payload Hpayload; [|by apply wp_return].
  match type of Hpayload with marshal (AMap (with_plan_text _ ?l)) = _ => set (plan := l) in * end.
  assert (Hkeys : plain_keys (with_plan_text planText plan)).
  { apply with_plan_text_plain, plain_amap. by destruct diags. }
  assert (H4 : same core_of w w4).
  { unfold same. rewrite Hw4, Hw3. by rewrite Hw2, Hw1. }
  apply wp_bind, (wp_on_db_atomic _ _ _ _ _ (CreatePlan_rows clock fault jsonb payload));
    [|intros e w5 _; apply wp_bind; by apply wp_return].
  intros planID w5 (Hnew & (m & steps & now & ctx & rows & Hm & _ & Hplans & _) & HA & HX).
  apply wp_bind, wp_ret. apply same_core in H4 as (P4 & A4 & X4).
  rewrite P4 in Hnew, Hplans. rewrite A4 in HA. rewrite X4 in HX.
  destruct (row_texts _ _ _ now ctx Hkeys Hpayload Hm) as (Rt & Rs & Ri & Rr).
  rewrite !with_plan_text_lookup in Rt, Rs, Ri, Rr by done.
  unfold plan in Rt, Rs, Ri, Rr. rewrite !amap_assoc in Rt, Rs, Ri, Rr.
  specialize (Rt _ eq_refl). specialize (Rs _ eq_refl). specialize (Ri _ eq_refl).
  specialize (Rr _ eq_refl). rewrite risk_plain in Rr.
  clear Hpayload Hkeys. set (risk := riskFromIntent (rq_Intent req)) in *.
  set (row := new_plan_row jsonb now m ctx) in *. clearbody row.
  apply wp_bind. apply wp_mono with (E := λ r _, not_ok r) (Q := λ _ w6,
      if risk =? "read" then tables_of w6 = tables_of w5
      else approved_with risk planID (tables_of w5) (tables_of w6)); [| |by intros].
  { destruct (risk =? "read"); simpl; [by apply wp_ret|].
    apply wp_approve_new; [|by intros|done]. rewrite HA. intros a Ha <-.
    destruct (ok_approval_refs _ Hok a Ha). congruence. }
  intros _ w6 H6. apply wp_bind, (wp_audit core_of). intros w7 Hw7%same_core.
  apply wp_bind, wp_emit. intros w8 Hw8. apply wp_ret. intros _.
  exists planID, req, row. rewrite Hw8, Rr. destruct Hw7 as (-> & -> & ->).
  destruct (risk =? "read").
  - rewrite H6. by split_and!.
  - destruct H6 as ((a & Ha & HA') & HP & HX'). rewrite HP, HX', HA', HA. split_and!; try done. eauto.
Qed.

(** ** Theorems *)

(** C26: a plan accepted by POST /v1/plans is one new row, filed under a key no
    plan had, and no other plan or execution changes; when the intent's risk is
    read no approval is created, otherwise exactly one is, for the new plan, and
    it is pending — or approved, when the risk is low and low-risk plans are
    approved automatically. *)
Theorem created_plan_approval w r w' :
  tables_ok (tables_of w) →
  run_handler (createPlan sv cc) w = (r, w') → Status r = 200%Z → plan_created w w'.
Proof.
  intros Hok Hrun. refine (wp_run_eq _ (λ r w', Status r = 200%Z → plan_created w w') _ _ _ Hrun _).
  by apply wp_createPlan.
Qed.

Lemma approval_given_row planID token s :
  (∀ l a, pick l = Some a → a ∈ l) →
  approval_given planID token s = Ok "approved" →
  ∃ a, a ∈ approvals (tabs s) ∧ a_plan a = planID ∧ a_status a = "approved".
Proof.
  intros Hpick. unfold approval_given. destruct (blank planID); [done|].
  destruct (negb _); simpl.
  - unfold GetApprovalStatusByToken, stmt, db_read, db_lift, mbind, db_bind. cbn.
    destruct (fault _); cbn; [done|]. destruct (List.find _ _) as [a|] eqn:E; cbn; [|done].
    intros [= Ha]. apply find_some in E as [Hin Hsel%andb_prop]. exists a.
    rewrite list_elem_of_In. split; [done|]. destruct Hsel as [Hp _].
    split; [by apply String.eqb_eq|done].
  - unfold GetApprovalStatus, pick_approval, stmt, db_read, db_lift, mbind, db_bind. cbn.
    destruct (fault _); cbn; [done|]. destruct (pick _) as [a|] eqn:E; cbn; [|done].
    intros [= Ha]. apply Hpick, list_elem_of_In, filter_In in E as [Hin Hp].
    exists a. rewrite list_elem_of_In. split; [done|]. split; [by apply String.eqb_eq|done].
Qed.

Lemma idle_rows planID s :
  idle planID s →
  ∀ x, x ∈ executions (tabs s) → x_plan x = planID → active_status (x_status x) = false.
Proof.
  unfold idle. simpl. unfold HasActiveExecution, stmt, db_read, mbind, db_bind. cbn.
  destruct (fault _); cbn; [done|]. intros [= H] x Hx Hp.
  destruct (active_status (x_status x)) eqn:Ha; [|done]. rewrite <- H. symmetry.
  apply existsb_exists. exists x. rewrite <- list_elem_of_In. split; [done|].
  apply andb_true_intro. split; [by apply String.eqb_eq|done].
Qed.

(** C3: a request to execute a plan answers 200 only for a plan that is stored
    and has no pending or running execution, and, unless the risk it is executed
    at is read, has an approval row of its own with the status approved; the
    request then adds one pending execution of that plan to the table. *)
Theorem executed_plan_was_approved path w r w' :
  (∀ l a, pick l = Some a → a ∈ l) →
  run_handler (executePlan_ sv cc path) w = (r, w') → Status r = 200%Z →
  let planID := trim_prefix (trim_suffix path ":execute") plans_prefix in
  ∃ row plan execID,
    plans (tables_of w) !! planID = Some row ∧
    decode_map (plan_json time_text planID row) = Ok plan ∧
    (execution_type (execution_risk plan) = "write" →
       ∃ a, a ∈ approvals (tables_of w) ∧ a_plan a = planID ∧ a_status a = "approved") ∧
    (∀ x, x ∈ executions (tables_of w) → x_plan x = planID → active_status (x_status x) = false) ∧
    exec_triples (tables_of w') = exec_triples (tables_of w) ++ [(execID, planID, "pending")].
Proof.
  intros Hpick Hrun H200 planID.
  pose proof (wp_execute_plan core_of exec_triples sv cc path w) as H.
  apply (wp_run_eq _ _ _ _ _ Hrun) in H. fold planID in H. clearbody planID.
  destruct H as [[Hr _]|[_ (execID & token & plan & steps & Hgate & Hexecs & _)]];
    [unfold refused in Hr; rewrite H200 in Hr; lia|].
  destruct (gate_plan _ _ _ _ _ _ _ _ Hgate) as (j & Hj & Hplan).
  destruct (gate_idle _ _ _ _ _ _ _ _ Hgate) as (w1 & Hw1 & Hidle).
  pose proof (gate_approved _ _ _ _ _ _ _ _ Hgate) as Happ.
  simpl in Hj. unfold GetPlan, stmt, db_read, mbind, db_bind in Hj. cbn in Hj.
  destruct (fault _); cbn in Hj; [done|]. destruct (plans _ !! planID) as [row|] eqn:E; [|done].
  injection Hj as <-. exists row, plan, execID. split; [done|]. split; [done|].
  split_and!; [| |done].
  - intros (w2 & Hw2 & Ha)%Happ. apply same_core in Hw2 as (_ & <- & _).
    by eapply approval_given_row.
  - apply same_core in Hw1 as (_ & _ & <-). by apply idle_rows.
Qed.
(** *** The digest recorded at approval *)
Lemma opt_member_key k k' v : k' ∈ map fst (opt_member k v) → k' = k.
Proof. destruct v; cbn; [by intros ->%list_elem_of_singleton|by intros ?%elem_of_nil]. Qed.

Lemma plan_json_no_steps planID row plan :
  decode_map (plan_json time_text planID row) = Ok plan → mget plan "steps" = ANil.
Proof.
  intros H. unfold mget. rewrite (decode_map_absent _ "steps" _ H); [done|].
  rewrite !map_app, !elem_of_app. cbn [map fst]. rewrite !elem_of_cons.
  intros Hin. repeat match type of Hin with _ ∨ _ => destruct Hin as [Hin|Hin] end;
    try apply opt_member_key in Hin; try apply elem_of_nil in Hin; done.
Qed.

(** The stage a step had is not stored. *)
Lemma step_json_stage r st : decode_step (step_json r) = Ok st → Stage st = "".
Proof.
  unfold decode_step. intros (fs & Hfs & H)%bind_Ok. injection Hfs as <-.
  apply bind_Ok in H as (id & _ & H). rewrite step_members_stage in H.
  apply bind_Ok in H as (? & [= <-] & H). repeat apply bind_Ok in H as (? & _ & H).
  by injection H as <-.
Qed.

(** The stored steps of a plan, as the handler reads them. *)
Definition stored_steps (planID : string) (t : tables) : list PlanStep :=
  match parsePlanStepsJSON (doc_json (JArr (map step_json
          (order_by (λ a b, String.ltb (s_id a) (s_id b))
             (List.filter (λ r, s_plan r =? planID) (plan_steps t)))))) with
  | Ok steps => steps
  | Err _ => []
  end.

(** A stored plan has no verify stage: whatever stages its steps were given
    when it was created, every step read back from the store is an act step. *)
Theorem stored_steps_always_act planID t : Forall (λ st, Stage st = "act") (stored_steps planID t).
Proof.
  unfold stored_steps, parsePlanStepsJSON. cbn [unmarshal mbind result_bind].
  destruct (decode_list _ _) as [steps|] eqn:E; cbn; [|constructor].
  apply Forall_map. eapply decode_list_Forall; [exact E|]. intros j st Hj Hd.
  apply list_elem_of_In, in_map_iff in Hj as (r & <- & _).
  apply step_json_stage in Hd. unfold default_stage. by rewrite Hd.
Qed.

Lemma steps_given_stored planID row plan s :
  (∀ n, fault n = None) → decode_map (plan_json time_text planID row) = Ok plan →
  steps_given planID plan s = stored_steps planID (tabs s).
Proof.
  intros Hf Hplan. unfold steps_given. rewrite (plan_json_no_steps _ _ _ Hplan). simpl.
  unfold ListPlanSteps, stmt, db_read, mbind, db_bind. cbn. by rewrite Hf.
Qed.

Lemma hash_on_record_all planID h s :
  (∀ n, fault n = None) → (∀ l a, pick l = Some a → a ∈ l) → (∀ l, pick l = None → l = []) →
  (∃ a, a ∈ approvals (tabs s) ∧ a_plan a = planID) →
  (∀ a, a ∈ approvals (tabs s) → a_plan a = planID → a_hash a = Some h) → h ≠ "" →
  hash_on_record planID s = Some h.
Proof.
  intros Hf Hin Hne (a0 & Ha0 & Hp0) Hh Hh0. unfold hash_on_record. simpl.
  unfold GetApprovalHash, pick_approval, stmt, db_read, db_lift, mbind, db_bind. cbn.
  rewrite Hf. cbn. destruct (pick _) as [a|] eqn:E; cbn.
  - apply Hin, list_elem_of_In, filter_In in E as [Ha Hp%String.eqb_eq].
    rewrite (Hh a); [|by apply list_elem_of_In|done]. simpl.
    by destruct (String.eqb_spec h "").
  - apply Hne in E. exfalso. apply (in_nil (a := a0)). rewrite <- E. apply filter_In.
    rewrite <- list_elem_of_In. split; [done|]. by apply String.eqb_eq.
Qed.

(** C25: while no statement of the database fails, a plan modified after its approval
    is not executed: when the plan has approvals, all of them carry one digest, and it
    is not the digest of the plan's intent and stored steps as they are now, an execute
    request does not answer 200.  (When the digest cannot be read the gateway goes on
    without it.) *)
Theorem modified_plan_refused path w r w' h row plan :
  let planID := trim_prefix (trim_suffix path ":execute") plans_prefix in
  (∀ n, fault n = None) → (∀ l a, pick l = Some a → a ∈ l) → (∀ l, pick l = None → l = []) →
  plans (tables_of w) !! planID = Some row →
  decode_map (plan_json time_text planID row) = Ok plan →
  (∃ a, a ∈ approvals (tables_of w) ∧ a_plan a = planID) →
  (∀ a, a ∈ approvals (tables_of w) → a_plan a = planID → a_hash a = Some h) → h ≠ "" →
  ComputePlanHash (default "" (as_string (mget plan "intent")))
    (stored_steps planID (tables_of w)) ≠ h →
  run_handler (executePlan_ sv cc path) w = (r, w') → Status r ≠ 200%Z.
Proof.
  intros planID Hf Hin Hne Hrow Hplan Hex Hh Hh0 Hdiff Hrun H200. apply Hdiff. clear Hdiff.
  pose proof (wp_execute_plan core_of exec_triples sv cc path w) as H.
  apply (wp_run_eq _ _ _ _ _ Hrun) in H. fold planID in H. clearbody planID.
  destruct H as [[Hr _]|[_ (execID & token & plan' & steps & Hgate & _)]];
    [unfold refused in Hr; rewrite H200 in Hr; lia|].
  destruct (gate_plan _ _ _ _ _ _ _ _ Hgate) as (j & Hj & Hplan').
  simpl in Hj. unfold GetPlan, stmt, db_read, mbind, db_bind in Hj. cbn in Hj.
  rewrite Hf in Hj. cbn in Hj. rewrite Hrow in Hj. injection Hj as <-.
  rewrite Hplan in Hplan'. injection Hplan' as <-.
  destruct (gate_hash _ _ _ _ _ _ _ _ Hgate) as (w1 & Hw1 & Hhash).
  destruct (gate_steps _ _ _ _ _ _ _ _ Hgate) as (w2 & Hw2 & Hst).
  rewrite (steps_given_stored _ _ _ _ Hf Hplan) in Hst.
  assert (Hs2 : stored_steps planID (tables_of w2) = stored_steps planID (tables_of w)).
  { assert (Hs : plan_steps (tables_of w2) = plan_steps (tables_of w)).
    { unfold same, core_of, core in Hw2. destruct (tables_of w), (tables_of w2). by simplify_eq/=. }
    unfold stored_steps. by rewrite Hs. }
  rewrite <- Hs2, <- Hst. apply Hhash. apply same_core in Hw1 as (_ & HA & _).
  apply hash_on_record_all; rewrite ?HA; auto.
Qed.
Lemma update_where_twice {A} sel (f g : A → A) l :
  (∀ a, sel (f a) = sel a) →
  update_where sel g (update_where sel f l) = update_where sel (λ a, g (f a)) l.
Proof.
  intros H. unfold update_where. rewrite map_map. apply map_ext. intros a.
  destruct (sel a) eqn:E; [by rewrite H, E|by rewrite E].
Qed.

Lemma GetPlan_rows planID s :
  (∀ n, fault n = None) →
  (GetPlan fault time_text planID s).1 = Ok (plan_json time_text planID <$> plans (tabs s) !! planID) ∧
  tabs (GetPlan fault time_text planID s).2 = tabs s.
Proof. intros Hf. unfold GetPlan, stmt, db_read, mbind, db_bind. simpl. by rewrite Hf. Qed.

(** Approving through the API records, on every approval of the plan, the
    digest of the plan's intent and of no steps, whatever steps are stored for
    it: the plan as the database gives it has no member for them. *)
Theorem api_approval_digest w r w' req row plan :
  (∀ n, fault n = None) →
  (j ← unmarshal (Body (cc_req cc)); decode_approval_request j) = Ok req →
  normalizeApprovalStatus (aq_Status req) = Some "approved" →
  plans (tables_of w) !! aq_PlanID req = Some row →
  decode_map (plan_json time_text (aq_PlanID req) row) = Ok plan →
  run_handler (handleApprovals sv cc) w = (r, w') → Status r = 200%Z →
  let digest := ComputePlanHash (default "" (as_string (mget plan "intent"))) [] in
  approvals (tables_of w')
  = update_where (of_plan (aq_PlanID req)) (λ a, with_hash digest (with_status "approved" a))
      (approvals (tables_of w)).
Proof.
  intros Hf Hreq Hst Hrow Hplan Hrun H200 digest. revert H200.
  refine (wp_run_eq _ (λ r w', Status r = 200%Z → approvals (tables_of w') = _) _ _ _ Hrun _).
  unfold handleApprovals. apply wp_bind, wp_return_if; split; intros _; [done|].
  apply wp_bind, wp_return_if; split; intros _; [done|]. rewrite Hreq. apply wp_bind.
  apply wp_or_return; split; [|done]. intros ? [= <-].
  apply wp_bind, wp_return_if; split; intros _; [done|]. rewrite Hst. apply wp_bind.
  apply wp_or_return; split; [|done]. intros ? [= <-].
  apply wp_bind, (wp_check core_of). intros ok w1 Hw1%same_core.
  apply wp_bind, wp_or_return; split; intros u _; [|by apply (wp_deny core_of)]. cbn [String.eqb].
  apply wp_bind, wp_bind, (wp_on_db_atomic _ _ _ _ _ (UpdateApproval_rows fault _ "approved"));
    [|intros e w2 _; apply wp_bind; by apply wp_return].
  intros [] w2 Hw2. apply wp_bind, wp_ret, wp_bind. simpl.
  destruct Hw1 as (P1 & A1 & _). unfold record_plan_hash. simpl.
  destruct (GetPlan_rows (aq_PlanID req) (g_db w2) Hf) as [Hg Ht].
  apply wp_bind, wp_on_db. simpl. rewrite Hg, Hw2. simpl. rewrite P1, Hrow.
  cbn [fmap option_fmap option_map mbind result_bind of_option]. rewrite Hplan.
  unfold record_hash. cbn [db_SetApprovalHash db_inst store_db]. rewrite (plan_json_no_steps _ _ _ Hplan).
  set (w3 := with_db _ _).
  assert (H3 : approvals (tables_of w3)
    = update_where (of_plan (aq_PlanID req)) (with_status "approved") (approvals (tables_of w))).
  { unfold w3. simpl. by rewrite Ht, Hw2, <- A1. }
  clearbody w3. apply wp_bind, wp_on_db. simpl.
  unfold SetApprovalHash, stmt, db_write, mbind, db_bind. simpl. rewrite Hf. simpl.
  apply wp_ret, wp_ret, wp_bind, (wp_audit core_of). intros w5 Hw5%same_core. apply wp_ret. intros _.
  destruct Hw5 as (_ & -> & _). simpl. rewrite H3. by rewrite update_where_twice.
Qed.
End over_store.

(** ** Runs *)

(** The status of an answer. *)
Definition status_of (x : Response * gateway store) : Z := Status x.1.

(** A server whose policy allows everything and whose planner answers with
    [delete_text]. *)
Definition demo : Server := demo_server (Some allow_all) (Some delete_text).
Definition created (intent : string) : Response * gateway store :=
  after demo handlePlans (create_request intent) gateway0.

Definition created_run : Response * gateway store :=
  run_handler (createPlan demo (create_request "restart web")) gateway0.

Lemma created_plan_approval_witness :
  status_of created_run = 200%Z ∧
  plan_created demo (create_request "restart web") gateway0 created_run.2.
Proof.
  assert (H : status_of created_run = 200%Z) by (vm_compute; reflexivity).
  exact (conj H (created_plan_approval tick_clock no_fault same_json last demo_time time_error demo
    (create_request "restart web") gateway0 created_run.1 created_run.2 no_tables_ok
    (surjective_pairing created_run) H)).
Defined.

Lemma last_in (l : list approval_row) a : last l = Some a → a ∈ l.
Proof. intros [l' ->]%last_Some. apply elem_of_app. right. by left. Qed.

(** A plan whose approval was set without a digest, as the approvals watcher does. *)
Definition watched : gateway store :=
  let w := (created "restart web").2 in
  with_db (run_db (UpdateApprovalStatusByPlan no_fault "plan_0" "approved") (g_db w)) w.
Definition executed : Response * gateway store :=
  run_handler (executePlan_ demo (execute_request "plan_0") "/v1/plans/plan_0:execute") watched.

Lemma executed_plan_was_approved_witness :
  status_of executed = 200%Z ∧
  ∃ row plan execID,
    plans (tabs (g_db watched)) !! "plan_0" = Some row ∧
    decode_map (plan_json demo_time "plan_0" row) = Ok plan ∧
    (execution_type (execution_risk plan) = "write" →
       ∃ a, a ∈ approvals (tabs (g_db watched)) ∧ a_plan a = "plan_0" ∧ a_status a = "approved") ∧
    (∀ x, x ∈ executions (tabs (g_db watched)) → x_plan x = "plan_0" →
       active_status (x_status x) = false) ∧
    exec_triples (tabs (g_db executed.2))
    = exec_triples (tabs (g_db watched)) ++ [(execID, "plan_0", "pending")].
Proof.
  assert (H : status_of executed = 200%Z) by (vm_compute; reflexivity).
  exact (conj H (executed_plan_was_approved tick_clock no_fault same_json last demo_time time_error
    demo (execute_request "plan_0") "/v1/plans/plan_0:execute" watched executed.1 executed.2
    last_in (surjective_pairing executed) H)).
Defined.

Lemma last_none (l : list approval_row) : last l = None → l = [].
Proof. apply last_None. Qed.

(** The plan approved as [watched], with the digest of something else. *)
Definition tampered : gateway store :=
  with_db (run_db (SetApprovalHash no_fault "plan_0" "other") (g_db watched)) watched.
Definition tampered_run : Response * gateway store :=
  run_handler (executePlan_ demo (execute_request "plan_0") "/v1/plans/plan_0:execute") tampered.

Definition row_of (planID : string) (w : gateway store) : plan_row :=
  default (mkPlan 0 "" "" JNull "" None None None None None) (plans (tabs (g_db w)) !! planID).
Definition plan_of (planID : string) (w : gateway store) : gmap string any :=
  match decode_map (plan_json demo_time planID (row_of planID w)) with Ok p => p | Err _ => ∅ end.

Definition stored (planID : string) (w : gateway store) : bool :=
  match plans (tabs (g_db w)) !! planID with
  | Some row => is_ok (decode_map (plan_json demo_time planID row))
  | None => false
  end.

Lemma stored_row planID w : stored planID w = true →
  plans (tabs (g_db w)) !! planID = Some (row_of planID w).
Proof. unfold stored, row_of. by destruct (plans _ !! planID). Qed.

Lemma stored_plan planID w : stored planID w = true →
  decode_map (plan_json demo_time planID (row_of planID w)) = Ok (plan_of planID w).
Proof.
  intros H. unfold plan_of. pose proof (stored_row _ _ H) as E. unfold stored in H. rewrite E in H.
  by destruct (decode_map _).
Qed.

Lemma modified_plan_refused_witness : Status tampered_run.1 ≠ 200%Z.
Proof.
  refine (modified_plan_refused tick_clock no_fault same_json last demo_time time_error demo
    (execute_request "plan_0") "/v1/plans/plan_0:execute" tampered tampered_run.1 tampered_run.2
    "other" (row_of "plan_0" tampered) (plan_of "plan_0" tampered) (λ _, eq_refl) last_in last_none
    _ _ _ _ _ _ (surjective_pairing tampered_run)).
  - apply stored_row. vm_compute. reflexivity.
  - apply stored_plan. vm_compute. reflexivity.
  - eexists. split; [vm_compute; left|reflexivity].
  - intros a Ha _. vm_compute in Ha. apply list_elem_of_singleton in Ha. by subst a.
  - discriminate.
  - vm_compute. discriminate.
Defined.

Definition approved_run : Response * gateway store :=
  run_handler (handleApprovals demo (approve_request "plan_0" "approved")) watched.

Lemma api_approval_digest_witness :
  status_of approved_run = 200%Z ∧
  approvals (tabs (g_db approved_run.2))
  = update_where (of_plan "plan_0")
      (λ a, with_hash (ComputePlanHash (default "" (as_string (mget (plan_of "plan_0" watched)
         "intent"))) []) (with_status "approved" a)) (approvals (tabs (g_db watched))).
Proof.
  assert (H : status_of approved_run = 200%Z) by (vm_compute; reflexivity).
  assert (Hs : stored "plan_0" watched = true) by (vm_compute; reflexivity).
  exact (conj H (api_approval_digest tick_clock no_fault same_json last demo_time time_error demo
    (approve_request "plan_0" "approved") watched approved_run.1 approved_run.2
    (mkApprReq "plan_0" "" "approved") (row_of "plan_0" watched) (plan_of "plan_0" watched)
    (λ _, eq_refl) eq_refl eq_refl (stored_row _ _ Hs) (stored_plan _ _ Hs)
    (surjective_pairing approved_run) H)).
Defined.

(** A plan with stored steps that is approved through the API is never
    executed: the digest on record is of no steps, the one computed for the
    execute request is of the stored ones, and the request is refused as modified
    after approval — although the approval is there and no one modified it. *)
Theorem api_approved_plan_is_refused :
  let x := created "restart web" in
  let y := after demo handleApprovals (approve_request "plan_0" "approved") x.2 in
  let z := after demo handlePlanByID (execute_request "plan_0") y.2 in
  status_of x = 200%Z ∧ status_of y = 200%Z ∧
  map a_status (approvals (tabs (g_db y.2))) = ["approved"] ∧
  z.1 = http_error "plan modified after approval" 403 ∧
  status_of (after demo handlePlanByID (execute_request "plan_0") watched) = 200%Z.
Proof. vm_compute. auto. Qed.

(** The risk a plan is created and executed at is its intent's alone: when the
    planner answers an intent that only reads with a step that deletes, the plan
    is read from beginning to end — no approval is created, none is asked for,
    the policy is asked about a read, and the deletion is handed to the executor. *)
Theorem read_intent_runs_writes :
  let x := created "show pods" in
  let y := after demo handlePlanByID (execute_request "plan_0") x.2 in
  status_of x = 200%Z ∧ status_of y = 200%Z ∧ approvals (tabs (g_db y.2)) = [] ∧
  map (λ e, match e with Started _ _ _ steps => map (λ s, (Tool_ s, Action s)) steps | _ => [] end)
    (g_out y.2) = [[]; [("kubectl", "delete")]] ∧
  riskFromSteps (stored_steps "plan_0" (tabs (g_db x.2))) = "high".
Proof. vm_compute. auto. Qed.

(** Deciding an approval is checked as a read of no context: with the policy
    engine down, where every write is refused, the approval of a pending plan is
    accepted, and so is anyone's. *)
Theorem approvals_pass_policy_outage :
  let down := demo_server (Some policy_down) None in
  let x := created "restart web" in
  let y := after down handleApprovals (approve_request "plan_0" "approved") x.2 in
  status_of (after down handlePlans (create_request "restart web") x.2) = 403%Z ∧
  status_of y = 200%Z ∧ map a_status (approvals (tabs (g_db y.2))) = ["approved"].
Proof. vm_compute. auto. Qed.
