(* ===== verification/Hooks.v ===== *)
(** * Hooks: webhooks and the alert event loop

    handleHook, shouldRunEventLoop and hookSummary of internal/web/http.go,
    runAlertEventLoop (internal/web/event_loop.go) and its helpers
    (event_loop_helpers.go): plans the program creates by itself. *)

From S2P Require Import Prelude GoStrings Json Digest ContextRef Steps Policy Constraints Hubs Http.
From S2P Require Import Shelves Store EventGate Gateway Plans Lifecycle.

Local Open Scope string_scope.
Local Open Scope list_scope.

Definition hookSummary (source : string) (payload : gmap string any) : string :=
  if source =? "alertmanager" then
    let name := extractAlertName payload in
    if negb (name =? "") then "Alertmanager: " +:+ name else "Alertmanager webhook"
  else if source =? "argocd" then "Argo CD webhook"
  else if source =? "git" then "Git webhook"
  else if source =? "" then "Webhook" else "Webhook: " +:+ source.

Definition serviceFromHook (payload : gmap string any) : string :=
  let from_context := match mget payload "context" with
                      | AMap ctx => stringFromMap ctx ["service"; "service_name"; "app"; "application"]
                      | _ => "" end in
  if negb (from_context =? "") then from_context
  else
    let labels := extractAlertLabels payload in
    let label k := match mget labels k with
                   | AStr v => if blank v then None else Some v | _ => None end in
    default "" (head (omap label ["service"; "service_name"; "app"; "application"; "job"])).

(** The queries a service graph names, by kind. *)
Definition graph_queries (kind : string) (g : ServiceGraph) : list string :=
  omap (λ n, if (ToLower (TrimSpace (node_Kind n)) =? kind) && negb (blank (node_Name n))
             then Some (TrimSpace (node_Name n)) else None) (Nodes g).

Definition diagnosticHintsFromGraph (graph : option ServiceGraph) : gmap string any :=
  match graph with
  | None => ∅
  | Some g =>
      let prom := graph_queries "prometheus.query" g in
      let trace := graph_queries "tempo.query" g in
      amap ((match prom with [] => [] | _ => [("promql", AStrs prom)] end) ++
            (match trace with [] => [] | _ => [("traceql", AStrs trace)] end))
  end.

(** The steps of the planner's text, with verify steps added to a write, and
    default verify steps for a write without any. *)
Definition loop_steps (actionType planText intent : string) (diags : list DiagnosticEvidence) :
    list planStepDraft :=
  let drafts := if planText =? "" then [] else parsePlanSteps planText in
  let drafts := if actionType =? "write" then ensureVerifySteps drafts diags intent else drafts in
  match drafts with
  | [] => if actionType =? "write" then defaultVerifySteps diags intent else []
  | _ => drafts
  end.

(** The risk is raised to the steps', never lowered. *)
Definition loop_risk (risk : string) (steps : list planStepDraft) : string :=
  match steps with [] => risk | _ => effectiveRiskDrafts risk steps end.

Section hooks.
Context {S : Type} `{!GatewayDB S}.
Variable sv : Server.
Notation world := (gateway S).

Definition shouldRunEventLoop (source : string) : bool :=
  sv_EnableEventLoop sv &&
  match sv_EventLoopSources sv with
  | [] => mem source ["alertmanager"; "argocd"; "git"; "k8s"]
  | l => existsb (λ allowed, EqualFold (TrimSpace allowed) source) l
  end.

Section loop.
(** The context's actor; the request made for the policy check has no headers. *)
Variable actor : option Actor.
Definition no_headers : call_ctx := mkCall_ (mkReq "" "" (λ _, "") (λ _, "") doc_empty) actor.

Definition fail_with {A} (e : string) : handler world (result string) A := return_ (Err e).

(** The service's graph, when there is one and it is not empty. *)
Definition service_graph (payload : gmap string any) :
    handler world (result string) (option ServiceGraph) :=
  match sv_Context sv with
  | None => mret None
  | Some graph_of =>
      let service := serviceFromHook payload in
      if service =? "" then mret None
      else reads (λ w, match graph_of (g_out w) service with
                       | Ok g => match Nodes g, Edges g with [], [] => None | _, _ => Some g end
                       | Err _ => None
                       end)
  end.

Definition plan_draft (intent : string) (ctx : any) (diags : list DiagnosticEvidence) :
    handler world (result string) (result string) :=
  match sv_Planner sv with
  | Some plan => if intent =? "" then mret (Ok "")
                 else outward (Planned intent) (λ out, plan out intent ctx diags)
  | None => mret (Ok "")
  end.

Definition graph_member (key : string) (graph : option ServiceGraph) : list (string * any) :=
  match graph with Some g => [(key, graph_any g)] | None => [] end.

Definition runAlertEventLoop (source : string) (payload : gmap string any) :
    handler world (result string) (result string) :=
  _ ← return_if (negb (sv_DB sv)) (Err "db unavailable");
  let ref := contextFromHook payload in
  _ ← or_return (validateContextRefTenantOnly ref) fail_with;
  let summary := hookSummary source payload in
  let intent := summary in
  let risk := riskFromIntent intent in
  let actionType := if risk =? "read" then "read" else "write" in
  dec ← gateway_policy sv no_headers "plan.create" actionType ref risk 0;
  dec ← or_return dec fail_with;
  _ ← (if Decision_ dec =? "allow" then mret tt
       else if Decision_ dec =? "require_approval" then
         return_if (negb (actionType =? "write")) (Err "approval required")
       else fail_with ("policy decision " +:+ Decision_ dec));
  let merged := mergeConstraints ANil (Policy.Constraints dec) in
  graph ← service_graph payload;
  let hints := diagnosticHintsFromGraph graph in
  let merged := if (0 <? size hints)%nat
                then mergeConstraints (constraints_any merged) (amap [("diagnostic_hints", AMap hints)])
                else merged in
  diags ← collect_diagnostics sv ref intent (constraints_any merged);
  createdAt ← now_ sv;
  let ctx := AMap (amap ([("context", ref_any ref); ("summary", AStr summary);
    ("source", AStr source); ("payload", AMap payload); ("trigger", AStr "alert");
    ("diagnostics", ASlice "DiagnosticEvidence" (map diag_any diags))] ++
    graph_member "service_graph" graph)) in
  text ← plan_draft intent ctx diags;
  planText ← or_return text fail_with;
  let steps := loop_steps actionType planText intent diags in
  let risk := loop_risk risk steps in
  let actionType := if risk =? "read" then actionType else "write" in
  let plan := amap ([("trigger", AStr "alert"); ("summary", AStr summary);
    ("context", ref_any ref); ("risk_level", AStr risk); ("intent", AStr intent);
    ("constraints", constraints_any merged); ("created_at", AStr (sv_rfc3339 sv createdAt))] ++
    (if planText =? "" then [] else [("plan_text", AStr planText)]) ++
    (match steps with [] => [] | _ => [("steps", drafts_any steps)] end) ++
    (match diags with
     | [] => []
     | _ => match marshal (ASlice "DiagnosticEvidence" (map diag_any diags)) with
            | Ok data => [("diagnostics", ARaw data)] | Err _ => [] end
     end) ++
    (match graph with
     | Some g => [("meta", AMap (amap [("service_graph", graph_any g)]))] | None => [] end)) in
  data ← or_return (marshal (AMap plan)) fail_with;
  planID ← on_db (db_CreatePlan data);
  planID ← or_return planID fail_with;
  _ ← (if actionType =? "write" then
         id ← createApproval sv planID true; _ ← or_return id fail_with; mret tt
       else mret tt);
  mret (Ok planID).
End loop.

(** ** POST /v1/hooks/{source} *)

Section handler.
Variable cc : call_ctx.
Notation body := (handler world Response Response).

(** A call of EventGate.Accept: the gate's table and the clock. *)
Definition gate_accept {R} (source : string) (payload : gmap string any) (fault : nat → option string) :
    handler world R (result bool * string) :=
  now ← now_ sv;
  call (λ w, let '(r, fingerprint, g) :=
               Accept fault (sv_EventGate sv) source payload now (g_gates w) in
             ((r, fingerprint), mkGateway (g_db w) g (g_ticks w) (g_hub w) (g_out w))).

Definition deny_gate {A} (source fingerprint note : string) (r : Response) : handler world Response A :=
  _ ← auditEvent sv cc "event.gate" "deny"
        (AMap (amap [("source", AStr source); ("fingerprint", AStr fingerprint)])) note;
  return_ r.

Definition accepted (v : any) : Response := mkResp 202 (Encoded v).

(** The event is gated, and the loop runs. *)
Definition hook_loop (fault : nat → option string) (source eventID : string)
    (payload : gmap string any) : body :=
  _ ← (match sv_EventGate sv with
       | None => mret tt
       | Some _ =>
           '(allowed, fingerprint) ← gate_accept source payload fault;
           allowed ← or_return allowed
             (λ e, deny_gate source fingerprint e (http_error "event gate error" 400));
           if allowed : bool then mret tt
           else deny_gate source fingerprint "suppressed"
                  (accepted (AMap (amap [("received", ABool true); ("gated", ABool true);
                                         ("event_id", AStr eventID)])))
       end);
  res ← call (run_handler (runAlertEventLoop (cc_actor cc) source payload));
  planID ← or_return res (λ e,
    _ ← auditEvent sv cc "event.loop" "deny" (AMap (amap [("source", AStr source)])) e;
    return_ (http_error "event loop error" 400));
  _ ← auditEvent sv cc "event.loop" "allow" (AMap (amap [("source", AStr source);
        ("plan_id", AStr planID); ("execution_id", AStr "")])) "";
  mret (ok_json (AMap (amap [("received", ABool true); ("plan_id", AStr planID);
                             ("execution_id", AStr "")]))).

(** A plan from the webhook alone. *)
Definition hook_plan (source eventID : string) (payload : gmap string any) :
    handler world Response unit :=
  let ref := contextFromHook payload in
  let summary := hookSummary source payload in
  let intent := summary in
  let risk := riskFromIntent intent in
  let actionType := if risk =? "read" then "read" else "write" in
  dec ← gateway_policy sv cc "plan.create" actionType ref risk 0;
  dec ← or_return dec (λ e, deny sv cc "plan.create" (ref_any ref) e "policy denied" 403);
  let merged := mergeConstraints ANil (Policy.Constraints dec) in
  _ ← admit_decision sv cc "plan.create" actionType (ref_any ref) dec;
  createdAt ← now_ sv;
  text ← draft_plan sv intent (AMap (amap [("context", ref_any ref); ("summary", AStr summary);
           ("source", AStr source); ("payload", AMap payload); ("trigger", AStr "webhook")])) [];
  planText ← or_return text (λ e, deny sv cc "plan.create" (ref_any ref) e "planner error" 502);
  let plan := with_plan_text planText (amap [("trigger", AStr "webhook"); ("summary", AStr summary);
    ("context", ref_any ref); ("risk_level", AStr risk); ("intent", AStr intent);
    ("constraints", constraints_any merged); ("created_at", AStr (sv_rfc3339 sv createdAt))]) in
  data ← or_return (marshal (AMap plan)) (λ _, return_ (http_error "encode error" 500));
  planID ← on_db (db_CreatePlan data);
  planID ← or_return planID (λ _, return_ (http_error "db error" 500));
  _ ← (if actionType =? "write" then
         id ← createApproval sv planID true;
         _ ← or_return id (λ _, return_ (http_error "approval error" 502)); mret tt
       else mret tt);
  _ ← auditEvent sv cc "plan.create" "allow" (AMap (amap [("plan_id", AStr planID);
        ("context", ref_any ref); ("trigger", AStr "webhook"); ("summary", AStr summary);
        ("source", AStr source); ("event_id", AStr eventID)])) "";
  emit_event sv "plan.updated" (AMap (amap [("plan_id", AStr planID)])) (sessionIDFromRequest cc).

(** [text] is the request's body; [fault] is of the gate's statements. *)
Definition handleHook (fault : nat → option string) (text : string) : body :=
  _ ← return_if (negb (Method (cc_req cc) =? "POST")) StatusMethodNotAllowed;
  session ← requireSession sv cc;
  _ ← or_return session (λ _, return_ (http_error "session denied" 403));
  let source := trim_prefix (Path (cc_req cc)) "/v1/hooks/" in
  let eventID := if text =? "" then "" else sha256_hex text in
  _ ← auditEvent sv cc "hook.received" "allow" (AMap (amap [("source", AStr source);
        ("event_id", AStr eventID); ("payload_bytes", AInt (Z.of_nat (String.length text)))])) "";
  if negb (sv_DB sv) then
    mret (ok_json (AStruct "HookAck" [("received", ABool true); ("event_id", AStr eventID)]))
  else
    payload ← or_return (if text =? "" then Ok ∅ else unmarshal_map (doc_of_text text))
                (λ _, return_ (http_error "invalid json" 400));
    if shouldRunEventLoop source then hook_loop fault source eventID payload
    else
      _ ← hook_plan source eventID payload;
      mret (ok_json (AStruct "HookAck" [("received", ABool true); ("event_id", AStr eventID)])).
End handler.
End hooks.

(** ** The risk of a loop's plan *)
Lemma level_plain z : valid_utf8 (level_name z) = level_name z.
Proof. unfold level_name. destruct (Z.to_nat z) as [|[|[|[|[|n]]]]]; reflexivity. Qed.

Lemma draft_risk_level steps :
  riskFromStepDrafts steps = level_name (max_level (map step_of_draft steps)).
Proof. unfold riskFromStepDrafts. rewrite draft_risk_loop_steps. apply riskFromSteps_level. Qed.

Lemma loop_risk_plain intent steps :
  let risk := loop_risk (riskFromIntent intent) steps in valid_utf8 risk = risk.
Proof.
  unfold loop_risk, effectiveRiskDrafts. rewrite draft_risk_level.
  destruct steps; [|case_match]; auto using risk_plain, level_plain.
Qed.

Lemma loop_risk_read risk steps : loop_risk risk steps = "read" → risk = "read".
Proof.
  unfold loop_risk, effectiveRiskDrafts. rewrite draft_risk_level. destruct steps as [|st steps]; [done|].
  set (z := max_level _). destruct (Z.ltb_spec (riskOrd risk) (riskOrd (level_name z))); [|done].
  intros Hz. rewrite Hz in *. unfold riskOrd at 2 in H. simpl in H.
  pose proof (eq_refl : riskOrd "read" = 0%Z). unfold riskOrd in H. repeat case_match; lia.
Qed.

(** ** Frames *)

(** A view that neither reads, nor audits, nor creating plans and pending
    approvals touch. *)
Class CreateFrame {S E : Type} `{!GatewayDB S} (view : S → E) : Prop := {
  create_reads :: ReadFrame view;
  create_plan j : unchanged view (db_CreatePlan j);
  create_approval p : unchanged view (db_CreateApproval p) }.

Section frame.
Context {S E : Type} `{!GatewayDB S}.
Variable view : S → E.
Context `{!CreateFrame view}.
Variable sv : Server.
Notation world := (gateway S).
Local Notation same := (same view).

Lemma wp_view_createApproval {R} planID external Q (F : R → world → Prop) w :
  (∀ r w', same w w' → Q r w') → wp (createApproval sv planID external) Q F w.
Proof.
  intros HQ. apply wp_bind, (wp_on_db_read view); [apply create_approval|]. intros id w1 Hw1 _.
  destruct id as [id|e], (sv_Approvals sv) as [issue|]; try (by apply wp_ret, HQ).
  destruct external; [|by apply wp_ret, HQ].
  apply wp_bind, wp_outward. intros x w2 Hw2. apply wp_ret, HQ. unfold Gateway.same. by rewrite Hw2.
Qed.

Lemma wp_view_diags {R} ref intent c Q (F : R → world → Prop) w :
  (∀ d, Q d w) → wp (collect_diagnostics sv ref intent c) Q F w.
Proof.
  intros HQ. unfold collect_diagnostics. destruct (sv_Diagnostics sv); [by apply wp_reads|by apply wp_ret].
Qed.

Lemma wp_view_draft {R} intent c d Q (F : R → world → Prop) w :
  (∀ r w', g_db w' = g_db w → Q r w') → wp (draft_plan sv intent c d) Q F w.
Proof.
  intros HQ. unfold draft_plan. destruct (sv_Planner sv); [|by apply wp_ret, HQ].
  destruct (blank intent); [by apply wp_ret, HQ|]. by apply wp_outward.
Qed.

Lemma wp_plan_draft intent c d Q F (w : world) :
  (∀ r w', g_db w' = g_db w → Q r w') → wp (plan_draft sv intent c d) Q F w.
Proof.
  intros HQ. unfold plan_draft. destruct (sv_Planner sv); [|by apply wp_ret, HQ].
  destruct (intent =? ""); [by apply wp_ret, HQ|]. by apply wp_outward.
Qed.

Lemma wp_service_graph payload Q F (w : world) :
  (∀ g, Q g w) → wp (service_graph sv payload) Q F w.
Proof.
  intros HQ. unfold service_graph. destruct (sv_Context sv); [|by apply wp_ret].
  destruct (_ =? ""); [by apply wp_ret|by apply wp_reads].
Qed.

Lemma same_db w w1 w2 : same w w1 → g_db w2 = g_db w1 → same w w2.
Proof. unfold Gateway.same. by intros <- ->. Qed.

Lemma wp_view_loop actor source payload w :
  wp (runAlertEventLoop sv actor source payload) (λ _, same w) (λ _, same w) w.
Proof.
  unfold runAlertEventLoop. apply wp_bind, wp_return_if; split; intros _; [done|].
  apply wp_bind, wp_or_return; split; intros _u _; [|by apply wp_return].
  apply wp_bind, (wp_policy view). intros time w1 Hw1.
  apply wp_bind, wp_or_return; split; intros dec _; [|by apply wp_return].
  apply wp_bind. apply wp_mono with (Q := λ _ w', w' = w1) (E := λ _ w', w' = w1);
    [|intros ? w' ->|by intros ? w' ->].
  { destruct (_ =? "allow"); [by apply wp_ret|].
    destruct (_ =? "require_approval"); [by apply wp_return_if; split|by apply wp_return]. }
  apply wp_bind, wp_service_graph. intros graph.
  apply wp_bind, wp_view_diags. intros diags.
  apply wp_bind, wp_now. intros w2 Hw2. pose proof (same_db _ _ _ Hw1 Hw2) as H2.
  apply wp_bind, wp_plan_draft. intros text w3 Hw3. pose proof (same_db _ _ _ H2 Hw3) as H3.
  apply wp_bind, wp_or_return; split; intros planText _; [|by apply wp_return].
  apply wp_bind, wp_or_return; split; intros data _; [|by apply wp_return].
  apply wp_bind, (wp_on_db_read view); [apply create_plan|]. intros id w4 Hw4 _.
  assert (H4 : same w w4) by (by etrans).
  apply wp_bind, wp_or_return; split; intros planID _; [|by apply wp_return].
  apply wp_bind. case_match; [|by apply wp_ret, wp_ret].
  apply wp_bind, wp_view_createApproval. intros r w5 Hw5. assert (H5 : same w w5) by (by etrans).
  apply wp_bind, wp_or_return; split; intros ? _; [by apply wp_ret, wp_ret|by apply wp_return].
Qed.

Lemma wp_view_gate cc fault source eventID payload w :
  wp (hook_loop sv cc fault source eventID payload) (λ _, same w) (λ _, same w) w.
Proof.
  unfold hook_loop. apply wp_bind.
  apply wp_mono with (Q := λ _, same w) (E := λ _, same w); [|intros _u w3 H3|done].
  { destruct (sv_EventGate sv); [|by apply wp_ret]. apply wp_bind, wp_bind, wp_now.
    intros w3 Hw3. assert (H3 : same w w3) by (by eapply same_db). apply wp_call.
    destruct (Accept _ _ _ _ _ _) as [[r fp] g]. simpl.
    apply wp_bind, wp_or_return; split; intros x _.
    - destruct x; [by apply wp_ret|]. apply wp_bind, (wp_audit view). intros w4 Hw4.
      apply wp_return. by etrans.
    - apply wp_bind, (wp_audit view). intros w4 Hw4. apply wp_return. by etrans. }
  apply wp_bind, wp_call.
  pose proof (wp_view_loop (cc_actor cc) source payload w3) as Hl.
  apply wp_run in Hl. assert (H4 := transitivity H3 Hl).
  apply wp_bind, wp_or_return; split; intros x _.
  - apply wp_bind, (wp_audit view). intros w5 Hw5. apply wp_ret. by etrans.
  - apply wp_bind, (wp_audit view). intros w5 Hw5. apply wp_return. by etrans.
Qed.

Lemma wp_view_hook_plan cc source eventID payload w :
  wp (hook_plan sv cc source eventID payload) (λ _, same w) (λ _, same w) w.
Proof.
  unfold hook_plan. apply wp_bind, (wp_policy view). intros time w3 H3.
  apply wp_bind, wp_or_return; split; intros dec _.
  2: { apply (wp_deny view). intros w4 Hw4. by etrans. }
  apply wp_bind, (wp_admit view); [intros _|intros w4 Hw4; by etrans].
  apply wp_bind, wp_now. intros w4 Hw4. pose proof (same_db _ _ _ H3 Hw4) as H4.
  apply wp_bind, wp_view_draft. intros r w5 Hw5. pose proof (same_db _ _ _ H4 Hw5) as H5.
  apply wp_bind, wp_or_return; split; intros planText _.
  2: { apply (wp_deny view). intros w6 Hw6. by etrans. }
  apply wp_bind, wp_or_return; split; intros data _; [|by apply wp_return].
  apply wp_bind, (wp_on_db_read view); [apply create_plan|]. intros id w6 Hw6 _.
  assert (H6 : same w w6) by (by etrans).
  apply wp_bind, wp_or_return; split; intros planID _; [|by apply wp_return].
  apply wp_bind. apply wp_mono with (Q := λ _, same w) (E := λ _, same w); [|intros _u w7 H7|done].
  { case_match; [|by apply wp_ret]. apply wp_bind, wp_view_createApproval. intros x w7 Hw7.
    assert (H7 : same w w7) by (by etrans).
    apply wp_bind, wp_or_return; split; intros ? _; [by apply wp_ret|by apply wp_return]. }
  apply wp_bind, (wp_audit view). intros w8 Hw8. apply wp_emit. intros w9 Hw9.
  eapply same_db; [by etrans|done].
Qed.

Lemma wp_view_hook cc fault text w :
  wp (handleHook sv cc fault text) (λ _, same w) (λ _, same w) w.
Proof.
  unfold handleHook. apply wp_bind, wp_return_if; split; intros _; [done|].
  apply wp_bind, (wp_session view). intros session w1 Hw1.
  apply wp_bind, wp_or_return; split; intros _s _; [|by apply wp_return].
  apply wp_bind, (wp_audit view). intros w2 Hw2. assert (H2 : same w w2) by (by etrans).
  destruct (negb (sv_DB sv)); [by apply wp_ret|].
  apply wp_bind, wp_or_return; split; intros payload _; [|by apply wp_return].
  destruct (shouldRunEventLoop sv _).
  - eapply wp_mono; [apply wp_view_gate|..]; intros r w3 Hw3; by etrans.
  - apply wp_bind. eapply wp_mono; [apply wp_view_hook_plan|..]; intros r w3 Hw3;
      [apply wp_ret|]; by etrans.
Qed.
End frame.

(** ** Over the store *)

Section over_store.
Variable clock : nat → Z.
Variable fault : nat → option string.
Variable jsonb : json → json.
Variable pick : list approval_row → option approval_row.
Variable time_text : Z → string.
Variable time_parse : string → result Z.
Variable sv : Server.

#[local] Instance db_inst : GatewayDB store :=
  store_db clock fault jsonb pick time_text time_parse.
#[local] Existing Instance store_core.
Notation world := (gateway store).
Notation tables_of w := (tabs (g_db w)).

Definition approved_row (a : approval_row) : bool := a_status a =? "approved".

(** What a plan needs to be executed, and what executing adds. *)
Definition authority (t : tables) : list approval_row * list exec_row :=
  (List.filter approved_row (approvals t), executions t).

#[local] Instance store_authority : CreateFrame (λ s, authority (tabs s)).
Proof.
  split; [by apply (store_reads _ _ _ _ _ _ authority)|..]; simpl; intros; intros s.
  - pose proof (CreatePlan_rows clock fault jsonb j s) as H.
    destruct (CreatePlan _ _ _ j s) as [[id|e] s']; simpl; [|by rewrite H].
    destruct H as (_ & _ & HA & HX). unfold authority. by rewrite HA, HX.
  - pose proof (CreateApproval_rows clock fault p s) as H.
    destruct (CreateApproval _ _ p s) as [[id|e] s']; simpl; [|by rewrite H].
    rewrite H. unfold authority. simpl. rewrite List.filter_app. simpl. by rewrite app_nil_r.
Qed.

(** C20: no webhook approves or executes anything: whatever the source, the payload, the
    policy's answer and the planner's text, handling a hook leaves the approvals that
    are approved as they are - it adds none and changes none, though it may add pending
    ones - and leaves every execution as it is. *)
Theorem hooks_never_approve cc gate_fault text w :
  let w' := (run_handler (handleHook sv cc gate_fault text) w).2 in
  List.filter approved_row (approvals (tables_of w'))
    = List.filter approved_row (approvals (tables_of w)) ∧
  executions (tables_of w') = executions (tables_of w).
Proof.
  pose proof (wp_view_hook (λ s, authority (tabs s)) sv cc gate_fault text w) as H.
  apply wp_run in H. by injection H.
Qed.

(** *** The plan of an alert *)

(** A plan the event loop made, and its approval when its risk is not read. *)
Definition alert_plan (source : string) (payload : gmap string any) (planID : string)
    (t t' : tables) : Prop :=
  ∃ row planText diags,
    let intent := hookSummary source payload in
    let risk := riskFromIntent intent in
    let steps := loop_steps (if risk =? "read" then "read" else "write") planText intent diags in
    plans t !! planID = None ∧ plans t' = <[planID := row]> (plans t) ∧
    executions t' = executions t ∧
    p_trigger row = "alert" ∧ p_risk row = loop_risk risk steps ∧
    if p_risk row =? "read" then approvals t' = approvals t
    else ∃ id, approvals t' = approvals t ++ [mkApproval id planID "pending" "linear" None].

Lemma wp_alert_loop actor source payload w :
  wp (runAlertEventLoop sv actor source payload)
    (λ r w', ∀ id, r = Ok id → alert_plan source payload id (tables_of w) (tables_of w'))
    (λ r w', ∀ id, r = Ok id → alert_plan source payload id (tables_of w) (tables_of w')) w.
Proof.
  unfold runAlertEventLoop. apply wp_bind, wp_return_if; split; intros _; [done|].
  apply wp_bind, wp_or_return; split; intros _u _; [|by apply wp_return].
  apply wp_bind, (wp_policy core_of). intros time w1 Hw1.
  apply wp_bind, wp_or_return; split; intros dec _; [|by apply wp_return].
  apply wp_bind. apply wp_mono with (Q := λ _ w', w' = w1) (E := λ r w', is_ok r = false);
    [|intros ? w' ->|by intros [] w'].
  { destruct (_ =? "allow"); [by apply wp_ret|].
    destruct (_ =? "require_approval"); [by apply wp_return_if; split|by apply wp_return]. }
  apply wp_bind, wp_service_graph. intros graph.
  apply wp_bind, wp_view_diags. intros diags.
  apply wp_bind, wp_now. intros w2 Hw2. pose proof (same_db core_of _ _ _ Hw1 Hw2) as H2.
  apply wp_bind, wp_plan_draft. intros text w3 Hw3. pose proof (same_db core_of _ _ _ H2 Hw3) as H3.
  apply wp_bind, wp_or_return; split; intros planText _; [|by apply wp_return].
  apply wp_bind, wp_or_return; split; intros data Hdata; [|by apply wp_return].
  set (intent := hookSummary source payload) in *. set (risk := riskFromIntent intent) in *.
  set (actionType := if risk =? "read" then "read" else "write") in *.
  set (steps := loop_steps actionType planText intent diags) in *.
  match type of Hdata with marshal (AMap ?l) = _ => assert (Hkeys : plain_keys l) end.
  { apply plain_amap. rewrite !forallb_app, !andb_true_iff.
    split_and!; [done|by destruct (String.eqb planText "")|by destruct steps| |by destruct graph].
    destruct diags; [done|]. match goal with |- context [marshal ?x] => by destruct (marshal x) end. }
  apply wp_bind, (wp_on_db_atomic _ _ _ _ _ (CreatePlan_rows clock fault jsonb data));
    [|intros e w5 _; apply wp_bind; by apply wp_return].
  intros planID w5 (Hnew & (m & psteps & now & ctx & rows & Hm & _ & Hplans & _) & HA & HX).
  apply wp_bind, wp_ret. apply same_core in H3 as (P4 & A4 & X4).
  rewrite P4 in Hnew, Hplans. rewrite A4 in HA. rewrite X4 in HX.
  destruct (row_texts jsonb _ _ _ now ctx Hkeys Hdata Hm) as (Rt & _ & _ & Rr).
  rewrite !amap_assoc in Rt, Rr. specialize (Rt _ eq_refl). specialize (Rr _ eq_refl).
  unfold risk in Rr. rewrite loop_risk_plain in Rr. fold risk in Rr. clear Hdata Hkeys.
  set (row := new_plan_row jsonb now m ctx) in *. clearbody row.
  assert (Hpost : ∀ w6, tables_of w6 = tables_of w5 ∧ p_risk row = "read" ∨
    (p_risk row ≠ "read" ∧ ∃ id, tables_of w6 = set_approvals
       (λ l, l ++ [mkApproval id planID "pending" "linear" None]) (tables_of w5)) →
    alert_plan source payload planID (tables_of w) (tables_of w6)).
  { intros w6 H6. exists row, planText, diags. fold intent. fold risk. fold actionType. fold steps.
    destruct H6 as [[-> Hr]|[Hr (id & ->)]]; simpl.
    - split_and!; try done. by rewrite Hr.
    - apply String.eqb_neq in Hr as ->. rewrite HA. split_and!; try done. by exists id. }
  apply wp_bind. case_match eqn:Hwrite.
  - apply wp_bind, wp_createApproval; [|intros e w6 _; apply wp_bind; by apply wp_return].
    intros id w6 Hw6 r. apply wp_bind, wp_or_return; split; intros x _; [|by apply wp_return].
    apply wp_ret, wp_ret. intros ? [= <-]. apply Hpost.
    destruct (decide (p_risk row = "read")) as [Hread|]; [|by right; eauto].
    rewrite Rr in Hread.
    rewrite Hread in Hwrite. unfold actionType in Hwrite. by rewrite (loop_risk_read _ _ Hread) in Hwrite.
  - apply wp_ret, wp_ret. intros ? [= <-]. apply Hpost. left. split; [done|]. rewrite Rr.
    by destruct (String.eqb_spec (loop_risk risk steps) "read").
Qed.

(** A plan the event loop makes of an alert is stored with the risk of its
    intent raised to the risk of the steps the planner drafted, and a plan whose
    risk is not read gets exactly one approval, and it is pending. *)
Theorem alert_loop_plan actor source payload w planID w' :
  run_handler (runAlertEventLoop sv actor source payload) w = (Ok planID, w') →
  alert_plan source payload planID (tables_of w) (tables_of w').
Proof.
  intros Hrun. refine (wp_run_eq _ (λ r w', ∀ id, r = Ok id →
    alert_plan source payload id (tables_of w) (tables_of w')) _ _ _ Hrun _ _ eq_refl).
  apply wp_alert_loop.
Qed.
End over_store.

Definition alert_payload : gmap string any :=
  amap [("alerts", AList [AMap (amap [("labels", AMap (amap
    [("alertname", AStr "restart loop"); ("tenant_id", AStr "t1")]))])])].
Definition alert_run : result string * gateway store :=
  run_handler (runAlertEventLoop (S := store) (GatewayDB0 := demo_db) demo None "alertmanager" alert_payload)
    gateway0.

Lemma alert_loop_plan_witness :
  alert_run.1 = Ok "plan_0" ∧
  alert_plan "alertmanager" alert_payload "plan_0" no_tables (tabs (g_db alert_run.2)).
Proof.
  assert (H : alert_run.1 = Ok "plan_0") by (vm_compute; reflexivity).
  assert (Hrun : alert_run = (Ok "plan_0", alert_run.2)).
  { rewrite <- H. apply surjective_pairing. }
  exact (conj H (alert_loop_plan tick_clock no_fault same_json last demo_time time_error demo None
    "alertmanager" alert_payload gateway0 "plan_0" alert_run.2 Hrun)).
Defined.
