(* ===== verification/Executor.v ===== *)
(** * Executor: running a plan's steps, rolling back, recording

    Executor of internal/workflows/executor.go: RunOnce, executePlan, executeStep,
    tryRollback, rollbackSteps and what they record; splitStepsByStage (stages.go)
    and the steps and context it loads.

    The executor is proved against two interfaces: [ExecutionStore], which
    internal/db implements, and [ToolRunner], which the tool router implements. *)

From S2P Require Import Prelude GoStrings Json Digest ContextRef Steps ToolValidate Sandbox Http.
From S2P Require Import ToolRouter Store.

Local Open Scope string_scope.
Local Open Scope list_scope.

(** ** Interfaces *)

Class ExecutionStore (S : Type) := {
  es_ListExecutionsByStatus : string → Z → S → result (list (string * string)) * S;
  es_GetPlan : string → S → result (option json) * S;
  es_ListPlanSteps : string → S → result json * S;
  es_UpdateExecutionStatus : string → string → S → result unit * S;
  es_CompleteExecution : string → string → S → result unit * S;
  es_InsertToolCall : string → doc → S → result string * S;
  es_UpdateToolCall : string → string → string → string → S → result unit * S;
  es_InsertEvidence : string → doc → S → result string * S }.

(** Router.Execute: the output, or the error. *)
Class ToolRunner (W : Type) := { run_router : ExecuteRequest → W → result string * W }.

(** What an execution is seen to do: the tools it runs, and the statuses it gives
    the execution, whether or not the statement succeeds. *)
Inductive xevent :=
| ToolRun (req : ExecuteRequest) (ok : bool)
| SetStatus (execID status : string)
| Completed (execID status : string).

Record xworld (S W : Type) := mkX { x_db : S; x_router : W; x_log : list xevent }.
Arguments mkX {S W}.
Arguments x_db {S W}.
Arguments x_router {S W}.
Arguments x_log {S W}.

(** internal/storage behind BlobStore: the reference a key is stored under. *)
Record BlobStore := mkBlobs {
  Put : list xevent → string → string → result string;
  Presign : list xevent → string → result string }.

Record Executor := mkExecutor {
  ex_Runtime : bool;                     (* e.Runtime != nil *)
  ex_Ready : bool;                       (* its Router and Sandbox are set *)
  ex_Objects : option BlobStore;
  ex_Redactor : option Redactor;
  ex_MaxBatch : Z;
  ex_now : string }.                     (* time.Now() as RFC 3339 *)

(** ** Stages *)

Definition isVerifyStage (stage : string) : bool := ToLower (TrimSpace stage) =? "verify".

Definition splitStepsByStage (steps : list PlanStep) : list PlanStep * list PlanStep :=
  (List.filter (λ s, negb (isVerifyStage (Stage s))) steps,
   List.filter (λ s, isVerifyStage (Stage s)) steps).

(** json.Unmarshal into internal/workflows' PlanStep. *)
Definition decode_workflow_step (j : json) : result PlanStep :=
  fs ← Json.members j;
  id ← fld_string "step_id" fs; st ← fld_string "stage" fs;
  ac ← fld_string "action" fs; tl ← fld_string "tool" fs;
  inp ← fld_any "input" fs; pre ← fld_any "preconditions" fs; rb ← fld_any "rollback" fs;
  Ok (mkStep id st ac tl inp pre rb).

(** ** External identifiers *)

Definition evidenceType (tool : string) : string :=
  let tool := ToLower (TrimSpace tool) in
  if mem tool ["prometheus"; "thanos"] then "promql"
  else if tool =? "tempo" then "traceql"
  else if tool =? "argocd" then "argocd"
  else if tool =? "kubectl" then "k8s"
  else if tool =? "aws" then "cloudtrail"
  else if tool =? "grafana" then "grafana"
  else if mem tool ["github"; "gitlab"; "git"] then "scm"
  else "".

(** The first key that holds a string that is not blank. *)
Definition stringFromAny (m : gmap string any) (keys : list string) : option string :=
  head (omap (λ k, match mget m k with
                   | AStr v => if blank v then None else Some v | _ => None end) keys).

(** The longest prefix of bytes that satisfy [p]. *)
Fixpoint span (p : Ascii.ascii → bool) (s : string) : string :=
  match s with
  | String c s' => if p c then String c (span p s') else ""
  | "" => ""
  end.

(** The class \s of RE2. *)
Definition re_space (c : Ascii.ascii) : bool :=
  existsb (Z.eqb (code c)) [9; 10; 12; 13; 32]%Z.

(** FindString of [https?://[^\s]+]: the first match. *)
Definition url_here (s : string) : option string :=
  let scheme := if has_prefix s "https://" then Some "https://"
                else if has_prefix s "http://" then Some "http://" else None in
  scheme ← scheme;
  let rest := span (λ c, negb (re_space c)) (trim_prefix s scheme) in
  if rest =? "" then None else Some (scheme +:+ rest).
Fixpoint firstURL (s : string) : string :=
  match url_here s, s with
  | Some url, _ => url
  | None, String _ s' => firstURL s'
  | None, "" => ""
  end.

Definition hex_digit (c : Ascii.ascii) : bool :=
  is_digit c || ((97 <=? code c)%Z && (code c <=? 102)%Z).
(** The class \w of RE2. *)
Definition word_char (c : Ascii.ascii) : bool :=
  is_digit c || ((65 <=? code c)%Z && (code c <=? 90)%Z) ||
  ((97 <=? code c)%Z && (code c <=? 122)%Z) || (code c =? 95)%Z.
Definition starts_word (s : string) : bool :=
  match s with String c _ => word_char c | "" => false end.

(** FindString of [\b[0-9a-f]{7,40}\b]: a run of hexadecimal digits between word
    boundaries; [word] tells whether the byte before is a word's. *)
Fixpoint find_sha (word : bool) (s : string) : string :=
  match s with
  | "" => ""
  | String c s' =>
      let run := span hex_digit s in
      let n := String.length run in
      if negb word && (7 <=? n)%nat && (n <=? 40)%nat && negb (starts_word (drop_bytes n s))
      then run else find_sha (word_char c) s'
  end.
Definition firstSHA (text : string) : string := find_sha false (ToLower text).

Definition id_member (key : string) (v : option string) : list (string * any) :=
  match v with Some s => [(key, AStr s)] | None => [] end.

(** A map, or nil when it would be empty. *)
Definition ids (l : list (string * any)) : option (gmap string any) :=
  match l with [] => None | _ => Some (amap l) end.

Definition nonempty (s : string) : option string := if s =? "" then None else Some s.

Definition is_scm (tool : string) : bool :=
  mem (ToLower (TrimSpace tool)) ["github"; "gitlab"; "git"].

Definition extractExternalIDsFromText (tool text : string) : option (gmap string any) :=
  let text := TrimSpace text in
  if text =? "" then None
  else
    let out := id_member "pr_url" (nonempty (firstURL text)) ++
               id_member "commit_sha" (nonempty (firstSHA text)) in
    if is_scm tool then ids out else None.

Definition field_map (m : gmap string any) (key : string) : option (gmap string any) :=
  as_map (mget m key).

Definition cloudtrail_ids (m : gmap string any) : option (gmap string any) :=
  events ← as_list (mget m "Events"); ev ← head events; ev ← as_map ev;
  ids (id_member "cloudtrail_event_id" (stringFromAny ev ["EventId"; "eventId"; "event_id"])).

Definition argocd_ids (m : gmap string any) : option (gmap string any) :=
  status ← field_map m "status";
  match (sync ← field_map status "sync"; stringFromAny sync ["id"; "syncId"; "sync_id"]) with
  | Some id => ids [("argocd_sync_id", AStr id)]
  | None =>
      op ← field_map status "operationState"; res ← field_map op "syncResult";
      rev ← stringFromAny res ["revision"];
      ids [("argocd_revision", AStr rev); ("argocd_diff_ref", AStr rev)]
  end.

Definition grafana_ids (m : gmap string any) : option (gmap string any) :=
  match m !! "id" with
  | Some id => ids [("grafana_annotation_id", id)]
  | None =>
      match stringFromAny m ["url"; "dashboardUrl"; "dashboard_url"] with
      | Some url => ids [("grafana_url", AStr url)]
      | None =>
          meta ← field_map m "meta"; url ← stringFromAny meta ["url"];
          ids [("grafana_url", AStr url); ("grafana_diff_url", AStr (url +:+ "?tab=versions"))]
      end
  end.

Definition scm_ids (m : gmap string any) : option (gmap string any) :=
  ids (id_member "pr_url" (stringFromAny m ["url"; "web_url"; "html_url"]) ++
       id_member "commit_sha"
         (stringFromAny m ["sha"; "commit"; "commit_sha"; "headRefOid"; "head_ref_oid"])).

Definition extractExternalIDs (tool output : string) : option (gmap string any) :=
  if output =? "" then None
  else match (j ← unmarshal (doc_of_text output); decode_any j) with
       | Err _ => extractExternalIDsFromText tool output
       | Ok raw =>
           m ← as_map raw;
           let tool := ToLower (TrimSpace tool) in
           if tool =? "aws" then cloudtrail_ids m
           else if tool =? "argocd" then argocd_ids m
           else if tool =? "grafana" then grafana_ids m
           else if tool =? "tempo" then
             ids (id_member "trace_id" (stringFromAny m ["traceId"; "traceID"; "trace_id"]))
           else if is_scm tool then scm_ids m
           else None
       end.

Example sha_ex : firstSHA "merged abcdef0123 into x" = "abcdef0123".
Proof. reflexivity. Qed.
Example url_ex : firstURL "see https://x/y z" = "https://x/y".
Proof. reflexivity. Qed.

(** ** Running a plan *)

Section executor.
Context {S W : Type} `{!ExecutionStore S} `{!ToolRunner W}.
Variable e : Executor.
Notation world := (xworld S W).

Section steps.
Context {R : Type}.

Definition on_store {A} (f : S → A * S) : handler world R A :=
  call (λ w, let '(a, s) := f (x_db w) in (a, mkX s (x_router w) (x_log w))).

Definition log (ev : xevent) : handler world R unit :=
  effect (λ w, mkX (x_db w) (x_router w) (x_log w ++ [ev])).

Definition set_status (execID status : string) : handler world R (result unit) :=
  _ ← log (SetStatus execID status); on_store (es_UpdateExecutionStatus execID status).

Definition complete (execID status : string) : handler world R (result unit) :=
  _ ← log (Completed execID status); on_store (es_CompleteExecution execID status).

(** runTool *)
Definition runTool (req : ExecuteRequest) : handler world R (result string) :=
  if negb (ex_Runtime e && ex_Ready e) then mret (Err "runtime required")
  else
    out ← call (λ w, let '(r, rt) := run_router req (x_router w) in (r, mkX (x_db w) rt (x_log w)));
    _ ← log (ToolRun req (is_ok out));
    mret out.

(** A reference for the data, none without an object store. *)
Definition put (key data : string) : handler world R (result string) :=
  match ex_Objects e with
  | None => mret (Ok "")
  | Some blobs => reads (λ w, Put blobs (x_log w) key data)
  end.

Definition storeInput (execID callID : string) (input : any) : handler world R (result string) :=
  match ex_Objects e with
  | None => mret (Ok "")
  | Some _ =>
      match marshal input with
      | Err m => mret (Err m)
      | Ok data => put ("tool-input/" +:+ execID +:+ "/" +:+ callID +:+ ".json") (print_json data)
      end
  end.

Definition storeOutput (execID callID output : string) : handler world R (result string) :=
  put ("tool-output/" +:+ execID +:+ "/" +:+ callID +:+ ".json") (RedactString (ex_Redactor e) output).

Definition insertToolCall (execID tool status inputRef outputRef : string) :
    handler world R (result string) :=
  match marshal (AMap (amap [("tool_name", AStr tool); ("status", AStr status);
                             ("input_ref", AStr inputRef); ("output_ref", AStr outputRef)])) with
  | Err m => mret (Err m)
  | Ok data => on_store (es_InsertToolCall execID (doc_json data))
  end.

Definition presign (ref : string) : handler world R string :=
  match ex_Objects e with
  | Some blobs => if ref =? "" then mret ""
                  else reads (λ w, match Presign blobs (x_log w) ref with Ok l => l | Err _ => "" end)
  | None => mret ""
  end.

Definition recordEvidence (execID : string) (step : PlanStep) (outputRef output : string) :
    handler world R (result unit) :=
  let etype := evidenceType (Tool_ step) in
  if etype =? "" then mret (Ok tt)
  else
    let query := match Input step with AMap m => default "" (as_string (mget m "query")) | _ => "" end in
    link ← presign outputRef;
    let payload := AMap (amap ([("type", AStr etype); ("query", AStr query);
      ("result_ref", AStr outputRef); ("link", AStr link); ("collected_at", AStr (ex_now e))] ++
      (match extractExternalIDs (Tool_ step) output with
       | Some ext => [("external_ids", AMap ext)] | None => [] end))) in
    match marshal payload with
    | Err m => mret (Err m)
    | Ok data => id ← on_store (es_InsertEvidence execID (doc_json data)); mret (_ ← id; Ok tt)
    end.
End steps.

Notation body := (handler world (result unit) (result unit)).
Definition failed {A} (m : string) : handler world (result unit) A := return_ (Err m).

(** The tool call fails: its row says so. *)
Definition fail_call {A} (callID inputRef m : string) : handler world (result unit) A :=
  _ ← on_store (es_UpdateToolCall callID "failed" inputRef ""); failed m.

Definition request (execID callID tool action : string) (input : any) (ref : ContextRef) :
    ExecuteRequest := mkRequest tool action input callID execID ref.

(** What executeStep and tryRollback share: the tool call's row, the stored
    input, the tool, the stored output; the references and the output. *)
Definition call_tool (execID tool action : string) (input : any) (ref : ContextRef) :
    handler world (result unit) (string * string * string * string) :=
  callID ← insertToolCall execID tool "running" "" "";
  callID ← or_return callID failed;
  inputRef ← storeInput execID callID input;
  inputRef ← or_return inputRef (fail_call callID "");
  out ← runTool (request execID callID tool action input ref);
  out ← or_return out (fail_call callID inputRef);
  outputRef ← storeOutput execID callID out;
  outputRef ← or_return outputRef (fail_call callID inputRef);
  mret (callID, inputRef, outputRef, out).

Definition executeStep (execID : string) (step : PlanStep) (ref : ContextRef) : body :=
  '(callID, inputRef, outputRef, out) ← call_tool execID (Tool_ step) (Action step) (Input step) ref;
  ok ← on_store (es_UpdateToolCall callID "succeeded" inputRef outputRef);
  _ ← or_return ok failed;
  ok ← recordEvidence execID step outputRef out;
  _ ← or_return ok failed;
  mret (Ok tt).

(** The tool, action and input a step rolls back with. *)
Definition rollback_of (step : PlanStep) : result (string * string * any) :=
  match Rollback step with
  | AMap rollback =>
      if (size rollback =? 0)%nat then Err "no rollback"
      else
        let tool := default "" (as_string (mget rollback "tool")) in
        let action := default "" (as_string (mget rollback "action")) in
        if blank tool || blank action then Err "invalid rollback"
        else Ok (tool, action, mget rollback "input")
  | _ => Err "no rollback"
  end.

Definition tryRollback (execID : string) (step : PlanStep) (ref : ContextRef) : body :=
  '(tool, action, input) ← or_return (rollback_of step) failed;
  '(callID, inputRef, outputRef, _) ← call_tool execID tool action input ref;
  on_store (es_UpdateToolCall callID "succeeded" inputRef outputRef).

(** Every step is rolled back, the last first; the error is the last one. *)
Fixpoint rollback_loop (execID : string) (steps : list PlanStep) (ref : ContextRef)
    (lastErr : result unit) : body :=
  match steps with
  | [] => mret lastErr
  | step :: rest =>
      r ← call (run_handler (tryRollback execID step ref));
      rollback_loop execID rest ref (match r with Ok _ => lastErr | Err m => Err m end)
  end.
Definition rollbackSteps (execID : string) (steps : list PlanStep) (ref : ContextRef) : body :=
  rollback_loop execID (rev steps) ref (Ok tt).

Definition loadContext {R} (planID : string) : handler world R (result ContextRef) :=
  data ← on_store (es_GetPlan planID);
  mret (d ← data;
        match d with
        | None => Ok empty_ref
        | Some j => payload ← decode_map j;
                    Ok (workflows_contextFromMap (default ∅ (as_map (mget payload "context"))))
        end).

Definition loadSteps {R} (planID : string) : handler world R (result (list PlanStep)) :=
  data ← on_store (es_ListPlanSteps planID);
  mret (j ← data; decode_list decode_workflow_step j).

(** The execution ends with a status; a failure to record it is ignored. *)
Definition end_with {A} (execID status m : string) : handler world (result unit) A :=
  _ ← complete execID status; failed m.

Definition outcome_status (rolled_back : result unit) : string :=
  if is_ok rolled_back then "rolled_back" else "failed".

(** The steps in order; the first that fails ends the plan, after [undo]. *)
Fixpoint run_steps_ (execID : string) (steps : list PlanStep) (ref : ContextRef)
    (undo : PlanStep → body) : handler world (result unit) unit :=
  match steps with
  | [] => mret tt
  | step :: rest =>
      r ← call (run_handler (executeStep execID step ref));
      _ ← or_return r (λ m,
        undone ← call (run_handler (undo step));
        end_with execID (outcome_status undone) m);
      run_steps_ execID rest ref undo
  end.

Definition executePlan (exec : string * string) : body :=
  let '(execID, planID) := exec in
  _ ← or_return (check (negb (blank execID || blank planID)) "execution missing identifiers") failed;
  ok ← set_status execID "running";
  _ ← or_return ok failed;
  ref ← loadContext planID;
  ref ← or_return ref (end_with execID "failed");
  steps ← loadSteps planID;
  steps ← or_return steps (end_with execID "failed");
  let '(act, verify) := splitStepsByStage steps in
  _ ← run_steps_ execID act ref (λ step, tryRollback execID step ref);
  _ ← run_steps_ execID verify ref (λ _, rollbackSteps execID act ref);
  complete execID "succeeded".

(** The pending executions one after the other, up to the first that fails; the
    number completed. *)
Fixpoint run_batch (execs : list (string * string)) (count : Z) :
    handler world (Z * option string) (Z * option string) :=
  match execs with
  | [] => mret (count, None)
  | exec :: rest =>
      r ← call (run_handler (executePlan exec));
      _ ← or_return r (λ m, return_ (count, Some m));
      run_batch rest (count + 1)
  end.

Definition RunOnce : handler world (Z * option string) (Z * option string) :=
  _ ← return_if (negb (ex_Runtime e)) (0%Z, Some "runtime required");
  let limit := if (ex_MaxBatch e <=? 0)%Z then 10%Z else ex_MaxBatch e in
  execs ← on_store (es_ListExecutionsByStatus "pending" limit);
  execs ← or_return execs (λ m, return_ (0%Z, Some m));
  run_batch execs 0.
End executor.

(** ** The saga a plan's execution is *)

(** A step is tried, or rolled back, with success or not. *)
Inductive attempt :=
| Do (step : PlanStep) (ok : bool)
| Undo (step : PlanStep) (ok : bool).

(** What a plan's execution may do, and the status it ends with: all the act
    steps then all the verify steps; or the act steps up to one that fails, which
    is then rolled back itself; or the act steps and the verify steps up to one
    that fails, and then every act step is rolled back, the last first. *)
Inductive saga (act verify : list PlanStep) : list attempt → string → Prop :=
| saga_done :
    saga act verify (map (λ s, Do s true) (act ++ verify)) "succeeded"
| saga_act pre step post undone :
    act = pre ++ step :: post →
    saga act verify (map (λ s, Do s true) pre ++ [Do step false; Undo step undone])
      (if undone then "rolled_back" else "failed")
| saga_verify pre step post undone :
    verify = pre ++ step :: post → length undone = length act →
    saga act verify
      (map (λ s, Do s true) (act ++ pre) ++ Do step false :: zip_with Undo (rev act) undone)
      (if forallb id undone then "rolled_back" else "failed").

Section spec.
Variable execID : string.
Variable ref : ContextRef.

(** The tool runs of an attempt: at most one, of the step's tool and input or of
    its rollback's; one that succeeds ran its tool once, with success. *)
Inductive attempt_runs : attempt → list xevent → Prop :=
| did_not_start s : attempt_runs (Do s false) []
| did s ok ran callID :
    (ok = true → ran = true) →
    attempt_runs (Do s ok)
      [ToolRun (request execID callID (Tool_ s) (Action s) (Input s) ref) ran]
| undo_not_started s : attempt_runs (Undo s false) []
| undid s ok ran callID tool action input :
    rollback_of s = Ok (tool, action, input) → (ok = true → ran = true) →
    attempt_runs (Undo s ok) [ToolRun (request execID callID tool action input ref) ran].

Inductive runs : list attempt → list xevent → Prop :=
| runs_nil : runs [] []
| runs_cons a l evs evs' : attempt_runs a evs → runs l evs' → runs (a :: l) (evs ++ evs').

Lemma runs_app l l' evs evs' : runs l evs → runs l' evs' → runs (l ++ l') (evs ++ evs').
Proof.
  induction 1 as [|a l evs1 evs2 Ha _ IH]; intros Hl'; simpl; [done|].
  rewrite <- (assoc_L (++)). constructor; [done|by apply IH].
Qed.

Lemma runs_one a evs : attempt_runs a evs → runs [a] evs.
Proof. intros H. rewrite <- (app_nil_r evs). by constructor; [|constructor]. Qed.
End spec.

Section saga_proof.
Context {S W : Type} `{!ExecutionStore S} `{!ToolRunner W}.
Variable e : Executor.
Notation world := (xworld S W).
Notation outcome := (result unit).
Implicit Types (w : world).

(** What a body adds to the log. *)
Definition logged w w' (evs : list xevent) : Prop := x_log w' = x_log w ++ evs.

Lemma logged_nil w w' : x_log w' = x_log w → logged w w' [].
Proof. unfold logged. intros ->. by rewrite app_nil_r. Qed.

Lemma logged_trans w w1 w2 evs evs' :
  logged w w1 evs → logged w1 w2 evs' → logged w w2 (evs ++ evs').
Proof. unfold logged. intros H1 ->. by rewrite H1, (assoc_L (++)). Qed.

Lemma wp_on_store {R A} (f : S → A * S) Q (F : R → world → Prop) w :
  (∀ a w', x_log w' = x_log w → Q a w') → wp (on_store f) Q F w.
Proof. intros HQ. apply wp_call. destruct (f (x_db w)) as [a s]. by apply HQ. Qed.

Lemma wp_put {R} key data Q (F : R → world → Prop) w :
  (∀ r, Q r w) → wp (put e key data) Q F w.
Proof. intros HQ. unfold put. destruct (ex_Objects e); [by apply wp_reads|by apply wp_ret]. Qed.

Lemma wp_storeInput {R} execID callID input Q (F : R → world → Prop) w :
  (∀ r, Q r w) → wp (storeInput e execID callID input) Q F w.
Proof.
  intros HQ. unfold storeInput. destruct (ex_Objects e); [|by apply wp_ret].
  destruct (marshal input); [by apply wp_put|by apply wp_ret].
Qed.

Lemma wp_runTool {R} req Q (F : R → world → Prop) w :
  (∀ m w', logged w w' [] → Q (Err m) w') →
  (∀ r w', logged w w' [ToolRun req (is_ok r)] → Q r w') →
  wp (runTool e req) Q F w.
Proof.
  intros H0 HQ. unfold runTool. destruct (negb _); [by apply wp_ret, H0, logged_nil|].
  apply wp_bind, wp_call. destruct (run_router req (x_router w)) as [r rt]. simpl.
  apply wp_bind, wp_effect, wp_ret. by apply HQ.
Qed.

Lemma wp_fail_call {A} callID inputRef m (Q : A → world → Prop) (F : outcome → world → Prop) w :
  (∀ w', x_log w' = x_log w → F (Err m) w') → wp (fail_call callID inputRef m) Q F w.
Proof. intros HF. apply wp_bind, wp_on_store. intros a w' Hw'. by apply wp_return, HF. Qed.

Lemma wp_insertToolCall {R} execID tool st i o Q (F : R → world → Prop) w :
  (∀ r w', x_log w' = x_log w → Q r w') → wp (insertToolCall execID tool st i o) Q F w.
Proof.
  intros HQ. unfold insertToolCall. destruct (marshal _); [by apply wp_on_store|by apply wp_ret, HQ].
Qed.

Lemma wp_call_tool execID tool action input ref Q (F : outcome → world → Prop) w :
  let run callID ok := ToolRun (request execID callID tool action input ref) ok in
  (∀ m w', logged w w' [] → F (Err m) w') →
  (∀ callID ok m w', logged w w' [run callID ok] → F (Err m) w') →
  (∀ x w', logged w w' [run x.1.1.1 true] → Q x w') →
  wp (call_tool e execID tool action input ref) Q F w.
Proof.
  intros run H0 H1 HQ. apply wp_bind, wp_insertToolCall. intros callID w1 Hw1.
  apply wp_bind, wp_or_return; split; intros id _; [|by apply wp_return, H0, logged_nil].
  apply wp_bind, wp_storeInput. intros inputRef.
  apply wp_bind, wp_or_return; split; intros iref _.
  2: { apply wp_fail_call. intros w2 Hw2. apply H0, logged_nil. by rewrite Hw2. }
  apply wp_bind, wp_runTool.
  - intros m w2 Hw2. apply wp_bind. apply wp_fail_call. intros w3 Hw3. apply H0, logged_nil.
    unfold logged in Hw2. rewrite Hw3, Hw2, Hw1. by rewrite app_nil_r.
  - intros out w2 Hw2. apply wp_bind, wp_or_return; split; intros o Ho.
    2: { apply wp_fail_call. intros w3 Hw3. apply (H1 id false). unfold logged in *.
         by rewrite Hw3, Hw2, Hw1, Ho. }
    rewrite Ho in Hw2. apply wp_bind, wp_put. intros outRef.
    apply wp_bind, wp_or_return; split; intros oref _.
    + apply wp_ret, HQ. unfold logged in *. by rewrite Hw2, Hw1.
    + apply wp_fail_call. intros w3 Hw3. apply (H1 id true). unfold logged in *.
      by rewrite Hw3, Hw2, Hw1.
Qed.
(** [m] ends by returning, after runs that are those of the attempts [P] allows
    for its outcome. *)
Definition does execID ref (m : handler world outcome outcome)
    (P : list attempt → bool → Prop) : Prop :=
  ∀ w, ∃ l evs, let '(r, w') := run_handler m w in
    logged w w' evs ∧ runs execID ref l evs ∧ P l (is_ok r).

Lemma does_intro execID ref (m : handler world outcome outcome) (P : list attempt → bool → Prop) :
  (∀ w, let Q r w' := ∃ l evs, logged w w' evs ∧ runs execID ref l evs ∧ P l (is_ok r) in
        wp m Q Q w) → does execID ref m P.
Proof.
  intros H w. specialize (H w). apply wp_run in H. destruct H as (l & evs & H).
  exists l, evs. by destruct (run_handler m w).
Qed.

Lemma executeStep_does execID ref step :
  does execID ref (executeStep e execID step ref) (λ l ok, l = [Do step ok]).
Proof.
  apply does_intro. intros w Q.
  assert (HQ : ∀ r w' evs, logged w w' evs → attempt_runs execID ref (Do step (is_ok r)) evs → Q r w').
  { intros r w' evs Hl Ha. exists [Do step (is_ok r)], evs. auto using runs_one. }
  unfold executeStep. apply wp_bind, wp_call_tool.
  - intros m w' Hl. eapply HQ; [done|constructor].
  - intros callID ok m w' Hl. eapply HQ; [done|by constructor].
  - intros [[[callID i] o] out] w1 Hl. simpl in Hl.
    assert (Hend : ∀ r w', x_log w' = x_log w1 → Q r w').
    { intros r w' Hw'. eapply HQ; [unfold logged in *; by rewrite Hw'|by constructor]. }
    apply wp_bind, wp_on_store. intros r w2 Hw2.
    apply wp_bind, wp_or_return; split; intros u _; [|by apply wp_return, Hend].
    apply wp_bind.
    apply wp_mono with (Q := λ _ w', x_log w' = x_log w1) (E := λ _ _, False); [|intros r3 w3 Hw3|done].
    { unfold recordEvidence. destruct (_ =? ""); [by apply wp_ret|]. apply wp_bind.
      apply wp_mono with (Q := λ _ w', w' = w2) (E := λ _ _, False); [|intros link w' ->|done].
      { unfold presign. destruct (ex_Objects e); [|by apply wp_ret].
        destruct (o =? ""); [by apply wp_ret|by apply wp_reads]. }
      destruct (marshal _); [|by apply wp_ret]. apply wp_bind, wp_on_store. intros ? w3 Hw3.
      apply wp_ret. by rewrite Hw3. }
    apply wp_bind, wp_or_return; split; intros ? _; [by apply wp_ret, Hend|by apply wp_return, Hend].
Qed.

Lemma tryRollback_does execID ref step :
  does execID ref (tryRollback e execID step ref) (λ l ok, l = [Undo step ok]).
Proof.
  apply does_intro. intros w Q.
  assert (HQ : ∀ r w' evs, logged w w' evs → attempt_runs execID ref (Undo step (is_ok r)) evs → Q r w').
  { intros r w' evs Hl Ha. exists [Undo step (is_ok r)], evs. auto using runs_one. }
  unfold tryRollback. apply wp_bind, wp_or_return; split.
  2: { intros m _. apply wp_return. eapply HQ; [by apply logged_nil|constructor]. }
  intros [[tool action] input] Hroll. apply wp_bind, wp_call_tool.
  - intros m w' Hl. eapply HQ; [done|constructor].
  - intros callID ok m w' Hl. eapply HQ; [done|by econstructor].
  - intros [[[callID i] o] out] w1 Hl. simpl in Hl. apply wp_on_store. intros r w2 Hw2.
    eapply HQ; [unfold logged in *; by rewrite Hw2|by econstructor].
Qed.

Lemma does_call execID ref m P (w : world) : does execID ref m P →
  ∀ Q (F : outcome → world → Prop),
  (∀ r w' l evs, logged w w' evs → runs execID ref l evs → P l (is_ok r) → Q r w') →
  wp (call (run_handler m)) Q F w.
Proof.
  intros Hm Q F HQ. apply wp_call. destruct (Hm w) as (l & evs & H).
  destruct (run_handler m w) as [r w']. destruct H as (? & ? & ?). by eapply HQ.
Qed.

Lemma rollback_does execID ref steps last :
  does execID ref (rollback_loop e execID steps ref last)
    (λ l ok, ∃ undone, length undone = length steps ∧ l = zip_with Undo steps undone ∧
                       ok = is_ok last && forallb id undone).
Proof.
  revert last. induction steps as [|step steps IH]; intros last.
  - apply does_intro. intros w Q. apply wp_ret. exists [], [].
    split; [by apply logged_nil|]. split; [constructor|]. exists []. by rewrite andb_true_r.
  - apply does_intro. intros w Q. simpl.
    apply wp_bind, (does_call _ _ _ _ _ (tryRollback_does execID ref step)).
    intros r w1 l evs Hl Hr ->.
    set (last' := match r with Ok _ => last | Err m => Err m end).
    destruct (IH last' w1) as (l2 & evs2 & H). apply wp_run.
    destruct (run_handler _ w1) as [r2 w2]. destruct H as (Hl2 & Hr2 & undone & Hn & -> & Hok).
    exists (Undo step (is_ok r) :: zip_with Undo steps undone), (evs ++ evs2). simpl.
    split; [by eapply logged_trans|]. split; [by apply (runs_app _ _ [_])|].
    exists (is_ok r :: undone). split; [by simpl; f_equal|]. split; [done|].
    rewrite Hok. unfold last'. destruct r, (is_ok last); done.
Qed.
Notation done_ l := (map (λ s, Do s true) l).

Lemma wp_run_steps execID ref undo (U : PlanStep → list attempt → bool → Prop) steps Q
    (F : outcome → world → Prop) w :
  (∀ step, does execID ref (undo step) (U step)) →
  (∀ w' evs, logged w w' evs → runs execID ref (done_ steps) evs → Q tt w') →
  (∀ m w' pre step post l ok evs,
     steps = pre ++ step :: post → U step l ok →
     runs execID ref (done_ pre ++ Do step false :: l) evs →
     logged w w' (evs ++ [Completed execID (if ok : bool then "rolled_back" else "failed")]) →
     F (Err m) w') →
  wp (run_steps_ e execID steps ref undo) Q F w.
Proof.
  intros HU. revert w Q F. induction steps as [|step steps IH]; intros w Q F HQ HF; simpl.
  - apply wp_ret, (HQ w []); [by apply logged_nil|constructor].
  - apply wp_bind, (does_call _ _ _ _ _ (executeStep_does execID ref step)).
    intros r w1 l1 evs1 Hl1 Hr1 ->. apply wp_bind, wp_or_return; split.
    + intros u ->. simpl in Hr1. apply IH.
      * intros w2 evs2 Hl2 Hr2. apply (HQ w2 (evs1 ++ evs2)); [by eapply logged_trans|].
        by apply (runs_app _ _ [_]).
      * intros m w2 pre st post l ok evs2 -> Hu Hr2 Hl2.
        apply (HF m w2 (step :: pre) st post l ok (evs1 ++ evs2)); [done|done|by apply (runs_app _ _ [_])|].
        rewrite <- (assoc_L (++)). by eapply logged_trans.
    + intros m ->. simpl in Hr1. apply wp_bind, (does_call _ _ _ _ _ (HU step)).
      intros r2 w2 l2 evs2 Hl2 Hr2 Hu. apply wp_bind, wp_bind, wp_effect, wp_on_store.
      intros r3 w3 Hw3. apply wp_return.
      apply (HF m w3 [] step steps l2 (is_ok r2) (evs1 ++ evs2)); [done|done|by apply (runs_app _ _ [_])|].
      unfold logged, outcome_status in *. simpl in Hw3. by rewrite Hw3, Hl2, Hl1, !(assoc_L (++)).
Qed.

(** What running a plan may log and return. *)
Definition plan_outcome (exec : string * string) (r : outcome) (evs : list xevent) : Prop :=
  let '(execID, planID) := exec in
  (is_ok r = false ∧ (evs = [] ∨ evs = [SetStatus execID "running"] ∨
     evs = [SetStatus execID "running"; Completed execID "failed"])) ∨
  ∃ ref steps l status run_evs,
    evs = SetStatus execID "running" :: run_evs ++ [Completed execID status] ∧
    runs execID ref l run_evs ∧
    saga (splitStepsByStage steps).1 (splitStepsByStage steps).2 l status ∧
    (is_ok r = true → status = "succeeded").

Lemma wp_executePlan exec w :
  let Q r w' := ∃ evs, logged w w' evs ∧ plan_outcome exec r evs in
  wp (executePlan e exec) Q Q w.
Proof.
  intros Q. destruct exec as [execID planID].
  assert (Hearly : ∀ m w' evs, logged w w' evs →
    (evs = [] ∨ evs = [SetStatus execID "running"] ∨
     evs = [SetStatus execID "running"; Completed execID "failed"]) → Q (Err m) w').
  { intros m w' evs Hl He. exists evs. split; [done|]. by left. }
  unfold executePlan. apply wp_bind, wp_or_return; split; intros _u _.
  2: { apply wp_return. eapply Hearly; [by apply logged_nil|by left]. }
  apply wp_bind, wp_bind, wp_effect, wp_on_store. intros ok w1 Hw1. simpl in Hw1.
  assert (Hgive : ∀ w2 m A (Q' : A → _ → Prop), x_log w2 = x_log w1 →
    wp (end_with execID "failed" m) Q' Q w2).
  { intros w2 m A Q' Hw2. apply wp_bind, wp_bind, wp_effect, wp_on_store. intros ? w3 Hw3.
    apply wp_return. eapply Hearly; [|by right; right]. unfold logged. simpl in Hw3.
    by rewrite Hw3, Hw2, Hw1, <- (assoc_L (++)). }
  apply wp_bind, wp_or_return; split; intros _u2 _.
  2: { apply wp_return. eapply Hearly; [by unfold logged|by right; left]. }
  apply wp_bind, wp_bind, wp_on_store. intros data w2 Hw2. apply wp_ret.
  apply wp_bind, wp_or_return; split; intros ref _; [|apply Hgive; congruence].
  apply wp_bind, wp_bind, wp_on_store. intros data2 w3 Hw3. apply wp_ret.
  apply wp_bind, wp_or_return; split; intros steps _; [|apply Hgive; congruence].
  assert (H3 : logged w w3 [SetStatus execID "running"]) by (unfold logged; congruence).
  destruct (splitStepsByStage steps) as [act verify] eqn:Hsplit.
  assert (Hend : ∀ r w' l evs status, logged w3 w' (evs ++ [Completed execID status]) →
    runs execID ref l evs → saga act verify l status → (is_ok r = true → status = "succeeded") → Q r w').
  { intros r w' l evs status Hl Hr Hs Hok. eexists. split; [by eapply logged_trans|].
    right. exists ref, steps, l, status, evs. by rewrite Hsplit. }
  apply wp_bind, (wp_run_steps _ _ _ (λ step l ok, l = [Undo step ok])).
  { intros step. apply tryRollback_does. }
  2: { intros m w4 pre step post l ok2 evs -> -> Hr Hl. eapply Hend; [done|done| |done].
       by econstructor. }
  intros w4 evs4 Hl4 Hr4.
  apply wp_bind, (wp_run_steps _ _ _ (λ _ l ok, ∃ undone, length undone = length act ∧
    l = zip_with Undo (rev act) undone ∧ ok = forallb id undone)).
  { intros step w'. destruct (rollback_does execID ref (rev act) (Ok tt) w') as (l & evs & H).
    exists l, evs. unfold rollbackSteps. destruct (run_handler _ w') as [r w''].
    destruct H as (? & ? & undone & Hn & ? & Hok). split; [done|]. split; [done|].
    exists undone. by rewrite Hn, length_rev. }
  - intros w5 evs5 Hl5 Hr5. apply wp_bind, wp_effect, wp_on_store. intros r w6 Hw6.
    eapply (Hend r w6 _ (evs4 ++ evs5) "succeeded"); [|by apply runs_app| |done].
    + unfold logged in *. simpl in Hw6. by rewrite Hw6, Hl5, Hl4, !(assoc_L (++)).
    + rewrite <- map_app. constructor.
  - intros m w5 pre step post l ok2 evs -> (undone & Hn & -> & ->) Hr Hl.
    eapply (Hend (Err m) w5 _ (evs4 ++ evs)); [| |by eapply saga_verify|done].
    + rewrite <- (assoc_L (++)). by eapply logged_trans.
    + rewrite map_app, <- (assoc_L (++)). by apply runs_app.
Qed.
End saga_proof.

(** *** Batches *)

Section batch_proof.
Context {S W : Type} `{!ExecutionStore S} `{!ToolRunner W}.
Variable e : Executor.
Implicit Types (w : xworld S W).

(** A batch: the plans completed, and the one that failed, if any; the others
    were not started. *)
Definition batch_outcome (execs : list (string * string)) (n : Z) (err : option string)
    (evs : list xevent) : Prop :=
  ∃ finished rest evss,
    execs = finished ++ rest ∧ n = Z.of_nat (length finished) ∧
    Forall2 (λ exec l, plan_outcome exec (Ok tt) l) finished evss ∧
    match err with
    | None => rest = [] ∧ evs = concat evss
    | Some m => ∃ exec others l, rest = exec :: others ∧ plan_outcome exec (Err m) l ∧
                                 evs = concat evss ++ l
    end.

Lemma wp_run_batch execs n w :
  let Q (r : Z * option string) w' :=
    ∃ k evs, r.1 = (n + k)%Z ∧ logged w w' evs ∧ batch_outcome execs k r.2 evs in
  wp (run_batch e execs n) Q Q w.
Proof.
  revert n w. induction execs as [|exec execs IH]; intros n w Q; simpl.
  - apply wp_ret. exists 0%Z, []. split; [simpl; lia|]. split; [by apply logged_nil|].
    by exists [], [], [].
  - apply wp_bind, wp_call. pose proof (wp_executePlan e exec w) as Hp. apply wp_run in Hp.
    destruct (run_handler (executePlan e exec) w) as [r w1]. destruct Hp as (evs1 & Hl1 & Ho).
    simpl in *. apply wp_bind, wp_or_return; split.
    + intros [] ->. eapply wp_mono; [apply (IH (n + 1)%Z w1)|..];
        intros r2 w2 (k & evs2 & Hk & Hl2 & finished & rest & evss & -> & -> & Hf & Hr);
        (exists (1 + Z.of_nat (length finished))%Z, (evs1 ++ evs2); split; [lia|];
         split; [by eapply logged_trans|]; exists (exec :: finished), rest, (evs1 :: evss);
         split; [done|]; split; [simpl; lia|]; split; [by constructor|];
         destruct (r2.2); [destruct Hr as (x & others & l & -> & Hx & ->); exists x, others, l;
           simpl; by rewrite <- (assoc_L (++))|destruct Hr as [-> ->]; done]).
    + intros m ->. apply wp_return. exists 0%Z, evs1. split; [simpl; lia|]. split; [done|].
      exists [], (exec :: execs), []. split_and!; [done|done|constructor|].
      exists exec, execs, evs1. by split_and!.
Qed.
End batch_proof.

(** *** The interfaces' implementations *)

Section implementation.
Variable clock : nat → Z.
Variable fault : nat → option string.
Variable jsonb : json → json.
Variable time_text : Z → string.
Variable time_parse : string → result Z.

Definition store_executions_db : ExecutionStore store := {|
  es_ListExecutionsByStatus := ListExecutionsByStatus fault;
  es_GetPlan := GetPlan fault time_text;
  es_ListPlanSteps := ListPlanSteps fault;
  es_UpdateExecutionStatus := UpdateExecutionStatus fault;
  es_CompleteExecution := CompleteExecution clock fault;
  es_InsertToolCall := InsertToolCall clock fault;
  es_UpdateToolCall := UpdateToolCall fault;
  es_InsertEvidence := InsertEvidence clock fault jsonb time_parse |}.
End implementation.

Definition router_runner sys url fs gj red now visit so clients : ToolRunner ToolRouter.world := {|
  run_router req w :=
    let '((resp, err), w') := run_handler (Execute sys url fs gj red now visit req so clients) w in
    (match err with Some m => Err m | None => Ok (Output resp) end, w') |}.

(** ** Theorems *)

Section theorems.
Context {S W : Type} `{!ExecutionStore S} `{!ToolRunner W}.
Variable e : Executor.

(** C4: whatever the store, the tools and the object store answer, running a
    plan is the saga: it marks the execution running, runs act steps and then
    verify steps in their order, each tool at most once per step, and at the
    first failure rolls back the failing act step — or, when a verify step fails,
    every act step, the last first — and records one final status: succeeded,
    failed, or rolled_back when every rollback it tried succeeded. *)
Theorem executePlan_saga exec (w : xworld S W) :
  let '(r, w') := run_handler (executePlan e exec) w in
  ∃ evs, x_log w' = x_log w ++ evs ∧ plan_outcome exec r evs.
Proof.
  pose proof (wp_executePlan e exec w) as H. apply wp_run in H.
  by destruct (run_handler _ w).
Qed.

(** A poll of the executor runs the pending executions in the order listed and
    stops at the first that fails: those before it succeeded, and those after it
    are not touched; the count returned is of the ones that succeeded. *)
Theorem RunOnce_stops (w : xworld S W) :
  let '((n, err), w') := run_handler (RunOnce e) w in
  ∃ evs, x_log w' = x_log w ++ evs ∧
    ((n = 0%Z ∧ is_Some err ∧ evs = []) ∨
     ∃ limit execs, (es_ListExecutionsByStatus "pending" limit (x_db w)).1 = Ok execs ∧
       batch_outcome execs n err evs).
Proof.
  enough (H : let Q (r : Z * option string) w' := ∃ evs, x_log w' = x_log w ++ evs ∧
    ((r.1 = 0%Z ∧ is_Some r.2 ∧ evs = []) ∨
     ∃ limit execs, (es_ListExecutionsByStatus "pending" limit (x_db w)).1 = Ok execs ∧
       batch_outcome execs r.1 r.2 evs) in wp (RunOnce e) Q Q w).
  { apply wp_run in H. by destruct (run_handler _ w) as [[n err] w']. }
  intros Q. unfold RunOnce.
  assert (H0 : ∀ m w', x_log w' = x_log w → Q (0%Z, Some m) w').
  { intros m w' Hw'. exists []. split; [by rewrite app_nil_r|]. left. eauto. }
  apply wp_bind, wp_return_if; split; intros _; [by apply H0|].
  set (limit := if (ex_MaxBatch e <=? 0)%Z then _ else _).
  apply wp_bind, wp_call. destruct (es_ListExecutionsByStatus "pending" limit (x_db w)) as [r s] eqn:El.
  simpl. apply wp_bind, wp_or_return; split; [|intros m _; by apply wp_return, H0].
  intros execs ->. eapply wp_mono; [apply (wp_run_batch e execs 0)|..];
    intros r w' (k & evs & Hk & Hl & Hb); exists evs; (split; [done|]); right;
    exists limit, execs; rewrite El; (split; [done|]); by replace (r.1) with k by lia.
Qed.
End theorems.

Lemma workflow_step_stage r st : decode_workflow_step (step_json r) = Ok st → Stage st = "".
Proof.
  unfold decode_workflow_step. intros (fs & Hfs & H)%bind_Ok. injection Hfs as <-.
  apply bind_Ok in H as (id & _ & H). rewrite step_members_stage in H.
  apply bind_Ok in H as (? & [= <-] & H). repeat apply bind_Ok in H as (? & _ & H).
  by injection H as <-.
Qed.

(** An execution loaded from the store has no verify phase: every step read
    back is an act step, so what was planned as verification runs, and fails, as
    an action — and the roll-back of all the actions is never reached. *)
Theorem loaded_steps_never_verify fault planID s j steps :
  (ListPlanSteps fault planID s).1 = Ok j →
  decode_list decode_workflow_step j = Ok steps → splitStepsByStage steps = (steps, []).
Proof.
  unfold ListPlanSteps, stmt, db_read, mbind, db_bind. cbn. destruct (fault _); cbn; [done|].
  intros [= <-] Hd.
  assert (Hall : Forall (λ st, Stage st = "") steps).
  { eapply decode_list_Forall; [exact Hd|]. intros j st Hj Hst.
    apply list_elem_of_In, in_map_iff in Hj as (r & <- & _). by eapply workflow_step_stage. }
  clear Hd. unfold splitStepsByStage.
  induction Hall as [|st steps Hst _ IH]; [done|]. injection IH as H1 H2. simpl. rewrite Hst. simpl.
  by rewrite H1, H2.
Qed.

Definition one_step_plan : json :=
  JObj [("context", JObj []); ("steps", JArr [JObj [("action", JStr "query"); ("tool", JStr "tempo");
    ("stage", JStr "verify")]])].
Definition one_step_store : store :=
  (CreatePlan tick_clock no_fault same_json one_step_plan empty_store).2.

Definition one_step_json : json :=
  match (ListPlanSteps no_fault "plan_0" one_step_store).1 with Ok j => j | Err _ => JNull end.
Definition one_step : list PlanStep :=
  match decode_list decode_workflow_step one_step_json with Ok l => l | Err _ => [] end.

Lemma loaded_steps_never_verify_witness :
  length one_step = 1 ∧ splitStepsByStage one_step = (one_step, []).
Proof.
  assert (Hj : (ListPlanSteps no_fault "plan_0" one_step_store).1 = Ok one_step_json)
    by (vm_compute; reflexivity).
  assert (Hs : decode_list decode_workflow_step one_step_json = Ok one_step)
    by (vm_compute; reflexivity).
  split; [vm_compute; reflexivity|].
  exact (loaded_steps_never_verify no_fault "plan_0" one_step_store one_step_json one_step Hj Hs).
Defined.

(** Cancelling marks the row and nothing else: an execution cancelled while it
    runs is marked succeeded when the executor completes it. *)
Theorem cancelled_then_succeeded :
  let s := (CreateExecution tick_clock no_fault "plan_0" with_plan).2 in
  let id := "exec_2" in
  let '(started, s) := UpdateExecutionStatus no_fault id "running" s in
  let '(cancelled, s) := CancelExecution tick_clock no_fault id s in
  let after_cancel := map x_status (executions (tabs s)) in
  let '(completed, s) := CompleteExecution tick_clock no_fault id "succeeded" s in
  started = Ok tt ∧ cancelled = Ok tt ∧ after_cancel = ["cancelled"] ∧ completed = Ok tt ∧
  map x_status (executions (tabs s)) = ["succeeded"].
Proof. vm_compute. auto 6. Qed.
