(* ===== verification/Templates.v ===== *)
(** * Templates: the steps of the workflow catalogue

    BuildWorkflowSteps and its five builders
    (internal/workflows/workflow_templates.go). *)

From S2P Require Import Prelude GoStrings Json Steps ToolCommands ToolValidate Executor.

Local Open Scope string_scope.
Local Open Scope list_scope.

(** The first key that holds a string that is not blank, trimmed. *)
Definition stringValue (m : gmap string any) (keys : list string) : string :=
  default "" (head (omap (λ k, match mget m k with
                               | AStr s => if blank s then None else Some (TrimSpace s)
                               | _ => None end) keys)).

Definition intValue (m : gmap string any) (key : string) : option Z :=
  match mget m key with
  | AInt v | AInt64 v => Some v
  | AFloat f => Some (float_to_int f)
  | _ => None
  end.

Definition obj (l : list (string * any)) : any := AMap (amap l).

Definition rollbackStep (tool action : string) (input : any) (enabled : bool) : any :=
  if enabled then obj [("tool", AStr tool); ("action", AStr action); ("input", input)] else ANil.

(** A step without an id or preconditions. *)
Definition tstep (stage tool action : string) (input rollback : any) : PlanStep :=
  mkStep "" stage action tool input ANil rollback.
Definition act_step (tool action : string) (input : any) : PlanStep :=
  tstep "" tool action input ANil.
Definition verify_step (tool action : string) (input : any) : PlanStep :=
  tstep "verify" tool action input ANil.

(** A step when the text it is about is given. *)
Definition when_given (text : string) (step : PlanStep) : list PlanStep :=
  if text =? "" then [] else [step].

Definition prom_query (promql : string) : list PlanStep :=
  when_given promql (verify_step "prometheus" "query" (obj [("query", AStr promql)])).
Definition annotation (text : string) (tags : list string) : PlanStep :=
  act_step "grafana" "annotate" (obj [("text", AStr text); ("tags", AStrs tags)]).
Definition or_text (text fallback : string) : string := if text =? "" then fallback else text.

Definition built : Type := result (string * list PlanStep).

Definition buildGitOpsDeploySteps (input : gmap string any) : built :=
  let app := stringValue input ["argocd_app"; "app"] in
  _ ← check (negb (app =? "")) "argocd_app required";
  let service := stringValue input ["service"] in
  let revision := stringValue input ["revision"] in
  let promql := stringValue input ["promql"] in
  let text := or_text (stringValue input ["annotation"])
                ("GitOps deploy " +:+ (if negb (service =? "") then service else app)) in
  let app_input := obj [("app", AStr app)] in
  let steps :=
    [act_step "argocd" "sync-dry-run" app_input; act_step "argocd" "sync-preview" app_input;
     tstep "" "argocd" "sync" app_input
       (rollbackStep "argocd" "rollback" (obj [("app", AStr app); ("revision", AStr revision)])
          (negb (revision =? "")));
     verify_step "argocd" "wait" app_input] ++
    prom_query promql ++ [annotation text ["gitops"; "deploy"]] in
  Ok ("GitOps deploy" +:+ (if negb (service =? "") then " " +:+ service else ""), steps).

Definition buildHelmReleaseSteps (input : gmap string any) : built :=
  let release := stringValue input ["release"] in
  _ ← check (negb (release =? "")) "release required";
  let chart := stringValue input ["chart"] in
  let strategy := stringValue input ["strategy"] in
  let namespace := stringValue input ["namespace"] in
  let promql := stringValue input ["promql"] in
  let text := or_text (stringValue input ["annotation"]) ("Helm release " +:+ release) in
  let valuesRef := mget input "values_ref" in
  let target := [("release", AStr release); ("namespace", AStr namespace)] in
  let change :=
    if EqualFold strategy "rollback" then act_step "helm" "rollback" (obj target)
    else tstep "" "helm" "upgrade"
           (obj (target ++ (if chart =? "" then [] else [("chart", AStr chart)]) ++
                 (match valuesRef with ANil => [] | v => [("values_ref", v)] end)))
           (rollbackStep "helm" "rollback" (obj target) true) in
  let rollout := stringValue input ["rollout_resource"] in
  let steps :=
    [act_step "helm" "status" (obj target); change; verify_step "helm" "status" (obj target)] ++
    when_given rollout (verify_step "kubectl" "rollout-status" (obj [("resource", AStr rollout)])) ++
    prom_query promql ++ [annotation text ["helm"; "deploy"]] in
  Ok ("Helm release " +:+ release, steps).

Definition buildScaleServiceSteps (input : gmap string any) : built :=
  let resource := stringValue input ["resource"; "service"] in
  _ ← check (negb (resource =? "")) "resource required";
  replicas ← of_option "replicas required" (intValue input "replicas");
  let current := default 0%Z (intValue input "current_replicas") in
  let previous := default 0%Z (intValue input "previous_replicas") in
  let promql := stringValue input ["promql"] in
  let summary := "Scale " +:+ resource +:+ " to " +:+ itoa replicas in
  let text := or_text (stringValue input ["annotation"]) summary in
  let steps :=
    [tstep "" "kubectl" "scale"
       (obj ([("resource", AStr resource); ("replicas", AInt replicas)] ++
             (if (0 <? current)%Z then [("current_replicas", AInt current)] else [])))
       (rollbackStep "kubectl" "scale" (obj [("resource", AStr resource); ("replicas", AInt previous)])
          (0 <? previous)%Z);
     verify_step "kubectl" "rollout-status" (obj [("resource", AStr resource)])] ++
    prom_query promql ++ [annotation text ["scale"]] in
  Ok (summary, steps).

(** The step the request itself describes. *)
Definition remediation_step (input : gmap string any) : list PlanStep :=
  match mget input "remediation" with
  | AMap remediation =>
      let tool := stringValue remediation ["tool"] in
      let action := stringValue remediation ["action"] in
      if negb (tool =? "") && negb (action =? "") then
        [tstep "" tool action (mget remediation "input") (mget remediation "rollback")]
      else []
  | _ => []
  end.

Definition buildIncidentRemediationSteps (input : gmap string any) : built :=
  let service := stringValue input ["service"] in
  let promql := stringValue input ["promql"] in
  let traceID := stringValue input ["trace_id"] in
  let traceQL := stringValue input ["traceql"] in
  let suffix := if negb (service =? "") then " " +:+ service else "" in
  let text := or_text (stringValue input ["annotation"]) ("Incident remediation" +:+ suffix) in
  let steps :=
    [verify_step "prometheus" "rules" (obj [])] ++ prom_query promql ++
    when_given traceQL (verify_step "tempo" "traceql" (obj [("query", AStr traceQL)])) ++
    when_given traceID (verify_step "tempo" "trace_by_id" (obj [("trace_id", AStr traceID)])) ++
    remediation_step input ++ [annotation text ["incident"]] in
  Ok ("Incident remediation" +:+ suffix, steps).

Definition buildSecretRotationSteps (input : gmap string any) : built :=
  let secret := stringValue input ["secret_path"] in
  _ ← check (negb (secret =? "")) "secret_path required";
  let argocdApp := stringValue input ["argocd_app"; "app"] in
  let promql := stringValue input ["promql"] in
  let text := or_text (stringValue input ["annotation"]) ("Secret rotation " +:+ secret) in
  let lease := obj [("lease_id", AStr secret)] in
  let steps :=
    [act_step "vault" "renew" lease; act_step "vault" "revoke" lease] ++
    when_given argocdApp (act_step "argocd" "sync" (obj [("app", AStr argocdApp)])) ++
    prom_query promql ++ [annotation text ["secret"; "rotation"]] in
  Ok ("Secret rotation " +:+ secret, steps).

Definition BuildWorkflowSteps (name : string) (input : gmap string any) : built :=
  if name =? "gitops_deploy" then buildGitOpsDeploySteps input
  else if name =? "helm_release" then buildHelmReleaseSteps input
  else if name =? "scale_service" then buildScaleServiceSteps input
  else if name =? "incident_remediation" then buildIncidentRemediationSteps input
  else if name =? "secret_rotation" then buildSecretRotationSteps input
  else Err "unknown workflow".

(** ** What the router accepts *)

(** A call of a registered tool that its validator, if it has one, accepts. *)
Definition call_ok (tool action : string) (input : any) : bool :=
  (match findTool tool with Some _ => true | None => false end) &&
  (negb (mem tool validated_tools) || cli_ok tool action input).

(** A step whose call is accepted, and whose rollback is when it has one. *)
Definition step_ok (s : PlanStep) : bool :=
  call_ok (Tool_ s) (Action s) (Input s) &&
  match Rollback s, rollback_of s with
  | ANil, _ => true
  | _, Ok (tool, action, input) => call_ok tool action input
  | _, Err _ => false
  end.

Lemma stringValue_blank m keys : stringValue m keys ≠ "" → blank (stringValue m keys) = false.
Proof.
  unfold stringValue. induction keys as [|k keys IH]; simpl; [done|].
  destruct (mget m k); try done. destruct (blank s) eqn:E; simpl; [done|].
  intros _. by rewrite blank_TrimSpace.
Qed.

Lemma mget_obj l k : mget (amap l) k = default ANil (assoc k l).
Proof. unfold mget. by rewrite amap_assoc. Qed.

Lemma size_obj kv l : Nat.eqb (size (amap (kv :: l))) 0 = false.
Proof.
  destruct kv as [k v]. apply Nat.eqb_neq. rewrite map_size_ne_0_lookup. exists k.
  unfold amap. simpl. by rewrite lookup_insert_eq.
Qed.

#[local] Arguments amap : simpl never.
#[local] Arguments mget : simpl never.

(** *** The calls the templates make *)

Section calls.
Variable text : string.
Hypothesis Htext : blank text = false.

Lemma call_fields tool action fields m :
  (match findTool tool with Some _ => true | None => false end) = true →
  required_fields tool action = Some fields →
  forallb (λ f, negb (blank (str m f))) fields = true → extra_ok tool action m = true →
  call_ok tool action (AMap m) = true.
Proof.
  intros Ht Hr Hf He. unfold call_ok, cli_ok, inputMap. rewrite Ht, Hr, Hf, He. apply orb_true_r.
Qed.

(** A call whose first member is the text it needs. *)
Lemma one_field_ok tool action key l :
  (match findTool tool with Some _ => true | None => false end) = true →
  required_fields tool action = Some [key] →
  extra_ok tool action (amap ((key, AStr text) :: l)) = true →
  call_ok tool action (obj ((key, AStr text) :: l)) = true.
Proof.
  intros Ht Hf He. eapply call_fields; [done|exact Hf| |done].
  unfold str. simpl. rewrite mget_amap_cons. simpl. by rewrite Htext.
Qed.

Lemma scale_ok n l :
  (0 ≤ n)%Z →
  call_ok "kubectl" "scale" (obj (("resource", AStr text) :: ("replicas", AInt n) :: l)) = true.
Proof.
  intros Hn. apply one_field_ok; [reflexivity|reflexivity|].
  unfold extra_ok. simpl String.eqb. cbn [andb]. rewrite mget_obj. by apply Z.leb_le.
Qed.

Lemma upgrade_ok l :
  is_ok (parseArtifactRef (default ANil (assoc "values_ref" l))) = true →
  call_ok "helm" "upgrade" (obj (("release", AStr text) :: l)) = true.
Proof.
  intros Hv. apply one_field_ok; [reflexivity|reflexivity|].
  unfold extra_ok. simpl String.eqb. cbn [andb]. by rewrite mget_obj.
Qed.
End calls.

Lemma step_without_rollback stage tool action input :
  call_ok tool action input = true → step_ok (tstep stage tool action input ANil) = true.
Proof. intros H. unfold step_ok. simpl. by rewrite H. Qed.

Lemma step_with_rollback stage tool action input rtool raction rinput enabled :
  blank rtool = false → blank raction = false →
  call_ok tool action input = true → (enabled = true → call_ok rtool raction rinput = true) →
  step_ok (tstep stage tool action input (rollbackStep rtool raction rinput enabled)) = true.
Proof.
  intros Ht Ha Hc Hr. unfold rollbackStep. destruct enabled; [|by apply step_without_rollback].
  unfold step_ok, rollback_of, obj, tstep. cbn [Tool_ Action Input Rollback].
  rewrite size_obj, !mget_obj, Hc. cbn -[call_ok]. rewrite Ht, Ha. by apply Hr.
Qed.

Lemma when_given_ok P text step : (text ≠ "" → P step) → Forall P (when_given text step).
Proof.
  intros H. unfold when_given. destruct (String.eqb_spec text ""); [done|].
  by repeat constructor; apply H.
Qed.

(** ** Theorems *)

Section catalogue.
Variable input : gmap string any.
Hypothesis replicas_nonneg : ∀ n, intValue input "replicas" = Some n → (0 ≤ n)%Z.
Hypothesis values_ref_ok : is_ok (parseArtifactRef (mget input "values_ref")) = true.

Definition accepted_step (s : PlanStep) : Prop := step_ok s = true ∨ s ∈ remediation_step input.

Lemma plain_step stage tool action i : call_ok tool action i = true → accepted_step (tstep stage tool action i ANil).
Proof. intros H. by left; apply step_without_rollback. Qed.

Lemma prom_query_ok promql : Forall accepted_step (prom_query promql).
Proof. apply when_given_ok. intros _. by apply plain_step. Qed.

Lemma annotation_ok text tags : accepted_step (annotation text tags).
Proof. by apply plain_step. Qed.

Lemma given_text m keys : negb (stringValue m keys =? "") = true → blank (stringValue m keys) = false.
Proof. intros H. apply stringValue_blank. by apply negb_true_iff, String.eqb_neq in H. Qed.

(** One goal per step that is not a query or an annotation. *)
Ltac steps_of :=
  repeat first [apply Forall_app; split | apply Forall_cons_2 | apply Forall_nil_2];
  auto using prom_query_ok, annotation_ok.

Lemma gitops_ok summary steps :
  buildGitOpsDeploySteps input = Ok (summary, steps) → Forall accepted_step steps.
Proof.
  unfold buildGitOpsDeploySteps. intros ([] & Happ & H)%bind_Ok. apply check_Ok, given_text in Happ.
  injection H as _ <-. steps_of.
  1, 2, 4: by apply plain_step, one_field_ok.
  left. apply step_with_rollback; try done; intros; by apply one_field_ok.
Qed.

Lemma helm_ok summary steps :
  buildHelmReleaseSteps input = Ok (summary, steps) → Forall accepted_step steps.
Proof.
  unfold buildHelmReleaseSteps. intros ([] & Hr & H)%bind_Ok. apply check_Ok, given_text in Hr.
  injection H as _ <-. steps_of.
  1, 3: by apply plain_step, one_field_ok.
  - destruct (EqualFold _ _); [by apply plain_step, one_field_ok|].
    left. apply (step_with_rollback "" "helm" "upgrade" _ "helm" "rollback" _ true); try done; [|intros _; by apply one_field_ok].
    apply upgrade_ok; [done|]. simpl. destruct (stringValue input ["chart"] =? ""); simpl;
      by destruct (mget input "values_ref").
  - apply when_given_ok. intros Hne. by apply plain_step, one_field_ok; [apply stringValue_blank|..].
Qed.

Lemma scale_steps_ok summary steps :
  buildScaleServiceSteps input = Ok (summary, steps) → Forall accepted_step steps.
Proof.
  unfold buildScaleServiceSteps. intros ([] & Hr & H)%bind_Ok. apply check_Ok, given_text in Hr.
  apply bind_Ok in H as (n & Hn & H). apply of_option_Ok, replicas_nonneg in Hn.
  injection H as _ <-. steps_of.
  - left. apply step_with_rollback; try done; [by apply scale_ok|].
    intros Hp%Z.ltb_lt. apply (scale_ok _ Hr _ []); lia.
  - by apply plain_step, one_field_ok.
Qed.

Lemma incident_ok summary steps :
  buildIncidentRemediationSteps input = Ok (summary, steps) → Forall accepted_step steps.
Proof.
  intros H. injection H as _ <-. steps_of.
  - by apply plain_step.
  - apply when_given_ok. intros _. by apply plain_step.
  - apply when_given_ok. intros _. by apply plain_step.
  - apply Forall_forall. intros s Hs. by right.
Qed.

Lemma rotation_ok summary steps :
  buildSecretRotationSteps input = Ok (summary, steps) → Forall accepted_step steps.
Proof.
  unfold buildSecretRotationSteps. intros ([] & Hr & H)%bind_Ok.
  injection H as _ <-. steps_of; try by apply plain_step.
  apply when_given_ok. intros Hne. by apply plain_step, one_field_ok; [apply stringValue_blank|..].
Qed.

(** C39: for a request whose replicas, when it has them, are not negative and whose
    values reference, when it has one, is valid, every step the catalogue makes, and its
    rollback when it has one, is a call of a registered tool that the tool's validator
    accepts - apart from the remediation step, which is the request's own. *)
Theorem catalogue_steps_accepted name summary steps :
  BuildWorkflowSteps name input = Ok (summary, steps) → Forall accepted_step steps.
Proof.
  unfold BuildWorkflowSteps. intros H. repeat case_match; try done;
    eauto using gitops_ok, helm_ok, scale_steps_ok, incident_ok, rotation_ok.
Qed.
End catalogue.

(** A negative count is not refused: the step that is built is one the validator does
    not accept. *)
Example negative_scale_built :
  (λ '(_, steps), map step_ok steps) <$>
    BuildWorkflowSteps "scale_service" (amap [("service", AStr "web"); ("replicas", AInt (-1))])
  = Ok [false; true; true].
Proof. vm_compute. reflexivity. Qed.

Definition demo_release : gmap string any :=
  amap [("release", AStr "web"); ("chart", AStr "charts/web"); ("replicas", AInt 2);
        ("values_ref", obj [("kind", AStr "inline"); ("ref", AStr "a: 1")])].
Definition demo_release_steps : list PlanStep :=
  match BuildWorkflowSteps "helm_release" demo_release with Ok (_, l) => l | Err _ => [] end.

Lemma catalogue_steps_accepted_witness :
  length demo_release_steps = 4 ∧ Forall (accepted_step demo_release) demo_release_steps.
Proof.
  split; [reflexivity|].
  apply (catalogue_steps_accepted demo_release) with "helm_release" "Helm release web".
  - intros n Hn. assert (Hv : intValue demo_release "replicas" = Some 2%Z) by (vm_compute; reflexivity).
    rewrite Hv in Hn. injection Hn as <-. lia.
  - vm_compute. reflexivity.
  - vm_compute. reflexivity.
Defined.
