(* ===== verification/Catalogue.v ===== *)
(** * Catalogue: the workflow catalogue over HTTP

    internal/web/workflows.go and workflow_catalog.go: the built-in workflows,
    the stored ones, and starting one, which creates its plan, its approval and,
    under a condition, its execution.

    The web package has its own copy of the builders; their texts are those of
    internal/workflows, line by line, so they are the same functions here. *)

From S2P Require Import Prelude GoStrings Json ContextRef Steps Policy Constraints Hubs Http.
From S2P Require Import Shelves Store Library EventGate Gateway Plans Hooks Registry RegistryLaws Templates.

Local Open Scope string_scope.
Local Open Scope list_scope.

(** ** Data *)

Record WorkflowTemplate := mkTemplate { wt_Name : string; wt_Description : string; wt_Risk : string }.

Record WorkflowStartRequest := mkStartReq {
  ws_Context : ContextRef; ws_Input : option (gmap string any); ws_Constraints : any }.

Definition decode_start_request (j : json) : result WorkflowStartRequest :=
  fs ← Json.members j;
  ctx ← fld_ref fs; i ← fld_map "input" fs; c ← fld_any "constraints" fs; Ok (mkStartReq ctx i c).

Definition workflowCatalog : list WorkflowTemplate :=
  [mkTemplate "gitops_deploy" "Argo CD deploy with dry-run, sync, verify, annotate" "medium";
   mkTemplate "helm_release" "Helm upgrade/rollback with verify and annotate" "medium";
   mkTemplate "scale_service" "Scale workloads with rollout verify" "low";
   mkTemplate "incident_remediation" "Diagnose + remediate incidents with evidence" "medium";
   mkTemplate "secret_rotation" "Rotate secrets and verify health" "high"].

Definition template_fields (t : WorkflowTemplate) : list (string * any) :=
  [("name", AStr (wt_Name t)); ("description", AStr (wt_Description t)); ("risk", AStr (wt_Risk t))].
Definition WorkflowSpecFromTemplate (t : WorkflowTemplate) : gmap string any := amap (template_fields t).
Definition template_any (t : WorkflowTemplate) : any := AStruct "WorkflowTemplate" (template_fields t).

Definition findWorkflowTemplate (name : string) : option WorkflowTemplate :=
  List.find (λ t, wt_Name t =? name) workflowCatalog.

(** *** The builders *)

Definition buildGitOpsDeploy : gmap string any → built := buildGitOpsDeploySteps.
Definition buildHelmRelease : gmap string any → built := buildHelmReleaseSteps.
Definition buildScaleService : gmap string any → built := buildScaleServiceSteps.
Definition buildIncidentRemediation : gmap string any → built := buildIncidentRemediationSteps.
Definition buildSecretRotation : gmap string any → built := buildSecretRotationSteps.

Definition buildWorkflowPlan (name : string) (input : gmap string any) : built :=
  if name =? "gitops_deploy" then buildGitOpsDeploy input
  else if name =? "helm_release" then buildHelmRelease input
  else if name =? "scale_service" then buildScaleService input
  else if name =? "incident_remediation" then buildIncidentRemediation input
  else if name =? "secret_rotation" then buildSecretRotation input
  else Err "unknown workflow".

(** *** The latest version of a name *)

Definition item_version (item : gmap string any) : Z :=
  match mget item "version" with AInt v => v | AFloat f => float_to_int f | _ => 0%Z end.
Definition item_named (name : string) (item : gmap string any) : bool :=
  match mget item "name" with AStr n => EqualFold n name | _ => false end.

(** The loop: the greatest version so far, from 0, and the item that has it. *)
Definition select_version (name : string) (best : Z * option (gmap string any))
    (item : gmap string any) : Z * option (gmap string any) :=
  if item_named name item && (best.1 <=? item_version item)%Z
  then (item_version item, Some item) else best.

Definition findWorkflowByName (payload : json) (name : string) : option (gmap string any) :=
  match decode_maps payload with
  | Err _ => None
  | Ok items =>
      let name := TrimSpace name in
      if name =? "" then None
      else (fold_left (select_version name) items (0%Z, None)).2
  end.

Section handlers.
Context {S : Type} `{!GatewayDB S} `{!LibraryDB S}.
Variable sv : Server.
Variable cc : call_ctx.

Notation world := (gateway S).
Notation body := (handler world Response Response).

(** A page of the stored catalogue, when the database answers one. *)
Definition stored_catalog (limit offset : Z) : handler world Response (option (json * Z)) :=
  if sv_DB sv then
    rows ← on_db (lib_ListWorkflowCatalog limit offset);
    mret (match rows with Ok page => Some page | Err _ => None end)
  else mret None.

Definition handleWorkflows : body :=
  _ ← return_if (negb (Method (cc_req cc) =? "GET")) StatusMethodNotAllowed;
  tenantID ← require_tenant cc;
  _ ← require_tenant_read sv cc "workflow.list" tenantID (AMap ∅);
  let '(limit, offset) := parsePagination (Query (cc_req cc)) in
  page ← stored_catalog limit offset;
  match page with
  | Some (payload, total) =>
      filtered ← or_error (filterJSONByTenant (doc_json payload) tenantID true) "encode error" 500;
      mret (paginatedResponse filtered limit offset total)
  | None =>
      mret (ok_json (AMap (amap [("workflows",
        ASlice "WorkflowTemplate" (map template_any workflowCatalog))])))
  end.

(** *** One workflow *)

Definition template_response (name : string) : Response :=
  match findWorkflowTemplate name with
  | Some t => ok_json (template_any t)
  | None => not_found
  end.

Definition getWorkflow (name : string) : body :=
  tenantID ← require_tenant cc;
  _ ← require_tenant_read sv cc "workflow.get" tenantID (info "workflow" name);
  page ← stored_catalog 200 0;
  match page with
  | Some (payload, _) =>
      filtered ← or_error (filterJSONByTenant (doc_json payload) tenantID true) "encode error" 500;
      match findWorkflowByName filtered name with
      | Some found => mret (ok_json (AMap found))
      | None => mret (template_response name)
      end
  | None => mret (template_response name)
  end.

(** Assigning to a nil map panics: net/http closes the connection, no answer. *)
Definition panicked : Response := mkResp 0 Empty.

Definition createVersion (name : string) : body :=
  _ ← has_db sv;
  j ← decode_body cc (λ j, _ ← decode_map j; Ok j);
  let req := match decode_map j with Ok m => m | Err _ => ∅ end in
  tenantID ← body_tenant cc (default "" (as_string (mget req "tenant_id")));
  _ ← require_write sv cc "workflow.version.create" (tenant_ref tenantID) (info "workflow" name);
  _ ← return_if (match j with JNull => true | _ => false end) panicked;
  data ← or_error (marshal (AMap (<["tenant_id" := AStr tenantID]> (<["name" := AStr name]> req))))
           "encode error" 500;
  id ← on_db (lib_CreateWorkflowCatalog (doc_json data));
  id ← or_error id "db error" 500;
  _ ← allowed sv cc "workflow.version.create"
        (AMap (amap [("workflow", AStr name); ("workflow_id", AStr id)]));
  mret (ok_json (info "workflow_id" id)).

(** *** Starting one *)

(** The approval of a workflow's plan: unlike a plan's, no digest is recorded. *)
Definition approve_workflow (planID risk : string) (dec : PolicyDecision) :
    handler world Response unit :=
  if (risk =? "low") && sv_AutoApproveLow sv && negb (Decision_ dec =? "require_approval") then
    id ← createApproval sv planID false;
    id ← or_error id "approval error" 502;
    ok ← on_db (db_UpdateApprovalStatusByPlan planID "approved");
    _ ← or_error ok "db error" 500;
    auditEvent sv cc "approval.auto" "allow" (AMap (amap [("plan_id", AStr planID);
      ("approval_id", AStr id); ("status", AStr "approved")])) ""
  else
    id ← createApproval sv planID true;
    _ ← or_error id "approval error" 502;
    mret tt.

(** The execution, whose condition does not look at the decision. *)
Definition execute_workflow (planID actionType risk : string) (ctx : ContextRef)
    (steps : list PlanStep) : handler world Response string :=
  if negb (actionType =? "write") || (risk =? "low") && sv_AutoApproveLow sv then
    _ ← require_idle planID;
    execID ← on_db (db_CreateExecution planID);
    execID ← or_error execID "db error" 500;
    _ ← start_execution sv planID execID ctx steps;
    mret execID
  else mret "".

Definition template_risk (t : WorkflowTemplate) : string := if blank (wt_Risk t) then "low" else wt_Risk t.

Definition start_response (planID execID : string) : any :=
  AStruct "WorkflowStartResponse" ([("plan_id", AStr planID)] ++
    (if execID =? "" then [] else [("execution_id", AStr execID)]) ++ [("status", AStr "ok")]).

Definition startWorkflow (name : string) : body :=
  _ ← has_db sv;
  template ← or_return (of_option "" (findWorkflowTemplate name)) (λ _, return_ not_found);
  req ← decode_body cc decode_start_request;
  let input := default ∅ (ws_Input req) in
  let ctx := ref_any (ws_Context req) in
  _ ← or_return (validateContextRefStrict (ws_Context req))
        (λ e, deny sv cc "workflow.start" ctx e "invalid context" 400);
  '(summary, steps) ← or_return (buildWorkflowPlan name input) (λ e, return_ (http_error e 400));
  let risk := template_risk template in
  let actionType := if risk =? "read" then "read" else "write" in
  dec ← gateway_policy sv cc "plan.create" actionType (ws_Context req) risk 0;
  dec ← or_return dec (λ e, deny sv cc "workflow.start" ctx e "policy denied" 403);
  _ ← admit_decision sv cc "workflow.start" actionType ctx dec;
  _ ← return_if (match sv_Executor sv with None => true | Some _ => false end)
        (http_error "temporal not configured" 503);
  now ← now_ sv;
  payload ← or_error (marshal (AMap (amap [("trigger", AStr "workflow"); ("summary", AStr summary);
    ("context", ctx); ("risk_level", AStr risk); ("intent", AStr ("Workflow " +:+ name));
    ("constraints", constraints_any (mergeConstraints (ws_Constraints req) (Policy.Constraints dec)));
    ("created_at", AStr (sv_rfc3339 sv now)); ("steps", step_any_list steps);
    ("meta", AMap (amap [("workflow", AStr name); ("input", AMap input)]))]))) "encode error" 500;
  planID ← on_db (db_CreatePlan payload);
  planID ← or_error planID "db error" 500;
  _ ← (if actionType =? "write" then approve_workflow planID risk dec else mret tt);
  execID ← execute_workflow planID actionType risk (ws_Context req) steps;
  _ ← allowed sv cc "workflow.start" (AMap (amap [("plan_id", AStr planID); ("workflow", AStr name)]));
  mret (ok_json (start_response planID execID)).

Definition handleWorkflowByID : body :=
  let parts := split_byte (byte 47) (trim_slashes (trim_prefix (Path (cc_req cc)) "/v1/workflows/")) in
  let get := Method (cc_req cc) =? "GET" in
  let post := Method (cc_req cc) =? "POST" in
  match parts with
  | [] => mret (http_error "workflow required" 400)
  | name :: rest =>
      _ ← return_if (name =? "") (http_error "workflow required" 400);
      match rest with
      | [] => if get then getWorkflow name else mret StatusMethodNotAllowed
      | [verb] =>
          if (verb =? "version") && post then createVersion name
          else if (verb =? "start") && post then startWorkflow name
          else mret StatusMethodNotAllowed
      | _ => mret StatusMethodNotAllowed
      end
  end.
End handlers.

(** ** Theorems *)

(** The copies of the builders agree: a started workflow has the steps its
    Temporal workflow would build. *)
Lemma buildWorkflowPlan_eq name input : buildWorkflowPlan name input = BuildWorkflowSteps name input.
Proof. reflexivity. Qed.

(** *** The latest version *)
Lemma select_version_fold name items best :
  let '(v, found) := fold_left (select_version name) items best in
  let named item := item ∈ items ∧ item_named name item = true in
  (found = best.2 ∧ v = best.1 ∧ ∀ item, named item → (item_version item < best.1)%Z) ∨
  (∃ item, found = Some item ∧ named item ∧ item_version item = v ∧ (best.1 ≤ v)%Z ∧
     ∀ other, named other → (item_version other ≤ v)%Z).
Proof.
  revert best. induction items as [|i items IH]; intros [b0 f0]; simpl.
  { left. split; [done|]. split; [done|]. by intros ? [?%elem_of_nil _]. }
  unfold select_version at 2. cbn [fst snd].
  destruct (item_named name i) eqn:En; simpl; [destruct (Z.leb_spec b0 (item_version i))|];
    match goal with |- context [fold_left _ items ?b] => specialize (IH b) end;
    destruct (fold_left _ items _) as [v found]; cbn [fst snd] in IH;
    cbn zeta in IH |- *; setoid_rewrite elem_of_cons;
    destruct IH as [(-> & -> & IH)|(item & -> & [Hin Hn] & Hv & Hb & IH)].
  - right. exists i. split; [done|]. split; [by auto|]. split; [done|]. split; [done|].
    intros other [[->|Ho] Hon]; [lia|]. apply Z.lt_le_incl. by apply IH.
  - right. exists item. split; [done|]. split; [by auto|]. split; [done|]. split; [lia|].
    intros other [[->|Ho] Hon]; [lia|by apply IH].
  - left. split; [done|]. split; [done|]. intros other [[->|Ho] Hon]; [done|by apply IH].
  - right. exists item. split; [done|]. split; [by auto|]. split; [done|]. split; [done|].
    intros other [[->|Ho] Hon]; [lia|by apply IH].
  - left. split; [done|]. split; [done|]. intros other [[->|Ho] Hon]; [congruence|by apply IH].
  - right. exists item. split; [done|]. split; [by auto|]. split; [done|]. split; [done|].
    intros other [[->|Ho] Hon]; [congruence|by apply IH].
Qed.

(** The workflow found by a name is one of the catalogue's items of that
    name, letter case aside, and none of that name has a greater version; there
    is none only when the name is blank, the catalogue is no list of objects or
    every item of that name has a negative version. *)
Theorem findWorkflowByName_latest payload name items :
  decode_maps payload = Ok items → blank name = false →
  match findWorkflowByName payload name with
  | Some found =>
      found ∈ items ∧ item_named (TrimSpace name) found = true ∧
      ∀ item, item ∈ items → item_named (TrimSpace name) item = true →
        (item_version item ≤ item_version found)%Z
  | None => ∀ item, item ∈ items → item_named (TrimSpace name) item = true →
        (item_version item < 0)%Z
  end.
Proof.
  intros Hd Hn. unfold findWorkflowByName. rewrite Hd. unfold blank in Hn. rewrite Hn.
  pose proof (select_version_fold (TrimSpace name) items (0%Z, None)) as H.
  destruct (fold_left _ items _) as [v found].
  destruct H as [(-> & -> & H)|(item & -> & [Hi Hin] & <- & _ & H)]; simpl; auto.
Qed.

Lemma findWorkflowByName_latest_witness :
  let item v := JObj [("name", JStr "Deploy"); ("version", JNum v)] in
  let payload := JArr [item "1"; item "3"; item "2"] in
  let items := match decode_maps payload with Ok l => l | Err _ => [] end in
  item_version <$> findWorkflowByName payload " deploy " = Some 3%Z ∧
  match findWorkflowByName payload " deploy " with
  | Some found => ∀ item, item ∈ items → item_named (TrimSpace " deploy ") item = true →
      (item_version item ≤ item_version found)%Z
  | None => True
  end.
Proof.
  intros item payload items. split; [by vm_compute|].
  pose proof (findWorkflowByName_latest payload " deploy " items eq_refl eq_refl) as H.
  destruct (findWorkflowByName payload " deploy "); [|done]. apply H.
Defined.

(** *** Listing *)

Section reads.
Context {S : Type} `{!GatewayDB S} `{!LibraryDB S}.
Variable sv : Server.
Variable cc : call_ctx.

(** Items of the tenant, and of none. *)
Definition visible_to (tenant : string) (m : gmap string any) : Prop :=
  tenantFromMap m = tenant ∨ tenantFromMap m = "".

Definition shows_workflows (tenant : string) (r : Response) : Prop :=
  refused r ∨
  (∃ payload items limit offset total, Forall (visible_to tenant) items ∧
     r = paginatedResponse (items_json payload items) limit offset total) ∨
  r = ok_json (AMap (amap [("workflows",
        ASlice "WorkflowTemplate" (map template_any workflowCatalog))])).

Lemma filter_visible payload tenant filtered :
  filterJSONByTenant (doc_json payload) (TrimSpace tenant) true = Ok filtered →
  ∃ items, filtered = items_json payload items ∧ Forall (visible_to (TrimSpace tenant)) items.
Proof.
  unfold filterJSONByTenant. cbn [unmarshal mbind result_bind].
  destruct (decode_maps payload) as [items|]; [|done]. cbn.
  assert (Hf : Forall (visible_to (TrimSpace tenant)) (filterItemsByTenant items (TrimSpace tenant) true)).
  { apply List.Forall_forall. intros m [_ Hm]%filter_In. apply tenantMatch_true in Hm.
    rewrite TrimSpace_idemp, tenantFromMap_trimmed in Hm. unfold visible_to. naive_solver. }
  destruct payload; cbn; intros H; try (by exists []; injection H as <-);
    (exists (filterItemsByTenant items (TrimSpace tenant) true); split; [|done];
     unfold items_json; by rewrite H).
Qed.

Let anything (s : S) : unit := tt.
#[local] Instance catalogue_frame : ReadFrame anything.
Proof. split; intros; red; repeat case_match; done. Qed.

(** The catalogue a tenant lists is a page of stored workflows that are its
    own or nobody's, or the built-in one, whatever the database holds. *)
Theorem handleWorkflows_visible w :
  shows_workflows (header cc "X-Tenant-Id") (run_handler (handleWorkflows sv cc) w).1.
Proof.
  enough (H : wp (handleWorkflows sv cc) (λ r _, shows_workflows (header cc "X-Tenant-Id") r)
    (λ r _, shows_workflows (header cc "X-Tenant-Id") r) w) by (by rewrite wp_run in H).
  assert (Href : ∀ msg status, (400 ≤ status)%Z →
    shows_workflows (header cc "X-Tenant-Id") (http_error msg status)) by (intros; by left).
  apply wp_bind, wp_return_if. split; intros _; [by left|].
  apply wp_bind, (wp_require_tenant cc); [intros _|by apply Href].
  apply wp_bind, (wp_tenant_read anything); [intros w1 _|intros; by apply Href].
  destruct (parsePagination _) as [limit offset].
  assert (Hpage : ∀ page w', wp (match page with
    | Some (payload, total) =>
        filtered ← or_error (filterJSONByTenant (doc_json payload) (header cc "X-Tenant-Id") true)
                     "encode error" 500;
        mret (paginatedResponse filtered limit offset total)
    | None => mret (ok_json (AMap (amap [("workflows",
        ASlice "WorkflowTemplate" (map template_any workflowCatalog))])))
    end) (λ r _, shows_workflows (header cc "X-Tenant-Id") r)
    (λ r (_ : gateway S), shows_workflows (header cc "X-Tenant-Id") r) w').
  { intros [[payload total]|] w'; [|apply wp_ret; by right; right].
    apply wp_bind, wp_or_error; [intros filtered Hf|by apply Href].
    apply wp_ret. right. left. destruct (filter_visible _ _ _ Hf) as (items & -> & Hi).
    by exists payload, items, limit, offset, total. }
  unfold stored_catalog. destruct (sv_DB sv); [|apply wp_bind, wp_ret; exact (Hpage None w1)].
  apply wp_bind, wp_bind, wp_on_db, wp_ret. apply Hpage.
Qed.
End reads.

(** *** Starting a workflow *)

Section start.
Variable clock : nat → Z.
Variable fault : nat → option string.
Variable jsonb : json → json.
Variable pick : list approval_row → option approval_row.
Variable time_text : Z → string.
Variable time_parse : string → result Z.
Variable sv : Server.
Variable cc : call_ctx.

#[local] Instance start_db : GatewayDB store :=
  store_db clock fault jsonb pick time_text time_parse.
#[local] Existing Instance store_exec_view.

Notation execs w := (exec_triples (tabs (g_db w))).

Lemma executions_frame : WriteFrame executions_of.
Proof. apply store_executions. Qed.
#[local] Existing Instance executions_frame.
#[local] Instance executions_create : CreateFrame executions_of.
Proof.
  split; [apply _|intros; apply frame_CreatePlan|intros; apply frame_CreateApproval].
Qed.

(** What a workflow that is executed has passed. *)
Definition start_gate (name : string) : Prop :=
  ∃ template req time dec summary steps,
    findWorkflowTemplate name = Some template ∧ template_risk template = "low" ∧
    sv_AutoApproveLow sv = true ∧
    (j ← unmarshal (Body (cc_req cc)); decode_start_request j) = Ok req ∧
    validateContextRefStrict (ws_Context req) = Ok tt ∧
    buildWorkflowPlan name (default ∅ (ws_Input req)) = Ok (summary, steps) ∧
    policyDecision (sv_Policy sv)
      (mkPolicyEnv (cc_actor cc) (Header (cc_req cc) "X-Break-Glass") time)
      "plan.create" "write" (ws_Context req) "low" 0 = Ok dec ∧
    (Decision_ dec = "allow" ∨ Decision_ dec = "require_approval").

Definition start_outcome (name : string) (w w' : gateway store) : Prop :=
  execs w' = execs w ∨
  ∃ execID planID, execs w' = execs w ++ [(execID, planID, "pending")] ∧ start_gate name.

(** Every way out that has created no execution. *)
Lemma same_outcome name w w' : same executions_of w w' → start_outcome name w w'.
Proof. intros H. left. exact (f_equal (map exec_triple) H). Qed.

Lemma template_not_read name t :
  findWorkflowTemplate name = Some t → template_risk t ≠ "read".
Proof.
  intros [Hin _]%find_some. simpl in Hin.
  repeat (destruct Hin as [<-|Hin]; [by vm_compute|]). done.
Qed.

Lemma wp_execute_workflow name planID risk ctx steps F w0 w :
  same executions_of w0 w →
  (risk = "low" → sv_AutoApproveLow sv = true → start_gate name) →
  (∀ r w', start_outcome name w0 w' → F r w') →
  wp (execute_workflow sv planID "write" risk ctx steps) (λ _ w', start_outcome name w0 w') F w.
Proof.
  intros Hw Hgate HF. unfold execute_workflow.
  destruct (negb _ || _) eqn:E; [|by apply wp_ret, same_outcome].
  simpl in E. bool_hyps. specialize (Hgate H H0).
  apply wp_bind, (wp_idle executions_of); [intros w1 Hw1 _|].
  2: { intros r w1 Hw1 _. apply HF, same_outcome. by etrans. }
  apply wp_bind, wp_on_db. set (w2 := with_db _ w1).
  pose proof (exec_create (view := core_of) planID (g_db w1)) as Hc.
  change (execs w1) with (map exec_triple (executions_of (g_db w1))) in *.
  cbn [db_CreateExecution start_db store_db] in Hc, w2 |- *.
  destruct (CreateExecution clock fault planID (g_db w1)) as [r s'] eqn:Ec.
  assert (Hold : execs w1 = execs w0).
  { apply (f_equal (map exec_triple)). transitivity (executions_of (g_db w)); [exact Hw1|exact Hw]. }
  apply wp_bind, wp_or_error.
  - intros id Hid. simpl in Hid. subst r.
    assert (Hex : execs w2 = execs w0 ++ [(id, planID, "pending")]) by (rewrite <- Hold; exact Hc).
    apply wp_bind, (wp_start core_of exec_triples). intros w3 Hw3. apply wp_ret. right.
    exists id, planID. split; [|done]. rewrite <- Hex. exact Hw3.
  - apply HF. destruct r as [id|e]; [|left; rewrite <- Hold; exact Hc].
    right. exists id, planID. split; [|done]. rewrite <- Hold. exact Hc.
Qed.

(** Approving the plan of a workflow makes no execution. *)
Lemma wp_approve_workflow name planID risk dec w0 w Q :
  same executions_of w0 w → (∀ w', same executions_of w0 w' → Q tt w') →
  wp (approve_workflow sv cc planID risk dec) Q (λ _ w', start_outcome name w0 w') w.
Proof.
  intros Hw HQ. unfold approve_workflow. destruct (_ && _).
  - apply wp_bind, (wp_view_createApproval executions_of). intros r w4 Hw4.
    assert (same executions_of w0 w4) by (by etrans).
    apply wp_bind, wp_or_error; [intros ap _|by apply same_outcome].
    apply wp_bind, (wp_on_db_read executions_of); [apply frame_UpdateApproval|].
    intros r5 w5 Hw5 _. assert (same executions_of w0 w5) by (by etrans).
    apply wp_bind, wp_or_error; [intros [] _|by apply same_outcome].
    apply (wp_audit executions_of). intros w6 Hw6. apply HQ. by etrans.
  - apply wp_bind, (wp_view_createApproval executions_of). intros r w4 Hw4.
    assert (same executions_of w0 w4) by (by etrans).
    apply wp_bind, wp_or_error; [intros ap _|by apply same_outcome]. by apply wp_ret, HQ.
Qed.

(** C36: over the SQL store, starting a workflow creates no execution, or exactly
    one, pending: then the workflow is a built-in one of low risk, automatic
    approval is on, the request's context is complete, the workflow's plan could
    be built, and the policy allowed it or asked for an approval.  The workflows
    of medium and high risk are never executed by starting them. *)
Theorem startWorkflow_executes name w :
  start_outcome name w (run_handler (startWorkflow sv cc name) w).2.
Proof.
  enough (H : wp (startWorkflow sv cc name) (λ _ w', start_outcome name w w')
    (λ _ w', start_outcome name w w') w) by (by rewrite wp_run in H).
  assert (Hs : ∀ r w', same executions_of w w' → (λ (_ : Response) w', start_outcome name w w') r w')
    by (intros; by apply same_outcome).
  apply wp_bind, wp_has_db; [intros _|by left].
  apply wp_bind, wp_or_return; split; [intros template Ht|intros e _; apply wp_return; by left].
  apply of_option_Ok in Ht.
  apply wp_bind, wp_or_error; [intros req Hreq|by left].
  apply wp_bind, (wp_or_deny executions_of); [intros [] Hctx|intros w9 Hw9; by apply same_outcome].
  apply wp_bind, wp_or_return; split; [intros [summary steps] Hplan|intros e _; apply wp_return; by left].
  cbv zeta. rewrite (proj2 (String.eqb_neq _ _) (template_not_read _ _ Ht)).
  apply wp_bind, (wp_policy executions_of). intros time w1 Hw1.
  apply wp_bind, (wp_or_deny executions_of); [intros dec Hdec|].
  2: { intros w2 Hw2. apply same_outcome. by etrans. }
  apply wp_bind, (wp_admit executions_of); [intros Hadm|].
  2: { intros w2 Hw2. apply same_outcome. by etrans. }
  assert (Hgate : template_risk template = "low" → sv_AutoApproveLow sv = true → start_gate name).
  { intros Hl Ha. exists template, req, time, dec, summary, steps. rewrite Hl in Hdec.
    destruct Hadm as [?|[? _]]; auto 10. }
  apply wp_bind, wp_return_if; split; intros _; [by apply same_outcome|].
  apply wp_bind, wp_now. intros w2 Hw2.
  assert (Hw02 : same executions_of w w2) by (unfold same; rewrite Hw2; exact Hw1).
  apply wp_bind, wp_or_error; [intros payload _|by apply same_outcome].
  apply wp_bind, (wp_on_db_read executions_of); [apply frame_CreatePlan|]. intros id w3 Hw3 _.
  assert (Hw03 : same executions_of w w3) by (by etrans).
  apply wp_bind, wp_or_error; [intros planID _|by apply same_outcome].
  apply wp_bind, (wp_approve_workflow name _ _ _ w w3 _ Hw03). intros w4 Hw4.
  apply wp_bind. eapply wp_mono;
    [apply (wp_execute_workflow name planID (template_risk template) (ws_Context req) steps
       (λ _ w', start_outcome name w w') w w4 Hw4 Hgate); auto|cbn beta|auto].
  intros execID w5 Hw5. apply wp_bind, (wp_audit executions_of). intros w6 Hw6. apply wp_ret.
  assert (execs w6 = execs w5) as He by exact (f_equal (map exec_triple) Hw6).
  destruct Hw5 as [H|(x & p & H & Hg)]; [left|right; exists x, p; split; [|done]]; by rewrite He.
Qed.
End start.

(** *** Runs *)

#[local] Existing Instance demo_db.

Definition auto_server (policy : Checker) : Server :=
  mkServer_ true (Some policy) None (Some (λ _ _ _, Ok "wf-1")) None None None None
    true false false [] tick_clock demo_time (λ _, None).

Definition start_request (name : string) : call_ctx :=
  demo_request "POST" ("/v1/workflows/" +:+ name +:+ "/start") (doc_json (JObj
    [("context", demo_context); ("input", JObj [("resource", JStr "deployment/web");
                                               ("replicas", JNum "3")])])).

(** The policy asks for an approval, which is created and pending; with automatic
    approval of low risk on, the workflow is executed all the same: whether to
    execute looks at the risk and the setting only. *)
Theorem start_runs_unapproved :
  let '(r, w) := run_handler (startWorkflow (auto_server (answer "require_approval"))
                   (start_request "scale_service") "scale_service") gateway0 in
  Status r = 200%Z ∧
  map a_status (approvals (tabs (g_db w))) = ["pending"] ∧
  map x_status (executions (tabs (g_db w))) = ["pending"] ∧
  existsb (λ e, match e with Started _ _ _ _ => true | _ => false end) (g_out w) = true.
Proof. vm_compute. auto. Qed.

(** Creating a version from a null body panics, once the policy has allowed it. *)
Theorem null_version_panics :
  let cc := mkCall_ (mkReq "POST" "/v1/workflows/x/version" (λ _, "")
              (λ h, if h =? "X-Tenant-Id" then "acme" else "") (doc_json JNull)) None in
  (run_handler (@handleWorkflowByID store demo_db demo_library
     (demo_server (Some allow_all) None) cc) gateway0).1 = panicked.
Proof. vm_compute. reflexivity. Qed.
