(* ===== verification/Workflows.v ===== *)
(** * Workflows: running plans and catalogue workflows

    The two ways internal/workflows runs steps beside the polling executor:
    the Temporal workflows of temporal_workflow.go and temporal_catalog.go with
    the activities of temporal_activities.go, started by TemporalStarter
    (starter.go); and the direct workflows of workflows.go with the activities of
    activities.go, behind RequireApproval (approvals.go, approval_check.go).

    Temporal itself is a parameter: it runs an activity until it succeeds, at most
    [MaximumAttempts] times, and may lose the outcome of an attempt that did run
    (a timeout, a worker that stops). *)

From S2P Require Import Prelude GoStrings Json ContextRef Steps ToolValidate Executor Templates.

Local Open Scope string_scope.
Local Open Scope list_scope.

(** ** Inputs *)

Record DeployInput := mkDeploy {
  di_PlanID : string; di_Service : string; ArgoCDApp : string; di_Context : ContextRef;
  Revision : string; di_Strategy : string }.
Record HelmInput := mkHelm {
  he_PlanID : string; Release : string; Chart : string; Version : string; ValuesRef : any;
  he_Namespace : string; he_Context : ContextRef; he_Strategy : string }.
Record ScaleInput := mkScale {
  sc_PlanID : string; sc_Service : string; sc_Context : ContextRef; Replicas : Z; MaxDelta : Z }.
Record IncidentInput := mkIncident {
  in_PlanID : string; AlertID : string; in_Service : string; in_Context : ContextRef }.
Record SecretRotationInput := mkRotation {
  ro_PlanID : string; SecretPath : string; ro_Context : ContextRef; Target : string }.

(** A catalogue workflow and its input. *)
Inductive catalogue :=
| GitOpsDeploy (i : DeployInput)
| HelmRelease (i : HelmInput)
| ScaleService (i : ScaleInput)
| IncidentRemediation (i : IncidentInput)
| SecretRotation (i : SecretRotationInput).

Definition catalogue_plan (c : catalogue) : string :=
  match c with
  | GitOpsDeploy i => di_PlanID i | HelmRelease i => he_PlanID i | ScaleService i => sc_PlanID i
  | IncidentRemediation i => in_PlanID i | SecretRotation i => ro_PlanID i
  end.

(** ** Approval *)

(** DBReader, and the CreateExecution the activities look for on their store; a
    store may implement neither. *)
Class WorkflowStore (S : Type) := {
  ws_GetApprovalStatus : option (string → S → result string * S);
  ws_CreateExecution : option (string → S → result string * S) }.

Definition ErrApprovalRequired : string := "approval required".

Section approval.
Context {S : Type} `{!WorkflowStore S}.

(** CheckApproval; RequireApproval is the same test. *)
Definition CheckApproval (planID : string) (s : S) : result unit * S :=
  match ws_GetApprovalStatus with
  | None => (Err ErrApprovalRequired, s)
  | Some status =>
      match status planID s with
      | (Ok st, s') => (check (st =? "approved") ErrApprovalRequired, s')
      | (Err _, s') => (Err ErrApprovalRequired, s')
      end
  end.

Definition approved (planID : string) (s : S) : Prop :=
  match ws_GetApprovalStatus with Some f => (f planID s).1 = Ok "approved" | None => False end.

Lemma CheckApproval_ok planID s : (CheckApproval planID s).1 = Ok tt ↔ approved planID s.
Proof.
  unfold CheckApproval, approved. destruct ws_GetApprovalStatus as [f|]; [|done].
  destruct (f planID s) as [[st|m] s']; simpl; [|done]. rewrite check_Ok, String.eqb_eq.
  naive_solver.
Qed.
End approval.

(** ** Temporal *)

Inductive activity :=
| ACheckApproval (planID : string)
| ACreateExecution (planID : string)
| AUpdateStatus (execID status : string)
| ACompleteExecution (execID status : string)
| AExecuteStep (execID : string) (step : PlanStep) (ref : ContextRef)
| ARollbackStep (execID : string) (step : PlanStep) (ref : ContextRef).

(** An activity that ended: how often it was tried, and what the workflow is told. *)
Record ended := mkEnded { h_activity : activity; h_attempts : nat; h_ok : bool }.

Record tworld (S W : Type) := mkT { t_x : xworld S W; t_tries : nat; t_history : list ended }.
Arguments mkT {S W}.
Arguments t_x {S W}.
Arguments t_tries {S W}.
Arguments t_history {S W}.

Definition MaximumAttempts : nat := 5.

Record Activities := mkActivities {
  act_Store : bool;                    (* a.Store != nil *)
  act_executor : Executor }.           (* a.executor() *)

Record PlanExecutionInput := mkInput {
  in_Plan : string; in_Execution : string; in_Ref : ContextRef; in_Steps : list PlanStep }.

Section temporal.
Context {S W : Type} `{!ExecutionStore S} `{!WorkflowStore S} `{!ToolRunner W}.
Variable acts : Activities.
(** Whether the outcome of the n-th attempt is lost. *)
Variable lost : nat → bool.
Notation world := (tworld S W).
Notation xw := (xworld S W).

(** *** Activities *)

Definition unit_text (r : result unit) : result string := _ ← r; Ok "".

Definition run_activity (a : activity) : handler xw (result string) (result string) :=
  let e := act_executor acts in
  let needs_store m (k : handler xw (result string) (result string)) :=
    if act_Store acts then k else mret (Err m) in
  let of_step (m : handler xw (result unit) (result unit)) :=
    if act_Store acts && ex_Runtime e then r ← call (run_handler m); mret (unit_text r)
    else mret (Err "runtime required") in
  match a with
  | ACheckApproval planID =>
      needs_store ErrApprovalRequired
        (r ← on_store (CheckApproval planID); mret (unit_text r))
  | ACreateExecution planID =>
      needs_store "store required"
        (match ws_CreateExecution with
         | Some create => on_store (create planID)
         | None => mret (Err "create execution unsupported")
         end)
  | AUpdateStatus execID status =>
      needs_store "store required" (r ← set_status execID status; mret (unit_text r))
  | ACompleteExecution execID status =>
      needs_store "store required" (r ← complete execID status; mret (unit_text r))
  | AExecuteStep execID step ref => of_step (executeStep e execID step ref)
  | ARollbackStep execID step ref => of_step (tryRollback e execID step ref)
  end.

(** *** Attempts *)

(** An attempt, and what is known of it. *)
Definition try_activity (a : activity) (w : world) : result string * world :=
  let '(r, x) := run_handler (run_activity a) (t_x w) in
  (if lost (t_tries w) then Err "activity timeout" else r,
   mkT x (Datatypes.S (t_tries w)) (t_history w)).

(** Up to [n + 1] attempts, the first that is known to succeed being the last; the
    number made. *)
Fixpoint retry (n : nat) (a : activity) (w : world) : result string * nat * world :=
  match try_activity a w, n with
  | (Ok v, w'), _ => (Ok v, 1%nat, w')
  | (Err m, w'), O => (Err m, 1%nat, w')
  | (Err _, w'), Datatypes.S n' =>
      let '(r, k, w'') := retry n' a w' in (r, Datatypes.S k, w'')
  end.

(** workflow.ExecuteActivity(ctx, ...).Get under the workflows' retry policy. *)
Definition ExecuteActivity {R} (a : activity) : handler world R (result string) :=
  call (λ w, let '(r, k, w') := retry (MaximumAttempts - 1) a w in
             (r, mkT (t_x w') (t_tries w') (t_history w' ++ [mkEnded a k (is_ok r)]))).

(** *** Workflows *)

Notation body := (handler world (result unit) (result unit)).
Definition fail_workflow {A} (m : string) : handler world (result unit) A := return_ (Err m).

(** The steps in order; after one that fails, [undo] and a failed execution. *)
Fixpoint step_activities (execID : string) (steps : list PlanStep) (ref : ContextRef)
    (undo : PlanStep → handler world (result unit) unit) : handler world (result unit) unit :=
  match steps with
  | [] => mret tt
  | step :: rest =>
      r ← ExecuteActivity (AExecuteStep execID step ref);
      _ ← or_return r (λ m,
        _ ← undo step;
        _ ← ExecuteActivity (ACompleteExecution execID "failed");
        fail_workflow m);
      step_activities execID rest ref undo
  end.

Fixpoint rollback_activities (execID : string) (steps : list PlanStep) (ref : ContextRef) :
    handler world (result unit) unit :=
  match steps with
  | [] => mret tt
  | step :: rest =>
      _ ← ExecuteActivity (ARollbackStep execID step ref); rollback_activities execID rest ref
  end.

(** What both workflows do once the execution exists. *)
Definition run_plan (execID : string) (ref : ContextRef) (steps : list PlanStep) : body :=
  r ← ExecuteActivity (AUpdateStatus execID "running");
  _ ← or_return r fail_workflow;
  let '(act, verify) := splitStepsByStage steps in
  _ ← step_activities execID act ref
        (λ step, _ ← ExecuteActivity (ARollbackStep execID step ref); mret tt);
  _ ← step_activities execID verify ref (λ _, rollback_activities execID (rev act) ref);
  r ← ExecuteActivity (ACompleteExecution execID "succeeded");
  mret (_ ← r; Ok tt).

Definition PlanExecutionWorkflow (i : PlanExecutionInput) : body :=
  _ ← return_if (in_Execution i =? "") (Err "execution_id required");
  run_plan (in_Execution i) (in_Ref i) (in_Steps i).

Definition runWorkflowSteps (planID : string) (ref : ContextRef) (steps : list PlanStep) : body :=
  r ← ExecuteActivity (ACheckApproval planID);
  _ ← or_return r fail_workflow;
  r ← ExecuteActivity (ACreateExecution planID);
  execID ← or_return r fail_workflow;
  run_plan execID ref steps.

(** The template a catalogue workflow builds its steps from, its input and its
    context. *)
Definition catalogue_template (c : catalogue) : string * gmap string any * ContextRef :=
  match c with
  | GitOpsDeploy i =>
      ("gitops_deploy", amap [("service", AStr (di_Service i)); ("argocd_app", AStr (ArgoCDApp i));
                              ("revision", AStr (Revision i))], di_Context i)
  | HelmRelease i =>
      ("helm_release", amap [("release", AStr (Release i)); ("chart", AStr (Chart i));
                             ("values_ref", ValuesRef i); ("namespace", AStr (he_Namespace i));
                             ("strategy", AStr (he_Strategy i))], he_Context i)
  | ScaleService i =>
      ("scale_service", amap [("service", AStr (sc_Service i)); ("replicas", AInt (Replicas i))],
       sc_Context i)
  | IncidentRemediation i =>
      ("incident_remediation", amap [("alert_id", AStr (AlertID i)); ("service", AStr (in_Service i))],
       in_Context i)
  | SecretRotation i =>
      ("secret_rotation", amap [("secret_path", AStr (SecretPath i)); ("target", AStr (Target i))],
       ro_Context i)
  end.

(** GitOpsDeployWorkflowTemporal and the four others. *)
Definition catalogue_temporal (c : catalogue) : body :=
  let '(name, input, ref) := catalogue_template c in
  '(_, steps) ← or_return (BuildWorkflowSteps name input) fail_workflow;
  runWorkflowSteps (catalogue_plan c) ref steps.
End temporal.

(** *** Starting a plan's workflow *)

Definition convertPlanSteps (steps : list PlanStep) : list PlanStep :=
  map (λ s, mkStep (StepID s) (Stage s) (Action s) (Tool_ s) (Input s) (Preconditions s)
                   (Rollback s)) steps.

(** TemporalStarter.StartExecution: the workflow's id, task queue and input go to the
    client. *)
Definition StartExecution (client : option (string → string → PlanExecutionInput → result string))
    (taskQueue planID executionID : string) (ref : ContextRef) (steps : list PlanStep) :
    result string :=
  match client with
  | None => Err "temporal client required"
  | Some execute =>
      if executionID =? "" then Err "execution_id required"
      else execute ("exec-" +:+ executionID) taskQueue
             (mkInput planID executionID ref (convertPlanSteps steps))
  end.

(** ** Direct workflows *)

Section direct.
Context {S W : Type} `{!WorkflowStore S} `{!ToolRunner W}.
Notation world := (xworld S W).

Section activities.
Context {R : Type}.

(** Runtime.RunCLI, of a runtime that is given. *)
Definition RunCLI (tool action : string) (input : any) : handler world R (result string) :=
  let req := mkRequest tool action input "" "" empty_ref in
  out ← call (λ w, let '(r, rt) := run_router req (x_router w) in (r, mkX (x_db w) rt (x_log w)));
  _ ← log (ToolRun req (is_ok out));
  mret out.

Definition decodePayload (payload : any) : result any :=
  match payload with
  | ABytes s => if s =? "" then Ok ANil else j ← unmarshal (doc_of_text s); decode_any j
  | _ => Ok payload
  end.

(** activities.go's runTool *)
Definition run_payload (tool action : string) (payload : any) : handler world R (result string) :=
  match decodePayload payload with
  | Err m => mret (Err m)
  | Ok input => RunCLI tool action input
  end.

Definition only_error (m : handler world R (result string)) : handler world R (result unit) :=
  r ← m; mret (_ ← r; Ok tt).

Definition QueryPrometheusActivity query := run_payload "prometheus" "query" (obj [("query", AStr query)]).
Definition QueryTempoActivity query := run_payload "tempo" "query" (obj [("query", AStr query)]).
Definition ArgoSyncActivity app := only_error (RunCLI "argocd" "sync" (obj [("app", AStr app)])).
Definition ArgoSyncDryRunActivity app :=
  only_error (RunCLI "argocd" "sync-dry-run" (obj [("app", AStr app)])).
Definition ArgoSyncPreviewActivity app :=
  only_error (RunCLI "argocd" "sync-preview" (obj [("app", AStr app)])).
Definition ArgoWaitActivity app := only_error (RunCLI "argocd" "wait" (obj [("app", AStr app)])).
Definition ArgoRollbackActivity app revision :=
  only_error (RunCLI "argocd" "rollback"
    (obj (("app", AStr app) :: if revision =? "" then [] else [("revision", AStr revision)]))).
Definition HelmStatusActivity release := RunCLI "helm" "status" (obj [("release", AStr release)]).
Definition HelmUpgradeActivity release :=
  only_error (RunCLI "helm" "upgrade" (obj [("release", AStr release)])).
Definition HelmRollbackActivity release :=
  only_error (RunCLI "helm" "rollback" (obj [("release", AStr release)])).
Definition KubectlScaleActivity resource replicas :=
  only_error (RunCLI "kubectl" "scale" (obj [("resource", AStr resource); ("replicas", AInt replicas)])).
Definition KubectlRolloutStatusActivity resource :=
  only_error (RunCLI "kubectl" "rollout-status" (obj [("resource", AStr resource)])).
Definition CreateGrafanaAnnotationActivity payload :=
  only_error (run_payload "grafana" "annotate" (ABytes payload)).
Definition DeleteGrafanaDashboardActivity uid :=
  only_error (run_payload "grafana" "dashboard_delete" (obj [("uid", AStr uid)])).
Definition CreateLinearIssueActivity payload := run_payload "linear" "create" (ABytes payload).
Definition CreatePagerDutyIncidentActivity payload := run_payload "pagerduty" "create" (ABytes payload).
Definition CreateGitPullRequestActivity payload := run_payload "github" "pr" (ABytes payload).
Definition CreateGitLabMergeRequestActivity payload := run_payload "gitlab" "mr" (ABytes payload).
Definition PromRulesActivity := run_payload "prometheus" "rules" (obj []).
Definition PromQueryRangeActivity query start finish step :=
  run_payload "prometheus" "query_range" (obj [("query", AStr query); ("start", AStr start);
    ("end", AStr finish); ("step", AStr step)]).
Definition TempoTraceByIDActivity traceID :=
  run_payload "tempo" "trace_by_id" (obj [("trace_id", AStr traceID)]).
Definition VaultRenewActivity leaseID :=
  only_error (run_payload "vault" "renew" (obj [("lease_id", AStr leaseID)])).
Definition VaultRevokeActivity leaseID :=
  only_error (run_payload "vault" "revoke" (obj [("lease_id", AStr leaseID)])).
End activities.

Notation body := (handler world (result unit) (result unit)).
Notation failing := (handler world (result unit) unit).

Definition refuse {A} (m : string) : handler world (result unit) A := return_ (Err m).

(** [if err := m; err != nil { k; return err }] *)
Definition must_or (m : handler world (result unit) (result unit)) (k : failing) : failing :=
  r ← m; or_return r (λ e, _ ← k; refuse e).
Definition must (m : handler world (result unit) (result unit)) : failing := must_or m (mret tt).
(** [_ = m] *)
Definition ignoring {A} (m : handler world (result unit) A) : failing := _ ← m; mret tt.

Definition RequireApproval (planID : string) : failing := must (on_store (CheckApproval planID)).

Definition GitOpsDeployWorkflow (i : DeployInput) : body :=
  let rollback := if Revision i =? "" then mret tt
                  else ignoring (ArgoRollbackActivity (ArgoCDApp i) (Revision i)) in
  _ ← RequireApproval (di_PlanID i);
  _ ← must (ArgoSyncDryRunActivity (ArgoCDApp i));
  _ ← ignoring (ArgoSyncPreviewActivity (ArgoCDApp i));
  _ ← must_or (ArgoSyncActivity (ArgoCDApp i)) rollback;
  _ ← must_or (ArgoWaitActivity (ArgoCDApp i)) rollback;
  mret (Ok tt).

Definition HelmReleaseWorkflow (i : HelmInput) : body :=
  _ ← RequireApproval (he_PlanID i);
  if he_Strategy i =? "rollback" then HelmRollbackActivity (Release i)
  else
    _ ← must_or (HelmUpgradeActivity (Release i)) (ignoring (HelmRollbackActivity (Release i)));
    _ ← ignoring (HelmStatusActivity (Release i));
    mret (Ok tt).

Definition ScaleServiceWorkflow (i : ScaleInput) : body :=
  _ ← RequireApproval (sc_PlanID i);
  _ ← must (KubectlScaleActivity (sc_Service i) (Replicas i));
  KubectlRolloutStatusActivity (sc_Service i).

Definition IncidentRemediationWorkflow (i : IncidentInput) : body :=
  _ ← RequireApproval (in_PlanID i);
  _ ← ignoring PromRulesActivity;
  _ ← (if in_Service i =? "" then mret tt else ignoring (QueryPrometheusActivity "up"));
  mret (Ok tt).

Definition SecretRotationWorkflow (i : SecretRotationInput) : body :=
  _ ← RequireApproval (ro_PlanID i);
  if SecretPath i =? "" then mret (Ok tt)
  else
    _ ← ignoring (VaultRenewActivity (SecretPath i));
    _ ← ignoring (VaultRevokeActivity (SecretPath i));
    mret (Ok tt).

Definition catalogue_direct (c : catalogue) : body :=
  match c with
  | GitOpsDeploy i => GitOpsDeployWorkflow i
  | HelmRelease i => HelmReleaseWorkflow i
  | ScaleService i => ScaleServiceWorkflow i
  | IncidentRemediation i => IncidentRemediationWorkflow i
  | SecretRotation i => SecretRotationWorkflow i
  end.
End direct.

(** ** What the direct workflows run *)

Definition argo_run (app action : string) (more : list (string * any)) (ok : bool) : xevent :=
  ToolRun (mkRequest "argocd" action (obj (("app", AStr app) :: more)) "" "" empty_ref) ok.

(** The roll-back after a failed sync or wait: tried when a revision is known. *)
Definition argo_undo (i : DeployInput) (evs : list xevent) : Prop :=
  if Revision i =? "" then evs = []
  else ∃ ok, evs = [argo_run (ArgoCDApp i) "rollback" [("revision", AStr (Revision i))] ok].

(** The runs of an approved GitOps deployment, and whether it succeeds. *)
Inductive gitops_runs (i : DeployInput) : list xevent → bool → Prop :=
| dry_run_failed : gitops_runs i [argo_run (ArgoCDApp i) "sync-dry-run" [] false] false
| sync_failed preview undone :
    argo_undo i undone →
    gitops_runs i ([argo_run (ArgoCDApp i) "sync-dry-run" [] true;
                    argo_run (ArgoCDApp i) "sync-preview" [] preview;
                    argo_run (ArgoCDApp i) "sync" [] false] ++ undone) false
| wait_failed preview undone :
    argo_undo i undone →
    gitops_runs i ([argo_run (ArgoCDApp i) "sync-dry-run" [] true;
                    argo_run (ArgoCDApp i) "sync-preview" [] preview;
                    argo_run (ArgoCDApp i) "sync" [] true;
                    argo_run (ArgoCDApp i) "wait" [] false] ++ undone) false
| deployed preview :
    gitops_runs i [argo_run (ArgoCDApp i) "sync-dry-run" [] true;
                   argo_run (ArgoCDApp i) "sync-preview" [] preview;
                   argo_run (ArgoCDApp i) "sync" [] true;
                   argo_run (ArgoCDApp i) "wait" [] true] true.

Section direct_proof.
Context {S W : Type} `{!WorkflowStore S} `{!ToolRunner W}.
Notation world := (xworld S W).

Lemma wp_RunCLI {R} tool action input Q (F : R → world → Prop) w :
  (∀ r w', logged w w' [ToolRun (mkRequest tool action input "" "" empty_ref) (is_ok r)] → Q r w') →
  wp (RunCLI tool action input) Q F w.
Proof.
  intros HQ. apply wp_bind, wp_call. destruct (run_router _ (x_router w)) as [r rt]. simpl.
  apply wp_bind, wp_effect, wp_ret. by apply HQ.
Qed.

Lemma wp_only_error {R} (m : handler world R (result string)) Q F w :
  wp m (λ r, Q (_ ← r; Ok tt)) F w → wp (only_error m) Q F w.
Proof. intros H. by apply wp_bind. Qed.

Lemma wp_must_or (m : handler world (result unit) (result unit)) k Q F w :
  wp m (λ r w', (r = Ok tt → Q tt w') ∧ (∀ e, r = Err e → wp k (λ _, F (Err e)) F w')) F w →
  wp (must_or m k) Q F w.
Proof.
  intros H. apply wp_bind. eapply wp_mono; [exact H| |done]. simpl. intros r w' [Hok He].
  apply wp_or_return. split; [intros [] ->; auto|]. intros e ->.
  apply wp_bind. eapply wp_mono; [exact (He e eq_refl)| |done]. intros ? w'' HF. by apply wp_return.
Qed.

Lemma wp_ignoring {A} (m : handler world (result unit) A) Q F w :
  wp m (λ _, Q tt) F w → wp (ignoring m) Q F w.
Proof. intros H. apply wp_bind. by eapply wp_mono. Qed.

(** Behind the approval only the plan's approval matters; without it nothing ran. *)
Lemma wp_RequireApproval planID Q (F : result unit → world → Prop) w :
  (∀ w', approved planID (x_db w) → logged w w' [] → Q tt w') →
  (∀ w', logged w w' [] → F (Err ErrApprovalRequired) w') →
  wp (RequireApproval planID) Q F w.
Proof.
  intros HQ HF. apply wp_must_or. apply wp_call.
  destruct (CheckApproval planID (x_db w)) as [r s] eqn:Hc. simpl.
  split.
  - intros ->. apply HQ; [|by apply logged_nil]. apply CheckApproval_ok. by rewrite Hc.
  - intros e ->. apply wp_ret. replace e with ErrApprovalRequired; [by apply HF, logged_nil|].
    unfold CheckApproval in Hc. repeat case_match; simplify_eq; try done.
    unfold check in *. by case_match; simplify_eq.
Qed.

Definition stopped_or_approved (planID : string) (w : world) (r : result unit) (w' : world) : Prop :=
  approved planID (x_db w) ∨ r = Err ErrApprovalRequired ∧ x_log w' = x_log w.

Lemma wp_approval_first {A} planID (k : unit → handler world (result unit) A) w :
  wp (RequireApproval planID ≫= k) (λ _ _, approved planID (x_db w))
     (stopped_or_approved planID w) w.
Proof.
  apply wp_bind, wp_RequireApproval.
  - intros w' Ha _. apply wp_always; [done|]. by left.
  - intros w' Hl. right. split; [done|]. by rewrite Hl, app_nil_r.
Qed.

(** No catalogue workflow runs a tool for a plan whose approval status is not
    approved: it stops with the approval required, before its first tool. *)
Theorem direct_workflows_need_approval (c : catalogue) (w : world) :
  let '(r, w') := run_handler (catalogue_direct c) w in
  stopped_or_approved (catalogue_plan c) w r w'.
Proof.
  enough (H : let Q := stopped_or_approved (catalogue_plan c) w in wp (catalogue_direct c) Q Q w).
  { apply wp_run in H. by destruct (run_handler _ w). }
  destruct c; (eapply wp_mono; [apply wp_approval_first| |done]); intros r w' Ha; by left.
Qed.

Lemma wp_argo {R} app action more Q (F : R → world → Prop) w :
  (∀ r w', logged w w' [argo_run app action more (is_ok r)] → Q r w') →
  wp (only_error (RunCLI "argocd" action (obj (("app", AStr app) :: more)))) Q F w.
Proof.
  intros HQ. apply wp_only_error, wp_RunCLI. intros r w' Hl. apply HQ. by destruct r.
Qed.

Lemma wp_argo_undo i (Q : unit → world → Prop) F w :
  (∀ w' evs, logged w w' evs → argo_undo i evs → Q tt w') →
  wp (if Revision i =? "" then mret tt
      else ignoring (ArgoRollbackActivity (ArgoCDApp i) (Revision i))) Q F w.
Proof.
  intros HQ. unfold argo_undo, ArgoRollbackActivity in *.
  destruct (Revision i =? ""); [by apply wp_ret, (HQ w []), eq_refl; apply logged_nil|].
  apply wp_ignoring, wp_argo. intros r w' Hl. eapply HQ; [exact Hl|]. by eexists.
Qed.

(** An approved GitOps deployment syncs only after a successful dry run, waits
    only after a successful sync, and when the sync or the wait fails it rolls back
    once, to the revision, when one is known; it succeeds exactly when the wait
    does. *)
Theorem gitops_order (i : DeployInput) (w : world) :
  let '(r, w') := run_handler (GitOpsDeployWorkflow i) w in
  r = Err ErrApprovalRequired ∧ logged w w' [] ∨
  approved (di_PlanID i) (x_db w) ∧
  ∃ evs, logged w w' evs ∧ gitops_runs i evs (is_ok r).
Proof.
  set (Q := λ (r : result unit) w', r = Err ErrApprovalRequired ∧ logged w w' [] ∨
    approved (di_PlanID i) (x_db w) ∧ ∃ evs, logged w w' evs ∧ gitops_runs i evs (is_ok r)).
  enough (H : wp (GitOpsDeployWorkflow i) Q Q w).
  { apply wp_run in H. by destruct (run_handler _ w). }
  unfold GitOpsDeployWorkflow. apply wp_bind, wp_RequireApproval; [|by left].
  intros w0 Ha Hl0.
  assert (HQ : ∀ r w' evs, logged w0 w' evs → gitops_runs i evs (is_ok r) → Q r w').
  { intros r w' evs Hl Hr. right. split; [done|]. exists evs. split; [|done].
    by apply (logged_trans _ _ _ [] evs Hl0). }
  apply wp_bind, wp_must_or, wp_argo. intros dry w1 Hl1. split.
  2: { intros e ->. apply wp_ret. eapply HQ; [exact Hl1|constructor]. }
  intros ->. apply wp_bind, wp_ignoring, wp_argo. intros preview w2 Hl2.
  apply wp_bind, wp_must_or, wp_argo. intros sync w3 Hl3.
  assert (H3 := logged_trans _ _ _ _ _ (logged_trans _ _ _ _ _ Hl1 Hl2) Hl3). split.
  2: { intros e ->. apply wp_argo_undo. intros w4 evs Hl4 Hu.
       eapply HQ; [by eapply logged_trans|]. by apply sync_failed. }
  intros ->. apply wp_bind, wp_must_or, wp_argo. intros wait w4 Hl4.
  assert (H4 := logged_trans _ _ _ _ _ H3 Hl4). split.
  2: { intros e ->. apply wp_argo_undo. intros w5 evs Hl5 Hu.
       eapply HQ; [by eapply logged_trans|]. by apply wait_failed. }
  intros ->. apply wp_ret. eapply HQ; [exact H4|constructor].
Qed.
End direct_proof.

(** ** What the Temporal workflows do *)

(** What one attempt at an activity, with this outcome, adds to the log. *)
Definition attempt_events (a : activity) (ok : bool) (evs : list xevent) : Prop :=
  match a with
  | ACheckApproval _ | ACreateExecution _ => evs = []
  | AUpdateStatus id st => ok = false ∧ evs = [] ∨ evs = [SetStatus id st]
  | ACompleteExecution id st => ok = false ∧ evs = [] ∨ evs = [Completed id st]
  | AExecuteStep id s ref => attempt_runs id ref (Do s ok) evs
  | ARollbackStep id s ref => attempt_runs id ref (Undo s ok) evs
  end.

(** The attempts at an activity that ends with [ok]: the last did succeed when it is
    known to; the others failed, or their outcome was lost. *)
Inductive tries (a : activity) (ok : bool) : nat → list xevent → Prop :=
| last_try did evs : attempt_events a did evs → (ok = true → did = true) → tries a ok 1 evs
| tried_again did n evs evs' :
    attempt_events a did evs → tries a ok n evs' → tries a ok (Datatypes.S n) (evs ++ evs').

Inductive history_log : list ended → list xevent → Prop :=
| history_nil : history_log [] []
| history_cons h hist evs evs' :
    (1 ≤ h_attempts h ≤ MaximumAttempts)%nat → tries (h_activity h) (h_ok h) (h_attempts h) evs →
    history_log hist evs' → history_log (h :: hist) (evs ++ evs').

Definition outline (hist : list ended) : list (activity * bool) :=
  map (λ h, (h_activity h, h_ok h)) hist.

(** The activity of an attempt of the saga. *)
Definition saga_activity (execID : string) (ref : ContextRef) (a : attempt) : activity * bool :=
  match a with
  | Do s ok => (AExecuteStep execID s ref, ok)
  | Undo s ok => (ARollbackStep execID s ref, ok)
  end.

(** The activities of an execution: none but the first status, or a saga of the
    steps and a final status, which is failed even when everything was rolled
    back. *)
Inductive execution_outline (execID : string) (ref : ContextRef) (steps : list PlanStep) :
    bool → list (activity * bool) → Prop :=
| not_running :
    execution_outline execID ref steps false [(AUpdateStatus execID "running", false)]
| ran_saga l st recorded :
    saga (splitStepsByStage steps).1 (splitStepsByStage steps).2 l st →
    execution_outline execID ref steps ((st =? "succeeded") && recorded)
      ((AUpdateStatus execID "running", true) :: map (saga_activity execID ref) l ++
       [(ACompleteExecution execID (if st =? "succeeded" then "succeeded" else "failed"), recorded)]).

(** The activities of a catalogue workflow: the approval, the execution's row, then
    the execution. *)
Inductive catalogue_outline (planID : string) (ref : ContextRef) (steps : list PlanStep) :
    bool → list (activity * bool) → Prop :=
| not_approved : catalogue_outline planID ref steps false [(ACheckApproval planID, false)]
| not_created :
    catalogue_outline planID ref steps false
      [(ACheckApproval planID, true); (ACreateExecution planID, false)]
| created_and_ran execID ok l :
    execution_outline execID ref steps ok l →
    catalogue_outline planID ref steps ok
      ((ACheckApproval planID, true) :: (ACreateExecution planID, true) :: l).

Section temporal_proof.
Context {S W : Type} `{!ExecutionStore S} `{!WorkflowStore S} `{!ToolRunner W}.
Variable acts : Activities.
Variable lost : nat → bool.
Notation world := (tworld S W).
Notation xw := (xworld S W).

Definition did (w w' : world) (l : list (activity * bool)) : Prop :=
  ∃ hist evs, t_history w' = t_history w ++ hist ∧ outline hist = l ∧
    logged (t_x w) (t_x w') evs ∧ history_log hist evs.

Lemma did_nil w : did w w [].
Proof.
  exists [], []. rewrite app_nil_r. split_and!; [done|done|by apply logged_nil|constructor].
Qed.

Lemma history_log_app h h' evs evs' :
  history_log h evs → history_log h' evs' → history_log (h ++ h') (evs ++ evs').
Proof.
  induction 1 as [|h0 h e1 e2 ?? _ IH]; intros H'; simpl; [done|].
  rewrite <- (assoc_L (++)). constructor; [done|done|by apply IH].
Qed.

Lemma did_trans w w1 w2 l l' : did w w1 l → did w1 w2 l' → did w w2 (l ++ l').
Proof.
  intros (h & e & Hh & <- & He & Hl) (h' & e' & Hh' & <- & He' & Hl').
  exists (h ++ h'), (e ++ e'). split_and!.
  - by rewrite Hh', Hh, (assoc_L (++)).
  - unfold outline. by rewrite map_app.
  - by eapply logged_trans.
  - by apply history_log_app.
Qed.

(** What an activity known to have succeeded says. *)
Definition says (a : activity) : Prop :=
  match a with ACheckApproval p => ∃ s, approved p s | _ => True end.

Lemma no_events a : attempt_events a false [].
Proof. destruct a; simpl; auto; constructor. Qed.

Lemma runs_single execID ref a evs : runs execID ref [a] evs → attempt_runs execID ref a evs.
Proof. inversion 1 as [|? ? ? ? Ha Hn]; subst. inversion Hn. by rewrite app_nil_r. Qed.

Lemma is_ok_unit_text r : is_ok (unit_text r) = is_ok r.
Proof. by destruct r. Qed.

Definition attempted (x : xw) (a : activity) (r : result string) (x' : xw) : Prop :=
  ∃ evs, logged x x' evs ∧ attempt_events a (is_ok r) evs ∧ (is_ok r = true → says a).

Lemma wp_step_attempt a execID ref (m : handler xw (result unit) (result unit)) att x :
  does execID ref m (λ l ok, l = [att ok]) →
  (∀ ok evs, attempt_runs execID ref (att ok) evs → attempt_events a ok evs) → says a →
  let Q := attempted x a in
  wp (if act_Store acts && ex_Runtime (act_executor acts)
      then r ← call (run_handler m); mret (unit_text r) else mret (Err "runtime required")) Q Q x.
Proof.
  intros Hm Hr Hs Q. destruct (_ && _).
  - apply wp_bind, wp_call. destruct (Hm x) as (l & evs & H).
    destruct (run_handler m x) as [r x']. destruct H as (Hl & Hrun & ->). apply wp_ret.
    exists evs. rewrite is_ok_unit_text. auto using runs_single.
  - apply wp_ret. exists []. split; [by apply logged_nil|]. split; [apply no_events|done].
Qed.

Lemma activity_attempt a (x : xw) :
  let '(r, x') := run_handler (run_activity acts a) x in attempted x a r x'.
Proof.
  enough (H : wp (run_activity acts a) (attempted x a) (attempted x a) x).
  { apply wp_run in H. by destruct (run_handler _ x). }
  assert (Hearly : ∀ m, attempted x a (Err m) x).
  { intros m. exists []. split; [by apply logged_nil|]. split; [apply no_events|done]. }
  assert (Hlog : ∀ f ev, attempt_events a true [ev] → attempt_events a false [ev] → says a →
    wp (_ ← log ev; on_store f) (λ r x', attempted x a (unit_text r) x') (attempted x a) x).
  { intros f ev He He' Hs. apply wp_bind, wp_effect, wp_on_store. intros r x' Hx'.
    exists [ev]. rewrite is_ok_unit_text. split; [by unfold logged; rewrite Hx'|]. by destruct r. }
  destruct a as [p|p|id st|id st|id step ref|id step ref]; simpl;
    try match goal with |- wp (if act_Store acts then _ else _) _ _ _ => case_match; [|by apply wp_ret] end.
  - apply wp_bind, wp_call. destruct (CheckApproval p (x_db x)) as [r s] eqn:Hc. apply wp_ret.
    exists []. rewrite is_ok_unit_text. split; [by apply logged_nil|]. split; [done|].
    intros Hr. exists (x_db x). apply CheckApproval_ok. rewrite Hc. by destruct r as [[]|].
  - case_match; [|by apply wp_ret]. apply wp_on_store. intros r x' Hx'.
    exists []. split; [by apply logged_nil|]. done.
  - apply wp_bind. by apply Hlog; simpl; auto.
  - apply wp_bind. by apply Hlog; simpl; auto.
  - eapply (wp_step_attempt _ id ref _ (Do step)); [apply executeStep_does|done|done].
  - eapply (wp_step_attempt _ id ref _ (Undo step)); [apply tryRollback_does|done|done].
Qed.

Lemma retry_does n a w :
  let '(r, k, w') := retry acts lost n a w in
  t_history w' = t_history w ∧ (1 ≤ k ≤ Datatypes.S n)%nat ∧ (is_ok r = true → says a) ∧
  ∃ evs, logged (t_x w) (t_x w') evs ∧ tries a (is_ok r) k evs.
Proof.
  revert w. induction n as [|n IH]; intros w; simpl; unfold try_activity;
    pose proof (activity_attempt a (t_x w)) as Ha;
    destruct (run_handler (run_activity acts a) (t_x w)) as [r x'];
    destruct Ha as (evs & Hl & He & Hs).
  - destruct (lost (t_tries w)), r; simpl; (split; [done|]); (split; [lia|]); (split; [done|]);
      exists evs; (split; [done|]); by eapply last_try.
  - assert (Hagain : ∀ did, attempt_events a did evs →
      let '(r0, k, w'') := retry acts lost n a (mkT x' (Datatypes.S (t_tries w)) (t_history w)) in
      t_history w'' = t_history w ∧ (1 ≤ Datatypes.S k ≤ Datatypes.S (Datatypes.S n))%nat ∧
      (is_ok r0 = true → says a) ∧
      ∃ evs', logged (t_x w) (t_x w'') evs' ∧ tries a (is_ok r0) (Datatypes.S k) evs').
    { intros d Hd. specialize (IH (mkT x' (Datatypes.S (t_tries w)) (t_history w))).
      destruct (retry _ _ _ _ _) as [[r0 k] w'']. destruct IH as (Hh & Hk & Hsay & evs' & Hl' & Ht).
      split; [done|]. split; [lia|]. split; [done|].
      exists (evs ++ evs'). split; [by eapply logged_trans|]. by eapply tried_again. }
    destruct (lost (t_tries w)), r; simpl in *;
      try (specialize (Hagain _ He); by destruct (retry _ _ _ _ _) as [[r0 k] w'']).
    split; [done|]. split; [lia|]. split; [done|]. exists evs. split; [done|]. by eapply last_try.
Qed.

Lemma wp_ExecuteActivity {R} a Q (F : R → world → Prop) w :
  (∀ r w', did w w' [(a, is_ok r)] → (is_ok r = true → says a) → Q r w') →
  wp (ExecuteActivity acts lost a) Q F w.
Proof.
  intros HQ. apply wp_call. pose proof (retry_does (MaximumAttempts - 1) a w) as H.
  destruct (retry _ _ _ _ _) as [[r k] w']. destruct H as (Hh & Hk & Hs & evs & Hl & Ht). simpl.
  apply HQ; [|done]. exists [mkEnded a k (is_ok r)], evs. split_and!; simpl; [by rewrite Hh|done|done|].
  rewrite <- (app_nil_r evs). by constructor; [..|constructor].
Qed.
Notation entries execID ref l := (map (saga_activity execID ref) l).
Notation done_ l := (map (λ s, Do s true) l).

Lemma wp_step_activities execID ref undo (U : PlanStep → list attempt → Prop) steps Q
    (F : result unit → world → Prop) w :
  (∀ step (Q' : unit → world → Prop) w',
     (∀ w'' l, did w' w'' (entries execID ref l) → U step l → Q' tt w'') →
     wp (undo step) Q' F w') →
  (∀ w', did w w' (entries execID ref (done_ steps)) → Q tt w') →
  (∀ m w' pre step post l ok, steps = pre ++ step :: post → U step l →
     did w w' (entries execID ref (done_ pre ++ Do step false :: l) ++
               [(ACompleteExecution execID "failed", ok)]) → F (Err m) w') →
  wp (step_activities acts lost execID steps ref undo) Q F w.
Proof.
  intros HU. revert w Q. induction steps as [|step steps IH]; intros w Q HQ HF; simpl.
  - apply wp_ret, HQ, did_nil.
  - apply wp_bind, wp_ExecuteActivity. intros r w1 Hd1 _. apply wp_bind, wp_or_return; split.
    + intros v ->. apply IH.
      * intros w2 Hd2. apply HQ. exact (did_trans _ _ _ _ _ Hd1 Hd2).
      * intros m w2 pre st post l ok -> Hu Hd2. apply (HF m w2 (step :: pre) st post l ok); [done|done|].
        exact (did_trans _ _ _ _ _ Hd1 Hd2).
    + intros m ->. apply wp_bind, HU. intros w2 l Hd2 Hu.
      apply wp_bind, wp_ExecuteActivity. intros r3 w3 Hd3 _. apply wp_return.
      apply (HF m w3 [] step steps l (is_ok r3)); [done|done|].
      exact (did_trans _ _ _ _ _ (did_trans _ _ _ _ _ Hd1 Hd2) Hd3).
Qed.

Lemma wp_rollback_activities execID ref steps Q (F : result unit → world → Prop) w :
  (∀ w' undone, length undone = length steps →
     did w w' (entries execID ref (zip_with Undo steps undone)) → Q tt w') →
  wp (rollback_activities acts lost execID steps ref) Q F w.
Proof.
  revert w Q. induction steps as [|step steps IH]; intros w Q HQ; simpl.
  - apply wp_ret, (HQ w []), did_nil; done.
  - apply wp_bind, wp_ExecuteActivity. intros r w1 Hd1 _. apply IH. intros w2 undone Hn Hd2.
    apply (HQ w2 (is_ok r :: undone)); [by simpl; f_equal|]. exact (did_trans _ _ _ _ _ Hd1 Hd2).
Qed.

Definition executed execID ref steps w (r : result unit) w' : Prop :=
  ∃ l, did w w' l ∧ execution_outline execID ref steps (is_ok r) l.

Lemma wp_run_plan execID ref steps w :
  let Q := executed execID ref steps w in wp (run_plan acts lost execID ref steps) Q Q w.
Proof.
  intros Q. unfold run_plan. apply wp_bind, wp_ExecuteActivity. intros r w1 Hd1 _.
  apply wp_bind, wp_or_return; split; intros v ->.
  2: { apply wp_return. eexists. split; [exact Hd1|constructor]. }
  pose proof (ran_saga execID ref steps) as Hsaga.
  destruct (splitStepsByStage steps) as [act verify]. simpl in Hsaga.
  assert (Hfail : ∀ m w' l (undone : bool) ok,
    did w1 w' (entries execID ref l ++ [(ACompleteExecution execID "failed", ok)]) →
    saga act verify l (if undone then "rolled_back" else "failed") → Q (Err m) w').
  { intros m w' l undone ok Hd Hs. eexists. split; [exact (did_trans _ _ _ _ _ Hd1 Hd)|].
    specialize (Hsaga _ _ ok Hs). destruct undone; exact Hsaga. }
  apply wp_bind, (wp_step_activities _ _ _ (λ step l, ∃ ok, l = [Undo step ok])).
  { intros step Q' w' HQ'. apply wp_bind, wp_ExecuteActivity. intros r2 w2 Hd2 _.
    apply wp_ret. apply (HQ' w2 [Undo step (is_ok r2)]); [exact Hd2|by eexists]. }
  2: { intros m w' pre step post l ok -> [undone ->] Hd. eapply Hfail; [exact Hd|by econstructor]. }
  intros w2 Hd2.
  apply wp_bind, (wp_step_activities _ _ _ (λ _ l, ∃ undone, length undone = length act ∧
    l = zip_with Undo (rev act) undone)).
  { intros step Q' w' HQ'. apply wp_rollback_activities. intros w3 undone Hn Hd3.
    eapply HQ'; [exact Hd3|]. exists undone. by rewrite Hn, length_rev. }
  2: { intros m w' pre step post l ok -> (undone & Hn & ->) Hd.
       apply (Hfail m w' (done_ (act ++ pre) ++ Do step false :: zip_with Undo (rev act) undone)
                (forallb id undone) ok); [|by eapply saga_verify].
       rewrite !map_app, <- !(assoc_L (++)) in *. exact (did_trans _ _ _ _ _ Hd2 Hd). }
  intros w3 Hd3. apply wp_bind, wp_ExecuteActivity. intros r4 w4 Hd4 _. apply wp_ret.
  eexists. split; [exact (did_trans _ _ _ _ _ Hd1 (did_trans _ _ _ _ _ (did_trans _ _ _ _ _ Hd2 Hd3) Hd4))|].
  rewrite <- map_app, <- map_app. replace (is_ok (r4 ≫= λ _, Ok tt)) with (is_ok r4) by by destruct r4.
  exact (Hsaga _ "succeeded" (is_ok r4) (saga_done _ _)).
Qed.

Lemma plan_executed (i : PlanExecutionInput) (w : world) :
  let '(r, w') := run_handler (PlanExecutionWorkflow acts lost i) w in
  if in_Execution i =? "" then is_ok r = false ∧ w' = w
  else executed (in_Execution i) (in_Ref i) (in_Steps i) w r w'.
Proof.
  pose proof (wp_run_plan (in_Execution i) (in_Ref i) (in_Steps i) w) as H.
  unfold PlanExecutionWorkflow. destruct (in_Execution i =? ""); [done|].
  apply wp_run in H. unfold return_if, mbind, handler_bind, mret, handler_ret.
  unfold run_handler in *. by destruct (run_plan _ _ _ _ _ w) as [[r|r] w'].
Qed.

(** C9: the Temporal workflow of a plan is the same saga as the executor's: with
    every activity retried up to five times and any outcome lost, it marks the
    execution running, runs act then verify steps in order, rolls back the failing
    act step or all act steps, the last first, and completes the execution once —
    failed rather than rolled back when it did roll back; the tool of a step runs
    between one and five times when the step is known to have succeeded. *)
Theorem PlanExecution_saga (i : PlanExecutionInput) (w : world) :
  let '(r, w') := run_handler (PlanExecutionWorkflow acts lost i) w in
  if in_Execution i =? "" then is_ok r = false ∧ w' = w
  else executed (in_Execution i) (in_Ref i) (in_Steps i) w r w'.
Proof. apply plan_executed. Qed.
Definition catalogue_ran planID ref steps w (r : result unit) w' : Prop :=
  ∃ l, did w w' l ∧ catalogue_outline planID ref steps (is_ok r) l ∧
       ((ACheckApproval planID, true) ∈ l → ∃ s, approved planID s).

Lemma wp_runWorkflowSteps planID ref steps w :
  let Q := catalogue_ran planID ref steps w in
  wp (runWorkflowSteps acts lost planID ref steps) Q Q w.
Proof.
  intros Q. apply wp_bind, wp_ExecuteActivity. intros r w1 Hd1 Hs.
  apply wp_bind, wp_or_return; split; intros v ->.
  2: { apply wp_return. eexists. split; [exact Hd1|]. split; [constructor|].
       intros Hin%list_elem_of_singleton. by injection Hin. }
  specialize (Hs eq_refl). apply wp_bind, wp_ExecuteActivity. intros r2 w2 Hd2 _.
  assert (Hd := did_trans _ _ _ _ _ Hd1 Hd2). apply wp_bind, wp_or_return; split; intros v2 ->.
  2: { apply wp_return. eexists. split; [exact Hd|]. split; [constructor|done]. }
  eapply wp_mono; [apply (wp_run_plan v2 ref steps w2)|..]; intros r3 w3 (l & Hd3 & Ho);
    (eexists; split; [exact (did_trans _ _ _ _ _ Hd Hd3)|]; split; [|done]);
    by apply (created_and_ran _ _ _ v2).
Qed.

(** C29: a Temporal catalogue workflow whose template accepts its input asks for the
    plan's approval first, and does nothing more when it is not known to be
    approved; it then creates one execution, and the rest is the saga of the
    template's steps for that execution.  An input the template refuses starts
    nothing. *)
Theorem catalogue_needs_approval (c : catalogue) (w : world) :
  let '(r, w') := run_handler (catalogue_temporal acts lost c) w in
  let '(name, input, ref) := catalogue_template c in
  match BuildWorkflowSteps name input with
  | Err m => r = Err m ∧ w' = w
  | Ok (_, steps) => catalogue_ran (catalogue_plan c) ref steps w r w'
  end.
Proof.
  unfold catalogue_temporal. destruct (catalogue_template c) as [[name input] ref].
  destruct (BuildWorkflowSteps name input) as [[summary steps]|m]; [|done].
  pose proof (wp_runWorkflowSteps (catalogue_plan c) ref steps w) as H. apply wp_run in H.
  unfold or_return, mbind, handler_bind, mret, handler_ret.
  unfold run_handler in *. by destruct (runWorkflowSteps _ _ _ _ _ w) as [[r|r] w'].
Qed.

(** *** How often an activity is tried *)

(** An activity is tried until it is known to have succeeded, five times at most. *)
Definition tried_enough (h : ended) : Prop :=
  (1 ≤ h_attempts h ≤ 5)%nat ∧ (h_ok h = false → h_attempts h = 5%nat).

(** What was recorded since [w], with the attempts it took. *)
Definition counted (w w' : world) : Prop :=
  ∃ hist, t_history w' = t_history w ++ hist ∧ Forall tried_enough hist ∧
    t_tries w' = (t_tries w + sum_list_with h_attempts hist)%nat.

Lemma counted_refl w : counted w w.
Proof. exists []. rewrite app_nil_r. split_and!; [done|constructor|simpl; lia]. Qed.

Lemma counted_trans w w1 w2 : counted w w1 → counted w1 w2 → counted w w2.
Proof.
  intros (h & Hh & Ht & Hn) (h' & Hh' & Ht' & Hn'). exists (h ++ h'). split_and!.
  - by rewrite Hh', Hh, (assoc_L (++)).
  - by apply Forall_app.
  - rewrite sum_list_with_app. lia.
Qed.

Lemma retry_counts n a w : let '(r, k, w') := retry acts lost n a w in
  t_history w' = t_history w ∧ t_tries w' = (t_tries w + k)%nat ∧ (1 ≤ k ≤ Datatypes.S n)%nat ∧
  (is_ok r = false → k = Datatypes.S n).
Proof.
  revert w. induction n as [|n IH]; intros w; cbn [retry];
    (destruct (try_activity acts lost a w) as [r w1] eqn:E; unfold try_activity in E;
     destruct (run_handler _ (t_x w)) as [r0 x]; injection E as _ <-).
  - destruct r; simpl; split_and!; first [done | lia].
  - destruct r; [simpl; split_and!; first [done | lia]|].
    specialize (IH (mkT x (Datatypes.S (t_tries w)) (t_history w))).
    destruct (retry _ _ _ _ _) as [[? k] ?]. simpl in IH |- *. destruct IH as (-> & -> & ? & Hk).
    split_and!; [done|lia..|]. intros Hno. by rewrite (Hk Hno).
Qed.

Lemma counted_activity {R} a w0 :
  preserves (counted w0) (ExecuteActivity acts lost a : handler world R _).
Proof.
  apply preserves_call. intros w H. eapply counted_trans; [exact H|].
  pose proof (retry_counts (MaximumAttempts - 1) a w) as Hr.
  destruct (retry _ _ _ _ _) as [[r k] w']. destruct Hr as (Hh & Ht & Hk & Hf).
  exists [mkEnded a k (is_ok r)]. simpl. split_and!; [by rewrite Hh| |lia].
  apply Forall_singleton. split; cbn [h_attempts h_ok]; [exact Hk|exact Hf].
Qed.

Lemma counted_rollback execID steps ref w0 :
  preserves (counted w0) (rollback_activities acts lost execID steps ref).
Proof.
  induction steps as [|step steps IH]; cbn [rollback_activities];
    repeat first [apply counted_activity | apply IH | preserves_step].
Qed.

Lemma counted_steps execID steps ref undo w0 :
  (∀ step, preserves (counted w0) (undo step)) →
  preserves (counted w0) (step_activities acts lost execID steps ref undo).
Proof.
  intros Hu. induction steps as [|step steps IH]; cbn [step_activities]; unfold fail_workflow;
    repeat first [apply counted_activity | apply Hu | apply IH | preserves_step].
Qed.

Lemma counted_plan i w0 : preserves (counted w0) (PlanExecutionWorkflow acts lost i).
Proof.
  unfold PlanExecutionWorkflow, run_plan, fail_workflow.
  repeat first [apply counted_activity | apply counted_rollback | apply counted_steps; intros ? | preserves_step].
Qed.

Lemma saga_length act verify l st :
  saga act verify l st → (length l ≤ 2 * (length act + length verify))%nat.
Proof.
  destruct 1 as [|pre step post undone ->|pre step post undone -> Hn];
    rewrite ?length_map, ?length_app, ?length_map; cbn [length];
    rewrite ?length_zip_with, ?length_rev, ?length_app; cbn [length]; lia.
Qed.

Lemma stages_length steps :
  (length (splitStepsByStage steps).1 + length (splitStepsByStage steps).2 = length steps)%nat.
Proof.
  unfold splitStepsByStage. simpl. induction steps as [|s l IH]; simpl; [done|].
  destruct (isVerifyStage _); simpl; lia.
Qed.

Lemma execution_outline_length execID ref steps ok l :
  execution_outline execID ref steps ok l → (length l ≤ 2 * length steps + 2)%nat.
Proof.
  destruct 1 as [|l st recorded H%saga_length]; [simpl; lia|].
  pose proof (stages_length steps). cbn [length]. rewrite length_app, length_map. simpl. lia.
Qed.

(** C11: a run of the workflow of a plan with n steps is at most 2n + 2 activities, and
    each is tried until it is known to have succeeded, five times at most: one recorded
    as failed was tried exactly five times.  No other attempts are made, so that the
    run is over after at most 5 (2n + 2) of them, whatever the store, the tools and the
    task queue do. *)
Theorem PlanExecution_attempts (i : PlanExecutionInput) (w : world) :
  let '(_, w') := run_handler (PlanExecutionWorkflow acts lost i) w in
  let n := length (in_Steps i) in
  ∃ hist, t_history w' = t_history w ++ hist ∧ (length hist ≤ 2 * n + 2)%nat ∧
    (∀ h, h ∈ hist → (1 ≤ h_attempts h ≤ 5)%nat ∧ (h_ok h = false → h_attempts h = 5%nat)) ∧
    t_tries w' = (t_tries w + sum_list_with h_attempts hist)%nat ∧
    (t_tries w' ≤ t_tries w + 5 * (2 * n + 2))%nat.
Proof.
  pose proof (preserves_run (counted w) _ w (counted_plan i w) (counted_refl w)) as (hist & Hh & Ht & Hn).
  assert (Hlen : (length hist ≤ 2 * length (in_Steps i) + 2)%nat).
  { pose proof (plan_executed i w) as H. destruct (run_handler _ w) as [r w']. cbn [snd] in Hh.
    destruct (in_Execution i =? "").
    - destruct H as [_ ->]. symmetry in Hh; rewrite <- (app_nil_r (t_history w)) in Hh at 2; apply app_inv_head in Hh as ->. simpl. lia.
    - destruct H as (l & (hist' & evs & Hh' & Hl & _) & Ho%execution_outline_length).
      rewrite Hh in Hh'. apply app_inv_head in Hh' as <-. subst l. unfold outline in Ho.
      by rewrite length_map in Ho. }
  destruct (run_handler _ w) as [r w']. cbn [snd] in Hh, Hn. exists hist.
  split_and!; [done|done|by apply Forall_forall|done|].
  rewrite Hn. enough (sum_list_with h_attempts hist ≤ 5 * length hist)%nat by lia.
  clear - Ht. induction Ht as [|h hist [Hh _] _ IH]; simpl; lia.
Qed.
End temporal_proof.

(** ** From the gateway to the tools *)
Lemma convertPlanSteps_id steps : convertPlanSteps steps = steps.
Proof. unfold convertPlanSteps. induction steps as [|[] steps IH]; simpl; [done|]. by rewrite IH. Qed.

(** The workflow started for an execution is the plan's, for that execution,
    with the steps and context it was given, under an id of its own. *)
Theorem StartExecution_input execute queue planID execID ref steps :
  StartExecution (Some execute) queue planID execID ref steps
  = (if execID =? "" then Err "execution_id required"
     else execute ("exec-" +:+ execID) queue (mkInput planID execID ref steps)).
Proof. unfold StartExecution. by rewrite convertPlanSteps_id. Qed.
