(* ===== verification/Watcher.v ===== *)
(** * Watcher: approvals decided in Linear

    LinearClient of internal/approvals/linear.go, which files an issue per plan
    and reads the issues' labels back, and Watcher of internal/approvals/watcher.go,
    which copies the decisions to the plans' approvals.

    The Linear service is a parameter: it answers a request, after the ones already
    sent, with a status and a document, or not at all.  The watcher is proved
    against the interfaces [ApprovalClient] and [ApprovalStore]; [linear_client] and
    the store implement them.  Times are nanoseconds. *)

From S2P Require Import Prelude GoStrings Json Store.

Local Open Scope string_scope.
Local Open Scope list_scope.

Record Issue := mkIssue {
  i_ID : string; Title : string; Description : string; Labels : list string; i_CreatedAt : Z }.

Class ApprovalClient (C : Type) := {
  ac_CreateApprovalIssue : string → C → result string * C;
  ac_UpdateApprovalStatus : string → string → C → result unit * C;
  ac_ListApprovalIssues : C → result (list Issue) * C }.

Class ApprovalStore (S : Type) := {
  as_UpdateApprovalStatusByPlan : string → string → S → result unit * S }.

(** ** Labels and plan ids *)

Definition labelPending : string := "approval:pending".
Definition labelApproved : string := "approval:approved".
Definition labelDenied : string := "approval:denied".
Definition labelExpired : string := "approval:expired".

Definition labelForStatus (status : string) : option string :=
  if status =? "pending" then Some labelPending
  else if status =? "approved" then Some labelApproved
  else if status =? "denied" then Some labelDenied
  else if status =? "expired" then Some labelExpired
  else None.

Definition hasLabel (labels : list string) (target : string) : bool :=
  existsb (λ l, l =? target) labels.

Definition approvalStatus (labels : list string) : string :=
  if hasLabel labels labelApproved then "approved"
  else if hasLabel labels labelDenied then "denied"
  else if hasLabel labels labelExpired then "expired"
  else if hasLabel labels labelPending then "pending"
  else "".

(** The digits the text starts with. *)
Fixpoint leading_digits (s : string) : string :=
  match s with
  | String c s' => if is_digit c then String c (leading_digits s') else ""
  | "" => ""
  end.

(** The first "plan_" of the text and the digits after it; none when there is no
    digit there, whatever follows. *)
Definition extractPlanID (input : string) : option string :=
  '(_, rest) ← cut_at input "plan_";
  let digits := leading_digits rest in
  if digits =? "" then None else Some ("plan_" +:+ digits).

(** ** The Linear client *)

Record LinearClient := mkLinear { BaseURL : string; Token : string; TeamID : string }.

(** What was sent, and the labels looked up so far. *)
Record linear := mkLinearState { sent : list json; labelCache : gmap string string }.

Section client.
Variable c : LinearClient.
(** The answer's status and body. *)
Variable service : list json → string → string → json → result (Z * doc).
Variable time_parse : string → result Z.

Definition defaultLinearBaseURL : string := "https://api.linear.app/graphql".

(** [None] for an answer without the member. *)
Definition envelope (j : json) : result (option json * list string) :=
  fs ← Json.members j;
  data ← fld_raw "data" fs;
  errors ← fld_slice (λ e, fs ← Json.members e; fld_string "message" fs) "errors" fs;
  Ok (data, errors).

(** The data of the answer; [out] tells whether the caller wants it. *)
Definition doGraphQL (query : string) (vars : any) (out : bool) (st : linear) :
    result json * linear :=
  if Token c =? "" then (Err "linear token required", st)
  else
    let url := if BaseURL c =? "" then defaultLinearBaseURL else BaseURL c in
    match marshal (AMap (amap [("query", AStr query); ("variables", vars)])) with
    | Err m => (Err m, st)
    | Ok payload =>
        let answer := service (sent st) url (Token c) payload in
        (('(status, body) ← answer;
          _ ← check ((200 <=? status)%Z && (status <? 300)%Z) ("linear status " +:+ itoa status);
          j ← unmarshal body; '(data, errors) ← envelope j;
          match errors with
          | e :: _ => Err ("linear error: " +:+ e)
          | [] => if out then of_option json_error data else Ok JNull
          end),
         mkLinearState (sent st ++ [payload]) (labelCache st))
    end.

(** A struct inside the answer: [null] leaves it as it is. *)
Definition inside {A} (name : string) (init : A) (dec : A → list (string * json) → result A)
    (fs : list (string * json)) : result A :=
  fld (λ a x, fs ← Json.members x; dec a fs) name init fs.
Definition text_field (name init : string) (fs : list (string * json)) : result string :=
  fld (λ a x, match x with JStr s => Ok s | JNull => Ok a | _ => Err json_error end) name init fs.

Definition label_query : string :=
  "query($name: String!) { issueLabels(filter: { name: { eq: $name } }) { nodes { id name } } }".
Definition create_query : string :=
  "mutation($input: IssueCreateInput!) { issueCreate(input: $input) { issue { id } } }".
Definition update_query : string :=
  "mutation($input: IssueUpdateInput!) { issueUpdate(input: $input) { success } }".
Definition list_query : string :=
  "query($labels: [String!]!) { issues(first: 100, filter: { labels: { name: { in: $labels } } }) { nodes { id title description createdAt labels { nodes { name } } } } }".

Definition label_nodes (j : json) : result (list string) :=
  fs ← Json.members j;
  inside "issueLabels" [] (λ _ fs, fld_slice (λ n, fs ← Json.members n; fld_string "id" fs) "nodes" fs) fs.

Definition labelID (name : string) (st : linear) : result string * linear :=
  if name =? "" then (Err "label name required", st)
  else
    match labelCache st !! name with
    | Some id => (Ok id, st)
    | None =>
        let '(resp, st) := doGraphQL label_query (AMap (amap [("name", AStr name)])) true st in
        match (j ← resp; nodes ← label_nodes j;
               id ← of_option ("label not found: " +:+ name) (head nodes);
               _ ← check (negb (id =? "")) "label id missing"; Ok id) with
        | Ok id => (Ok id, mkLinearState (sent st) (<[name := id]> (labelCache st)))
        | Err m => (Err m, st)
        end
    end.

Definition issue_title (planID : string) : string := "Approval required: " +:+ planID.
Definition newline : string := bytes [10].
Definition issue_description (planID : string) : string :=
  "Approval required for plan." +:+ newline +:+ newline +:+ "Plan ID: " +:+ planID +:+ newline.

Definition created_id (j : json) : result string :=
  fs ← Json.members j;
  inside "issueCreate" "" (λ a fs, inside "issue" a (λ a fs, text_field "id" a fs) fs) fs.

Definition CreateApprovalIssue (planID : string) (st : linear) : result string * linear :=
  if planID =? "" then (Err "plan id required", st)
  else if TeamID c =? "" then (Err "linear team id required", st)
  else
    match labelID labelPending st with
    | (Err m, st) => (Err m, st)
    | (Ok label, st) =>
        let vars := AMap (amap [("input", AMap (amap [("teamId", AStr (TeamID c));
          ("title", AStr (issue_title planID)); ("description", AStr (issue_description planID));
          ("labelIds", AStrs [label])]))]) in
        let '(resp, st) := doGraphQL create_query vars true st in
        ((j ← resp; id ← created_id j; _ ← check (negb (id =? "")) "missing issue id"; Ok id), st)
    end.

Definition linear_UpdateApprovalStatus (issueID status : string) (st : linear) :
    result unit * linear :=
  if issueID =? "" then (Err "issue id required", st)
  else
    match labelForStatus status with
    | None => (Err ("unknown status: " +:+ status), st)
    | Some label =>
        match labelID label st with
        | (Err m, st) => (Err m, st)
        | (Ok id, st) =>
            let vars := AMap (amap [("input", AMap (amap [("id", AStr issueID);
              ("labelIds", AStrs [id])]))]) in
            let '(resp, st) := doGraphQL update_query vars false st in ((_ ← resp; Ok tt), st)
        end
    end.

Definition decode_issue (j : json) : result Issue :=
  fs ← Json.members j;
  id ← fld_string "id" fs; title ← fld_string "title" fs; desc ← fld_string "description" fs;
  at_ ← fld_time time_parse "createdAt" fs;
  labels ← inside "labels" [] (λ _ fs,
    fld_slice (λ n, fs ← Json.members n; fld_string "name" fs) "nodes" fs) fs;
  Ok (mkIssue id title desc labels at_).

Definition ListApprovalIssues (st : linear) : result (list Issue) * linear :=
  let vars := AMap (amap [("labels",
    AStrs [labelPending; labelApproved; labelDenied; labelExpired])]) in
  let '(resp, st) := doGraphQL list_query vars true st in
  ((j ← resp; fs ← Json.members j;
    inside "issues" [] (λ _ fs, fld_slice decode_issue "nodes" fs) fs), st).

Definition linear_client : ApprovalClient linear := {|
  ac_CreateApprovalIssue := CreateApprovalIssue;
  ac_UpdateApprovalStatus := linear_UpdateApprovalStatus;
  ac_ListApprovalIssues := ListApprovalIssues |}.
End client.

(** UpdateApprovalStatusByPlan of internal/db. *)
Definition store_approvals (fault : nat → option string) : ApprovalStore store := {|
  as_UpdateApprovalStatusByPlan := UpdateApprovalStatusByPlan fault |}.

(** ** The watcher *)

(** What the watcher writes to the plans' approvals, whether or not the statement
    succeeds, and the last status it copied per issue. *)
Record watching (C S : Type) := mkWatching {
  w_client : C; w_store : S; w_last : gmap string string; w_decided : list (string * string) }.
Arguments mkWatching {C S}.
Arguments w_client {C S}.
Arguments w_store {C S}.
Arguments w_last {C S}.
Arguments w_decided {C S}.

Section watcher.
Context {C S : Type} `{!ApprovalClient C} `{!ApprovalStore S}.
Notation world := (watching C S).
Notation body := (handler world (result unit) (result unit)).

(** w.Now() and w.Timeout *)
Variables now timeout : Z.

Definition stop {A} (m : string) : handler world (result unit) A := return_ (Err m).

Definition on_client {R A} (f : C → A * C) : handler world R A :=
  call (λ w, let '(a, c) := f (w_client w) in
             (a, mkWatching c (w_store w) (w_last w) (w_decided w))).

(** The store's update, recorded. *)
Definition decide_plan {R} (planID status : string) : handler world R (result unit) :=
  call (λ w, let '(a, s) := as_UpdateApprovalStatusByPlan planID status (w_store w) in
             (a, mkWatching (w_client w) s (w_last w) (w_decided w ++ [(planID, status)]))).

Definition remember {R} (issueID status : string) : handler world R unit :=
  effect (λ w, mkWatching (w_client w) (w_store w) (<[issueID := status]> (w_last w)) (w_decided w)).

(** The plan an issue is about: its description's, else its title's. *)
Definition issue_plan (i : Issue) : option string :=
  match extractPlanID (Description i) with Some p => Some p | None => extractPlanID (Title i) end.

Definition overdue (i : Issue) : bool := (i_CreatedAt i <? now - timeout)%Z.

(** One issue of syncOnce's loop. *)
Definition sync_issue (i : Issue) : handler world (result unit) unit :=
  let status := approvalStatus (Labels i) in
  match (if status =? "" then None else issue_plan i) with
  | None => mret tt
  | Some planID =>
      status ← (if (status =? "pending") && overdue i then
                  r ← on_client (ac_UpdateApprovalStatus (i_ID i) "expired");
                  _ ← or_return r stop; mret "expired"
                else mret status);
      last ← reads (λ w, w_last w !! i_ID i);
      if (status =? "pending") || bool_decide (last = Some status) then mret tt
      else
        r ← decide_plan planID status;
        _ ← or_return r stop;
        remember (i_ID i) status
  end.

Fixpoint sync_issues (issues : list Issue) : handler world (result unit) unit :=
  match issues with
  | [] => mret tt
  | i :: rest => _ ← sync_issue i; sync_issues rest
  end.

Definition syncOnce : body :=
  issues ← on_client ac_ListApprovalIssues;
  issues ← or_return issues stop;
  _ ← sync_issues issues;
  mret (Ok tt).
End watcher.

(** w.Run's defaults. *)
Definition minute : Z := 60 * 1000000000.
Definition poll_interval (d : Z) : Z := if (d <=? 0)%Z then 30 * 1000000000 else d.
Definition approval_timeout (d : Z) : Z := if (d <=? 0)%Z then 24 * 60 * minute else d.

(** ** The decision an issue stands for *)

Definition decided_statuses : list string := ["approved"; "denied"; "expired"].

Definition decision (now timeout : Z) (i : Issue) : option (string * string) :=
  planID ← issue_plan i;
  let status := approvalStatus (Labels i) in
  if mem status decided_statuses then Some (planID, status)
  else if (status =? "pending") && overdue now timeout i then Some (planID, "expired")
  else None.

Lemma approvalStatus_cases labels :
  approvalStatus labels = "" ∨ approvalStatus labels = "pending" ∨
  mem (approvalStatus labels) decided_statuses = true.
Proof. unfold approvalStatus. repeat case_match; auto. Qed.

(** *** An issue filed for a plan names it *)
Lemma leading_digits_go n acc s :
  leading_digits (acc +:+ s) = acc →
  leading_digits (pretty_N_go n acc +:+ s) = pretty_N_go n acc.
Proof.
  revert acc. induction (N.lt_wf_0 n) as [n _ IH]; intros acc H.
  destruct (decide (n = 0)%N) as [->|Hn]; [by rewrite pretty_N_go_0|].
  rewrite pretty_N_go_step by lia. apply IH; [apply N.div_lt; lia|].
  assert (Hd : is_digit (pretty_N_char (n `mod` 10)) = true)
    by (unfold pretty_N_char; repeat case_match; reflexivity).
  change (String ?c acc +:+ s) with (String c (acc +:+ s)). simpl. by rewrite Hd, H.
Qed.

Lemma itoa_pos p : itoa (Z.pos p) = pretty_N_go (N.pos p) "".
Proof. done. Qed.

Lemma leading_digits_itoa t s :
  (0 ≤ t)%Z → leading_digits s = "" → leading_digits (itoa t +:+ s) = itoa t.
Proof.
  intros Ht Hs. destruct t as [|p|p]; [|rewrite itoa_pos; by apply leading_digits_go|lia].
  change (String (byte 48) (leading_digits s) = String (byte 48) ""). by rewrite Hs.
Qed.

Lemma pretty_go_nonempty n acc : acc ≠ "" → pretty_N_go n acc ≠ "".
Proof.
  revert acc. induction (N.lt_wf_0 n) as [n _ IH]; intros acc H.
  destruct (decide (n = 0)%N) as [->|Hn]; [by rewrite pretty_N_go_0|].
  rewrite pretty_N_go_step by lia. apply IH; [apply N.div_lt; lia|done].
Qed.

Lemma itoa_nonempty t : itoa t ≠ "".
Proof.
  destruct t as [|p|p]; [done| |done]. rewrite itoa_pos, pretty_N_go_step by lia.
  by apply pretty_go_nonempty.
Qed.

Lemma extract_after pre t s :
  (0 ≤ t)%Z → leading_digits s = "" → cut_at (pre +:+ "plan_" +:+ itoa t +:+ s) "plan_"
    = Some (pre, itoa t +:+ s) →
  extractPlanID (pre +:+ "plan_" +:+ itoa t +:+ s) = Some ("plan_" +:+ itoa t).
Proof.
  intros Ht Hs Hc. unfold extractPlanID. rewrite Hc. simpl. rewrite leading_digits_itoa by done.
  destruct (String.eqb_spec (itoa t) ""); [by destruct (itoa_nonempty t)|done].
Qed.

(** ** One pass of the watcher *)

Section proof.
Context {C S : Type} `{!ApprovalClient C} `{!ApprovalStore S}.
Notation world := (watching C S).
Variables now timeout : Z.
Implicit Types (w : world) (issues : list Issue).

(** The updates of a list of decisions, in order. *)
Definition apply_decisions (ds : list (string * string)) (s : S) : S :=
  fold_left (λ s '(p, st), (as_UpdateApprovalStatusByPlan p st s).2) ds s.

Definition of_issues issues (d : string * string) : Prop :=
  ∃ i, i ∈ issues ∧ decision now timeout i = Some d.

(** Every write is the decision of an issue, and nothing else is written. *)
Definition synced issues w w' : Prop :=
  ∃ ds, w_decided w' = w_decided w ++ ds ∧ w_store w' = apply_decisions ds (w_store w) ∧
        Forall (of_issues issues) ds.

Lemma synced_nil issues w w' : w_decided w' = w_decided w → w_store w' = w_store w → synced issues w w'.
Proof. intros Hd Hs. exists []. rewrite app_nil_r. by split_and!; [..|constructor]. Qed.

Lemma synced_trans issues w w1 w2 : synced issues w w1 → synced issues w1 w2 → synced issues w w2.
Proof.
  intros (d & Hd & Hs & Hf) (d' & Hd' & Hs' & Hf'). exists (d ++ d').
  rewrite Hd', Hd, Hs', Hs. unfold apply_decisions. rewrite fold_left_app, (assoc_L (++)).
  by split_and!; [..|by apply Forall_app].
Qed.

Lemma synced_mono issues issues' w w' : issues ⊆ issues' → synced issues w w' → synced issues' w w'.
Proof.
  intros Hsub (d & Hd & Hs & Hf). exists d. split_and!; [done|done|].
  eapply Forall_impl; [exact Hf|]. intros x (i & Hi & Hx). exists i. auto.
Qed.

(** The issue's last status is its decision's. *)
Definition settled w i : Prop :=
  ∀ p st, decision now timeout i = Some (p, st) → w_last w !! i_ID i = Some st.

(** A pass that ends early. *)
Definition stopped issues w (r : result unit) w' : Prop := is_ok r = false ∧ synced issues w w'.

Definition kept i w w' : Prop := ∀ id, id ≠ i_ID i → w_last w' !! id = w_last w !! id.

(** The issue's decision is written, unless it was the last one written. *)
Lemma wp_write i planID status w w0 :
  decision now timeout i = Some (planID, status) → (status =? "pending") = false →
  w_decided w0 = w_decided w → w_store w0 = w_store w → w_last w0 = w_last w →
  wp (last ← reads (λ w, w_last w !! i_ID i);
      if (status =? "pending") || bool_decide (last = Some status) then mret tt
      else r ← decide_plan planID status; _ ← or_return r stop; remember (i_ID i) status)
    (λ _ w', synced [i] w w' ∧ settled w' i ∧ kept i w w') (stopped [i] w) w0.
Proof.
  intros Hd Hp Hw1 Hw2 Hw3.
  assert (Hone : ∀ w', w_decided w' = w_decided w ++ [(planID, status)] →
    w_store w' = (as_UpdateApprovalStatusByPlan planID status (w_store w)).2 → synced [i] w w').
  { intros w' H1 H2. exists [(planID, status)]. split_and!; [done|done|].
    repeat constructor. exists i. split; [by left|done]. }
  assert (Hset : ∀ w', w_last w' !! i_ID i = Some status → settled w' i).
  { intros w' H p st Heq. by rewrite Hd in Heq; injection Heq as <- <-. }
  apply wp_bind, wp_reads. rewrite Hp. simpl. case_bool_decide as Hl.
  { apply wp_ret. split_and!; [by apply synced_nil|by apply Hset|]. intros id _. by rewrite Hw3. }
  apply wp_bind, wp_call. rewrite Hw2.
  destruct (as_UpdateApprovalStatusByPlan planID status (w_store w)) as [r s] eqn:Hu. simpl in *.
  apply wp_bind, wp_or_return; split; intros x _.
  - apply wp_effect. split_and!.
    + apply Hone; simpl; by rewrite ?Hw1.
    + apply Hset. apply lookup_insert_eq.
    + intros id Hid. simpl. by rewrite Hw3, lookup_insert_ne by done.
  - apply wp_return. split; [done|]. apply Hone; simpl; by rewrite ?Hw1.
Qed.

Lemma wp_sync_issue i w :
  wp (sync_issue now timeout i)
    (λ _ w', synced [i] w w' ∧ settled w' i ∧ kept i w w') (stopped [i] w) w.
Proof.
  assert (Hskip : decision now timeout i = None →
    wp (R := result unit) (mret tt) (λ _ w', synced [i] w w' ∧ settled w' i ∧ kept i w w')
      (stopped [i] w) w).
  { intros Hd. apply wp_ret. split_and!; [by apply synced_nil| |done]. intros p st. by rewrite Hd. }
  unfold sync_issue. pose proof (eq_refl (decision now timeout i)) as Hd.
  unfold decision in Hd at 2. destruct (issue_plan i) as [planID|]; simpl in Hd.
  2: { destruct (_ =? ""); by apply Hskip. }
  destruct (approvalStatus_cases (Labels i)) as [E|[E|E]].
  - rewrite E in *. simpl in *. by apply Hskip.
  - rewrite E in *. simpl in *. destruct (overdue now timeout i); simpl in *.
    + apply wp_bind, wp_bind, wp_call.
      destruct (ac_UpdateApprovalStatus (i_ID i) "expired" (w_client w)) as [r c]. simpl.
      apply wp_bind, wp_or_return; split; intros x _;
        [|by apply wp_return; split; [|apply synced_nil]].
      by apply wp_ret, wp_write.
    + apply wp_bind, wp_ret, wp_bind, wp_reads. simpl. by apply Hskip.
  - rewrite E in Hd.
    assert (Hne : (approvalStatus (Labels i) =? "") = false ∧
                  (approvalStatus (Labels i) =? "pending") = false).
    { apply mem_spec in E. split; apply String.eqb_neq; intros Hs; rewrite Hs in E; set_solver. }
    destruct Hne as [-> Hp]. rewrite Hp. simpl. by apply wp_bind, wp_ret, wp_write.
Qed.

Lemma wp_sync_issues issues w :
  wp (sync_issues now timeout issues)
    (λ _ w', synced issues w w' ∧
       (NoDup (map i_ID issues) → Forall (settled w') issues ∧
          ∀ id, id ∉ map i_ID issues → w_last w' !! id = w_last w !! id))
    (stopped issues w) w.
Proof.
  revert w. induction issues as [|i issues IH]; intros w; simpl.
  { apply wp_ret. split; [by apply synced_nil|]. by repeat constructor. }
  assert (Hhd : ∀ w', synced [i] w w' → synced (i :: issues) w w').
  { intros w'. apply synced_mono. set_solver. }
  assert (Htl : ∀ w1 w', synced issues w1 w' → synced (i :: issues) w1 w').
  { intros w1 w'. apply synced_mono. set_solver. }
  apply wp_bind. eapply wp_mono; [apply wp_sync_issue| |by intros r w' [? ?]; split; auto]. intros _ w1 (Hs1 & Hset & Hk).
  eapply wp_mono; [apply (IH w1)|..]; simpl.
  - intros _ w2 (Hs2 & Hall). split; [eapply synced_trans; eauto|].
    intros [Hi Hnd]%NoDup_cons. destruct (Hall Hnd) as [Hset2 Hk2]. split.
    + constructor; [|done]. intros p st Hd. rewrite Hk2 by done. by apply (Hset p).
    + intros id [Hne Hid]%not_elem_of_cons. by rewrite Hk2, Hk.
  - intros r w2 [Hr Hs2]. split; [done|]. eapply synced_trans; eauto.
Qed.

(** *** Nothing to do twice *)

Definition silent w w' : Prop := w_decided w' = w_decided w ∧ w_store w' = w_store w.

(** An issue whose decision was the last one written is passed over. *)
Lemma wp_issue_silent i w :
  settled w i →
  wp (sync_issue now timeout i) (λ _ w', w_last w' = w_last w ∧ silent w w') (λ _ w', silent w w') w.
Proof.
  intros Hi. unfold sync_issue. unfold settled, decision in Hi.
  destruct (issue_plan i) as [planID|]; [|by destruct (_ =? ""); apply wp_ret]. simpl in Hi.
  destruct (approvalStatus_cases (Labels i)) as [E|[E|E]].
  - rewrite E. simpl. by apply wp_ret.
  - rewrite E in *. simpl in *. destruct (overdue now timeout i); simpl in *.
    + apply wp_bind, wp_bind, wp_call.
      destruct (ac_UpdateApprovalStatus (i_ID i) "expired" (w_client w)) as [r c]. simpl.
      apply wp_bind, wp_or_return; split; intros x _; [|by apply wp_return].
      apply wp_ret, wp_bind, wp_reads. simpl. rewrite (Hi planID "expired" eq_refl).
      rewrite bool_decide_true by done. by apply wp_ret.
    + by apply wp_bind, wp_ret, wp_bind, wp_reads, wp_ret.
  - rewrite E in Hi. specialize (Hi _ _ eq_refl).
    destruct (_ =? "") eqn:Hne; [by apply wp_ret|].
    assert (Hp : (approvalStatus (Labels i) =? "pending") = false).
    { apply mem_spec in E. apply String.eqb_neq; intros Hs'; rewrite Hs' in E; set_solver. }
    rewrite Hp. simpl. apply wp_bind, wp_ret, wp_bind, wp_reads. rewrite Hi, Hp.
    rewrite bool_decide_true by done. by apply wp_ret.
Qed.

(** *** A pass *)

Definition listed w : list Issue :=
  match (ac_ListApprovalIssues (w_client w)).1 with Ok issues => issues | Err _ => [] end.

Lemma wp_syncOnce w :
  wp (syncOnce now timeout)
    (λ r w', r = Ok tt ∧ synced (listed w) w w' ∧
             (NoDup (map i_ID (listed w)) → Forall (settled w') (listed w)))
    (stopped (listed w) w) w.
Proof.
  unfold syncOnce, listed. apply wp_bind, wp_call.
  destruct (ac_ListApprovalIssues (w_client w)) as [[issues|m] c]; simpl.
  2: { apply wp_bind, wp_return. split; [done|by apply synced_nil]. }
  apply wp_bind, wp_ret, wp_bind. eapply wp_mono; [apply wp_sync_issues|..]; simpl.
  - intros _ w2 [Hs Hnd]. apply wp_ret. split_and!; [done|exact Hs|]. intros H. by apply Hnd.
  - intros r w2 [Hr Hs]. split; [done|exact Hs].
Qed.

(** The plans a pass approves are named by an issue with the approved label. *)
Lemma syncOnce_writes w :
  let '(_, w') := run_handler (syncOnce now timeout) w in
  ∃ ds, w_decided w' = w_decided w ++ ds ∧ w_store w' = apply_decisions ds (w_store w) ∧
    ∀ planID, (planID, "approved") ∈ ds →
      ∃ i, i ∈ listed w ∧ issue_plan i = Some planID ∧ labelApproved ∈ Labels i.
Proof.
  pose proof (wp_syncOnce w) as H.
  eapply wp_mono with (Q' := λ _ w', synced (listed w) w w') (E' := λ _ w', synced (listed w) w w') in H;
    [|by intros r w' (_ & Hs & _)|by intros r w' [_ Hs]].
  apply wp_run in H. destruct (run_handler _ w) as [r w']. simpl in H.
  destruct H as (ds & Hd & Hs & Hf). exists ds. split_and!; [done|done|]. intros planID Hin.
  rewrite Forall_forall in Hf. destruct (Hf _ Hin) as (i & Hi & Hdec). exists i. split; [done|].
  unfold decision in Hdec. destruct (issue_plan i) as [p|]; [|done]. simpl in Hdec.
  assert (Ha : approvalStatus (Labels i) = "approved" ∧ p = planID).
  { repeat case_match; simplify_eq; try done. }
  destruct Ha as [Ha ->]. split; [done|]. unfold approvalStatus in Ha.
  destruct (hasLabel (Labels i) labelApproved) eqn:E; [|repeat case_match; done].
  apply existsb_exists in E as (l & Hl & ->%String.eqb_eq). by apply list_elem_of_In.
Qed.

Lemma settled_after w w1 :
  run_handler (syncOnce now timeout) w = (Ok tt, w1) → NoDup (map i_ID (listed w)) →
  Forall (settled w1) (listed w).
Proof.
  intros Hrun Hnd. pose proof (wp_syncOnce w) as H.
  eapply wp_mono with (Q' := λ r w', r = Ok tt → Forall (settled w') (listed w))
    (E' := λ r w', r = Ok tt → Forall (settled w') (listed w)) in H;
    [|by intros r w' (_ & _ & Hs) _; apply Hs|intros r w' [Hr _] Heq; by rewrite Heq in Hr].
  apply wp_run in H. rewrite Hrun in H. by apply H.
Qed.
End proof.

(** *** The pass after *)

Section again.
Context {C S : Type} `{!ApprovalClient C} `{!ApprovalStore S}.
Notation world := (watching C S).
Variables now now' timeout : Z.
Implicit Types (w : world) (issues : list Issue).

(** What became overdue between the two passes. *)
Definition newly_overdue (i : Issue) : Prop :=
  approvalStatus (Labels i) = "pending" ∧ overdue now timeout i = false ∧ overdue now' timeout i = true.

Lemma decision_again i :
  decision now' timeout i = None ∨ decision now' timeout i = decision now timeout i ∨
  newly_overdue i ∧ ∃ planID, issue_plan i = Some planID ∧ decision now' timeout i = Some (planID, "expired").
Proof.
  unfold decision, newly_overdue. destruct (issue_plan i) as [planID|]; [|by left]. cbn [mbind option_bind].
  destruct (approvalStatus_cases (Labels i)) as [E|[E|E]].
  - rewrite E. by left.
  - rewrite E. cbn. destruct (overdue now timeout i), (overdue now' timeout i); [by right; left|by left| |by left].
    right; right. split; [done|]. by exists planID.
  - rewrite E. auto.
Qed.

(** The writes of a second pass. *)
Definition expired_since issues w w' : Prop :=
  ∃ ds, w_decided w' = w_decided w ++ ds ∧ w_store w' = apply_decisions ds (w_store w) ∧
    Forall (λ d, ∃ i, i ∈ issues ∧ newly_overdue i ∧ issue_plan i = Some d.1 ∧ d.2 = "expired") ds.

Lemma expired_since_silent issues w w' : silent w w' → expired_since issues w w'.
Proof. intros [Hd Hs]. exists []. rewrite app_nil_r. by split_and!; [..|constructor]. Qed.

Lemma expired_since_trans issues w w1 w2 :
  expired_since issues w w1 → expired_since issues w1 w2 → expired_since issues w w2.
Proof.
  intros (d & Hd & Hs & Hf) (d' & Hd' & Hs' & Hf'). exists (d ++ d').
  rewrite Hd', Hd, Hs', Hs. unfold apply_decisions. rewrite fold_left_app, (assoc_L (++)).
  by split_and!; [..|by apply Forall_app].
Qed.

Lemma expired_since_mono issues issues' w w' :
  issues ⊆ issues' → expired_since issues w w' → expired_since issues' w w'.
Proof.
  intros Hsub (d & Hd & Hs & Hf). exists d. split_and!; [done|done|].
  eapply Forall_impl; [exact Hf|]. intros x (i & Hi & Hx). exists i. auto.
Qed.

Lemma wp_issue_again i w :
  settled now timeout w i →
  wp (sync_issue now' timeout i) (λ _ w', expired_since [i] w w' ∧ kept i w w')
    (λ _ w', expired_since [i] w w') w.
Proof.
  intros Hi.
  assert (Hskip : settled now' timeout w i → wp (sync_issue now' timeout i)
    (λ _ w', expired_since [i] w w' ∧ kept i w w') (λ _ w', expired_since [i] w w') w).
  { intros Hi'. eapply wp_mono; [by apply wp_issue_silent|..]; cbn beta.
    - intros _ w' [Hl Hs]. split; [by apply expired_since_silent|]. intros id _. by rewrite Hl.
    - intros _ w' Hs. by apply expired_since_silent. }
  destruct (decision_again i) as [E|[E|(Hnew & planID & Hp & E)]].
  - apply Hskip. intros p st. by rewrite E.
  - apply Hskip. intros p st. rewrite E. apply Hi.
  - assert (Hsynced : ∀ w', synced now' timeout [i] w w' → expired_since [i] w w').
    { intros w' (ds & Hd & Hs & Hf). exists ds. split_and!; [done|done|].
      eapply Forall_impl; [exact Hf|]. intros d (i' & ->%list_elem_of_singleton & Hdec).
      rewrite E in Hdec. injection Hdec as <-. exists i. split_and!; [by left|by apply Hnew..|done|done]. }
    eapply wp_mono; [apply wp_sync_issue|..]; cbn beta.
    + intros _ w' (Hs & _ & Hk). split; [by apply Hsynced|done].
    + intros _ w' [_ Hs]. by apply Hsynced.
Qed.

Lemma wp_issues_again issues w :
  NoDup (map i_ID issues) → Forall (settled now timeout w) issues →
  wp (sync_issues now' timeout issues) (λ _ w', expired_since issues w w') (λ _ w', expired_since issues w w') w.
Proof.
  revert w. induction issues as [|i issues IH]; intros w Hnd Hall; simpl.
  { by apply wp_ret, expired_since_silent. }
  apply NoDup_cons in Hnd as [Hni Hnd]. apply Forall_cons in Hall as [Hi Hall].
  assert (Hhd : ∀ w', expired_since [i] w w' → expired_since (i :: issues) w w').
  { intros w'. apply expired_since_mono. set_solver. }
  apply wp_bind. eapply wp_mono; [by apply wp_issue_again|..]; cbn beta; [|intros _ w' Hw'; by apply Hhd].
  intros _ w1 [Hw1 Hk]. eapply wp_mono; [apply (IH w1 Hnd)|..]; cbn beta.
  - apply Forall_forall. intros i' Hi' p st Hd. rewrite Forall_forall in Hall.
    rewrite Hk; [by apply (Hall i' Hi' p)|]. intros Heq. apply Hni. rewrite <- Heq. apply list_elem_of_fmap. by exists i'.
  - intros _ w2 Hw2. eapply expired_since_trans; [by apply Hhd|].
    eapply expired_since_mono; [|exact Hw2]. set_solver.
  - intros _ w2 Hw2. eapply expired_since_trans; [by apply Hhd|].
    eapply expired_since_mono; [|exact Hw2]. set_solver.
Qed.

(** C34: the watcher writes nothing twice: after a pass that ended well, a pass at any
    other time writes, while Linear lists the same issues and each under an id of its
    own, only that plans have expired whose pending issue was not overdue at the first
    pass and is at the second - so nothing at all when no issue became overdue in
    between - whatever the calls to Linear answer. *)
Theorem watcher_quiescent w w1 :
  run_handler (syncOnce now timeout) w = (Ok tt, w1) →
  NoDup (map i_ID (listed w)) → listed w1 = listed w →
  let '(_, w2) := run_handler (syncOnce now' timeout) w1 in
  ∃ ds, w_decided w2 = w_decided w1 ++ ds ∧ w_store w2 = apply_decisions ds (w_store w1) ∧
    ∀ planID status, (planID, status) ∈ ds → status = "expired" ∧
      ∃ i, i ∈ listed w ∧ issue_plan i = Some planID ∧ approvalStatus (Labels i) = "pending" ∧
        overdue now timeout i = false ∧ overdue now' timeout i = true.
Proof.
  intros Hrun Hnd Hsame. pose proof (settled_after now timeout w w1 Hrun Hnd) as Hset.
  enough (H2 : wp (syncOnce now' timeout) (λ _ w', expired_since (listed w) w1 w')
    (λ _ w', expired_since (listed w) w1 w') w1).
  { apply wp_run in H2. destruct (run_handler _ w1) as [r w2]. destruct H2 as (ds & Hd & Hs & Hf).
    exists ds. split_and!; [done|done|]. rewrite Forall_forall in Hf. intros planID status Hin.
    destruct (Hf _ Hin) as (i & Hi & (H1 & H2 & H3) & Hp & Hst). eauto 10. }
  rewrite <- Hsame in *. clear -Hset Hnd. unfold syncOnce, listed in *. apply wp_bind, wp_call.
  destruct (ac_ListApprovalIssues (w_client w1)) as [[issues|m] c]; simpl.
  2: by apply wp_bind, wp_return, expired_since_silent.
  apply wp_bind, wp_ret, wp_bind.
  eapply wp_mono; [apply wp_issues_again; [done|exact Hset]|intros ? w2 Hs; by apply wp_ret|done].
Qed.
End again.

(** ** Over Linear and the SQL store *)

(** C33: an issue filed for a plan names that plan: from the title and the
    description CreateApprovalIssue writes, the watcher reads back the id the
    database gave the plan, so that a decision on the issue reaches it. *)
Theorem filed_issue_names_plan clock fault jsonb j s planID id labels at_ :
  (∀ n, 0 ≤ clock n)%Z →
  (CreatePlan clock fault jsonb j s).1 = Ok planID →
  issue_plan (mkIssue id (issue_title planID) (issue_description planID) labels at_) = Some planID.
Proof.
  intros Hc Hok.
  assert (Hid : ∃ t, (0 ≤ t)%Z ∧ planID = "plan_" +:+ itoa t).
  { unfold CreatePlan, newID, time_now, mbind, db_bind, mret, db_ret, db_lift in Hok. cbn in Hok.
    exists (clock (ticks s)). split; [done|].
    repeat (case_match; simplify_eq/=; try done). }
  destruct Hid as (t & Ht & ->). unfold issue_plan, issue_description. simpl Description.
  pose proof (extract_after ("Approval required for plan." +:+ newline +:+ newline +:+ "Plan ID: ")
    t newline Ht eq_refl eq_refl) as He.
  repeat rewrite string_app_assoc in He. repeat rewrite string_app_assoc. by rewrite He.
Qed.

(** *** The approvals table *)

Definition row_key (a : approval_row) : string * string * string * option string :=
  (a_id a, a_plan a, a_source a, a_hash a).

(** The rows after decisions [ds]: the same rows, and a status that changed is one
    that was decided for the row's plan. *)
Definition statuses_follow (ds : list (string * string)) (t t' : tables) : Prop :=
  set_approvals (λ _, []) t' = set_approvals (λ _, []) t ∧
  map row_key (approvals t') = map row_key (approvals t) ∧
  ∀ a', a' ∈ approvals t' → ∃ a, a ∈ approvals t ∧ row_key a = row_key a' ∧
    (a_status a' = a_status a ∨ (a_plan a', a_status a') ∈ ds).

Section sql.
Context {C : Type} `{!ApprovalClient C}.
Variable fault : nat → option string.
#[local] Instance sql_approvals : ApprovalStore store := store_approvals fault.

Lemma decision_follows p st s :
  statuses_follow [(p, st)] (tabs s) (tabs (as_UpdateApprovalStatusByPlan p st s).2).
Proof.
  simpl. unfold UpdateApprovalStatusByPlan, stmt, db_write, mbind, db_bind. cbn.
  destruct (fault (stmts s)); cbn; [by split_and!; eauto|]. split_and!; [done|..].
  - simpl. unfold update_where. rewrite map_map. apply map_ext. intros a. by case_match.
  - intros a' Ha'. simpl in Ha'. unfold update_where in Ha'. apply list_elem_of_In, in_map_iff in Ha' as (a & <- & Ha).
    apply list_elem_of_In in Ha. exists a. split; [done|].
    destruct (of_plan p a) eqn:E; [|by auto]. split; [done|]. right.
    apply String.eqb_eq in E. simpl. rewrite E. by left.
Qed.

Lemma follow_trans ds ds' t t1 t2 :
  statuses_follow ds t t1 → statuses_follow ds' t1 t2 → statuses_follow (ds ++ ds') t t2.
Proof.
  intros (Hc & Hk & Hs) (Hc' & Hk' & Hs'). split_and!; [congruence|congruence|].
  intros a2 Ha2. destruct (Hs' a2 Ha2) as (a1 & Ha1 & Hr1 & Hst1).
  destruct (Hs a1 Ha1) as (a & Ha & Hr & Hst). exists a. split; [done|]. split; [congruence|].
  assert (Hp : a_plan a1 = a_plan a2) by (by injection Hr1).
  rewrite elem_of_app. destruct Hst1 as [->|?]; [|by auto]. rewrite <- Hp. naive_solver.
Qed.

Lemma decisions_follow ds s :
  statuses_follow ds (tabs s) (tabs (apply_decisions ds s)).
Proof.
  revert s. induction ds as [|[p st] ds IH]; intros s; simpl; [by split_and!; eauto|].
  change ((p, st) :: ds) with ([(p, st)] ++ ds). eapply follow_trans; [apply decision_follows|apply IH].
Qed.

(** C32: over the SQL store a pass changes nothing but statuses of approvals: no row
    is added or lost, no digest is recorded — so a plan approved in Linear has none
    to be compared with — and a row that is approved after the pass was approved
    before it, or its plan is named by an issue that carries the approved label. *)
Theorem watcher_over_sql now timeout (w : watching C store) :
  let '(_, w') := run_handler (syncOnce now timeout) w in
  let t := tabs (w_store w) in let t' := tabs (w_store w') in
  set_approvals (λ _, []) t' = set_approvals (λ _, []) t ∧
  map row_key (approvals t') = map row_key (approvals t) ∧
  ∀ a', a' ∈ approvals t' → a_status a' = "approved" →
    (∃ a, a ∈ approvals t ∧ row_key a = row_key a' ∧ a_status a = "approved") ∨
    ∃ i, i ∈ listed w ∧ issue_plan i = Some (a_plan a') ∧ labelApproved ∈ Labels i.
Proof.
  pose proof (syncOnce_writes now timeout w) as H. destruct (run_handler _ w) as [r w'].
  destruct H as (ds & _ & Hs & Happ). rewrite Hs.
  destruct (decisions_follow ds (w_store w)) as (Hc & Hk & Hst). split_and!; [done|done|].
  intros a' Ha' Ha. destruct (Hst a' Ha') as (a & Hin & Hr & [He|Hd]); rewrite Ha in *.
  - left. eauto.
  - right. by apply Happ.
Qed.
End sql.

(** *** At work *)

(** A client that lists the same issues whatever it is told. *)
Definition fixed_client : ApprovalClient (list Issue) := {|
  ac_CreateApprovalIssue _ c := (Ok "issue", c);
  ac_UpdateApprovalStatus _ _ c := (Ok tt, c);
  ac_ListApprovalIssues c := (Ok c, c) |}.

Definition demo_issues : list Issue :=
  [mkIssue "i1" (issue_title "plan_7") (issue_description "plan_7") [labelApproved] 5;
   mkIssue "i2" "plan_8" "" [labelPending] 5].

Definition demo_watching : watching (list Issue) store :=
  mkWatching demo_issues empty_store ∅ [].

Definition first_pass : result unit * watching (list Issue) store :=
  run_handler (@syncOnce _ _ fixed_client (store_approvals no_fault) 100 10) demo_watching.

Lemma watcher_quiescent_witness :
  w_decided first_pass.2 = [("plan_7", "approved"); ("plan_8", "expired")] ∧
  ∃ ds, w_decided (run_handler (@syncOnce _ _ fixed_client (store_approvals no_fault) 120 10)
               first_pass.2).2 = w_decided first_pass.2 ++ ds ∧
    ∀ planID status, (planID, status) ∈ ds → status = "expired" ∧
      ∃ i, i ∈ demo_issues ∧ overdue 100 10 i = false.
Proof.
  split; [reflexivity|].
  pose proof (@watcher_quiescent _ _ fixed_client (store_approvals no_fault) 100 120 10
    demo_watching first_pass.2 eq_refl) as H.
  assert (Hnd : NoDup (map i_ID demo_issues)) by (apply (bool_decide_unpack _); reflexivity).
  specialize (H Hnd eq_refl). destruct (run_handler _ first_pass.2) as [r w2].
  destruct H as (ds & Hd & _ & Hall). exists ds. split; [exact Hd|]. intros p st Hin.
  destruct (Hall p st Hin) as (-> & i & Hi & _ & _ & Ho & _). split; [done|]. by exists i.
Defined.

(** An issue that becomes overdue between the passes is written by the second one. *)
Example becomes_overdue :
  let pass now w := run_handler (@syncOnce _ _ fixed_client (store_approvals no_fault) now 10) w in
  let w1 := (pass 14%Z demo_watching).2 in
  w_decided w1 = [("plan_7", "approved")] ∧
  w_decided (pass 16%Z w1).2 = [("plan_7", "approved"); ("plan_8", "expired")].
Proof. split; vm_compute; reflexivity. Qed.

Lemma filed_issue_names_plan_witness :
  let planID := "plan_0" in
  issue_plan (mkIssue "i" (issue_title planID) (issue_description planID) [] 0) = Some planID.
Proof.
  apply (filed_issue_names_plan (λ _, 0%Z) no_fault same_json demo_plan empty_store).
  - intros _. lia.
  - vm_compute. reflexivity.
Defined.
