(* ===== verification/Pollers.v ===== *)
(** * Pollers: schedules, alerts and the rate limiter

    What the gateway does by the clock: Scheduler of internal/web/scheduler.go,
    which makes plans of due schedules, AlertPoller of alerts.go, which hands new
    alerts to the event loop, and RateLimiter of ratelimit.go.

    Times and durations are nanoseconds.  The cron parser is a parameter: the next
    activation after an instant, the zero time when there is none. *)

From S2P Require Import Prelude GoStrings Json ContextRef Steps Policy ToolValidate Store.
From S2P Require Import Http EventGate Gateway Plans Hooks Executor.
From Stdlib Require Import SpecFloat.

Local Open Scope string_scope.
Local Open Scope list_scope.

(** ** The scheduler *)

Record Schedule := mkSched {
  ScheduleID : string; sd_CreatedAt : Z; Cron : string; sd_Context : ContextRef;
  sd_Summary : string; sd_Intent : string; sd_Constraints : any; sd_Trigger : string;
  sd_Enabled : bool; LastRunAt : Z }.

Class ScheduleStore (S : Type) := {
  ss_ListSchedules : Z → Z → S → result (doc * Z) * S;
  ss_CreatePlan : json → S → result string * S;
  ss_UpdateScheduleLastRun : string → Z → S → result unit * S }.

(** The store, and the plans asked of it: the schedule each is of and its payload. *)
Record scheduling (S : Type) := mkScheduling { sd_store : S; sd_asked : list (string * json) }.
Arguments mkScheduling {S}.
Arguments sd_store {S}.
Arguments sd_asked {S}.

Section scheduler.
Context {S : Type} `{!ScheduleStore S}.
Variable time_parse : string → result Z.
(** A time in JSON, and formatted as RFC 3339. *)
Variables time_json rfc3339 : Z → string.
Variable cron : string → result (Z → Z).
Variable now : Z.
Notation world := (scheduling S).
Notation answer := (Z * option string)%type.
Notation body := (handler world answer answer).

Definition decode_schedule (j : json) : result Schedule :=
  fs ← Json.members j;
  id ← fld_string "schedule_id" fs; at_ ← fld_time time_parse "created_at" fs;
  spec ← fld_string "cron" fs; ctx ← fld_ref fs; summary ← fld_string "summary" fs;
  intent ← fld_string "intent" fs; cons ← fld_any "constraints" fs;
  trigger ← fld_string "trigger" fs; enabled ← fld_bool "enabled" fs;
  last ← fld_time time_parse "last_run_at" fs;
  Ok (mkSched id at_ spec ctx summary intent cons trigger enabled last).

Definition parseSchedules (data : doc) : result (list Schedule) :=
  match data with
  | doc_empty => Ok []
  | _ => j ← unmarshal data; decode_list decode_schedule j
  end.

(** Whether an enabled schedule is due. *)
Definition due (s : Schedule) : result bool :=
  next ← cron (TrimSpace (Cron s));
  let last := if (LastRunAt s =? zero_time)%Z then sd_CreatedAt s else LastRunAt s in
  Ok (negb (now <? next last)%Z).

Definition scheduled_plan (s : Schedule) : any :=
  AMap (amap [("trigger", AStr "scheduled"); ("summary", AStr (sd_Summary s));
    ("intent", AStr (sd_Intent s)); ("context", ref_any (sd_Context s));
    ("constraints", sd_Constraints s); ("risk_level", AStr (riskFromIntent (sd_Intent s)));
    ("created_at", AStr (time_json now));
    ("meta", AMap (amap [("schedule_id", AStr (ScheduleID s)); ("scheduled_at", AStr (rfc3339 now))]))]).

Definition on_schedules {R A} (f : S → A * S) : handler world R A :=
  call (λ w, let '(a, s) := f (sd_store w) in (a, mkScheduling s (sd_asked w))).

Definition give_count {A} (count : Z) (m : string) : handler world answer A := return_ (count, Some m).

(** The loop of RunOnce; [count] plans were made so far. *)
Fixpoint run_schedules (l : list Schedule) (count : Z) : body :=
  match l with
  | [] => mret (count, None)
  | s :: rest =>
      if negb (sd_Enabled s) then run_schedules rest count
      else
        d ← or_return (due s) (give_count count);
        if negb d then run_schedules rest count
        else
          data ← or_return (marshal (scheduled_plan s)) (give_count count);
          _ ← effect (λ w, mkScheduling (sd_store w) (sd_asked w ++ [(ScheduleID s, data)]));
          id ← on_schedules (ss_CreatePlan data);
          _ ← or_return id (give_count count);
          ok ← on_schedules (ss_UpdateScheduleLastRun (ScheduleID s) now);
          _ ← or_return ok (give_count count);
          run_schedules rest (count + 1)
  end.

Definition Scheduler_RunOnce : body :=
  data ← on_schedules (ss_ListSchedules 200 0);
  '(data, _) ← or_return data (give_count 0);
  l ← or_return (parseSchedules data) (give_count 0);
  run_schedules l 0.
End scheduler.

(** The store implements the scheduler's interface. *)
Definition store_schedules clock fault jsonb time_text : ScheduleStore store := {|
  ss_ListSchedules limit offset s :=
    let '(r, s') := ListSchedules fault time_text limit offset s in
    ('(j, n) ← r; Ok (doc_json j, n), s');
  ss_CreatePlan := CreatePlan clock fault jsonb;
  ss_UpdateScheduleLastRun := UpdateScheduleLastRun fault |}.

(** ** The alert poller *)

(** A map[string]string: its keys in order; nil is no map. *)
Definition str_map : Type := list (string * string).
Fixpoint put_label (k v : string) (l : str_map) : str_map :=
  match l with
  | [] => [(k, v)]
  | (k', v') :: l' =>
      if k =? k' then (k, v) :: l'
      else if String.ltb k k' then (k, v) :: l else (k', v') :: put_label k v l'
  end.
Definition str_map_any (m : option str_map) : any :=
  match m with
  | Some l => AStruct "map[string]string" (map (λ '(k, v), (k, AStr v)) l)
  | None => ANil
  end.

Record alertmanagerAlert := mkAlert {
  Fingerprint : string; StartsAt : string; al_Status : gmap string any; al_Labels : option str_map }.

(** A map[string]string decoded over the one there; [null] members are empty. *)
Definition decode_str_map (init : option str_map) (j : json) : result (option str_map) :=
  match j with
  | JNull => Ok None
  | JObj fs =>
      l ← fold_left (λ acc '(k, x),
        m ← acc;
        match x with
        | JStr v => Ok (put_label k v m)
        | JNull => Ok (put_label k "" m)
        | _ => Err json_error
        end) fs (Ok (default [] init));
      Ok (Some l)
  | _ => Err json_error
  end.

Definition decode_alert (j : json) : result alertmanagerAlert :=
  fs ← Json.members j;
  fp ← fld_string "fingerprint" fs; at_ ← fld_string "startsAt" fs;
  st ← fld (λ a x, match x with JNull => Ok ∅ | _ => m ← decode_map x; Ok (m ∪ a) end) "status" ∅ fs;
  labels ← fld decode_str_map "labels" None fs;
  Ok (mkAlert fp at_ st labels).

(** p.seen: when each fingerprint was last handed on; past a thousand entries those
    older than the window go. *)
Definition evict (window now : Z) (seen : gmap string Z) : gmap string Z :=
  if (1000 <? size seen)%nat then filter (λ kv, (now - kv.2 < window)%Z) seen else seen.

Definition recently (window now : Z) (last : option Z) : bool :=
  match last with Some t => (now - t <? window)%Z | None => false end.

(** Whether to skip the alert; when not, it is remembered. *)
Definition shouldSkip (window now : Z) (fingerprint : string) (seen : gmap string Z) :
    bool * gmap string Z :=
  if (window <=? 0)%Z then (false, seen)
  else if recently window now (seen !! fingerprint) then (true, seen)
  else (false, evict window now (<[fingerprint := now]> seen)).

Definition alert_state (a : alertmanagerAlert) : string :=
  match mget (al_Status a) "state" with AStr v => if v =? "" then "firing" else v | _ => "firing" end.

Definition polled_payload (a : alertmanagerAlert) (fingerprint : string) : gmap string any :=
  amap [("alerts", AList [AMap (amap [("fingerprint", AStr fingerprint);
    ("status", AStr (alert_state a)); ("startsAt", AStr (StartsAt a));
    ("labels", str_map_any (al_Labels a))])])].

(** The poller: the tools it asks, what its handler works on, and the alert events
    it stored: fingerprint, status, start and payload. *)
Record polling (W G : Type) := mkPolling {
  ap_tools : W; ap_handled : G; ap_ticks : nat; ap_seen : gmap string Z;
  ap_stored : list (string * string * Z * json) }.
Arguments mkPolling {W G}.
Arguments ap_tools {W G}.
Arguments ap_handled {W G}.
Arguments ap_ticks {W G}.
Arguments ap_seen {W G}.
Arguments ap_stored {W G}.

Section alerts.
Context {W G : Type} `{!ToolRunner W}.
Variable clock : nat → Z.
Variable time_parse : string → result Z.
Variable DedupWindow : Z.
Variable Store_ : bool.                  (* p.Store != nil *)
(** p.Handler; its error is ignored. *)
Variable Handler : option (string → gmap string any → G → result unit * G).
Notation world := (polling W G).
Notation answer := (Z * option string)%type.
Notation body := (handler world answer answer).

(** The clock is read only when there is a window. *)
Definition skip {R} (fingerprint : string) : handler world R bool :=
  call (λ w,
    let '(b, seen) := shouldSkip DedupWindow (clock (ap_ticks w)) fingerprint (ap_seen w) in
    (b, mkPolling (ap_tools w) (ap_handled w)
          (if (DedupWindow <=? 0)%Z then ap_ticks w else Datatypes.S (ap_ticks w)) seen (ap_stored w))).

(** A failure to store is ignored, and so is the handler's. *)
Definition pass_on {R} (a : alertmanagerAlert) (fingerprint : string) : handler world R unit :=
  let payload := polled_payload a fingerprint in
  let started := if StartsAt a =? "" then zero_time
                 else match time_parse (StartsAt a) with Ok t => t | Err _ => zero_time end in
  _ ← (match marshal (AMap payload) with
       | Ok raw =>
           if Store_ then
             effect (λ w, mkPolling (ap_tools w) (ap_handled w) (ap_ticks w) (ap_seen w)
                            (ap_stored w ++ [(fingerprint, alert_state a, started, raw)]))
           else mret tt
       | Err _ => mret tt
       end);
  match Handler with
  | None => mret tt
  | Some h =>
      effect (λ w, mkPolling (ap_tools w) (h "alertmanager" payload (ap_handled w)).2 (ap_ticks w)
                     (ap_seen w) (ap_stored w))
  end.

Fixpoint poll_alerts (l : list alertmanagerAlert) (count : Z) : body :=
  match l with
  | [] => mret (count, None)
  | a :: rest =>
      let fingerprint := TrimSpace (Fingerprint a) in
      if fingerprint =? "" then poll_alerts rest count
      else
        b ← skip fingerprint;
        if b : bool then poll_alerts rest count
        else _ ← pass_on a fingerprint; poll_alerts rest (count + 1)
  end.

Definition alerts_request : ExecuteRequest :=
  mkRequest "alertmanager" "alerts_list" (AMap ∅) "" "" empty_ref.

Definition AlertPoller_RunOnce : body :=
  out ← call (λ w, let '(r, t) := run_router alerts_request (ap_tools w) in
                   (r, mkPolling t (ap_handled w) (ap_ticks w) (ap_seen w) (ap_stored w)));
  out ← or_return out (λ m, return_ (0%Z, Some m));
  l ← or_return (j ← unmarshal (doc_of_text out); decode_list decode_alert j)
        (λ m, return_ (0%Z, Some m));
  poll_alerts l 0.
End alerts.

(** The handler the gateway gives its poller (cmd/gateway/main.go). *)
Definition poll_body {S} `{!GatewayDB S} (sv : Server) (fault : nat → option string)
    (source : string) (payload : gmap string any) :
    handler (gateway S) (result unit) (result unit) :=
  _ ← return_if (negb (shouldRunEventLoop sv source)) (Ok tt);
  _ ← (match sv_EventGate sv with
       | None => mret tt
       | Some _ =>
           '(allowed, _) ← gate_accept sv source payload fault;
           allowed ← or_return allowed (λ e, return_ (Err e));
           return_if (negb allowed) (Ok tt)
       end);
  r ← call (run_handler (runAlertEventLoop sv None source payload));
  mret (_ ← r; Ok tt).

Definition poll_handler {S} `{!GatewayDB S} (sv : Server) (fault : nat → option string)
    (source : string) (payload : gmap string any) : gateway S → result unit * gateway S :=
  run_handler (poll_body sv fault source payload).

(** ** The rate limiter *)

Definition fprec : Z := 53.
Definition femax : Z := 1024.
Definition f_of_Z (z : Z) : spec_float :=
  match z with
  | Z0 => S754_zero false
  | Zpos p => binary_round fprec femax false p 0
  | Zneg p => binary_round fprec femax true p 0
  end.
Definition f_one : spec_float := f_of_Z 1.

Definition nano : Z := 1000000000.

(** Duration.Seconds: Go divides towards zero. *)
Definition Seconds (d : Z) : spec_float :=
  SFadd fprec femax (f_of_Z (Z.quot d nano))
    (SFdiv fprec femax (f_of_Z (Z.rem d nano)) (f_of_Z nano)).

Record rateLimitEntry := mkEntry { tokens : spec_float; lastCheck : Z }.
Record RateLimiter := mkLimiter {
  rl_clients : gmap string rateLimitEntry; rate : spec_float; burst : Z; lastSweep : Z }.

Definition NewRateLimiter (ratePerSecond : spec_float) (burst now : Z) : RateLimiter :=
  mkLimiter ∅ ratePerSecond burst now.

(** Stale entries go at most every five minutes. *)
Definition sweep (now : Z) (rl : RateLimiter) : RateLimiter :=
  if (5 * 60 * nano <? now - lastSweep rl)%Z then
    mkLimiter (filter (λ kv, (now - 10 * 60 * nano ≤ lastCheck kv.2)%Z) (rl_clients rl))
      (rate rl) (burst rl) now
  else rl.

Definition set_entry (ip : string) (e : rateLimitEntry) (rl : RateLimiter) : RateLimiter :=
  mkLimiter (<[ip := e]> (rl_clients rl)) (rate rl) (burst rl) (lastSweep rl).

(** The tokens after [elapsed]: never more than the burst. *)
Definition refill (rl : RateLimiter) (elapsed : Z) (t : spec_float) : spec_float :=
  let t := SFadd fprec femax t (SFmul fprec femax (Seconds elapsed) (rate rl)) in
  if SFltb (f_of_Z (burst rl)) t then f_of_Z (burst rl) else t.

Definition Allow (now : Z) (ip : string) (rl : RateLimiter) : bool * RateLimiter :=
  let rl := sweep now rl in
  match rl_clients rl !! ip with
  | None => (true, set_entry ip (mkEntry (SFsub fprec femax (f_of_Z (burst rl)) f_one) now) rl)
  | Some e =>
      let t := refill rl (now - lastCheck e) (tokens e) in
      if SFltb t f_one then (false, set_entry ip (mkEntry t now) rl)
      else (true, set_entry ip (mkEntry (SFsub fprec femax t f_one) now) rl)
  end.

(** The client a request is counted for: the first address of X-Forwarded-For as it
    is written, else the host of the remote address. *)
Definition clientIP (xff remoteAddr : string) (SplitHostPort : string → result string) : string :=
  if xff =? "" then match SplitHostPort remoteAddr with Ok host => host | Err _ => remoteAddr end
  else match cut_at xff "," with Some (first, _) => first | None => xff end.

Definition RateLimitMiddleware {A} (now : Z) (ip : string) (next : RateLimiter → A)
    (refuse : Response → RateLimiter → A) (rl : RateLimiter) : A :=
  let '(ok, rl) := Allow now ip rl in
  if ok : bool then next rl else refuse (http_error "rate limit exceeded" 429) rl.

(** ** Proofs *)

Section schedule_proof.
Context {S : Type} `{!ScheduleStore S}.
Variable time_parse : string → result Z.
Variables time_json rfc3339 : Z → string.
Variable cron : string → result (Z → Z).
Variable now : Z.
Notation world := (scheduling S).

(** Enabled, with a schedule that parses, and due. *)
Definition due_now (s : Schedule) : bool :=
  sd_Enabled s && match due cron now s with Ok b => b | Err _ => false end.

Definition plan_asked (s : Schedule) : option (string * json) :=
  if due_now s then
    match marshal (scheduled_plan time_json rfc3339 now s) with
    | Ok data => Some (ScheduleID s, data) | Err _ => None
    end
  else None.

(** What a pass over [l] asks the store for, when it answers (n, err): a plan per due
    schedule, in order; an error ends the pass at an enabled schedule — because its
    cron does not parse, or its plan was not stored. *)
Definition pass_over (l : list Schedule) (n : Z) (err : option string)
    (asked : list (string * json)) : Prop :=
  ∃ processed rest,
    l = processed ++ rest ∧ n = Z.of_nat (length (omap plan_asked processed)) ∧
    Forall (λ s, sd_Enabled s = true → is_ok (due cron now s) = true) processed ∧
    match err with
    | None => rest = [] ∧ asked = omap plan_asked processed
    | Some _ => ∃ s others, rest = s :: others ∧ sd_Enabled s = true ∧
        (asked = omap plan_asked processed ∧ (is_ok (due cron now s) = false ∨ due_now s = true) ∨
         asked = omap plan_asked (processed ++ [s]) ∧ due_now s = true)
    end.

Lemma pass_cons s l n err asked :
  (sd_Enabled s = true → is_ok (due cron now s) = true) → pass_over l n err asked →
  pass_over (s :: l) (Z.of_nat (length (omap plan_asked [s])) + n) err (omap plan_asked [s] ++ asked).
Proof.
  intros Hs (processed & rest & -> & -> & Hall & H). exists (s :: processed), rest. split; [done|].
  assert (Hc : ∀ l, omap plan_asked (s :: l) = omap plan_asked [s] ++ omap plan_asked l).
  { intros l. simpl. by destruct (plan_asked s). }
  rewrite (Hc processed), length_app. split; [lia|]. split; [by constructor|].
  destruct err as [m|].
  - destruct H as (x & others & -> & He & Ha). exists x, others. split; [done|]. split; [done|].
    change ((s :: processed) ++ [x]) with (s :: processed ++ [x]). rewrite (Hc (processed ++ [x])).
    destruct Ha as [[-> ?]|[-> ?]]; auto.
  - by destruct H as [-> ->].
Qed.

Lemma wp_run_schedules l n w :
  let Q (r : Z * option string) w' :=
    ∃ k asked, r.1 = (n + k)%Z ∧ sd_asked w' = sd_asked w ++ asked ∧ pass_over l k r.2 asked in
  wp (run_schedules time_json rfc3339 cron now l n) Q Q w.
Proof.
  revert n w. induction l as [|s l IH]; intros n w Q; simpl.
  { apply wp_ret. exists 0%Z, []. rewrite app_nil_r. split; [simpl; lia|]. split; [done|].
    by exists [], []; repeat split. }
  assert (Hskip : (sd_Enabled s = true → is_ok (due cron now s) = true) → plan_asked s = None →
    wp (run_schedules time_json rfc3339 cron now l n) Q Q w).
  { intros Hok Hs. eapply wp_mono; [apply IH|..]; intros r w' (k & asked & Hk & Ha & Hp);
      (exists k, asked; split; [done|]; split; [done|]);
      (apply (pass_cons s) in Hp; [|done]); simpl in Hp; by rewrite Hs in Hp. }
  assert (Hstop : ∀ m w' asked, sd_Enabled s = true → sd_asked w' = sd_asked w ++ asked →
    (asked = [] ∧ (is_ok (due cron now s) = false ∨ due_now s = true) ∨
     asked = omap plan_asked [s] ∧ due_now s = true) → Q (n, Some m) w').
  { intros m w' asked He Ha Hc. exists 0%Z, asked. split; [simpl; lia|]. split; [done|].
    exists [], (s :: l). split_and!; [done|done|constructor|]. exists s, l. by split_and!. }
  assert (Hdue : ∀ d, sd_Enabled s = true → due cron now s = Ok d → due_now s = d).
  { intros d He Hd. unfold due_now. by rewrite He, Hd. }
  assert (Hnot : due_now s = false → plan_asked s = None) by (unfold plan_asked; by intros ->).
  destruct (sd_Enabled s) eqn:He; simpl.
  2: { apply Hskip; [done|]. apply Hnot. unfold due_now. by rewrite He. }
  apply wp_bind, wp_or_return; split; [intros d Hd|intros m Hd].
  2: { apply wp_return. eapply (Hstop m w []); [done|by rewrite app_nil_r|]. rewrite Hd. auto. }
  specialize (Hdue d eq_refl Hd). destruct d; simpl; [|apply Hskip; [by rewrite Hd|by apply Hnot]].
  apply wp_bind, wp_or_return; split; [intros data Hdata|intros m Hdata].
  2: { apply wp_return. eapply (Hstop m w []); [done|by rewrite app_nil_r|]. auto. }
  assert (Hplan : plan_asked s = Some (ScheduleID s, data)).
  { unfold plan_asked. by rewrite Hdue, Hdata. }
  clear Hdata Hskip. apply wp_bind, wp_effect, wp_bind, wp_call.
  assert (Hend : ∀ m w', sd_asked w' = sd_asked w ++ [(ScheduleID s, data)] → Q (n, Some m) w').
  { intros m w' Ha. eapply (Hstop m w'); [done|exact Ha|]. right. simpl. by rewrite Hplan. }
  destruct (ss_CreatePlan data _) as [id st1]. simpl.
  apply wp_bind, wp_or_return; split; intros x _; [|by apply wp_return, Hend].
  apply wp_bind, wp_call. destruct (ss_UpdateScheduleLastRun _ _ _) as [ok st2]. simpl.
  apply wp_bind, wp_or_return; split; intros y _; [|by apply wp_return, Hend].
  eapply wp_mono; [apply IH|..]; intros r w' (k & asked & Hk & Ha & Hp);
    (exists (1 + k)%Z, ([(ScheduleID s, data)] ++ asked); split; [lia|];
     split; [rewrite (assoc_L (++)); exact Ha|]);
    (apply (pass_cons s) in Hp; [|by rewrite Hd]); simpl in Hp; by rewrite Hplan in Hp.
Qed.

(** A pass of the scheduler makes one plan per enabled schedule that is due, in
    the order listed, and none for any other; an error — a cron text that does not
    parse, or a statement that fails — ends the pass there, and the schedules after
    it are not looked at. *)
Theorem scheduler_pass (w : world) :
  let '((n, err), w') := run_handler (Scheduler_RunOnce time_parse time_json rfc3339 cron now) w in
  match (ss_ListSchedules 200 0 (sd_store w)).1 with
  | Err m => n = 0%Z ∧ err = Some m ∧ sd_asked w' = sd_asked w
  | Ok (data, _) =>
      match parseSchedules time_parse data with
      | Err m => n = 0%Z ∧ err = Some m ∧ sd_asked w' = sd_asked w
      | Ok l => ∃ asked, sd_asked w' = sd_asked w ++ asked ∧ pass_over l n err asked
      end
  end.
Proof.
  set (P := λ (r : Z * option string) (w' : world), match (ss_ListSchedules 200 0 (sd_store w)).1 with
    | Err m => r.1 = 0%Z ∧ r.2 = Some m ∧ sd_asked w' = sd_asked w
    | Ok (data, _) =>
        match parseSchedules time_parse data with
        | Err m => r.1 = 0%Z ∧ r.2 = Some m ∧ sd_asked w' = sd_asked w
        | Ok l => ∃ asked, sd_asked w' = sd_asked w ++ asked ∧ pass_over l r.1 r.2 asked
        end
    end).
  enough (H : wp (Scheduler_RunOnce time_parse time_json rfc3339 cron now) P P w).
  { apply wp_run in H. by destruct (run_handler _ w) as [[n err] w']. }
  unfold P. clear P. apply wp_bind, wp_call.
  destruct (ss_ListSchedules 200 0 (sd_store w)) as [r s] eqn:El. simpl.
  destruct r as [[data total]|m]; [|by apply wp_bind, wp_return].
  apply wp_bind, wp_ret, wp_bind.
  destruct (parseSchedules time_parse data) as [l|m]; [|by apply wp_return].
  apply wp_ret. eapply wp_mono; [apply wp_run_schedules|..];
    intros r w' (k & asked & Hk & Ha & Hp); exists asked; (split; [exact Ha|by rewrite Hk]).
Qed.
End schedule_proof.

(** *** Deduplication *)

(** The test without eviction: every fingerprint's last time is kept for ever. *)
Definition skip_forever (window now : Z) (fingerprint : string) (seen : gmap string Z) :
    bool * gmap string Z :=
  if (window <=? 0)%Z then (false, seen)
  else if recently window now (seen !! fingerprint) then (true, seen)
  else (false, <[fingerprint := now]> seen).

(** Which of the calls, each a time and a fingerprint, are skipped. *)
Fixpoint skipped (test : Z → string → gmap string Z → bool * gmap string Z)
    (calls : list (Z * string)) (seen : gmap string Z) : list bool :=
  match calls with
  | [] => []
  | (now, fp) :: rest => let '(b, seen) := test now fp seen in b :: skipped test rest seen
  end.

(** What eviction may have lost at [now] is out of the window. *)
Definition forgets (window now : Z) (seen all : gmap string Z) : Prop :=
  ∀ fp, seen !! fp = all !! fp ∨ seen !! fp = None ∧ recently window now (all !! fp) = false.

Lemma recently_later window now now' last :
  (now ≤ now')%Z → recently window now last = false → recently window now' last = false.
Proof. destruct last as [t|]; simpl; [|done]. rewrite !Z.ltb_ge. lia. Qed.

Lemma forgets_later window now now' seen all :
  (now ≤ now')%Z → forgets window now seen all → forgets window now' seen all.
Proof.
  intros Hn H fp. destruct (H fp) as [?|[? Hr]]; [by left|right]. eauto using recently_later.
Qed.

Lemma forgets_evict window now seen all :
  forgets window now seen all → forgets window now (evict window now seen) all.
Proof.
  intros H fp. unfold evict. case_match; [|done].
  destruct (filter (λ kv, (now - kv.2 < window)%Z) seen !! fp) as [t|] eqn:E.
  - apply map_lookup_filter_Some in E as [E _]. destruct (H fp) as [<-|[? _]]; [by left|congruence].
  - apply map_lookup_filter_None in E. destruct (H fp) as [Hf|[_ ?]]; [|by right].
    destruct E as [E|E]; [left; congruence|right]. rewrite <- Hf. split; [done|].
    destruct (seen !! fp) as [t|] eqn:Et; [|done]. apply Z.ltb_ge.
    specialize (E t eq_refl). simpl in E. lia.
Qed.

Lemma skip_step window now fp seen all :
  forgets window now seen all →
  let '(b, seen') := shouldSkip window now fp seen in
  let '(b', all') := skip_forever window now fp all in
  b = b' ∧ forgets window now seen' all'.
Proof.
  intros H. unfold shouldSkip, skip_forever. destruct (window <=? 0)%Z; [done|].
  assert (Hsame : recently window now (seen !! fp) = recently window now (all !! fp)).
  { destruct (H fp) as [->|[-> ->]]; done. }
  rewrite Hsame. destruct (recently _ _ (all !! fp)); [done|]. split; [done|].
  apply forgets_evict. intros k. destruct (decide (k = fp)) as [->|].
  - left. by rewrite !lookup_insert_eq.
  - rewrite !lookup_insert_ne by done. apply H.
Qed.

(** The calls' times do not go back, and start at [now] or later. *)
Fixpoint not_before (now : Z) (calls : list (Z * string)) : Prop :=
  match calls with
  | [] => True
  | (t, _) :: rest => (now ≤ t)%Z ∧ not_before t rest
  end.

Lemma skipped_same window calls now seen all :
  not_before now calls → forgets window now seen all →
  skipped (shouldSkip window) calls seen = skipped (skip_forever window) calls all.
Proof.
  revert now seen all. induction calls as [|[t fp] calls IH]; intros now seen all Ht Hf; [done|].
  destruct Ht as [Hle Ht]. simpl.
  pose proof (skip_step window t fp seen all (forgets_later _ _ _ _ _ Hle Hf)) as H.
  destruct (shouldSkip window t fp seen) as [b seen'], (skip_forever window t fp all) as [b' all'].
  destruct H as [-> H]. f_equal. by apply (IH t).
Qed.

(** C38: forgetting old alerts changes nothing: with a clock that does not go back,
    the poller skips exactly the alerts it would skip if it remembered every alert
    it ever handed on: those handed on less than a window ago. *)
Theorem dedup_exact window start calls :
  not_before start calls →
  skipped (shouldSkip window) calls ∅ = skipped (skip_forever window) calls ∅.
Proof. intros H. apply (skipped_same window calls start); [done|]. intros fp. by left. Qed.

Lemma dedup_exact_witness :
  let calls := [(0%Z, "a"); (5%Z, "a"); (5%Z, "b"); (12%Z, "a")] in
  skipped (shouldSkip 10) calls ∅ = [false; true; false; false] ∧
  skipped (shouldSkip 10) calls ∅ = skipped (skip_forever 10) calls ∅.
Proof. split; [reflexivity|]. apply (dedup_exact 10 0). simpl. lia. Defined.

(** *** Polled alerts *)

Section polled.
Context {S : Type} `{!GatewayDB S}.
Variable sv : Server.

Lemma polled_labels a fp : extractAlertLabels (polled_payload a fp) = ∅.
Proof.
  unfold extractAlertLabels, polled_payload. rewrite mget_amap_cons.
  assert (Hl : as_map (mget (amap [("fingerprint", AStr fp); ("status", AStr (alert_state a));
    ("startsAt", AStr (StartsAt a)); ("labels", str_map_any (al_Labels a))]) "labels") = None).
  { unfold mget. rewrite amap_assoc. simpl. by destruct (al_Labels a). }
  by rewrite Hl.
Qed.

Lemma polled_context a fp : contextFromHook (polled_payload a fp) = empty_ref.
Proof.
  unfold contextFromHook. rewrite polled_labels.
  assert (Hc : mget (polled_payload a fp) "context" = ANil).
  { unfold mget, polled_payload. by rewrite amap_assoc. }
  by rewrite Hc.
Qed.

(** No alert the gateway's poller finds ever becomes a plan: the poller keeps an
    alert's labels as a map of strings, which the event loop's type assertions do
    not match, so that the alert has no tenant and the loop refuses it before it
    asks the policy, the planner or the database for anything. *)
Theorem polled_alerts_make_no_plan fault a fp w :
  let '(r, w') := poll_handler sv fault "alertmanager" (polled_payload a fp) w in
  g_db w' = g_db w ∧ g_out w' = g_out w ∧
  (shouldRunEventLoop sv "alertmanager" = true → sv_EventGate sv = None → is_ok r = false).
Proof.
  set (Q := λ (r : result unit) (w' : gateway S), g_db w' = g_db w ∧ g_out w' = g_out w ∧
    (shouldRunEventLoop sv "alertmanager" = true → sv_EventGate sv = None → is_ok r = false)).
  enough (H : wp (poll_body sv fault "alertmanager" (polled_payload a fp)) Q Q w).
  { apply wp_run in H. unfold poll_handler. by destruct (run_handler _ w). }
  apply wp_bind, wp_return_if; split;
    [intros He%negb_true_iff; split_and!; [done|done|congruence]|intros _].
  assert (Hloop : ∀ w0, g_db w0 = g_db w → g_out w0 = g_out w →
    wp (r ← call (run_handler (runAlertEventLoop sv None "alertmanager" (polled_payload a fp)));
        mret (_ ← r; Ok tt)) Q Q w0).
  { intros w0 Hdb Hout. apply wp_bind, wp_call.
    enough (He : ∃ m, run_handler (runAlertEventLoop sv None "alertmanager" (polled_payload a fp)) w0
                      = (Err m, w0)) by (destruct He as [m ->]; by apply wp_ret).
    unfold runAlertEventLoop. rewrite polled_context. unfold run_handler, mbind, handler_bind, return_if.
    destruct (negb (sv_DB sv)); simpl; by eexists. }
  destruct (sv_EventGate sv) as [gate|] eqn:Eg; [|by apply wp_bind, wp_ret, Hloop].
  apply wp_bind, wp_bind. unfold gate_accept. apply wp_bind, wp_call, wp_call. rewrite ?Eg.
  match goal with |- context [Accept ?f ?e ?s ?p ?t ?g] => destruct (Accept f e s p t g) as [[r fpr] gs] end.
  simpl.
  apply wp_bind, wp_or_return; split; intros x _.
  - apply wp_return_if; split; intros _; [by split_and!|by apply Hloop].
  - apply wp_return. by split_and!.
Qed.
End polled.

(** *** The rate limiter at an instant *)

Definition finite (f : spec_float) : bool :=
  match f with S754_zero _ | S754_finite _ _ _ => true | _ => false end.

Lemma SFltb_irrefl f : SFltb f f = false.
Proof.
  unfold SFltb, SFcompare. destruct f as [s|s| |s m e]; [by destruct s|by destruct s|done|].
  rewrite Z.compare_refl. destruct s; by rewrite Pos.compare_refl.
Qed.

(** No time, no tokens; only the sign of a zero may change. *)
Lemma refill_nothing rl t :
  finite (rate rl) = true →
  let t' := SFadd fprec femax t (SFmul fprec femax (Seconds 0) (rate rl)) in
  SFltb t' f_one = SFltb t f_one ∧ ∀ b, SFltb b t' = SFltb b t.
Proof.
  intros Hr. replace (Seconds 0) with (S754_zero false) by reflexivity.
  destruct (rate rl) as [s|s| |s m e]; try done; simpl;
    destruct t as [[]|[]| |[]]; destruct s; simpl; auto;
    (split; [done|]); intros [[]|[]| |[]]; done.
Qed.

Lemma sweep_twice now rl : sweep now (sweep now rl) = sweep now rl.
Proof.
  unfold sweep at 2 3. destruct (Z.ltb_spec (5 * 60 * nano) (now - lastSweep rl)).
  - unfold sweep. simpl. case_match; bool_hyps; [unfold nano in *; lia|done].
  - unfold sweep. case_match; bool_hyps; [lia|done].
Qed.

Lemma sweep_set now ip e rl : sweep now rl = rl → sweep now (set_entry ip e rl) = set_entry ip e rl.
Proof.
  unfold sweep. simpl. case_match; bool_hyps; [|done].
  intros H'. exfalso. assert (lastSweep rl = now) by (by rewrite <- H' at 1). unfold nano in *. lia.
Qed.

(** A client the limiter refuses is refused again until time passes, however
    often it asks in between. *)
Theorem refused_until_time_passes now ip rl rl' n :
  finite (rate rl) = true → Allow now ip rl = (false, rl') →
  (Allow now ip (Nat.iter n (λ l, (Allow now ip l).2) rl')).1 = false.
Proof.
  intros Hr Ha.
  set (P := λ l : RateLimiter, sweep now l = l ∧ rate l = rate rl ∧ burst l = burst rl ∧
    ∃ t, rl_clients l !! ip = Some (mkEntry t now) ∧ SFltb t f_one = true ∧
         SFltb (f_of_Z (burst rl)) t = false).
  assert (Hstep : ∀ l, P l → (Allow now ip l).1 = false ∧ P (Allow now ip l).2).
  { intros l (Hs & Hrate & Hburst & t & Hl & H1 & Hb). unfold Allow. rewrite Hs, Hl. simpl.
    rewrite Z.sub_diag. unfold refill. rewrite Hburst, Hrate.
    destruct (refill_nothing rl t Hr) as [He Hc]. rewrite Hc, Hb. cbn iota. rewrite He, H1. split; [done|].
    split_and!; [by apply sweep_set|done|done|]. eexists. split; [apply lookup_insert_eq|].
    by rewrite He, Hc. }
  assert (H0 : P rl').
  { unfold Allow in Ha. destruct (rl_clients (sweep now rl) !! ip) as [e|] eqn:El; [|done].
    destruct (SFltb _ f_one) eqn:E1; [|done]. injection Ha as <-.
    assert (Hrb : rate (sweep now rl) = rate rl ∧ burst (sweep now rl) = burst rl)
      by (unfold sweep; by case_match).
    destruct Hrb as [Hr' Hb']. split_and!; [apply sweep_set, sweep_twice|done|done|].
    eexists. split; [apply lookup_insert_eq|]. split; [exact E1|].
    unfold refill. rewrite Hb'. case_match; [apply SFltb_irrefl|done]. }
  assert (Hn : P (Nat.iter n (λ l, (Allow now ip l).2) rl')).
  { induction n as [|n IH]; [done|]. simpl. by apply Hstep. }
  by apply Hstep.
Qed.

(** One request per second, two at once. *)
Definition demo_limiter : RateLimiter := NewRateLimiter f_one 2 0.
Definition demo_allow (t : Z) (l : RateLimiter) : RateLimiter := (Allow t "10.0.0.1" l).2.
Definition refused_limiter : RateLimiter := demo_allow 5 (demo_allow 5 (demo_allow 5 demo_limiter)).

Lemma refused_until_time_passes_witness :
  (Allow 5 "10.0.0.1" (Nat.iter 3 (demo_allow 5) refused_limiter)).1 = false ∧
  (Allow (5 + nano) "10.0.0.1" refused_limiter).1 = true.
Proof.
  split; [|vm_compute; reflexivity].
  apply (refused_until_time_passes 5 "10.0.0.1" (demo_allow 5 (demo_allow 5 demo_limiter)) refused_limiter 3);
    vm_compute; reflexivity.
Defined.

(** *** A schedule that never comes *)

(** The cron library answers the zero time for a schedule without an activation. *)
Definition never_cron : string → result (Z → Z) := λ _, Ok (λ _, zero_time).

Definition impossible_schedule : json :=
  JObj [("cron", JStr "0 0 31 2 *"); ("summary", JStr "cleanup"); ("intent", JStr "delete old pods");
        ("context", JObj []); ("trigger", JStr "scheduled"); ("enabled", JBool true)].

Definition demo_parse (s : string) : result Z := Atoi s.
Definition scheduled_store : store :=
  (CreateSchedule tick_clock no_fault same_json impossible_schedule empty_store).2.
Definition demo_pass (now : Z) (s : store) : Z * option string * store :=
  let '(r, w) := run_handler (@Scheduler_RunOnce _ (store_schedules tick_clock no_fault same_json itoa)
                                demo_parse itoa itoa never_cron now) (mkScheduling s []) in
  (r, sd_store w).

(** A schedule that can never fire fires at every pass: the next activation it
    does not have is the zero time, which is not after now; two passes a second
    apart make two plans — of a destructive intent, without an approval row. *)
Theorem impossible_schedule_fires :
  let '(r1, s1) := demo_pass 100 scheduled_store in
  let '(r2, s2) := demo_pass (100 + nano) s1 in
  r1 = (1%Z, None) ∧ r2 = (1%Z, None) ∧
  map (λ p, (p_intent p.2, p_risk p.2)) (map_to_list (plans (tabs s2)))
  = [(Some "delete old pods", "high"); (Some "delete old pods", "high")] ∧
  approvals (tabs s2) = [].
Proof. vm_compute. auto. Qed.
