(* ===== verification/Collectors.v ===== *)
(** * Collectors: what the service graph is made of

    internal/context/collectors: the pollers, which ask the tool router about the
    platform and turn its answers into snapshots, and the watchers, which send the
    context service what changed; and the pollers and watchers cmd/gateway/main.go
    builds from the configuration.  Every snapshot is closed: its edges join its
    nodes.

    Router.Execute is Executor's interface [ToolRunner]; what it answers is text.
    A slice that may be nil is an [option], as in Graph. *)

From S2P Require Import Prelude GoStrings Json Digest ContextRef Steps Policy ToolValidate Shelves.
From S2P Require Import Store Library Executor Graph Pollers.
From Stdlib Require Import SpecFloat.

Local Open Scope string_scope.
Local Open Scope list_scope.

(** hash and hashTempo, the same function twice: sum[:8] in hexadecimal. *)
Definition hash (value : string) : string := hex (take_bytes 8 (sha1 value)).
Definition hashTempo (value : string) : string := hex (take_bytes 8 (sha1 value)).

(** ** Nodes, edges and labels *)

Record Base := mkBase {
  b_Router : bool;                       (* Router != nil *)
  b_Context : ContextRef;
  b_Labels : gmap string string }.

(** What is given overrides the base labels. *)
Definition withLabels (b : Base) (extra : gmap string string) : gmap string string :=
  extra ∪ b_Labels b.

Definition nodeID (parts : list string) : string :=
  join (filter (λ part, part ≠ "") (map TrimSpace parts)) "/".

Definition node (kind id name : string) (labels : gmap string string) : Node :=
  mkNode id kind name (Some labels) "".
Definition edge (id from to relation : string) : Edge := mkEdge id from to relation.

(** The edge every collector draws: its id names its ends. *)
Definition edge_between (from to relation : string) : Edge :=
  edge (nodeID ["edge"; from; to]) from to relation.

(** Nodes and edges to append. *)
Definition parts : Type := list Node * list Edge.
Definition no_parts : parts := ([], []).
Definition add_parts (p q : parts) : parts := (p.1 ++ q.1, p.2 ++ q.2).
Definition gather {A} (f : A → parts) (l : list A) : parts :=
  fold_right (λ a acc, add_parts (f a) acc) no_parts l.

(** Appending to a nil slice: nothing leaves it nil. *)
Definition slice {A} (l : list A) : option (list A) := match l with [] => None | _ => Some l end.
Definition snapshot_of (p : parts) : Snapshot := mkSnap (slice p.1) (slice p.2).

(** [s, _ := m[key].(string)] *)
Definition str_of (m : gmap string any) (key : string) : string := default "" (as_string (mget m key)).

(** The string at the end of a path of maps, trimmed. *)
Definition stringField (obj : gmap string any) (path : list string) : string :=
  match fold_left (λ cur key, m ← (cur ≫= as_map); (m : gmap string any) !! key) path (Some (AMap obj)) with
  | Some (AStr s) => TrimSpace s
  | _ => ""
  end.

(** [json.Unmarshal(payload, &items)], nothing when it fails. *)
Definition items_of (payload : string) : list (gmap string any) :=
  match j ← unmarshal (doc_of_text payload); decode_maps j with Ok items => items | Err _ => [] end.
Definition object_of (payload : string) : gmap string any :=
  match unmarshal_map (doc_of_text payload) with Ok m => m | Err _ => ∅ end.

(** ** What each answer says *)

(** AlertmanagerPoller: an alert, and the service its labels name. *)
Definition alert_labels (p : Base) (alert : gmap string any) : gmap string string :=
  match as_map (mget alert "labels") with
  | Some l => omap (λ v, s ← as_string v; if blank s then None else Some s) l
              ∪ withLabels p ∅
  | None => withLabels p ∅
  end.

Definition alert_parts (p : Base) (alert : gmap string any) : parts :=
  let fp := TrimSpace (str_of alert "fingerprint") in
  if fp =? "" then no_parts
  else
    let labels := alert_labels p alert in
    let alertID := nodeID ["alert"; fp] in
    let service := default "" (labels !! "service") in
    let service := if service =? "" then default "" (labels !! "app") else service in
    let svcID := nodeID ["service"; service] in
    add_parts ([node "alert" alertID fp labels], [])
      (if blank service then no_parts
       else ([node "service" svcID service labels], [edge_between alertID svcID "alerts"])).

(** snapshotFromArgoList *)
Definition argo_parts (labels : gmap string string) (allowed : list string)
    (app : gmap string any) : parts :=
  let name := stringField app ["metadata"; "name"] in
  if name =? "" then no_parts
  else if negb (Nat.eqb (length allowed) 0) && negb (mem name allowed) then no_parts
  else
    let appID := nodeID ["argocd"; "app"; name] in
    let namespace := stringField app ["spec"; "destination"; "namespace"] in
    let nsID := nodeID ["k8s"; "namespace"; namespace] in
    add_parts ([node "argocd.app" appID name labels], [])
      (if namespace =? "" then no_parts
       else ([node "k8s.namespace" nsID namespace labels], [edge_between appID nsID "targets"])).

Definition snapshotFromArgoList (payload : string) (labels : gmap string string)
    (allow : list string) : Snapshot :=
  let allowed := filter (λ name, name ≠ "") (map TrimSpace allow) in
  snapshot_of (gather (argo_parts labels allowed) (items_of payload)).

Definition parseARN (arn : string) : string * string :=
  let l := split_byte (byte 58) arn in
  if (length l <? 6)%nat then ("", "") else (nth 2 l "", nth 4 l "").

Definition aws_parts (labels : gmap string string) (item : any) : parts :=
  match as_map item with
  | None => no_parts
  | Some m =>
      let arn := str_of m "ResourceARN" in
      if arn =? "" then no_parts
      else
        let '(service, account) := parseARN arn in
        let resID := nodeID ["aws"; service; arn] in
        let resLabels := labels ∪ <["service" := service]> {["account" := account]} in
        let acctID := nodeID ["aws"; "account"; account] in
        add_parts ([node "aws.resource" resID arn resLabels], [])
          (if account =? "" then no_parts
           else ([node "aws.account" acctID account labels], [edge_between acctID resID "contains"]))
  end.

Definition snapshotFromAWSResources (payload : string) (labels : gmap string string) : Snapshot :=
  let items := default [] (as_list (mget (object_of payload) "ResourceTagMappingList")) in
  snapshot_of (gather (aws_parts labels) items).

Definition grafana_parts (labels : gmap string string) (item : gmap string any) : parts :=
  let uid := str_of item "uid" in
  let title := str_of item "title" in
  if blank uid then no_parts
  else
    let id := nodeID ["grafana"; "dashboard"; uid] in
    add_parts ([node "grafana.dashboard" id title labels], [])
      match mget item "folderId" with
      | AFloat folderID =>
          if SFltb (S754_zero false) folderID then
            let name := itoa (float_to_int folderID) in
            let folder := nodeID ["grafana"; "folder"; name] in
            ([node "grafana.folder" folder name labels], [edge_between folder id "contains"])
          else no_parts
      | _ => no_parts
      end.

Definition snapshotFromGrafana (payload : string) (labels : gmap string string) : Snapshot :=
  snapshot_of (gather (grafana_parts labels) (items_of payload)).

Definition helm_parts (labels : gmap string string) (rel : gmap string any) : parts :=
  let name := str_of rel "name" in
  let namespace := str_of rel "namespace" in
  if blank name then no_parts
  else
    let id := nodeID ["helm"; "release"; namespace; name] in
    let relLabels := labels ∪ {["namespace" := namespace]} in
    let nsID := nodeID ["k8s"; "namespace"; namespace] in
    add_parts ([node "helm.release" id name relLabels], [])
      (if namespace =? "" then no_parts
       else ([node "k8s.namespace" nsID namespace labels], [edge_between nsID id "contains"])).

Definition snapshotFromHelmList (payload : string) (labels : gmap string string) : Snapshot :=
  snapshot_of (gather (helm_parts labels) (items_of payload)).

(** Of nil, or of anything but a map with a string: none. *)
Definition resourceVersionFromMeta (meta : any) : string :=
  match as_map meta with Some m => str_of m "resourceVersion" | None => "" end.

Definition snapshotFromK8sObject (obj : gmap string any) (labels : gmap string string) :
    parts * string :=
  let meta := default ∅ (as_map (mget obj "metadata")) in
  let name := str_of meta "name" in
  let namespace := str_of meta "namespace" in
  let kind := str_of obj "kind" in
  if (name =? "") || (kind =? "") then (no_parts, "")
  else
    let resourceID := nodeID ["k8s"; ToLower kind; namespace; name] in
    let resourceLabels := labels ∪ <["namespace" := namespace]> {["kind" := kind]} in
    let nsID := nodeID ["k8s"; "namespace"; namespace] in
    (add_parts ([node ("k8s." +:+ ToLower kind) resourceID name resourceLabels], [])
       (if namespace =? "" then no_parts
        else ([node "k8s.namespace" nsID namespace labels],
              [edge_between nsID resourceID "contains"])),
     resourceVersionFromMeta (AMap meta)).

Definition snapshotFromK8sList (payload : string) (labels : gmap string string) : parts * string :=
  let raw := object_of payload in
  let items := default [] (as_list (mget raw "items")) in
  (gather (λ item, match as_map item with
                   | Some obj => (snapshotFromK8sObject obj labels).1
                   | None => no_parts
                   end) items,
   resourceVersionFromMeta (mget raw "metadata")).

(** The object of a watch event, when the line is one. *)
Definition watch_object (line : string) : option (gmap string any) :=
  match unmarshal_map (doc_of_text (TrimSpace line)) with
  | Ok event => as_map (mget event "object")
  | Err _ => None
  end.

(** The last version that is not empty. *)
Definition last_version (versions : list string) : string :=
  fold_left (λ last rv, if rv =? "" then last else rv) versions "".

Definition snapshotFromK8sWatch (payload : string) (labels : gmap string string) :
    Snapshot * string :=
  let objects := omap watch_object (split_byte (byte 10) (TrimSpace payload)) in
  let seen := map (λ obj, snapshotFromK8sObject obj labels) objects in
  (snapshot_of (gather fst seen), last_version (map snd seen)).

(** ** The static mapping of services *)

Record ServiceMapping := mkMapping {
  sm_Service : string; sm_Environment : string; sm_ClusterID : string; sm_Namespace : string;
  sm_PromQL : list string; sm_TraceQL : list string; sm_Dashboards : list string }.

(** The node something of a service is, and the service's edge to it; nothing when blank. *)
Definition linked (svcID : string) (labels : gmap string string) (kind : string)
    (id : string → string) (relation : string) (value : string) : parts :=
  let name := TrimSpace value in
  if name =? "" then no_parts
  else ([node kind (id name) name labels], [edge_between svcID (id name) relation]).

Definition mapping_parts (p : Base) (mapping : ServiceMapping) : parts :=
  let service := TrimSpace (sm_Service mapping) in
  if service =? "" then no_parts
  else
    let svcID := nodeID ["service"; service] in
    let labels := withLabels p (<["environment" := sm_Environment mapping]>
      (<["cluster_id" := sm_ClusterID mapping]> {["namespace" := sm_Namespace mapping]})) in
    let link := linked svcID labels in
    add_parts ([node "service" svcID service labels], [])
      (gather (λ l, l)
         ([link "env" (λ env, nodeID ["env"; env]) "runs_in" (sm_Environment mapping);
           link "cluster" (λ c, nodeID ["cluster"; c]) "runs_on" (sm_ClusterID mapping);
           link "k8s.namespace" (λ ns, nodeID ["k8s"; "namespace"; ns]) "owns" (sm_Namespace mapping)]
          ++ map (link "prometheus.query" (λ q, nodeID ["prometheus"; "query"; hash q]) "monitors")
               (sm_PromQL mapping)
          ++ map (link "tempo.query" (λ q, nodeID ["tempo"; "query"; hashTempo q]) "traces")
               (sm_TraceQL mapping)
          ++ map (link "grafana.dashboard" (λ d, nodeID ["grafana"; "dashboard"; d]) "dashboards")
               (sm_Dashboards mapping))).

(** A slice of strings; null is the empty one. *)
Definition fld_strings : string → list (string * json) → result (list string) :=
  fld_slice (λ j, match j with JStr s => Ok s | JNull => Ok "" | _ => Err json_error end).

Definition decode_mapping (j : json) : result ServiceMapping :=
  fs ← Json.members j;
  s ← fld_string "Service" fs; e ← fld_string "Environment" fs;
  c ← fld_string "ClusterID" fs; n ← fld_string "Namespace" fs;
  p ← fld_strings "PromQL" fs; t ← fld_strings "TraceQL" fs; d ← fld_strings "Dashboards" fs;
  Ok (mkMapping s e c n p t d).

(** The file memory/service_mappings.json of a workspace: os.ReadFile's text,
    [None] when it does not exist. *)
Definition LoadServiceMappings (ReadFile : string → result (option string))
    (workspaceDir : string) : result (list ServiceMapping) :=
  let dir := TrimSpace workspaceDir in
  if dir =? "" then Ok []
  else
    data ← ReadFile (filepath_Join [dir; "memory"; "service_mappings.json"]);
    match data with
    | None => Ok []
    | Some text =>
        j ← unmarshal (doc_of_text text);
        match j with
        | JArr l => of_option json_error
            (opt_map (λ y, match decode_mapping y with Ok m => Some m | Err _ => None end) l)
        | JNull => Ok []
        | _ => Err json_error
        end
    end.

(** ** The pollers *)

Inductive Poller :=
| AlertmanagerPoller (base : Base)
| ArgoCDPoller (base : Base) (Apps : list string)
| AWSPoller (base : Base) (TagFilters : list (gmap string any)) (region : string)
| GrafanaPoller (base : Base) (query : string) (FolderIDs : list Z)
| HelmPoller (base : Base) (Namespaces : list string)
| K8sPoller (base : Base) (Resources : list string) (namespace : string)
| PromPoller (base : Base) (Queries : list string)
| TempoPoller (base : Base) (Queries : list string)
| ThanosPoller (base : Base) (Queries : list string)
| StaticMappingPoller (base : Base) (Mappings : list ServiceMapping).

Definition defaultK8sResources : list string :=
  ["deployments"; "statefulsets"; "daemonsets"; "services"; "ingresses"; "pods"; "events"; "nodes"].

Definition default_list {A} (l other : list A) : list A := match l with [] => other | _ => l end.

(** [if cond { input[key] = v }] *)
Definition put_if (cond : bool) (key : string) (v : any) (m : gmap string any) : gmap string any :=
  if cond then <[key := v]> m else m.
Definition put_text (key v : string) : gmap string any → gmap string any :=
  put_if (negb (blank v)) key (AStr v).

Definition ask (b : Base) (tool action : string) (input : gmap string any) : ExecuteRequest :=
  mkRequest tool action (AMap input) "" "" (b_Context b).

Section polling.
Context {W : Type} `{!ToolRunner W}.

Notation polled := (W → result Snapshot * W).

Definition with_router (b : Base) (f : polled) : polled :=
  λ w, if b_Router b then f w else (Err "router required", w).

(** One request, and what its answer says. *)
Definition one_request (req : ExecuteRequest) (read : string → result Snapshot) : polled :=
  λ w, let '(out, w) := run_router req w in (text ← out; read text, w).

(** A request for each value: what the answers say, one after the other, until an
    error ends it, or with errors passed over. *)
Fixpoint all_requests {A} (req : A → ExecuteRequest) (read : A → string → parts)
    (pass_over : bool) (l : list A) (acc : parts) : polled :=
  λ w, match l with
       | [] => (Ok (snapshot_of acc), w)
       | a :: rest =>
           let '(out, w) := run_router (req a) w in
           match out with
           | Ok text => all_requests req read pass_over rest (add_parts acc (read a text)) w
           | Err e => if pass_over then all_requests req read pass_over rest acc w else (Err e, w)
           end
       end.

Definition of_snapshot (s : Snapshot) : parts := (snap_nodes s, snap_edges s).

Definition alertmanager_Snapshot (p : Base) : polled :=
  with_router p (one_request (ask p "alertmanager" "alerts_list" ∅) (λ text,
    j ← unmarshal (doc_of_text text);
    alerts ← decode_maps j;
    Ok (snapshot_of (gather (alert_parts p) alerts)))).

Definition argocd_Snapshot (p : Base) (Apps : list string) : polled :=
  with_router p (one_request (ask p "argocd" "list" ∅)
    (λ text, Ok (snapshotFromArgoList text (withLabels p ∅) Apps))).

Definition aws_Snapshot (p : Base) (TagFilters : list (gmap string any)) (region : string) : polled :=
  let input := put_text "region" region
    (put_if (0 <? length TagFilters)%nat "tag_filters"
       (ASlice "map[string]any" (map AMap TagFilters)) ∅) in
  with_router p (one_request (ask p "aws" "tagging-get-resources" input)
    (λ text, Ok (snapshotFromAWSResources text (withLabels p ∅)))).

Definition grafana_Snapshot (p : Base) (query : string) (FolderIDs : list Z) : polled :=
  let ids := filter (λ id, (0 < id)%Z) FolderIDs in
  let input := put_if (0 <? length ids)%nat "folder_ids" (AList (map AInt ids))
                 (put_text "query" query ∅) in
  with_router p (one_request (ask p "grafana" "dashboard_list" input)
    (λ text, Ok (snapshotFromGrafana text (withLabels p ∅)))).

Definition helm_Snapshot (p : Base) (Namespaces : list string) : polled :=
  with_router p (all_requests
    (λ ns, ask p "helm" "list" (put_text "namespace" ns ∅))
    (λ _ text, of_snapshot (snapshotFromHelmList text (withLabels p ∅)))
    false (default_list Namespaces [""]) no_parts).

Definition k8s_Snapshot (p : Base) (Resources : list string) (namespace : string) : polled :=
  with_router p (all_requests
    (λ res, ask p "kubectl" "get" (put_text "namespace" namespace {["resource" := AStr res]}))
    (λ _ text, (snapshotFromK8sList text (withLabels p ∅)).1)
    false (default_list Resources defaultK8sResources) no_parts).

(** PromPoller, ThanosPoller and TempoPoller: the queries the tool answers. *)
Definition query_node (p : Base) (tool : string) (digest : string → string) (query : string) : Node :=
  node (tool +:+ ".query") (nodeID [tool; "query"; digest query]) query
    (withLabels p {["query" := query]}).
Definition query_Snapshot (p : Base) (tool action : string) (digest : string → string)
    (Queries : list string) : polled :=
  with_router p (all_requests
    (λ query, ask p tool action {["query" := AStr query]})
    (λ query _, ([query_node p tool digest query], []))
    true Queries no_parts).

Definition prom_Snapshot (p : Base) (Queries : list string) : polled :=
  query_Snapshot p "prometheus" "query" hash (default_list Queries ["up"]).
Definition tempo_Snapshot (p : Base) (Queries : list string) : polled :=
  query_Snapshot p "tempo" "traceql" hashTempo (default_list Queries ["{ }"]).
Definition thanos_Snapshot (p : Base) (Queries : list string) : polled :=
  query_Snapshot p "thanos" "query" hash (default_list Queries ["up"]).

Definition static_Snapshot (p : Base) (Mappings : list ServiceMapping) : polled :=
  λ w, match Mappings with
       | [] => (Err "mappings required", w)
       | _ => (Ok (snapshot_of (gather (mapping_parts p) Mappings)), w)
       end.

(** context.Poller *)
Definition poll (p : Poller) : polled :=
  match p with
  | AlertmanagerPoller b => alertmanager_Snapshot b
  | ArgoCDPoller b apps => argocd_Snapshot b apps
  | AWSPoller b filters region => aws_Snapshot b filters region
  | GrafanaPoller b query folders => grafana_Snapshot b query folders
  | HelmPoller b namespaces => helm_Snapshot b namespaces
  | K8sPoller b resources namespace => k8s_Snapshot b resources namespace
  | PromPoller b queries => prom_Snapshot b queries
  | TempoPoller b queries => tempo_Snapshot b queries
  | ThanosPoller b queries => thanos_Snapshot b queries
  | StaticMappingPoller b mappings => static_Snapshot b mappings
  end.
End polling.

(** ** The watchers *)

(** A nil DiffFn is diffSnapshot. *)
Record PollingWatcher := mkPolling {
  pw_Poller : Poller; pw_Last : Snapshot; pw_DiffFn : option (Snapshot → Snapshot → Snapshot) }.

(** Of [l], what has a key that none of [prev] has. *)
Definition fresh {A} (key : A → string) (prev l : list A) : list A :=
  filter (λ a, key a ≠ "" ∧ key a ∉ filter (λ k, k ≠ "") (map key prev)) l.

Definition diffSnapshot (prev next : Snapshot) : Snapshot :=
  snapshot_of (fresh NodeID (snap_nodes prev) (snap_nodes next),
               fresh EdgeID (snap_edges prev) (snap_edges next)).

Definition empty_snapshot (s : Snapshot) : bool :=
  match snap_nodes s, snap_edges s with [], [] => true | _, _ => false end.

Record K8sWatcher := mkK8s {
  kw_Base : Base; kw_Resources : list string; kw_Namespace : string; kw_Selector : string;
  kw_Timeout : Z;                                    (* nanoseconds *)
  kw_SendInitialEvents : bool; kw_AllowBookmarks : bool;
  LastResourceVersions : gmap string string }.

Definition set_version (res rv : string) (kw : K8sWatcher) : K8sWatcher :=
  mkK8s (kw_Base kw) (kw_Resources kw) (kw_Namespace kw) (kw_Selector kw) (kw_Timeout kw)
    (kw_SendInitialEvents kw) (kw_AllowBookmarks kw) (<[res := rv]> (LastResourceVersions kw)).

Definition watch_input (kw : K8sWatcher) (res : string) : gmap string any :=
  let timeout := if (kw_Timeout kw <=? 0)%Z then (30 * nano)%Z else kw_Timeout kw in
  put_if (kw_AllowBookmarks kw) "allow_bookmarks" (ABool true)
    (put_if (kw_SendInitialEvents kw) "send_initial_events" (ABool true)
      (put_text "selector" (kw_Selector kw)
        (put_text "namespace" (kw_Namespace kw)
          (put_text "resource_version"
             (TrimSpace (default "" (LastResourceVersions kw !! res)))
             (<["resource" := AStr res]>
               {["timeout_seconds" := AInt (float_to_int (Seconds timeout))]}))))).

(** The resources a watcher goes round. *)
Definition watched_resources (kw : K8sWatcher) : list string :=
  default_list (kw_Resources kw) defaultK8sResources.

Section watching.
Context {W : Type} `{!ToolRunner W}.

(** A turn of PollingWatcher.Watch's loop: the update it sends, if any, and the
    snapshot it keeps. *)
Definition polling_turn (pw : PollingWatcher) (w : W) : option Snapshot * PollingWatcher * W :=
  let '(r, w) := poll (pw_Poller pw) w in
  match r with
  | Err _ => (None, pw, w)
  | Ok snap =>
      let update := default diffSnapshot (pw_DiffFn pw) (pw_Last pw) snap in
      (if empty_snapshot update then None else Some update,
       mkPolling (pw_Poller pw) snap (pw_DiffFn pw), w)
  end.

(** K8sWatcher.Watch's inner loop, for one resource. *)
Definition k8s_turn (kw : K8sWatcher) (res : string) (w : W) : option Snapshot * K8sWatcher * W :=
  let '(out, w) := run_router (ask (kw_Base kw) "kubectl" "watch" (watch_input kw res)) w in
  match out with
  | Err _ => (None, kw, w)
  | Ok text =>
      let '(snap, rv) := snapshotFromK8sWatch text (withLabels (kw_Base kw) ∅) in
      (if empty_snapshot snap then None else Some snap,
       if rv =? "" then kw else set_version res rv kw, w)
  end.

(** What a watcher sends before it is cancelled, [n] resources into its rounds; the
    resources come in turn, over and over. *)
Fixpoint k8s_turns (n : nat) (kw : K8sWatcher) (w : W) : list Snapshot * K8sWatcher * W :=
  match n with
  | O => ([], kw, w)
  | S n' =>
      let '(sent, kw, w) := k8s_turns n' kw w in
      let l := watched_resources kw in
      let '(out, kw, w) := k8s_turn kw (nth (n' mod length l) l "") w in
      (sent ++ option_list out, kw, w)
  end.

Definition k8s_Watch (n : nat) (kw : K8sWatcher) (w : W) : result (list Snapshot * K8sWatcher) * W :=
  if b_Router (kw_Base kw)
  then let '(sent, kw, w) := k8s_turns n kw w in (Ok (sent, kw), w)
  else (Err "router required", w).
End watching.

(** ** What the gateway collects

    The parts of the configuration cmd/gateway/main.go's newContextService reads. *)
Record ContextConfig := mkContextConfig {
  cc_Enabled : bool;
  cc_Labels : gmap string string;
  cc_Ref : ContextRef;
  cc_ArgoApps : list string;
  cc_AWSResourceTags : list (string * list string);   (* a map, in the order it is ranged over *)
  cc_PromQLQueries : list string; cc_TraceQLQueries : list string;
  cc_GrafanaFolders : list Z;
  cc_Services : list ServiceMapping;
  cc_HelmNamespaces : list string; cc_K8sNamespaces : list string; cc_K8sResources : list string;
  cc_WatchSendInitialEvents : bool; cc_WatchAllowBookmarks : bool;
  cc_WatchTimeoutSecs : Z; cc_WatchIntervalSecs : Z;
  cc_PollIntervalSecs : Z; cc_SnapshotIntervalSecs : Z;
  cc_ThanosAddr : string; cc_AlertmanagerAddr : string }.

(** [if labels[key] == "" && v != "" { labels[key] = v }] *)
Definition put_label (labels : gmap string string) (kv : string * string) : gmap string string :=
  let '(key, v) := kv in
  if (default "" (labels !! key) =? "") && negb (v =? "") then <[key := v]> labels else labels.

(** The labels the configuration gives, and those of its context it leaves out. *)
Definition config_labels (cfg : ContextConfig) : gmap string string :=
  fold_left put_label (ref_fields (cc_Ref cfg)) (cc_Labels cfg).

Definition config_base (cfg : ContextConfig) : Base :=
  mkBase true (cc_Ref cfg) (config_labels cfg).

Definition aws_tags (tags : list (string * list string)) : list (gmap string any) :=
  omap (λ '(key, values), match values with
                          | [] => None
                          | _ => Some (amap [("key", AStr key); ("values", AStrs values)])
                          end) tags.

(** The configured namespaces, else the context's own. *)
Definition namespaces_or (cfg : ContextConfig) (l : list string) : list string :=
  match l with
  | [] => if Namespace (cc_Ref cfg) =? "" then [] else [Namespace (cc_Ref cfg)]
  | _ => l
  end.
Definition k8s_namespaces (cfg : ContextConfig) : list string :=
  default_list (namespaces_or cfg (cc_K8sNamespaces cfg)) [""].
Definition k8s_resources (cfg : ContextConfig) : list string :=
  default_list (cc_K8sResources cfg) defaultK8sResources.

Inductive Watcher :=
| Watch_k8s (kw : K8sWatcher)
| Watch_polling (pw : PollingWatcher).

Definition seconds (n : Z) : Z := wrap64 (n * nano).

(** The watcher of a namespace: it sends initial events and allows bookmarks,
    whatever the configuration says. *)
Definition namespace_watcher (cfg : ContextConfig) (ns : string) : Watcher :=
  let sendInitial := if negb (cc_WatchSendInitialEvents cfg) then true
                     else cc_WatchSendInitialEvents cfg in
  let allowBookmarks := if negb (cc_WatchAllowBookmarks cfg) then true
                        else cc_WatchAllowBookmarks cfg in
  Watch_k8s (mkK8s (config_base cfg) (k8s_resources cfg) ns "" (seconds (cc_WatchTimeoutSecs cfg))
    sendInitial allowBookmarks ∅).

(** [extra] are the mappings of the workspace: LoadServiceMappings. *)
Definition context_pollers (cfg : ContextConfig) (extra : result (list ServiceMapping)) : list Poller :=
  let base := config_base cfg in
  [ArgoCDPoller base (cc_ArgoApps cfg);
   AWSPoller base (aws_tags (cc_AWSResourceTags cfg)) (Region (cc_Ref cfg));
   PromPoller base (cc_PromQLQueries cfg)]
  ++ (if cc_ThanosAddr cfg =? "" then [] else [ThanosPoller base (cc_PromQLQueries cfg)])
  ++ (if cc_AlertmanagerAddr cfg =? "" then [] else [AlertmanagerPoller base])
  ++ [TempoPoller base (cc_TraceQLQueries cfg); GrafanaPoller base "" (cc_GrafanaFolders cfg)]
  ++ (if (0 <? length (cc_Services cfg))%nat then [StaticMappingPoller base (cc_Services cfg)] else [])
  ++ match extra with
     | Ok l => if (0 <? length l)%nat then [StaticMappingPoller base l] else []
     | Err _ => []
     end
  ++ [HelmPoller base (namespaces_or cfg (cc_HelmNamespaces cfg))]
  ++ map (K8sPoller base (k8s_resources cfg)) (k8s_namespaces cfg).

Definition polling_watchers (cfg : ContextConfig) (pollers : list Poller) : list Watcher :=
  if (0 <? cc_WatchIntervalSecs cfg)%Z then
    omap (λ p, match p with
               | K8sPoller _ _ _ => None
               | _ => Some (Watch_polling (mkPolling p (mkSnap None None) None))
               end) pollers
  else [].

Record ContextService := mkService {
  cs_Pollers : list Poller; cs_Watchers : list Watcher;
  cs_PollInterval : Z; cs_SnapshotInterval : Z }.

(** Intervals that are not positive are Start's: a minute, and five. *)
Definition newContextService (cfg : ContextConfig) (store_set router_set : bool)
    (extra : result (list ServiceMapping)) : option ContextService :=
  if negb store_set || negb router_set || negb (cc_Enabled cfg) then None
  else
    let pollers := context_pollers cfg extra in
    Some (mkService pollers
            (map (namespace_watcher cfg) (k8s_namespaces cfg) ++ polling_watchers cfg pollers)
            (if (0 <? cc_PollIntervalSecs cfg)%Z then seconds (cc_PollIntervalSecs cfg) else 0)
            (if (0 <? cc_SnapshotIntervalSecs cfg)%Z then seconds (cc_SnapshotIntervalSecs cfg) else 0)).

Definition poll_interval (cs : ContextService) : Z :=
  if (cs_PollInterval cs <=? 0)%Z then (60 * nano)%Z else cs_PollInterval cs.
Definition snapshot_interval (cs : ContextService) : Z :=
  if (cs_SnapshotInterval cs <=? 0)%Z then (5 * 60 * nano)%Z else cs_SnapshotInterval cs.

(** ** Snapshots are closed

    Every node has an id and a kind, every edge an id, a relation and two ends among
    the nodes or what is [known] already. *)

Definition node_ids (l : list Node) : list string := map NodeID l.

Definition identified (n : Node) : Prop := NodeID n ≠ "" ∧ node_Kind n ≠ "".
Definition joins (ids : list string) (e : Edge) : Prop :=
  EdgeID e ≠ "" ∧ Relation e ≠ "" ∧ FromNodeID e ≠ "" ∧ ToNodeID e ≠ "" ∧
  FromNodeID e ∈ ids ∧ ToNodeID e ∈ ids.
Definition closed_in (known : list string) (p : parts) : Prop :=
  Forall identified p.1 ∧ Forall (joins (known ++ node_ids p.1)) p.2.
Notation closed := (closed_in []).

(** What UpsertContextNode asks besides: a name. *)
Definition named (p : parts) : Prop := Forall (λ n, node_Name n ≠ "") p.1.

Lemma joins_mono ids ids' e : ids ⊆ ids' → joins ids e → joins ids' e.
Proof. intros Hs (? & ? & ? & ? & ? & ?). unfold joins. auto 10. Qed.

Lemma closed_mono known known' p : known ⊆ known' → closed_in known p → closed_in known' p.
Proof.
  intros Hs [Hn He]. split; [done|]. eapply Forall_impl; [exact He|].
  intros e. apply joins_mono. intros x. rewrite !elem_of_app. intros [?|?]; [left; by apply Hs|by right].
Qed.

Lemma closed_none known : closed_in known no_parts.
Proof. split; constructor. Qed.

Lemma closed_add known p q :
  closed_in known p → closed_in (known ++ node_ids p.1) q → closed_in known (add_parts p q).
Proof.
  intros [Hn He] [Hn' He']. unfold closed_in, add_parts, node_ids. simpl. rewrite map_app.
  split; [by apply Forall_app|]. apply Forall_app. split; [|by rewrite app_assoc].
  eapply Forall_impl; [exact He|]. intros e. apply joins_mono.
  intros x. rewrite !elem_of_app. intros [?|?]; auto.
Qed.

Lemma closed_append known p q : closed_in known p → closed_in known q → closed_in known (add_parts p q).
Proof. intros Hp Hq. apply closed_add; [done|]. eapply closed_mono; [|exact Hq]. intros x. rewrite elem_of_app. auto. Qed.

Lemma closed_gather {A} known (f : A → parts) l :
  (∀ a, closed_in known (f a)) → closed_in known (gather f l).
Proof.
  intros Hf. induction l as [|a l IH]; [apply closed_none|]. by apply closed_append.
Qed.

Lemma slice_default {A} (l : list A) : default [] (slice l) = l.
Proof. by destruct l. Qed.

Lemma of_snapshot_of p : of_snapshot (snapshot_of p) = p.
Proof. destruct p. unfold of_snapshot, snap_nodes, snap_edges. simpl. by rewrite !slice_default. Qed.

Lemma join_nonempty x l sep : x ≠ "" → join (x :: l) sep ≠ "".
Proof. by destruct x. Qed.

(** An id whose first part is not blank is not empty. *)
Lemma nodeID_nonempty part rest : blank part = false → nodeID (part :: rest) ≠ "".
Proof.
  intros Hb. apply blank_false in Hb. unfold nodeID. cbn [map].
  rewrite filter_cons_True by done. by apply join_nonempty.
Qed.

Lemma identified_node kind part rest name labels :
  kind ≠ "" → blank part = false → identified (node kind (nodeID (part :: rest)) name labels).
Proof. intros Hk Hb. split; [by apply nodeID_nonempty|done]. Qed.

Lemma joins_between ids from to relation :
  relation ≠ "" → from ≠ "" → to ≠ "" → from ∈ ids → to ∈ ids →
  joins ids (edge_between from to relation).
Proof. intros. split; [by apply nodeID_nonempty|done]. Qed.

Lemma closed_node known n : identified n → closed_in known ([n], []).
Proof. intros Hn. split; [by constructor|constructor]. Qed.

(** A node, and one joined to it by an edge of either direction. *)
Lemma closed_pair known n from to relation :
  identified n → relation ≠ "" → from ≠ "" → to ≠ "" →
  from ∈ known ++ [NodeID n] → to ∈ known ++ [NodeID n] →
  closed_in known ([n], [edge_between from to relation]).
Proof.
  intros Hn Hr Hf' Ht' Hf Ht. split; [by constructor|]. constructor; [|constructor].
  by apply joins_between.
Qed.

Ltac closed_step :=
  match goal with
  | |- closed_in _ no_parts => apply closed_none
  | |- closed_in _ (add_parts _ _) => apply closed_add
  | |- closed_in _ ([_], []) => apply closed_node
  | |- closed_in _ ([_], [_]) => apply closed_pair
  | |- closed_in _ (let '(_, _) := ?x in _) => destruct x
  | |- closed_in _ (match ?x with _ => _ end) => destruct x
  | |- identified _ => apply identified_node; [done|vm_compute; reflexivity]
  | |- _ ∈ _ => simpl; repeat first [apply list_elem_of_here | apply list_elem_of_further]
  | |- nodeID _ ≠ "" => apply nodeID_nonempty; vm_compute; reflexivity
  | |- _ ≠ "" => done
  end.
Ltac closed := repeat (cbv zeta; closed_step).

Lemma alert_parts_closed p alert : closed (alert_parts p alert).
Proof. unfold alert_parts. closed. Qed.

Lemma argo_parts_closed labels allowed app : closed (argo_parts labels allowed app).
Proof. unfold argo_parts. closed. Qed.

Lemma aws_parts_closed labels item : closed (aws_parts labels item).
Proof. unfold aws_parts. closed. Qed.

Lemma grafana_parts_closed labels item : closed (grafana_parts labels item).
Proof. unfold grafana_parts. closed. Qed.

Lemma helm_parts_closed labels rel : closed (helm_parts labels rel).
Proof. unfold helm_parts. closed. Qed.

Lemma k8s_object_closed obj labels : closed (snapshotFromK8sObject obj labels).1.
Proof.
  unfold snapshotFromK8sObject. cbv zeta. destruct (_ || _); [apply closed_none|]. cbn [fst]. closed.
Qed.

Lemma k8s_list_closed payload labels : closed (snapshotFromK8sList payload labels).1.
Proof.
  apply closed_gather. intros item. destruct (as_map item); [apply k8s_object_closed|apply closed_none].
Qed.

Lemma linked_closed known svcID labels kind part rest relation value :
  kind ≠ "" → relation ≠ "" → blank part = false → svcID ≠ "" → svcID ∈ known →
  closed_in known (linked svcID labels kind (λ v, nodeID (part :: rest v)) relation value).
Proof.
  intros Hk Hr Hb Hne Hs. unfold linked. cbv zeta. destruct (_ =? ""); [apply closed_none|].
  apply closed_pair; [by apply identified_node|done|done|by apply nodeID_nonempty| |]; apply elem_of_app; [by left|right].
  apply list_elem_of_here.
Qed.

Lemma mapping_parts_closed p mapping : closed (mapping_parts p mapping).
Proof.
  unfold mapping_parts. cbv zeta. destruct (_ =? ""); [apply closed_none|].
  apply closed_add; [apply closed_node; closed|]. cbn [app node_ids map fst NodeID node].
  set (svcID := nodeID _). assert (Hsvc : svcID ∈ [svcID]) by apply list_elem_of_here.
  assert (Hne : svcID ≠ "") by (by apply nodeID_nonempty).
  pose proof (λ kind part rest relation value labels H1 H2 H3,
    linked_closed [svcID] svcID labels kind part rest relation value H1 H2 H3 Hne Hsvc) as Hl.
  assert (Hg : ∀ l, Forall (closed_in [svcID]) l → closed_in [svcID] (gather (λ q, q) l)).
  { induction 1; [apply closed_none|by apply closed_append]. }
  apply Hg. rewrite !Forall_cons, !Forall_app, !Forall_map.
  split_and!; try (apply Forall_forall; intros q _; cbn [compose]); by apply Hl.
Qed.

(** *** The pollers' snapshots *)

Section collected.
Context {W : Type} `{!ToolRunner W}.

Lemma all_requests_parts {A} (req : A → ExecuteRequest) read pass_over l acc w snap w' :
  all_requests req read pass_over l acc w = (Ok snap, w') →
  (∀ a text, closed (read a text)) → closed acc → closed (of_snapshot snap).
Proof.
  intros H Hr. revert acc w H.
  induction l as [|a l IH]; intros acc w; cbn [all_requests].
  { intros [= <- _]. by rewrite of_snapshot_of. }
  destruct (run_router (req a) w) as [[text|e] w1]; [|by destruct pass_over; [apply IH|]].
  intros H Hacc. eapply IH; [exact H|]. by apply closed_append.
Qed.

Lemma with_router_Ok b (f : W → result Snapshot * W) w snap w' :
  with_router b f w = (Ok snap, w') → f w = (Ok snap, w').
Proof. unfold with_router. by destruct (b_Router b). Qed.

Lemma one_request_Ok req read w snap w' :
  one_request req read w = (Ok snap, w') → ∃ text, read text = Ok snap.
Proof.
  unfold one_request. destruct (run_router req w) as [[text|e] w1]; simpl; [|done].
  intros [= H _]. eauto.
Qed.

(** Whatever a poller is answered, its snapshot is closed. *)
Lemma poll_closed (p : Poller) (w : W) snap w' :
  poll p w = (Ok snap, w') → closed (of_snapshot snap).
Proof.
  assert (Hgather : ∀ A (f : A → parts) l, (∀ a, closed (f a)) →
    closed (of_snapshot (snapshot_of (gather f l)))).
  { intros A f l Hf. rewrite of_snapshot_of. by apply closed_gather. }
  assert (Hquery : ∀ tool (digest : string → string) query labels, tool ≠ "" → blank tool = false →
    closed ([node (tool +:+ ".query") (nodeID [tool; "query"; digest query]) query labels], [])).
  { intros tool digest query labels Ht Hb. apply closed_node, identified_node; [by destruct tool|done]. }
  destruct p; cbn [poll]; try (intros H%with_router_Ok; revert H).
  5-9: intros H; eapply all_requests_parts; [exact H| |apply closed_none]; intros a text.
  1-4: intros [text H]%one_request_Ok.
  - destruct (unmarshal _) as [j|]; [|done]. simpl in H. destruct (decode_maps j) as [alerts|]; [|done].
    injection H as <-. apply Hgather. intros a. apply alert_parts_closed.
  - injection H as <-. apply Hgather. intros a. apply argo_parts_closed.
  - injection H as <-. apply Hgather. intros a. apply aws_parts_closed.
  - injection H as <-. apply Hgather. intros a. apply grafana_parts_closed.
  - apply Hgather. intros x. apply helm_parts_closed.
  - apply k8s_list_closed.
  - by apply Hquery.
  - by apply Hquery.
  - by apply Hquery.
  - unfold static_Snapshot. destruct Mappings; [done|]. intros [= <- _].
    apply (Hgather _ (mapping_parts base) (s :: Mappings)). intros m. apply mapping_parts_closed.
Qed.

Lemma k8s_watch_closed payload labels :
  closed (of_snapshot (snapshotFromK8sWatch payload labels).1).
Proof.
  unfold snapshotFromK8sWatch. cbv zeta. cbn [fst]. rewrite of_snapshot_of.
  induction (omap _ _) as [|obj l IH]; [apply closed_none|]. cbn [map gather fold_right].
  apply closed_append; [apply k8s_object_closed|exact IH].
Qed.
End collected.
