(* ===== verification/Watching.v ===== *)
(** * Watching: the context service at work

    internal/context/service.go's goroutines, as a step relation over the watchers of
    Collectors, the channel and the SQL store: what is collected is stored, in every
    interleaving, and what is lost when a statement fails. *)

From S2P Require Import Prelude GoStrings Json ContextRef Steps Policy ToolValidate Shelves.
From S2P Require Import Store Library Executor Graph Pollers Collectors.

Local Open Scope string_scope.
Local Open Scope list_scope.

(** ** Ingesting what is collected *)
Lemma update_where_keys {A} (key : A → string) row l :
  map key (update_where (λ r, key r =? key row) (λ _, row) l) = map key l.
Proof.
  induction l as [|a l IH]; [done|]. cbn. f_equal; [|exact IH].
  by destruct (String.eqb_spec (key a) (key row)).
Qed.

(** An upsert loses no key and adds its row's. *)
Lemma upsert_by_keys {A} (key : A → string) row l :
  map key l ++ [key row] ⊆ map key (upsert_by key row l).
Proof.
  unfold upsert_by. destruct (existsb _ l) eqn:E.
  - rewrite update_where_keys. apply existsb_exists in E as (r & Hr & Hk).
    apply String.eqb_eq in Hk. intros x. rewrite elem_of_app, list_elem_of_singleton.
    intros [?| ->]; [done|]. rewrite <- Hk. apply list_elem_of_In. by apply in_map.
  - rewrite map_app. intros x. by rewrite !elem_of_app.
Qed.

Section ingesting.
Variable clock : nat → Z.
Variable jsonb : json → json.
Notation fault := no_fault.

#[local] Instance ingesting_graph : GraphDB store := store_graph clock fault jsonb.

Notation graph s := (shelf (tabs s)).
Definition stored_node_ids (s : store) : list string := map gn_id (context_nodes (graph s)).
Definition stored_edge_ids (s : store) : list string := map ge_id (context_edges (graph s)).

Lemma upsert_node_ok n s :
  identified n → node_Name n ≠ "" →
  ∃ s', UpsertContextNode fault jsonb n s = (Ok tt, s') ∧
    stored_node_ids s ++ [NodeID n] ⊆ stored_node_ids s' ∧ stored_edge_ids s' = stored_edge_ids s.
Proof.
  intros [Hid Hk] Hn. unfold UpsertContextNode, db_check, check, db_lift, stmt, db_write.
  apply String.eqb_neq in Hid as ->, Hk as ->, Hn as ->.
  cbv [mbind db_bind mret db_ret]. cbn. eexists. split; [reflexivity|].
  split; [|done]. apply (upsert_by_keys gn_id (mkNodeRow (NodeID n) _ _ _ _)).
Qed.

Lemma upsert_edge_ok e s :
  joins (stored_node_ids s) e →
  ∃ s', UpsertContextEdge clock fault e s = (Ok tt, s') ∧
    stored_node_ids s' = stored_node_ids s ∧ stored_edge_ids s ++ [EdgeID e] ⊆ stored_edge_ids s'.
Proof.
  intros (Hid & Hr & Hf' & Ht' & Hf & Ht).
  assert (Hfound : ∀ id, id ∈ stored_node_ids s →
    existsb (λ n, gn_id n =? id) (context_nodes (graph s)) = true).
  { intros id. unfold stored_node_ids. rewrite list_elem_of_fmap. intros (n & -> & Hin).
    apply existsb_exists. exists n. split; [by apply list_elem_of_In|apply String.eqb_refl]. }
  apply Hfound in Hf, Ht.
  unfold UpsertContextEdge, db_check, check, db_lift, stmt, db_write, db_read.
  apply String.eqb_neq in Hf' as ->, Ht' as ->, Hr as ->, Hid as ->.
  cbv [mbind db_bind mret db_ret]. cbn. rewrite Hf, Ht.
  eexists. split; [reflexivity|]. split; [done|].
  apply (upsert_by_keys ge_id (mkEdgeRow (EdgeID e) _ _ _)).
Qed.

Lemma nodes_ok ns s :
  Forall identified ns → Forall (λ n, node_Name n ≠ "") ns →
  ∃ s', each gdb_UpsertContextNode ns s = (Ok tt, s') ∧
    stored_node_ids s ++ node_ids ns ⊆ stored_node_ids s' ∧ stored_edge_ids s' = stored_edge_ids s.
Proof.
  intros Hid Hn. revert s Hn. induction Hid as [|n ns Hi _ IH]; intros s Hn.
  { exists s. by rewrite app_nil_r. }
  apply Forall_cons in Hn as [Hn Hns].
  destruct (upsert_node_ok n s Hi Hn) as (s1 & E1 & Hs1 & He1).
  destruct (IH s1 Hns) as (s2 & E2 & Hs2 & He2). exists s2. cbn [each].
  change (gdb_UpsertContextNode n s) with (UpsertContextNode fault jsonb n s). rewrite E1, E2.
  split; [done|]. split; [|by rewrite He2]. intros x Hx. apply Hs2. apply elem_of_app.
  rewrite elem_of_app in Hx. cbn in Hx. rewrite elem_of_cons in Hx.
  destruct Hx as [Hx|[->|Hx]]; [left..|by right]; apply Hs1, elem_of_app; [by left|right].
  by apply list_elem_of_singleton.
Qed.

Lemma edges_ok es s :
  Forall (joins (stored_node_ids s)) es →
  ∃ s', each gdb_UpsertContextEdge es s = (Ok tt, s') ∧ stored_node_ids s' = stored_node_ids s ∧
    stored_edge_ids s ++ map EdgeID es ⊆ stored_edge_ids s'.
Proof.
  revert s. induction es as [|e es IH]; intros s He.
  { exists s. by rewrite app_nil_r. }
  apply Forall_cons in He as [He Hes].
  destruct (upsert_edge_ok e s He) as (s1 & E1 & Hn1 & Hs1). rewrite <- Hn1 in Hes.
  destruct (IH s1 Hes) as (s2 & E2 & Hn2 & Hs2). exists s2. cbn [each].
  change (gdb_UpsertContextEdge e s) with (UpsertContextEdge clock fault e s). rewrite E1, E2.
  split; [done|]. split; [by rewrite Hn2|]. intros x Hx. apply Hs2. apply elem_of_app.
  rewrite elem_of_app in Hx. cbn in Hx. rewrite elem_of_cons in Hx.
  destruct Hx as [Hx|[->|Hx]]; [left..|by right]; apply Hs1, elem_of_app; [by left|right].
  by apply list_elem_of_singleton.
Qed.

(** Nodes with names and edges that join them, or stored ones, are all stored. *)
Lemma ingest_ok p s :
  closed_in (stored_node_ids s) p → named p →
  ∃ s', IngestSnapshot p.1 p.2 s = (Ok tt, s') ∧
    stored_node_ids s ++ node_ids p.1 ⊆ stored_node_ids s' ∧
    stored_edge_ids s ++ map EdgeID p.2 ⊆ stored_edge_ids s'.
Proof.
  intros [Hid He] Hn. destruct (nodes_ok p.1 s Hid Hn) as (s1 & E1 & Hs1 & He1).
  destruct (edges_ok p.2 s1) as (s2 & E2 & Hn2 & Hs2).
  { eapply Forall_impl; [exact He|]. intros e. by apply joins_mono. }
  exists s2. unfold IngestSnapshot. rewrite E1, E2. rewrite Hn2, <- He1. done.
Qed.

Lemma unnamed_refused ns s s' :
  each gdb_UpsertContextNode ns s = (Ok tt, s') → Forall (λ n, node_Name n ≠ "") ns.
Proof.
  revert s. induction ns as [|n ns IH]; intros s; cbn [each]; [constructor|].
  change (gdb_UpsertContextNode n s) with (UpsertContextNode fault jsonb n s).
  destruct (UpsertContextNode fault jsonb n s) as [[[]|e] s1] eqn:E; [|done].
  intros H%IH. constructor; [|done]. intros Hn. revert E.
  unfold UpsertContextNode, db_check, check, db_lift. rewrite Hn, !orb_true_r. by cbv.
Qed.

(** What a poller collects is stored, whatever the tool router answers: on a
    database none of whose statements fails, ingesting its snapshot succeeds, and
    stores every node and edge of it, exactly when every node has a name.  Edges
    never lack an end. *)
Theorem collected_snapshot_stored {W} `{!ToolRunner W} (p : Poller) (w : W) (s : store) :
  let '(answer, _) := poll p w in
  let '(r, s') := match answer with
                  | Ok snap => IngestSnapshot (snap_nodes snap) (snap_edges snap) s
                  | Err e => (Err e, s)
                  end in
  match answer with
  | Ok snap =>
      (is_ok r = true ↔ Forall (λ n, node_Name n ≠ "") (snap_nodes snap)) ∧
      (is_ok r = true → node_ids (snap_nodes snap) ⊆ stored_node_ids s' ∧
                        map EdgeID (snap_edges snap) ⊆ stored_edge_ids s')
  | Err _ => s' = s
  end.
Proof.
  destruct (poll p w) as [[snap|e] w'] eqn:E; [|done].
  pose proof (closed_mono [] (stored_node_ids s) _ (list_subseteq_nil _) (poll_closed p w snap w' E)) as Hc.
  assert (Hok : named (of_snapshot snap) → ∃ s', IngestSnapshot (snap_nodes snap) (snap_edges snap) s = (Ok tt, s') ∧
    node_ids (snap_nodes snap) ⊆ stored_node_ids s' ∧ map EdgeID (snap_edges snap) ⊆ stored_edge_ids s').
  { intros Hn. destruct (ingest_ok _ s Hc Hn) as (s' & E' & Hns & Hes). exists s'. split; [exact E'|].
    split; intros x Hx; [apply Hns|apply Hes]; apply elem_of_app; by right. }
  assert (Hno : ∀ s', IngestSnapshot (snap_nodes snap) (snap_edges snap) s = (Ok tt, s') → named (of_snapshot snap)).
  { unfold IngestSnapshot. intros s'. destruct (each gdb_UpsertContextNode _ s) as [[[]|e] s1] eqn:En; [|done].
    intros _. by eapply unnamed_refused. }
  destruct (IngestSnapshot _ _ s) as [[[]|e] s'] eqn:Ei.
  - specialize (Hno s' eq_refl). destruct (Hok Hno) as (s2 & [= <-] & H). done.
  - split; [|done]. split; [done|]. intros Hn. destruct (Hok Hn) as (s2 & ? & _). done.
Qed.

(** Whatever it is given, ingesting only adds ids. *)
Definition graph_grows (t t' : tables) : Prop :=
  map gn_id (context_nodes (shelf t)) ⊆ map gn_id (context_nodes (shelf t')) ∧
  map ge_id (context_edges (shelf t)) ⊆ map ge_id (context_edges (shelf t')).

#[local] Instance graph_grows_preorder : PreOrder graph_grows.
Proof.
  split; [by split|]. intros s s1 s2 [H1 H2] [H3 H4]. split; intros x Hx; auto.
Qed.

Lemma keeps_left {A} (key : A → string) row l : map key l ⊆ map key (upsert_by key row l).
Proof. intros x Hx. apply upsert_by_keys, elem_of_app. by left. Qed.

Lemma upsert_node_grows n : db_rel graph_grows (UpsertContextNode fault jsonb n).
Proof.
  unfold UpsertContextNode. frame. intros t. split; [|done].
  apply (keeps_left gn_id (mkNodeRow (NodeID n) _ _ _ _)).
Qed.

Lemma upsert_edge_grows e : db_rel graph_grows (UpsertContextEdge clock fault e).
Proof.
  unfold UpsertContextEdge. frame. intros t. split; [done|].
  apply (keeps_left ge_id (mkEdgeRow _ _ _ _)).
Qed.

Lemma each_grows {A} (f : A → db unit) l :
  (∀ a, db_rel graph_grows (f a)) → db_rel graph_grows (λ s, each f l s).
Proof.
  intros Hf. induction l as [|a l IH]; intros s; cbn [each]; [done|]. specialize (Hf a s).
  destruct (f a s) as [[[]|e] s1]; [|exact Hf]. etrans; [exact Hf|apply IH].
Qed.

Lemma ingest_grows nodes edges : db_rel graph_grows (λ s, IngestSnapshot nodes edges s).
Proof.
  intros s. unfold IngestSnapshot. cbn [gdb_UpsertContextNode gdb_UpsertContextEdge ingesting_graph store_graph].
  pose proof (each_grows _ nodes upsert_node_grows s) as Hn. cbv beta in Hn.
  destruct (each (UpsertContextNode fault jsonb) nodes s) as [[[]|e] s1]; [|exact Hn].
  etrans; [exact Hn|]. exact (each_grows _ edges upsert_edge_grows s1).
Qed.

Lemma snapshot_grows interval now last_ snap s :
  graph_grows (tabs s) (tabs (maybeSnapshot interval now last_ snap s).2).
Proof.
  assert (Hins : ∀ n e l, db_rel graph_grows (InsertContextSnapshot clock fault jsonb "context" n e l)).
  { intros n e l. unfold InsertContextSnapshot.
    destruct n, e; unfold insert_shelf, insert_unique; frame. }
  unfold maybeSnapshot. cbn [gdb_InsertContextSnapshot ingesting_graph store_graph].
  repeat match goal with
  | |- graph_grows _ (tabs (match InsertContextSnapshot _ _ _ _ ?n ?e ?l s with _ => _ end).2) =>
      specialize (Hins n e l s); by destruct (InsertContextSnapshot _ _ _ _ n e l s)
  | |- graph_grows _ (tabs (match ?x with _ => _ end).2) => destruct x
  | |- graph_grows _ (tabs (if ?x then _ else _).2) => destruct x
  end; done.
Qed.

(** ** The context service at work

    Its goroutines (Start): the watchers take turns and send on a channel of eight
    places, the ingest loop takes from it, the pollers are refreshed, and requests
    ingest what their bodies hold. *)

Section running.
Context {W : Type} `{!ToolRunner W}.

(** The watchers, with the turns each has taken; the channel; the tool router's
    world; the time of the last stored snapshot; the store; and the result of every
    snapshot taken from the channel. *)
Record running := mkRunning {
  rn_watchers : list (nat * Watcher); rn_queue : list Snapshot; rn_router : W;
  rn_last : Z; rn_store : store; rn_ingested : list (result unit) }.

Definition started (cs : ContextService) (w : W) (s : store) : running :=
  mkRunning (map (λ wt, (0, wt)) (cs_Watchers cs)) [] w zero_time s [].

(** A watcher's next turn; none of one without a router, whose Watch returns. *)
Definition watcher_turn (n : nat) (wt : Watcher) (w : W) : option (option Snapshot * Watcher * W) :=
  match wt with
  | Watch_k8s kw =>
      if b_Router (kw_Base kw) then
        let l := watched_resources kw in
        let '(out, kw, w) := k8s_turn kw (nth (n mod length l) l "") w in
        Some (out, Watch_k8s kw, w)
      else None
  | Watch_polling pw =>
      let '(out, pw, w) := polling_turn pw w in Some (out, Watch_polling pw, w)
  end.

(** RefreshContext, asking one poller after the other. *)
Fixpoint refresh (pollers : list Poller) (w : W) (s : store) : result unit * W * store :=
  match pollers with
  | [] => (Ok tt, w, s)
  | p :: rest =>
      let '(answer, w) := poll p w in
      match answer with
      | Err e => (Err e, w, s)
      | Ok snap =>
          let '(r, s) := IngestSnapshot (snap_nodes snap) (snap_edges snap) s in
          match r with Ok _ => refresh rest w s | Err e => (Err e, w, s) end
      end
  end.

Definition channel_size : nat := 8.

Inductive context_step (cs : ContextService) : running → running → Prop :=
| step_watch ws q w last_ s log i n wt out wt' w' :
    ws !! i = Some (n, wt) → watcher_turn n wt w = Some (out, wt', w') →
    (length q + length (option_list out) ≤ channel_size)%nat →
    context_step cs (mkRunning ws q w last_ s log)
      (mkRunning (<[i := (S n, wt')]> ws) (q ++ option_list out) w' last_ s log)
| step_ingest ws snap q w last_ s log now r last' s' :
    ingest_turn (snapshot_interval cs) (now, snap) (last_, s) = (r, (last', s')) →
    context_step cs (mkRunning ws (snap :: q) w last_ s log)
      (mkRunning ws q w last' s' (log ++ [r]))
| step_refresh ws q w last_ s log r w' s' :
    refresh (cs_Pollers cs) w s = (r, w', s') →
    context_step cs (mkRunning ws q w last_ s log) (mkRunning ws q w' last_ s' log)
| step_request ws q w last_ s log nodes edges :
    context_step cs (mkRunning ws q w last_ s log)
      (mkRunning ws q w last_ (IngestSnapshot nodes edges s).2 log).

(** Each snapshot in the channel can be stored once those before it are. *)
Fixpoint queue_ok (known : list string) (q : list Snapshot) : Prop :=
  match q with
  | [] => True
  | snap :: rest =>
      closed_in known (of_snapshot snap) ∧ named (of_snapshot snap) ∧
      queue_ok (known ++ node_ids (snap_nodes snap)) rest
  end.

(** The ids stored, or on their way. *)
Definition coming {A} (ids : Snapshot → list A) (q : list Snapshot) : list A := flat_map ids q.
Definition snap_node_ids (s : Snapshot) : list string := node_ids (snap_nodes s).
Definition snap_edge_ids (s : Snapshot) : list string := map EdgeID (snap_edges s).
Definition node_known (r : running) : list string :=
  stored_node_ids (rn_store r) ++ coming snap_node_ids (rn_queue r).
Definition edge_known (r : running) : list string :=
  stored_edge_ids (rn_store r) ++ coming snap_edge_ids (rn_queue r).

Lemma queue_ok_mono known known' q : known ⊆ known' → queue_ok known q → queue_ok known' q.
Proof.
  revert known known'. induction q as [|snap q IH]; intros known known' Hs; [done|].
  intros (Hc & Hn & Hq). split; [by eapply closed_mono|]. split; [done|].
  eapply IH; [|exact Hq]. intros x. rewrite !elem_of_app. intros [?|?]; auto.
Qed.

Lemma queue_ok_app known q q' :
  queue_ok known q → queue_ok (known ++ coming snap_node_ids q) q' → queue_ok known (q ++ q').
Proof.
  revert known. induction q as [|snap q IH]; intros known; cbn [queue_ok coming flat_map app].
  { intros _. by rewrite app_nil_r. }
  rewrite app_assoc. intros (Hc & Hn & Hq) H. split; [done|]. split; [done|]. by apply IH.
Qed.

(** What is not fresh was there before. *)
Lemma fresh_or_before {A} (key : A → string) prev l a :
  a ∈ l → key a ≠ "" → key a ∈ map key (fresh key prev l) ∨ key a ∈ map key prev.
Proof.
  intros Ha Hk. destruct (decide (key a ∈ map key prev)) as [Hp|Hp]; [by right|left].
  apply list_elem_of_fmap. exists a. split; [done|]. apply list_elem_of_filter.
  split; [|done]. split; [done|]. rewrite list_elem_of_filter. tauto.
Qed.

Lemma fresh_sub {A} (key : A → string) prev l a : a ∈ fresh key prev l → a ∈ l.
Proof. unfold fresh. rewrite list_elem_of_filter. tauto. Qed.

(** An update is closed over what was sent before it, and names what is new. *)
Lemma diff_closed known prev next :
  closed (of_snapshot next) → snap_node_ids prev ⊆ known →
  closed_in known (of_snapshot (diffSnapshot prev next)).
Proof.
  intros [Hid He] Hk. unfold diffSnapshot. rewrite of_snapshot_of.
  rewrite Forall_forall in Hid. rewrite Forall_forall in He. split; apply Forall_forall.
  { intros n Hn%fresh_sub. by apply Hid. }
  intros e (H1 & H2 & H3 & H4 & Hf & Ht)%fresh_sub%He. do 4 (split; [done|]).
  enough (H : ∀ id, id ∈ node_ids (snap_nodes next) →
    id ∈ known ++ node_ids (fresh NodeID (snap_nodes prev) (snap_nodes next))) by (split; by apply H).
  intros id (n & -> & Hn)%list_elem_of_fmap. destruct (Hid n Hn) as [Hne _]. apply elem_of_app.
  destruct (fresh_or_before NodeID (snap_nodes prev) _ n Hn Hne); [by right|left]. by apply Hk.
Qed.

Lemma diff_named prev next : named (of_snapshot next) → named (of_snapshot (diffSnapshot prev next)).
Proof.
  unfold named, diffSnapshot. rewrite of_snapshot_of, !Forall_forall.
  intros H n Hn%fresh_sub. by apply H.
Qed.

Lemma k8s_object_named obj labels : named (snapshotFromK8sObject obj labels).1.
Proof.
  unfold snapshotFromK8sObject, named. cbv zeta.
  destruct (String.eqb_spec (str_of (default ∅ (as_map (mget obj "metadata"))) "name") ""); [constructor|].
  destruct (String.eqb_spec (str_of obj "kind") ""); [constructor|]. cbn. constructor; [done|].
  destruct (String.eqb_spec (str_of (default ∅ (as_map (mget obj "metadata"))) "namespace") "");
    by repeat constructor.
Qed.

Lemma k8s_watch_named payload labels : named (of_snapshot (snapshotFromK8sWatch payload labels).1).
Proof.
  unfold snapshotFromK8sWatch, named. cbv zeta. cbn [fst]. rewrite of_snapshot_of.
  induction (omap _ _) as [|obj l IH]; [constructor|]. cbn. apply Forall_app.
  split; [apply k8s_object_named|exact IH].
Qed.

(** *** The invariant of the goroutines *)

Variable cs : ContextService.

(** Nothing the pollers collect lacks a name. *)
Definition names_nodes : Prop :=
  ∀ p w snap w', p ∈ cs_Pollers cs → poll p w = (Ok snap, w') → named (of_snapshot snap).

(** A watcher of the service; what a polling one keeps is known. *)
Definition watcher_ok (r : running) (wt : Watcher) : Prop :=
  match wt with
  | Watch_k8s _ => True
  | Watch_polling pw =>
      pw_Poller pw ∈ cs_Pollers cs ∧ pw_DiffFn pw = None ∧
      snap_node_ids (pw_Last pw) ⊆ node_known r ∧ snap_edge_ids (pw_Last pw) ⊆ edge_known r
  end.

Record service_inv (r : running) : Prop := {
  si_ingested : Forall (λ res, res = Ok tt) (rn_ingested r);
  si_queue : queue_ok (stored_node_ids (rn_store r)) (rn_queue r);
  si_watchers : ∀ i n wt, rn_watchers r !! i = Some (n, wt) → watcher_ok r wt }.

(** Nothing known is forgotten. *)
Definition remembers (r r' : running) : Prop := node_known r ⊆ node_known r' ∧ edge_known r ⊆ edge_known r'.

Lemma watcher_ok_mono r r' wt : remembers r r' → watcher_ok r wt → watcher_ok r' wt.
Proof.
  intros [Hn He]. destruct wt as [kw|pw]; [done|]. intros (H1 & H2 & H3 & H4).
  split; [done|]. split; [done|]. split; intros x Hx; auto.
Qed.

Lemma empty_snapshot_parts s : empty_snapshot s = true → snap_nodes s = [] ∧ snap_edges s = [].
Proof. unfold empty_snapshot. by destruct (snap_nodes s), (snap_edges s). Qed.

Lemma coming_sent {A} (ids : Snapshot → list A) q u :
  (empty_snapshot u = true → ids u = []) →
  coming ids (q ++ option_list (if empty_snapshot u then None else Some u)) = coming ids q ++ ids u.
Proof.
  intros H. unfold coming. rewrite flat_map_app. f_equal.
  destruct (empty_snapshot u) eqn:E; cbn; [by rewrite H|by rewrite app_nil_r].
Qed.

Lemma fresh_known {A} (key : A → string) prev next known :
  Forall (λ a, key a ≠ "") next → map key prev ⊆ known →
  map key next ⊆ known ++ map key (fresh key prev next).
Proof.
  rewrite Forall_forall. intros Hne Hk k (a & -> & Ha)%list_elem_of_fmap. apply elem_of_app.
  destruct (fresh_or_before key prev next a Ha (Hne a Ha)); [by right|left]. by apply Hk.
Qed.

(** What is known, with the update sent, has all of the new snapshot. *)
Lemma diff_known prev next known eknown :
  closed (of_snapshot next) → snap_node_ids prev ⊆ known → snap_edge_ids prev ⊆ eknown →
  snap_node_ids next ⊆ known ++ snap_node_ids (diffSnapshot prev next) ∧
  snap_edge_ids next ⊆ eknown ++ snap_edge_ids (diffSnapshot prev next).
Proof.
  intros [Hid He] Hn Hk. unfold snap_node_ids, snap_edge_ids, diffSnapshot, snap_nodes, snap_edges, snapshot_of.
  cbn [sp_Nodes sp_Edges fst snd]. rewrite !slice_default. split; apply fresh_known; try done.
  - eapply Forall_impl; [exact Hid|]. by intros n [? _].
  - eapply Forall_impl; [exact He|]. by intros e [? _].
Qed.

(** A turn: what it sends can be stored after what is known, and with that the
    watcher's snapshot is known. *)
Lemma watcher_turn_ok r n wt w out wt' w' :
  names_nodes → watcher_ok r wt → watcher_turn n wt w = Some (out, wt', w') →
  queue_ok (node_known r) (option_list out) ∧
  watcher_ok (mkRunning (rn_watchers r) (rn_queue r ++ option_list out) w' (rn_last r) (rn_store r)
                (rn_ingested r)) wt'.
Proof.
  intros Hnames Hok. destruct wt as [kw|pw]; cbn [watcher_turn].
  - destruct (b_Router (kw_Base kw)); [|done]. unfold k8s_turn.
    destruct (run_router _ w) as [[text|e] w1]; [|by intros [= <- <- <-]].
    pose proof (k8s_watch_closed text (withLabels (kw_Base kw) ∅)) as Hc.
    pose proof (k8s_watch_named text (withLabels (kw_Base kw) ∅)) as Hn.
    destruct (snapshotFromK8sWatch _ _) as [snap rv]. intros [= <- <- <-]. split; [|done].
    destruct (empty_snapshot snap); [done|]. split; [|done].
    eapply closed_mono; [apply list_subseteq_nil|exact Hc].
  - unfold polling_turn. destruct (poll (pw_Poller pw) w) as [[snap|e] w1] eqn:Ep;
      [|intros [= <- <- <-]; cbn [option_list]; by rewrite app_nil_r].
    destruct Hok as (Hin & Hd & Hln & Hle). rewrite Hd. cbn [default]. intros [= <- <- <-].
    pose proof (poll_closed _ _ _ _ Ep) as Hc. pose proof (Hnames _ _ _ _ Hin Ep) as Hn.
    pose proof (diff_closed _ _ _ Hc Hln) as Hdc. pose proof (diff_named (pw_Last pw) _ Hn) as Hdn.
    split; [by destruct (empty_snapshot _)|]. cbn [watcher_ok pw_Poller pw_DiffFn pw_Last].
    split; [done|]. split; [done|]. unfold node_known, edge_known. cbn [rn_queue rn_store].
    destruct (diff_known _ _ _ _ Hc Hln Hle) as [Hdk Hde].
    rewrite (coming_sent snap_node_ids), (coming_sent snap_edge_ids), !app_assoc; [done|..];
      intros [Hen Hee]%empty_snapshot_parts; unfold snap_node_ids, snap_edge_ids; by rewrite ?Hen, ?Hee.
Qed.

Lemma refresh_grows pollers w s : graph_grows (tabs s) (tabs (refresh pollers w s).2).
Proof.
  revert w s. induction pollers as [|p rest IH]; intros w s; cbn [refresh]; [done|].
  destruct (poll p w) as [[snap|e] w1]; [|done].
  pose proof (ingest_grows (snap_nodes snap) (snap_edges snap) s) as Hg. cbv beta in Hg.
  destruct (IngestSnapshot _ _ s) as [[[]|e] s1]; [|exact Hg]. etrans; [exact Hg|apply IH].
Qed.

(** Rows that are only added keep the invariant. *)
Lemma inv_grow ws q w w' last_ last' s s' log :
  graph_grows (tabs s) (tabs s') → service_inv (mkRunning ws q w last_ s log) →
  service_inv (mkRunning ws q w' last' s' log).
Proof.
  intros [Hn He] [Hl Hq Hw]. cbn in *. constructor; cbn; [done| |].
  - by eapply queue_ok_mono.
  - intros i n wt H. eapply watcher_ok_mono; [|by eapply Hw].
    split; intros x; unfold node_known, edge_known; cbn; rewrite !elem_of_app; intros [?|?];
      [left|by right|left|by right]; [by apply Hn|by apply He].
Qed.

Lemma ingest_turn_ok now last_ s snap r last' s' :
  closed_in (stored_node_ids s) (of_snapshot snap) → named (of_snapshot snap) →
  ingest_turn (snapshot_interval cs) (now, snap) (last_, s) = (r, (last', s')) →
  r = Ok tt ∧ stored_node_ids s ++ snap_node_ids snap ⊆ stored_node_ids s' ∧
  stored_edge_ids s ++ snap_edge_ids snap ⊆ stored_edge_ids s'.
Proof.
  intros Hc Hn. unfold ingest_turn. cbn [fst snd].
  destruct (ingest_ok _ s Hc Hn) as (s1 & E1 & Hns & Hes). cbn [of_snapshot fst snd] in E1. rewrite E1.
  intros [= <- Hm]. pose proof (snapshot_grows (snapshot_interval cs) now last_ snap s1) as [Hg1 Hg2].
  rewrite Hm in Hg1, Hg2. cbn [snd] in Hg1, Hg2. split; [done|].
  split; intros x Hx; [apply Hg1, Hns, Hx|apply Hg2, Hes, Hx].
Qed.

Lemma inv_step r r' : names_nodes → service_inv r → context_step cs r r' → service_inv r'.
Proof.
  intros Hnames Hinv Hstep. destruct Hstep as
    [ws q w last_ s log i n wt out wt' w' Hi Ht Hroom|ws snap q w last_ s log now r last' s' Hturn
    |ws q w last_ s log r w' s' Href|ws q w last_ s log nodes edges].
  - destruct Hinv as [Hl Hq Hw]. cbn in Hl, Hq, Hw.
    destruct (watcher_turn_ok _ _ _ _ _ _ _ Hnames (Hw _ _ _ Hi) Ht) as [Hout Hwt].
    constructor; cbn; [done|by apply queue_ok_app|]. intros j m wt0 Hj.
    destruct (decide (i = j)) as [<-|Hne].
    + rewrite list_lookup_insert_eq in Hj by (by eapply lookup_lt_Some).
      injection Hj as <- <-. destruct wt' as [kw|pw]; [done|]. exact Hwt.
    + rewrite list_lookup_insert_ne in Hj by done. eapply watcher_ok_mono; [|by eapply Hw].
      split; intros x; unfold node_known, edge_known, coming; cbn; rewrite flat_map_app, !elem_of_app; tauto.
  - destruct Hinv as [Hl [Hc [Hn Hq]] Hw]. cbn in Hl, Hc, Hn, Hq, Hw.
    destruct (ingest_turn_ok _ _ _ _ _ _ _ Hc Hn Hturn) as (-> & Hns & Hes).
    constructor; cbn; [apply Forall_app; split; [done|by repeat constructor]|by eapply queue_ok_mono|].
    intros i m wt0 Hi. eapply watcher_ok_mono; [|by eapply Hw].
    split; intros x; unfold node_known, edge_known, coming; cbn; rewrite !elem_of_app;
      (intros [?|[?|?]]; [left..|by right]); [apply Hns|apply Hns|apply Hes|apply Hes];
      apply elem_of_app; auto.
  - eapply inv_grow; [|exact Hinv]. pose proof (refresh_grows (cs_Pollers cs) w s) as Hg.
    by rewrite Href in Hg.
  - eapply inv_grow; [|exact Hinv]. exact (ingest_grows nodes edges s).
Qed.

Lemma inv_reachable r r' : names_nodes → rtc (context_step cs) r r' → service_inv r → service_inv r'.
Proof. intros Hnames. induction 1; [done|]. intros Hinv. by eauto using inv_step. Qed.

(** The watchers newContextService makes start with nothing, over its pollers. *)
Lemma started_inv cfg extra w s :
  newContextService cfg true true extra = Some cs → service_inv (started cs w s).
Proof.
  unfold newContextService. destruct (cc_Enabled cfg); [|done]. intros [= Hcs].
  constructor; [constructor|done|]. cbn [started rn_watchers]. rewrite <- Hcs. cbn [cs_Watchers].
  intros i n wt Hi%list_elem_of_lookup_2. apply list_elem_of_fmap in Hi as (wt' & [= -> ->] & Hin).
  apply elem_of_app in Hin as [(ns & -> & _)%list_elem_of_fmap|Hin]; [done|].
  unfold polling_watchers in Hin. destruct (0 <? cc_WatchIntervalSecs cfg)%Z; [|by apply elem_of_nil in Hin].
  apply list_elem_of_omap in Hin as (p & Hp & Hwt).
  assert (wt' = Watch_polling (mkPolling p (mkSnap None None) None)) as ->.
  { destruct p; by simplify_eq. }
  split; [by rewrite <- Hcs|]. split; [done|]. split; apply list_subseteq_nil.
Qed.
End running.
End ingesting.

(** C12: the collected graph is complete, as long as no statement of the database
    fails and the pollers find no nameless node.  Then, of the context service the
    gateway builds: in every interleaving of its watchers, its ingest loop, its refreshes
    and other requests, each snapshot taken from the channel is stored without an error
    (an edge never comes before its ends), and once the channel is empty the store
    has every node and edge of what each polling watcher saw last. *)
Theorem watched_graph_complete {W} `{!ToolRunner W} clock jsonb cfg extra cs (w : W) s r
    (Hcs : newContextService cfg true true extra = Some cs) (Hnames : names_nodes (W := W) cs)
    (Hrun : rtc (context_step clock jsonb cs) (started cs w s) r) :
  Forall (λ res, res = Ok tt) (rn_ingested r) ∧
  ∀ i n pw, rn_watchers r !! i = Some (n, Watch_polling pw) → rn_queue r = [] →
    snap_node_ids (pw_Last pw) ⊆ stored_node_ids (rn_store r) ∧
    snap_edge_ids (pw_Last pw) ⊆ stored_edge_ids (rn_store r).
Proof.
  pose proof (started_inv cs cfg extra w s Hcs) as H0.
  destruct (inv_reachable clock jsonb cs _ _ Hnames Hrun H0) as [Hl _ Hw]. split; [done|].
  intros i n pw Hi Hq. destruct (Hw i n _ Hi) as (_ & _ & Hn & He).
  unfold node_known, edge_known in Hn, He. rewrite Hq in Hn, He. cbn [coming flat_map] in Hn, He.
  by rewrite !app_nil_r in Hn, He.
Qed.

(** *** Concrete runs *)

(** A router that answers every request with the same text, or refuses a tool. *)
Definition answering (text : string) : ToolRunner unit := {| run_router := λ _ w, (Ok text, w) |}.

Definition demo_base : Base := mkBase true empty_ref {["namespace" := "default"]}.
Definition demo_context : ContextConfig :=
  mkContextConfig true ∅ empty_ref [] [] [] [] [] [] [] [] ["pods"] false false 0 60 0 0 "" "".
Definition demo_service : ContextService :=
  default (mkService [] [] 0 0) (newContextService demo_context true true (Ok [])).

(** One application, in a namespace. *)
Definition argo_text : string :=
  print_json (JArr [JObj [("metadata", JObj [("name", JStr "web")]);
    ("spec", JObj [("destination", JObj [("namespace", JStr "prod")])])]]).

(** A schedule of the goroutines: watcher [i] takes a turn, or the ingest loop does. *)
Inductive action := Turn (i : nat) | Ingest (now : Z).

Section scheduled.
Context {W : Type} `{!ToolRunner W}.
Variable cs : ContextService.
#[local] Instance scheduled_graph : GraphDB store := store_graph tick_clock no_fault same_json.

Definition run_action (a : action) (r : running (W := W)) : option running :=
  match a with
  | Turn i =>
      '(n, wt) ← rn_watchers r !! i;
      '(out, wt', w') ← watcher_turn n wt (rn_router r);
      if (length (rn_queue r) + length (option_list out) <=? channel_size)%nat then
        Some (mkRunning (<[i := (S n, wt')]> (rn_watchers r)) (rn_queue r ++ option_list out) w'
                (rn_last r) (rn_store r) (rn_ingested r))
      else None
  | Ingest now =>
      match rn_queue r with
      | [] => None
      | snap :: q =>
          let '(res, (last', s')) := ingest_turn (snapshot_interval cs) (now, snap) (rn_last r, rn_store r) in
          Some (mkRunning (rn_watchers r) q (rn_router r) last' s' (rn_ingested r ++ [res]))
      end
  end.

(** What cannot run is passed over. *)
Definition run_actions (l : list action) (r : running) : running :=
  fold_left (λ r a, default r (run_action a r)) l r.

Lemma run_actions_reach l r : rtc (context_step tick_clock same_json cs) r (run_actions l r).
Proof.
  revert r. induction l as [|a l IH]; intros r; [apply rtc_refl|]. cbn [run_actions fold_left].
  destruct (run_action a r) as [r'|] eqn:E; [|apply IH]. eapply rtc_l; [|apply IH]. cbn [default].
  destruct r as [ws q w last_ s log]. destruct a as [i|now]; cbn [run_action rn_watchers rn_queue rn_router rn_last rn_store rn_ingested] in E.
  - destruct (ws !! i) as [[n wt]|] eqn:Ei; [cbn in E|done].
    destruct (watcher_turn n wt w) as [[[out wt'] w']|] eqn:Et; [cbn in E|done].
    destruct (_ <=? _)%nat eqn:El; [|done]. injection E as <-. apply Nat.leb_le in El.
    by eapply step_watch.
  - destruct q as [|snap q]; [done|].
    destruct (ingest_turn _ _ _) as [res [last' s']] eqn:Et. injection E as <-. by eapply step_ingest.
Qed.
End scheduled.

(** A turn of the watcher of applications, and one of the ingest loop. *)
Definition demo_running (text : string) : running (W := unit) :=
  @run_actions unit (answering text) demo_service [Turn 1; Ingest 0] (started demo_service tt empty_store).

Lemma demo_names : @names_nodes unit (answering argo_text) demo_service.
Proof.
  intros p [] snap w' Hp. revert snap w'.
  assert (H : forallb (λ p, match (@poll unit (answering argo_text) p tt).1 with
    | Ok snap => forallb (λ n, negb (node_Name n =? "")) (snap_nodes snap)
    | Err _ => true end) (cs_Pollers demo_service) = true) by (vm_compute; reflexivity).
  rewrite forallb_forall in H. apply list_elem_of_In, H in Hp. intros snap w' E. clear H.
  rewrite E in Hp. cbn [fst] in Hp. rename Hp into H.
  unfold named. apply Forall_forall. intros n Hn. rewrite forallb_forall in H.
  apply list_elem_of_In, H in Hn. destruct (String.eqb_spec (node_Name n) ""); [done|congruence].
Qed.

Lemma watched_graph_complete_witness :
  let r := demo_running argo_text in
  stored_node_ids (rn_store r) = ["argocd/app/web"; "k8s/namespace/prod"] ∧
  Forall (λ res, res = Ok tt) (rn_ingested r).
Proof.
  split; [vm_compute; reflexivity|].
  refine (proj1 (@watched_graph_complete unit (answering argo_text) tick_clock same_json demo_context
    (Ok []) demo_service tt empty_store (demo_running argo_text) _ demo_names _)).
  - vm_compute. reflexivity.
  - apply run_actions_reach.
Defined.

(** An update that could not be stored is lost: the watcher has moved on, and sends
    nothing more however often it sees the same snapshot. *)
Theorem failed_update_is_lost {W} `{!ToolRunner W} (pw : PollingWatcher) (w : W) out pw' w' :
  pw_DiffFn pw = None → polling_turn pw w = (out, pw', w') →
  (poll (pw_Poller pw) w').1 = Ok (pw_Last pw') → (polling_turn pw' w').1.1 = None.
Proof.
  intros Hd Ht Hp.
  assert (pw_Poller pw' = pw_Poller pw ∧ pw_DiffFn pw' = None) as [E1 E2].
  { revert Ht. unfold polling_turn. destruct (poll _ w) as [[snap|e] w1]; by intros [= <- <- <-]. }
  unfold polling_turn. rewrite E1, E2. destruct (poll (pw_Poller pw) w') as [r w2].
  cbn [fst] in Hp. subst r. cbn [default fst snd].
  assert (Hsame : ∀ A (key : A → string) l, fresh key l l = []).
  { intros A key l. apply elem_of_nil_inv. intros a Ha. unfold fresh in Ha.
    apply list_elem_of_filter in Ha as [[Hne Hn] Hin]. apply Hn, list_elem_of_filter.
    split; [done|]. apply list_elem_of_fmap. by exists a. }
  unfold diffSnapshot. by rewrite !Hsame.
Qed.

(** An application whose labels change is not sent again. *)
Example changed_labels_not_sent :
  diffSnapshot (mkSnap (Some [node "service" "service/web" "web" {["tier" := "dev"]}]) None)
    (mkSnap (Some [node "service" "service/web" "web" {["tier" := "prod"]}]) None) = mkSnap None None.
Proof. vm_compute. reflexivity. Qed.

Definition grafana_text : string :=
  print_json (JArr [JObj [("uid", JStr "d1")]; JObj [("uid", JStr "d2"); ("title", JStr "Latency")]]).

(** A dashboard without a title fails the refresh, and the pollers after it are not
    asked: the mapped service is not stored. *)
Theorem untitled_dashboard_blocks_refresh :
  let pollers := [GrafanaPoller demo_base "" [];
                  StaticMappingPoller demo_base [mkMapping "web" "" "" "" [] [] []]] in
  let '(r, _, s) := @refresh tick_clock same_json unit (answering grafana_text) pollers tt empty_store in
  let '(r', _, s') := @refresh tick_clock same_json unit (answering grafana_text) (rev pollers) tt empty_store in
  (r, stored_node_ids s) = (Err "invalid context node", []) ∧
  (r', stored_node_ids s') = (Err "invalid context node", ["service/web"]).
Proof. vm_compute. done. Qed.

(** The base labels hide where a resource is: a pod of one namespace is labelled with
    the namespace of the configuration. *)
Theorem base_labels_override_namespace :
  let pod := amap [("kind", AStr "Pod");
    ("metadata", AMap (amap [("name", AStr "p"); ("namespace", AStr "prod")]))] in
  match (snapshotFromK8sObject pod (withLabels demo_base ∅)).1.1 with
  | n :: _ => NodeID n = "k8s/pod/prod/p" ∧ (node_Labels n ≫= (λ m, m !! "namespace")) = Some "default"
  | [] => False
  end.
Proof. vm_compute. done. Qed.

(** A watch that fails is asked again as it was: a version the server no longer has
    is never given up. *)
Theorem failed_watch_repeated {W} `{!ToolRunner W} (kw : K8sWatcher) res (w : W) e w' :
  run_router (ask (kw_Base kw) "kubectl" "watch" (watch_input kw res)) w = (Err e, w') →
  k8s_turn kw res w = (None, kw, w').
Proof. intros H. unfold k8s_turn. by rewrite H. Qed.

(** The watchers send initial events and allow bookmarks however they are configured. *)
Theorem watch_flags_forced cfg ns :
  match namespace_watcher cfg ns with
  | Watch_k8s kw => kw_SendInitialEvents kw = true ∧ kw_AllowBookmarks kw = true
  | Watch_polling _ => False
  end.
Proof. unfold namespace_watcher. by destruct (cc_WatchSendInitialEvents cfg), (cc_WatchAllowBookmarks cfg). Qed.
