(* ===== verification/Admin.v ===== *)
(** * Admin: schedules, executions, the audit log and the health of the gateway

    The remaining handlers of internal/web/http.go (handleSchedules,
    handleScheduleByID, handleExecutions, handleExecutionByID,
    handleAuditEvents) and internal/web/health.go.  The stream of an execution's
    logs is in Streams; here is what comes before it. *)

From S2P Require Import Prelude GoStrings Json ContextRef Steps Policy Constraints Hubs Http.
From S2P Require Import Shelves Store Library LibraryLaws EventGate Gateway Plans Lifecycle Registry RegistryLaws.

Local Open Scope string_scope.
Local Open Scope list_scope.

(** ** Requests *)

Record ScheduleCreateRequest := mkSchedReq {
  hq_Summary : string; hq_Cron : string; hq_Context : ContextRef; hq_Intent : string;
  hq_Constraints : any; hq_Enabled : bool }.

Definition decode_schedule_request (j : json) : result ScheduleCreateRequest :=
  fs ← Json.members j;
  s ← fld_string "summary" fs; c ← fld_string "cron" fs; ctx ← fld_ref fs;
  i ← fld_string "intent" fs; cs ← fld_any "constraints" fs; e ← fld_bool "enabled" fs;
  Ok (mkSchedReq s c ctx i cs e).

Section filter.
(** time.Parse(time.RFC3339, _) *)
Variable time_parse : string → result Z.

Definition time_query (v : string) : result Z := if v =? "" then Ok zero_time else time_parse v.

Definition parseAuditFilter (r : Request) : result AuditFilter :=
  from ← time_query (Query r "from");
  to ← time_query (Query r "to");
  let '(limit, offset) := parsePagination (Query r) in
  Ok (mkFilter (TrimSpace (Query r "tenant_id")) from to (Query r "actor_id") (Query r "action")
        (Query r "decision") limit offset).
End filter.

Definition for_tenant (tenantID : string) (f : AuditFilter) : AuditFilter :=
  mkFilter tenantID (af_From f) (af_To f) (af_ActorID f) (af_Action f) (af_Decision f)
    (af_Limit f) (af_Offset f).

Section handlers.
Context {S : Type} `{!GatewayDB S} `{!LibraryDB S}.
Variable sv : Server.
Variable cc : call_ctx.
Variable time_parse : string → result Z.

Notation world := (gateway S).
Notation body := (handler world Response Response).

(** ** Schedules *)

Definition schedule_any (req : ScheduleCreateRequest) (intent : string) : any :=
  AMap (amap [("cron", AStr (hq_Cron req)); ("context", ref_any (hq_Context req));
    ("summary", AStr (hq_Summary req)); ("intent", AStr intent);
    ("constraints", hq_Constraints req); ("trigger", AStr "scheduled");
    ("enabled", ABool (hq_Enabled req))]).

Definition createSchedule : body :=
  req ← decode_body cc decode_schedule_request;
  _ ← return_if (blank (hq_Summary req)) (http_error "summary required" 400);
  let intent := if blank (hq_Intent req) then hq_Summary req else hq_Intent req in
  _ ← return_if (blank (hq_Cron req)) (http_error "cron required" 400);
  let ref := hq_Context req in
  _ ← or_return (validateContextRefMinimal ref)
        (λ e, deny sv cc "schedule.create" (ref_any ref) e "invalid context" 400);
  dec ← gateway_policy sv cc "schedule.create" "write" ref (riskFromIntent intent) 0;
  dec ← or_return dec (λ e, deny sv cc "schedule.create" (ref_any ref) e "policy denied" 403);
  _ ← (if negb (Decision_ dec =? "allow") then
         deny sv cc "schedule.create" (ref_any ref) ("policy decision " +:+ Decision_ dec)
           "policy denied" 403
       else mret tt);
  data ← or_error (marshal (schedule_any req intent)) "encode error" 500;
  id ← on_db (db_CreateSchedule data);
  id ← or_error id "db error" 500;
  _ ← allowed sv cc "schedule.create"
        (AMap (amap [("schedule_id", AStr id); ("summary", AStr (hq_Summary req))]));
  mret (ok_json (info "schedule_id" id)).

Definition listSchedules : body :=
  let '(limit, offset) := parsePagination (Query (cc_req cc)) in
  rows ← on_db (db_ListSchedules limit offset);
  '(payload, total) ← or_error rows "db error" 500;
  mret (paginatedResponse payload limit offset total).

Definition handleSchedules : body :=
  if Method (cc_req cc) =? "POST" then _ ← has_db sv; createSchedule
  else if Method (cc_req cc) =? "GET" then _ ← has_db sv; listSchedules
  else mret StatusMethodNotAllowed.

Definition handleScheduleByID : body :=
  _ ← return_if (negb (Method (cc_req cc) =? "DELETE")) StatusMethodNotAllowed;
  _ ← has_db sv;
  let scheduleID := trim_prefix (Path (cc_req cc)) "/v1/schedules/" in
  _ ← return_if (blank scheduleID) (http_error "schedule_id required" 400);
  ok ← on_db (db_DeleteSchedule scheduleID);
  _ ← or_error ok "delete failed" 500;
  mret no_content.

(** ** Executions *)

Definition handleExecutions : body :=
  _ ← return_if (negb (Method (cc_req cc) =? "GET")) StatusMethodNotAllowed;
  _ ← has_db sv;
  tenantID ← require_tenant cc;
  _ ← require_tenant_read sv cc "execution.list" tenantID (AMap ∅);
  let '(limit, offset) := parsePagination (Query (cc_req cc)) in
  rows ← on_db (db_ListExecutions limit offset);
  '(payload, total) ← or_error rows "db error" 500;
  mret (paginatedResponse payload limit offset total).

(** The nested [if err == nil] of both reads: the plan of the execution, when
    every lookup succeeds, is put to the policy; otherwise nothing is. *)
Definition check_plan_of (payload : json) (action : string) : handler world Response unit :=
  match (exec ← decode_map payload; of_option "" (as_string (mget exec "plan_id"))) with
  | Err _ => mret tt
  | Ok planID =>
      if planID =? "" then mret tt else
      plan ← on_db (db_GetPlan planID);
      match (p ← plan; j ← of_option "" p; decode_map j) with
      | Err _ => mret tt
      | Ok plan =>
          ok ← policyCheckReadPlan sv cc plan action;
          _ ← or_error ok "policy denied" 403;
          mret tt
      end
  end.

(** What a request for logs is checked for before the stream starts. *)
Definition check_logs (execID : string) : handler world Response unit :=
  if negb (sv_DB sv) then mret tt
  else
    payload ← on_db (db_GetExecution execID);
    match payload with
    | Ok (Some j) => check_plan_of j "execution.logs"
    | _ => mret tt
    end.

Definition getExecution : body :=
  _ ← has_db sv;
  payload ← on_db (db_GetExecution (trim_prefix (Path (cc_req cc)) "/v1/executions/"));
  payload ← or_error payload "db error" 500;
  match payload with
  | None => mret not_found
  | Some j => _ ← check_plan_of j "execution.get"; mret (mkResp 200 (Raw (doc_json j)))
  end.

Definition execution_path (suffix : string) : string :=
  trim_suffix (trim_prefix (trim_suffix (Path (cc_req cc)) suffix) "/v1/executions/") "/".

Definition cancelExecution : body :=
  _ ← has_db sv;
  let execID := execution_path "/cancel" in
  _ ← require_write sv cc "execution.cancel" empty_ref (info "execution_id" execID);
  ok ← on_db (db_CancelExecution execID);
  _ ← or_return ok (λ e, return_ (if e =? ErrNoRows then not_found else http_error "db error" 500));
  _ ← allowed sv cc "execution.cancel" (info "execution_id" execID);
  mret (ok_json (AMap (amap [("execution_id", AStr execID); ("status", AStr "cancelled")]))).

(** [stream] is the log stream of an execution, once it is let through. *)
Definition handleExecutionByID (stream : string → body) : body :=
  let get := Method (cc_req cc) =? "GET" in
  if get && has_suffix (Path (cc_req cc)) "/logs" then
    let execID := execution_path "/logs" in
    _ ← check_logs execID; stream execID
  else if get then getExecution
  else if (Method (cc_req cc) =? "POST") && has_suffix (Path (cc_req cc)) "/cancel" then
    cancelExecution
  else mret StatusMethodNotAllowed.

(** ** The audit log *)

Definition handleAuditEvents : body :=
  _ ← return_if (negb (Method (cc_req cc) =? "GET")) StatusMethodNotAllowed;
  _ ← has_db sv;
  filter ← or_error (parseAuditFilter time_parse (cc_req cc)) "invalid query" 400;
  tenantID ← or_return (resolveTenant (af_TenantID filter) (Header (cc_req cc) "X-Tenant-Id"))
               (λ e, return_ (http_error e 400));
  _ ← require_tenant_read sv cc "audit.list" tenantID (info "tenant_id" tenantID);
  rows ← on_db (lib_ListAuditEvents (for_tenant tenantID filter));
  '(payload, total) ← or_error rows "db error" 500;
  mret (paginatedResponse payload (af_Limit filter) (af_Offset filter) total).
End handlers.

(** ** Health

    The tracker of the background goroutines: which run, and the last error of
    each. *)
Record GoroutineTracker := mkTracker { alive : gmap string bool; lastErr : gmap string string }.

Definition NewGoroutineTracker : GoroutineTracker := mkTracker ∅ ∅.
Definition setAlive (name : string) (b : bool) (t : GoroutineTracker) : GoroutineTracker :=
  mkTracker (<[name := b]> (alive t)) (lastErr t).
Definition setErr (name err : string) (t : GoroutineTracker) : GoroutineTracker :=
  mkTracker (alive t) (<[name := err]> (lastErr t)).

(** The status of a name. *)
Definition goroutine_status (t : GoroutineTracker) (name : string) (b : bool) : string :=
  if b then "ok"
  else match lastErr t !! name with
       | Some msg => if msg =? "" then "stopped" else msg
       | None => "stopped"
       end.
Definition Checks (t : GoroutineTracker) : gmap string string :=
  map_imap (λ name b, Some (goroutine_status t name b)) (alive t).

(** Go: the start of a goroutine, and its end with the error of its function;
    an error after the context is done is not kept. *)
Definition go_start (name : string) : GoroutineTracker → GoroutineTracker := setAlive name true.
Definition go_end (name : string) (err : option string) (done_ : bool) (t : GoroutineTracker) :
    GoroutineTracker :=
  let t := match err with Some e => if done_ then t else setErr name e t | None => t end in
  setAlive name false t.

(** What readiness looks at: the database, its connection's ping when it has
    one, Temporal's health when it is configured, the goroutines when they are
    tracked. *)
Record health := mkHealth {
  h_DB : bool; h_Ping : option (result unit); h_Temporal : option (result unit);
  h_Goroutines : option GoroutineTracker }.

Definition probe_text (r : result unit) : string := match r with Ok _ => "ok" | Err e => e end.
Definition db_check_text (h : health) : string :=
  if h_DB h then match h_Ping h with Some r => probe_text r | None => "unknown" end
  else "unavailable".

Definition readyz_checks (h : health) : list (string * string) :=
  [("db", db_check_text h)] ++
  match h_Temporal h with Some r => [("temporal", probe_text r)] | None => [] end ++
  match h_Goroutines h with
  | Some t => (λ '(name, status), ("goroutine." +:+ name, status)) <$> map_to_list (Checks t)
  | None => []
  end.

Definition ready (h : health) : bool :=
  h_DB h && is_ok (default (Ok tt) (h_Ping h)) && is_ok (default (Ok tt) (h_Temporal h)) &&
  match h_Goroutines h with
  | Some t => forallb (λ '(_, status), status =? "ok") (map_to_list (Checks t))
  | None => true
  end.

Definition status_ok : Response := mkResp 200 (Raw (doc_json (JObj [("status", JStr "ok")]))).
Definition handleHealthz : Response := status_ok.
Definition handleReadyz (h : health) : Response :=
  if ready h then status_ok
  else mkResp 503 (Raw (doc_json
    match marshal (AMap (amap [("status", AStr "unavailable");
            ("checks", AMap (AStr <$> list_to_map (readyz_checks h)))])) with
    | Ok data => data
    | Err _ => JObj [("status", JStr "unavailable")]
    end)).

(** ** What the handlers guarantee *)

(** *** Over the SQL store *)

Section over_store.
Variable clock : nat → Z.
Variable fault : nat → option string.
Variable jsonb : json → json.
Variable pick : list approval_row → option approval_row.
Variable time_text : Z → string.
Variable time_parse : string → result Z.
Variable json_text : json → string.
Variable sv : Server.
Variable cc : call_ctx.

#[local] Instance admin_db : GatewayDB store :=
  store_db clock fault jsonb pick time_text time_parse.
#[local] Instance admin_library : LibraryDB store :=
  store_library clock fault jsonb time_text json_text.
#[local] Instance admin_core : ReadFrame core_of :=
  store_core clock fault jsonb pick time_text time_parse.

Notation world := (gateway store).
Notation tables_of w := (tabs (g_db w)).
Local Notation same := (same core_of).

Lemma CreateSchedule_rows payload :
  atomic (CreateSchedule clock fault jsonb payload) (λ id t t',
    ∃ data row, decode_map payload = Ok data ∧
      t' = set_schedules (λ rows, rows ++ [row]) t ∧ h_id row = id ∧
      h_cron row = text_of data "cron" ∧ h_intent row = text_of data "intent" ∧
      h_summary row = text_of data "summary" ∧
      h_enabled row = default true (as_bool (mget data "enabled")) ∧ h_last row = None).
Proof.
  intros s. unfold CreateSchedule, newID, time_now, stmt, db_read, db_check, db_lift, check,
    db_write, mbind, db_bind, mret, db_ret. cbn.
  destruct (decode_map payload) as [data|]; cbn; [|done]. destruct (marshal _); cbn; [|done].
  destruct (fault _); cbn; [done|]. destruct (existsb _ _); cbn; [done|]. by eexists _, _.
Qed.

(** The row of a schedule that was asked for and that the policy allows, at the
    risk its intent reads as. *)
Definition schedule_asked (row : schedule_row) : Prop :=
  ∃ req time dec,
    let intent := if blank (hq_Intent req) then hq_Summary req else hq_Intent req in
    (j ← unmarshal (Body (cc_req cc)); decode_schedule_request j) = Ok req ∧
    validateContextRefMinimal (hq_Context req) = Ok tt ∧
    policyDecision (sv_Policy sv)
      (mkPolicyEnv (cc_actor cc) (Header (cc_req cc) "X-Break-Glass") time)
      "schedule.create" "write" (hq_Context req) (riskFromIntent intent) 0 = Ok dec ∧
    Decision_ dec = "allow" ∧ blank (hq_Cron req) = false ∧ blank (hq_Summary req) = false ∧
    h_cron row = valid_utf8 (hq_Cron req) ∧ h_summary row = valid_utf8 (hq_Summary req) ∧
    h_intent row = valid_utf8 intent ∧ h_enabled row = hq_Enabled req ∧ h_last row = None.

Definition schedule_outcome (w : world) (r : Response) (w' : world) : Prop :=
  refused r ∧ same w w' ∨
  Status r = 200%Z ∧ ∃ row,
    core_of (g_db w') = set_schedules (λ rows, rows ++ [row]) (core_of (g_db w)) ∧
    schedule_asked row.

Lemma schedule_columns req intent payload data :
  marshal (schedule_any req intent) = Ok payload → decode_map payload = Ok data →
  text_of data "cron" = valid_utf8 (hq_Cron req) ∧
  text_of data "summary" = valid_utf8 (hq_Summary req) ∧
  text_of data "intent" = valid_utf8 intent ∧
  default true (as_bool (mget data "enabled")) = hq_Enabled req.
Proof.
  intros Hp Hm.
  assert (Hk : plain_keys (amap [("cron", AStr (hq_Cron req)); ("context", ref_any (hq_Context req));
    ("summary", AStr (hq_Summary req)); ("intent", AStr intent);
    ("constraints", hq_Constraints req); ("trigger", AStr "scheduled");
    ("enabled", ABool (hq_Enabled req))])) by (apply plain_amap; reflexivity).
  assert (Ht : ∀ k s, amap [("cron", AStr (hq_Cron req)); ("context", ref_any (hq_Context req));
    ("summary", AStr (hq_Summary req)); ("intent", AStr intent);
    ("constraints", hq_Constraints req); ("trigger", AStr "scheduled");
    ("enabled", ABool (hq_Enabled req))] !! k = Some (AStr s) → text_of data k = valid_utf8 s).
  { intros k s H. unfold text_of. by rewrite (decoded_string _ _ _ _ _ Hk Hp Hm H). }
  split_and!; try (apply Ht; by rewrite amap_assoc).
  unfold mget. by rewrite (map_roundtrip _ _ _ Hk Hp Hm), amap_assoc.
Qed.

(** A schedule is stored exactly as it was asked for, and only when its context
    is valid and the policy allows, outright, a write at the risk its intent
    reads as; any other request changes nothing. *)
Theorem createSchedule_spec w :
  let '(r, w') := run_handler (createSchedule sv cc) w in schedule_outcome w r w'.
Proof.
  enough (wp (createSchedule sv cc) (schedule_outcome w) (schedule_outcome w) w) as H.
  { rewrite wp_run in H. by destruct (run_handler _ w). }
  assert (Hno : ∀ msg st w', same w w' → (400 ≤ st)%Z → schedule_outcome w (http_error msg st) w')
    by (intros; by left).
  apply wp_bind, wp_or_error; [intros req Hreq|by apply Hno].
  apply wp_bind, wp_return_if. split; intros Hsum; [by apply Hno|]. cbv zeta.
  apply wp_bind, wp_return_if. split; intros Hcron; [by apply Hno|].
  apply wp_bind, (wp_or_deny core_of); [intros [] Hctx|intros; by apply Hno].
  apply wp_bind, (wp_policy core_of). intros time w1 Hw1.
  apply wp_bind, (wp_or_deny core_of); [intros dec Hdec|intros w2 Hw2; apply Hno; [by etrans|done]].
  apply wp_bind. destruct (Decision_ dec =? "allow") eqn:Hallow; cbn [negb].
  2: { apply (wp_deny core_of). intros w2 Hw2. apply Hno; [by etrans|done]. }
  apply wp_ret, wp_bind, wp_or_error; [intros data Hdata|apply Hno; [done|lia]].
  apply wp_bind, (wp_on_db_atomic _ _ _ _ _ (CreateSchedule_rows data)).
  2: { intros e w2 Hw2. apply wp_bind, wp_or_error; [intros ? [=]|]. apply Hno; [|done].
       etrans; [done|]. unfold Gateway.same, core_of. by rewrite Hw2. }
  intros id w2 (m & row & Hm & Hw2 & Hid & Hc & Hi & Hs & He & Hl).
  apply wp_bind, wp_or_return. split; [intros id' _|intros ? [=]].
  apply wp_bind, (wp_audit core_of). intros w3 Hw3. apply wp_ret. right. split; [done|].
  exists row. split.
  - transitivity (core_of (g_db w2)); [done|]. unfold core_of. rewrite Hw2.
    unfold Gateway.same, core_of in Hw1. by rewrite <- Hw1.
  - destruct (schedule_columns _ _ _ _ Hdata Hm) as (H1 & H2 & H3 & H4). bool_hyps.
    exists req, time, dec. cbv zeta. split_and!; congruence.
Qed.

(** *** Cancelling *)
Lemma CancelExecution_rows execID s :
  let '(r, s') := CancelExecution clock fault execID s in
  ∃ n, tabs s' = tabs s ∧ is_ok r = false ∨
    tabs s' = set_executions (update_where
      (λ x, (x_id x =? execID) && active_status (x_status x)) (with_completed "cancelled" n)) (tabs s).
Proof.
  unfold CancelExecution, stmt, time_now, db_read, db_write, db_check, db_lift, check, mbind,
    db_bind, mret, db_ret. cbn.
  destruct (fault _); cbn; [exists 0%Z; by left|].
  destruct (negb _); cbn; exists (clock (ticks s)); by right.
Qed.

(** Cancelling changes nothing but the active rows of the execution, and those
    only when the policy allows it, asked about no context. *)
Definition cancel_outcome (w w' : world) : Prop :=
  same w w' ∨
  policy_allows sv cc "execution.cancel" empty_ref ∧ ∃ n,
    core_of (g_db w') = set_executions (update_where
      (λ x, (x_id x =? execution_path cc "/cancel") && active_status (x_status x))
      (with_completed "cancelled" n)) (core_of (g_db w)).

Lemma wp_cancelExecution w :
  wp (cancelExecution sv cc) (λ _, cancel_outcome w) (λ _, cancel_outcome w) w.
Proof.
  apply wp_bind, wp_has_db; [intros _|by left].
  apply wp_bind, (wp_require_write core_of); [intros Hallow w1 Hw1|by left].
  apply wp_bind, wp_on_db.
  pose proof (CancelExecution_rows (execution_path cc "/cancel") (g_db w1)) as Hrows.
  change (db_CancelExecution ?id) with (CancelExecution clock fault id).
  destruct (CancelExecution clock fault (execution_path cc "/cancel") (g_db w1)) as [r s'].
  destruct Hrows as [n Hrows]. cbn [fst snd].
  assert (Hout : ∀ w2, same (with_db s' w1) w2 → cancel_outcome w w2).
  { intros w2 Hw2. destruct Hrows as [[Hs _]|Hs].
    - left. etrans; [exact Hw1|]. etrans; [|exact Hw2]. unfold Gateway.same, core_of. simpl. by rewrite Hs.
    - right. split; [done|]. exists n. unfold Gateway.same in *. rewrite Hw2. unfold core_of at 1. simpl.
      rewrite Hs. by rewrite <- Hw1. }
  apply wp_bind, wp_or_return. split; intros ? _; [|by apply wp_return, Hout].
  apply wp_bind, (wp_audit core_of). intros w2 Hw2. by apply wp_ret, Hout.
Qed.
(** Cancelling an execution touches nothing else than that execution's rows, sets
    the active ones to cancelled, and does so only when the policy allows it. *)
Theorem cancelExecution_spec w :
  let '(_, w') := run_handler (cancelExecution sv cc) w in cancel_outcome w w'.
Proof. pose proof (wp_cancelExecution w) as H. rewrite wp_run in H. by destruct (run_handler _ w). Qed.

(** *** The audit log *)

(** A page of audit events that all name the tenant. *)
Definition audit_page (tenant : string) (w : world) (r : Response) : Prop :=
  ∃ rows limit offset total,
    r = paginatedResponse (JArr (map (audit_json time_text) rows)) limit offset total ∧
    (length rows ≤ 200)%nat ∧
    ∀ u, u ∈ rows → u ∈ audits (tables_of w) ∧ audit_tenant json_text tenant u.

Lemma resolveTenant_nonempty bodyTenant headerTenant t :
  resolveTenant bodyTenant headerTenant = Ok t → t ≠ "".
Proof. intros H%resolveTenant_spec. naive_solver. Qed.

(** The audit log is shown to a caller only as the events that name one tenant:
    the one of the query, which the X-Tenant-Id header must not contradict, or
    else the header's, and for which the policy lets the caller read; a request
    that names none is refused. *)
Theorem audit_log_by_tenant w :
  let '(r, _) := run_handler (handleAuditEvents sv cc time_parse) w in
  refused r ∨ ∃ tenant w1,
    resolveTenant (TrimSpace (Query (cc_req cc) "tenant_id")) (Header (cc_req cc) "X-Tenant-Id")
    = Ok tenant ∧ same w w1 ∧ audit_page tenant w1 r.
Proof.
  match goal with |- let '(r, _) := _ in @?G r => set (good := G) end.
  enough (wp (handleAuditEvents sv cc time_parse) (λ r _, good r) (λ r _, good r) w) as H.
  { rewrite wp_run in H. by destruct (run_handler _ w). }
  assert (Hno : ∀ msg st, (400 ≤ st)%Z → good (http_error msg st)) by (intros; by left).
  apply wp_bind, wp_return_if. split; intros _; [by left|].
  apply wp_bind, wp_has_db; [intros _|by apply Hno].
  apply wp_bind, wp_or_error; [intros f Hf|by apply Hno].
  apply wp_bind, wp_or_return. split; intros tenant Ht; [|by apply wp_return, Hno].
  apply wp_bind, (wp_tenant_read core_of); [intros w1 Hw1|intros; by apply Hno].
  assert (Haf : af_TenantID f = TrimSpace (Query (cc_req cc) "tenant_id")).
  { unfold parseAuditFilter in Hf. ok_inv Hf. by subst. }
  rewrite Haf in Ht. apply wp_bind, wp_on_db.
  pose proof (audit_listing_scoped fault time_text json_text (for_tenant tenant f) (g_db w1)) as Hl.
  change (lib_ListAuditEvents ?f) with (ListAuditEvents fault time_text json_text f).
  destruct (ListAuditEvents fault time_text json_text (for_tenant tenant f) (g_db w1)) as [x s'].
  destruct Hl as [_ Hl]. cbn [fst snd].
  apply wp_bind, wp_or_error; [|by apply Hno]. intros [payload total] ->.
  destruct (Hl _ _ eq_refl) as (rows & -> & Hlen & Hrows).
  apply wp_ret. right. exists tenant, w1. split; [done|]. split; [done|].
  exists rows, (af_Limit f), (af_Offset f), total. split; [done|]. split; [done|].
  intros u Hu. destruct (Hrows u Hu) as (? & Hten & _). split; [done|].
  apply Hten. by eapply resolveTenant_nonempty.
Qed.
End over_store.

(** *** Reading an execution *)

Section reads.
Context {S E : Type} `{!GatewayDB S} `{!LibraryDB S}.
Variable view : S → E.
Context `{!ReadFrame view}.
Variable sv : Server.
Variable cc : call_ctx.
Implicit Types w : gateway S.

(** The plan of an execution, as far as it can be read. *)
Definition plan_of_execution (payload : json) (s : S) : option (gmap string any) :=
  match decode_map payload with
  | Ok exec =>
      match mget exec "plan_id" with
      | AStr planID =>
          if planID =? "" then None
          else match (db_GetPlan planID s).1 with
               | Ok (Some j) => match decode_map j with Ok plan => Some plan | Err _ => None end
               | _ => None
               end
      | _ => None
      end
  | Err _ => None
  end.

(** A reader the session and the policy let see a plan. *)
Definition may_read (action : string) (plan : gmap string any) : Prop :=
  enforceSessionMatch cc plan = Ok tt ∧
  validateContextRefTenantOnly (plan_context plan) = Ok tt ∧
  ∃ time dec, policyDecision (sv_Policy sv)
      (mkPolicyEnv (cc_actor cc) (Header (cc_req cc) "X-Break-Glass") time)
      action "read" (plan_context plan) "read" 0 = Ok dec ∧ Decision_ dec = "allow".

Lemma wp_read_plan_checked plan action (Q : result ContextRef → gateway S → Prop)
    (F : Response → gateway S → Prop) w :
  (∀ r w', same view w w' → (is_ok r = true → may_read action plan) → Q r w') →
  wp (policyCheckReadPlan sv cc plan action) Q F w.
Proof.
  intros HQ. unfold policyCheckReadPlan, enforceSessionRequired.
  apply wp_bind, wp_bind, (wp_session view). intros session w1 Hw1. apply wp_ret. cbv zeta.
  destruct (_ ← _; validateContextRefTenantOnly _) as [[]|e] eqn:Hc; [|by apply wp_ret, HQ].
  apply wp_bind. unfold gateway_check. apply wp_bind, (wp_policy view). intros time w2 Hw2.
  apply wp_ret, wp_ret, HQ; [by etrans|]. intros Hok.
  apply bind_Ok in Hc as (u & (s0 & _ & Hs)%bind_Ok & Hc). destruct u.
  split; [done|]. split; [done|].
  destruct (policyDecision _ _ _ _ _ _ _) as [dec|] eqn:Hdec; [|done]. exists time, dec. split; [done|].
  cbn in Hok. unfold check in Hok. by destruct (String.eqb_spec (Decision_ dec) "allow").
Qed.

(** What the check lets through. *)
Lemma wp_check_plan_of payload action (Q : unit → gateway S → Prop)
    (F : Response → gateway S → Prop) w :
  (∀ w', same view w w' →
     (∀ plan, plan_of_execution payload (g_db w) = Some plan → may_read action plan) → Q tt w') →
  (∀ w', same view w w' → F (http_error "policy denied" 403) w') →
  wp (check_plan_of sv cc payload action) Q F w.
Proof.
  intros HQ HF. unfold check_plan_of, plan_of_execution in *.
  destruct (decode_map payload) as [exec|]; cbn; [|by apply wp_ret, HQ].
  destruct (mget exec "plan_id") as [| | | | |planID| | | | | | |]; cbn; try (by apply wp_ret, HQ).
  destruct (planID =? ""); [by apply wp_ret, HQ|].
  apply wp_bind, (wp_on_db_read view); [apply frame_GetPlan|]. intros r w1 Hw1 Hr. rewrite Hr in HQ.
  cbn in HQ. destruct r as [[j|]|]; cbn; [|by apply wp_ret, HQ|by apply wp_ret, HQ].
  destruct (decode_map j) as [plan|]; [|by apply wp_ret, HQ].
  apply wp_bind, wp_read_plan_checked. intros ref w2 Hw2 Hread.
  apply wp_bind, wp_or_error; [intros a ->; apply wp_ret|].
  - apply HQ; [by etrans|]. intros ? [= <-]. by apply Hread.
  - apply HF. by etrans.
Qed.

(** An execution is shown only as the database gives it, and only to a reader
    that may read its plan, whenever that plan can be read. *)
Theorem getExecution_checked w :
  let '(r, _) := run_handler (getExecution sv cc) w in
  let '(x, s) := db_GetExecution (trim_prefix (Path (cc_req cc)) "/v1/executions/") (g_db w) in
  refused r ∨ ∃ j, r = mkResp 200 (Raw (doc_json j)) ∧ x = Ok (Some j) ∧
    ∀ plan, plan_of_execution j s = Some plan → may_read "execution.get" plan.
Proof.
  destruct (db_GetExecution _ _) as [x s] eqn:Ex.
  match goal with |- let '(r, _) := _ in @?G r => set (good := G) end.
  enough (wp (getExecution sv cc) (λ r _, good r) (λ r _, good r) w) as H.
  { rewrite wp_run in H. by destruct (run_handler _ w). }
  assert (Hno : ∀ msg st, (400 ≤ st)%Z → good (http_error msg st)) by (intros; by left).
  apply wp_bind, wp_has_db; [intros _|by apply Hno].
  apply wp_bind, wp_on_db. rewrite Ex. cbn [fst snd].
  apply wp_bind, wp_or_error; [intros [j|] ->|by apply Hno]; [|by apply wp_ret, Hno].
  apply wp_bind, wp_check_plan_of; [|intros; by apply Hno].
  intros w1 _ Hplan. apply wp_ret. right. exists j. split; [done|]. by split.
Qed.
End reads.

(** The check does not close when a lookup fails: with a policy that denies
    everything, an execution is shown when the query for its plan fails. *)
Definition execution_store : store :=
  (CreateExecution tick_clock no_fault "plan_0" with_plan).2.
Definition second_fails (first : nat) (n : nat) : option string :=
  if Nat.eqb n (Datatypes.S first) then Some "connection reset" else None.
Definition flaky_db : GatewayDB store :=
  store_db tick_clock (second_fails (stmts execution_store)) same_json last demo_time time_error.
Definition execution_request : call_ctx :=
  demo_request "GET" ("/v1/executions/" +:+ hd "" (map x_id (executions (tabs execution_store)))) doc_empty.

Theorem execution_read_unchecked :
  let sv := demo_server (Some deny_all) None in
  let read db := (run_handler (getExecution (GatewayDB0 := db) sv execution_request) (with_rows execution_store)).1 in
  map x_plan (executions (tabs execution_store)) = ["plan_0"] ∧
  Status (read demo_db) = 403%Z ∧ Status (read flaky_db) = 200%Z.
Proof. vm_compute. auto. Qed.

(** *** Readiness *)

Inductive tracker_event :=
| Started_ (name : string)
| Ended (name : string) (err : option string) (done_ : bool).

Definition track (e : tracker_event) : GoroutineTracker → GoroutineTracker :=
  match e with Started_ name => go_start name | Ended name err d => go_end name err d end.
Definition tracked (events : list tracker_event) : GoroutineTracker :=
  fold_left (λ t e, track e t) events NewGoroutineTracker.

Definition event_name (e : tracker_event) : string :=
  match e with Started_ name | Ended name _ _ => name end.
Definition starts (e : tracker_event) : bool :=
  match e with Started_ _ => true | Ended _ _ _ => false end.
(** The last thing that happened to a name. *)
Definition last_event (name : string) (events : list tracker_event) : option tracker_event :=
  last (List.filter (λ e, event_name e =? name) events).
Definition error_of (e : tracker_event) : string :=
  match e with Ended _ (Some err) _ => err | _ => "" end.

Lemma tracked_snoc events e : tracked (events ++ [e]) = track e (tracked events).
Proof. unfold tracked. by rewrite fold_left_app. Qed.

Lemma tracked_alive events name :
  alive (tracked events) !! name = starts <$> last_event name events.
Proof.
  unfold last_event. induction events as [|e events IH] using rev_ind; [apply lookup_empty|].
  rewrite tracked_snoc, List.filter_app. simpl.
  assert (alive (track e (tracked events)) = <[event_name e := starts e]> (alive (tracked events))) as ->.
  { destruct e as [|? [?|] []]; reflexivity. }
  destruct (String.eqb_spec (event_name e) name) as [->|Hne].
  - by rewrite lookup_insert_eq, last_snoc.
  - by rewrite lookup_insert_ne, app_nil_r.
Qed.

Lemma tracked_errors events name err :
  lastErr (tracked events) !! name = Some err → ∃ e, e ∈ events ∧ error_of e = err.
Proof.
  induction events as [|e events IH] using rev_ind; [unfold tracked; simpl; by rewrite lookup_empty|].
  rewrite tracked_snoc. intros H.
  assert (lastErr (tracked events) !! name = Some err ∨ error_of e = err) as [H'|H'].
  { destruct e as [|? [err'|] []]; simpl in H; auto.
    destruct (decide (name0 = name)) as [->|]; [rewrite lookup_insert_eq in H|rewrite lookup_insert_ne in H by done];
      simpl; naive_solver. }
  - destruct (IH H') as (e' & ? & ?). exists e'. set_solver.
  - exists e. set_solver.
Qed.

Lemma all_alive events :
  (∀ e, e ∈ events → error_of e ≠ "ok") →
  forallb (λ '(_, status), status =? "ok") (map_to_list (Checks (tracked events))) = true ↔
  ∀ e e', e ∈ events → last_event (event_name e) events = Some e' → starts e' = true.
Proof.
  intros Herr. rewrite forallb_forall. unfold Checks. split.
  - intros H e e' He Hl. destruct (starts e') eqn:Hs; [done|]. exfalso.
    assert (Ha : alive (tracked events) !! event_name e = Some false) by (by rewrite tracked_alive, Hl; simpl; rewrite Hs).
    assert (Hc : (event_name e, goroutine_status (tracked events) (event_name e) false)
                 ∈ map_to_list (Checks (tracked events))).
    { apply elem_of_map_to_list. unfold Checks. by rewrite map_lookup_imap, Ha. }
    apply list_elem_of_In, H in Hc. clear H. rename Hc into H.
    apply String.eqb_eq in H. unfold goroutine_status in H.
    destruct (lastErr _ !! _) as [err|] eqn:E; [|done].
    apply tracked_errors in E as (x & Hx & <-). destruct (String.eqb_spec (error_of x) ""); [done|].
    by apply (Herr x).
  - intros H [name status] Hin%list_elem_of_In%elem_of_map_to_list.
    rewrite map_lookup_imap, tracked_alive in Hin.
    destruct (last_event name events) as [e'|] eqn:El; [|done]. simpl in Hin. injection Hin as <-.
    assert (He : e' ∈ events ∧ event_name e' = name).
    { unfold last_event in El. apply last_Some_elem_of in El. apply elem_of_List_filter in El as [??].
      split; [done|]. by apply String.eqb_eq. }
    destruct He as [He <-]. by rewrite (H e' e' He El).
Qed.

(** The gateway says it is ready exactly when its database is there and
    answers, Temporal does when it is configured, and every goroutine that was
    ever started has not ended since: whatever started and ended in between. *)
Theorem readyz_spec db ping temporal events :
  (∀ e, e ∈ events → error_of e ≠ "ok") →
  Status (handleReadyz (mkHealth db ping temporal (Some (tracked events)))) = 200%Z ↔
  db = true ∧ (∀ e, ping ≠ Some (Err e)) ∧ (∀ e, temporal ≠ Some (Err e)) ∧
  ∀ e e', e ∈ events → last_event (event_name e) events = Some e' → starts e' = true.
Proof.
  intros Herr. rewrite <- (all_alive events Herr). unfold handleReadyz, ready. simpl.
  destruct db, ping as [[[]|]|], temporal as [[[]|]|]; simpl;
    destruct (forallb _ _); simpl; naive_solver.
Qed.

Lemma readyz_spec_witness :
  let events := [Started_ "scheduler"; Started_ "watcher"; Ended "scheduler" (Some "timeout") false] in
  Status (handleReadyz (mkHealth true None (Some (Ok tt)) (Some (tracked events)))) ≠ 200%Z.
Proof.
  intros events H. apply readyz_spec in H as (_ & _ & _ & H).
  - specialize (H (Started_ "scheduler") _ ltac:(apply list_elem_of_here) eq_refl). discriminate H.
  - intros e. unfold events. rewrite !elem_of_cons, elem_of_nil.
    intros [->|[->|[->|[]]]]; discriminate.
Defined.
