(* ===== verification/Streams.v ===== *)
(** * Streams: events and logs, server-sent and over WebSocket

    internal/web/sse.go and internal/web/ws.go.  What a stream receives from its
    subscription is an argument (Hubs has the hubs); a stream ends when the
    client goes, the subscription is closed or, over WebSocket, a frame cannot be
    written: the arguments are what it received until then. *)

From S2P Require Import Prelude GoStrings Json Digest ContextRef Steps Policy Constraints Hubs Http.
From S2P Require Import Store EventGate Gateway Plans.
From Stdlib Require Import Ascii.

Local Open Scope string_scope.
Local Open Scope list_scope.

Definition nl : string := String (byte 10) "".
Definition crlf : string := String (byte 13) nl.

(** ** Server-sent events *)

(** The line that opens a stream, and one event of it. *)
Definition sse_open : string := ":ok" +:+ nl +:+ nl.
Definition sse_frame (name payload : string) : string :=
  "event: " +:+ name +:+ nl +:+ "data: " +:+ payload +:+ nl +:+ nl.

(** *** The logs of an execution *)

Module Log.
Record LogLine := mkLine {
  ExecutionID : string; ToolCallID : string; Level : string; Message : string; Timestamp : Z }.
End Log.

Section streams.
Context {S : Type} `{!GatewayDB S}.
Variable sv : Server.
Variable cc : call_ctx.

Notation world := (gateway S).
Notation body := (handler world Response Response).

Definition line_any (l : Log.LogLine) : any :=
  AStruct "LogLine"
    ([("execution_id", AStr (Log.ExecutionID l))] ++
     (if Log.ToolCallID l =? "" then [] else [("tool_call_id", AStr (Log.ToolCallID l))]) ++
     [("level", AStr (Log.Level l)); ("message", AStr (Log.Message l));
      ("timestamp", AStr (sv_rfc3339 sv (Log.Timestamp l)))]).

(** The lines a request asks for. *)
Definition wanted (l : Log.LogLine) : bool :=
  let toolFilter := TrimSpace (Query (cc_req cc) "tool_call_id") in
  let levelFilter := TrimSpace (Query (cc_req cc) "level") in
  ((toolFilter =? "") || (Log.ToolCallID l =? toolFilter)) &&
  ((levelFilter =? "") || (Log.Level l =? levelFilter)).

(** writeLine for each line; a line that cannot be marshalled ends the stream. *)
Fixpoint write_lines (lines : list Log.LogLine) : string * bool :=
  match lines with
  | [] => ("", true)
  | l :: rest =>
      if negb (wanted l) then write_lines rest
      else match marshal (line_any l) with
           | Err _ => ("", false)
           | Ok payload =>
               let '(out, more) := write_lines rest in
               (sse_frame "log" (print_json payload) +:+ out, more)
           end
  end.

(** The history, then the subscription: two calls, and what others do to the hub
    [between] them and [during] the subscription. *)
Definition stream_logs (execID : string) (received : list Log.LogLine)
    (between during : LogHub Log.LogLine → LogHub Log.LogLine) (hub : LogHub Log.LogLine) :
    string * LogHub Log.LogLine :=
  let '(out, more) := write_lines (History execID hub) in
  if more then
    let '(id, hub) := lh_Subscribe execID (between hub) in
    (sse_open +:+ out +:+ (write_lines received).1, lh_cancel execID id (during hub))
  else (sse_open +:+ out, hub).

(** [flusher]: the writer can flush. *)
Definition handleExecutionLogs (flusher : bool) (received : list Log.LogLine)
    (between during : LogHub Log.LogLine → LogHub Log.LogLine) (hub : LogHub Log.LogLine)
    (execID : string) : body :=
  _ ← return_if (negb (Method (cc_req cc) =? "GET")) StatusMethodNotAllowed;
  _ ← return_if (execID =? "") (http_error "missing execution" 400);
  _ ← return_if (negb flusher) (http_error "stream unsupported" 500);
  mret (mkResp 200 (Streamed (stream_logs execID received between during hub).1)).

(** *** The events of a session *)

Definition event_any (ev : Event) : any :=
  AStruct "Event"
    ([("event", AStr (ev_Event ev))] ++
     (if ev_SessionID ev =? "" then [] else [("session_id", AStr (ev_SessionID ev))]) ++
     [("data", ev_Data ev); ("ts", AStr (sv_rfc3339 sv (ev_TS ev)))]).

Definition stream_session : handler world Response string :=
  if sv_SessionRequired sv then
    id ← requireSession sv cc;
    or_return id (λ _, return_ (http_error "session denied" 403))
  else mret (sessionIDFromRequest cc).

Definition with_hub (h : hub Event) (w : world) : world :=
  mkGateway (g_db w) (g_gates w) (g_ticks w) h (g_out w).
Definition subscribe (sessionID : string) : handler world Response nat :=
  call (λ w, let '(id, h) := Subscribe sessionID (g_hub w) in (id, with_hub h w)).
Definition unsubscribe (sessionID : string) (id : nat) : handler world Response unit :=
  effect (λ w, with_hub (cancel sessionID id (g_hub w)) w).

(** An event that cannot be marshalled is passed over. *)
Definition write_event (ev : Event) : string :=
  match marshal (event_any ev) with
  | Err _ => ""
  | Ok payload =>
      let name := TrimSpace (ev_Event ev) in
      sse_frame (if name =? "" then "event" else name) (print_json payload)
  end.

Definition handleEventsSSE (flusher : bool) (received : list Event) : body :=
  _ ← return_if (negb (Method (cc_req cc) =? "GET")) StatusMethodNotAllowed;
  sessionID ← stream_session;
  _ ← return_if (negb flusher) (http_error "stream unsupported" 500);
  id ← subscribe sessionID;
  _ ← unsubscribe sessionID id;
  mret (mkResp 200 (Streamed (sse_open +:+ join (map write_event received) ""))).

(** ** WebSocket *)

(** *** Frames *)

(** byte(z) of an integer. *)
Definition to_byte (z : Z) : ascii := byte (Z.to_nat (z mod 256)).

Definition frame_header (n : Z) : list ascii :=
  to_byte 129 ::
  if (n <=? 125)%Z then [to_byte n]
  else if (n <=? 65535)%Z then [to_byte 126; to_byte (Z.shiftr n 8); to_byte n]
  else [to_byte 127; to_byte (Z.shiftr n 56); to_byte (Z.shiftr n 48); to_byte (Z.shiftr n 40);
        to_byte (Z.shiftr n 32); to_byte (Z.shiftr n 24); to_byte (Z.shiftr n 16);
        to_byte (Z.shiftr n 8); to_byte n].

Definition writeTextFrame (payload : string) : string :=
  fold_right String "" (frame_header (Z.of_nat (String.length payload))) +:+ payload.

(** *** The handshake *)

Definition wsGUID : string := "258EAFA5-E914-47DA-95CA-C5AB0DC85B11".

(** [Values key] are all the values of a header; and taking the
    connection over ([None]: the writer cannot). *)
Variable Values : string → list string.
Variable hijack : option (result unit).
Variable flush : result unit.

Definition headerHasToken (key token : string) : bool :=
  existsb (λ v, existsb (λ part, EqualFold (TrimSpace part) token) (split_byte "," v)) (Values key).

Definition isWebSocketRequest : bool :=
  headerHasToken "Connection" "upgrade" && EqualFold (Header (cc_req cc) "Upgrade") "websocket".

Definition computeAccept (key : string) : string := base64 (sha1 (key +:+ wsGUID)).

(** The example of RFC 6455. *)
Example accept_rfc : computeAccept "dGhlIHNhbXBsZSBub25jZQ==" = "s3pPLMBiTxaQ9kYGzzhZRbK+xOo=".
Proof. vm_compute. reflexivity. Qed.

Definition handshake (accept : string) : string :=
  "HTTP/1.1 101 Switching Protocols" +:+ crlf +:+ "Upgrade: websocket" +:+ crlf +:+
  "Connection: Upgrade" +:+ crlf +:+ "Sec-WebSocket-Accept: " +:+ accept +:+ crlf +:+ crlf.

(** What is written to the connection, or why there is none. *)
Definition upgradeWebSocket (hijacked : result unit) : result string :=
  _ ← check isWebSocketRequest "not websocket";
  let key := Header (cc_req cc) "Sec-WebSocket-Key" in
  _ ← check (negb (key =? "")) "missing key";
  _ ← hijacked;
  _ ← flush;
  Ok (handshake (computeAccept key)).

(** *** The stream *)

Definition stamped (sessionID : string) (t : Z) (ev : Event) : Event :=
  mkEvent (ev_Event ev) (ev_Data ev) t
    (if ev_SessionID ev =? "" then sessionID else ev_SessionID ev).

(** The texts sent, one for each event that can be marshalled; [broken n] says
    that the n-th cannot be written, which ends the stream. *)
Fixpoint ws_texts (broken : nat → bool) (sessionID : string) (n : nat) (received : list Event) :
    handler world Response (list string) :=
  match received with
  | [] => mret []
  | ev :: rest =>
      t ← now_ sv;
      match marshal (event_any (stamped sessionID t ev)) with
      | Err _ => ws_texts broken sessionID n rest
      | Ok payload =>
          if broken n then mret []
          else texts ← ws_texts broken sessionID (Datatypes.S n) rest;
               mret (print_json payload :: texts)
      end
  end.

Definition ws_stream (broken : nat → bool) (received : list Event) (sessionID : string) : body :=
  hijacked ← or_return (of_option "" hijack)
               (λ _, return_ (http_error "hijack unsupported" 500));
  hello ← or_return (upgradeWebSocket hijacked) (λ e, return_ (http_error e 400));
  id ← subscribe sessionID;
  texts ← ws_texts broken sessionID 0 received;
  _ ← unsubscribe sessionID id;
  mret (mkResp 101 (Streamed (hello +:+ join (map writeTextFrame texts) ""))).

Definition handleWS (broken : nat → bool) (received : list Event) : body :=
  _ ← return_if (negb (Method (cc_req cc) =? "GET")) StatusMethodNotAllowed;
  sessionID ← stream_session;
  ws_stream broken received sessionID.
End streams.

(** ** The other end

    A frame as RFC 6455 has a client read it: one final, unmasked text frame
    without extensions, its length in the shortest of the three forms. *)

Fixpoint be_value (k : nat) (acc : Z) (s : string) : option (Z * string) :=
  match k, s with
  | O, _ => Some (acc, s)
  | Datatypes.S k', String c s' => be_value k' (acc * 256 + code c) s'
  | _, "" => None
  end.

Definition take_exactly (n : Z) (s : string) : option (string * string) :=
  if (Z.of_nat (String.length s) <? n)%Z then None
  else Some (take_bytes (Z.to_nat n) s, drop_bytes (Z.to_nat n) s).

Definition decode_frame (s : string) : option (string * string) :=
  match s with
  | String b0 (String b1 r) =>
      if negb (code b0 =? 129)%Z then None
      else if (code b1 <=? 125)%Z then take_exactly (code b1) r
      else if (code b1 =? 126)%Z then
        '(n, r) ← be_value 2 0 r; if (n <=? 125)%Z then None else take_exactly n r
      else if (code b1 =? 127)%Z then
        '(n, r) ← be_value 8 0 r;
        if (n <=? 65535)%Z || (2 ^ 63 <=? n)%Z then None else take_exactly n r
      else None
  | _ => None
  end.

Fixpoint decode_frames (fuel : nat) (s : string) : option (list string) :=
  match fuel, s with
  | _, "" => Some []
  | Datatypes.S fuel', _ => '(text, rest) ← decode_frame s; texts ← decode_frames fuel' rest;
                            Some (text :: texts)
  | O, _ => None
  end.
(** A frame has two bytes at least, so the length is fuel enough. *)
Definition decode_stream (s : string) : option (list string) := decode_frames (String.length s) s.

(** ** Lemmas *)
Lemma code_to_byte z : code (to_byte z) = (z mod 256)%Z.
Proof.
  unfold code, to_byte, byte, ascii_of_nat. pose proof (Z.mod_pos_bound z 256 eq_refl).
  rewrite N_ascii_embedding; lia.
Qed.

Lemma take_bytes_own s t : take_bytes (String.length s) (s +:+ t) = s.
Proof. induction s as [|c s IH]; simpl; [by destruct t|]. by f_equal. Qed.
Lemma drop_bytes_app s t : drop_bytes (String.length s) (s +:+ t) = t.
Proof. induction s as [|c s IH]; simpl; [by destruct t|]. done. Qed.

Lemma take_exactly_app s t :
  take_exactly (Z.of_nat (String.length s)) (s +:+ t) = Some (s, t).
Proof.
  unfold take_exactly. rewrite length_string_app, Nat2Z.id, take_bytes_own, drop_bytes_app.
  destruct (Z.ltb_spec (Z.of_nat (String.length s + String.length t)) (Z.of_nat (String.length s)));
    [lia|done].
Qed.

(** A shift is a byte and the next shift. *)
Lemma shift_byte n k k' : (0 ≤ k)%Z → (k' = k + 8)%Z →
  Z.shiftr n k = (Z.shiftr n k' * 256 + Z.shiftr n k mod 256)%Z.
Proof.
  intros Hk ->. rewrite (Z.shiftr_div_pow2 n (k + 8)), (Z.shiftr_div_pow2 n k) by lia.
  rewrite Z.pow_add_r, <- Z.div_div by lia. change (2 ^ 8)%Z with 256%Z.
  rewrite Z.mul_comm. apply Z.div_mod. lia.
Qed.

Lemma be_value_cons k acc c s : be_value (Datatypes.S k) acc (String c s) = be_value k (acc * 256 + code c) s.
Proof. done. Qed.

Lemma be_value_2 n r : (0 ≤ n ≤ 65535)%Z →
  be_value 2 0 (String (to_byte (Z.shiftr n 8)) (String (to_byte n) r)) = Some (n, r).
Proof.
  intros Hn. rewrite !be_value_cons, !code_to_byte. cbn [be_value]. f_equal. f_equal.
  pose proof (shift_byte n 0 8 ltac:(lia) eq_refl) as H0. pose proof (shift_byte n 8 16 ltac:(lia) eq_refl) as H8.
  assert (Z.shiftr n 16 = 0)%Z by (rewrite Z.shiftr_div_pow2 by lia; apply Z.div_small; lia).
  rewrite Z.shiftr_0_r in H0. lia.
Qed.

Lemma be_value_8 n r : (0 ≤ n < 2 ^ 63)%Z →
  be_value 8 0 (fold_right String r
    [to_byte (Z.shiftr n 56); to_byte (Z.shiftr n 48); to_byte (Z.shiftr n 40);
     to_byte (Z.shiftr n 32); to_byte (Z.shiftr n 24); to_byte (Z.shiftr n 16);
     to_byte (Z.shiftr n 8); to_byte n]) = Some (n, r).
Proof.
  intros Hn. cbn [fold_right]. rewrite !be_value_cons, !code_to_byte. cbn [be_value]. f_equal. f_equal.
  pose proof (shift_byte n 0 8 ltac:(lia) eq_refl) as H0. pose proof (shift_byte n 8 16 ltac:(lia) eq_refl) as H8.
  pose proof (shift_byte n 16 24 ltac:(lia) eq_refl) as H16. pose proof (shift_byte n 24 32 ltac:(lia) eq_refl) as H24.
  pose proof (shift_byte n 32 40 ltac:(lia) eq_refl) as H32. pose proof (shift_byte n 40 48 ltac:(lia) eq_refl) as H40.
  pose proof (shift_byte n 48 56 ltac:(lia) eq_refl) as H48. pose proof (shift_byte n 56 64 ltac:(lia) eq_refl) as H56.
  assert (Z.shiftr n 64 = 0)%Z by (rewrite Z.shiftr_div_pow2 by lia; apply Z.div_small; lia).
  rewrite Z.shiftr_0_r in H0. lia.
Qed.

Lemma app_bytes l x : fold_right String "" l +:+ x = fold_right String x l.
Proof. induction l as [|c l IH]; simpl; [done|]. by rewrite <- IH. Qed.

Lemma decode_frame_cons b0 b1 r :
  decode_frame (String b0 (String b1 r)) =
  if negb (code b0 =? 129)%Z then None
  else if (code b1 <=? 125)%Z then take_exactly (code b1) r
  else if (code b1 =? 126)%Z then
    '(n, r) ← be_value 2 0 r; if (n <=? 125)%Z then None else take_exactly n r
  else if (code b1 =? 127)%Z then
    '(n, r) ← be_value 8 0 r;
    if (n <=? 65535)%Z || (2 ^ 63 <=? n)%Z then None else take_exactly n r
  else None.
Proof. done. Qed.

(** Reading a frame back, whatever follows it. *)
Lemma decode_frame_app payload rest :
  (Z.of_nat (String.length payload) < 2 ^ 63)%Z →
  decode_frame (writeTextFrame payload +:+ rest) = Some (payload, rest).
Proof.
  intros Hlen. unfold writeTextFrame. rewrite string_app_assoc, app_bytes.
  pose proof (take_exactly_app payload rest) as Htake.
  set (n := Z.of_nat (String.length payload)) in *. assert (Hn : (0 ≤ n)%Z) by lia.
  unfold frame_header.
  destruct (Z.leb_spec n 125); [|destruct (Z.leb_spec n 65535)];
    rewrite decode_frame_cons || (cbn [fold_right]; rewrite decode_frame_cons);
    rewrite !code_to_byte; change (129 mod 256)%Z with 129%Z; cbn [negb Z.eqb Pos.eqb].
  - rewrite (Z.mod_small n) by lia. by rewrite (proj2 (Z.leb_le n 125)) by lia.
  - change (126 mod 256)%Z with 126%Z. cbn [Z.leb Z.eqb Pos.eqb Z.compare Pos.compare Pos.compare_cont].
    rewrite be_value_2 by lia. cbn. by rewrite (proj2 (Z.leb_gt n 125)) by lia.
  - change (127 mod 256)%Z with 127%Z. cbn [Z.leb Z.eqb Pos.eqb Z.compare Pos.compare Pos.compare_cont].
    pose proof (be_value_8 n (payload +:+ rest) ltac:(lia)) as Hbe. cbn [fold_right] in Hbe.
    rewrite Hbe. cbn [mbind option_bind].
    rewrite (proj2 (Z.leb_gt n 65535)), (proj2 (Z.leb_gt (2 ^ 63) n)) by lia. exact Htake.
Qed.

Lemma frame_nonempty payload : ∃ c d s, writeTextFrame payload = String c (String d s).
Proof.
  unfold writeTextFrame, frame_header. rewrite app_bytes. cbn [fold_right].
  repeat case_match; cbn [fold_right]; eauto.
Qed.

Lemma decode_frames_app payload rest fuel : (Z.of_nat (String.length payload) < 2 ^ 63)%Z →
  decode_frames (Datatypes.S fuel) (writeTextFrame payload +:+ rest)
  = (texts ← decode_frames fuel rest; Some (payload :: texts)).
Proof.
  intros Hlen. pose proof (decode_frame_app payload rest Hlen) as H.
  destruct (frame_nonempty payload) as (c & d & s & E). rewrite E in *.
  change (String c (String d s) +:+ rest) with (String c (String d (s +:+ rest))) in *.
  unfold decode_frames at 1. fold decode_frames. rewrite H. done.
Qed.

Lemma join_nosep s l : join (s :: l) "" = s +:+ join l "".
Proof. unfold join. destruct l; simpl; [by rewrite string_app_nil_r|done]. Qed.

Lemma decode_frames_texts texts fuel :
  Forall (λ p, (Z.of_nat (String.length p) < 2 ^ 63)%Z) texts →
  (length texts ≤ fuel)%nat →
  decode_frames fuel (join (map writeTextFrame texts) "") = Some texts.
Proof.
  revert fuel. induction texts as [|p texts IH]; intros fuel; [by destruct fuel|].
  intros [Hp Ht]%Forall_cons Hf. destruct fuel as [|fuel]; simpl in Hf; [lia|].
  cbn [map]. rewrite join_nosep, decode_frames_app, IH by (done || lia). done.
Qed.

Lemma frames_length texts : (length texts ≤ String.length (join (map writeTextFrame texts) ""))%nat.
Proof.
  induction texts as [|p texts IH]; [simpl; lia|].
  destruct (frame_nonempty p) as (c & d & s & E). cbn [map].
  rewrite join_nosep, length_string_app, E. simpl. lia.
Qed.

(** ** Theorems *)

(** C40: a client reads back exactly the texts that were sent, whatever they hold and
    however long they are (a Go slice has fewer than 2^63 bytes): every frame is
    a final, unmasked text frame, its length in the shortest form, and frames do
    not run into one another. *)
Theorem frames_roundtrip texts :
  Forall (λ p, (Z.of_nat (String.length p) < 2 ^ 63)%Z) texts →
  decode_stream (join (map writeTextFrame texts) "") = Some texts.
Proof. intros H. apply decode_frames_texts; [done|apply frames_length]. Qed.

Definition long_text (n : nat) : string := fold_right String "" (replicate n "a"%char).

Lemma frames_roundtrip_witness :
  decode_stream (join (map writeTextFrame [long_text 125; ""; long_text 126; long_text 400]) "")
  = Some [long_text 125; ""; long_text 126; long_text 400].
Proof. apply frames_roundtrip. repeat constructor. Defined.

Section sent.
Context {S : Type} `{!GatewayDB S}.
Variable sv : Server.
Variable cc : call_ctx.
Implicit Types w : gateway S.

(** The lines a request asks for, each as an event. *)
Definition log_frame (l : Log.LogLine) : string :=
  match marshal (line_any sv l) with Ok j => sse_frame "log" (print_json j) | Err _ => "" end.

Lemma line_marshals l : ∃ j, marshal (line_any sv l) = Ok j.
Proof. unfold line_any. destruct (Log.ToolCallID l =? ""); by eexists. Qed.

Lemma write_lines_all lines :
  write_lines sv cc lines = (join (map log_frame (List.filter (wanted cc) lines)) "", true).
Proof.
  induction lines as [|l lines IH]; [done|]. cbn [write_lines List.filter].
  destruct (wanted cc l); cbn [negb]; [|done].
  destruct (line_marshals l) as [j Hj]. rewrite Hj, IH. cbn [map]. rewrite join_nosep.
  unfold log_frame at 2. by rewrite Hj.
Qed.

(** The stream of an execution's logs is exactly the lines the request asks for,
    of the history and then of the subscription, in order, each once as an event
    of its own. *)
Theorem stream_logs_spec execID received between during hub :
  (stream_logs sv cc execID received between during hub).1
  = sse_open +:+ join (map log_frame (List.filter (wanted cc) (History execID hub))) "" +:+
    join (map log_frame (List.filter (wanted cc) received)) "".
Proof. unfold stream_logs. rewrite !write_lines_all. by destruct (lh_Subscribe _ _). Qed.

(** What a WebSocket client is sent: the events it received, each with the
    session it belongs to and the time it was sent at. *)
Fixpoint ws_expected (sessionID : string) (tick : nat) (received : list Event) : list string :=
  match received with
  | [] => []
  | ev :: rest =>
      match marshal (event_any sv (stamped sessionID (sv_clock sv tick) ev)) with
      | Ok payload => [print_json payload]
      | Err _ => []
      end ++ ws_expected sessionID (Datatypes.S tick) rest
  end.

Lemma wp_ws_texts broken sessionID received n (F : Response → gateway S → Prop) w
    (Q : list string → gateway S → Prop) :
  (∀ texts w', texts `prefix_of` ws_expected sessionID (g_ticks w) received →
     ((∀ k, broken k = false) → texts = ws_expected sessionID (g_ticks w) received) → Q texts w') →
  wp (ws_texts sv broken sessionID n received) Q F w.
Proof.
  revert n w Q. induction received as [|ev received IH]; intros n w Q HQ; cbn [ws_texts ws_expected] in *.
  { by apply wp_ret, HQ. }
  apply wp_bind, wp_call. cbn [fst snd].
  destruct (marshal _) as [payload|e]; [|by apply IH].
  destruct (broken n) eqn:Hb.
  { apply wp_ret, HQ; [apply prefix_nil|]. intros H. by rewrite H in Hb. }
  apply wp_bind, IH. intros texts w' Hp Hall. apply wp_ret, HQ; [by apply prefix_cons|].
  intros H. cbn. by rewrite Hall.
Qed.

(** The session a stream is for, and what it takes to follow it. *)
Definition may_follow (w : gateway S) (sessionID : string) : Prop :=
  sessionID = sessionIDFromRequest cc ∧
  (sv_SessionRequired sv = true → sessionID ≠ "" ∧
   ∀ actor is_member, cc_actor cc = Some actor → db_IsSessionMember = Some is_member →
     blank (ActorID actor) = false → (is_member sessionID (ActorID actor) (g_db w)).1 = Ok true).

Lemma wp_stream_session (Q : string → gateway S → Prop) (F : Response → gateway S → Prop) w :
  (∀ w', may_follow w (sessionIDFromRequest cc) → Q (sessionIDFromRequest cc) w') →
  (∀ w', F (http_error "session denied" 403) w') →
  wp (stream_session sv cc) Q F w.
Proof.
  intros HQ HF. unfold stream_session.
  destruct (sv_SessionRequired sv) eqn:Hreq.
  2: { apply wp_ret, HQ. split; [done|]. by rewrite Hreq. }
  apply wp_bind. unfold requireSession. rewrite Hreq. cbn [negb].
  assert (Hor : ∀ (r : result string) w',
    (∀ a, r = Ok a → a = sessionIDFromRequest cc ∧ may_follow w a) →
    wp (or_return r (λ _, return_ (http_error "session denied" 403))) Q F w').
  { intros r w' Hr. apply wp_or_return. split; [|intros e _; by apply wp_return].
    intros a Ha. destruct (Hr a Ha) as [-> Hm]. by apply HQ. }
  destruct (String.eqb_spec (sessionIDFromRequest cc) ""); [by apply wp_ret, Hor|].
  unfold may_follow in *.
  destruct (cc_actor cc) as [actor|], db_IsSessionMember as [is_member|];
    try (apply wp_ret, Hor; intros a [= <-]; split_and!; [done|done|]; intros _; split; [done|];
         intros ?? [=] [=]).
  destruct (blank (ActorID actor)) eqn:Hb.
  - apply wp_ret, Hor. intros a [= <-]. split_and!; [done|done|]. intros _. split; [done|].
    intros ?? [= <-] [= <-]. congruence.
  - apply wp_bind, wp_on_db, wp_ret, Hor. intros a Ha. ok_inv Ha. subst.
    split_and!; [done|done|]. intros _. split; [done|]. intros ?? [= <-] [= <-] _. congruence.
Qed.

(** A WebSocket client is let in only with the handshake of the protocol and, when
    sessions are required, for a session it is a member of; it is then sent,
    framed so that it can read them back, the events it received, in order, up
    to the first that could not be written, and all of them when every one
    could. *)
Theorem handleWS_sends Values hijack flush broken received w :
  let '(r, _) := run_handler (handleWS sv cc Values hijack flush broken received) w in
  let key := Header (cc_req cc) "Sec-WebSocket-Key" in
  refused r ∨
  Status r = 101%Z ∧ isWebSocketRequest cc Values = true ∧ key ≠ "" ∧
  ∃ sessionID tick texts,
    may_follow w sessionID ∧
    Content r = Streamed (handshake (computeAccept key) +:+ join (map writeTextFrame texts) "") ∧
    texts `prefix_of` ws_expected sessionID tick received ∧
    ((∀ k, broken k = false) → texts = ws_expected sessionID tick received).
Proof.
  cbv zeta. set (key := Header (cc_req cc) "Sec-WebSocket-Key").
  match goal with |- let '(r, _) := _ in @?G r => set (good := G) end.
  enough (wp (handleWS sv cc Values hijack flush broken received) (λ r _, good r) (λ r _, good r) w) as H.
  { rewrite wp_run in H. by destruct (run_handler _ w). }
  assert (Hno : ∀ msg st, (400 ≤ st)%Z → good (http_error msg st)) by (intros; by left).
  apply wp_bind, wp_return_if. split; intros _; [by left|].
  apply wp_bind, wp_stream_session; [|intros; by apply Hno]. intros w1 Hsess. unfold ws_stream.
  apply wp_bind, wp_or_return. split; intros h _; [|by apply wp_return, Hno].
  apply wp_bind, wp_or_return. split; intros hello Hup; [|by apply wp_return, Hno].
  apply wp_bind, wp_call. destruct (Subscribe _ (g_hub w1)) as [id hb]. cbn [fst snd].
  apply wp_bind, wp_ws_texts. intros texts w2 Hp Hall. apply wp_bind, wp_effect, wp_ret. right.
  unfold upgradeWebSocket in Hup. fold key in Hup. ok_inv Hup. bool_hyps. subst hello.
  split_and!; try done. by eexists _, _, texts.
Qed.
End sent.

(** A line appended between the two calls is in neither: it is not in the
    history that was read, and the subscription never receives it. *)
Theorem line_lost_between :
  let line := Log.mkLine "exec_1" "" "info" "sync started" 0 in
  let hub := NewLogHub in
  let hub1 := web_Append Log.ExecutionID [] line hub in
  let '(id, hub2) := lh_Subscribe "exec_1" hub1 in
  History "exec_1" hub = [] ∧ History "exec_1" hub1 = [line] ∧ Receive id (lh_hub hub2) = None.
Proof. vm_compute. auto. Qed.
