(* ===== verification/Requests.v ===== *)
(** * Requests: what a request can do to the database

    A handler reaches the database only through the operations of its
    interface, so whatever relation between the tables before and after all those
    operations respect, the handler respects: [hrel].  The sections show which
    operations each handler uses; Routes puts the handlers together. *)

From S2P Require Import Prelude GoStrings Json Digest ContextRef Steps Policy Constraints Hubs Http.
From S2P Require Import Shelves Store Library LibraryLaws EventGate Gateway Plans Registry Graph.
From S2P Require Import Hooks Catalogue Admin Streams.

Local Open Scope string_scope.
Local Open Scope list_scope.

(** ** Relations that handlers respect *)

Definition hrel (R : tables → tables → Prop) {Rt A} (m : handler (gateway store) Rt A) : Prop :=
  ∀ w, R (tabs (g_db w)) (tabs (g_db (m w).2)).

Section rules.
Variable R : tables → tables → Prop.
Context `{!PreOrder R}.
Context {Rt : Type}.
Notation handler := (handler (gateway store) Rt).

Lemma hrel_same {A} (m : handler A) : (∀ w, g_db (m w).2 = g_db w) → hrel R m.
Proof. intros H w. by rewrite H. Qed.

Lemma hrel_ret {A} (a : A) : hrel R (mret a : handler A).
Proof. by apply hrel_same. Qed.
Lemma hrel_return {A} (r : Rt) : hrel R (return_ r : handler A).
Proof. by apply hrel_same. Qed.
Lemma hrel_return_if b (r : Rt) : hrel R (return_if b r).
Proof. by destruct b; apply hrel_same. Qed.
Lemma hrel_reads {A} (f : gateway store → A) : hrel R (reads f : handler A).
Proof. by apply hrel_same. Qed.
Lemma hrel_effect f : (∀ w, g_db (f w) = g_db w) → hrel R (effect f : handler unit).
Proof. intros H. apply hrel_same. intros w. apply H. Qed.
Lemma hrel_call {A} (f : gateway store → A * gateway store) :
  (∀ w, R (tabs (g_db w)) (tabs (g_db (f w).2))) → hrel R (call f : handler A).
Proof. intros H w. specialize (H w). unfold call. by destruct (f w). Qed.

Lemma hrel_bind {A B} (m : handler A) (f : A → handler B) :
  hrel R m → (∀ a, hrel R (f a)) → hrel R (m ≫= f).
Proof.
  intros Hm Hf w. specialize (Hm w). unfold mbind, handler_bind.
  destruct (m w) as [[a|r] w']; [|done]. etrans; [exact Hm|apply Hf].
Qed.

Lemma hrel_bind_ret {A B} (a : A) (f : A → handler B) : hrel R (f a) → hrel R (mret a ≫= f).
Proof. done. Qed.

Lemma hrel_or_return {A} (e : result A) (k : string → handler A) :
  (∀ x, hrel R (k x)) → hrel R (or_return e k).
Proof. intros Hk. destruct e; [apply hrel_ret|apply Hk]. Qed.

Lemma hrel_on_db {A} (m : db A) : db_rel R m → hrel R (on_db m : handler (result A)).
Proof.
  intros Hm w. specialize (Hm (g_db w)). unfold on_db, call. by destruct (m (g_db w)).
Qed.

Lemma rel_answer {A B} (f : result A → result B) (m : db A) :
  db_rel R m → db_rel R (λ s, let '(r, s') := m s in (f r, s')).
Proof. intros Hm s. specialize (Hm s). by destruct (m s). Qed.

Lemma hrel_now sv : hrel R (now_ sv : handler Z).
Proof. by apply hrel_same. Qed.
Lemma hrel_outward {A} e (f : list out_event → A) : hrel R (outward e f : handler A).
Proof. by apply hrel_same. Qed.
Lemma hrel_emit sv event data session : hrel R (emit_event sv event data session : handler unit).
Proof. apply hrel_bind; [apply hrel_now|]. intros t. by apply hrel_effect. Qed.
End rules.

Lemma hrel_run R {Rt} (m : handler (gateway store) Rt Rt) w :
  hrel R m → R (tabs (g_db w)) (tabs (g_db (run_handler m w).2)).
Proof. intros H. specialize (H w). unfold run_handler. by destruct (m w) as [[r|r] w']. Qed.

(** Go through the statements of a handler; what is left are the operations. *)
Ltac hrel_step :=
  match goal with
  | |- PreOrder _ => apply _
  | |- hrel _ (mret _ ≫= _) => apply hrel_bind_ret
  | |- hrel _ (_ ≫= _) => apply hrel_bind; [apply _| |intros ?]
  | |- hrel _ (mret _) => apply hrel_ret; apply _
  | |- hrel _ (return_ _) => apply hrel_return; apply _
  | |- hrel _ (return_if _ _) => apply hrel_return_if; apply _
  | |- hrel _ (or_return _ _) => apply hrel_or_return; [apply _|intros ?]
  | |- hrel _ (or_error _ _ _) => apply hrel_or_return; [apply _|intros ?]
  | |- hrel _ (reads _) => apply hrel_reads; apply _
  | |- hrel _ (now_ _) => apply hrel_now; apply _
  | |- hrel _ (outward _ _) => apply hrel_outward; apply _
  | |- hrel _ (emit_event _ _ _ _) => apply hrel_emit; apply _
  | |- hrel _ (on_db _) => apply hrel_on_db
  | |- hrel _ (let '(_, _) := ?p in _) => destruct p
  end.

(** ** The handlers over the SQL store *)

Section over_store.
Variable clock : nat → Z.
Variable fault : nat → option string.
Variable jsonb : json → json.
Variable pick : list approval_row → option approval_row.
Variable time_text : Z → string.
Variable time_parse : string → result Z.
Variable json_text : json → string.

#[export] Instance request_db : GatewayDB store :=
  store_db clock fault jsonb pick time_text time_parse.
#[export] Instance request_library : LibraryDB store :=
  store_library clock fault jsonb time_text json_text.
#[export] Instance request_graph : GraphDB store := store_graph clock fault jsonb.

(** The memory store of the database. *)
Definition sql_memory : MemoryStore store := mkMemoryStore _
  (CreateOperatorMemory clock fault jsonb) (ListOperatorMemory fault time_text)
  (GetOperatorMemory fault time_text) (UpdateOperatorMemory clock fault jsonb)
  (DeleteOperatorMemory fault).

(** The operations a relation respects: the shelves, the schedules and the audit
    log; new plans and approvals that wait for a decision; and the decisions,
    digests and executions. *)
Class PermitsShelves (R : tables → tables → Prop) : Prop := {
  permits_order :: PreOrder R;
  permits_lib A (m : db A) : lib_op clock fault jsonb m → db_rel R m;
  permits_audit d : db_rel R (InsertAuditEvent clock fault jsonb time_parse d);
  permits_schedule j : db_rel R (CreateSchedule clock fault jsonb j);
  permits_unschedule h : db_rel R (DeleteSchedule fault h) }.

Class PermitsDrafts (R : tables → tables → Prop) : Prop := {
  permits_shelves :: PermitsShelves R;
  permits_plan j : db_rel R (CreatePlan clock fault jsonb j);
  permits_approval p : db_rel R (CreateApproval clock fault p) }.

Class PermitsPlans (R : tables → tables → Prop) : Prop := {
  permits_drafts :: PermitsDrafts R;
  permits_unplan p : db_rel R (DeletePlan fault p);
  permits_decision p st : db_rel R (UpdateApprovalStatusByPlan fault p st);
  permits_hash p h : db_rel R (SetApprovalHash fault p h);
  permits_execution p : db_rel R (CreateExecution clock fault p);
  permits_workflow x wf : db_rel R (UpdateExecutionWorkflowID fault x wf);
  permits_cancel x : db_rel R (CancelExecution clock fault x) }.

Ltac ops_of x :=
  eval cbn [db_CreatePlan db_GetPlan db_ListPlans db_DeletePlan db_CreateExecution db_GetExecution
       db_ListExecutions db_CancelExecution db_CreateApproval db_UpdateApprovalStatusByPlan
       db_CreateSchedule db_ListSchedules db_DeleteSchedule db_UpdateExecutionWorkflowID
       db_HasActiveExecution db_ListPlanSteps db_ListApprovalsByPlan db_GetApprovalStatus
       db_GetApprovalStatusByToken db_SetApprovalHash db_GetApprovalHash db_IsSessionMember
       db_InsertAuditEvent request_db store_db
       lib_CreateSession lib_ListSessions lib_GetSession lib_UpdateSession lib_DeleteSession
       lib_AddSessionMember lib_ListSessionMembers lib_CreatePlaybook lib_ListPlaybooks
       lib_GetPlaybook lib_DeletePlaybook lib_CreateRunbook lib_ListRunbooks lib_GetRunbook
       lib_DeleteRunbook lib_CreateWorkflowCatalog lib_ListWorkflowCatalog
       lib_ListContextServices lib_ListContextSnapshots lib_GetContextSnapshot
       lib_ListAuditEvents lib_memory request_library store_library
       sql_memory mem_Create mem_List mem_Get mem_Update mem_Delete
       gdb_UpsertContextNode gdb_UpsertContextEdge gdb_GetServiceGraph request_graph store_graph] in x.
Ltac open_ops := match goal with |- db_rel _ ?x => let y := ops_of x in change x with y end.

(** A match on an optional operation, which the store has, or on a value. *)
Ltac hrel_match :=
  match goal with
  | |- hrel _ (match ?x with _ => _ end) =>
      let y := ops_of x in tryif constr_eq x y then destruct x else (change x with y; cbn iota)
  end.

(** The operations that only read. *)
Ltac read_op :=
  unfold GetPlan, ListPlans, GetExecution, ListExecutions, ListSchedules, HasActiveExecution,
    ListPlanSteps, ListApprovalsByPlan, GetApprovalStatus, GetApprovalStatusByToken,
    GetApprovalHash, pick_approval, IsSessionMember, ListSessions, GetSession,
    ListSessionMembers, ListPlaybooks, GetPlaybook, ListRunbooks, GetRunbook,
    ListWorkflowCatalog, ListContextServices, ListContextSnapshots, GetContextSnapshot,
    ListAuditEvents, ListOperatorMemory, GetOperatorMemory, GetServiceGraph, list_shelf, get_shelf;
  repeat first [rel_step | (intros ?; progress cbn; done)].

Section quiet.
Variable R : tables → tables → Prop.
Context `{!PermitsShelves R}.
Variable sv : Server.
Variable cc : call_ctx.

Ltac op :=
  open_ops;
  first [ solve [apply permits_audit] | solve [apply permits_schedule] | solve [apply permits_unschedule]
        | solve [apply permits_lib; constructor] | solve [read_op]
        | solve [apply permits_plan] | solve [apply permits_approval]
        | solve [apply permits_unplan] | solve [apply permits_decision] | solve [apply permits_hash]
        | solve [apply permits_execution] | solve [apply permits_workflow] | solve [apply permits_cancel]
        | solve [apply (rel_answer R (fmap Some)); read_op] ].
Ltac go := repeat first [hrel_step | hrel_match | op].

Section helpers.
Context {Rt : Type}.
Notation hrel := (hrel (Rt := Rt) R).

Lemma hrel_audit action decision ctx note : hrel (auditEvent sv cc action decision ctx note).
Proof. unfold auditEvent. go. Qed.
Lemma hrel_policy name type ref risk targets : hrel (gateway_policy sv cc name type ref risk targets).
Proof. unfold gateway_policy. go. Qed.
Lemma hrel_check name type ref risk targets : hrel (gateway_check sv cc name type ref risk targets).
Proof. unfold gateway_check. apply hrel_bind; [apply _|apply hrel_policy|]. intros. go. Qed.
Lemma hrel_session : hrel (requireSession sv cc).
Proof. unfold requireSession. go. Qed.
End helpers.

Ltac helper :=
  match goal with
  | |- hrel _ (auditEvent _ _ _ _ _ _) => apply hrel_audit
  | |- hrel _ (gateway_policy _ _ _ _ _ _ _) => apply hrel_policy
  | |- hrel _ (gateway_check _ _ _ _ _ _ _) => apply hrel_check
  | |- hrel _ (requireSession _ _) => apply hrel_session
  end.
Ltac go2 := cbv zeta; repeat first [helper | hrel_step | hrel_match | op].

Section bodies.
Context {A : Type}.

Lemma hrel_deny action ctx note msg status :
  hrel R (deny sv cc action ctx note msg status : handler _ _ A).
Proof. unfold deny. go2. Qed.
Lemma hrel_admit action type ctx dec : hrel R (admit_decision sv cc action type ctx dec).
Proof. unfold admit_decision, deny. go2. Qed.
Lemma hrel_decode_body (decode : json → result A) : hrel R (decode_body (S := store) cc decode).
Proof. unfold decode_body. go2. Qed.
Lemma hrel_read action Rt : hrel R (policyCheckRead sv cc action : handler _ Rt _).
Proof. unfold policyCheckRead. go2. Qed.
Lemma hrel_tenant action t Rt : hrel R (policyCheckTenantRead sv cc action t : handler _ Rt _).
Proof. unfold policyCheckTenantRead. go2. Qed.
Lemma hrel_read_plan plan action Rt : hrel R (policyCheckReadPlan sv cc plan action : handler _ Rt _).
Proof. unfold policyCheckReadPlan, enforceSessionRequired. go2. Qed.
End bodies.

(** The memory store a handler is given is the database's. *)
Lemma hrel_memory (f : MemoryStore store → handler (gateway store) Response Response) :
  hrel R (f sql_memory) → hrel R (memory_store sv ≫= f).
Proof. intros H w. unfold memory_store. destruct (sv_DB sv); [apply H|apply reflexivity]. Qed.

(** The operations on the service graph. *)
Lemma each_rel {A} (f : A → db unit) l : (∀ a, db_rel R (f a)) → db_rel R (each f l).
Proof.
  intros Hf. induction l as [|a l IH]; [by intros s|]. intros s. specialize (Hf a s). cbn [each].
  destruct (f a s) as [[u|e] s']; [etrans; [exact Hf|apply IH]|exact Hf].
Qed.

Lemma ingest_rel nodes edges : db_rel R (IngestSnapshot nodes edges).
Proof.
  assert (Hn : db_rel R (each gdb_UpsertContextNode nodes)).
  { apply each_rel. intros a. apply permits_lib. constructor. }
  assert (He : db_rel R (each gdb_UpsertContextEdge edges)).
  { apply each_rel. intros a. apply permits_lib. constructor. }
  intros s. specialize (Hn s). unfold IngestSnapshot.
  destruct (each gdb_UpsertContextNode nodes s) as [[u|e] s']; [etrans; [exact Hn|apply He]|exact Hn].
Qed.

Lemma refresh_rel pollers : db_rel R (RefreshContext pollers).
Proof.
  apply each_rel. intros [[snap|e]|]; [apply ingest_rel| |]; intros s; apply reflexivity.
Qed.

Lemma service_graph_rel service : db_rel R (service_GetServiceGraph service).
Proof. apply (rel_answer R (λ r, j ← r; decode_graph j) (GetServiceGraph fault service)). read_op. Qed.

(** A helper of the handlers, or what it is made of. *)
Ltac opened :=
  match goal with
  | |- hrel _ (require_write _ _ _ _ _) => unfold require_write
  | |- hrel _ (require_read _ _ _ _) => unfold require_read
  | |- hrel _ (require_tenant _) => unfold require_tenant
  | |- hrel _ (require_tenant_read _ _ _ _ _) => unfold require_tenant_read
  | |- hrel _ (allowed _ _ _ _) => unfold allowed
  | |- hrel _ (has_db _) => unfold has_db
  | |- hrel _ (body_tenant _ _) => unfold body_tenant
  | |- hrel _ (Registry.created _ _ _ _ _ _) => unfold Registry.created
  | |- hrel _ (show_item _ _) => unfold show_item
  | |- hrel _ (decode_session _) => unfold decode_session
  | |- hrel _ (session_required _ _) => unfold session_required
  | |- hrel _ (decode_memory _) => unfold decode_memory
  | |- hrel _ (load_plan _) => unfold load_plan
  | |- hrel _ (read_plan _ _ _ _) => unfold read_plan
  | |- hrel _ (Plans.has_db _) => unfold Plans.has_db
  | |- hrel _ (createApproval _ _ _) => unfold createApproval
  | |- hrel _ (record_hash _ _ _) => unfold record_hash
  | |- hrel _ (draft_plan _ _ _ _) => unfold draft_plan
  | |- hrel _ (collect_diagnostics _ _ _ _) => unfold collect_diagnostics
  end.
Ltac known :=
  match goal with
  | |- hrel _ (deny _ _ _ _ _ _ _) => apply hrel_deny
  | |- hrel _ (memory_store _ ≫= _) => apply hrel_memory
  | |- hrel _ (on_db (match ?x with _ => _ end)) => destruct x
  | |- db_rel _ (IngestSnapshot _ _) => apply ingest_rel
  | |- db_rel _ (RefreshContext _) => apply refresh_rel
  | |- db_rel _ (service_GetServiceGraph _) => apply service_graph_rel
  | |- hrel _ (admit_decision _ _ _ _ _ _) => apply hrel_admit
  | |- hrel _ (decode_body _ _) => apply hrel_decode_body
  | |- hrel _ (policyCheckRead _ _ _) => apply hrel_read
  | |- hrel _ (policyCheckTenantRead _ _ _ _) => apply hrel_tenant
  | |- hrel _ (policyCheckReadPlan _ _ _ _) => apply hrel_read_plan
  | _ => helper
  end.
Ltac body := cbv zeta; repeat first [known | hrel_step | opened; cbv zeta | hrel_match | op].

Lemma sessions_rel :
  hrel R (handleSessions sv cc) ∧ hrel R (handleSessionByID sv cc).
Proof.
  unfold handleSessions, createSession, listSessions, handleSessionByID, getSession, updateSession,
    deleteSession, handleSessionMembers, addSessionMember, listSessionMembers.
  split; body.
Qed.

Lemma playbooks_rel :
  hrel R (handlePlaybooks sv cc) ∧ hrel R (handlePlaybookByID sv cc).
Proof.
  unfold handlePlaybooks, createPlaybook, listPlaybooks, handlePlaybookByID, getPlaybook, deletePlaybook.
  split; body.
Qed.

Lemma runbooks_rel dir files :
  hrel R (handleRunbooks sv cc dir files) ∧ hrel R (handleRunbookByID sv cc).
Proof.
  unfold handleRunbooks, createRunbook, listRunbooks, handleRunbookByID, getRunbook, deleteRunbook.
  split; body.
Qed.

Lemma memory_rel dir files :
  hrel R (handleOperatorMemory sv cc dir files) ∧ hrel R (handleOperatorMemoryByID sv cc dir files).
Proof.
  unfold handleOperatorMemory, createMemory, listMemory, handleOperatorMemoryByID, getMemory,
    updateMemory, deleteMemory.
  split; body.
Qed.

Lemma admin_rel :
  hrel R (handleSchedules sv cc) ∧ hrel R (handleScheduleByID sv cc) ∧
  hrel R (handleExecutions sv cc) ∧ hrel R (handleAuditEvents sv cc time_parse).
Proof.
  unfold handleSchedules, createSchedule, listSchedules, handleScheduleByID, handleExecutions,
    handleAuditEvents.
  split_and!; body.
Qed.

Lemma context_rel service :
  hrel R (handleContextServices sv cc) ∧ hrel R (handleContextSnapshots sv cc) ∧
  hrel R (handleContextSnapshotByID sv cc) ∧ hrel R (handleContextRefresh sv cc service) ∧
  hrel R (handleContextGraph sv cc service).
Proof.
  unfold handleContextServices, handleContextSnapshots, list_by_label, handleContextSnapshotByID,
    getSnapshot, diffSnapshot, handleContextRefresh, handleContextGraph.
  split_and!; body.
Qed.

Lemma hrel_subscribe id : hrel R (subscribe (S := store) id).
Proof. apply hrel_call. intros w. unfold subscribe. destruct (Subscribe id (g_hub w)). apply reflexivity. Qed.
Lemma hrel_unsubscribe id n : hrel R (unsubscribe (S := store) id n).
Proof. by apply hrel_effect; [apply _|]. Qed.
Lemma hrel_ws_texts broken id n received : hrel R (ws_texts (S := store) sv broken id n received).
Proof.
  revert n. induction received as [|ev received IH]; intros n; cbn [ws_texts]; body.
  all: try apply IH.
Qed.

Lemma streams_rel values hijack flush broken flusher received :
  hrel R (handleWS sv cc values hijack flush broken received) ∧
  hrel R (handleEventsSSE sv cc flusher received).
Proof.
  unfold handleWS, ws_stream, handleEventsSSE, stream_session.
  split; body; auto using hrel_subscribe, hrel_unsubscribe, hrel_ws_texts.
Qed.

Lemma catalogue_rel : hrel R (handleWorkflows sv cc).
Proof. unfold handleWorkflows, stored_catalog. body. Qed.
(** *** Webhooks *)

Section drafts.
Context `{!PermitsDrafts R}.

Lemma loop_rel actor source payload : hrel R (runAlertEventLoop sv actor source payload).
Proof. unfold runAlertEventLoop, fail_with, service_graph, plan_draft, gateway_policy. body. Qed.

Lemma hook_plan_rel source eventID payload : hrel R (hook_plan sv cc source eventID payload).
Proof. unfold hook_plan. body. Qed.

Lemma gate_accept_rel source payload gate_fault :
  hrel R (gate_accept (S := store) (R := Response) sv source payload gate_fault).
Proof.
  unfold gate_accept. apply hrel_bind; [apply _|by apply hrel_now; apply _|]. intros now.
  apply hrel_call. intros w. destruct (Accept _ _ _ _ _ _) as [[r fp] g]. apply reflexivity.
Qed.

Lemma hook_rel gate_fault text : hrel R (handleHook sv cc gate_fault text).
Proof.
  unfold handleHook, hook_loop, deny_gate. body; auto using hook_plan_rel, gate_accept_rel.
  apply hrel_call. intros w. apply hrel_run, loop_rel.
Qed.
End drafts.

(** *** Plans, approvals and executions *)

Section plans.
Context `{!PermitsPlans R}.

Lemma plans_rel : hrel R (handlePlans sv cc).
Proof. unfold handlePlans, listPlans, createPlan, approve_new_plan. body. Qed.

Lemma plan_rel : hrel R (handlePlanByID sv cc).
Proof.
  unfold handlePlanByID, planDiff, planRisk, getPlan, deletePlan, executePlan_, admit_execution, execution_steps,
    require_approved, approvalStatus, require_hash, require_idle, start_execution.
  body.
Qed.

Lemma approvals_rel : hrel R (handleApprovals sv cc).
Proof. unfold handleApprovals, record_plan_hash. body. Qed.

Lemma workflow_rel : hrel R (handleWorkflowByID sv cc).
Proof.
  unfold handleWorkflowByID, getWorkflow, stored_catalog, createVersion, startWorkflow,
    approve_workflow, execute_workflow, require_idle, start_execution.
  body.
Qed.

Lemma execution_rel stream :
  (∀ id, hrel R (stream id)) → hrel R (handleExecutionByID sv cc stream).
Proof.
  intros Hs. unfold handleExecutionByID, check_logs, getExecution, cancelExecution, check_plan_of.
  body. all: apply Hs.
Qed.
End plans.
End quiet.
(** ** What every request keeps *)
Lemma lib_rel (R : tables → tables → Prop) `{!PreOrder R} {A} (m : db A) :
  (∀ f t, R t (set_shelf f t)) → lib_op clock fault jsonb m → db_rel R m.
Proof.
  intros Hw. destruct 1; unfold CreateSession, UpdateSession, DeleteSession, AddSessionMember,
    upsert_member, CreatePlaybook, DeletePlaybook, CreateRunbook, next_version, DeleteRunbook,
    CreateOperatorMemory, UpdateOperatorMemory, DeleteOperatorMemory, memory_texts, delete_shelf,
    CreateWorkflowCatalog, UpsertContextNode, UpsertContextEdge, InsertContextSnapshot,
    insert_shelf, insert_unique;
    repeat first [apply rel_err; apply _ | rel_step]; apply rel_write; intros t; apply Hw.
Qed.

(** *** Nothing that happened is forgotten *)

Definition exec_key (x : exec_row) : string * string := (x_id x, x_plan x).
Definition approval_key (a : approval_row) : string * string := (a_id a, a_plan a).

(** The audit log, the executions and the approvals of plans only grow. *)
Definition grows (t t' : tables) : Prop :=
  audits t `prefix_of` audits t' ∧
  (exec_key <$> executions t) `prefix_of` (exec_key <$> executions t') ∧
  (approval_key <$> approvals t) `prefix_of` (approval_key <$> approvals t').

#[export] Instance grows_preorder : PreOrder grows.
Proof.
  split; [by intros t; split_and!|]. intros t1 t2 t3 (? & ? & ?) (? & ? & ?).
  split_and!; by etrans.
Qed.

Lemma grows_more (t t' : tables) u x a :
  audits t' = audits t ++ u → exec_key <$> executions t' = (exec_key <$> executions t) ++ x →
  approval_key <$> approvals t' = (approval_key <$> approvals t) ++ a → grows t t'.
Proof. intros Hu Hx Ha. split_and!; rewrite ?Hu, ?Hx, ?Ha; apply prefix_app_r; done. Qed.

Lemma update_where_fmap {A K} (key : A → K) sel f l :
  (∀ a, key (f a) = key a) → key <$> update_where sel f l = key <$> l.
Proof. intros Hk. induction l as [|a l IH]; [done|]. cbn. case_match; by rewrite ?Hk, IH. Qed.

Ltac grown := cbn; rewrite ?app_nil_r, ?fmap_app, ?update_where_fmap; reflexivity.
Ltac grow :=
  apply rel_write; intros [];
  first [ solve [apply (grows_more _ _ [] [] []); grown]
        | solve [eapply (grows_more _ _ [_] [] []); grown]
        | solve [eapply (grows_more _ _ [] [_] []); grown]
        | solve [eapply (grows_more _ _ [] [] [_]); grown] ].

Lemma steps_grow planID l : db_rel grows (insertPlanStepsConn clock fault jsonb planID l).
Proof.
  induction l as [|st l IH]; cbn; [apply rel_ret; apply _|]. case_match; [done|].
  repeat rel_step; [grow|done].
Qed.

#[export] Instance grows_permitted : PermitsPlans grows.
Proof.
  split; [split; [split|..]|..].
  all: intros; try (apply lib_rel; [apply _|intros f []; by apply (grows_more _ _ [] [] []); cbn; rewrite ?app_nil_r|done]).
  all: unfold InsertAuditEvent, CreateSchedule, DeleteSchedule, CreatePlan, CreateApproval,
    insert_approval, DeletePlan, UpdateApprovalStatusByPlan, SetApprovalHash, CreateExecution,
    UpdateExecutionWorkflowID, CancelExecution, update_exec; repeat rel_step; try grow.
  apply steps_grow.
Qed.
(** *** The integrity of the tables *)

Definition keeps_integrity (t t' : tables) : Prop := keeps_ok t t' ∧ keeps_shelves_ok t t'.

#[export] Instance keeps_integrity_preorder : PreOrder keeps_integrity.
Proof.
  split; [by intros t|]. intros t1 t2 t3 [] []. split; by etrans.
Qed.

Lemma integrity_of_op {A} (m : db A) : db_op clock fault jsonb time_parse m → db_rel keeps_integrity m.
Proof.
  intros Hop s. split; [by apply (db_op_ok _ _ _ _ _ Hop)|].
  red. by rewrite (store_step_shelf clock fault jsonb time_parse s (m s).2 ltac:(by constructor)).
Qed.

#[export] Instance integrity_permitted : PermitsPlans keeps_integrity.
Proof.
  split; [split; [split|..]|..]; try apply _; intros; try (apply integrity_of_op; constructor).
  intros s. split; [by eapply lib_op_tables_ok|by eapply lib_op_ok].
Qed.

(** *** What plans need to be executed *)

#[export] Instance authority_permitted : PermitsDrafts (keeps authority).
Proof.
  split; [split|..]; try apply _; intros.
  - by apply lib_rel; [apply _|intros f []|].
  - by apply audit_keeps.
  - unfold CreateSchedule. frame.
  - unfold DeleteSchedule. frame.
  - by apply CreatePlan_keeps.
  - unfold CreateApproval, insert_approval. repeat rel_step. apply rel_write. intros [].
    unfold keeps, authority. cbn. by rewrite List.filter_app, app_nil_r.
Qed.
End over_store.
