(* ===== verification/Routes.v ===== *)
(** * Routes: what the server answers a request with

    [registerRoutes] is the table of http.go: the pattern of each endpoint,
    whether AuthMiddleware is in front of it and whether withRateLimit is.
    [ServeHTTP] finds the endpoint as net/http's ServeMux does and runs it over
    the SQL store.  The theorems are about whole requests: who they run for, what
    they leave of the database, and which of them approve and execute plans. *)

From S2P Require Import Prelude GoStrings Json Digest ContextRef Steps Policy Constraints Hubs Http Auth.
From S2P Require Import Shelves Store Library LibraryLaws EventGate Gateway Plans Registry Graph.
From S2P Require Import Hooks Catalogue Admin Streams Requests.

Local Open Scope string_scope.
Local Open Scope list_scope.

(** ** The endpoints *)

Inductive endpoint :=
| Healthz | Readyz | Metrics
| PlansRoot | PlanByID | ApprovalsRoot | SchedulesRoot | ScheduleByID | ContextRefresh
| PlaybooksRoot | RunbooksRoot | MemoryRoot | MemoryByID | SessionsRoot | SessionByID
| WorkflowsRoot | WorkflowByID | HookRoot
| AuditEvents | ContextServices | ContextSnapshots | ContextSnapshotByID | ContextGraph
| PlaybookByID | RunbookByID | ExecutionsRoot | ExecutionByID | WebSocket | EventStream
| UIPlaybooks | UIRunbooks | UIPlan.

#[export] Instance endpoint_eq_dec : EqDecision endpoint.
Proof. solve_decision. Defined.

(** A registered pattern: [rt_auth] is AuthMiddleware in front of the handler,
    [rt_limited] withRateLimit in front of that. *)
Record route := mkRoute {
  rt_pattern : string; rt_endpoint : endpoint; rt_auth : bool; rt_limited : bool }.

Definition public (pattern : string) (e : endpoint) : route := mkRoute pattern e false false.
Definition write_route (pattern : string) (e : endpoint) : route := mkRoute pattern e true true.
Definition read_route (pattern : string) (e : endpoint) : route := mkRoute pattern e true false.

Definition registerRoutes : list route :=
  [public "/healthz" Healthz;
   public "/readyz" Readyz;
   public "/metrics" Metrics;
   write_route "/v1/plans" PlansRoot;
   write_route "/v1/plans/" PlanByID;
   write_route "/v1/approvals" ApprovalsRoot;
   write_route "/v1/schedules" SchedulesRoot;
   write_route "/v1/schedules/" ScheduleByID;
   write_route "/v1/context/refresh" ContextRefresh;
   write_route "/v1/playbooks" PlaybooksRoot;
   write_route "/v1/runbooks" RunbooksRoot;
   write_route "/v1/memory" MemoryRoot;
   write_route "/v1/memory/" MemoryByID;
   write_route "/v1/sessions" SessionsRoot;
   write_route "/v1/sessions/" SessionByID;
   write_route "/v1/workflows" WorkflowsRoot;
   write_route "/v1/workflows/" WorkflowByID;
   write_route "/v1/hooks/alertmanager" HookRoot;
   write_route "/v1/hooks/argocd" HookRoot;
   write_route "/v1/hooks/git" HookRoot;
   write_route "/v1/hooks/k8s" HookRoot;
   read_route "/v1/audit/events" AuditEvents;
   read_route "/v1/context/services" ContextServices;
   read_route "/v1/context/snapshots" ContextSnapshots;
   read_route "/v1/context/snapshots/" ContextSnapshotByID;
   read_route "/v1/context/graph" ContextGraph;
   read_route "/v1/playbooks/" PlaybookByID;
   read_route "/v1/runbooks/" RunbookByID;
   read_route "/v1/executions" ExecutionsRoot;
   read_route "/v1/executions/" ExecutionByID;
   read_route "/v1/ws" WebSocket;
   read_route "/v1/events" EventStream;
   read_route "/ui/playbooks" UIPlaybooks;
   read_route "/ui/runbooks" UIRunbooks;
   read_route "/ui/plans/" UIPlan].

(** ** net/http's ServeMux

    Matching is on the segments of the escaped path, each unescaped by itself.
    A pattern that ends in a slash matches what is below it. *)

(** url.PathUnescape, which answers the segment itself when it is malformed. *)
Fixpoint path_unescape (s : string) : option string :=
  match s with
  | "" => Some ""
  | String c s' =>
      if Ascii.eqb c (byte 37) then
        match s' with
        | String a (String b s'') =>
            x ← hex_val a; y ← hex_val b; r ← path_unescape s'';
            Some (String (chr (16 * x + y)) r)
        | _ => None
        end
      else String c <$> path_unescape s'
  end.
Definition pathUnescape (s : string) : string := default s (path_unescape s).

Definition slash : Ascii.ascii := byte 47.
Definition pattern_segments (pattern : string) : list string := split_byte slash (trim_prefix pattern "/").
Definition path_segments (path : string) : list string :=
  map pathUnescape (split_byte slash (trim_prefix path "/")).

Definition is_tree (rt : route) : bool := has_suffix (rt_pattern rt) "/".

Definition route_matches (segs : list string) (rt : route) : bool :=
  let ps := pattern_segments (rt_pattern rt) in
  if is_tree rt then
    let dirs := removelast ps in
    (length dirs <? length segs)%nat && bool_decide (firstn (length dirs) segs = dirs)
  else bool_decide (segs = ps).

(** A pattern that is the path, or the deepest directory above it. *)
Definition mux_match (routes : list route) (path : string) : option route :=
  if path =? "" then None
  else
    let found := List.filter (route_matches (path_segments path)) routes in
    match List.find (λ rt, negb (is_tree rt)) found with
    | Some rt => Some rt
    | None => fold_left (λ best rt,
        match best with
        | Some b => if (length (pattern_segments (rt_pattern b)) <?
                        length (pattern_segments (rt_pattern rt)))%nat then Some rt else best
        | None => Some rt
        end) found None
    end.

Definition exactMatch (path : string) (rt : option route) : bool :=
  match rt with
  | None => false
  | Some rt =>
      if negb (is_tree rt) then true
      else has_suffix path "/" &&
           (length (pattern_segments (rt_pattern rt)) =? length (split_byte slash (trim_prefix path "/")))%nat
  end.

(** path.Clean of a rooted path, and cleanPath, which keeps a last slash. *)
Definition clean_step (done : list string) (seg : string) : list string :=
  if (seg =? "") || (seg =? ".") then done
  else if seg =? ".." then removelast done
  else done ++ [seg].
Definition path_clean (p : string) : string :=
  "/" +:+ join (fold_left clean_step (split_byte slash p) []) "/".
Definition cleanPath (p : string) : string :=
  if p =? "" then "/"
  else
    let np := path_clean p in
    if has_suffix p "/" && negb (np =? "/") then np +:+ "/" else np.

Inductive routed := Found (rt : route) | Moved (path : string) | NotFound.

Definition slash_redirect (routes : list route) (path urlPath : string) : option string :=
  if exactMatch path (mux_match routes path) || has_suffix path "/" then None
  else if exactMatch (path +:+ "/") (mux_match routes (path +:+ "/"))
       then Some (cleanPath urlPath +:+ "/") else None.

(** [escaped] is the request's escaped path; CONNECT requests are not cleaned. *)
Definition findHandler (routes : list route) (method urlPath escaped : string) : routed :=
  let found path := match mux_match routes path with Some rt => Found rt | None => NotFound end in
  if method =? "CONNECT" then
    match slash_redirect routes escaped urlPath with
    | Some u => Moved u
    | None => found escaped
    end
  else
    let path := cleanPath escaped in
    match slash_redirect routes path urlPath with
    | Some u => Moved u
    | None => if path =? escaped then found path else Moved path
    end.

Example find_plan : findHandler registerRoutes "GET" "/v1/plans/p1" "/v1/plans/p1"
  = Found (write_route "/v1/plans/" PlanByID).
Proof. reflexivity. Qed.
Example find_escaped : findHandler registerRoutes "GET" "/v1/plans" "/v1/pl%61ns"
  = Found (write_route "/v1/plans" PlansRoot).
Proof. reflexivity. Qed.
Example find_ui : findHandler registerRoutes "GET" "/ui/plans" "/ui/plans" = Moved "/ui/plans/".
Proof. reflexivity. Qed.
Example find_dots : findHandler registerRoutes "GET" "/v1/../healthz" "/v1/../healthz" = Moved "/healthz".
Proof. reflexivity. Qed.
Example find_none : findHandler registerRoutes "POST" "/v1/hooks/slack" "/v1/hooks/slack" = NotFound.
Proof. reflexivity. Qed.

(** *** Registered routes *)
Lemma fold_pick_in {A} (better : A → A → bool) (l : list A) best a :
  fold_left (λ best x, match best with
    | Some b => if better b x then Some x else best | None => Some x end) l best = Some a →
  best = Some a ∨ a ∈ l.
Proof.
  revert best. induction l as [|x l IH]; intros best; [by left|]. intros [H|H]%IH; [|set_solver].
  destruct best as [b|]; [destruct (better b x)|]; naive_solver set_solver.
Qed.

Lemma mux_match_in routes path rt : mux_match routes path = Some rt → rt ∈ routes.
Proof.
  unfold mux_match. case_match; [done|].
  assert (Hin : ∀ x, x ∈ List.filter (route_matches (path_segments path)) routes → x ∈ routes).
  { intros x. rewrite !list_elem_of_In. by intros [Hx _]%filter_In. }
  destruct (List.find _ _) as [x|] eqn:E.
  - apply List.find_some in E as [Hx _]. intros [= <-]. by apply Hin, list_elem_of_In.
  - intros [?|?]%fold_pick_in; auto; done.
Qed.

Lemma findHandler_in routes method urlPath escaped rt :
  findHandler routes method urlPath escaped = Found rt → rt ∈ routes.
Proof.
  unfold findHandler. intros H. repeat case_match; simplify_eq; eauto using mux_match_in.
Qed.

(** Every route is behind AuthMiddleware but three, which touch nothing. *)
Definition open_endpoints : list endpoint := [Healthz; Readyz; Metrics].

Lemma routes_auth rt :
  rt ∈ registerRoutes →
  rt_auth rt = true ∨ rt_auth rt = false ∧ rt_endpoint rt ∈ open_endpoints.
Proof.
  intros Hrt. apply (Forall_forall (λ rt, bool_decide
    (rt_auth rt = true ∨ rt_auth rt = false ∧ rt_endpoint rt ∈ open_endpoints) = true) registerRoutes) in Hrt.
  - by apply bool_decide_eq_true in Hrt.
  - by repeat constructor.
Qed.

(** ** The server *)

(** What one request meets besides its [Request] and the database: the escaped
    path, the body's bytes, the header values, the connection, what the hubs
    hand to a stream while it is open, and the log hub with what the others do
    to it meanwhile. *)
Record exchange := mkExchange {
  ex_escaped : string;
  ex_text : string;
  ex_values : string → list string;
  ex_hijack : option (result unit);
  ex_flush : result unit;
  ex_flusher : bool;
  ex_broken : nat → bool;
  ex_events : list Event;
  ex_lines : list Log.LogLine;
  ex_between : LogHub Log.LogLine → LogHub Log.LogLine;
  ex_during : LogHub Log.LogLine → LogHub Log.LogLine;
  ex_logs : LogHub Log.LogLine;
  ex_now : Z }.

(** withRateLimit, with the middleware of the limiter when there is one. *)
Definition withRateLimit {A} (limiter : option (A → A)) (h : A) : A :=
  match limiter with None => h | Some middleware => middleware h end.

Section server.
Variable clock : nat → Z.
Variable fault : nat → option string.
Variable jsonb : json → json.
Variable pick : list approval_row → option approval_row.
Variable time_text : Z → string.
Variable time_parse : string → result Z.
Variable json_text : json → string.

#[local] Instance served_db : GatewayDB store :=
  request_db clock fault jsonb pick time_text time_parse.
#[local] Instance served_library : LibraryDB store :=
  request_library clock fault jsonb time_text json_text.
#[local] Instance served_graph : GraphDB store := request_graph clock fault jsonb.

Variable sv : Server.
Variable cfg : AuthConfig.
Variable VerifyPKCS1v15 : Z → Z → string → string → result unit.
Variable FetchJWKS : string → result (list JWK).
Variable gate_fault : nat → option string.
Variable dir : string.
Variable files : list string → file_read.
Variable context_service : option (list (option (result Snapshot))).
Variable checked : health.
(** The answers of promhttp's handler and of the pages of ui.go. *)
Variable metrics : Response.
Variable page : endpoint → Request → Response.

Notation world := (gateway store).
Notation body := (handler world Response Response).

Definition endpoint_handler (ex : exchange) (e : endpoint) (cc : call_ctx) : body :=
  match e with
  | Healthz => mret handleHealthz
  | Readyz => mret (handleReadyz checked)
  | Metrics => mret metrics
  | PlansRoot => handlePlans sv cc
  | PlanByID => handlePlanByID sv cc
  | ApprovalsRoot => handleApprovals sv cc
  | SchedulesRoot => handleSchedules sv cc
  | ScheduleByID => handleScheduleByID sv cc
  | ContextRefresh => handleContextRefresh sv cc context_service
  | PlaybooksRoot => handlePlaybooks sv cc
  | RunbooksRoot => handleRunbooks sv cc dir files
  | MemoryRoot => handleOperatorMemory sv cc dir files
  | MemoryByID => handleOperatorMemoryByID sv cc dir files
  | SessionsRoot => handleSessions sv cc
  | SessionByID => handleSessionByID sv cc
  | WorkflowsRoot => handleWorkflows sv cc
  | WorkflowByID => handleWorkflowByID sv cc
  | HookRoot => handleHook sv cc gate_fault (ex_text ex)
  | AuditEvents => handleAuditEvents sv cc time_parse
  | ContextServices => handleContextServices sv cc
  | ContextSnapshots => handleContextSnapshots sv cc
  | ContextSnapshotByID => handleContextSnapshotByID sv cc
  | ContextGraph => handleContextGraph sv cc context_service
  | PlaybookByID => handlePlaybookByID sv cc
  | RunbookByID => handleRunbookByID sv cc
  | ExecutionsRoot => handleExecutions sv cc
  | ExecutionByID => handleExecutionByID sv cc
      (handleExecutionLogs sv cc (ex_flusher ex) (ex_lines ex) (ex_between ex) (ex_during ex) (ex_logs ex))
  | WebSocket => handleWS sv cc (ex_values ex) (ex_hijack ex) (ex_flush ex) (ex_broken ex) (ex_events ex)
  | EventStream => handleEventsSSE sv cc (ex_flusher ex) (ex_events ex)
  | UIPlaybooks | UIRunbooks | UIPlan => mret (page e (cc_req cc))
  end.

Definition served : Type := Request → world → Response * world.

Definition call_endpoint (ex : exchange) (e : endpoint) (actor : option Actor) : served :=
  λ r w, run_handler (endpoint_handler ex e (mkCall_ r actor)) w.

(** The handler registered for a pattern.  NewServer registers the routes before
    a RateLimiter is set, so every withRateLimit sees none. *)
Definition route_handler (ex : exchange) (rt : route) : served :=
  let h : served :=
    if rt_auth rt then
      AuthMiddleware VerifyPKCS1v15 FetchJWKS (ex_now ex) cfg
        (λ resp w, (resp, w)) (λ actor r, call_endpoint ex (rt_endpoint rt) (Some actor) r)
    else call_endpoint ex (rt_endpoint rt) None in
  if rt_limited rt then withRateLimit None h else h.

(** The text of a redirection stands for its Location. *)
Definition ServeHTTP (ex : exchange) : served := λ r w,
  match findHandler registerRoutes (Method r) (Path r) (ex_escaped ex) with
  | Found rt => route_handler ex rt r w
  | Moved u => (mkResp 301 (Text u), w)
  | NotFound => (not_found, w)
  end.

(** Requests, one after the other. *)
Fixpoint serve_all (l : list (exchange * Request)) (w : world) : world :=
  match l with
  | [] => w
  | (ex, r) :: l' => serve_all l' (ServeHTTP ex r w).2
  end.

(** *** What the endpoints do to the database *)

(** The endpoints that decide approvals or make executions. *)
Definition deciding_endpoints : list endpoint :=
  [PlansRoot; PlanByID; ApprovalsRoot; WorkflowByID; ExecutionByID].

Ltac head_of t := match t with ?f _ => head_of f | _ => t end.
(** The hypothesis about the handler of the goal. *)
Ltac this_handler :=
  match goal with
  | H : hrel _ ?m |- hrel _ ?m' =>
      let f := head_of m in let f' := head_of m' in constr_eq f f'; exact H
  end.

Section effect.
Variable R : tables → tables → Prop.
Variable ex : exchange.
Variable cc : call_ctx.
Notation known lemma := (lemma clock fault jsonb pick time_text time_parse) (only parsing).

Lemma drafts_rel `{!PermitsDrafts clock fault jsonb time_parse R} e :
  e ∉ deciding_endpoints → hrel R (endpoint_handler ex e cc).
Proof.
  destruct (known sessions_rel json_text R sv cc) as [? ?].
  destruct (known playbooks_rel json_text R sv cc) as [? ?].
  destruct (known runbooks_rel json_text R sv cc dir files) as [? ?].
  destruct (known memory_rel json_text R sv cc dir files) as [? ?].
  destruct (known admin_rel json_text R sv cc) as (? & ? & ? & ?).
  destruct (known context_rel json_text R sv cc context_service) as (? & ? & ? & ? & ?).
  destruct (known streams_rel R sv cc (ex_values ex) (ex_hijack ex) (ex_flush ex)
    (ex_broken ex) (ex_flusher ex) (ex_events ex)) as [? ?].
  pose proof (known catalogue_rel json_text R sv cc).
  pose proof (known hook_rel R sv cc gate_fault (ex_text ex)).
  intros He. destruct e; unfold endpoint_handler;
    first [ apply hrel_ret; apply _ | this_handler | destruct He; set_solver ].
Qed.

Lemma endpoint_rel `{!PermitsPlans clock fault jsonb time_parse R} e :
  hrel R (endpoint_handler ex e cc).
Proof.
  destruct (decide (e ∈ deciding_endpoints)) as [He|He]; [|by apply drafts_rel].
  pose proof (known plans_rel R sv cc).
  pose proof (known plan_rel R sv cc).
  pose proof (known approvals_rel R sv cc).
  pose proof (known workflow_rel json_text R sv cc).
  unfold deciding_endpoints in He. rewrite !elem_of_cons, elem_of_nil in He.
  destruct He as [->|[->|[->|[->|[->|[]]]]]]; unfold endpoint_handler; try this_handler.
  apply (known execution_rel); try apply _. intros id. unfold handleExecutionLogs.
  repeat (apply hrel_bind; [apply _|apply hrel_return_if; apply _|intros _]).
  apply hrel_ret. apply _.
Qed.
End effect.

(** *** Who a request runs for *)

Definition authentic_for (ex : exchange) : Request → JWTPayload → Prop :=
  authentic VerifyPKCS1v15 FetchJWKS (ex_now ex) cfg.

Lemma serve_outcomes ex r w :
  (∃ resp, ServeHTTP ex r w = (resp, w) ∧
     (resp = not_found ∨ (∃ u, findHandler registerRoutes (Method r) (Path r) (ex_escaped ex) = Moved u ∧
       resp = mkResp 301 (Text u)) ∨ resp = unauthorized)) ∨
  ∃ rt, findHandler registerRoutes (Method r) (Path r) (ex_escaped ex) = Found rt ∧
    (rt_endpoint rt ∈ open_endpoints ∧ ServeHTTP ex r w = call_endpoint ex (rt_endpoint rt) None r w ∨
     ∃ claims, rt_auth rt = true ∧ authentic_for ex r claims ∧
       ServeHTTP ex r w = call_endpoint ex (rt_endpoint rt) (Some (actor_of claims)) r w).
Proof.
  unfold ServeHTTP. destruct (findHandler _ _ _ _) as [rt|u|] eqn:Hf; [|left; eauto 10..].
  pose proof (findHandler_in _ _ _ _ _ Hf) as Hrt. unfold route_handler, withRateLimit.
  replace (if rt_limited rt then _ else _) with
    (if rt_auth rt then
       AuthMiddleware VerifyPKCS1v15 FetchJWKS (ex_now ex) cfg (λ resp w, (resp, w))
         (λ actor r, call_endpoint ex (rt_endpoint rt) (Some actor) r)
     else call_endpoint ex (rt_endpoint rt) None : served) by (by destruct (rt_limited rt)).
  destruct (routes_auth _ Hrt) as [E|[E He]]; rewrite E; [|right; eauto].
  match goal with |- context [AuthMiddleware ?a ?b ?c ?d ?e ?f r] =>
    destruct (AuthMiddleware_cases a b c d e f r) as [->|(claims & Hc & ->)] end; [left|right]; eauto 10.
Qed.

Lemma serve_cases ex r w :
  (∃ resp, ServeHTTP ex r w = (resp, w) ∧
     (resp = not_found ∨ (∃ u, resp = mkResp 301 (Text u)) ∨ resp = unauthorized ∨
      resp = handleHealthz ∨ resp = handleReadyz checked ∨ resp = metrics)) ∨
  ∃ rt claims,
    findHandler registerRoutes (Method r) (Path r) (ex_escaped ex) = Found rt ∧
    rt_auth rt = true ∧ authentic_for ex r claims ∧
    ServeHTTP ex r w = call_endpoint ex (rt_endpoint rt) (Some (actor_of claims)) r w.
Proof.
  destruct (serve_outcomes ex r w)
    as [(resp & Hs & H)|(rt & Hf & [[He Hs]|(claims & Ha & Hc & Hs)])]; [left|left|right].
  - exists resp. split; [done|]. destruct H as [?|[(u & _ & ?)|?]]; eauto.
  - unfold open_endpoints in He. rewrite !elem_of_cons, elem_of_nil in He. rewrite Hs.
    unfold call_endpoint. destruct He as [->|[->|[->|[]]]]; cbn; eauto 10.
  - by exists rt, claims.
Qed.

(** C22: a request either leaves everything as it is, and is answered that there is
    no such page, that it moved, 401, or the public health and metrics pages; or
    it carries an authentic token, and one registered handler runs for the
    subject, email and groups the token claims. *)
Theorem requests_are_authenticated ex r w :
  let '(resp, w') := ServeHTTP ex r w in
  (w' = w ∧ (resp = not_found ∨ (∃ u, resp = mkResp 301 (Text u)) ∨ resp = unauthorized ∨
             resp = handleHealthz ∨ resp = handleReadyz checked ∨ resp = metrics)) ∨
  ∃ rt claims, rt ∈ registerRoutes ∧ rt_auth rt = true ∧ authentic_for ex r claims ∧
    (resp, w') = run_handler (endpoint_handler ex (rt_endpoint rt)
                                (mkCall_ r (Some (actor_of claims)))) w.
Proof.
  destruct (serve_cases ex r w) as [(resp & -> & H)|(rt & claims & Hf & Ha & Hc & ->)]; [by left|].
  unfold call_endpoint. destruct (run_handler _ w) as [resp w'] eqn:E.
  right. exists rt, claims. eauto using findHandler_in.
Qed.

(** *** What requests leave behind *)
Lemma serve_rel R `{!PermitsPlans clock fault jsonb time_parse R} ex r w :
  R (tabs (g_db w)) (tabs (g_db (ServeHTTP ex r w).2)).
Proof.
  destruct (serve_cases ex r w) as [(resp & -> & _)|(rt & claims & _ & _ & _ & ->)]; [apply reflexivity|].
  unfold call_endpoint. apply hrel_run. by apply endpoint_rel.
Qed.

Lemma serve_all_rel R `{!PermitsPlans clock fault jsonb time_parse R} l w :
  R (tabs (g_db w)) (tabs (g_db (serve_all l w))).
Proof.
  revert w. induction l as [|[ex r] l IH]; intros w; [apply reflexivity|].
  etrans; [by apply (serve_rel R ex r)|apply IH].
Qed.

(** C23: whatever requests are served, in whatever order and with whatever
    statements failing, starting from an empty database: keys stay unique and
    references resolve, and no audit event, no execution and no approval that
    is there at some moment is ever removed or given to another plan. *)
Theorem requests_keep_history l1 l2 gates ticks hub out :
  let w1 := serve_all l1 (mkGateway empty_store gates ticks hub out) in
  let w2 := serve_all l2 w1 in
  tables_ok (tabs (g_db w2)) ∧ shelves_ok (shelf (tabs (g_db w2))) ∧
  grows (tabs (g_db w1)) (tabs (g_db w2)).
Proof.
  intros w1 w2. pose proof (serve_all_rel keeps_integrity l1 (mkGateway empty_store gates ticks hub out)) as [Ht1 Hs1].
  pose proof (serve_all_rel keeps_integrity l2 w1) as [Ht2 Hs2].
  split; [apply Ht2, Ht1, no_tables_ok|split; [apply Hs2, Hs1, no_shelves_ok|]].
  apply (serve_all_rel grows).
Qed.

(** C24: approvals are given and executions made or changed by five endpoints
    only (plans, a plan, approvals, a workflow, an execution), for the sender of
    an authentic token; any other request, webhooks included, leaves the approved
    approvals and the executions as they are. *)
Theorem authority_endpoints ex r w :
  authority (tabs (g_db (ServeHTTP ex r w).2)) = authority (tabs (g_db w)) ∨
  ∃ rt claims, findHandler registerRoutes (Method r) (Path r) (ex_escaped ex) = Found rt ∧
    rt_endpoint rt ∈ deciding_endpoints ∧ authentic_for ex r claims.
Proof.
  destruct (serve_cases ex r w) as [(resp & -> & _)|(rt & claims & Hf & _ & Hc & ->)]; [by left|].
  destruct (decide (rt_endpoint rt ∈ deciding_endpoints)) as [He|He]; [right; eauto|left].
  unfold call_endpoint. apply (hrel_run (keeps authority)). apply drafts_rel; [|done]. apply authority_permitted.
Qed.
End server.
