(* ===== verification/Slack.v ===== *)
(** * Slack: the chat agent and its client of the gateway

    internal/chatops: SlackHandler (slack.go), which checks the signature of a slash
    command and calls the gateway, and HTTPGatewayClient (gateway_client.go); the
    addresses of cmd/agent/main.go.  The client's HTTP transport is an interface; the
    theorems that join the two programs give it the gateway's own ServeHTTP. *)

From S2P Require Import Prelude GoStrings Json Digest ContextRef Steps Policy ToolApi Http.
From S2P Require Import Auth Shelves Store Library EventGate Gateway Plans Registry Graph.
From S2P Require Import Admin Requests Routes.
From Stdlib Require Import Ascii.

Local Open Scope string_scope.
Local Open Scope list_scope.

(** ** net/url's queries *)

Fixpoint QueryUnescape (s : string) : option string :=
  match s with
  | "" => Some ""
  | String c s' =>
      if Ascii.eqb c (byte 37) then       (* a percent sign *)
        match s' with
        | String a (String b s'') =>
            x ← hex_val a; y ← hex_val b; r ← QueryUnescape s''; Some (String (chr (x * 16 + y)) r)
        | _ => None
        end
      else r ← QueryUnescape s'; Some (String (if Ascii.eqb c (byte 43) then byte 32 else c) r)
  end.

(** A pair of ParseQuery: [None] for an error, nothing for an empty one. *)
Definition parse_pair (part : string) : option (list (string * string)) :=
  if contains part ";" then None
  else if part =? "" then Some []
  else
    let '(key, value) := default (part, "") (cut_at part "=") in
    k ← QueryUnescape key; v ← QueryUnescape value; Some [(k, v)].

(** The pairs that could be read, and whether all could. *)
Definition ParseQuery (query : string) : list (string * string) * bool :=
  let l := map parse_pair (split_byte (byte 38) query) in
  (concat (omap id l), forallb (λ o, match o with Some _ => true | None => false end) l).

(** Values.Get: the first value of a key. *)
Definition values_get (l : list (string * string)) (key : string) : string :=
  default "" (snd <$> List.find (λ '(k, _), k =? key) l).

(** URL.EscapedPath of a path that was set unescaped. *)
Definition EscapedPath (path : string) : string :=
  if path =? "*" then "%2A"
  else escape_with (λ c, alnum c || string_in c "-_.~$&+,/:;=@") false path.

(** ** The client *)

(** http.Client.Do: the status and the bytes of the answer. *)
Class Transport (W : Type) := { http_do : Request → W → result (Z * string) * W }.

(** The path of the parsed BaseURL, or why it does not parse; the token. *)
Record HTTPGatewayClient := mkGatewayClient { gc_Base : result string; gc_Token : string }.

Definition client_headers (c : HTTPGatewayClient) (has_body : bool) (name : string) : string :=
  if (name =? "Content-Type") && has_body then "application/json"
  else if (name =? "Authorization") && negb (gc_Token c =? "") then "Bearer " +:+ gc_Token c
  else "".

(** GatewayClient *)
Class GatewayClient (W : Type) := {
  cl_CreatePlan : PlanCreateRequest → W → result string * W;
  cl_CreateApproval : string → string → string → W → result unit * W;
  cl_GetExecution : string → W → result string * W;
  cl_ListAudit : list (string * string) → W → result string * W }.

Section client.
Context {W : Type} `{!Transport W}.
Variable c : HTTPGatewayClient.

Definition doRequest (method path : string) (req : option any) (w : W) : result string * W :=
  match (data ← match req with Some v => j ← marshal v; Ok (doc_json j) | None => Ok doc_empty end;
         base ← gc_Base c;
         Ok (data, base)) with
  | Err e => (Err e, w)
  | Ok (data, base) =>
      let '(path, rawQuery) := default (path, "") (cut_at path "?") in
      let request := mkReq method (trim_suffix base "/" +:+ path)
        (values_get (ParseQuery rawQuery).1)
        (client_headers c (match req with Some _ => true | None => false end)) data in
      let '(resp, w) := http_do request w in
      match resp with
      | Err e => (Err e, w)
      | Ok (status, text) =>
          if (status <? 200)%Z || (300 <=? status)%Z
          then (Err ("gateway status " +:+ itoa status +:+ ": " +:+ take_bytes 4096 text), w)
          else (Ok text, w)
      end
  end.

Definition doJSON {A} (method path : string) (req : any) (decode : json → result A) (w : W) :
    result A * W :=
  let '(text, w) := doRequest method path (Some req) w in
  (text ← text; j ← unmarshal (doc_of_text text); decode j, w).

Definition plan_request_any (r : PlanCreateRequest) : any :=
  AStruct "PlanCreateRequest" [("summary", AStr (rq_Summary r)); ("trigger", AStr (rq_Trigger r));
    ("context", ref_any (rq_Context r)); ("intent", AStr (rq_Intent r));
    ("constraints", rq_Constraints r); ("session_id", AStr (rq_SessionID r))].
Definition approval_request_any (r : ApprovalCreateRequest) : any :=
  AStruct "ApprovalCreateRequest" [("plan_id", AStr (aq_PlanID r));
    ("approver_note", AStr (aq_ApproverNote r)); ("status", AStr (aq_Status r))].

(** planCreateResponse: the plan_id, and the plan's. *)
Definition decode_plan_response (j : json) : result (string * string) :=
  fs ← Json.members j;
  id ← fld_string "plan_id" fs;
  plan ← fld (λ a x, fs ← Json.members x;
                     fld (λ a x, match x with JStr s => Ok s | JNull => Ok a | _ => Err json_error end)
                       "plan_id" a fs) "plan" "" fs;
  Ok (id, plan).

Definition client_CreatePlan (req : PlanCreateRequest) (w : W) : result string * W :=
  let '(r, w) := doJSON "POST" "/v1/plans" (plan_request_any req) decode_plan_response w in
  ('(id, planID) ← r;
   let id := if id =? "" then planID else id in
   _ ← check (negb (id =? "")) "missing plan_id"; Ok id, w).

Definition client_CreateApproval (planID status note : string) (w : W) : result unit * W :=
  doJSON "POST" "/v1/approvals" (approval_request_any (mkApprReq planID note status))
    (λ j, _ ← Json.members j; Ok tt) w.

Definition client_GetExecution (executionID : string) : W → result string * W :=
  doRequest "GET" ("/v1/executions/" +:+ executionID) None.

Definition client_ListAudit (query : list (string * string)) : W → result string * W :=
  doRequest "GET" (match query with [] => "/v1/audit/events"
                   | _ => "/v1/audit/events?" +:+ encode_values query end) None.

Definition http_gateway_client : GatewayClient W := {|
  cl_CreatePlan := client_CreatePlan;
  cl_CreateApproval := client_CreateApproval;
  cl_GetExecution := client_GetExecution;
  cl_ListAudit := client_ListAudit |}.
End client.

(** ** The agent *)

(** strings.Fields' first field: up to the first space. *)
Fixpoint first_field (s : string) : string :=
  match s with
  | "" => ""
  | String c s' => match strip_one spaces s with Some _ => "" | None => String c (first_field s') end
  end.

Definition splitFirst (text : string) : string * string :=
  let action := first_field (TrimSpace text) in
  if action =? "" then ("", "") else (action, TrimSpace (trim_prefix text action)).

Definition writeText (text : string) : Response := mkResp 200 (Text text).

(** Of the request, the headers and the bytes of the body, once read; [now] is the
    clock in seconds. *)
Definition verifySignature (secret : string) (now : Z) (header : string → string) (body : string) : bool :=
  let ts := header "X-Slack-Request-Timestamp" in
  let sig := header "X-Slack-Signature" in
  if (secret =? "") || (ts =? "") || (sig =? "") then false
  else match Atoi ts with
  | Err _ => false
  | Ok parsed =>
      if (300 <? wrap64 (now - parsed))%Z || (300 <? wrap64 (parsed - now))%Z then false
      else "v0=" +:+ hex (hmac_sha256 secret ("v0:" +:+ ts +:+ ":" +:+ body)) =? sig
  end.

Section agent.
Context {W : Type} `{!GatewayClient W}.

Notation reply := (handler W Response Response).

Definition error_or {A} (r : result A) (msg : string) : handler W Response A :=
  or_return r (λ _, return_ (http_error msg 400)).

Definition handlePlan (text : string) : reply :=
  _ ← return_if (text =? "") (http_error "missing intent" 400);
  r ← call (cl_CreatePlan (mkPlanReq text "manual" empty_ref text ANil ""));
  planID ← error_or r "plan error";
  mret (writeText ("plan created: " +:+ planID)).

Definition handleApprove (text : string) : reply :=
  let '(planID, rest) := splitFirst text in
  _ ← return_if (planID =? "") (http_error "missing plan_id" 400);
  let status := if rest =? "" then "approved" else rest in
  r ← call (cl_CreateApproval planID status "");
  _ ← error_or r "approval error";
  mret (writeText ("approval " +:+ status +:+ ": " +:+ planID)).

Definition handleStatus (text : string) : reply :=
  _ ← return_if (text =? "") (http_error "missing execution_id" 400);
  r ← call (cl_GetExecution text);
  resp ← error_or r "status error";
  mret (writeText resp).

Definition handleAudit (text : string) : reply :=
  r ← call (cl_ListAudit (if text =? "" then [] else [("plan_id", text)]));
  resp ← error_or r "audit error";
  mret (writeText resp).

(** SlackHandler: its secret, and whether it has a client. *)
Record SlackHandler := mkSlack { sh_SigningSecret : string; sh_Client : bool }.

Definition slack_command (text : string) : reply :=
  let '(action, rest) := splitFirst (TrimSpace text) in
  _ ← return_if (action =? "") (http_error "missing command" 400);
  if action =? "plan" then handlePlan (TrimSpace rest)
  else if action =? "approve" then handleApprove (TrimSpace rest)
  else if action =? "status" then handleStatus (TrimSpace rest)
  else if action =? "audit" then handleAudit (TrimSpace rest)
  else mret (http_error "unknown command" 400).

(** [body] is what reading the request's body answers. *)
Definition slack_ServeHTTP (h : SlackHandler) (now : Z) (method : string)
    (header : string → string) (body : result string) : reply :=
  _ ← return_if (negb (method =? "POST")) StatusMethodNotAllowed;
  _ ← return_if (negb (sh_Client h)) (http_error "client required" 500);
  body ← error_or body "read error";
  _ ← return_if (negb (verifySignature (sh_SigningSecret h) now header body)) unauthorized;
  let '(values, ok) := ParseQuery body in
  _ ← return_if (negb ok) (http_error "invalid body" 400);
  slack_command (values_get values "text").
End agent.

(** *** Its addresses (cmd/agent) *)

Definition normalizeGatewayURL (gatewayURL addr : string) : string :=
  if negb (gatewayURL =? "") then trim_right_slashes gatewayURL
  else if addr =? "" then ""
  else if has_prefix addr "http://" || has_prefix addr "https://" then trim_right_slashes addr
  else if has_prefix addr ":" then "http://127.0.0.1" +:+ addr
  else "http://" +:+ addr.

Definition normalizePath (path : string) : string :=
  if path =? "" then "/slack/commands" else if has_prefix path "/" then path else "/" +:+ path.

(** The agent's checks before it serves: the gateway's address. *)
Definition agent_address (secret gatewayURL addr : string) : result string :=
  _ ← check (negb (secret =? "")) "slack signing secret required";
  let url := normalizeGatewayURL gatewayURL addr in
  _ ← check (negb (url =? "")) "gateway url required";
  Ok url.

(** ** Theorems *)

(** A request the gateway's clock finds fresh: at most five minutes old or ahead,
    or 2^63 seconds old, where the difference wraps around. *)
Definition fresh_at (now parsed : Z) : Prop :=
  (-300 ≤ now - parsed ≤ 300)%Z ∨ (now - parsed = 2 ^ 63)%Z.

Lemma wrapped_fresh now parsed :
  (0 ≤ now < 2 ^ 62)%Z → (int_min ≤ parsed ≤ int_max)%Z →
  (300 <? wrap64 (now - parsed))%Z || (300 <? wrap64 (parsed - now))%Z = false ↔ fresh_at now parsed.
Proof.
  intros Hn Hp. unfold fresh_at, wrap64. unfold int_min, int_max in Hp.
  rewrite orb_false_iff, !Z.ltb_ge.
  replace (parsed - now)%Z with (- (now - parsed))%Z by lia. set (d := (now - parsed)%Z).
  assert (Hd : (- 2 ^ 63 < d < 2 ^ 62 + 2 ^ 63 + 1)%Z) by lia. clearbody d. clear Hn Hp now parsed.
  pose proof (Z.div_mod (d + 2 ^ 63) (2 ^ 64) ltac:(lia)) as H1.
  pose proof (Z.div_mod (- d + 2 ^ 63) (2 ^ 64) ltac:(lia)) as H2.
  pose proof (Z.mod_pos_bound (d + 2 ^ 63) (2 ^ 64) ltac:(lia)) as H3.
  pose proof (Z.mod_pos_bound (- d + 2 ^ 63) (2 ^ 64) ltac:(lia)) as H4.
  lia.
Qed.

Lemma Atoi_bounds s z : Atoi s = Ok z → (int_min ≤ z ≤ int_max)%Z.
Proof.
  unfold Atoi. destruct (match s with "" => _ | _ => _ end) as [neg body].
  destruct body; [done|]. destruct (digits_value _ _); [|done]. cbv zeta.
  destruct (_ && _) eqn:E; [|done]. intros [= <-]. bool_hyps. lia.
Qed.

Definition signature_of (secret ts body : string) : string :=
  "v0=" +:+ hex (hmac_sha256 secret ("v0:" +:+ ts +:+ ":" +:+ body)).

Lemma verifySignature_true secret now header body :
  (0 ≤ now < 2 ^ 62)%Z → verifySignature secret now header body = true →
  secret ≠ "" ∧ ∃ ts parsed, ts = header "X-Slack-Request-Timestamp" ∧ Atoi ts = Ok parsed ∧
    fresh_at now parsed ∧ header "X-Slack-Signature" = signature_of secret ts body.
Proof.
  intros Hn. unfold verifySignature. cbv zeta.
  destruct (_ || _ || _) eqn:E; [done|]. bool_hyps.
  destruct (Atoi _) as [parsed|] eqn:Ea; [|done].
  destruct (_ || _) eqn:Ew; [done|]. intros Hs. bool_hyps. split; [done|].
  exists (header "X-Slack-Request-Timestamp"), parsed. split; [done|]. split; [done|].
  split; [|done]. apply wrapped_fresh; [done|by eapply Atoi_bounds|].
  apply orb_false_iff. split; by apply Z.ltb_ge.
Qed.

(** C14: the agent calls the gateway only for a POST whose body is signed with the
    secret and whose timestamp is fresh; every other request is refused and calls
    nothing. *)
Theorem slack_calls_are_signed {W} `{!GatewayClient W} h now method header body (w : W)
    (Hclock : (0 ≤ now < 2 ^ 62)%Z) :
  let '(resp, w') := run_handler (slack_ServeHTTP h now method header body) w in
  (w' = w ∧ refused resp) ∨
  method = "POST" ∧ sh_SigningSecret h ≠ "" ∧
  ∃ text ts parsed values, body = Ok text ∧ ts = header "X-Slack-Request-Timestamp" ∧
    Atoi ts = Ok parsed ∧ fresh_at now parsed ∧
    header "X-Slack-Signature" = signature_of (sh_SigningSecret h) ts text ∧
    ParseQuery text = (values, true) ∧
    (resp, w') = run_handler (slack_command (values_get values "text")) w.
Proof.
  unfold slack_ServeHTTP, run_handler, return_if.
  cbv [mbind handler_bind mret handler_ret return_ error_or or_return].
  destruct (String.eqb_spec method "POST") as [->|]; [|left; by split; [|vm_compute]]. cbn [negb].
  destruct (sh_Client h); [|left; by split; [|vm_compute]]. cbn [negb].
  destruct body as [text|e]; [|left; by split; [|vm_compute]].
  destruct (verifySignature _ _ _ _) eqn:Ev; [|left; by split; [|vm_compute]]. cbn [negb].
  apply verifySignature_true in Ev as (Hs & ts & parsed & Hts & Ha & Hf & Hsig); [|done].
  destruct (ParseQuery text) as [values ok] eqn:Ep.
  destruct ok; [|left; by split; [|vm_compute]]. cbn [negb].
  destruct (slack_command (values_get values "text") w) as [[resp|resp] w'] eqn:Ec;
    right; split; try done; split; try done; exists text, ts, parsed, values; by rewrite Ec.
Qed.

(** *** Queries *)

(** A byte's escape is read back, and needs no separator. *)
Lemma unescape_char c t :
  QueryUnescape (QueryEscape (String c "") +:+ t) = (r ← QueryUnescape t; Some (String c r)).
Proof. destruct c as [[] [] [] [] [] [] [] []]; reflexivity. Qed.

Lemma escape_char_plain c : contains_any (QueryEscape (String c "")) "&;=" = false.
Proof. destruct c as [[] [] [] [] [] [] [] []]; reflexivity. Qed.

Lemma QueryEscape_cons c s : QueryEscape (String c s) = QueryEscape (String c "") +:+ QueryEscape s.
Proof. unfold QueryEscape. cbn [escape_with]. by rewrite string_app_nil_r. Qed.

(** url.QueryEscape and url.QueryUnescape. *)
Lemma query_roundtrip s : QueryUnescape (QueryEscape s) = Some s.
Proof.
  induction s as [|c s IH]; [done|]. by rewrite QueryEscape_cons, unescape_char, IH.
Qed.

Lemma QueryEscape_plain s : contains_any (QueryEscape s) "&;=" = false.
Proof.
  induction s as [|c s IH]; [done|]. by rewrite QueryEscape_cons, contains_any_app, escape_char_plain, IH.
Qed.

Lemma contains_any_cons c s set : contains_any (String c s) set = string_in c set || contains_any s set.
Proof. done. Qed.

Lemma split_byte_plain sep s :
  contains_any s (String sep "") = false → split_byte sep s = [s].
Proof.
  induction s as [|c s IH]; [done|]. rewrite contains_any_cons. cbn [string_in split_byte].
  rewrite orb_false_r. intros [-> H]%orb_false_iff. by rewrite IH.
Qed.

Lemma contains_byte s c : contains s (String c "") = contains_any s (String c "").
Proof.
  induction s as [|d s IH]; [done|]. rewrite contains_any_cons, <- IH. cbn [string_in].
  change (contains (String d s) (String c ""))
    with (has_prefix (String d s) (String c "") || contains s (String c "")). unfold has_prefix. cbn [strip_prefix]. rewrite orb_false_r. f_equal.
  destruct (Ascii.eqb_spec c d), (Ascii.eqb_spec d c); congruence || done.
Qed.

Lemma escaped_none s c : c ∈ chars "&;=" → contains_any (QueryEscape s) (String c "") = false.
Proof.
  intros Hc. destruct (contains_any (QueryEscape s) (String c "")) eqn:E; [|done].
  apply contains_any_spec in E as (d & Hd & ->%list_elem_of_singleton).
  enough (contains_any (QueryEscape s) "&;=" = true) by (pose proof (QueryEscape_plain s); congruence).
  apply contains_any_spec. by exists c.
Qed.

(** The query of the audit command is read back as it was encoded. *)
Lemma parse_plan_query v : ParseQuery (encode_values [("plan_id", v)]) = ([("plan_id", v)], true).
Proof.
  unfold encode_values. cbn [map join fold_right]. rewrite string_app_nil_r.
  change (QueryEscape "plan_id") with "plan_id". unfold ParseQuery.
  assert (Hplain : ∀ c, c ∈ chars "&;" → contains_any ("plan_id" +:+ "=" +:+ QueryEscape v) (String c "") = false).
  { intros c Hc. rewrite !contains_any_app, (escaped_none v c), orb_false_r.
    - cbn in Hc. rewrite !elem_of_cons, elem_of_nil in Hc. by destruct Hc as [->|[->|[]]].
    - cbn in Hc. rewrite !elem_of_cons, elem_of_nil in Hc.
      destruct Hc as [->|[->|[]]]; [apply list_elem_of_here|apply list_elem_of_further, list_elem_of_here]. }
  rewrite split_byte_plain by (apply (Hplain "&"%char), list_elem_of_here). cbn [map]. unfold parse_pair.
  rewrite contains_byte, (Hplain ";"%char) by apply list_elem_of_further, list_elem_of_here.
  change (cut_at ("plan_id" +:+ "=" +:+ QueryEscape v) "=") with (Some ("plan_id", QueryEscape v)).
  change ("plan_id" +:+ "=" +:+ QueryEscape v =? "") with false.
  cbv beta iota delta [default id from_option]. change (QueryUnescape "plan_id") with (Some "plan_id").
  by rewrite query_roundtrip.
Qed.

(** *** The agent in front of the gateway *)

Section in_front.
Variable clock : nat → Z.
Variable fault : nat → option string.
Variable jsonb : json → json.
Variable pick : list approval_row → option approval_row.
Variable time_text : Z → string.
Variable time_parse : string → result Z.
Variable json_text : json → string.
Variable sv : Server.
Variable cfg : AuthConfig.
Variable VerifyPKCS1v15 : Z → Z → string → string → result unit.
Variable FetchJWKS : string → result (list JWK).
Variable gate_fault : nat → option string.
Variable dir : string.
Variable files : list string → file_read.
Variable context_service : option (list (option (result Snapshot))).
Variable checked : health.
Variable metrics : Response.
Variable page : endpoint → Request → Response.

#[local] Instance in_front_db : GatewayDB store :=
  request_db clock fault jsonb pick time_text time_parse.

Notation world := (gateway store).
Notation serve := (ServeHTTP clock fault jsonb pick time_text time_parse json_text sv cfg
  VerifyPKCS1v15 FetchJWKS gate_fault dir files context_service checked metrics page).

(** The transport: each request is served with what it meets, under its escaped path
    and with at most 1 MB of its body, and answered in text.  Redirections are not followed: the requests of the
    theorems are not redirected. *)
Variable meets : Request → exchange.
Variable text_of : Response → string.
Definition arriving (r : Request) : exchange :=
  let ex := meets r in
  mkExchange (EscapedPath (Path r)) (ex_text ex) (ex_values ex) (ex_hijack ex) (ex_flush ex)
    (ex_flusher ex) (ex_broken ex) (ex_events ex) (ex_lines ex) (ex_between ex) (ex_during ex)
    (ex_logs ex) (ex_now ex).
#[local] Instance gateway_transport : Transport world := {|
  http_do := λ r w, let '(resp, w') := serve (arriving r) (over_the_wire r) w in (Ok (Status resp, text_of resp), w') |}.

(** Only the audit log may differ. *)
Definition unchanged_but_audit (w w' : world) : Prop := core_of (g_db w') = core_of (g_db w).

(** A handler that refuses whoever asks makes the request refused. *)
Lemma refused_endpoint ex r w rt :
  findHandler registerRoutes (Method r) (Path r) (ex_escaped ex) = Found rt →
  rt_endpoint rt ∉ open_endpoints →
  (∀ actor, let '(resp, w') := call_endpoint clock fault jsonb pick time_text time_parse json_text sv
       gate_fault dir files context_service checked metrics page ex (rt_endpoint rt) actor r w in
     refused resp ∧ unchanged_but_audit w w') →
  let '(resp, w') := serve ex r w in refused resp ∧ unchanged_but_audit w w'.
Proof.
  intros Hf Hopen Hrun.
  destruct (serve_outcomes clock fault jsonb pick time_text time_parse json_text sv cfg VerifyPKCS1v15
    FetchJWKS gate_fault dir files context_service checked metrics page ex r w)
    as [(resp & -> & H)|(rt' & Hf' & [[He _]|(claims & _ & _ & ->)])].
  - split; [|done]. destruct H as [->|[(u & Hm & _)| ->]]; [by vm_compute|congruence|by vm_compute].
  - congruence.
  - rewrite Hf in Hf'. injection Hf' as <-. apply Hrun.
Qed.

#[local] Instance in_front_core : ReadFrame core_of := store_core clock fault jsonb pick time_text time_parse.

(** POST /v1/plans without a tenant and an environment. *)
Lemma contextless_plan_refused r w j req :
  Method r = "POST" → Path r = "/v1/plans" → Body r = doc_json j →
  decode_plan_request j = Ok req → is_ok (validateContextRefMinimal (rq_Context req)) = false →
  let '(resp, w') := serve (arriving r) (over_the_wire r) w in refused resp ∧ unchanged_but_audit w w'.
Proof.
  intros Hm Hp Hb Hd Hc.
  apply (refused_endpoint _ _ _ (write_route "/v1/plans" PlansRoot)).
  { cbn [over_the_wire Method Path]. rewrite Hm. unfold arriving. cbn [ex_escaped]. rewrite Hp. reflexivity. }
  { unfold open_endpoints. cbn. rewrite !elem_of_cons. intros [|[|[|?%elem_of_nil]]]; done. }
  intros actor. unfold call_endpoint. cbn [endpoint_handler rt_endpoint write_route].
  set (cc := mkCall_ (over_the_wire r) actor).
  match goal with |- let '(_, _) := run_handler ?m w in _ =>
    enough (H : let Q := λ resp w', refused resp ∧ unchanged_but_audit w w' in wp m Q Q w)
      by (cbn zeta in H; apply wp_run in H; by destruct (run_handler m w)) end.
  cbn zeta. unfold handlePlans. cbn [cc_req cc over_the_wire Method]. rewrite Hm. cbn [String.eqb Ascii.eqb Bool.eqb].
  apply wp_bind, wp_return_if; split; intros Hdb; [split; [by vm_compute|done]|].
  unfold createPlan. apply wp_bind, (wp_session core_of). intros session w1 Hw1.
  apply wp_bind, wp_or_return; split; [intros sid _|intros e _; apply wp_return; split; [by vm_compute|done]].
  cbn [cc_req cc over_the_wire Body]. rewrite Hb. unfold MaxBytesReader.
  destruct (maxRequestBody <? _)%Z; cbn [unmarshal mbind result_bind].
  { apply wp_bind, wp_or_return; split; [done|]. intros e _. apply wp_return. split; [by vm_compute|done]. }
  rewrite Hd. apply wp_bind, wp_or_return; split; [|done]. intros req' [= <-].
  apply wp_bind, wp_or_return; split; [intros u Hu; by rewrite Hu in Hc|intros e _].
  apply (wp_deny core_of). intros w2 Hw2. split; [by vm_compute|]. unfold unchanged_but_audit.
  unfold same in Hw1, Hw2. congruence.
Qed.

(** GET /v1/audit/events without a tenant. *)
Lemma tenantless_audit_refused r w :
  Method r = "GET" → Path r = "/v1/audit/events" → Query r "tenant_id" = "" →
  Header r "X-Tenant-Id" = "" →
  let '(resp, w') := serve (arriving r) (over_the_wire r) w in refused resp ∧ unchanged_but_audit w w'.
Proof.
  intros Hm Hp Hq Hh.
  eapply (refused_endpoint _ _ _ (mkRoute "/v1/audit/events" AuditEvents _ _)).
  { cbn [over_the_wire Method Path]. rewrite Hm. unfold arriving. cbn [ex_escaped]. rewrite Hp. reflexivity. }
  { unfold open_endpoints. cbn. rewrite !elem_of_cons. intros [|[|[|?%elem_of_nil]]]; done. }
  intros actor. unfold call_endpoint. cbn [endpoint_handler rt_endpoint].
  set (cc := mkCall_ (over_the_wire r) actor).
  match goal with |- let '(_, _) := run_handler ?m w in _ =>
    enough (H : let Q := λ resp w', refused resp ∧ unchanged_but_audit w w' in wp m Q Q w)
      by (cbn zeta in H; apply wp_run in H; by destruct (run_handler m w)) end.
  cbn zeta. unfold handleAuditEvents. cbn [cc_req cc over_the_wire Method Query Header]. rewrite Hm.
  apply wp_bind, wp_return_if; split; [done|intros _].
  apply wp_bind, wp_return_if; split; intros Hdb; [split; [by vm_compute|done]|].
  apply wp_bind, wp_or_return; split; [intros f Hf|intros e _; apply wp_return; split; [by vm_compute|done]].
  assert (af_TenantID f = "") as ->.
  { revert Hf. unfold parseAuditFilter. intros (from & _ & H)%bind_Ok. apply bind_Ok in H as (to & _ & H).
    destruct (parsePagination _). injection H as <-. cbn. by rewrite Hq. }
  rewrite Hh. apply wp_bind, wp_or_return; split; [done|]. intros e _. apply wp_return.
  split; [by vm_compute|done].
Qed.

(** The agent's client of this gateway, with whatever token. *)
Variable token : string.
Definition agent_client : GatewayClient world := http_gateway_client (mkGatewayClient (Ok "") token).

(** A request the gateway refuses is an error of the client. *)
Lemma request_refused method path req data w :
  (match req with Some v => j ← marshal v; Ok (doc_json j) | None => Ok doc_empty end) = Ok data →
  let '(path', rawQuery) := default (path, "") (cut_at path "?") in
  let r := mkReq method path' (values_get (ParseQuery rawQuery).1)
    (client_headers (mkGatewayClient (Ok "") token) (match req with Some _ => true | None => false end)) data in
  (let '(resp, w') := serve (arriving r) (over_the_wire r) w in refused resp ∧ unchanged_but_audit w w') →
  let '(out, w') := doRequest (mkGatewayClient (Ok "") token) method path req w in
  is_ok out = false ∧ unchanged_but_audit w w'.
Proof.
  intros Hd. unfold doRequest. rewrite Hd. cbn [mbind result_bind gc_Base].
  destruct (default (path, "") (cut_at path "?")) as [path' rawQuery]. cbv zeta.
  change (trim_suffix "" "/" +:+ path') with path'. cbn [http_do gateway_transport].
  destruct (serve _ _ w) as [resp w']. intros [Hr Hw].
  unfold refused in Hr. destruct (Z.leb_spec 300 (Status resp)); [|lia].
  by rewrite orb_true_r.
Qed.

(** C19: two of the agent's four commands can never work.  The plan command sends no
    context and the gateway wants a tenant and an environment; the audit command
    names no tenant: in every state, whatever the text and the token, the gateway
    refuses the request and the agent answers 400, with at most an audit event
    written. *)
Theorem slack_plan_and_audit_refused (text : string) (w : world) :
  let run := λ m, run_handler m w in
  (let '(resp, w') := run (@handlePlan world agent_client text) in
   Status resp = 400%Z ∧ unchanged_but_audit w w') ∧
  (let '(resp, w') := run (@handleAudit world agent_client text) in
   Status resp = 400%Z ∧ unchanged_but_audit w w').
Proof.
  cbv zeta. split.
  - unfold handlePlan, run_handler, return_if. cbv [mbind handler_bind call error_or or_return return_ mret handler_ret].
    destruct (text =? ""); [done|]. cbn [cl_CreatePlan agent_client http_gateway_client].
    unfold client_CreatePlan, doJSON. set (req := mkPlanReq _ _ _ _ _ _).
    assert (∃ j, marshal (plan_request_any req) = Ok j ∧
      ∃ req', decode_plan_request j = Ok req' ∧ rq_Context req' = empty_ref) as (j & Hj & req' & Hd & Hc).
    { eexists. split; [reflexivity|]. eexists. split; reflexivity. }
    pose proof (request_refused "POST" "/v1/plans" (Some (plan_request_any req)) (doc_json j) w) as H.
    specialize (H ltac:(cbv beta iota; by rewrite Hj)). cbv zeta in H.
    change (default ("/v1/plans", "") (cut_at "/v1/plans" "?")) with ("/v1/plans", "") in H. cbv beta iota in H.
    specialize (H (contextless_plan_refused
      (mkReq "POST" "/v1/plans" _ _ (doc_json j)) w j req' eq_refl eq_refl eq_refl Hd ltac:(by rewrite Hc))).
    destruct (doRequest _ _ _ _ w) as [[out|e] w']; destruct H as [Ho Hw]; [done|]. by split.
  - unfold handleAudit, run_handler. cbv [mbind handler_bind call error_or or_return return_ mret handler_ret].
    cbn [cl_ListAudit agent_client http_gateway_client]. unfold client_ListAudit.
    set (path := match _ with [] => _ | _ => _ end).
    pose proof (request_refused "GET" path None doc_empty w eq_refl) as H.
    assert (∃ raw, default (path, "") (cut_at path "?") = ("/v1/audit/events", raw) ∧
      values_get (ParseQuery raw).1 "tenant_id" = "") as (raw & Hp & Hq).
    { subst path. destruct (text =? ""); [exists ""; split; reflexivity|].
      exists (encode_values [("plan_id", text)]). split; [reflexivity|]. by rewrite parse_plan_query. }
    rewrite Hp in H. cbv beta iota zeta in H.
    specialize (H (tenantless_audit_refused
      (mkReq "GET" "/v1/audit/events" (values_get (ParseQuery raw).1) _ doc_empty) w eq_refl eq_refl Hq eq_refl)).
    destruct (doRequest _ _ _ _ w) as [[out|e] w']; destruct H as [Ho Hw]; [done|]. by split.
Qed.
End in_front.

(** *** Runs *)

(** A gateway that answers, and what it was asked. *)
Definition noting : GatewayClient (list string) := {|
  cl_CreatePlan := λ req w, (Ok "plan_1", w ++ ["plan " +:+ rq_Intent req]);
  cl_CreateApproval := λ p st _ w, (Ok tt, w ++ ["approval " +:+ p +:+ " " +:+ st]);
  cl_GetExecution := λ id w, (Ok "running", w ++ ["execution " +:+ id]);
  cl_ListAudit := λ _ w, (Ok "[]", w ++ ["audit"]) |}.

Definition signed_headers (ts body : string) (name : string) : string :=
  if name =? "X-Slack-Request-Timestamp" then ts
  else if name =? "X-Slack-Signature" then signature_of "secret" ts body else "".
Definition ask_agent (now : Z) (ts body : string) : Response * list string :=
  run_handler (@slack_ServeHTTP _ noting (mkSlack "secret" true) now "POST" (signed_headers ts body) (Ok body)) [].

Example agent_approves :
  ask_agent 1700000000 "1700000120" "command=%2Fops&text=+approve+plan_7++"
  = (writeText "approval approved: plan_7", ["approval plan_7 approved"]).
Proof. vm_compute. reflexivity. Qed.
Example agent_stale : ask_agent 1700000000 "1699999699" "text=approve+plan_7" = (unauthorized, []).
Proof. vm_compute. reflexivity. Qed.

Lemma slack_calls_are_signed_witness :
  ∃ text ts parsed values, Ok "text=status+exec_1" = Ok text ∧ ts = "1700000000" ∧ Atoi ts = Ok parsed ∧
    fresh_at 1700000000 parsed ∧
    signed_headers "1700000000" "text=status+exec_1" "X-Slack-Signature" = signature_of "secret" ts text ∧
    ParseQuery text = (values, true) ∧
    ask_agent 1700000000 "1700000000" "text=status+exec_1"
    = run_handler (@slack_command _ noting (values_get values "text")) [].
Proof.
  pose proof (@slack_calls_are_signed _ noting (mkSlack "secret" true) 1700000000 "POST"
    (signed_headers "1700000000" "text=status+exec_1") (Ok "text=status+exec_1") [] ltac:(lia)) as H.
  unfold ask_agent. destruct (run_handler (slack_ServeHTTP _ _ _ _ _) []) as [resp w'] eqn:E.
  destruct H as [[Hw _]|(_ & _ & H)]; [|exact H].
  exfalso. revert E. rewrite Hw. vm_compute. discriminate.
Defined.

(** A signed request of 2^63 seconds ago is taken for a fresh one: the difference of
    the times wraps around. *)
Theorem overflowed_timestamp_accepted :
  Atoi "-9223372035154775808" = Ok (1700000000 - 2 ^ 63)%Z ∧
  ask_agent 1700000000 "-9223372035154775808" "text=approve+plan_7"
  = (writeText "approval approved: plan_7", ["approval plan_7 approved"]).
Proof. split; vm_compute; reflexivity. Qed.
