(* ===== verification/Serving.v ===== *)
(** * Serving: the gateway's listeners and what it does when it starts

    cmd/gateway/main.go: the main listener, which counts requests through the
    middleware of internal/metrics/metrics.go, the plain listener of WSAddr, and
    seedWorkflowCatalog.  Prometheus is the counters it is asked to raise. *)

From S2P Require Import Prelude GoStrings Json Digest ContextRef Steps Policy Constraints Hubs Http Auth.
From S2P Require Import Shelves Store Library LibraryLaws EventGate Gateway Plans Registry Graph.
From S2P Require Import Hooks Templates Catalogue Admin Streams Requests Routes.

Local Open Scope string_scope.
Local Open Scope list_scope.

(** ** internal/metrics *)

(** The text up to the second slash; [segments] have been passed. *)
Fixpoint two_segments (segments : nat) (p : string) : string :=
  match p with
  | "" => ""
  | String c p' =>
      if Ascii.eqb c slash then
        if (2 <=? Datatypes.S segments)%nat then "" else String c (two_segments (Datatypes.S segments) p')
      else String c (two_segments segments p')
  end.

Definition normalizePath (p : string) : string :=
  if (p =? "") || (p =? "/") then "/"
  else if mem p ["/healthz"; "/readyz"; "/metrics"] then p
  else match p with "" => "" | String c p' => String c (two_segments 0 p') end.

Example normalize_plan : normalizePath "/v1/plans/abc123/diff" = "/v1/plans".
Proof. reflexivity. Qed.

(** HTTPRequestsTotal, by method, path and status code. *)
Definition totals : Type := gmap (string * string * string) nat.
Definition count_request (key : string * string * string) (m : totals) : totals :=
  <[key := Datatypes.S (default O (m !! key))]> m.

(** The response writer of the middleware has neither Flush nor Hijack. *)
Definition plain_writer (ex : exchange) : exchange :=
  mkExchange (ex_escaped ex) (ex_text ex) (ex_values ex) None (ex_flush ex) false (ex_broken ex)
    (ex_events ex) (ex_lines ex) (ex_between ex) (ex_during ex) (ex_logs ex) (ex_now ex).

(** A handler that panics is not counted. *)
Definition Middleware {W} (next : exchange → Request → W → Response * W)
    (ex : exchange) (r : Request) (w : W) (m : totals) : Response * W * totals :=
  let '(resp, w') := next (plain_writer ex) r w in
  (resp, w', if (Status resp =? 0)%Z then m
             else count_request (Method r, normalizePath (Path r), itoa (Status resp)) m).

(** ** seedWorkflowCatalog *)

Definition object_name (x : json) : option string :=
  match x with
  | JObj fs => match last (List.filter (λ f, f.1 =? "name") fs) with
               | Some (_, JStr name) => if name =? "" then None else Some name
               | _ => None
               end
  | _ => None
  end.

(** The names in the catalogue; what is no list of objects names nothing. *)
Definition listed_names (payload : json) : list string :=
  match payload with JArr items => omap object_name items | _ => [] end.

Section seed.
Context {S : Type} `{!LibraryDB S}.

Definition seed_any (t : WorkflowTemplate) : any :=
  AMap (amap [("name", AStr (wt_Name t)); ("version", AInt 1);
              ("spec", AMap (WorkflowSpecFromTemplate t))]).

(** A version 1 of every built-in workflow that is not [seen]; errors are logged
    and passed over. *)
Fixpoint seed_templates (seen : list string) (l : list WorkflowTemplate) (s : S) : S :=
  match l with
  | [] => s
  | t :: rest =>
      if mem (wt_Name t) seen then seed_templates seen rest s
      else match marshal (seed_any t) with
           | Ok data => seed_templates seen rest (lib_CreateWorkflowCatalog (doc_json data) s).2
           | Err _ => seed_templates seen rest s
           end
  end.

Definition seedWorkflowCatalog (s : S) : S :=
  let '(page, s') := lib_ListWorkflowCatalog 200 0 s in
  match page with
  | Ok (payload, _) => seed_templates (listed_names payload) workflowCatalog s'
  | Err _ => s'
  end.
End seed.

(** ** The listeners *)

Section serving.
Variable clock : nat → Z.
Variable fault : nat → option string.
Variable jsonb : json → json.
Variable pick : list approval_row → option approval_row.
Variable time_text : Z → string.
Variable time_parse : string → result Z.
Variable json_text : json → string.
Variable sv : Server.
Variable cfg : AuthConfig.
Variable VerifyPKCS1v15 : Z → Z → string → string → result unit.
Variable FetchJWKS : string → result (list JWK).
Variable gate_fault : nat → option string.
Variable dir : string.
Variable files : list string → file_read.
Variable context_service : option (list (option (result Snapshot))).
Variable checked : health.
Variable metrics : Response.
Variable page : endpoint → Request → Response.

Notation mux := (ServeHTTP clock fault jsonb pick time_text time_parse json_text sv cfg
  VerifyPKCS1v15 FetchJWKS gate_fault dir files context_service checked metrics page).

(** The listener of HTTPAddr and the one of WSAddr. *)
Definition mainSrv (ex : exchange) (r : Request) (w : gateway store) (m : totals) :
    Response * gateway store * totals := Middleware mux ex r w m.
Definition wsSrv (ex : exchange) (r : Request) (w : gateway store) : Response * gateway store := mux ex r w.

(** ** Theorems *)

(** *** Streams *)

(** A request for events, logs or a WebSocket. *)
Definition asks_for_stream (ex : exchange) (r : Request) : bool :=
  match findHandler registerRoutes (Method r) (Path r) (ex_escaped ex) with
  | Found rt =>
      match rt_endpoint rt with
      | WebSocket | EventStream => true
      | ExecutionByID => (Method r =? "GET") && has_suffix (Path r) "/logs"
      | _ => false
      end
  | _ => false
  end.

Let anything (s : store) : unit := tt.
#[local] Instance serving_db : GatewayDB store :=
  request_db clock fault jsonb pick time_text time_parse.
#[local] Instance serving_frame : ReadFrame anything.
Proof. split; intros; red; repeat case_match; done. Qed.

Lemma refused_error msg st : (400 ≤ st)%Z → refused (http_error msg st).
Proof. done. Qed.
#[local] Hint Resolve refused_error : core.

Notation turned_away m w := (wp m (λ r _, refused r) (λ r _, refused r) w).

Lemma ws_refused cc values flush broken received w :
  turned_away (handleWS sv cc values None flush broken received) w.
Proof.
  apply wp_bind, wp_return_if. split; intros _; [done|].
  apply wp_bind, wp_stream_session; [|by intros; apply refused_error]. intros w1 _. unfold ws_stream.
  apply wp_bind, wp_or_return. split; intros h H; [done|]. by apply wp_return, refused_error.
Qed.

Lemma events_refused cc received w : turned_away (handleEventsSSE sv cc false received) w.
Proof.
  apply wp_bind, wp_return_if. split; intros _; [done|].
  apply wp_bind, wp_stream_session; [|by intros; apply refused_error]. intros w1 _.
  apply wp_bind, wp_return_if. split; [|done]. intros _. by apply refused_error.
Qed.

Lemma logs_refused cc lines between during hub id w :
  turned_away (handleExecutionLogs (S := store) sv cc false lines between during hub id) w.
Proof.
  do 2 (apply wp_bind, wp_return_if; split; [by intros _|]; intros _).
  apply wp_bind, wp_return_if. split; [|done]. intros _. by apply refused_error.
Qed.

(** The check before a log is streamed turns away or goes on. *)
Lemma wp_check_logs cc id (Q : unit → gateway store → Prop) w :
  (∀ w', Q tt w') → wp (check_logs sv cc id) Q (λ r _, refused r) w.
Proof.
  intros HQ. unfold check_logs. destruct (negb _); [by apply wp_ret|].
  apply wp_bind, wp_on_db. destruct (fst _) as [[j|]|]; try by apply wp_ret.
  apply (wp_check_plan_of anything); [by intros|by intros; apply refused_error].
Qed.

(** On the main listener no stream is ever opened: its middleware wraps the
    connection in a writer that can neither flush nor be taken over, so every
    request for events, for the log of an execution or for a WebSocket is
    refused, whoever sends it. *)
Theorem main_listener_never_streams ex r w m :
  asks_for_stream ex r = true → refused (mainSrv ex r w m).1.1.
Proof.
  unfold asks_for_stream, mainSrv, Middleware. intros Hask.
  destruct (serve_outcomes clock fault jsonb pick time_text time_parse json_text sv cfg
    VerifyPKCS1v15 FetchJWKS gate_fault dir files context_service checked metrics page
    (plain_writer ex) r w) as [(resp & -> & H)|(rt & Hf & H)]; cbn [ex_escaped plain_writer] in *.
  - destruct H as [->|[(u & Hm & _)| ->]]; [done| |done]. by rewrite Hm in Hask.
  - rewrite Hf in Hask.
    assert (Hin : ∀ actor, turned_away (endpoint_handler clock fault jsonb pick time_text time_parse
      json_text sv gate_fault dir files context_service checked metrics page (plain_writer ex)
      (rt_endpoint rt) (mkCall_ r actor)) w).
    { intros actor. destruct (rt_endpoint rt); try done; cbn [endpoint_handler ex_hijack ex_flusher plain_writer].
      - unfold handleExecutionByID. cbn [cc_req]. rewrite Hask.
        apply wp_bind, wp_check_logs. intros w1. apply logs_refused.
      - apply ws_refused.
      - apply events_refused. }
    destruct H as [[_ ->]|(claims & _ & _ & ->)]; unfold call_endpoint;
      [specialize (Hin None)|specialize (Hin (Some (actor_of claims)))];
      apply wp_run in Hin; by destruct (run_handler _ w).
Qed.
End serving.

(** *** The two listeners side by side *)

(** A token of the development mode: no signature is asked for. *)
Definition dev_headers (name : string) : string :=
  if name =? "Authorization" then "Bearer eyJhbGciOiJub25lIn0.eyJzdWIiOiJhZGEifQ.x"
  else if name =? "Upgrade" then "websocket"
  else if name =? "Sec-WebSocket-Key" then "dGhlIHNhbXBsZSBub25jZQ==" else "".
Definition ws_request : Request := mkReq "GET" "/v1/ws" (λ _, "") dev_headers doc_empty.
Definition ws_exchange : exchange :=
  mkExchange "/v1/ws" "" (λ name, if name =? "Connection" then ["keep-alive, Upgrade"] else [])
    (Some (Ok tt)) (Ok tt) true (λ _, false) [] [] id id NewLogHub 0.
Definition dev_config : AuthConfig := mkAuthConfig "" "" "" true "".

Notation demo_of serve := (serve tick_clock no_fault same_json last demo_time time_error print_json
  (demo_server (Some allow_all) None) dev_config (λ _ _ _ _, Ok tt) (λ _, Err "no keys") no_fault
  "" (λ _, NotExist) None (mkHealth true None None None) not_found (λ _ _, not_found)) (only parsing).

Lemma main_listener_never_streams_witness :
  refused (demo_of mainSrv ws_exchange ws_request gateway0 ∅).1.1 ∧
  Status (demo_of mainSrv ws_exchange ws_request gateway0 ∅).1.1 = 500%Z ∧
  Status (demo_of wsSrv ws_exchange ws_request gateway0).1 = 101%Z.
Proof.
  split; [|by vm_compute]. apply main_listener_never_streams. reflexivity.
Defined.

(** *** The seeded catalogue *)

Section seeding.
Variable clock : nat → Z.
Variable fault : nat → option string.
Variable jsonb : json → json.
Variable time_text : Z → string.
Variable json_text : json → string.
#[local] Instance seeded_library : LibraryDB store :=
  store_library clock fault jsonb time_text json_text.

Notation catalogue_of s := (workflow_catalog (shelf (tabs s))).

(** The row a template is seeded as. *)
Definition seed_row (t : WorkflowTemplate) (row : workflow_row) : Prop :=
  wf_tenant row = None ∧ wf_name row = wt_Name t ∧ wf_version row = 1%Z ∧
  wf_spec row = jsonb (JObj [("description", JStr (wt_Description t)); ("name", JStr (wt_Name t));
                             ("risk", JStr (wt_Risk t))]).

(** Everything but the catalogue of workflows. *)
Definition besides_workflows (t : tables) : tables := set_shelf (set_workflows (λ _, [])) t.

Lemma create_seed t s :
  t ∈ workflowCatalog →
  ∃ data, marshal (seed_any t) = Ok data ∧
  let '(r, s') := CreateWorkflowCatalog clock fault jsonb (doc_json data) s in
  ticks s' = (ticks s + 2)%nat ∧
  besides_workflows (tabs s') = besides_workflows (tabs s) ∧
  ((catalogue_of s' = catalogue_of s ∧
    (fault (stmts s) = None → existsb (same_workflow (mkWorkflow ("workflow_" +:+ itoa (clock (ticks s)))
       None (wt_Name t) 1 JNull 0)) (catalogue_of s) = true)) ∨
   ∃ row, catalogue_of s' = catalogue_of s ++ [row] ∧ seed_row t row ∧
          wf_id row = "workflow_" +:+ itoa (clock (ticks s))).
Proof.
  intros Ht. unfold workflowCatalog in Ht. rewrite !elem_of_cons, elem_of_nil in Ht.
  destruct Ht as [->|[->|[->|[->|[->|[]]]]]]; eexists; (split; [by vm_compute|]);
    unfold CreateWorkflowCatalog;
    (match goal with |- context [db_lift ?m] => let v := eval vm_compute in m in change m with v end);
    unfold insert_unique, newID, time_now, stmt, db_read, db_check, db_write, db_lift, mbind, db_bind;
    cbn -[itoa existsb]; change (check (int4 1) out_of_range) with (Ok tt); cbn -[itoa existsb];
    (destruct (fault (stmts s)); cbn -[itoa existsb];
     [split_and!; [lia|done|by left; split; [|intros [=]]]|]);
    match goal with |- context [existsb ?f ?l] => destruct (existsb f l) eqn:E end;
    cbn -[itoa existsb]; (split; [lia|]); (split; [done|]).
  all: first [left; split; [done|intros _; exact E] | right; eexists; by split_and!].
Qed.

(** The clock never reads the same twice, and no row has an id it is yet to make. *)
Definition ids_fresh (s : store) : Prop :=
  (∀ n m, clock n = clock m → n = m) ∧
  ∀ n, (ticks s ≤ n)%nat → "workflow_" +:+ itoa (clock n) ∉ wf_id <$> catalogue_of s.

Lemma ids_fresh_later s s' row :
  ids_fresh s → ticks s' = (ticks s + 2)%nat → wf_id row = "workflow_" +:+ itoa (clock (ticks s)) →
  catalogue_of s' = catalogue_of s ∨ catalogue_of s' = catalogue_of s ++ [row] → ids_fresh s'.
Proof.
  intros [Hinj Hf] Ht Hid Hc. split; [done|]. intros n Hn. rewrite Ht in Hn.
  destruct Hc as [-> | ->]; [apply Hf; lia|].
  rewrite fmap_app, elem_of_app. intros [H|H]; [by apply (Hf n) in H; [|lia]|].
  apply list_elem_of_singleton in H. rewrite Hid in H.
  apply (inj (String.append "workflow_")), itoa_inj, Hinj in H. lia.
Qed.

Lemma seed_templates_spec seen l s :
  l ⊆ workflowCatalog →
  let s' := seed_templates seen l s in
  besides_workflows (tabs s') = besides_workflows (tabs s) ∧
  (∃ new, catalogue_of s' = catalogue_of s ++ new ∧
     (∀ row, row ∈ new → ∃ t, t ∈ l ∧ wt_Name t ∉ seen ∧ seed_row t row) ∧
     (wf_name <$> new) `sublist_of` (wt_Name <$> l)) ∧
  ((∀ n, fault n = None) → ids_fresh s →
   ∀ t, t ∈ l → wt_Name t ∈ seen ∨ wt_Name t ∈ wf_name <$> catalogue_of s').
Proof.
  revert s. induction l as [|t l IH]; intros s Hl; cbn [seed_templates].
  { split; [done|]. split; [exists []; rewrite app_nil_r; set_solver|]. set_solver. }
  destruct (mem (wt_Name t) seen) eqn:Hm.
  - apply mem_spec in Hm. destruct (IH s ltac:(set_solver)) as (Hb & (new & Hc & Hnew & Hsub) & Hall).
    assert (Hw : ∀ row, row ∈ new → ∃ t', t' ∈ t :: l ∧ wt_Name t' ∉ seen ∧ seed_row t' row).
    { intros row Hr. destruct (Hnew row Hr) as (t' & ? & ?). exists t'.
      split; [by apply list_elem_of_further|done]. }
    split; [done|]. split; [exists new; split; [done|by split; [|constructor]]|].
    intros Hok Hf t' [->|Hin]%elem_of_cons; [by left|by apply Hall].
  - apply mem_false in Hm. destruct (create_seed t s ltac:(set_solver)) as (data & -> & H).
    change (lib_CreateWorkflowCatalog (doc_json data) s)
      with (CreateWorkflowCatalog clock fault jsonb (doc_json data) s).
    destruct (CreateWorkflowCatalog _ _ _ _ s) as [r s1]. cbn [snd].
    destruct H as (Ht & Hb1 & Hrow).
    destruct (IH s1 ltac:(set_solver)) as (Hb & (new & Hc & Hnew & Hsub) & Hall).
    assert (Hw : ∀ row, row ∈ new → ∃ t', t' ∈ t :: l ∧ wt_Name t' ∉ seen ∧ seed_row t' row).
    { intros row Hr. destruct (Hnew row Hr) as (t' & ? & ?). exists t'.
      split; [by apply list_elem_of_further|done]. }
    split; [by rewrite Hb|]. split.
    + destruct Hrow as [[Hsame _]|(row & Hadd & Hseed & _)].
      * exists new. rewrite Hc, Hsame. split; [done|]. by split; [|constructor].
      * exists (row :: new). rewrite Hc, Hadd, <- (assoc_L (++)). split; [done|].
        split; [|by cbn; destruct Hseed as (_ & -> & _); constructor].
        intros row' [->|Hr]%elem_of_cons; [|by apply Hw].
        exists t. by split; [apply list_elem_of_here|].
    + intros Hok Hf t' [->|Hin]%elem_of_cons.
      2: { apply Hall; [done| |done]. destruct Hrow as [[Hsame _]|(row & Hadd & _ & Hid)];
             [|by eapply ids_fresh_later; eauto].
           split; [apply Hf|]. intros n Hn. rewrite Hsame. apply Hf. lia. }
      right. rewrite Hc, fmap_app, elem_of_app. left.
      destruct Hrow as [[-> Hdup]|(row & -> & (_ & <- & _) & _)];
        [|rewrite fmap_app, elem_of_app; right; apply list_elem_of_here].
      specialize (Hdup (Hok _)). apply existsb_exists in Hdup as (old & Hold%list_elem_of_In & Hsw).
      unfold same_workflow in Hsw. cbn -[itoa] in Hsw. apply orb_prop in Hsw as [Hid|Hname].
      * apply String.eqb_eq in Hid. destruct Hf as [_ Hf]. destruct (Hf (ticks s)); [lia|].
        rewrite <- Hid. by apply list_elem_of_fmap_2.
      * bool_hyps. rewrite <- H. by apply list_elem_of_fmap_2.
Qed.

Lemma listed_are_stored payload total s :
  (ListWorkflowCatalog fault time_text 200 0 s).1 = Ok (payload, total) →
  ∀ name, name ∈ listed_names payload → name ∈ wf_name <$> catalogue_of s.
Proof.
  unfold ListWorkflowCatalog, list_shelf. destruct (clampPagination 200 0) as [limit offset].
  unfold stmt, db_read, mbind, db_bind. destruct (fault (stmts s)); cbn; [done|].
  intros [= <- _] name Hin. unfold listed_names in Hin.
  apply list_elem_of_omap in Hin as (x & Hx & Hn).
  apply list_elem_of_fmap in Hx as (row & -> & Hrow). apply page_in in Hrow.
  rewrite order_by_Permutation in Hrow. apply list_elem_of_fmap. exists row. split; [|done].
  cbn in Hn. by case_match; simplify_eq.
Qed.

(** Starting the gateway adds to the catalogue of workflows, and to nothing
    else, a version 1 without a tenant of built-in workflows that it does not
    list, each once; and when no statement fails and no id is made twice, every
    built-in workflow is in the catalogue afterwards. *)
Theorem seedWorkflowCatalog_spec s :
  let s' := seedWorkflowCatalog s in
  besides_workflows (tabs s') = besides_workflows (tabs s) ∧
  (∃ new, catalogue_of s' = catalogue_of s ++ new ∧
     (∀ row, row ∈ new → ∃ t, t ∈ workflowCatalog ∧ seed_row t row) ∧
     (wf_name <$> new) `sublist_of` (wt_Name <$> workflowCatalog)) ∧
  ((∀ n, fault n = None) → ids_fresh s →
   ∀ t, t ∈ workflowCatalog → wt_Name t ∈ wf_name <$> catalogue_of s').
Proof.
  unfold seedWorkflowCatalog. cbn [lib_ListWorkflowCatalog seeded_library store_library].
  pose proof (λ payload total, listed_are_stored payload total s) as Hlisted.
  assert (Hread : let '(r, s1) := ListWorkflowCatalog fault time_text 200 0 s in
    tabs s1 = tabs s ∧ ticks s1 = ticks s ∧ (fault (stmts s) = None → ∃ page, r = Ok page)).
  { unfold ListWorkflowCatalog, list_shelf. destruct (clampPagination 200 0) as [limit offset].
    unfold stmt, db_read, mbind, db_bind. by destruct (fault (stmts s)); cbn; split_and!; eauto. }
  destruct (ListWorkflowCatalog fault time_text 200 0 s) as [[[payload total]|e] s1] eqn:E;
    destruct Hread as (Ht & Hk & Hok).
  2: { split; [by rewrite Ht|]. split; [exists []; rewrite Ht, app_nil_r; split; [done|]; split; [by intros ? ?%elem_of_nil|apply sublist_nil_l]|].
       intros Hn. destruct (Hok (Hn _)) as [? [=]]. }
  destruct (seed_templates_spec (listed_names payload) workflowCatalog s1 ltac:(done))
    as (Hb & (new & Hc & Hnew & Hsub) & Hall).
  split; [by rewrite Hb, Ht|]. split.
  - exists new. rewrite Hc, Ht. split; [done|]. split; [|done].
    intros row Hr. destruct (Hnew row Hr) as (t & ? & _ & ?). by exists t.
  - intros Hn Hf t Hin. assert (Hf1 : ids_fresh s1) by (destruct Hf; split; [done|]; by rewrite Ht, Hk).
    destruct (Hall Hn Hf1 t Hin) as [Hl|]; [|done].
    rewrite Hc, fmap_app, elem_of_app. left. rewrite Ht.
    by eapply Hlisted.
Qed.
End seeding.
