(* ===== verification/RouterServer.v ===== *)
(** * RouterServer: the tool router's HTTP server

    Server.ServeHTTP of internal/tools/tool_router_server.go with the handlers beside
    handleExecute (which ToolRouter has), and what they list from the workspace
    (resources.go, resources_loader.go).  A file is what reading it answers.  What a log
    stream receives from its subscription is an argument, as in Streams. *)

From S2P Require Import Prelude GoStrings Json ContextRef Steps Policy Hubs ToolCommands.
From S2P Require Import ToolValidate Sandbox Artifacts ToolApi Http Auth ToolRouter.
From S2P Require Import Streams Routes Serving.

Local Open Scope string_scope.
Local Open Scope list_scope.

(** ** The workspace's resources and prompts *)

Record Resource := mkResource { rs_Name : string; rs_Type : string; rs_URI : string }.
Record Prompt := mkPrompt { pm_Name : string; pm_Body : string }.
Record namedVersion := mkNamed { nv_Name : string; nv_Version : Z; nv_Service : string }.

Definition decode_named (j : json) : result namedVersion :=
  fs ← Json.members j;
  n ← fld_string "name" fs; v ← fld_int "version" fs; s ← fld_string "service" fs;
  Ok (mkNamed n v s).
Definition decode_prompt (j : json) : result Prompt :=
  fs ← Json.members j; n ← fld_string "name" fs; b ← fld_string "body" fs; Ok (mkPrompt n b).

(** json.Unmarshal into a slice; null leaves it nil. *)
Definition decode_slice {A} (dec : json → result A) (j : json) : result (list A) :=
  match j with
  | JNull => Ok []
  | JArr l => of_option json_error
                (opt_map (λ x, match dec x with Ok a => Some a | Err _ => None end) l)
  | _ => Err json_error
  end.

Section workspace.
Variable workspaceDir : string.
Variable read_file : string → result doc.

Definition memory_file (name : string) : string := filepath_Join [workspaceDir; "memory"; name].

(** The items of a file; none when it cannot be read or is something else. *)
Definition load_items {A} (dec : json → result A) (name : string) : list A :=
  match data ← read_file (memory_file name); j ← unmarshal data; decode_slice dec j with
  | Ok items => items
  | Err _ => []
  end.

Definition named_resource (kind label : string) (version : Z) : Resource :=
  mkResource label kind (kind +:+ "://" +:+ label +:+ "?version=" +:+ itoa version).

Definition loadRunbookResources : list Resource :=
  omap (λ item,
    let name := TrimSpace (nv_Name item) in
    if name =? "" then None
    else
      let service := TrimSpace (nv_Service item) in
      let label := if service =? "" then name else service +:+ "/" +:+ name in
      Some (named_resource "runbook" label (nv_Version item)))
    (load_items decode_named "runbooks.json").

Definition loadNamedResources (kind file : string) : list Resource :=
  omap (λ item,
    let name := TrimSpace (nv_Name item) in
    if name =? "" then None else Some (named_resource kind name (nv_Version item)))
    (load_items decode_named file).
Definition loadPlaybookResources : list Resource := loadNamedResources "playbook" "playbooks.json".
Definition loadWorkflowResources : list Resource := loadNamedResources "workflow" "workflows.json".

(** The slices that are sent: [None] is the nil one. *)
Definition ListResources : option (list Resource) :=
  if workspaceDir =? "" then Some []
  else match loadRunbookResources ++ loadPlaybookResources ++ loadWorkflowResources with
       | [] => None
       | l => Some l
       end.

(** A file that is read as the empty list gives an empty slice, not a nil one. *)
Definition loadPrompts : option (list Prompt) :=
  match data ← read_file (memory_file "prompts.json"); j ← unmarshal data;
        l ← decode_slice decode_prompt j; Ok (j, l) with
  | Ok (JNull, _) | Err _ => None
  | Ok (_, l) => Some l
  end.
Definition ListPrompts : option (list Prompt) :=
  if workspaceDir =? "" then Some [] else loadPrompts.

(** resolveResourceFile: the item of a file whose label the URI holds. *)
Definition resource_label (item : gmap string any) : string :=
  let text key := default "" (as_string (mget item key)) in
  let label := TrimSpace (text "name") in
  if blank (text "service") then label else TrimSpace (text "service") +:+ "/" +:+ label.

Definition resolveResourceFromList (file : result (option doc)) (uri : string) : result json :=
  data ← file;
  data ← of_option ErrInvalidArtifact data;
  j ← unmarshal data;
  items ← decode_maps j;
  item ← of_option ErrInvalidArtifact (List.find (λ item, contains uri (resource_label item)) items);
  marshal (AMap item).

Definition resolveResourceFile (read : string → result (option doc)) (uri : string) : result json :=
  let uri := TrimSpace uri in
  _ ← check (negb (uri =? "")) ErrInvalidArtifact;
  if has_prefix uri "runbook://" then resolveResourceFromList (read (memory_file "runbooks.json")) uri
  else if has_prefix uri "playbook://" then resolveResourceFromList (read (memory_file "playbooks.json")) uri
  else if has_prefix uri "workflow://" then resolveResourceFromList (read (memory_file "workflows.json")) uri
  else Err ErrUnsupportedArtifact.
End workspace.

(** ** The handlers *)

Definition tool_any (t : Tool) : any :=
  AStruct "Tool" [("Name", AStr (Name t)); ("CLI", AStr (CLI t)); ("SupportsAPI", ABool (SupportsAPI t))].
Definition resource_any (r : Resource) : any :=
  AStruct "Resource" [("name", AStr (rs_Name r)); ("type", AStr (rs_Type r)); ("uri", AStr (rs_URI r))].
Definition prompt_any (p : Prompt) : any :=
  AStruct "Prompt" [("name", AStr (pm_Name p)); ("body", AStr (pm_Body p))].
Definition slice_any {A} (type : string) (f : A → any) (l : option (list A)) : any :=
  match l with None => ANil | Some l => ASlice type (map f l) end.

Definition decode_artifact (j : json) : result ArtifactRef :=
  fs ← Json.members j;
  k ← fld_string "Kind" fs; r ← fld_string "Ref" fs; s ← fld_string "SHA" fs;
  Ok (mkArtifact k r s).
Definition decode_resolve_request (j : json) : result ArtifactRef :=
  fs ← Json.members j; fld (λ _ x, decode_artifact x) "artifact" (mkArtifact "" "" "") fs.

Definition not_found : Response := http_error "404 page not found" 404.

Section server.
Variable VerifyPKCS1v15 : Z → Z → string → string → result unit.
Variable FetchJWKS : string → result (list JWK).
Variable clock : Z.
Variable sys : system.
Variable url_hostname : string → option string.
Variable schemaFS : string → option string.
Variable gojsonschema : any → any → result (list string).
Variable redactor : option Redactor.
Variable now : list event → Z.
Variable visit : gmap string (list LogLine) → list string.
Variable workspaceDir : string.
Variable read_file : string → result doc.
Variable rfc3339 : Z → string.
Variable s : ToolServer.

Notation body := (handler world Response Response).

(** The method, and who asks. *)
Definition method_and_token (method : string) (r : Request) : handler world Response unit :=
  _ ← return_if (negb (Method r =? method)) StatusMethodNotAllowed;
  _ ← or_return (authenticate VerifyPKCS1v15 FetchJWKS clock (srv_Auth s) r) (λ _, return_ unauthorized);
  mret tt.

Definition handleListTools (r : Request) : body :=
  _ ← method_and_token "GET" r;
  mret (ok_json (AStruct "ListToolsResponse" [("tools", ASlice "Tool" (map tool_any Registry))])).

Definition handleListResources (r : Request) : body :=
  _ ← method_and_token "GET" r;
  mret (ok_json (AMap {["resources" := slice_any "Resource" resource_any (ListResources workspaceDir read_file)]})).

Definition handleListPrompts (r : Request) : body :=
  _ ← method_and_token "GET" r;
  mret (ok_json (AMap {["prompts" := slice_any "Prompt" prompt_any (ListPrompts workspaceDir read_file)]})).

Definition resolve_error (e : string) : Response :=
  http_error e (if e =? ErrNotImplemented then 501
                else if (e =? ErrUnsupportedArtifact) || (e =? ErrInvalidArtifact) then 400 else 500).

Definition handleResolveResource (r : Request) : body :=
  _ ← method_and_token "POST" r;
  ref ← or_return (j ← unmarshal (Body r); decode_resolve_request j)
          (λ _, return_ (http_error "invalid json" 400));
  data ← on_trace (run_handler (ResolveArtifact sys ref));
  data ← or_return data (λ e, return_ (resolve_error e));
  mret (ok_json (AStruct "ResolveResourceResponse" [("data", ABytes data)])).

Definition tool_line_any (l : LogLine) : any :=
  AStruct "LogLine"
    ([("tool_call_id", AStr (l_ToolCallID l))] ++
     (if l_ExecutionID l =? "" then [] else [("execution_id", AStr (l_ExecutionID l))]) ++
     [("tool", AStr (l_Tool l)); ("action", AStr (l_Action l)); ("level", AStr (l_Level l));
      ("message", AStr (l_Message l)); ("timestamp", AStr (rfc3339 (l_Timestamp l)))]).

(** writeLine for each line, until one cannot be marshalled. *)
Fixpoint write_tool_lines (lines : list LogLine) : string * bool :=
  match lines with
  | [] => ("", true)
  | l :: rest =>
      match marshal (tool_line_any l) with
      | Err _ => ("", false)
      | Ok payload =>
          let '(out, more) := write_tool_lines rest in
          (sse_frame "log" (print_json payload) +:+ out, more)
      end
  end.

Definition logHub (w : world) : LogHub LogLine := default NewLogHub (w_Logs w).
Definition with_logs (h : LogHub LogLine) (w : world) : world := mkWorld (Some h) (w_counter w) (w_trace w).

(** What the stream meets: the writer can flush; what its subscription receives; what
    others do to the hub before the subscription and during it. *)
Record log_stream := mkLogStream {
  st_flusher : bool; st_received : list LogLine;
  st_between : LogHub LogLine → LogHub LogLine; st_during : LogHub LogLine → LogHub LogLine }.

(** The router is there: Execute would not be without it. *)
Definition handleToolLogs (st : log_stream) (r : Request) : body :=
  _ ← method_and_token "GET" r;
  let toolCallID := TrimSpace (Query r "tool_call_id") in
  _ ← return_if (toolCallID =? "") (http_error "tool_call_id required" 400);
  _ ← return_if (negb (st_flusher st)) (http_error "stream unsupported" 500);
  hub ← call (λ w, (logHub w, with_logs (logHub w) w));
  let '(out, more) := write_tool_lines (History toolCallID hub) in
  if more then
    let '(id, hub) := lh_Subscribe toolCallID (st_between st hub) in
    _ ← effect (with_logs (lh_cancel toolCallID id (st_during st hub)));
    mret (mkResp 200 (Streamed (sse_open +:+ out +:+ (write_tool_lines (st_received st)).1)))
  else mret (mkResp 200 (Streamed (sse_open +:+ out))).

Definition tools_ServeHTTP (time : string) (st : log_stream) (r : Request) : body :=
  if mem (Path r) ["/"; "/v1/tools:execute"; "/execute"] then
    handleExecute VerifyPKCS1v15 FetchJWKS clock sys url_hostname schemaFS gojsonschema redactor now visit s time r
  else if mem (Path r) ["/v1/tools"; "/tools"] then handleListTools r
  else if mem (Path r) ["/v1/resources"; "/resources"] then handleListResources r
  else if mem (Path r) ["/v1/prompts"; "/prompts"] then handleListPrompts r
  else if mem (Path r) ["/v1/resources:resolve"; "/resources:resolve"] then handleResolveResource r
  else if mem (Path r) ["/v1/tools/logs"; "/tools/logs"] then handleToolLogs st r
  else mret not_found.

(** cmd/tool-router: the middleware's writer cannot flush. *)
Definition behind_middleware (st : log_stream) : log_stream :=
  mkLogStream false (st_received st) (st_between st) (st_during st).
Definition router_listener (time : string) (st : log_stream) (r : Request) (w : world) (m : totals) :
    Response * world * totals :=
  let '(resp, w') := run_handler (tools_ServeHTTP time (behind_middleware st) r) w in
  (resp, w', if (Status resp =? 0)%Z then m
             else count_request (Method r, Serving.normalizePath (Path r), itoa (Status resp)) m).
End server.

(** ** Theorems *)

Section server_laws.
Variable VerifyPKCS1v15 : Z → Z → string → string → result unit.
Variable FetchJWKS : string → result (list JWK).
Variable clock : Z.
Variable sys : system.
Variable url_hostname : string → option string.
Variable schemaFS : string → option string.
Variable gojsonschema : any → any → result (list string).
Variable redactor : option Redactor.
Variable now : list event → Z.
Variable visit : gmap string (list LogLine) → list string.
Variable workspaceDir : string.
Variable read_file : string → result doc.
Variable rfc3339 : Z → string.
Variable s : ToolServer.
Variable time : string.

Notation authentic r claims := (authenticate VerifyPKCS1v15 FetchJWKS clock (srv_Auth s) r = Ok claims).
Notation serve := (tools_ServeHTTP VerifyPKCS1v15 FetchJWKS clock sys url_hostname schemaFS gojsonschema
  redactor now visit workspaceDir read_file rfc3339 s time).

(** What an authentic request does to the process: nothing but to its log hub; the call
    it is authorised for; or fetching the artifact it names. *)
Inductive done_for (r : Request) (claims : JWTPayload) (w w' : world) : Prop :=
| only_looked : w_trace w' = w_trace w → w_counter w' = w_counter w → done_for r claims w w'
| called j req :
    Method r = "POST" → unmarshal (Body r) = Ok j → decode_execute_request j = Ok req →
    authorize (srv_Policy s) claims r (req_Tool req) (req_Action req) (req_Context req) time = Ok tt →
    w' = (run_handler (Execute sys url_hostname schemaFS gojsonschema redactor now visit req
            (srv_Sandbox s) (srv_Clients s)) w).2 → done_for r claims w w'
| resolved j ref :
    Method r = "POST" → unmarshal (Body r) = Ok j → decode_resolve_request j = Ok ref →
    w' = mkWorld (w_Logs w) (w_counter w) (run_handler (ResolveArtifact sys ref) (w_trace w)).2 →
    done_for r claims w w'.

Definition guarded (r : Request) (w : world) (resp : Response) (w' : world) : Prop :=
  (w' = w ∧ refused resp) ∨ ∃ claims, authentic r claims ∧ done_for r claims w w'.

Lemma wp_method_and_token method r w (Q : unit → world → Prop) :
  (∀ claims, Method r = method → authentic r claims → Q tt w) →
  wp (method_and_token VerifyPKCS1v15 FetchJWKS clock s method r) Q (guarded r w) w.
Proof.
  intros H. unfold method_and_token.
  apply wp_bind, wp_return_if; split; intros Hm; [left; split; [done|by vm_compute]|].
  apply wp_bind, wp_or_return; split; intros claims Hc; [|left; split; [done|by vm_compute]].
  apply wp_ret, (H claims); [|done]. bool_hyps. done.
Qed.

Lemma listed_guarded r w (resp : Response) :
  wp (_ ← method_and_token VerifyPKCS1v15 FetchJWKS clock s "GET" r; mret resp) (guarded r w) (guarded r w) w.
Proof.
  apply wp_bind, wp_method_and_token. intros claims _ Hc. apply wp_ret. right. exists claims.
  split; [done|]. by apply only_looked.
Qed.

Lemma resolve_guarded r w :
  wp (handleResolveResource VerifyPKCS1v15 FetchJWKS clock sys s r) (guarded r w) (guarded r w) w.
Proof.
  unfold handleResolveResource. apply wp_bind, wp_method_and_token. intros claims Hm Hc.
  assert (Hlook : ∀ resp, guarded r w resp w).
  { intros resp. right. exists claims. split; [done|]. by apply only_looked. }
  apply wp_bind, wp_or_return; split; intros ref Hr; [|by apply wp_return].
  apply bind_Ok in Hr as (j & Hj & Hd).
  apply wp_bind, wp_on_trace. intros data tr' Ht.
  assert (Hdone : ∀ resp, guarded r w resp (mkWorld (w_Logs w) (w_counter w) tr')).
  { intros resp. right. exists claims. split; [done|]. eapply resolved; [done..|]. by rewrite Ht. }
  apply wp_bind, wp_or_return; split; intros d Hd'; [by apply wp_ret|by apply wp_return].
Qed.

Lemma logs_guarded st r w :
  wp (handleToolLogs VerifyPKCS1v15 FetchJWKS clock rfc3339 s st r) (guarded r w) (guarded r w) w.
Proof.
  unfold handleToolLogs. apply wp_bind, wp_method_and_token. intros claims Hm Hc.
  assert (Hlook : ∀ resp w', w_trace w' = w_trace w → w_counter w' = w_counter w → guarded r w resp w').
  { intros resp w' H1 H2. right. exists claims. split; [done|]. by apply only_looked. }
  apply wp_bind, wp_return_if; split; intros _; [by apply Hlook|].
  apply wp_bind, wp_return_if; split; intros _; [by apply Hlook|].
  apply wp_bind, wp_call. simpl.
  destruct (write_tool_lines rfc3339 _) as [out more]. destruct more; [|by apply wp_ret, Hlook].
  apply wp_bind, wp_effect. simpl. by apply wp_ret, Hlook.
Qed.

Lemma handled_guarded r w resp w' :
  handled VerifyPKCS1v15 FetchJWKS clock sys url_hostname schemaFS gojsonschema redactor now visit s time r w
    resp w' → guarded r w resp w'.
Proof.
  intros [?|(claims & j & req & Hm & Hc & Hj & Hd & Ha & Hw)]; [by left|]. right. exists claims.
  split; [done|]. by eapply called.
Qed.

Lemma ServeHTTP_guarded st r w : wp (serve st r) (guarded r w) (guarded r w) w.
Proof.
  unfold tools_ServeHTTP.
  repeat match goal with |- context [if mem ?x ?l then _ else _] => destruct (mem x l) end.
  - eapply wp_mono; [apply handleExecute_handled|intros resp w' H; exact (handled_guarded r w resp w' H)..].
  - apply listed_guarded.
  - apply listed_guarded.
  - apply listed_guarded.
  - apply resolve_guarded.
  - apply logs_guarded.
  - apply wp_ret. left. split; [done|by vm_compute].
Qed.

(** C7: whatever the path, a request the tool router answers does one of four things:
    it is refused and changes nothing; or its sender is authentic and it only looks at
    the tools, the workspace's files and the logs; or it is a POST whose tool call was
    decoded and authorised by the policy for its context, and runs exactly that call;
    or it fetches the artifact it names, for which the policy is not asked. *)
Theorem tool_router_guarded st r w :
  let '(resp, w') := run_handler (serve st r) w in guarded r w resp w'.
Proof.
  pose proof (ServeHTTP_guarded st r w) as H. apply wp_run in H. by destruct (run_handler _ w).
Qed.

(** Behind the metrics middleware no log is ever streamed: what asks for logs is
    refused. *)
Theorem tool_logs_never_stream st r w m :
  mem (Path r) ["/v1/tools/logs"; "/tools/logs"] = true →
  let '(resp, w', _) := router_listener VerifyPKCS1v15 FetchJWKS clock sys url_hostname schemaFS gojsonschema
    redactor now visit workspaceDir read_file rfc3339 s time st r w m in
  refused resp ∧ w' = w.
Proof.
  intros Hp. unfold router_listener.
  enough (H : let Q := λ resp w', refused resp ∧ w' = w in wp (serve (behind_middleware st) r) Q Q w).
  { cbv zeta in H. apply wp_run in H. by destruct (run_handler _ w). }
  cbv zeta. unfold tools_ServeHTTP.
  assert (Path r = "/v1/tools/logs" ∨ Path r = "/tools/logs") as Hpath.
  { apply mem_spec in Hp. apply elem_of_cons in Hp as [->|Hp]; [by left|]. right. by apply list_elem_of_singleton. }
  assert (wp (handleToolLogs VerifyPKCS1v15 FetchJWKS clock rfc3339 s (behind_middleware st) r)
    (λ resp w', refused resp ∧ w' = w) (λ resp w', refused resp ∧ w' = w) w) as Hlogs.
  { unfold handleToolLogs, method_and_token.
    apply wp_bind, wp_bind, wp_return_if; split; intros _; [by split; [vm_compute|]|].
    apply wp_bind, wp_or_return; split; intros ? _; [|by apply wp_return; split; [vm_compute|]].
    apply wp_ret, wp_bind, wp_return_if; split; intros _; [by split; [vm_compute|]|].
    apply wp_bind, wp_return_if; split; intros Hf; [by split; [vm_compute|]|done]. }
  destruct Hpath as [-> | ->]; exact Hlogs.
Qed.
End server_laws.

(** *** What resolving lets in

    The policy is not asked, and a revision is an argument of git as it stands: one
    that starts with a dash is an option. *)
Example git_option_from_request :
  (run_handler (ResolveArtifact demo_sys (mkArtifact "git_path" "repo@--output=/etc/job:x" "")) []).2
  = [Exec ["git"; "-C"; "repo"; "show"; "--output=/etc/job:x"] []].
Proof. vm_compute. reflexivity. Qed.

(** An item without a name and a service is found for every URI of its kind, and one
    whose name is a part of the asked one before the asked one. *)
Example resource_found_by_part :
  resolveResourceFromList (Ok (Some (doc_json (JArr [JObj [("name", JStr "db")]; JObj [("name", JStr "db-restore")]]))))
    "runbook://db-restore?version=2" = Ok (JObj [("name", JStr "db")]).
Proof. vm_compute. reflexivity. Qed.
