(* ===== verification/Remote.v ===== *)
(** * Remote: calling the tool router over HTTP

    RouterClient of internal/tools/router_client.go, which the gateway's collectors,
    diagnostics and alert poller use, and what it amounts to when the server it calls is
    RouterServer's: the call that is sent is the call that is executed.

    The transport is an interface; an answer is its status and the document its bytes
    spell. *)

From S2P Require Import Prelude GoStrings Json ContextRef Steps Policy Hubs ToolCommands.
From S2P Require Import ToolValidate Sandbox Artifacts ToolApi Http Auth ToolRouter Executor Pollers RouterServer.
From Stdlib Require Import Ascii.

Local Open Scope string_scope.
Local Open Scope list_scope.

(** ** base64.StdEncoding *)

Definition b64_val (c : ascii) : option Z :=
  if between 65 90 c then Some (code c - 65)%Z
  else if between 97 122 c then Some (code c - 71)%Z
  else if between 48 57 c then Some (code c + 4)%Z
  else if Ascii.eqb c "+" then Some 62%Z
  else if Ascii.eqb c "/" then Some 63%Z
  else None.

Definition to_char (n : Z) : ascii := chr (n mod 256).

Fixpoint unbase64_groups (s : string) : option string :=
  match s with
  | "" => Some ""
  | String a (String b (String c (String d r))) =>
      x ← b64_val a; y ← b64_val b;
      if Ascii.eqb c "=" then
        if Ascii.eqb d "=" && (r =? "") then Some (String (to_char (x * 4 + y / 16)) "") else None
      else
        z ← b64_val c;
        if Ascii.eqb d "=" then
          if r =? "" then Some (String (to_char (x * 4 + y / 16)) (String (to_char (y * 16 + z / 4)) "")) else None
        else
          v ← b64_val d; rest ← unbase64_groups r;
          Some (String (to_char (x * 4 + y / 16)) (String (to_char (y * 16 + z / 4))
                 (String (to_char (z * 64 + v)) rest)))
  | _ => None
  end.

(** Line ends are passed over. *)
Fixpoint drop_newlines (s : string) : string :=
  match s with
  | "" => ""
  | String c s' => if string_in c (bytes [10; 13]) then drop_newlines s' else String c (drop_newlines s')
  end.
Definition unbase64 (s : string) : option string := unbase64_groups (drop_newlines s).

(** A []byte field; null makes it nil. *)
Definition fld_bytes : string → list (string * json) → result string :=
  λ name, fld (λ _ x, match x with JStr s => of_option json_error (unbase64 s) | JNull => Ok "" | _ => Err json_error end)
    name "".

(** ** The client *)

(** http.Client.Do: the status and the first document of the answer's bytes. *)
Class RouterTransport (W : Type) := { rt_do : Request → W → result (Z * doc) * W }.

(** The address, the path it parses to (or why it does not parse), and the token. *)
Record RouterClient := mkRouterClient {
  rc_BaseURL : string; rc_Path : result string; rc_Token : string }.

Definition exec_request_any (req : ExecuteRequest) : any :=
  AStruct "ExecuteRequest" [("Tool", AStr (req_Tool req)); ("Action", AStr (req_Action req));
    ("Input", req_Input req); ("ToolCallID", AStr (req_ToolCallID req));
    ("ExecutionID", AStr (req_ExecutionID req)); ("Context", ref_any (req_Context req))].

Definition decode_exec_response (j : json) : result ExecuteResponse :=
  fs ← Json.members j;
  id ← fld_string "tool_call_id" fs; out ← fld_bytes "Output" fs; used ← fld_string "Used" fs;
  Ok (mkExecResp id out used).

(** The reason phrases of net/http the router's statuses have. *)
Definition StatusText (status : Z) : string :=
  default "" (snd <$> List.find (λ p, p.1 =? status)%Z
    [(200, "OK"); (400, "Bad Request"); (401, "Unauthorized"); (403, "Forbidden"); (404, "Not Found");
     (405, "Method Not Allowed"); (500, "Internal Server Error"); (501, "Not Implemented")]%Z).

Definition router_headers (token : string) (name : string) : string :=
  if name =? "Content-Type" then "application/json"
  else if (name =? "Authorization") && negb (token =? "") then "Bearer " +:+ token
  else "".

Definition client_Execute {W} `{!RouterTransport W} (c : RouterClient) (req : ExecuteRequest) (w : W) :
    result ExecuteResponse * W :=
  match (_ ← check (negb (blank (rc_BaseURL c))) "base url required";
         body ← marshal (exec_request_any req);
         path ← rc_Path c;
         Ok (body, path)) with
  | Err e => (Err e, w)
  | Ok (body, path) =>
      let '(resp, w) := rt_do (mkReq "POST" (trim_right_slashes path +:+ "/v1/tools:execute") (λ _, "")
                                 (router_headers (rc_Token c)) (doc_json body)) w in
      (match resp with
       | Err e => Err e
       | Ok (status, data) =>
           if (status <? 200)%Z || (300 <=? status)%Z
           then Err ("tool router status " +:+ itoa status +:+ " " +:+ StatusText status)
           else j ← unmarshal data; decode_exec_response j
       end, w)
  end.

(** What the collectors see of it. *)
Definition remote_runner {W} `{!RouterTransport W} (c : RouterClient) : ToolRunner W :=
  {| run_router := λ req w, let '(r, w) := client_Execute c req w in (Output <$> r, w) |}.

(** ** Round trips *)
Lemma b64_val_char n : (0 ≤ n < 64)%Z → b64_val (b64_char n) = Some n.
Proof.
  intros H. assert (n ∈ seqZ 0 64) as Hin by (apply elem_of_seqZ; lia).
  revert n Hin H. assert (forallb (λ n, match b64_val (b64_char n) with Some m => m =? n | None => false end)%Z (seqZ 0 64) = true)
    as Hall by (vm_compute; reflexivity).
  intros n Hin _. pose proof (forallb_elem _ _ _ Hall Hin) as H. cbv beta in H.
  destruct (b64_val (b64_char n)); [|done]. by apply Z.eqb_eq in H as ->.
Qed.

Lemma to_char_code n a : (n mod 256 = code a)%Z → to_char n = a.
Proof. intros H. unfold to_char. rewrite H. by destruct a as [[] [] [] [] [] [] [] []]. Qed.

Lemma code_bounds a : (0 ≤ code a < 256)%Z.
Proof. by destruct a as [[] [] [] [] [] [] [] []]. Qed.

(** An encoded character is neither padding nor a line end. *)
Lemma b64_char_plain n :
  (0 ≤ n < 64)%Z → Ascii.eqb (b64_char n) "=" = false ∧ string_in (b64_char n) (bytes [10; 13]) = false.
Proof.
  intros H. assert (n ∈ seqZ 0 64) as Hin by (apply elem_of_seqZ; lia).
  assert (forallb (λ n, negb (Ascii.eqb (b64_char n) "=") && negb (string_in (b64_char n) (bytes [10; 13])))
    (seqZ 0 64) = true) as Hall by (vm_compute; reflexivity).
  pose proof (forallb_elem _ _ _ Hall Hin) as Hn. cbv beta in Hn.
  apply andb_true_iff in Hn as [H1 H2]. by apply negb_true_iff in H1, H2.
Qed.

Lemma unbase64_base64 s : unbase64_groups (base64 s) = Some s.
Proof.
  assert (∀ n s, (String.length s ≤ n)%nat → unbase64_groups (base64 s) = Some s) as H; [|exact (H _ s (le_n _))].
  clear s. induction n as [|n IH]; intros s Hn; [destruct s; [done|simpl in Hn; lia]|].
  destruct s as [|a [|b [|c s]]]; [done|..]; pose proof (code_bounds a) as Ha.
  - cbn [base64 unbase64_groups].
    rewrite !b64_val_char by (Z.to_euclidean_division_equations; lia).
    cbn. f_equal. f_equal. apply to_char_code. Z.to_euclidean_division_equations; lia.
  - pose proof (code_bounds b) as Hb. cbn [base64]. cbv zeta. cbn [unbase64_groups].
    destruct (b64_char_plain ((code a * 256 + code b) mod 16 * 4)) as [E _]; [Z.to_euclidean_division_equations; lia|].
    rewrite !b64_val_char, E by (Z.to_euclidean_division_equations; lia). cbn.
    do 2 f_equal; [|f_equal]; apply to_char_code; Z.to_euclidean_division_equations; lia.
  - pose proof (code_bounds b) as Hb. pose proof (code_bounds c) as Hc. cbn [base64]. cbv zeta.
    set (n0 := ((code a * 256 + code b) * 256 + code c)%Z).
    assert (0 ≤ n0 < 16777216)%Z as Hn0 by lia. cbn [unbase64_groups].
    destruct (b64_char_plain ((n0 / 64) mod 64)) as [E1 _]; [Z.to_euclidean_division_equations; lia|].
    destruct (b64_char_plain (n0 mod 64)) as [E2 _]; [Z.to_euclidean_division_equations; lia|].
    rewrite !b64_val_char, E1, E2 by (Z.to_euclidean_division_equations; lia). cbn [mbind option_bind].
    rewrite IH by (simpl in Hn; lia). cbn. subst n0.
    do 2 f_equal; [|f_equal; [|f_equal]]; apply to_char_code; Z.to_euclidean_division_equations; lia.
Qed.

Lemma drop_newlines_base64 s : drop_newlines (base64 s) = base64 s.
Proof.
  assert (∀ n s, (String.length s ≤ n)%nat → drop_newlines (base64 s) = base64 s) as H; [|exact (H _ s (le_n _))].
  clear s. induction n as [|n IH]; intros s Hn; [destruct s; [done|simpl in Hn; lia]|].
  assert (∀ m t, (0 ≤ m < 64)%Z → drop_newlines t = t → drop_newlines (String (b64_char m) t) = String (b64_char m) t)
    as Hc.
  { intros m t Hm Ht. cbn [drop_newlines]. destruct (b64_char_plain m Hm) as [_ ->]. by rewrite Ht. }
  destruct s as [|a [|b [|c s]]]; [done|..]; pose proof (code_bounds a) as Ha.
  - cbn [base64]. do 2 (apply Hc; [Z.to_euclidean_division_equations; lia|]). done.
  - pose proof (code_bounds b) as Hb. cbn [base64]. cbv zeta.
    do 3 (apply Hc; [Z.to_euclidean_division_equations; lia|]). done.
  - pose proof (code_bounds b) as Hb. pose proof (code_bounds c) as Hd. cbn [base64]. cbv zeta.
    set (n0 := ((code a * 256 + code b) * 256 + code c)%Z).
    assert (0 ≤ n0 < 16777216)%Z as Hn0 by lia.
    do 4 (apply Hc; [Z.to_euclidean_division_equations; lia|]). apply IH. simpl in Hn. lia.
Qed.

Lemma unbase64_spec s : unbase64 (base64 s) = Some s.
Proof. unfold unbase64. by rewrite drop_newlines_base64, unbase64_base64. Qed.

(** The answer of the handler, as the client reads it. *)
Definition kept_response (r : ExecuteResponse) : ExecuteResponse :=
  mkExecResp (valid_utf8 (resp_ToolCallID r)) (Output r) (valid_utf8 (Used r)).
Local Ltac struct_fields :=
  unfold Json.members, fld_bytes, fld_string, fld_any, fld; cbn [fold_left mbind result_bind];
  repeat match goal with
  | |- context [EqualFold ?a ?b] =>
      let v := eval vm_compute in (EqualFold a b) in change (EqualFold a b) with v; cbn iota
  end; cbn [mbind result_bind].

Lemma response_roundtrip r :
  ∃ j, to_json (exec_resp_any r) = Some j ∧ decode_exec_response j = Ok (kept_response r).
Proof.
  destruct r as [id out used]. eexists. split; [reflexivity|].
  unfold decode_exec_response. struct_fields. by rewrite unbase64_spec.
Qed.

(** Text that a document keeps, and the context of a request. *)
Definition plain_ref (c : ContextRef) : bool := forallb (λ kv, plain_text kv.2) (ref_fields c).
Definition plain_request (req : ExecuteRequest) : bool :=
  forallb plain_text [req_Tool req; req_Action req; req_ToolCallID req; req_ExecutionID req] &&
  plain_ref (req_Context req).

Local Ltac plain_texts :=
  repeat match goal with
  | H : _ && _ = true |- _ => apply andb_prop in H as [? ?]
  | H : plain_text _ = true |- _ => apply String.eqb_eq in H
  | H : valid_utf8 _ = _ |- _ => progress rewrite !H
  end.

Lemma ref_roundtrip c :
  plain_ref c = true → ∃ j, to_json (ref_any c) = Some j ∧ decode_ref j = Ok c ∧ j ≠ JNull.
Proof.
  destruct c as [t e cl n a r p g]. unfold plain_ref, ref_fields. cbn [forallb snd]. intros H.
  eexists. split; [reflexivity|]. split; [|done].
  unfold decode_ref. struct_fields. plain_texts. reflexivity.
Qed.

(** The call the server decodes: the one sent, its input as JSON keeps it. *)
Definition received (req : ExecuteRequest) : result ExecuteRequest :=
  j ← marshal (req_Input req); input ← decode_any j;
  Ok (mkRequest (req_Tool req) (req_Action req) input (req_ToolCallID req) (req_ExecutionID req) (req_Context req)).

Lemma request_roundtrip req ji :
  plain_request req = true → marshal (req_Input req) = Ok ji →
  ∃ j, marshal (exec_request_any req) = Ok j ∧ decode_execute_request j = received req.
Proof.
  destruct req as [tool action input id ex ctx]. unfold plain_request, received. cbn [req_Tool req_Action
    req_Input req_ToolCallID req_ExecutionID req_Context forallb]. intros H Hi. rewrite Hi.
  apply andb_prop in H as [H Hc]. destruct (ref_roundtrip ctx Hc) as (jc & Ec & Dc & Hn).
  apply of_option_Ok in Hi. unfold exec_request_any, marshal. cbn [to_json req_Tool req_Action
    req_Input req_ToolCallID req_ExecutionID req_Context]. rewrite !opt_map_cons.
  cbn [fmap option_fmap option_map mbind option_bind]. cbn [to_json]. rewrite Hi.
  rewrite Ec.
  eexists. split; [reflexivity|].
  unfold decode_execute_request. struct_fields. plain_texts.
  destruct (decode_any ji) as [i|e]; cbn [mbind result_bind]; [|done].
  destruct jc; try done; rewrite Dc; reflexivity.
Qed.

(** *** The service token *)

(** A token that is not empty and has no space around it. *)
Definition trimmed (s : string) : bool := (TrimSpace s =? s) && negb (s =? "").

Lemma trimmed_end s : trimmed s = true → strip_one (map srev spaces) (srev s) = None.
Proof.
  unfold trimmed. rewrite andb_true_iff, String.eqb_eq. intros [H _]. rewrite <- H. unfold TrimSpace.
  rewrite srev_involutive. apply trim_with_normal, rev_spaces_nonempty.
Qed.

(** Of the spaces, only the ASCII one ends with its byte. *)
Lemma space_with_blank p : p ∈ map srev spaces → string_in " " p = true → p = " ".
Proof.
  intros Hin. assert (forallb (λ p, negb (string_in " " p) || (p =? " ")) (map srev spaces) = true) as Hall
    by (vm_compute; reflexivity).
  pose proof (forallb_elem _ _ _ Hall Hin) as H. cbv beta in H. intros Hb. rewrite Hb in H.
  by apply String.eqb_eq in H.
Qed.

Lemma strip_one_found pats p e : p ∈ pats → is_Some (strip_one pats (p +:+ e)).
Proof.
  induction 1 as [p l|p q l Hp IH]; simpl.
  - rewrite (proj2 (strip_prefix_Some p _ e) eq_refl). by eexists.
  - by destruct (strip_prefix q (p +:+ e)).
Qed.

Lemma trim_bearer token : trimmed token = true → TrimSpace ("Bearer " +:+ token) = "Bearer " +:+ token.
Proof.
  intros Ht. pose proof (trimmed_end _ Ht) as He.
  assert (token ≠ "") as Hne by (unfold trimmed in Ht; apply andb_true_iff in Ht as [_ Ht]; by destruct token).
  unfold TrimSpace. unfold trim_with at 2. rewrite strip_all_stuck by reflexivity.
  unfold trim_with. rewrite strip_all_stuck; [apply srev_involutive|].
  rewrite srev_app. change (srev "Bearer ") with (" " +:+ "reraeB").
  destruct (strip_one (map srev spaces) (srev token +:+ (" " +:+ "reraeB"))) as [r|] eqn:E; [|done].
  exfalso. apply strip_one_Some in E as (p & Hp & E).
  apply string_app_split in E as [(e & E & Er)|(e & E & Er)].
  - destruct (strip_one_found _ _ e Hp) as [q Hq]. congruence.
  - destruct e as [|x e].
    + rewrite string_app_nil_r in E. destruct (strip_one_found _ _ "" Hp) as [q Hq].
      rewrite string_app_nil_r in Hq. congruence.
    + injection Er as <- _. assert (p = " ") as ->.
      { apply space_with_blank; [done|]. rewrite E, string_in_app. apply orb_true_r. }
      apply (f_equal String.length) in E. rewrite length_string_app in E.
      assert (srev token = "") as Hs by (destruct (srev token); [done|simpl in E; lia]).
      apply Hne. rewrite <- (srev_involutive token), Hs. done.
Qed.

Lemma bearer_token token r :
  trimmed token = true → Header r "Authorization" = "Bearer " +:+ token → ParseBearer r = Ok token.
Proof.
  intros Ht Hh. unfold ParseBearer. rewrite Hh, trim_bearer by done.
  change ("Bearer " +:+ token =? "") with false. cbv iota.
  change (cut_at ("Bearer " +:+ token) " ") with (Some ("Bearer", token)). cbv iota.
  change (EqualFold "Bearer" "bearer") with true. cbv iota.
  unfold trimmed in Ht. apply andb_true_iff in Ht as [Ht _]. apply String.eqb_eq in Ht. by rewrite Ht.
Qed.

(** ** The call over HTTP is the call *)

Section remote.
Variable VerifyPKCS1v15 : Z → Z → string → string → result unit.
Variable FetchJWKS : string → result (list JWK).
Variable clock : Z.
Variable sys : system.
Variable url_hostname : string → option string.
Variable schemaFS : string → option string.
Variable gojsonschema : any → any → result (list string).
Variable redactor : option Redactor.
Variable now : list event → Z.
Variable visit : gmap string (list LogLine) → list string.
Variable workspaceDir : string.
Variable read_file : string → result doc.
Variable rfc3339 : Z → string.
Variable s : ToolServer.
Variable time : string.
Variable st : log_stream.

(** The document of an answer's bytes; an error's text is no document. *)
Definition answered_doc (resp : Response) : doc :=
  match Content resp with
  | Encoded v => match marshal v with Ok j => doc_json j | Err _ => doc_empty end
  | Raw d => d
  | _ => doc_invalid
  end.

(** The transport that serves a request with the tool router's own server, which reads
    no body of more than 1 MB. *)
Definition router_transport : RouterTransport world := {|
  rt_do := λ r w,
    let '(resp, w') := run_handler (tools_ServeHTTP VerifyPKCS1v15 FetchJWKS clock sys url_hostname schemaFS
      gojsonschema redactor now visit workspaceDir read_file rfc3339 s time st (over_the_wire r)) w in
    (Ok (Status resp, answered_doc resp), w') |}.

Notation execute req := (Execute sys url_hostname schemaFS gojsonschema redactor now visit req
  (srv_Sandbox s) (srv_Clients s)).

Definition status_error (status : Z) : string :=
  "tool router status " +:+ itoa status +:+ " " +:+ StatusText status.

(** The request the client sends, as the server reads it. *)
Definition sent (c : RouterClient) (j : json) : Request :=
  mkReq "POST" "/v1/tools:execute" (λ _, "") (router_headers (rc_Token c)) (MaxBytesReader maxRequestBody (doc_json j)).

(** The text of the request is within the server's limit. *)
Definition fits (req : ExecuteRequest) : bool :=
  match marshal (exec_request_any req) with
  | Ok j => (Z.of_nat (String.length (print_json j)) <=? maxRequestBody)%Z
  | Err _ => true
  end.

Lemma sent_body c req j :
  marshal (exec_request_any req) = Ok j → Body (sent c j) = if fits req then doc_json j else doc_invalid.
Proof.
  intros Ej. unfold fits. rewrite Ej. unfold sent, MaxBytesReader. cbn [Body].
  rewrite Z.leb_antisym. by destruct (maxRequestBody <? _)%Z.
Qed.

(** C8: a call through the client - to a server of the tool router that has the same
    token, which has no space around it, at an address without a path - is the call
    itself, whenever the texts of the request are valid UTF-8 and its input can be
    written as JSON.  When the request's text is within the server's limit of 1 MB and
    the policy allows the service this tool for this context, the router executes
    exactly the request that was sent, its input as JSON keeps it, and the client
    answers what Execute answered, its output byte for byte; an error of Execute is the
    status 400.  A longer request and one that is not understood are answered 400, and
    one that is not allowed 403, all three leaving the router as it was. *)
Theorem remote_call_is_local_call c req ji w :
  blank (rc_BaseURL c) = false → rc_Path c = Ok "" →
  trimmed (rc_Token c) = true → Token (srv_Auth s) = rc_Token c →
  plain_request req = true → marshal (req_Input req) = Ok ji →
  @client_Execute _ router_transport c req w =
  match (_ ← check (fits req) "body too large"; received req) with
  | Err _ => (Err (status_error 400), w)
  | Ok req' =>
      match (j ← marshal (exec_request_any req);
             authorize (srv_Policy s) service_claims (sent c j) (req_Tool req) (req_Action req) (req_Context req) time) with
      | Err _ => (Err (status_error 403), w)
      | Ok _ =>
          let '((resp, err), w') := run_handler (execute req') w in
          (match err with None => Ok (kept_response resp) | Some _ => Err (status_error 400) end, w')
      end
  end.
Proof.
  intros Hb Hp Ht Htok Hreq Hi.
  destruct (request_roundtrip req ji Hreq Hi) as (j & Ej & Dj).
  unfold client_Execute. rewrite Hb, Ej, Hp. cbn [negb check mbind result_bind].
  change (trim_right_slashes "" +:+ "/v1/tools:execute") with "/v1/tools:execute".
  unfold rt_do, router_transport, over_the_wire. cbn [Method Path Query Header Body]. fold (sent c j).
  unfold tools_ServeHTTP, handleExecute.
  change (mem (Path (sent c j)) ["/"; "/v1/tools:execute"; "/execute"]) with true. cbv iota.
  change (Method (sent c j)) with "POST".
  change (negb ("POST" =? "POST")) with false.
  assert (authenticate VerifyPKCS1v15 FetchJWKS clock (srv_Auth s) (sent c j) = Ok service_claims) as Hauth.
  { unfold authenticate. rewrite (bearer_token (rc_Token c)); [|done|].
    - assert (rc_Token c =? "" = false) as Hne.
      { unfold trimmed in Ht. apply andb_true_iff in Ht as [_ Ht]. by apply negb_true_iff in Ht. }
      by rewrite Htok, Hne, String.eqb_refl.
    - unfold sent. cbn [Header]. unfold router_headers. cbn [String.eqb Ascii.eqb Bool.eqb andb].
      unfold trimmed in Ht. apply andb_true_iff in Ht as [_ Ht]. by rewrite Ht. }
  unfold return_if, or_return, run_handler. rewrite Hauth, (sent_body c req j Ej).
  destruct (fits req); cbn [unmarshal check mbind result_bind]; [|reflexivity].
  rewrite Dj. destruct (received req) as [req'|e] eqn:Er; [|reflexivity].
  cbv beta iota delta [mbind handler_bind mret handler_ret return_].
  assert (req_Tool req' = req_Tool req ∧ req_Action req' = req_Action req ∧ req_Context req' = req_Context req)
    as (-> & -> & ->).
  { unfold received in Er. rewrite Hi in Er. cbn [mbind result_bind] in Er.
    destruct (decode_any ji); cbn [mbind result_bind] in Er; [|done]. injection Er as <-. done. }
  destruct (authorize _ _ _ _ _ _ _) as [[]|e]; [|reflexivity].
  unfold call, run_handler.
  destruct (execute req' w) as [[[resp err]|[resp err]] w']; destruct err as [e|]; try reflexivity;
    destruct (response_roundtrip resp) as (jr & Ejr & Djr);
    unfold ok_json, answered_doc, marshal; lazy beta iota zeta; cbn [Content Status]; rewrite Ejr;
    cbn; by rewrite Djr.
Qed.

(** A context with a blank field is refused whoever asks and whatever the policy. *)
Lemma authorize_incomplete policy claims r tool action ctx e :
  validateContextRefStrict ctx = Err e → is_ok (authorize policy claims r tool action ctx time) = false.
Proof. intros H. unfold authorize. destruct policy; [|done]. by rewrite H. Qed.

Lemma received_context req req' : received req = Ok req' → req_Context req' = req_Context req.
Proof.
  unfold received. destruct (marshal _) as [j|]; [|done]. cbn [mbind result_bind].
  destruct (decode_any j); [|done]. by intros [= <-].
Qed.

Lemma marshal_input_fails req : is_ok (marshal (req_Input req)) = false → is_ok (marshal (exec_request_any req)) = false.
Proof.
  unfold marshal, exec_request_any. cbn [to_json]. rewrite !opt_map_cons.
  destruct (to_json (req_Input req)) as [j|]; [done|]. intros _.
  destruct (to_json (AStr (req_Tool req))), (to_json (AStr (req_Action req))); done.
Qed.

Lemma contextless_refused c req w :
  rc_Path c = Ok "" → plain_request req = true → is_ok (validateContextRefStrict (req_Context req)) = false →
  let '(answer, w') := @client_Execute _ router_transport c req w in is_ok answer = false ∧ w' = w.
Proof.
  intros Hp Hreq Hctx. destruct (validateContextRefStrict (req_Context req)) as [?|e] eqn:Hv; [done|].
  unfold client_Execute. destruct (blank (rc_BaseURL c)); [done|]. cbn [negb check mbind result_bind].
  destruct (marshal (exec_request_any req)) as [j|?] eqn:Ej; cbn [mbind result_bind]; [|done]. rewrite Hp.
  cbn [mbind result_bind]. change (trim_right_slashes "" +:+ "/v1/tools:execute") with "/v1/tools:execute".
  unfold rt_do, router_transport, over_the_wire. cbn [Method Path Query Header Body]. fold (sent c j).
  unfold tools_ServeHTTP.
  change (mem (Path (sent c j)) ["/"; "/v1/tools:execute"; "/execute"]) with true. cbv iota.
  assert (wp (handleExecute VerifyPKCS1v15 FetchJWKS clock sys url_hostname schemaFS gojsonschema redactor now visit
    s time (sent c j)) (λ resp w', refused resp ∧ w' = w) (λ resp w', refused resp ∧ w' = w) w) as H.
  { unfold handleExecute.
    apply wp_bind, wp_return_if; split; intros _; [by split; [vm_compute|]|].
    apply wp_bind, wp_or_return; split; intros claims _; [|by apply wp_return; split; [vm_compute|]].
    apply wp_bind, wp_or_return; split; intros req' Hr; [|by apply wp_return; split; [vm_compute|]].
    apply wp_bind, wp_or_return; split; [|by intros; apply wp_return; split; [vm_compute|]].
    intros [] Ha. exfalso. apply bind_Ok in Hr as (j' & Hj & Hd). rewrite (sent_body c req j Ej) in Hj.
    destruct (fits req); [|done]. injection Hj as <-. destruct (marshal (req_Input req)) as [ji|?] eqn:Hi.
    - destruct (request_roundtrip req ji Hreq Hi) as (j2 & Ej2 & Dj2). rewrite Ej in Ej2. injection Ej2 as <-.
      rewrite Dj2 in Hd. rewrite (received_context req req' Hd) in Ha.
      pose proof (authorize_incomplete (srv_Policy s) claims (sent c j) (req_Tool req') (req_Action req') _ _ Hv) as Hn.
      by rewrite Ha in Hn.
    - pose proof (marshal_input_fails req) as Hf. rewrite Hi, Ej in Hf. by discriminate Hf. }
  apply wp_run in H. destruct (run_handler _ w) as [resp w']. destruct H as [Hr Hw]. cbn [fst snd] in Hr, Hw.
  unfold refused in Hr. destruct (Status resp <? 200)%Z eqn:E1, (300 <=? Status resp)%Z eqn:E2; simpl; try done; lia.
Qed.

(** The tool router refuses every remote call that names no complete context: the
    client answers an error and the router is as it was, whatever its policy and
    configuration, whoever the client is, and whatever the tool. *)
Theorem contextless_calls_refused c req w :
  rc_Path c = Ok "" → plain_request req = true → is_ok (validateContextRefStrict (req_Context req)) = false →
  let '(answer, w') := @client_Execute _ router_transport c req w in is_ok answer = false ∧ w' = w.
Proof. apply contextless_refused. Qed.

(** The gateway's alert poller names no context: over HTTP no pass of it ever reads an
    alert. *)
Theorem alert_poller_reads_nothing {G} clock' time_parse window stores handler c (w : polling world G) :
  rc_Path c = Ok "" →
  let '((count, err), w') := run_handler (@AlertPoller_RunOnce world G (@remote_runner _ router_transport c)
    clock' time_parse window stores handler) w in
  count = 0%Z ∧ is_Some err ∧ w' = w.
Proof.
  intros Hp. pose proof (contextless_refused c alerts_request (ap_tools w) Hp eq_refl eq_refl) as H.
  unfold AlertPoller_RunOnce, run_handler, call, remote_runner, run_router.
  cbv beta iota delta [mbind handler_bind].
  destruct (@client_Execute _ router_transport c alerts_request (ap_tools w)) as [[out|e] t]; [by destruct H|].
  destruct H as [_ ->]. cbn. destruct w; cbn. split_and!; [done|by eexists|done].
Qed.
End remote.

(** *** A server and its client *)

Definition demo_server : ToolServer :=
  mkServer (Some (demo_sandbox "tools:1")) no_clients (mkAuthConfig "" "" "" false "svc-token")
    (Some (λ _, Ok (plain_decision "allow"))).
Definition demo_client : RouterClient := mkRouterClient "http://tool-router:8081" (Ok "") "svc-token".
Definition prod_ref : ContextRef := mkContextRef "acme" "prod" "eu-1" "web" "1" "eu" "default" "1".
Definition get_pods_prod : ExecuteRequest :=
  mkRequest "kubectl" "get" (AMap (amap [("resource", AStr "pods")])) "call-1" "" prod_ref.
Definition no_stream : log_stream := mkLogStream false [] id id.
Definition demo_call : ExecuteRequest → world → result ExecuteResponse * world :=
  @client_Execute _ (router_transport (λ _ _ _ _, Err "unchecked") (λ _, Err "no keys") 0 demo_sys no_host no_schema
    any_valid None (λ _, 0%Z) (λ _, []) "" (λ _, Err "no file") itoa demo_server "" no_stream) demo_client.

Lemma remote_call_is_local_call_witness :
  (demo_call get_pods_prod world0).1 = Ok (mkExecResp "call-1" "pod/web" "cli").
Proof.
  unfold demo_call.
  rewrite (remote_call_is_local_call _ _ _ _ _ _ _ _ _ _ _ _ _ _ _ _ demo_client get_pods_prod
    (JObj [("resource", JStr "pods")]) world0); vm_compute; reflexivity.
Defined.

(** The session a program opened is closed over HTTP, with no context. *)
Definition close_session (id : string) : ExecuteRequest :=
  mkRequest "boundary" "session_close" (AMap {["session_id" := AStr id]}) "" "" empty_ref.

Lemma contextless_calls_refused_witness :
  is_ok (demo_call (close_session "s_1") world0).1 = false ∧ (demo_call (close_session "s_1") world0).2 = world0.
Proof.
  pose proof (contextless_calls_refused (λ _ _ _ _, Err "unchecked") (λ _, Err "no keys") 0 demo_sys no_host no_schema
    any_valid None (λ _, 0%Z) (λ _, []) "" (λ _, Err "no file") itoa demo_server "" no_stream demo_client
    (close_session "s_1") world0 eq_refl eq_refl eq_refl) as H.
  unfold demo_call. destruct (client_Execute demo_client (close_session "s_1") world0). exact H.
Defined.
