(* ===== verification/Secrets.v ===== *)
(** * Secrets: Vault's agent, the boundary session and the template environment

    internal/secrets: manager.go, vault_agent.go, vault_env.go and boundary.go.  The
    programs that are started, the files and the directories are an interface; a
    template is the text reading it answers. *)

From S2P Require Import Prelude GoStrings Json ContextRef Steps ToolValidate Http ToolRouter Remote.
From Stdlib Require Import Ascii.

Local Open Scope string_scope.
Local Open Scope list_scope.

(** ** The boundary session *)

Definition ParseSessionID (payload : string) : result string :=
  data ← unmarshal_map (doc_of_text payload);
  match mget data "id", mget data "session_id" with
  | AStr id, other =>
      if negb (id =? "") then Ok id
      else match other with
           | AStr id => if negb (id =? "") then Ok id else Err "session_id missing"
           | _ => Err "session_id missing"
           end
  | _, AStr id => if negb (id =? "") then Ok id else Err "session_id missing"
  | _, _ => Err "session_id missing"
  end.

Definition session_open (targetID duration : string) (ctxRef : ContextRef) : ExecuteRequest :=
  mkRequest "boundary" "session_open"
    (AMap (amap ([("target_id", AStr targetID)] ++ (if duration =? "" then [] else [("duration", AStr duration)]))))
    "" "" ctxRef.
Definition session_close (sessionID : string) (ctxRef : ContextRef) : ExecuteRequest :=
  mkRequest "boundary" "session_close" (AMap (amap [("session_id", AStr sessionID)])) "" "" ctxRef.

Section session.
Context {W : Type} `{!RouterTransport W}.

(** [None]: the nil router. *)
Definition OpenBoundarySession (router : option RouterClient) (targetID duration : string)
    (ctxRef : ContextRef) (w : W) : result string * W :=
  match router with
  | None => (Err "router required", w)
  | Some c => let '(resp, w) := client_Execute c (session_open targetID duration ctxRef) w in
              (resp ← resp; ParseSessionID (Output resp), w)
  end.
Definition CloseBoundarySession (router : option RouterClient) (sessionID : string)
    (ctxRef : ContextRef) (w : W) : result unit * W :=
  match router with
  | None => (Err "router required", w)
  | Some c => let '(resp, w) := client_Execute c (session_close sessionID ctxRef) w in
              (_ ← resp; Ok tt, w)
  end.
End session.

Definition FormatBoundarySessionEnv (sessionID : string) : gmap string string :=
  if blank sessionID then ∅ else {["BOUNDARY_SESSION_ID" := sessionID]}.
Definition BuildBoundarySessionDuration (value : string) : string := TrimSpace value.

(** ** Vault's agent *)

Record VaultAgentConfig := mkVaultAgent {
  va_VaultAddr : string; va_Namespace : string; va_AutoAuthMethod : string; va_KubernetesRole : string;
  va_AppRoleID : string; va_AppRoleSecret : string; va_SinkPath : string;
  va_TemplateSource : string; va_TemplateDest : string; va_RetryMaxBackoff : string }.

Definition BuildVaultAgentConfigFromConnectors (addr namespace autoAuthMethod agentRole authPath appRoleID
    appRoleSecret sinkPath templateSource templateDest retryMaxBackoff : string) : result VaultAgentConfig :=
  _ ← check (negb (blank addr)) "vault addr required";
  _ ← check (negb (blank templateSource && negb (blank templateDest))) "template_source required";
  let method := TrimSpace autoAuthMethod in
  let method := if method =? "" then (if contains (ToLower authPath) "approle" then "approle" else "kubernetes")
                else method in
  let clear := blank templateSource && blank templateDest && negb (blank agentRole) in
  Ok (mkVaultAgent addr namespace method agentRole appRoleID appRoleSecret sinkPath
        (if clear then "" else templateSource) (if clear then "" else templateDest) retryMaxBackoff).

Definition ResolveTemplatePaths (templateDir templateSource templateDest : string) : string * string :=
  if negb (blank templateSource) then (templateSource, templateDest)
  else
    let dir := TrimSpace templateDir in
    if dir =? "" then ("", "")
    else (filepath_Join [dir; "vault-agent.ctmpl"], filepath_Join [dir; "vault-agent.rendered"]).

Definition DescribeVaultAgent (cfg : VaultAgentConfig) : string :=
  "vault=" +:+ va_VaultAddr cfg +:+ " auth=" +:+ va_AutoAuthMethod cfg +:+ " sink=" +:+ va_SinkPath cfg.

(** A line, and one that sets a name to a quoted value. *)
Definition line (s : string) : string := s +:+ bytes [10].
Definition setting (indent name v : string) : string :=
  line (indent +:+ name +:+ " = " +:+ String dq v +:+ String dq "").
Definition block (indent head : string) : string := line (indent +:+ head +:+ " {").
Definition named_block (indent head name : string) : string :=
  line (indent +:+ head +:+ " " +:+ String dq name +:+ String dq " {").

Definition auth_method (cfg : VaultAgentConfig) : string :=
  let method := norm (va_AutoAuthMethod cfg) in if method =? "" then "kubernetes" else method.

Definition RenderVaultAgentConfig (cfg : VaultAgentConfig) : result string :=
  _ ← check (negb (blank (va_VaultAddr cfg))) "vault_addr required";
  let ns := TrimSpace (va_Namespace cfg) in
  let sink := TrimSpace (va_SinkPath cfg) in
  Ok (join (
    [line "exit_after_auth = false"; setting "" "pid_file" "/tmp/vault-agent.pid"; block "" "vault";
     setting "  " "address" (va_VaultAddr cfg)] ++
    (if ns =? "" then [] else [setting "  " "namespace" ns]) ++
    [line "}"; line ""; block "" "auto_auth"] ++
    (if auth_method cfg =? "approle" then
       [named_block "  " "method" "approle"; line "    config = {";
        setting "      " "role_id" (va_AppRoleID cfg); setting "      " "secret_id" (va_AppRoleSecret cfg);
        line "    }"; line "  }"]
     else
       [named_block "  " "method" "kubernetes"; setting "    " "mount_path" "auth/kubernetes";
        line "    config = {"; setting "      " "role" (va_KubernetesRole cfg); line "    }"; line "  }"]) ++
    (if sink =? "" then []
     else [named_block "  " "sink" "file"; line "    config = {"; setting "      " "path" sink;
           setting "      " "mode" "0400"; line "    }"; line "  }"]) ++
    [line "}"; line ""] ++
    (if negb (blank (va_TemplateSource cfg)) && negb (blank (va_TemplateDest cfg))
     then [block "" "template"; setting "  " "source" (va_TemplateSource cfg);
           setting "  " "destination" (va_TemplateDest cfg); line "}"; line ""] else []) ++
    (if blank (va_RetryMaxBackoff cfg) then []
     else [block "" "retry"; setting "  " "max_backoff" (va_RetryMaxBackoff cfg); line "}"])) "").

(** os/exec, os.MkdirTemp and os.WriteFile. *)
Class Host (H : Type) := {
  LookPath : string → H → result unit * H;
  MkdirTemp : string → H → result string * H;
  WriteFile : string → string → H → result unit * H;
  StartProcess : list string → H → result unit * H }.

Section host.
Context {H : Type} `{!Host H}.

(** The path of the agent's configuration; nothing without an address and a sink. *)
Definition StartVaultAgent (cfg : VaultAgentConfig) :
    handler H (result (option string)) (result (option string)) :=
  _ ← return_if (blank (va_VaultAddr cfg)) (Ok None);
  _ ← return_if (blank (va_SinkPath cfg)) (Ok None);
  _ ← call_or (LookPath "vault") (λ e, return_ (Err e));
  dir ← call_or (MkdirTemp "carapulse-vault-agent-") (λ e, return_ (Err e));
  let configPath := filepath_Join [dir; "agent.hcl"] in
  rendered ← or_return (RenderVaultAgentConfig cfg) (λ e, return_ (Err e));
  _ ← call_or (WriteFile configPath rendered) (λ e, return_ (Err e));
  _ ← call_or (StartProcess ["vault"; "agent"; "-config"; configPath]) (λ e, return_ (Err e));
  mret (Ok (Some configPath)).

Definition tunnel_command (targetID listenAddr : string) : list string :=
  ["boundary"; "connect"; "-target-id"; targetID] ++ (if blank listenAddr then [] else ["-listen"; listenAddr]).
Definition StartBoundaryTunnel (targetID listenAddr : string) (h : H) : result unit * H :=
  let targetID := TrimSpace targetID in
  if targetID =? "" then (Err "target_id required", h)
  else StartProcess (tunnel_command targetID listenAddr) h.
End host.

(** ** The template's environment *)

(** bufio.Scanner over lines, which ends with an error at a line that fills its buffer. *)
Definition drop_cr (s : string) : string := trim_suffix s (bytes [13]).
Definition scan_lines (s : string) : list string :=
  let l := split_byte (byte 10) s in
  match last l with Some "" => removelast l | _ => l end.
Definition MaxScanTokenSize : Z := 65536.

Definition template_entry (text : string) : option (string * string) :=
  let line := TrimSpace text in
  if (line =? "") || has_prefix line "#" then None
  else
    '(key, val) ← cut_at line "=";
    let key := TrimSpace key in
    if key =? "" then None else Some (key, TrimSpace val).

(** [Ok None] is the nil map: no path. The later of two equal keys wins. *)
Definition LoadTemplateEnv (open : string → result string) (path : string) : result (option (gmap string string)) :=
  let path := TrimSpace path in
  if path =? "" then Ok None
  else
    file ← open path;
    let lines := scan_lines file in
    _ ← check (forallb (λ l, Z.of_nat (String.length l) <? MaxScanTokenSize)%Z lines) "bufio.Scanner: token too long";
    let env := fold_left (λ env kv, <[kv.1 := kv.2]> env) (omap (λ l, template_entry (drop_cr l)) lines) ∅ in
    _ ← check (negb (bool_decide (env = ∅))) "no env entries";
    Ok (Some env).

Example template_ex :
  LoadTemplateEnv (λ _, Ok (join ["# rendered"; " VAULT_TOKEN = s.1=2 "; "=x"; ""; "A=1"; "A=2"] (bytes [13; 10])))
    "/run/env" = Ok (Some {["VAULT_TOKEN" := "s.1=2"; "A" := "2"]}).
Proof. vm_compute. reflexivity. Qed.

(** ** Theorems *)

(** Trimming keeps a part of the text. *)
Lemma TrimSpace_part s : ∃ pre post, s = pre +:+ (TrimSpace s +:+ post).
Proof.
  unfold TrimSpace, trim_with. destruct (strip_all_suffix (String.length s) spaces s) as [pre Hpre].
  set (t := strip_all (String.length s) spaces s) in *.
  destruct (strip_all_suffix (String.length (srev t)) (map srev spaces) (srev t)) as [post Hpost].
  set (u := strip_all (String.length (srev t)) (map srev spaces) (srev t)) in *.
  exists pre, (srev post). rewrite Hpre at 1. f_equal.
  rewrite <- (srev_involutive t), Hpost, srev_app. done.
Qed.

Lemma absent_trim c s : string_in c s = false → string_in c (TrimSpace s) = false.
Proof.
  destruct (TrimSpace_part s) as (pre & post & E). intros H. rewrite E, !string_in_app in H.
  apply orb_false_iff in H as [_ H]. by apply orb_false_iff in H as [H _].
Qed.

Lemma split_byte_absent sep s part : part ∈ split_byte sep s → string_in sep part = false.
Proof.
  revert part. induction s as [|c s IH]; intros part; simpl.
  - by intros ->%list_elem_of_singleton.
  - destruct (Ascii.eqb_spec c sep) as [->|Hne].
    + intros [->|H]%elem_of_cons; [done|by apply IH].
    + destruct (split_byte sep s) as [|p l].
      * intros ->%list_elem_of_singleton. simpl. rewrite orb_false_r. by apply Ascii.eqb_neq.
      * intros [->|H]%elem_of_cons.
        -- rewrite string_in_cons. cbn [string_in]. rewrite IH by left. rewrite !orb_false_r. by apply Ascii.eqb_neq.
        -- apply IH. by right.
Qed.

(** What is before the first separator has none; both parts are parts of the text. *)
Lemma cut_at_byte c s a b :
  cut_at s (String c "") = Some (a, b) → s = a +:+ String c b ∧ string_in c a = false.
Proof.
  revert a. induction s as [|d s IH]; intros a; [done|]. cbn [cut_at strip_prefix].
  destruct (Ascii.eqb_spec c d) as [->|Hne].
  - by intros [= <- <-].
  - destruct (cut_at s (String c "")) as [[a' b']|]; [|done]. intros [= <- <-].
    destruct (IH a' eq_refl) as [-> Ha]. split; [done|]. rewrite string_in_cons. cbn [string_in].
    rewrite Ha, !orb_false_r. by apply Ascii.eqb_neq.
Qed.

Lemma scan_lines_absent s part : part ∈ scan_lines s → string_in (byte 10) part = false.
Proof.
  unfold scan_lines. intros H. apply (split_byte_absent (byte 10) s).
  destruct (last (split_byte (byte 10) s)) as [[|]|] eqn:E; try done.
  assert (∀ (l : list string) x, x ∈ removelast l → x ∈ l) as Hr.
  { clear. induction l as [|a [|b l] IH]; intros x; simpl; [done|by intros ?%elem_of_nil|].
    intros [->|H]%elem_of_cons; [left|right]. by apply IH. }
  by apply Hr.
Qed.

Lemma drop_cr_absent c s : string_in c s = false → string_in c (drop_cr s) = false.
Proof.
  unfold drop_cr, trim_suffix. destruct (strip_prefix _ (srev s)) as [r|] eqn:E; [|done].
  apply strip_prefix_Some in E. intros H. rewrite <- (srev_involutive s), E, srev_app, string_in_app in H.
  by apply orb_false_iff in H as [H _].
Qed.

Definition good_entry (k v : string) : Prop :=
  k ≠ "" ∧ TrimSpace k = k ∧ TrimSpace v = v ∧ string_in "=" k = false ∧
  string_in (byte 10) k = false ∧ string_in (byte 10) v = false.

Lemma template_entry_good text k v :
  string_in (byte 10) text = false → template_entry text = Some (k, v) → good_entry k v.
Proof.
  intros Hn. unfold template_entry. destruct (_ || _); [done|].
  destruct (cut_at (TrimSpace text) "=") as [[a b]|] eqn:E; [|done]. cbn [mbind option_bind].
  destruct (String.eqb_spec (TrimSpace a) "") as [|Hne]; [done|]. intros [= <- <-].
  apply cut_at_byte in E as [E Ha].
  pose proof (absent_trim (byte 10) text Hn) as Ht. rewrite E, string_in_app, string_in_cons in Ht.
  apply orb_false_iff in Ht as [Hka Hkb]. apply orb_false_iff in Hkb as [_ Hkb].
  unfold good_entry. rewrite !TrimSpace_idemp. split_and!; try done; by apply absent_trim.
Qed.

(** The environment a template gives the sandbox is not empty, and each of its
    variables has a name without an equals sign; names and values are trimmed and on one
    line, so the arguments made of them are read back as these variables. *)
Theorem template_env_good open path env :
  LoadTemplateEnv open path = Ok (Some env) → env ≠ ∅ ∧ map_Forall good_entry env.
Proof.
  unfold LoadTemplateEnv. destruct (TrimSpace path =? ""); [done|].
  destruct (open (TrimSpace path)) as [file|]; [|done]. cbn [mbind result_bind].
  destruct (forallb _ (scan_lines file)); cbn [check mbind result_bind]; [|done].
  set (l := omap _ (scan_lines file)).
  assert (Forall (λ kv, good_entry kv.1 kv.2) l) as Hl.
  { apply Forall_forall. intros [k v] Hin. subst l. apply list_elem_of_omap in Hin as (part & Hp & He).
    apply (template_entry_good (drop_cr part)); [|done]. apply drop_cr_absent. by apply (scan_lines_absent file). }
  destruct (bool_decide _) eqn:Eb; cbn [negb check mbind result_bind]; [done|]. intros [= <-].
  apply bool_decide_eq_false in Eb. split; [done|]. clear Eb. clearbody l.
  assert (∀ m : gmap string string, map_Forall good_entry m → map_Forall good_entry (fold_left (λ env kv, <[kv.1:=kv.2]> env) l m)) as H.
  { induction Hl as [|[k v] l Hkv _ IH]; intros m Hm; [done|]. simpl. apply IH. by apply map_Forall_insert_2. }
  apply H, map_Forall_empty.
Qed.

(** The agent's configuration quotes nothing: a role with a quote in it adds blocks of
    its own. *)
Example role_adds_a_template :
  (λ s, contains s (dquote_str "template{source='/etc/shadow'")) <$>
    RenderVaultAgentConfig (mkVaultAgent "https://vault" "" "" (dquote_str "ops'}}}template{source='/etc/shadow")
      "" "" "" "" "" "")
  = Ok true.
Proof. vm_compute. reflexivity. Qed.
