(* ===== verification/Config.v ===== *)
(** * Config: the configuration file

    internal/config/config.go: the sections of the configuration, decoded field by
    field into the zero values, and the checks a program makes of them before it
    starts.  A later member of the same name writes over an earlier one, and a later
    section only over the members it has. *)

From S2P Require Import Prelude GoStrings Json ContextRef Steps Collectors.

Local Open Scope string_scope.
Local Open Scope list_scope.

(** ** Members

    [init] is what the field held before; [null] leaves a scalar and empties the rest. *)

Definition json_text (j : json) : result string :=
  match j with JStr s => Ok s | JNull => Ok "" | _ => Err json_error end.
Definition json_count (j : json) : result Z :=
  match j with JNum l => Atoi l | JNull => Ok 0%Z | _ => Err json_error end.
Definition json_list {A} (dec : json → result A) (j : json) : result (list A) :=
  match j with
  | JArr l => of_option json_error (opt_map (λ y, match dec y with Ok a => Some a | Err _ => None end) l)
  | JNull => Ok []
  | _ => Err json_error
  end.
(** A map keeps the entries it had. *)
Definition json_entries {A} (dec : json → result A) (m : gmap string A) (j : json) : result (gmap string A) :=
  match j with
  | JObj fs => fold_left (λ acc '(k, x), m ← acc; a ← dec x; Ok (<[k := a]> m)) fs (Ok m)
  | JNull => Ok ∅
  | _ => Err json_error
  end.

Notation members_of A := (string → A → list (string * json) → result A) (only parsing).

Definition into_string : members_of string :=
  fld (λ a x, match x with JNull => Ok a | _ => json_text x end).
Definition into_int : members_of Z :=
  fld (λ a x, match x with JNull => Ok a | _ => json_count x end).
Definition into_bool : members_of bool :=
  fld (λ a x, match x with JBool b => Ok b | JNull => Ok a | _ => Err json_error end).
Definition into_strings : members_of (list string) := fld (λ _, json_list json_text).
Definition into_ints : members_of (list Z) := fld (λ _, json_list json_count).
Definition into_labels : members_of (gmap string string) := fld (json_entries json_text).
Definition into_tags : members_of (gmap string (list string)) := fld (json_entries (json_list json_text)).

Definition decode_service (j : json) : result ServiceMapping :=
  fs ← Json.members j;
  s ← into_string "service" "" fs; e ← into_string "environment" "" fs;
  c ← into_string "cluster_id" "" fs; n ← into_string "namespace" "" fs;
  p ← into_strings "promql" [] fs; t ← into_strings "traceql" [] fs; d ← into_strings "dashboards" [] fs;
  Ok (mkMapping s e c n p t d).
Definition into_mappings : members_of (list ServiceMapping) := fld (λ _, json_list decode_service).

(** ** The sections *)

Record GatewayConfig := mkGatewayConfig {
  gw_HTTPAddr : string; gw_WSAddr : string; gw_CanvasAddr : string; gw_OIDCIssuer : string;
  gw_OIDCClientID : string; gw_OIDCJWKSURL : string; gw_JWKSCacheTTLSecs : Z; gw_DevMode : bool;
  gw_EnableEventLoop : bool; gw_EventLoopSources : list string; gw_SessionRequired : bool;
  gw_AlertPollIntervalSecs : Z; gw_AlertDedupWindowSecs : Z; gw_EventGateWindowSecs : Z;
  gw_EventGateBackoffSecs : Z; gw_EventGateMinCount : Z; gw_EventGateSeverities : list string }.

Definition no_GatewayConfig : GatewayConfig :=
  mkGatewayConfig "" "" "" "" "" "" 0%Z false false [] false 0%Z 0%Z 0%Z 0%Z 0%Z [].

Definition decode_GatewayConfig (c : GatewayConfig) (j : json) : result GatewayConfig :=
  fs ← Json.members j;
  x1 ← into_string "http_addr" (gw_HTTPAddr c) fs; x2 ← into_string "ws_addr" (gw_WSAddr c) fs;
  x3 ← into_string "canvas_addr" (gw_CanvasAddr c) fs;
  x4 ← into_string "oidc_issuer" (gw_OIDCIssuer c) fs;
  x5 ← into_string "oidc_client_id" (gw_OIDCClientID c) fs;
  x6 ← into_string "oidc_jwks_url" (gw_OIDCJWKSURL c) fs;
  x7 ← into_int "jwks_cache_ttl_secs" (gw_JWKSCacheTTLSecs c) fs;
  x8 ← into_bool "dev_mode" (gw_DevMode c) fs;
  x9 ← into_bool "enable_event_loop" (gw_EnableEventLoop c) fs;
  x10 ← into_strings "event_loop_sources" (gw_EventLoopSources c) fs;
  x11 ← into_bool "session_required" (gw_SessionRequired c) fs;
  x12 ← into_int "alert_poll_interval_secs" (gw_AlertPollIntervalSecs c) fs;
  x13 ← into_int "alert_dedup_window_secs" (gw_AlertDedupWindowSecs c) fs;
  x14 ← into_int "event_gate_window_secs" (gw_EventGateWindowSecs c) fs;
  x15 ← into_int "event_gate_backoff_secs" (gw_EventGateBackoffSecs c) fs;
  x16 ← into_int "event_gate_min_count" (gw_EventGateMinCount c) fs;
  x17 ← into_strings "event_gate_severities" (gw_EventGateSeverities c) fs;
  Ok (mkGatewayConfig x1 x2 x3 x4 x5 x6 x7 x8 x9 x10 x11 x12 x13 x14 x15 x16 x17).

Record ContextSection := mkContextSection {
  cx_Enabled : bool; cx_PollIntervalSecs : Z; cx_WatchIntervalSecs : Z;
  cx_SnapshotIntervalSecs : Z; cx_WatchTimeoutSecs : Z; cx_WatchSendInitialEvents : bool;
  cx_WatchAllowBookmarks : bool; cx_K8sResources : list string; cx_Labels : gmap string string;
  cx_K8sNamespaces : list string; cx_HelmNamespaces : list string; cx_ArgoApps : list string;
  cx_PromQLQueries : list string; cx_TraceQLQueries : list string; cx_GrafanaFolders : list Z;
  cx_AWSResourceTags : gmap string (list string); cx_TenantID : string; cx_Environment : string;
  cx_ClusterID : string; cx_Namespace : string; cx_AWSAccountID : string; cx_Region : string;
  cx_ArgoCDProject : string; cx_GrafanaOrgID : string; cx_Services : list ServiceMapping }.

Definition no_ContextSection : ContextSection :=
  mkContextSection false 0%Z 0%Z 0%Z 0%Z false false [] ∅ [] [] [] [] [] [] ∅ "" "" "" "" "" "" ""
  "" [].

Definition decode_ContextSection (c : ContextSection) (j : json) : result ContextSection :=
  fs ← Json.members j;
  x1 ← into_bool "enabled" (cx_Enabled c) fs;
  x2 ← into_int "poll_interval_secs" (cx_PollIntervalSecs c) fs;
  x3 ← into_int "watch_interval_secs" (cx_WatchIntervalSecs c) fs;
  x4 ← into_int "snapshot_interval_secs" (cx_SnapshotIntervalSecs c) fs;
  x5 ← into_int "watch_timeout_secs" (cx_WatchTimeoutSecs c) fs;
  x6 ← into_bool "watch_send_initial_events" (cx_WatchSendInitialEvents c) fs;
  x7 ← into_bool "watch_allow_bookmarks" (cx_WatchAllowBookmarks c) fs;
  x8 ← into_strings "k8s_resources" (cx_K8sResources c) fs;
  x9 ← into_labels "labels" (cx_Labels c) fs;
  x10 ← into_strings "k8s_namespaces" (cx_K8sNamespaces c) fs;
  x11 ← into_strings "helm_namespaces" (cx_HelmNamespaces c) fs;
  x12 ← into_strings "argo_apps" (cx_ArgoApps c) fs;
  x13 ← into_strings "promql_queries" (cx_PromQLQueries c) fs;
  x14 ← into_strings "traceql_queries" (cx_TraceQLQueries c) fs;
  x15 ← into_ints "grafana_folders" (cx_GrafanaFolders c) fs;
  x16 ← into_tags "aws_resource_tags" (cx_AWSResourceTags c) fs;
  x17 ← into_string "tenant_id" (cx_TenantID c) fs;
  x18 ← into_string "environment" (cx_Environment c) fs;
  x19 ← into_string "cluster_id" (cx_ClusterID c) fs;
  x20 ← into_string "namespace" (cx_Namespace c) fs;
  x21 ← into_string "aws_account_id" (cx_AWSAccountID c) fs;
  x22 ← into_string "region" (cx_Region c) fs;
  x23 ← into_string "argocd_project" (cx_ArgoCDProject c) fs;
  x24 ← into_string "grafana_org_id" (cx_GrafanaOrgID c) fs;
  x25 ← into_mappings "services" (cx_Services c) fs;
  Ok (mkContextSection x1 x2 x3 x4 x5 x6 x7 x8 x9 x10 x11 x12 x13 x14 x15 x16 x17 x18 x19 x20 x21
  x22 x23 x24 x25).

Record ToolRouterConfig := mkToolRouterConfig {
  tr_HTTPAddr : string; tr_BaseURL : string; tr_AuthToken : string; tr_OIDCIssuer : string;
  tr_OIDCClientID : string; tr_OIDCJWKSURL : string }.

Definition no_ToolRouterConfig : ToolRouterConfig :=
  mkToolRouterConfig "" "" "" "" "" "".

Definition decode_ToolRouterConfig (c : ToolRouterConfig) (j : json) : result ToolRouterConfig :=
  fs ← Json.members j;
  x1 ← into_string "http_addr" (tr_HTTPAddr c) fs; x2 ← into_string "base_url" (tr_BaseURL c) fs;
  x3 ← into_string "auth_token" (tr_AuthToken c) fs;
  x4 ← into_string "oidc_issuer" (tr_OIDCIssuer c) fs;
  x5 ← into_string "oidc_client_id" (tr_OIDCClientID c) fs;
  x6 ← into_string "oidc_jwks_url" (tr_OIDCJWKSURL c) fs;
  Ok (mkToolRouterConfig x1 x2 x3 x4 x5 x6).

Record PolicyConfig := mkPolicyConfig {
  po_OPAURL : string; po_PolicyPackage : string; po_FailOpenReads : bool }.

Definition no_PolicyConfig : PolicyConfig :=
  mkPolicyConfig "" "" false.

Definition decode_PolicyConfig (c : PolicyConfig) (j : json) : result PolicyConfig :=
  fs ← Json.members j;
  x1 ← into_string "opa_url" (po_OPAURL c) fs;
  x2 ← into_string "policy_package" (po_PolicyPackage c) fs;
  x3 ← into_bool "fail_open_reads" (po_FailOpenReads c) fs;
  Ok (mkPolicyConfig x1 x2 x3).

Record LLMConfig := mkLLMConfig {
  lc_Provider : string; lc_APIKey : string; lc_APIBase : string; lc_Model : string;
  lc_TimeoutMS : Z; lc_MaxOutputTokens : Z; lc_RedactPatterns : list string;
  lc_AuthProfile : string; lc_AuthPath : string }.

Definition no_LLMConfig : LLMConfig :=
  mkLLMConfig "" "" "" "" 0%Z 0%Z [] "" "".

Definition decode_LLMConfig (c : LLMConfig) (j : json) : result LLMConfig :=
  fs ← Json.members j;
  x1 ← into_string "provider" (lc_Provider c) fs; x2 ← into_string "api_key" (lc_APIKey c) fs;
  x3 ← into_string "api_base" (lc_APIBase c) fs; x4 ← into_string "model" (lc_Model c) fs;
  x5 ← into_int "timeout_ms" (lc_TimeoutMS c) fs;
  x6 ← into_int "max_output_tokens" (lc_MaxOutputTokens c) fs;
  x7 ← into_strings "redact_patterns" (lc_RedactPatterns c) fs;
  x8 ← into_string "auth_profile" (lc_AuthProfile c) fs;
  x9 ← into_string "auth_path" (lc_AuthPath c) fs;
  Ok (mkLLMConfig x1 x2 x3 x4 x5 x6 x7 x8 x9).

Record OrchestratorConfig := mkOrchestratorConfig {
  oc_TemporalAddr : string; oc_Namespace : string; oc_TaskQueue : string; oc_HealthAddr : string }.

Definition no_OrchestratorConfig : OrchestratorConfig :=
  mkOrchestratorConfig "" "" "" "".

Definition decode_OrchestratorConfig (c : OrchestratorConfig) (j : json) : result OrchestratorConfig :=
  fs ← Json.members j;
  x1 ← into_string "temporal_addr" (oc_TemporalAddr c) fs;
  x2 ← into_string "namespace" (oc_Namespace c) fs;
  x3 ← into_string "task_queue" (oc_TaskQueue c) fs;
  x4 ← into_string "health_addr" (oc_HealthAddr c) fs;
  Ok (mkOrchestratorConfig x1 x2 x3 x4).

Record ObjectStoreConfig := mkObjectStoreConfig {
  os_Endpoint : string; os_Bucket : string }.

Definition no_ObjectStoreConfig : ObjectStoreConfig :=
  mkObjectStoreConfig "" "".

Definition decode_ObjectStoreConfig (c : ObjectStoreConfig) (j : json) : result ObjectStoreConfig :=
  fs ← Json.members j;
  x1 ← into_string "endpoint" (os_Endpoint c) fs; x2 ← into_string "bucket" (os_Bucket c) fs;
  Ok (mkObjectStoreConfig x1 x2).

Record StorageConfig := mkStorageConfig {
  sc_PostgresDSN : string; sc_MaxOpenConns : Z; sc_MaxIdleConns : Z; sc_ConnMaxLifetime : string;
  sc_ObjectStore : ObjectStoreConfig; sc_WorkspaceDir : string }.

Definition no_StorageConfig : StorageConfig :=
  mkStorageConfig "" 0%Z 0%Z "" no_ObjectStoreConfig "".

Definition decode_StorageConfig (c : StorageConfig) (j : json) : result StorageConfig :=
  fs ← Json.members j;
  x1 ← into_string "postgres_dsn" (sc_PostgresDSN c) fs;
  x2 ← into_int "max_open_conns" (sc_MaxOpenConns c) fs;
  x3 ← into_int "max_idle_conns" (sc_MaxIdleConns c) fs;
  x4 ← into_string "conn_max_lifetime" (sc_ConnMaxLifetime c) fs;
  x5 ← fld decode_ObjectStoreConfig "object_store" (sc_ObjectStore c) fs;
  x6 ← into_string "workspace_dir" (sc_WorkspaceDir c) fs;
  Ok (mkStorageConfig x1 x2 x3 x4 x5 x6).

Record SandboxConfig := mkSandboxConfig {
  sb_Enabled : bool; sb_Enforce : bool; sb_Image : string; sb_Runtime : string;
  sb_EgressAllowlist : list string; sb_Mounts : list string; sb_ReadOnlyRoot : bool;
  sb_Tmpfs : list string; sb_User : string; sb_SeccompProfile : string; sb_NoNewPrivs : bool;
  sb_DropCaps : list string; sb_RequireSeccomp : bool; sb_RequireNoNewPrivs : bool;
  sb_RequireUser : bool; sb_RequireDropCaps : bool; sb_RequireOnWrite : bool;
  sb_RequireEgressAllowlist : bool; sb_MaxOutputBytes : Z }.

Definition no_SandboxConfig : SandboxConfig :=
  mkSandboxConfig false false "" "" [] [] false [] "" "" false [] false false false false false
  false 0%Z.

Definition decode_SandboxConfig (c : SandboxConfig) (j : json) : result SandboxConfig :=
  fs ← Json.members j;
  x1 ← into_bool "enabled" (sb_Enabled c) fs; x2 ← into_bool "enforce" (sb_Enforce c) fs;
  x3 ← into_string "image" (sb_Image c) fs; x4 ← into_string "runtime" (sb_Runtime c) fs;
  x5 ← into_strings "egress_allowlist" (sb_EgressAllowlist c) fs;
  x6 ← into_strings "mounts" (sb_Mounts c) fs;
  x7 ← into_bool "read_only_root" (sb_ReadOnlyRoot c) fs;
  x8 ← into_strings "tmpfs" (sb_Tmpfs c) fs; x9 ← into_string "user" (sb_User c) fs;
  x10 ← into_string "seccomp_profile" (sb_SeccompProfile c) fs;
  x11 ← into_bool "no_new_privs" (sb_NoNewPrivs c) fs;
  x12 ← into_strings "drop_caps" (sb_DropCaps c) fs;
  x13 ← into_bool "require_seccomp" (sb_RequireSeccomp c) fs;
  x14 ← into_bool "require_no_new_privs" (sb_RequireNoNewPrivs c) fs;
  x15 ← into_bool "require_user" (sb_RequireUser c) fs;
  x16 ← into_bool "require_drop_caps" (sb_RequireDropCaps c) fs;
  x17 ← into_bool "require_on_write" (sb_RequireOnWrite c) fs;
  x18 ← into_bool "require_egress_allowlist" (sb_RequireEgressAllowlist c) fs;
  x19 ← into_int "max_output_bytes" (sb_MaxOutputBytes c) fs;
  Ok (mkSandboxConfig x1 x2 x3 x4 x5 x6 x7 x8 x9 x10 x11 x12 x13 x14 x15 x16 x17 x18 x19).

Record SchedulerConfig := mkSchedulerConfig {
  sd_Enabled : bool; sd_PollIntervalSecs : Z; sd_DefaultCron : string }.

Definition no_SchedulerConfig : SchedulerConfig :=
  mkSchedulerConfig false 0%Z "".

Definition decode_SchedulerConfig (c : SchedulerConfig) (j : json) : result SchedulerConfig :=
  fs ← Json.members j;
  x1 ← into_bool "enabled" (sd_Enabled c) fs;
  x2 ← into_int "poll_interval_secs" (sd_PollIntervalSecs c) fs;
  x3 ← into_string "default_cron" (sd_DefaultCron c) fs;
  Ok (mkSchedulerConfig x1 x2 x3).

Record AWSConfig := mkAWSConfig {
  aw_RoleARN : string; aw_Addr : string; aw_Token : string }.

Definition no_AWSConfig : AWSConfig :=
  mkAWSConfig "" "" "".

Definition decode_AWSConfig (c : AWSConfig) (j : json) : result AWSConfig :=
  fs ← Json.members j;
  x1 ← into_string "role_arn" (aw_RoleARN c) fs; x2 ← into_string "addr" (aw_Addr c) fs;
  x3 ← into_string "token" (aw_Token c) fs;
  Ok (mkAWSConfig x1 x2 x3).

Record VaultConfig := mkVaultConfig {
  vc_Addr : string; vc_Token : string; vc_AgentRole : string; vc_AuthPath : string;
  vc_TemplateDir : string; vc_SinkPath : string; vc_Namespace : string;
  vc_AutoAuthMethod : string; vc_AppRoleID : string; vc_AppRoleSecret : string;
  vc_TemplateSource : string; vc_TemplateDest : string; vc_RetryMaxBackoff : string;
  vc_AuditEnable : bool; vc_AuditPath : string; vc_HealthIntervalSecs : Z;
  vc_RenewIntervalSecs : Z }.

Definition no_VaultConfig : VaultConfig :=
  mkVaultConfig "" "" "" "" "" "" "" "" "" "" "" "" "" false "" 0%Z 0%Z.

Definition decode_VaultConfig (c : VaultConfig) (j : json) : result VaultConfig :=
  fs ← Json.members j;
  x1 ← into_string "addr" (vc_Addr c) fs; x2 ← into_string "token" (vc_Token c) fs;
  x3 ← into_string "agent_role" (vc_AgentRole c) fs;
  x4 ← into_string "auth_path" (vc_AuthPath c) fs;
  x5 ← into_string "template_dir" (vc_TemplateDir c) fs;
  x6 ← into_string "sink_path" (vc_SinkPath c) fs;
  x7 ← into_string "namespace" (vc_Namespace c) fs;
  x8 ← into_string "auto_auth_method" (vc_AutoAuthMethod c) fs;
  x9 ← into_string "approle_id" (vc_AppRoleID c) fs;
  x10 ← into_string "approle_secret" (vc_AppRoleSecret c) fs;
  x11 ← into_string "template_source" (vc_TemplateSource c) fs;
  x12 ← into_string "template_dest" (vc_TemplateDest c) fs;
  x13 ← into_string "retry_max_backoff" (vc_RetryMaxBackoff c) fs;
  x14 ← into_bool "audit_enable" (vc_AuditEnable c) fs;
  x15 ← into_string "audit_path" (vc_AuditPath c) fs;
  x16 ← into_int "health_interval_secs" (vc_HealthIntervalSecs c) fs;
  x17 ← into_int "renew_interval_secs" (vc_RenewIntervalSecs c) fs;
  Ok (mkVaultConfig x1 x2 x3 x4 x5 x6 x7 x8 x9 x10 x11 x12 x13 x14 x15 x16 x17).

Record K8sConfig := mkK8sConfig {
  kc_KubeconfigPath : string }.

Definition no_K8sConfig : K8sConfig :=
  mkK8sConfig "".

Definition decode_K8sConfig (c : K8sConfig) (j : json) : result K8sConfig :=
  fs ← Json.members j;
  x1 ← into_string "kubeconfig_path" (kc_KubeconfigPath c) fs;
  Ok (mkK8sConfig x1).

Record BoundaryConfig := mkBoundaryConfig {
  bc_Addr : string; bc_Token : string; bc_TargetID : string; bc_SessionDuration : string;
  bc_AutoClose : bool; bc_EnableTunnel : bool; bc_ListenAddr : string }.

Definition no_BoundaryConfig : BoundaryConfig :=
  mkBoundaryConfig "" "" "" "" false false "".

Definition decode_BoundaryConfig (c : BoundaryConfig) (j : json) : result BoundaryConfig :=
  fs ← Json.members j;
  x1 ← into_string "addr" (bc_Addr c) fs; x2 ← into_string "token" (bc_Token c) fs;
  x3 ← into_string "target_id" (bc_TargetID c) fs;
  x4 ← into_string "session_duration" (bc_SessionDuration c) fs;
  x5 ← into_bool "auto_close" (bc_AutoClose c) fs;
  x6 ← into_bool "enable_tunnel" (bc_EnableTunnel c) fs;
  x7 ← into_string "listen_addr" (bc_ListenAddr c) fs;
  Ok (mkBoundaryConfig x1 x2 x3 x4 x5 x6 x7).

Record ArgoCDConfig := mkArgoCDConfig {
  ac_Addr : string; ac_Token : string }.

Definition no_ArgoCDConfig : ArgoCDConfig :=
  mkArgoCDConfig "" "".

Definition decode_ArgoCDConfig (c : ArgoCDConfig) (j : json) : result ArgoCDConfig :=
  fs ← Json.members j;
  x1 ← into_string "addr" (ac_Addr c) fs; x2 ← into_string "token" (ac_Token c) fs;
  Ok (mkArgoCDConfig x1 x2).

Record PrometheusConfig := mkPrometheusConfig {
  pc_Addr : string; pc_Token : string }.

Definition no_PrometheusConfig : PrometheusConfig :=
  mkPrometheusConfig "" "".

Definition decode_PrometheusConfig (c : PrometheusConfig) (j : json) : result PrometheusConfig :=
  fs ← Json.members j;
  x1 ← into_string "addr" (pc_Addr c) fs; x2 ← into_string "token" (pc_Token c) fs;
  Ok (mkPrometheusConfig x1 x2).

Record AlertmanagerConfig := mkAlertmanagerConfig {
  am_Addr : string; am_Token : string }.

Definition no_AlertmanagerConfig : AlertmanagerConfig :=
  mkAlertmanagerConfig "" "".

Definition decode_AlertmanagerConfig (c : AlertmanagerConfig) (j : json) : result AlertmanagerConfig :=
  fs ← Json.members j;
  x1 ← into_string "addr" (am_Addr c) fs; x2 ← into_string "token" (am_Token c) fs;
  Ok (mkAlertmanagerConfig x1 x2).

Record ThanosConfig := mkThanosConfig {
  th_Addr : string; th_Token : string }.

Definition no_ThanosConfig : ThanosConfig :=
  mkThanosConfig "" "".

Definition decode_ThanosConfig (c : ThanosConfig) (j : json) : result ThanosConfig :=
  fs ← Json.members j;
  x1 ← into_string "addr" (th_Addr c) fs; x2 ← into_string "token" (th_Token c) fs;
  Ok (mkThanosConfig x1 x2).

Record GrafanaConfig := mkGrafanaConfig {
  gc_Addr : string; gc_Token : string; gc_OrgID : string }.

Definition no_GrafanaConfig : GrafanaConfig :=
  mkGrafanaConfig "" "" "".

Definition decode_GrafanaConfig (c : GrafanaConfig) (j : json) : result GrafanaConfig :=
  fs ← Json.members j;
  x1 ← into_string "addr" (gc_Addr c) fs; x2 ← into_string "token" (gc_Token c) fs;
  x3 ← into_string "org_id" (gc_OrgID c) fs;
  Ok (mkGrafanaConfig x1 x2 x3).

Record TempoConfig := mkTempoConfig {
  tc_Addr : string; tc_Token : string }.

Definition no_TempoConfig : TempoConfig :=
  mkTempoConfig "" "".

Definition decode_TempoConfig (c : TempoConfig) (j : json) : result TempoConfig :=
  fs ← Json.members j;
  x1 ← into_string "addr" (tc_Addr c) fs; x2 ← into_string "token" (tc_Token c) fs;
  Ok (mkTempoConfig x1 x2).

Record LinearConfig := mkLinearConfig {
  lin_Token : string; lin_TeamID : string; lin_BaseURL : string; lin_PollIntervalMS : Z;
  lin_TimeoutHours : Z }.

Definition no_LinearConfig : LinearConfig :=
  mkLinearConfig "" "" "" 0%Z 0%Z.

Definition decode_LinearConfig (c : LinearConfig) (j : json) : result LinearConfig :=
  fs ← Json.members j;
  x1 ← into_string "token" (lin_Token c) fs; x2 ← into_string "team_id" (lin_TeamID c) fs;
  x3 ← into_string "base_url" (lin_BaseURL c) fs;
  x4 ← into_int "poll_interval_ms" (lin_PollIntervalMS c) fs;
  x5 ← into_int "timeout_hours" (lin_TimeoutHours c) fs;
  Ok (mkLinearConfig x1 x2 x3 x4 x5).

Record PagerDutyConfig := mkPagerDutyConfig {
  pd_Addr : string; pd_Token : string }.

Definition no_PagerDutyConfig : PagerDutyConfig :=
  mkPagerDutyConfig "" "".

Definition decode_PagerDutyConfig (c : PagerDutyConfig) (j : json) : result PagerDutyConfig :=
  fs ← Json.members j;
  x1 ← into_string "addr" (pd_Addr c) fs; x2 ← into_string "token" (pd_Token c) fs;
  Ok (mkPagerDutyConfig x1 x2).

Record ConnectorsConfig := mkConnectorsConfig {
  cn_AWS : AWSConfig; cn_Vault : VaultConfig; cn_K8s : K8sConfig; cn_Boundary : BoundaryConfig;
  cn_ArgoCD : ArgoCDConfig; cn_Prometheus : PrometheusConfig;
  cn_Alertmanager : AlertmanagerConfig; cn_Thanos : ThanosConfig; cn_Grafana : GrafanaConfig;
  cn_Tempo : TempoConfig; cn_Linear : LinearConfig; cn_PagerDuty : PagerDutyConfig }.

Definition no_ConnectorsConfig : ConnectorsConfig :=
  mkConnectorsConfig no_AWSConfig no_VaultConfig no_K8sConfig no_BoundaryConfig no_ArgoCDConfig
  no_PrometheusConfig no_AlertmanagerConfig no_ThanosConfig no_GrafanaConfig no_TempoConfig
  no_LinearConfig no_PagerDutyConfig.

Definition decode_ConnectorsConfig (c : ConnectorsConfig) (j : json) : result ConnectorsConfig :=
  fs ← Json.members j;
  x1 ← fld decode_AWSConfig "aws" (cn_AWS c) fs;
  x2 ← fld decode_VaultConfig "vault" (cn_Vault c) fs;
  x3 ← fld decode_K8sConfig "k8s" (cn_K8s c) fs;
  x4 ← fld decode_BoundaryConfig "boundary" (cn_Boundary c) fs;
  x5 ← fld decode_ArgoCDConfig "argocd" (cn_ArgoCD c) fs;
  x6 ← fld decode_PrometheusConfig "prometheus" (cn_Prometheus c) fs;
  x7 ← fld decode_AlertmanagerConfig "alertmanager" (cn_Alertmanager c) fs;
  x8 ← fld decode_ThanosConfig "thanos" (cn_Thanos c) fs;
  x9 ← fld decode_GrafanaConfig "grafana" (cn_Grafana c) fs;
  x10 ← fld decode_TempoConfig "tempo" (cn_Tempo c) fs;
  x11 ← fld decode_LinearConfig "linear" (cn_Linear c) fs;
  x12 ← fld decode_PagerDutyConfig "pagerduty" (cn_PagerDuty c) fs;
  Ok (mkConnectorsConfig x1 x2 x3 x4 x5 x6 x7 x8 x9 x10 x11 x12).

Record ChatOpsConfig := mkChatOpsConfig {
  cho_SlackBotToken : string; cho_SlackSigningSecret : string; cho_GatewayURL : string;
  cho_GatewayToken : string }.

Definition no_ChatOpsConfig : ChatOpsConfig :=
  mkChatOpsConfig "" "" "" "".

Definition decode_ChatOpsConfig (c : ChatOpsConfig) (j : json) : result ChatOpsConfig :=
  fs ← Json.members j;
  x1 ← into_string "slack_bot_token" (cho_SlackBotToken c) fs;
  x2 ← into_string "slack_signing_secret" (cho_SlackSigningSecret c) fs;
  x3 ← into_string "gateway_url" (cho_GatewayURL c) fs;
  x4 ← into_string "gateway_token" (cho_GatewayToken c) fs;
  Ok (mkChatOpsConfig x1 x2 x3 x4).

Record ApprovalsConfig := mkApprovalsConfig {
  ap_AutoApproveLow : bool }.

Definition no_ApprovalsConfig : ApprovalsConfig :=
  mkApprovalsConfig false.

Definition decode_ApprovalsConfig (c : ApprovalsConfig) (j : json) : result ApprovalsConfig :=
  fs ← Json.members j;
  x1 ← into_bool "auto_approve_low" (ap_AutoApproveLow c) fs;
  Ok (mkApprovalsConfig x1).

Record Config := mkConfig {
  cfg_Gateway : GatewayConfig; cfg_Context : ContextSection; cfg_ToolRouter : ToolRouterConfig;
  cfg_Policy : PolicyConfig; cfg_LLM : LLMConfig; cfg_Orchestrator : OrchestratorConfig;
  cfg_Storage : StorageConfig; cfg_Sandbox : SandboxConfig; cfg_Scheduler : SchedulerConfig;
  cfg_Connectors : ConnectorsConfig; cfg_ChatOps : ChatOpsConfig; cfg_Approvals : ApprovalsConfig }.

Definition no_Config : Config :=
  mkConfig no_GatewayConfig no_ContextSection no_ToolRouterConfig no_PolicyConfig no_LLMConfig
  no_OrchestratorConfig no_StorageConfig no_SandboxConfig no_SchedulerConfig no_ConnectorsConfig
  no_ChatOpsConfig no_ApprovalsConfig.

Definition decode_Config (c : Config) (j : json) : result Config :=
  fs ← Json.members j;
  x1 ← fld decode_GatewayConfig "gateway" (cfg_Gateway c) fs;
  x2 ← fld decode_ContextSection "context" (cfg_Context c) fs;
  x3 ← fld decode_ToolRouterConfig "tool_router" (cfg_ToolRouter c) fs;
  x4 ← fld decode_PolicyConfig "policy" (cfg_Policy c) fs;
  x5 ← fld decode_LLMConfig "llm" (cfg_LLM c) fs;
  x6 ← fld decode_OrchestratorConfig "orchestrator" (cfg_Orchestrator c) fs;
  x7 ← fld decode_StorageConfig "storage" (cfg_Storage c) fs;
  x8 ← fld decode_SandboxConfig "sandbox" (cfg_Sandbox c) fs;
  x9 ← fld decode_SchedulerConfig "scheduler" (cfg_Scheduler c) fs;
  x10 ← fld decode_ConnectorsConfig "connectors" (cfg_Connectors c) fs;
  x11 ← fld decode_ChatOpsConfig "chatops" (cfg_ChatOps c) fs;
  x12 ← fld decode_ApprovalsConfig "approvals" (cfg_Approvals c) fs;
  Ok (mkConfig x1 x2 x3 x4 x5 x6 x7 x8 x9 x10 x11 x12).

(** ** Checks *)

Definition validateOIDC (prefix issuer clientID jwksURL : string) : result unit :=
  if blank issuer && blank clientID && blank jwksURL then Ok tt
  else check (negb (blank issuer || blank clientID || blank jwksURL))
         (prefix +:+ " oidc config incomplete: require oidc_issuer, oidc_client_id, oidc_jwks_url").

Definition validateTokenAddr (prefix addr token : string) : result unit :=
  check (blank token || negb (blank addr)) (prefix +:+ ".addr required when token is set").

Definition validate_llm (l : LLMConfig) : result unit :=
  if blank (lc_Provider l) then Ok tt
  else
    _ ← check (negb (blank (lc_Model l))) "llm.model required when llm.provider is set";
    let p := norm (lc_Provider l) in
    check (negb (((p =? "openai") || (p =? "anthropic")) && blank (lc_APIKey l) && blank (lc_AuthProfile l)))
      ("llm.api_key or llm.auth_profile required for llm.provider " +:+ p).

Definition validate_sandbox (s : SandboxConfig) : result unit :=
  _ ← check (negb (sb_Enforce s && blank (sb_Image s))) "sandbox.image required when sandbox.enforce is true";
  _ ← check (negb (sb_RequireSeccomp s && blank (sb_SeccompProfile s)))
        "sandbox.seccomp_profile required when sandbox.require_seccomp is true";
  check (negb (sb_RequireUser s && blank (sb_User s))) "sandbox.user required when sandbox.require_user is true".

(** The connectors with an address and a token, in the order they are checked. *)
Definition endpoints (c : ConnectorsConfig) : list (string * string * string) :=
  [("connectors.prometheus", pc_Addr (cn_Prometheus c), pc_Token (cn_Prometheus c));
   ("connectors.alertmanager", am_Addr (cn_Alertmanager c), am_Token (cn_Alertmanager c));
   ("connectors.thanos", th_Addr (cn_Thanos c), th_Token (cn_Thanos c));
   ("connectors.grafana", gc_Addr (cn_Grafana c), gc_Token (cn_Grafana c));
   ("connectors.tempo", tc_Addr (cn_Tempo c), tc_Token (cn_Tempo c));
   ("connectors.linear", lin_BaseURL (cn_Linear c), lin_Token (cn_Linear c));
   ("connectors.pagerduty", pd_Addr (cn_PagerDuty c), pd_Token (cn_PagerDuty c));
   ("connectors.vault", vc_Addr (cn_Vault c), vc_Token (cn_Vault c));
   ("connectors.boundary", bc_Addr (cn_Boundary c), bc_Token (cn_Boundary c));
   ("connectors.argocd", ac_Addr (cn_ArgoCD c), ac_Token (cn_ArgoCD c));
   ("connectors.aws", aw_Addr (cn_AWS c), aw_Token (cn_AWS c))].

(** The first check that fails. *)
Definition first_error (l : list (result unit)) : result unit :=
  fold_right (λ r rest, match r with Ok _ => rest | Err e => Err e end) (Ok tt) l.

Definition Validate (c : Config) : result unit :=
  let gw := cfg_Gateway c in
  let tr := cfg_ToolRouter c in
  _ ← check (negb (gw_HTTPAddr gw =? "")) "gateway.http_addr required";
  _ ← check (negb (sc_PostgresDSN (cfg_Storage c) =? "")) "storage.postgres_dsn required";
  _ ← validateOIDC "gateway" (gw_OIDCIssuer gw) (gw_OIDCClientID gw) (gw_OIDCJWKSURL gw);
  _ ← validateOIDC "tool_router" (tr_OIDCIssuer tr) (tr_OIDCClientID tr) (tr_OIDCJWKSURL tr);
  _ ← validate_llm (cfg_LLM c);
  _ ← validate_sandbox (cfg_Sandbox c);
  _ ← first_error (map (λ '(prefix, addr, token), validateTokenAddr prefix addr token) (endpoints (cfg_Connectors c)));
  check (blank (cho_SlackSigningSecret (cfg_ChatOps c)) ||
         negb (blank (cho_GatewayURL (cfg_ChatOps c)) && blank (gw_HTTPAddr gw)))
    "chatops.gateway_url required when chatops.slack_signing_secret is set".

(** The configuration is not used when its check fails. *)
Definition LoadConfig (ReadFile : string → result string) (path : string) : result Config :=
  data ← ReadFile path;
  j ← unmarshal (doc_of_text data);
  c ← decode_Config no_Config j;
  _ ← Validate c;
  Ok c.

(** What the context service is made of; [visit] is the order the tags are ranged over. *)
Definition context_config (visit : gmap string (list string) → list (string * list string)) (c : Config)
    : ContextConfig :=
  let x := cfg_Context c in
  mkContextConfig (cx_Enabled x) (cx_Labels x)
    (mkContextRef (cx_TenantID x) (cx_Environment x) (cx_ClusterID x) (cx_Namespace x) (cx_AWSAccountID x)
       (cx_Region x) (cx_ArgoCDProject x) (cx_GrafanaOrgID x))
    (cx_ArgoApps x) (visit (cx_AWSResourceTags x)) (cx_PromQLQueries x) (cx_TraceQLQueries x)
    (cx_GrafanaFolders x) (cx_Services x) (cx_HelmNamespaces x) (cx_K8sNamespaces x) (cx_K8sResources x)
    (cx_WatchSendInitialEvents x) (cx_WatchAllowBookmarks x) (cx_WatchTimeoutSecs x) (cx_WatchIntervalSecs x)
    (cx_PollIntervalSecs x) (cx_SnapshotIntervalSecs x)
    (th_Addr (cn_Thanos (cfg_Connectors c))) (am_Addr (cn_Alertmanager (cfg_Connectors c))).
