(* ===== verification/Services.v ===== *)
(** * Services: the policy service, the object store, a plan's diagnostics, the proxy

    PolicyService.Evaluate of internal/policy/opa.go, internal/storage/object_store.go,
    internal/web/diagnostics.go and the connections of internal/tools/egress_proxy.go.

    The HTTP exchange with the policy service, the [aws] command line, the connections of
    the proxy and the clock are what they answer. *)

From S2P Require Import Prelude GoStrings Json ContextRef Steps Policy Constraints Sandbox Http ToolValidate.
From S2P Require Import ToolRouter Remote Pollers Config.
From Stdlib Require Import Ascii.

Local Open Scope string_scope.
Local Open Scope list_scope.

(** ** The policy service *)

Record PolicyService := mkPolicyService { ps_OPAURL : string; ps_PolicyPackage : string }.

Definition omit_empty (key v : string) : list (string * any) := if v =? "" then [] else [(key, AStr v)].

(** The policy input both servers build, as it is marshalled. *)
Definition policy_input_any (input : PolicyInput) : any :=
  AStruct "PolicyInput"
    [("actor", pi_Actor input);
     ("action", AStruct "Action" [("name", AStr (pi_ActionName input)); ("type", AStr (pi_ActionType input))]);
     ("context", ref_any (pi_Context input));
     ("resources", AMap {["break_glass" := ABool (pi_BreakGlass input)]});
     ("risk", AStruct "Risk"
        ([("level", AStr (pi_RiskLevel input))] ++
         (if (pi_Targets input =? 0)%Z then [] else [("targets", AInt (pi_Targets input))]) ++
         omit_empty "blast_radius" (pi_BlastRadius input) ++ omit_empty "tier" (pi_Tier input)));
     ("time", AStr (pi_Time input))].

Definition into_map : string → gmap string any → list (string * json) → result (gmap string any) :=
  fld (λ m x, n ← decode_map x; Ok (match x with JNull => n | _ => n ∪ m end)).
Definition decode_decision (d : PolicyDecision) (j : json) : result PolicyDecision :=
  fs ← Json.members j;
  s ← into_string "decision" (Decision_ d) fs; c ← into_map "constraints" (Constraints d) fs;
  t ← into_int "ttl" (TTL d) fs;
  Ok (mkDecision s c t).
Definition decode_opa_response (j : json) : result PolicyDecision :=
  fs ← Json.members j; fld decode_decision "result" (plain_decision "") fs.

(** strings.Trim(s, "/") and strings.ReplaceAll(s, ".", "/") *)
Definition trim_slashes (s : string) : string := trim_right_slashes (strip_all (String.length s) ["/"] s).
Definition dots_to_slashes (s : string) : string :=
  fold_right (λ c t, String (if Ascii.eqb c "." then "/"%char else c) t) "" (chars s).

Definition opa_url (p : PolicyService) : string :=
  trim_right_slashes (TrimSpace (ps_OPAURL p)) +:+ "/v1/data/" +:+
  dots_to_slashes (trim_slashes (TrimSpace (ps_PolicyPackage p))).

(** [post]: http.Client.Post's status and the first document of its answer. *)
Definition Evaluate_any (post : string → json → result (Z * doc)) (p : PolicyService) (input : any) :
    result PolicyDecision :=
  body ← marshal (AMap {["input" := input]});
  '(status, data) ← post (opa_url p) body;
  _ ← check (negb ((status <? 200)%Z || (300 <=? status)%Z)) ("opa status " +:+ itoa status);
  j ← unmarshal data;
  decode_opa_response j.
Definition Evaluate (post : string → json → result (Z * doc)) (p : PolicyService) : Checker :=
  λ input, Evaluate_any post p (policy_input_any input).

Example opa_url_ex :
  opa_url (mkPolicyService "http://opa:8181/ " "/policy.assistant.v1") = "http://opa:8181/v1/data/policy/assistant/v1".
Proof. vm_compute. reflexivity. Qed.

(** ** The object store *)

Record ObjectStore := mkObjectStore { obj_Endpoint : string; obj_Bucket : string }.

(** os/exec: the output of a command with its standard input, and its error. *)
Class CommandRunner (W : Type) := { runCommand : list string → option string → W → (string * option string) * W }.

Definition obj_Enabled (o : ObjectStore) : bool := negb (blank (obj_Bucket o)).

Definition ErrObjectStoreDisabled : string := "object store disabled".
Definition ErrInvalidObjectKey : string := "invalid object key".

Definition objectURI (o : ObjectStore) (key : string) : result string :=
  let trimmed := TrimSpace key in
  if trimmed =? "" then Err ErrInvalidObjectKey
  else if has_prefix trimmed "s3://" then Ok trimmed
  else if negb (obj_Enabled o) then Err ErrObjectStoreDisabled
  else
    let trimmed := trim_prefix trimmed "/" in
    if trimmed =? "" then Err ErrInvalidObjectKey
    else Ok ("s3://" +:+ obj_Bucket o +:+ "/" +:+ trimmed).

Definition endpoint_args (o : ObjectStore) : list string :=
  if obj_Endpoint o =? "" then [] else ["--endpoint-url"; obj_Endpoint o].
Definition put_args (o : ObjectStore) (uri : string) : list string :=
  ["aws"; "s3"; "cp"; "--only-show-errors"] ++ endpoint_args o ++ ["-"; uri].
(** A quarter of an hour when the time to live is not positive; whole seconds. *)
Definition presign_args (o : ObjectStore) (uri : string) (ttl : Z) : list string :=
  let ttl := if (ttl <=? 0)%Z then (15 * 60 * nano)%Z else ttl in
  ["aws"; "s3"; "presign"] ++ endpoint_args o ++ [uri; "--expires-in"; itoa (Z.quot ttl nano)].

Section store.
Context {W : Type} `{!CommandRunner W}.

Definition Put (o : ObjectStore) (key data : string) (w : W) : result string * W :=
  match objectURI o key with
  | Err e => (Err e, w)
  | Ok uri =>
      let '((out, err), w) := runCommand (put_args o uri) (Some data) w in
      (match err with
       | Some e => Err ("aws s3 cp failed: " +:+ e +:+ ": " +:+ TrimSpace out)
       | None => Ok uri
       end, w)
  end.

Definition Presign (o : ObjectStore) (key : string) (ttl : Z) (w : W) : result string * W :=
  match objectURI o key with
  | Err e => (Err e, w)
  | Ok uri =>
      let '((out, err), w) := runCommand (presign_args o uri ttl) None w in
      (match err with
       | Some e => Err ("aws s3 presign failed: " +:+ e +:+ ": " +:+ TrimSpace out)
       | None => Ok (TrimSpace out)
       end, w)
  end.
End store.

(** ** A plan's diagnostics *)

Fixpoint unique_after (seen : gset string) (items : list string) : list string :=
  match items with
  | [] => []
  | item :: rest =>
      let item := TrimSpace item in
      if (item =? "") || bool_decide (item ∈ seen) then unique_after seen rest
      else item :: unique_after ({[item]} ∪ seen) rest
  end.
Definition uniqueStrings : list string → list string := unique_after ∅.

Definition queryFromIntent : string → string := defaultQueryFromIntent.

Definition diagnosticHintsFromConstraints (constraints : any) (intent : string) :
    list string * list string * list string :=
  let hints := match constraints with
               | AMap c => match mget c "diagnostic_hints" with AMap hints => Some hints | _ => Some c end
               | _ => None
               end in
  let read key := match hints with Some m => stringSliceFromAny (mget m key) | None => [] end in
  let prom := match read "promql" with [] => [queryFromIntent intent] | l => l end in
  (uniqueStrings prom, uniqueStrings (read "traceql"), uniqueStrings (read "trace_ids")).

(** A tool call that gathers evidence, the evidence's type and its query. *)
Record route := mkRoute {
  rt_tool : string; rt_action : string; rt_input : gmap string any; rt_type : string; rt_query : string }.

Definition diagnostic_routes (start end_ : string) (hints : list string * list string * list string) : list route :=
  let '(prom, trace, ids) := hints in
  [mkRoute "prometheus" "rules" ∅ "promql" "rules"] ++
  concat (map (λ q,
    let range := [("query", AStr q); ("start", AStr start); ("end", AStr end_)] in
    [mkRoute "prometheus" "query_range" (amap (range ++ [("step", AStr "60s")])) "promql" q;
     mkRoute "prometheus" "query_exemplars" (amap range) "promql" q]) prom) ++
  map (λ q, mkRoute "tempo" "traceql" (amap [("query", AStr q)]) "traceql" q) trace ++
  map (λ id, mkRoute "tempo" "trace_by_id" (amap [("trace_id", AStr id)]) "traceql" id) ids.

Definition route_request (ctxRef : ContextRef) (r : route) : ExecuteRequest :=
  mkRequest (rt_tool r) (rt_action r) (AMap (rt_input r)) "" "" ctxRef.

Class Clocked (W : Type) := { time_now : W → Z * W }.

(** [ToolDiagnostics]; [None] is a nil router or store. *)
Record ToolDiagnostics := mkDiagnostics {
  td_Router : option RouterClient; td_Store : option ObjectStore; td_PresignTTL : Z }.

Section diagnostics.
Context {W : Type} `{!RouterTransport W} `{!CommandRunner W} `{!Clocked W}.
(** time.RFC3339 and the compact form of a key. *)
Variables rfc3339 compact : Z → string.

Definition storeDiagnostic (d : ToolDiagnostics) (tool action output : string) (w : W) : string * string * W :=
  match td_Store d with
  | None => ("", "", w)
  | Some store =>
      if output =? "" then ("", "", w)
      else
        let '(t, w) := time_now w in
        let key := "diagnostics/" +:+ compact t +:+ "/" +:+ tool +:+ "-" +:+ action +:+ ".json" in
        match Put store key output w with
        | (Err _, w) => ("", "", w)
        | (Ok ref, w) =>
            let '(signed, w) := Presign store ref (td_PresignTTL d) w in
            (ref, match signed with Ok link => link | Err _ => "" end, w)
        end
  end.

(** A call that fails leaves no evidence. *)
Fixpoint collect_routes (d : ToolDiagnostics) (c : RouterClient) (ctxRef : ContextRef) (routes : list route) (w : W) :
    list DiagnosticEvidence * W :=
  match routes with
  | [] => ([], w)
  | r :: rest =>
      match client_Execute c (route_request ctxRef r) w with
      | (Err _, w) => collect_routes d c ctxRef rest w
      | (Ok resp, w) =>
          let '(ref, link, w) := storeDiagnostic d (rt_tool r) (rt_action r) (Output resp) w in
          let '(out, w) := collect_routes d c ctxRef rest w in
          (mkDiag (rt_type r) (rt_query r) ref link :: out, w)
      end
  end.

Definition Collect (d : ToolDiagnostics) (ctxRef : ContextRef) (intent : string) (constraints : any) (w : W) :
    result (list DiagnosticEvidence) * W :=
  match td_Router d with
  | None => (Ok [], w)
  | Some c =>
      let hints := diagnosticHintsFromConstraints constraints intent in
      let '(now, w) := time_now w in
      let '(out, w) := collect_routes d c ctxRef
        (diagnostic_routes (rfc3339 (now - 15 * 60 * nano)%Z) (rfc3339 now) hints) w in
      (Ok out, w)
  end.
End diagnostics.

(** ** A connection of the egress proxy *)

Inductive contact :=
| Dial (host : string)              (* net.Dial, and the copying both ways *)
| RoundTrip (host : string).        (* the request sent on *)

Inductive proxy_answer := Forbidden | BadGateway | Established | Relayed | Dropped.

Section proxy.
(** url.Parse: the host with its port, and Hostname. *)
Variable url_host url_hostname : string → option string.
Variable allowlist : list string.

Definition proxy_allowHost (raw : string) : bool :=
  let host := TrimSpace raw in
  if host =? "" then false
  else
    let host := if contains host "://" then host else "http://" +:+ host in
    match url_host host, url_hostname host with
    | Some h, Some name => negb (name =? "") && allowHost url_hostname ("http://" +:+ h) allowlist
    | _, _ => false
    end.

(** http.ReadRequest's answer: the method, the Host and the URL's host ([None]: no URL);
    [reachable] is whether a host could be contacted. *)
Definition handleConn (reachable : contact → bool) (req : option (string * string * option string)) :
    proxy_answer * list contact :=
  match req with
  | None => (Dropped, [])
  | Some (method, host, url) =>
      if method =? "CONNECT" then
        if negb (proxy_allowHost host) then (Forbidden, [])
        else (if reachable (Dial host) then Established else BadGateway, [Dial host])
      else
        match url with
        | None => (Dropped, [])
        | Some uhost =>
            let uhost := if (uhost =? "") && negb (host =? "") then host else uhost in
            if negb (proxy_allowHost uhost) then (Forbidden, [])
            else (if reachable (RoundTrip uhost) then Relayed else BadGateway, [RoundTrip uhost])
        end
  end.
End proxy.

(** ** Theorems *)

(** *** The policy service *)

(** A policy OPA does not define: a package that does not exist, or no package at all. *)
Definition undefined_answer (post : string → json → result (Z * doc)) : Prop :=
  ∀ url j, ∃ fs, post url j = Ok (200%Z, doc_json (JObj fs)) ∧ forallb (λ kv, negb (EqualFold kv.1 "result")) fs = true.

Lemma fld_absent {A} (step : A → json → result A) name a fs :
  forallb (λ kv, negb (EqualFold kv.1 name)) fs = true → fld step name a fs = Ok a.
Proof.
  unfold fld. induction fs as [|[k x] fs IH]; [done|]. cbn [forallb fst]. intros [Hk Hf]%andb_true_iff.
  apply negb_true_iff in Hk. cbn [fold_left]. cbn [mbind result_bind]. rewrite Hk. by apply IH.
Qed.

Lemma undefined_decision post p input d :
  undefined_answer post → Evaluate post p input = Ok d → d = plain_decision "".
Proof.
  intros Hp. unfold Evaluate, Evaluate_any. destruct (marshal _) as [body|]; [|done]. cbn [mbind result_bind].
  destruct (Hp (opa_url p) body) as (fs & -> & Hf). cbn [mbind result_bind].
  cbn -[decode_opa_response fld]. unfold decode_opa_response. cbn [members mbind result_bind].
  rewrite fld_absent by done. by intros [= <-].
Qed.

Lemma actor_marshals claims r :
  is_Some (to_json (router_actor claims r)).
Proof.
  apply to_json_map_ok. intros k v Hv%elem_of_list_to_map_2. revert Hv.
  repeat (intros [[= -> ->]|Hv]%elem_of_cons; [by (eexists + case_match; eexists)|]; revert Hv).
  by intros ?%elem_of_nil.
Qed.

Lemma input_marshals input :
  is_Some (to_json (pi_Actor input)) → is_Some (to_json (AMap {["input" := policy_input_any input]})).
Proof.
  intros [a Ha]. apply to_json_map_ok. intros k v Hv%lookup_singleton_Some. destruct Hv as [_ <-].
  unfold policy_input_any. cbn [to_json opt_map fold_right]. rewrite Ha.
  destruct (to_json_map_ok {["break_glass" := ABool (pi_BreakGlass input)]}) as [b Hb].
  { intros k' v' [_ <-]%lookup_singleton_Some. by eexists. }
  cbn [to_json] in Hb. rewrite Hb. unfold omit_empty.
  destruct (pi_Targets input =? 0)%Z, (pi_BlastRadius input =? ""), (pi_Tier input =? ""); by eexists.
Qed.

(** C18: the tool router answers an undefined policy with yes: when OPA has no decision
    for the package asked - the package is not loaded, or none is configured - every
    authenticated call whose context is complete is allowed, but those of high risk
    without break glass. *)
Theorem undefined_policy_allows post p claims r tool action ctxRef time :
  undefined_answer post → validateContextRefStrict ctxRef = Ok tt →
  (riskForToolAction tool action = "high" → router_break_glass r = true) →
  authorize (Some (Evaluate post p)) claims r tool action ctxRef time = Ok tt.
Proof.
  intros Hp Hctx Hrisk. unfold authorize. rewrite Hctx. cbn [mbind result_bind Evaluator_Check].
  set (input := router_policy_input claims r tool action ctxRef time).
  assert (Evaluate post p input = Ok (plain_decision "")) as ->.
  { unfold Evaluate, Evaluate_any, marshal. destruct (input_marshals input (actor_marshals claims r)) as [j ->].
    cbn [of_option mbind result_bind]. destruct (Hp (opa_url p) j) as (fs & -> & Hf).
    cbn [mbind result_bind]. cbn -[decode_opa_response fld]. unfold decode_opa_response.
    cbn [members mbind result_bind]. by rewrite fld_absent. }
  destruct (String.eqb_spec (riskForToolAction tool action) "high") as [Hh|Hh]; [|done].
  by rewrite (Hrisk Hh).
Qed.

Lemma undefined_policy_allows_witness :
  authorize (Some (Evaluate (λ _ _, Ok (200%Z, doc_json (JObj [("decision_id", JStr "1")])))
      (mkPolicyService "http://opa:8181" "")))
    service_claims (sent demo_client JNull) "kubectl" "scale" prod_ref "2024-05-01T12:00:00Z" = Ok tt.
Proof.
  apply undefined_policy_allows; [|reflexivity|discriminate].
  intros url j. exists [("decision_id", JStr "1")]. split; reflexivity.
Defined.

(** *** The object store *)
Lemma strip_one_stop pats c a b :
  Forall (λ p, string_in c p = false) pats → strip_one pats a = None → strip_one pats (a +:+ String c b) = None.
Proof.
  induction 1 as [|p pats Hp _ IH]; [done|]. cbn [strip_one]. destruct (strip_prefix p a) eqn:Ea; [done|]. intros H.
  destruct (strip_prefix p (a +:+ String c b)) as [r|] eqn:E; [|by apply IH]. exfalso.
  apply strip_prefix_Some in E as [(e & -> & _)|(e & -> & He)]%string_app_split.
  - by rewrite (proj2 (strip_prefix_Some p _ e) eq_refl) in Ea.
  - destruct e as [|d e].
    + rewrite string_app_nil_r in Ea. by rewrite (proj2 (strip_prefix_Some a a "") (eq_sym (string_app_nil_r a))) in Ea.
    + injection He as <- _. rewrite string_in_app, string_in_cons in Hp. cbn [string_in] in Hp.
      rewrite Ascii.eqb_refl in Hp. by rewrite orb_true_r in Hp.
Qed.

Lemma spaces_no_slash : Forall (λ p, string_in "/" p = false) (map srev spaces).
Proof. repeat constructor. Qed.

(** A stored object is named by one URI whichever store or endpoint is asked: the
    URI of a key is its own, so that a link signed for what Put returned opens the object
    Put wrote, whatever characters the key had. *)
Theorem objectURI_stable o o' key uri :
  objectURI o key = Ok uri → objectURI o' uri = Ok uri.
Proof.
  unfold objectURI at 1. set (t := TrimSpace key).
  destruct (String.eqb_spec t "") as [|Hne]; [done|].
  assert (∀ u, TrimSpace u = u → u ≠ "" → has_prefix u "s3://" = true → objectURI o' u = Ok u) as Hfix.
  { intros u Ht Hu Hp. unfold objectURI. rewrite Ht, Hp. by destruct (String.eqb_spec u ""). }
  destruct (has_prefix t "s3://") eqn:Hp.
  { intros [= <-]. apply Hfix; [apply TrimSpace_idemp|done..]. }
  destruct (obj_Enabled o); cbn [negb]; [|done].
  destruct (String.eqb_spec (trim_prefix t "/") "") as [|Hs]; [done|]. intros [= <-].
  set (s := trim_prefix t "/") in *.
  assert (strip_one (map srev spaces) (srev s) = None) as Hend.
  { destruct (TrimSpace_ends key) as [_ He]. fold t in He. subst s. unfold trim_prefix in *.
    destruct (strip_prefix "/" t) as [r|] eqn:E; [|exact He]. apply strip_prefix_Some in E. rewrite E, srev_app in He.
    by apply strip_one_None_app in He. }
  set (u := "s3://" +:+ obj_Bucket o +:+ "/" +:+ s). apply Hfix; [|by subst u|].
  - apply TrimSpace_fixed; [reflexivity|]. subst u. rewrite !srev_app, !string_app_assoc.
    change (srev "/" +:+ ?x) with (String "/" x). by apply strip_one_stop; [apply spaces_no_slash|].
  - apply has_prefix_app.
Qed.

Lemma objectURI_stable_witness :
  objectURI (mkObjectStore "" "") "s3://evidence/diagnostics/2024/a b.json" = Ok "s3://evidence/diagnostics/2024/a b.json".
Proof. apply (objectURI_stable (mkObjectStore "http://minio:9000" "evidence") _ " /diagnostics/2024/a b.json "). vm_compute. reflexivity. Defined.

(** *** Diagnostics *)

(** The queries are trimmed, not empty and each asked once, and none is lost. *)
Lemma unique_after_spec (seen : gset string) items :
  NoDup (unique_after seen items) ∧
  ∀ x, x ∈ unique_after seen items ↔ x ∉ seen ∧ x ≠ "" ∧ ∃ item, item ∈ items ∧ TrimSpace item = x.
Proof.
  revert seen. induction items as [|item items IH]; intros seen; cbn [unique_after].
  { split; [constructor|]. intros x. rewrite elem_of_nil. split; [done|]. intros (_ & _ & i & []%elem_of_nil & _). }
  destruct (String.eqb_spec (TrimSpace item) "") as [He|Hne]; cbn [orb].
  { destruct (IH seen) as [Hnd Hx]. split; [done|]. intros x. rewrite Hx. set_solver. }
  case_bool_decide as Hs.
  { destruct (IH seen) as [Hnd Hx]. split; [done|]. intros x. rewrite Hx. set_solver. }
  destruct (IH ({[TrimSpace item]} ∪ seen)) as [Hnd Hx]. split.
  - constructor; [|done]. rewrite Hx. set_solver.
  - intros x. rewrite elem_of_cons, Hx. destruct (decide (x = TrimSpace item)) as [->|Hd]; set_solver.
Qed.

Theorem uniqueStrings_spec items :
  NoDup (uniqueStrings items) ∧
  ∀ x, x ∈ uniqueStrings items ↔ x ≠ "" ∧ ∃ item, item ∈ items ∧ TrimSpace item = x.
Proof.
  destruct (unique_after_spec ∅ items) as [Hnd Hx]. split; [done|]. intros x. unfold uniqueStrings.
  rewrite Hx. set_solver.
Qed.

(** Gathering evidence never fails: each piece is of one of the routes, in their order,
    and has a link only when its object was stored. *)
Theorem Collect_evidence {W} `{!RouterTransport W} `{!CommandRunner W} `{!Clocked W} rfc3339 compact d ctxRef intent constraints (w : W) :
  ∃ out now,
    (Collect rfc3339 compact d ctxRef intent constraints w).1 = Ok out ∧
    map (λ e, (diag_Type e, diag_Query e)) out `sublist_of`
      map (λ r, (rt_type r, rt_query r))
        (diagnostic_routes (rfc3339 (now - 15 * 60 * nano)%Z) (rfc3339 now)
           (diagnosticHintsFromConstraints constraints intent)) ∧
    Forall (λ e, diag_ResultRef e = "" → diag_Link e = "") out.
Proof.
  unfold Collect. destruct (td_Router d) as [c|].
  2: { exists [], 0%Z. split; [done|]. split; [apply sublist_nil_l|constructor]. }
  destruct (time_now w) as [now w0]. set (routes := diagnostic_routes _ _ _).
  assert (∀ l w, let '(out, _) := collect_routes compact d c ctxRef l w in
    map (λ e, (diag_Type e, diag_Query e)) out `sublist_of` map (λ r, (rt_type r, rt_query r)) l ∧
    Forall (λ e, diag_ResultRef e = "" → diag_Link e = "") out) as H.
  { clear. induction l as [|r l IH]; intros w; cbn [collect_routes]; [split; constructor|].
    destruct (client_Execute c _ w) as [[resp|] w1].
    - assert (let '(ref, link, _) := storeDiagnostic compact d (rt_tool r) (rt_action r) (Output resp) w1 in
              ref = "" → link = "") as Hl.
      { unfold storeDiagnostic. destruct (td_Store d) as [o|]; [|done]. destruct (_ =? ""); [done|].
        destruct (time_now w1) as [t w2]. unfold Put. destruct (objectURI o _) as [uri|] eqn:Eu; [|done].
        destruct (runCommand _ _ w2) as [[out [e|]] w3]; [done|]. destruct (Presign o uri _ w3) as [signed w4].
        intros ->. exfalso. revert Eu. unfold objectURI. repeat case_match; try done; intros [= E]; by destruct (TrimSpace _). }
      destruct (storeDiagnostic _ _ _ _ _ w1) as [[ref link] w2]. specialize (IH w2).
      destruct (collect_routes _ _ _ _ l w2) as [out w3]. destruct IH as [IH1 IH2]. split; [by constructor|by constructor].
    - specialize (IH w1). destruct (collect_routes _ _ _ _ l w1) as [out w2]. destruct IH. split; [by constructor|done]. }
  specialize (H routes w0). destruct (collect_routes _ _ _ _ routes w0) as [out w1].
  exists out, now. split; [done|exact H].
Qed.

(** *** The proxy *)

(** The egress proxy contacts nothing but hosts the allowlist allows: whatever a
    connection asks, it dials or sends on to at most one host, and that host passed the
    check; a refused request reaches nobody. *)
Theorem proxy_contacts_allowed url_host url_hostname allowlist reachable req :
  let '(answer, contacts) := handleConn url_host url_hostname allowlist reachable req in
  (answer = Forbidden → contacts = []) ∧ (length contacts ≤ 1)%nat ∧
  ∀ c, c ∈ contacts → ∃ raw h,
    (c = Dial raw ∨ c = RoundTrip raw) ∧
    url_host (if contains (TrimSpace raw) "://" then TrimSpace raw else "http://" +:+ TrimSpace raw) = Some h ∧
    allowHost url_hostname ("http://" +:+ h) allowlist = true.
Proof.
  assert (∀ raw, proxy_allowHost url_host url_hostname allowlist raw = true → ∃ h,
    url_host (if contains (TrimSpace raw) "://" then TrimSpace raw else "http://" +:+ TrimSpace raw) = Some h ∧
    allowHost url_hostname ("http://" +:+ h) allowlist = true) as Hallow.
  { intros raw. unfold proxy_allowHost. destruct (TrimSpace raw =? ""); [done|].
    destruct (url_host _) as [h|]; [|done]. case_match; [|done].
    intros [_ Hh]%andb_true_iff. by exists h. }
  assert (∀ raw c, proxy_allowHost url_host url_hostname allowlist raw = true → c = Dial raw ∨ c = RoundTrip raw →
    ∀ c', c' ∈ [c] → ∃ raw h, (c' = Dial raw ∨ c' = RoundTrip raw) ∧
      url_host (if contains (TrimSpace raw) "://" then TrimSpace raw else "http://" +:+ TrimSpace raw) = Some h ∧
      allowHost url_hostname ("http://" +:+ h) allowlist = true) as Hone.
  { intros raw c Hr Hc c' ->%list_elem_of_singleton. destruct (Hallow raw Hr) as (h & ? & ?). by exists raw, h. }
  assert (∀ c : contact, c ∈ [] → False) as Hnil by (intros c; apply not_elem_of_nil).
  unfold handleConn. destruct req as [[[method host] url]|]; [|split_and!; [done|simpl; lia|by intros c ?%Hnil]].
  destruct (method =? "CONNECT"); [|destruct url as [uhost|]];
    [destruct (proxy_allowHost _ _ _ host) eqn:E
    |match goal with |- context [proxy_allowHost _ _ _ ?h] => destruct (proxy_allowHost url_host url_hostname allowlist h) eqn:E end|]; cbn [negb];
    (split_and!; [try (match goal with |- context [reachable ?c] => destruct (reachable c) end); done|simpl; lia|]); try (intros c ?%Hnil; done).
  - apply (Hone host); [done|by left].
  - eapply Hone; [exact E|by right].
Qed.
