(* ===== verification/Redaction.v ===== *)
(** * Redaction: what the tool router hides in its logs

    internal/tools/redact.go, with regexp.Compile for the patterns it is given by
    default: case-insensitive literals, escaped punctuation and repetitions. *)

From S2P Require Import Prelude GoStrings Json ToolRouter Prompt.
From Stdlib Require Import Ascii.

Local Open Scope string_scope.
Local Open Scope list_scope.

(** The patterns as they are written between back quotes: two backslashes are two. *)
Definition DefaultRedactPatterns : list string :=
  ["(?i)token=\\w+"; "(?i)secret=\\w+"; "(?i)x-api-key:\\s*\\S+"].

(** ** Compiling *)

Definition backslash : ascii := byte 92.
Definition regex_meta (c : ascii) : bool := string_in c "\.+*?()|[]{}^$".
Definition alphanumeric (c : ascii) : bool := between 48 57 c || between 65 90 c || between 97 122 c.

(** A literal and the repetition after it. *)
Definition repeated (parse : string → option (list pat)) (alts : list string) (s : string) : option (list pat) :=
  match s with
  | String c rest =>
      if Ascii.eqb c "+" then cons (Rep1 alts) <$> parse rest
      else if Ascii.eqb c "*" then cons (Rep0 alts) <$> parse rest
      else cons (Ch alts) <$> parse s
  | "" => cons (Ch alts) <$> parse s
  end.

(** An escaped punctuation character stands for itself; classes are not of the subset. *)
Fixpoint literal_regex (fuel : nat) (s : string) : option (list pat) :=
  match fuel, s with
  | _, "" => Some []
  | S fuel, String c rest =>
      if Ascii.eqb c backslash then
        match rest with
        | String d rest => if alphanumeric d then None else repeated (literal_regex fuel) [String d ""] rest
        | "" => None
        end
      else if regex_meta c then None
      else repeated (literal_regex fuel) (folded c) rest
  | O, _ => None
  end.
Definition Compile (pattern : string) : option (list pat) :=
  body ← strip_prefix "(?i)" pattern; literal_regex (String.length body) body.

Definition ReplaceAllString (ps : list pat) : string → string := replace_with "***" ps.

(** Patterns that do not compile are left out; no pattern is the nil redactor. *)
Definition NewRedactor (compile : string → option (string → string)) (patterns : list string) : option Redactor :=
  match omap (λ p, if p =? "" then None else compile p) patterns with [] => None | compiled => Some compiled end.

Definition compile_literal (pattern : string) : option (string → string) := ReplaceAllString <$> Compile pattern.

(** What they do hide, and what they do not. *)
Example redacted_ex :
  RedactString (NewRedactor compile_literal DefaultRedactPatterns) "SECRET=\wwW; x-api-key:\ssſ\S"
  = "***; ***".
Proof. vm_compute. reflexivity. Qed.

(** ** Theorems *)

(** A pattern with a literal that every match contains. *)
Definition needs (c : ascii) (ps : list pat) : bool :=
  existsb (λ p, match p with Ch [a] => a =? String c "" | _ => false end) ps.

Lemma needs_matches c ps u : matches ps u → needs c ps = true → string_in c u = true.
Proof.
  unfold needs. induction 1 as [|alts rest alt u Hin H IH|d rest u Hd H IH|d rest u Hd H IH|rest u H IH
    |alts rest alt u Hin Hne H IH|alts rest alt u Hin Hne H IH|alts rest u H IH|qs rest u H IH|qs rest u H IH];
    cbn [existsb orb]; intros Hn.
  - done.
  - rewrite string_in_app. apply orb_true_iff in Hn as [Hc|Hn]; [|rewrite IH by done; apply orb_true_r].
    destruct alts as [|a [|]]; try done. apply list_elem_of_singleton in Hin as ->.
    apply String.eqb_eq in Hc as ->. cbn [string_in]. by rewrite Ascii.eqb_refl.
  - rewrite string_in_cons, IH by done. apply orb_true_r.
  - rewrite string_in_cons, IH by done. apply orb_true_r.
  - by apply IH.
  - rewrite string_in_app, IH by done. apply orb_true_r.
  - rewrite string_in_app, IH by done. apply orb_true_r.
  - by apply IH.
  - apply IH. rewrite existsb_app, Hn. apply orb_true_r.
  - by apply IH.
Qed.

Lemma replace_needing c ps s :
  needs c ps = true → string_in c s = false → replace_with "***" ps s = s.
Proof.
  intros Hps. unfold replace_with. generalize (String.length s) as n. intros n. revert s.
  induction n as [|n IH]; intros [|d s] Hs; [done..|]. cbn [replace_from].
  destruct (match_at ps (String d s)) as [r|] eqn:E.
  - apply match_at_sound in E as (u & Hu & Hm). rewrite Hu, string_in_app, (needs_matches c ps u Hm Hps) in Hs. done.
  - rewrite string_in_cons in Hs. apply orb_false_iff in Hs as [_ Hs]. by rewrite IH.
Qed.

Lemma redact_needing c l s :
  forallb (needs c) l = true → string_in c s = false → foldl (λ s re, re s) s (map ReplaceAllString l) = s.
Proof.
  induction l as [|ps l IH]; [done|]. cbn [forallb map foldl]. intros [Hp Hl]%andb_true_iff Hs.
  unfold ReplaceAllString at 1. rewrite (replace_needing c) by done. by apply IH.
Qed.

(** The default patterns compile, and each needs a backslash. *)
Lemma default_compiled :
  ∃ l, NewRedactor compile_literal DefaultRedactPatterns = Some (map ReplaceAllString l) ∧
    forallb (needs backslash) l = true.
Proof. eexists [_; _; _]. split; [reflexivity|vm_compute; reflexivity]. Qed.

(** C17: the tool router's default redaction hides nothing: the back-quoted patterns
    escape their backslashes, so they only match texts with a backslash in them, and every
    other text - a token, a secret or an API key among them - is logged as it is. *)
Theorem default_redaction_hides_nothing s :
  string_in backslash s = false →
  RedactString (NewRedactor compile_literal DefaultRedactPatterns) s = s.
Proof.
  intros Hs. destruct default_compiled as (l & -> & Hl). unfold RedactString.
  destruct (s =? ""); [done|]. by apply (redact_needing backslash).
Qed.

Lemma default_redaction_hides_nothing_witness :
  RedactString (NewRedactor compile_literal DefaultRedactPatterns) "login token=hvs.CAESIJ secret=s3cr3t"
  = "login token=hvs.CAESIJ secret=s3cr3t".
Proof. apply default_redaction_hides_nothing. reflexivity. Defined.
