(* ===== verification/Startup.v ===== *)
(** * Startup: from the configuration to a running tool router or orchestrator

    run of cmd/tool-router/main.go and cmd/orchestrator/main.go, which make the same
    sandbox, clients and secrets of the configuration, BuildHTTPClients of
    internal/tools/clients_builder.go, the credentials of a request (ApplyAuth of
    api_auth.go and the header part of APIClient.Do), and sandbox and clients in use.

    Signals, listeners and the shutdown of a process are left out; a timer is the calls
    its ticks make. *)

From S2P Require Import Prelude GoStrings Json ContextRef Steps Policy Hubs Sandbox ToolValidate Artifacts.
From S2P Require Import ToolApi Http Auth ToolRouter RouterServer Remote Secrets Pollers Config Services.
From S2P Require Import Redaction.

Local Open Scope string_scope.
Local Open Scope list_scope.

(** ** The clients *)

Definition or_else (a b : string) : string := if a =? "" then b else a.

Record APIConfig := mkAPIConfig {
  PrometheusBase : string; AlertmanagerBase : string; ThanosBase : string; GrafanaBase : string;
  TempoBase : string; LinearBase : string; PagerDutyBase : string; VaultBase : string;
  BoundaryBase : string; ArgoCDBase : string; AWSBase : string; api_GrafanaOrgID : string;
  Tokens : gmap string string; EgressAllowlist : list string; api_MaxOutputBytes : Z }.

(** The connectors' tokens by the names of the clients. *)
Definition connector_tokens (c : ConnectorsConfig) : list (string * string) :=
  [("prometheus", pc_Token (cn_Prometheus c)); ("alertmanager", am_Token (cn_Alertmanager c));
   ("thanos", th_Token (cn_Thanos c)); ("grafana", gc_Token (cn_Grafana c)); ("tempo", tc_Token (cn_Tempo c));
   ("linear", lin_Token (cn_Linear c)); ("pagerduty", pd_Token (cn_PagerDuty c));
   ("vault", vc_Token (cn_Vault c)); ("boundary", bc_Token (cn_Boundary c)); ("argocd", ac_Token (cn_ArgoCD c));
   ("aws", aw_Token (cn_AWS c))].

Definition client_token (cfg : Config) (api : APIConfig) (name : string) : string :=
  or_else (default "" (Tokens api !! name))
    (default "" ((list_to_map (connector_tokens (cfg_Connectors cfg)) : gmap string string) !! name)).

(** An empty base, organisation or limit is the configuration's. *)
Definition BuildHTTPClients (cfg : Config) (api : APIConfig) : HTTPClients :=
  let c := cfg_Connectors cfg in
  let maxOutput := if (api_MaxOutputBytes api =? 0)%Z then sb_MaxOutputBytes (cfg_Sandbox cfg)
                   else api_MaxOutputBytes api in
  let client base configured := Some (mkClient (or_else base configured) (EgressAllowlist api) maxOutput) in
  mkClients
    (client (PrometheusBase api) (pc_Addr (cn_Prometheus c)))
    (client (AlertmanagerBase api) (am_Addr (cn_Alertmanager c)))
    (client (ThanosBase api) (th_Addr (cn_Thanos c)))
    (client (GrafanaBase api) (gc_Addr (cn_Grafana c)))
    (client (TempoBase api) (tc_Addr (cn_Tempo c)))
    (client (LinearBase api) (lin_BaseURL (cn_Linear c)))
    (client (PagerDutyBase api) (pd_Addr (cn_PagerDuty c)))
    (client (VaultBase api) (vc_Addr (cn_Vault c)))
    (client (BoundaryBase api) (bc_Addr (cn_Boundary c)))
    (client (ArgoCDBase api) (ac_Addr (cn_ArgoCD c)))
    (client (AWSBase api) (aw_Addr (cn_AWS c))).

(** *** What a client signs its requests with *)

Record AuthHeaders := mkAuthHeaders {
  BearerToken : string; BasicUser : string; BasicPass : string; Extra : list (string * string) }.

(** The headers of the client of a name, and the file Vault's token is read from when it
    is not configured: the sink of Vault's agent. *)
Definition client_auth (cfg : Config) (api : APIConfig) (name : string) : AuthHeaders * string :=
  let org := or_else (or_else (api_GrafanaOrgID api) (gc_OrgID (cn_Grafana (cfg_Connectors cfg)))) "1" in
  (mkAuthHeaders (client_token cfg api name) "" ""
     (if name =? "grafana" then [("X-Grafana-Org-Id", org)] else []),
   if (name =? "vault") && (client_token cfg api "vault" =? "") then vc_SinkPath (cn_Vault (cfg_Connectors cfg)) else "").

(** Headers as they are set, one over another. *)
Definition ApplyAuth (basic : string → string → string) (auth : AuthHeaders) (headers : gmap string string) :
    gmap string string :=
  let headers := if BearerToken auth =? "" then headers
                 else <["Authorization" := "Bearer " +:+ BearerToken auth]> headers in
  let headers := if BasicUser auth =? "" then headers
                 else <["Authorization" := basic (BasicUser auth) (BasicPass auth)]> headers in
  fold_left (λ h kv, <[kv.1 := kv.2]> h) (Extra auth) headers.

Definition readTokenFile (readFile : string → result string) (path : string) : result string :=
  data ← readFile path; Ok (TrimSpace data).

(** The headers of a request of APIClient.Do. *)
Definition request_headers (basic : string → string → string) (readFile : string → result string)
    (auth : AuthHeaders) (tokenFile : string) : gmap string string :=
  let token := if (BearerToken auth =? "") && negb (blank tokenFile)
               then match readTokenFile readFile tokenFile with Ok t => t | Err _ => "" end
               else BearerToken auth in
  ApplyAuth basic (mkAuthHeaders token (BasicUser auth) (BasicPass auth) (Extra auth))
    {["Content-Type" := "application/json"]}.

(** ** The sandbox *)

Definition defaultMaxOutputBytes : Z := 1000000.
Definition max_output (cfg : Config) : Z :=
  if (sb_MaxOutputBytes (cfg_Sandbox cfg) =? 0)%Z then defaultMaxOutputBytes else sb_MaxOutputBytes (cfg_Sandbox cfg).

Definition config_sandbox (cfg : Config) (env : gmap string string) : Sandbox :=
  let s := cfg_Sandbox cfg in
  mkSandbox None (sb_Enabled s) (sb_Enforce s) (sb_Runtime s) (sb_Image s) (sb_EgressAllowlist s) (sb_Mounts s)
    (sb_ReadOnlyRoot s) (sb_Tmpfs s) (sb_User s) (sb_SeccompProfile s) (sb_NoNewPrivs s) (sb_DropCaps s) env
    (sb_RequireSeccomp s) (sb_RequireNoNewPrivs s) (sb_RequireUser s) (sb_RequireDropCaps s) (sb_RequireOnWrite s)
    (sb_RequireEgressAllowlist s) (max_output cfg).

(** cmd/tool-router's and cmd/orchestrator's. *)
Definition tool_router_api (cfg : Config) : APIConfig :=
  let c := cfg_Connectors cfg in
  mkAPIConfig (pc_Addr (cn_Prometheus c)) (am_Addr (cn_Alertmanager c)) (th_Addr (cn_Thanos c))
    (gc_Addr (cn_Grafana c)) (tc_Addr (cn_Tempo c)) (lin_BaseURL (cn_Linear c)) (pd_Addr (cn_PagerDuty c))
    (vc_Addr (cn_Vault c)) (bc_Addr (cn_Boundary c)) (ac_Addr (cn_ArgoCD c)) (aw_Addr (cn_AWS c))
    (gc_OrgID (cn_Grafana c)) (list_to_map (connector_tokens c)) (sb_EgressAllowlist (cfg_Sandbox cfg)) (max_output cfg).
Definition orchestrator_api (cfg : Config) : APIConfig :=
  let c := cfg_Connectors cfg in
  mkAPIConfig (pc_Addr (cn_Prometheus c)) (am_Addr (cn_Alertmanager c)) (th_Addr (cn_Thanos c))
    (gc_Addr (cn_Grafana c)) (tc_Addr (cn_Tempo c)) (lin_BaseURL (cn_Linear c)) (pd_Addr (cn_PagerDuty c))
    "" "" "" "" (gc_OrgID (cn_Grafana c)) (list_to_map (firstn 7 (connector_tokens c)))
    (sb_EgressAllowlist (cfg_Sandbox cfg)) (max_output cfg).

Definition redact_patterns (cfg : Config) : list string :=
  match lc_RedactPatterns (cfg_LLM cfg) with [] => DefaultRedactPatterns | l => l end.

(** ** Vault's agent and the calls of a starting program *)

Definition vault_agent_config (cfg : Config) : result VaultAgentConfig :=
  let v := cn_Vault (cfg_Connectors cfg) in
  let '(source, dest) := ResolveTemplatePaths (vc_TemplateDir v) (vc_TemplateSource v) (vc_TemplateDest v) in
  BuildVaultAgentConfigFromConnectors (vc_Addr v) (vc_Namespace v) (vc_AutoAuthMethod v) (vc_AgentRole v) (vc_AuthPath v)
    (vc_AppRoleID v) (vc_AppRoleSecret v) (vc_SinkPath v) source dest (vc_RetryMaxBackoff v).

Definition audit_enable (cfg : Config) : ExecuteRequest :=
  mkRequest "vault" "audit_enable"
    (AMap (amap [("type", AStr "file"); ("path", AStr (vc_AuditPath (cn_Vault (cfg_Connectors cfg))))])) "" "" empty_ref.

(** The calls of its timers, with their periods in seconds. *)
Definition vault_timers (cfg : Config) : list (Z * ExecuteRequest) :=
  let v := cn_Vault (cfg_Connectors cfg) in
  let call action := mkRequest "vault" action (AMap ∅) "" "" empty_ref in
  (if (0 <? vc_HealthIntervalSecs v)%Z then [(vc_HealthIntervalSecs v, call "health")] else []) ++
  (if (0 <? vc_RenewIntervalSecs v)%Z then [(vc_RenewIntervalSecs v, call "token_renew")] else []).

(** Unlike OpenBoundarySession, the duration is sent when it is empty, too. *)
Definition boundary_open (cfg : Config) : ExecuteRequest :=
  let b := cn_Boundary (cfg_Connectors cfg) in
  mkRequest "boundary" "session_open"
    (AMap (amap [("target_id", AStr (bc_TargetID b)); ("duration", AStr (bc_SessionDuration b))])) "" "" empty_ref.

(** What a started program has: the variables of its sandbox, the boundary session it
    closes at the end, and whether its tunnel runs. *)
Record launched := mkStarted { sd_Env : gmap string string; sd_Session : option string; sd_Tunnel : bool }.

Section start.
Context {H : Type} `{!Host H}.
Variable sys : system.
Variable url_hostname : string → option string.
Variable schemaFS : string → option string.
Variable gojsonschema : any → any → result (list string).
Variable compile : string → option (string → string).
Variable now : list event → Z.
Variable visit : gmap string (list LogLine) → list string.
Variable open : H → string → result string.
Variable cfg : Config.
Variable api : APIConfig.

Let c := cfg_Connectors cfg.
Let redactor := NewRedactor compile (redact_patterns cfg).
Let clients := BuildHTTPClients cfg api.

(** A call of the program's own, without a context. *)
Definition own_call (env : gmap string string) (req : ExecuteRequest) : handler world answer_ answer_ :=
  Execute sys url_hostname schemaFS gojsonschema redactor now visit req (Some (config_sandbox cfg env)) clients.

(** The variables the agent's template gives. *)
Definition start_vault_agent (h : H) : gmap string string * H :=
  let v := cn_Vault c in
  if (vc_Addr v =? "") || (vc_SinkPath v =? "") then (∅, h)
  else match vault_agent_config cfg with
       | Err _ => (∅, h)
       | Ok agent =>
           match run_handler (StartVaultAgent agent) h with
           | (Err _, h) => (∅, h)
           | (Ok _, h) =>
               let dest := (ResolveTemplatePaths (vc_TemplateDir v) (vc_TemplateSource v) (vc_TemplateDest v)).2 in
               (match LoadTemplateEnv (open h) dest with Ok env => default ∅ env | Err _ => ∅ end, h)
           end
       end.

Definition enable_audit (env : gmap string string) (w : world) : world :=
  if vc_AuditEnable (cn_Vault c) then (run_handler (own_call env (audit_enable cfg)) w).2 else w.

(** The session opened, if one is. *)
Definition open_boundary (env : gmap string string) (w : world) : option string * world :=
  if bc_TargetID (cn_Boundary c) =? "" then (None, w)
  else
    let '((resp, err), w) := run_handler (own_call env (boundary_open cfg)) w in
    (match err with
     | Some _ => None
     | None => match ParseSessionID (Output resp) with Ok id => Some id | Err _ => None end
     end, w).

Definition start (h : H) (w : world) : launched * H * world :=
  let '(env, h) := start_vault_agent h in
  let w := enable_audit env w in
  let '(session, w) := open_boundary env w in
  let env := match session with Some id => FormatBoundarySessionEnv id ∪ env | None => env end in
  let closes := if bc_AutoClose (cn_Boundary c) then session else None in
  if bc_EnableTunnel (cn_Boundary c) && negb (bc_TargetID (cn_Boundary c) =? "") then
    let '(tunnel, h) := StartBoundaryTunnel (bc_TargetID (cn_Boundary c)) (bc_ListenAddr (cn_Boundary c)) h in
    (mkStarted env closes (is_ok tunnel), h, w)
  else (mkStarted env closes false, h, w).
End start.

(** ** The programs *)

Definition tool_router_address (cfg : Config) : string := or_else (tr_HTTPAddr (cfg_ToolRouter cfg)) ":8081".

(** The policy package is the configured one, also when it is empty. *)
Definition tool_router_server (post : string → json → result (Z * doc)) (cfg : Config) (env : gmap string string) :
    ToolServer :=
  let t := cfg_ToolRouter cfg in
  let p := cfg_Policy cfg in
  mkServer (Some (config_sandbox cfg env)) (BuildHTTPClients cfg (tool_router_api cfg))
    (mkAuthConfig (tr_OIDCIssuer t) (tr_OIDCClientID t) (tr_OIDCJWKSURL t) false (tr_AuthToken t))
    (if po_OPAURL p =? "" then None else Some (Evaluate post (mkPolicyService (po_OPAURL p) (po_PolicyPackage p)))).

Definition tool_router_close (cfg : Config) (session : string) : ExecuteRequest :=
  session_close session empty_ref.

(** The orchestrator closes its session through the tool router. *)
Definition orchestrator_close {W} `{!RouterTransport W} (base_path : string → result string) (cfg : Config)
    (session : string) : W → result unit * W :=
  let t := cfg_ToolRouter cfg in
  CloseBoundarySession (Some (mkRouterClient (tr_BaseURL t) (base_path (tr_BaseURL t)) (tr_AuthToken t)))
    session empty_ref.

(** Both answer that they are alive; ready is the sandbox's runtime and the policy
    service, which answer [version] and [health]. *)
Definition healthz : Response := mkResp 200 (Text (dquote_str "{'status':'ok'}")).
Definition tool_router_ready (runtime_version : string → option string) (get : string → result Z) (cfg : Config) :
    list (string * string) * bool :=
  let runtime := TrimSpace (sb_Runtime (cfg_Sandbox cfg)) in
  let runtime := or_else runtime "docker" in
  let sandbox := if sb_Enabled (cfg_Sandbox cfg)
                 then [("sandbox_runtime", default "ok" (runtime_version runtime))] else [] in
  let opa := if po_OPAURL (cfg_Policy cfg) =? "" then []
             else [("opa", match get (trim_right_slashes (po_OPAURL (cfg_Policy cfg)) +:+ "/health") with
                           | Err e => e
                           | Ok status => if (Z.quot status 100 =? 2)%Z then "ok" else itoa status +:+ " " +:+ StatusText status
                           end)] in
  let ok_runtime := negb (sb_Enabled (cfg_Sandbox cfg)) || (match runtime_version runtime with None => true | Some _ => false end) in
  let ok_opa := (po_OPAURL (cfg_Policy cfg) =? "") ||
    match get (trim_right_slashes (po_OPAURL (cfg_Policy cfg)) +:+ "/health") with
    | Ok status => (Z.quot status 100 =? 2)%Z | Err _ => false end in
  (sandbox ++ opa, ok_runtime && ok_opa).

(** The health address of the orchestrator: the database answers, and Temporal does when
    it is connected, which it must be when it is configured. *)
Definition orchestrator_ready (cfg : Config) (database_pings : option bool) (temporal_healthy : option bool) : bool :=
  default false database_pings &&
  match temporal_healthy with
  | Some ok => ok
  | None => oc_TemporalAddr (cfg_Orchestrator cfg) =? ""
  end.

(** ** Serving

    The requests a tool router answers one after the other, each at its time, and the
    calls of its timers between them. *)

Section serving.
Context {H : Type} `{!Host H}.
Variable VerifyPKCS1v15 : Z → Z → string → string → result unit.
Variable FetchJWKS : string → result (list JWK).
Variable clock : Z.
Variable sys : system.
Variable url_hostname : string → option string.
Variable schemaFS : string → option string.
Variable gojsonschema : any → any → result (list string).
Variable compile : string → option (string → string).
Variable now : list event → Z.
Variable visit : gmap string (list LogLine) → list string.
Variable open : H → string → result string.
Variable read_file : string → result doc.
Variable rfc3339 : Z → string.
Variable post : string → json → result (Z * doc).

(** A request at its time, or a tick of a timer. *)
Inductive arrival := Arrives (time : string) (st : log_stream) (r : Request) | Ticks (timer : nat).

Definition serve_one (cfg : Config) (env : gmap string string) (w : world) (a : arrival) : world :=
  match a with
  | Arrives time st r =>
      (run_handler (tools_ServeHTTP VerifyPKCS1v15 FetchJWKS clock sys url_hostname schemaFS gojsonschema
         (NewRedactor compile (redact_patterns cfg)) now visit (sc_WorkspaceDir (cfg_Storage cfg)) read_file rfc3339
         (tool_router_server post cfg env) time (behind_middleware st) r) w).2
  | Ticks timer =>
      match vault_timers cfg !! timer with
      | Some (_, req) => (run_handler (own_call sys url_hostname schemaFS gojsonschema compile now visit cfg
                            (tool_router_api cfg) env req) w).2
      | None => w
      end
  end.

(** The tool router from its start, with the session closed at the end. *)
Definition run_tool_router (cfg : Config) (arrivals : list arrival) (h : H) : world :=
  let '(sd, h, w) := start sys url_hostname schemaFS gojsonschema compile now visit open cfg (tool_router_api cfg) h
                       (mkWorld (Some NewLogHub) 0 []) in
  let w := fold_left (serve_one cfg (sd_Env sd)) arrivals w in
  match sd_Session sd with
  | Some id => (run_handler (own_call sys url_hostname schemaFS gojsonschema compile now visit cfg (tool_router_api cfg)
                  (sd_Env sd) (tool_router_close cfg id)) w).2
  | None => w
  end.

(** *** What the configuration promises *)
Lemma LoadConfig_valid ReadFile path cfg : LoadConfig ReadFile path = Ok cfg → Validate cfg = Ok tt.
Proof.
  unfold LoadConfig. intros (data & _ & H1)%bind_Ok. apply bind_Ok in H1 as (j & _ & H2).
  apply bind_Ok in H2 as (c & _ & H3). apply bind_Ok in H3 as ([] & Hv & [= <-]). exact Hv.
Qed.

Lemma Validate_sandbox cfg : Validate cfg = Ok tt → validate_sandbox (cfg_Sandbox cfg) = Ok tt.
Proof.
  unfold Validate. do 6 (intros (? & ? & Hv)%bind_Ok; revert Hv). intros _. by destruct x4.
Qed.

Lemma enforced_image cfg : Validate cfg = Ok tt → sb_Enforce (cfg_Sandbox cfg) = true → (sb_Image (cfg_Sandbox cfg) =? "") = false.
Proof.
  intros Hv%Validate_sandbox He. revert Hv. unfold validate_sandbox. rewrite He. cbn [andb].
  destruct (String.eqb_spec (sb_Image (cfg_Sandbox cfg)) "") as [->|]; done.
Qed.

(** *** The processes of a call *)

Definition process_of (sb : Sandbox) (argv : list string) : Prop := fetched argv ∨ ∃ cmd, contained sb cmd argv.
Definition processes_of (sb : Sandbox) (evs : list event) : Prop :=
  ∀ argv env, Exec argv env ∈ evs → process_of sb argv.

Lemma processes_nil sb : processes_of sb [].
Proof. intros argv env Hi. by apply elem_of_nil in Hi. Qed.

Lemma processes_app sb l1 l2 : processes_of sb l1 → processes_of sb l2 → processes_of sb (l1 ++ l2).
Proof. intros H1 H2 argv env [Hi|Hi]%elem_of_app; [by eapply H1|by eapply H2]. Qed.

Lemma processes_other sb e : (∀ argv env, e ≠ Exec argv env) → processes_of sb [e].
Proof. intros He argv env Hi%list_elem_of_singleton. by destruct (He argv env). Qed.

Lemma fetch_processes sb evs : fetch_events evs → processes_of sb evs.
Proof.
  intros [|argv Hf]; [apply processes_nil|]. intros a e Hi%list_elem_of_singleton. injection Hi as -> _. by left.
Qed.

Lemma cleanup_processes sb file : processes_of sb (cleanup file).
Proof. destruct file; [by apply processes_other|apply processes_nil]. Qed.

Lemma prep_processes sb file evs : prep_events file evs → processes_of sb evs.
Proof.
  destruct 1; [by apply fetch_processes|apply processes_app; [by apply fetch_processes|by apply processes_other]|].
  apply processes_app; [by apply fetch_processes|].
  change [?a; ?b] with ([a] ++ [b]). apply processes_app; by apply processes_other.
Qed.

Lemma outcome_processes req sb tr r evs :
  RunFunc sb = None → Enforce sb = true →
  outcome sys schemaFS gojsonschema req (Some sb) tr r evs → processes_of sb evs.
Proof.
  intros Hf He Ho. destruct Ho as [|sb' tool resp e file pre Ha Hu Hp|sb' tool id file pre evs cmd out err Ha Hc Hp Hr|
    sb' tool id out err evs Ha Hs Hev].
  - apply processes_nil.
  - apply processes_app; [by eapply prep_processes|apply cleanup_processes].
  - apply processes_app; [by eapply prep_processes|]. apply processes_app; [|apply cleanup_processes].
    pose proof (adm_sandbox _ _ _ _ _ _ Ha) as [= <-].
    destruct (enforced_Run_adds sys sb cmd Hf He (tr ++ pre)) as (evs' & Heq & HP).
    rewrite (ran_by_sandbox _ _ _ _ _ _ _ _ _ _ Hr) in Heq. apply (inj (app _)) in Heq as <-.
    intros argv env Hi. right. exists cmd. by apply (HP argv env).
  - destruct Hev; [apply processes_nil|by apply processes_other].
Qed.

Lemma Execute_processes redactor req sb clients w :
  RunFunc sb = None → Enforce sb = true → processes_of sb (w_trace w) →
  processes_of sb (w_trace (run_handler (Execute sys url_hostname schemaFS gojsonschema redactor now visit req (Some sb)
    clients) w).2).
Proof.
  intros Hf He Hw. pose proof (Execute_outcome sys url_hostname schemaFS gojsonschema redactor now visit req (Some sb)
    clients w) as Ho.
  destruct (run_handler _ w) as [r w']. destruct Ho as (evs & Htr & Ho). cbn [snd]. rewrite Htr.
  apply processes_app; [done|]. by eapply outcome_processes.
Qed.

(** A process of the sandbox is one whatever its variables. *)
Lemma process_of_env cfg env env' argv :
  process_of (config_sandbox cfg env) argv → process_of (config_sandbox cfg env') argv.
Proof. exact id. Qed.

Lemma own_call_processes cfg api env req w :
  sb_Enforce (cfg_Sandbox cfg) = true → processes_of (config_sandbox cfg ∅) (w_trace w) →
  processes_of (config_sandbox cfg ∅) (w_trace (run_handler (own_call sys url_hostname schemaFS gojsonschema compile now
    visit cfg api env req) w).2).
Proof. intros He Hw. by apply (Execute_processes _ req (config_sandbox cfg env)). Qed.

Lemma serve_processes cfg env w a :
  sb_Enforce (cfg_Sandbox cfg) = true → processes_of (config_sandbox cfg ∅) (w_trace w) →
  processes_of (config_sandbox cfg ∅) (w_trace (serve_one cfg env w a)).
Proof.
  intros He Hw. destruct a as [time st r|timer]; cbn [serve_one];
    [|destruct (vault_timers cfg !! timer) as [[every req]|]; [by apply own_call_processes|done]].
  match goal with |- context [run_handler ?m w] => set (m0 := m) end.
  enough (let Q := λ (_ : Response) w', processes_of (config_sandbox cfg ∅) (w_trace w') in wp m0 Q Q w) as Hwp.
  { cbv zeta in Hwp. apply wp_run in Hwp. by destruct (run_handler m0 w). }
  cbv zeta. subst m0. eapply wp_mono; [apply ServeHTTP_guarded|intros resp w'; cbn beta..]; intros Hg;
    (destruct Hg as [[-> _]|(claims & _ & Hd)]; [done|]);
    (destruct Hd as [Ht _|j req _ _ _ _ ->|j ref _ _ _ ->]; [by rewrite Ht|by apply (Execute_processes _ req (config_sandbox cfg env))|]);
    (destruct (ResolveArtifact_adds sys ref (w_trace w)) as (l & Hl & Hf); cbn [w_trace]; rewrite Hl;
     apply processes_app; [done|by apply fetch_processes]).
Qed.

Lemma start_processes cfg api h :
  sb_Enforce (cfg_Sandbox cfg) = true →
  processes_of (config_sandbox cfg ∅) (w_trace (start sys url_hostname schemaFS gojsonschema compile now visit open cfg
    api h (mkWorld (Some NewLogHub) 0 [])).2).
Proof.
  intros He. unfold start. destruct (start_vault_agent open cfg h) as [env h1].
  assert (processes_of (config_sandbox cfg ∅) (w_trace (enable_audit sys url_hostname schemaFS gojsonschema compile now visit
    cfg api env (mkWorld (Some NewLogHub) 0 [])))) as Ha.
  { unfold enable_audit. destruct (vc_AuditEnable _); [apply own_call_processes; [done|]|]; apply processes_nil. }
  set (w1 := enable_audit _ _ _ _ _ _ _ _ _ _ _) in *.
  assert (processes_of (config_sandbox cfg ∅) (w_trace (open_boundary sys url_hostname schemaFS gojsonschema compile now visit
    cfg api env w1).2)) as Hb.
  { unfold open_boundary. destruct (_ =? ""); [done|].
    pose proof (own_call_processes cfg api env (boundary_open cfg) w1 He Ha) as Ho.
    by destruct (run_handler _ w1) as [[resp err] w2]. }
  destruct (open_boundary _ _ _ _ _ _ _ _ _ _ w1) as [session w2]. cbn [snd] in Hb.
  destruct (bc_EnableTunnel _ && _); [destruct (StartBoundaryTunnel _ _ h1)|]; exact Hb.
Qed.

(** A process of a sandbox that a loaded configuration enforces. *)
Definition contained_process (cfg : Config) (argv : list string) : Prop :=
  fetched argv ∨
  ∃ cmd, hardened_argv (config_sandbox cfg ∅) cmd argv ∧ sb_Enabled (cfg_Sandbox cfg) = true ∧
    blank (sb_SeccompProfile (cfg_Sandbox cfg)) = false ∧ blank (sb_User (cfg_Sandbox cfg)) = false ∧
    sb_DropCaps (cfg_Sandbox cfg) ≠ [].

Lemma enforced_contained ReadFile path cfg argv :
  LoadConfig ReadFile path = Ok cfg → sb_Enforce (cfg_Sandbox cfg) = true →
  process_of (config_sandbox cfg ∅) argv → contained_process cfg argv.
Proof.
  intros Hl He [Hf|(cmd & Hen & _ & Hsec & Hu & Hd & Hi)]; [by left|right]. exists cmd.
  cbn [Image config_sandbox] in Hi. by rewrite (enforced_image cfg (LoadConfig_valid _ _ _ Hl) He) in Hi.
Qed.

(** C5: a tool router whose configuration enforces the sandbox starts no process of its
    calls on the host: from its start to its end, whatever requests and ticks come and whatever
    tools, inputs and artifacts they name, each process is a container of the configured
    image with the configured profile, user and dropped capabilities, no new privileges,
    and no network without an allowlist - or the fetching of an artifact by git or aws. *)
Theorem enforced_router_contained ReadFile path cfg arrivals h :
  LoadConfig ReadFile path = Ok cfg → sb_Enforce (cfg_Sandbox cfg) = true →
  ∀ argv env, Exec argv env ∈ w_trace (run_tool_router cfg arrivals h) → contained_process cfg argv.
Proof.
  intros Hl He.
  assert (processes_of (config_sandbox cfg ∅) (w_trace (run_tool_router cfg arrivals h))) as Hp.
  { unfold run_tool_router. pose proof (start_processes cfg (tool_router_api cfg) h He) as Hs.
    destruct (start _ _ _ _ _ _ _ _ _ _ h _) as [[sd h1] w1]. cbn [snd] in Hs. cbv zeta.
    assert (processes_of (config_sandbox cfg ∅)
      (w_trace (fold_left (serve_one cfg (sd_Env sd)) arrivals w1))) as Hf.
    { clear h1. revert w1 Hs. induction arrivals as [|a l IH]; intros w1 Hw; [done|]. apply IH. by apply serve_processes. }
    destruct (sd_Session sd); [by apply own_call_processes|done]. }
  intros argv env Hi%Hp. by eapply enforced_contained.
Qed.
End serving.

(** *** A configured tool router *)

Definition demo_config_text : string := dquote_str
  "{'gateway':{'http_addr':':8080'},'storage':{'postgres_dsn':'postgres://db'},'policy':{'opa_url':'http://opa:8181'},
    'tool_router':{'auth_token':'svc-token'},
    'sandbox':{'enabled':true,'enforce':true,'image':'tools:1','user':'1000','seccomp_profile':'default.json',
               'no_new_privs':true,'drop_caps':['ALL'],'mounts':null}}".
Definition demo_config : Config :=
  match LoadConfig (λ _, Ok demo_config_text) "/etc/carapulse.json" with Ok c => c | Err _ => no_Config end.

#[local] Instance no_host_programs : Host () := {|
  LookPath _ h := (Err "not found", h); MkdirTemp _ h := (Err "read-only", h);
  WriteFile _ _ h := (Err "read-only", h); StartProcess _ h := (Err "not found", h) |}.

Definition demo_request : Request :=
  sent demo_client (match marshal (exec_request_any get_pods_prod) with Ok j => j | Err _ => JNull end).
Definition demo_arrival : arrival := Arrives "2024-05-01T12:00:00Z" no_stream demo_request.
Definition demo_run : world :=
  run_tool_router (λ _ _ _ _, Err "unchecked") (λ _, Err "no keys") 0 demo_sys no_host no_schema any_valid compile_literal
    (λ _, 0%Z) (λ _, []) (λ _ _, Err "no file") (λ _, Err "no file") itoa
    (λ _ _, Ok (200%Z, doc_json (JObj [("result", JObj [("decision", JStr "allow")])]))) demo_config [demo_arrival] ().
Definition demo_process : list string :=
  ["docker"; "run"; "--rm"; "--tmpfs"; "/tmp"; "--security-opt"; "no-new-privileges"; "--security-opt";
   "seccomp=default.json"; "--cap-drop"; "ALL"; "--user"; "1000"; "--network=none"; "tools:1"; "kubectl"; "get"; "pods"; "-o"; "json"].

Example demo_run_ex : w_trace demo_run = [Exec demo_process []].
Proof. vm_compute. reflexivity. Qed.

Lemma enforced_router_contained_witness :
  contained_process demo_config demo_process.
Proof.
  apply (enforced_router_contained (λ _ _ _ _, Err "unchecked") (λ _, Err "no keys") 0 demo_sys no_host no_schema any_valid
    compile_literal (λ _, 0%Z) (λ _, []) (λ (_ : ()) _, Err "no file") (λ _, Err "no file") itoa
    (λ _ _, Ok (200%Z, doc_json (JObj [("result", JObj [("decision", JStr "allow")])])))
    (λ _, Ok demo_config_text) "/etc/carapulse.json" demo_config [demo_arrival] ()) with (env := []).
  - vm_compute. reflexivity.
  - vm_compute. reflexivity.
  - fold demo_run. rewrite demo_run_ex. apply list_elem_of_singleton. reflexivity.
Defined.

(** ** What else the configuration decides *)

(** The orchestrator leaves out four clients, and has them all the same: both programs
    call the same addresses with the same credentials. *)
Theorem orchestrator_same_clients cfg :
  BuildHTTPClients cfg (orchestrator_api cfg) = BuildHTTPClients cfg (tool_router_api cfg) ∧
  ∀ name, client_auth cfg (orchestrator_api cfg) name = client_auth cfg (tool_router_api cfg) name.
Proof.
  assert (∀ s, or_else "" s = s) as H1 by done.
  assert (∀ s, or_else s s = s) as H2 by (intros s; unfold or_else; by destruct (s =? "")).
  split.
  - unfold BuildHTTPClients, orchestrator_api, tool_router_api. cbn -[or_else]. by rewrite !H1, !H2.
  - assert (∀ name, client_token cfg (orchestrator_api cfg) name = client_token cfg (tool_router_api cfg) name) as Ht.
    { intros name. unfold client_token. set (l := connector_tokens (cfg_Connectors cfg)).
      change (Tokens (orchestrator_api cfg)) with (list_to_map (firstn 7 l) : gmap string string).
      change (Tokens (tool_router_api cfg)) with (list_to_map l : gmap string string).
      set (full := list_to_map l : gmap string string).
      destruct ((list_to_map (firstn 7 l) : gmap string string) !! name) as [v|] eqn:E.
      - assert (full !! name = Some v) as ->; [|done].
        subst full. revert E. subst l. unfold connector_tokens. cbn [firstn list_to_map fold_right fst snd foldr].
        rewrite !lookup_insert_Some, lookup_empty. naive_solver.
      - cbn [default]. unfold or_else at 1. cbn [String.eqb]. rewrite H2. done. }
    intros name. unfold client_auth. rewrite !Ht. done.
Qed.

Section unconfigured.
Variable VerifyPKCS1v15 : Z → Z → string → string → result unit.
Variable FetchJWKS : string → result (list JWK).
Variable clock : Z.
Variable sys : system.
Variable url_hostname : string → option string.
Variable schemaFS : string → option string.
Variable gojsonschema : any → any → result (list string).
Variable redactor : option Redactor.
Variable now : list event → Z.
Variable visit : gmap string (list LogLine) → list string.
Variable workspaceDir : string.
Variable read_file : string → result doc.
Variable rfc3339 : Z → string.
Variable post : string → json → result (Z * doc).
Variable cfg : Config.
Variable env : gmap string string.
Variable time : string.
Variable st : log_stream.

Notation serve r := (tools_ServeHTTP VerifyPKCS1v15 FetchJWKS clock sys url_hostname schemaFS gojsonschema
  redactor now visit workspaceDir read_file rfc3339 (tool_router_server post cfg env) time st r).

(** The same configuration without a policy service is read two ways: the tool router
    refuses every tool call, of whatever sender and read-only ones too, and stays as it
    was; the gateway allows every action. *)
Theorem no_opa_two_ways r w :
  po_OPAURL (cfg_Policy cfg) = "" → mem (Path r) ["/"; "/v1/tools:execute"; "/execute"] = true →
  (let '(resp, w') := run_handler (serve r) w in refused resp ∧ w' = w) ∧
  ∀ e name type ctx risk targets,
    Decision_ <$> policyDecision None e name type ctx risk targets = Ok "allow".
Proof.
  intros Hopa Hpath. split; [|done].
  enough (H : let Q := λ resp w', refused resp ∧ w' = w in wp (serve r) Q Q w).
  { cbv zeta in H. apply wp_run in H. by destruct (run_handler _ w). }
  cbv zeta. unfold tools_ServeHTTP. rewrite Hpath.
  eapply wp_mono; [apply handleExecute_handled|intros resp w'; cbn beta..];
    (intros [[-> Hr]|(claims & j & req & _ & _ & _ & _ & Ha & _)]; [done|]);
    revert Ha; unfold tool_router_server; cbn [srv_Policy]; rewrite Hopa; done.
Qed.

(** The orchestrator closes its boundary session through the tool router without a
    context, which is refused: the session stays open. *)
Theorem orchestrator_session_stays_open base_path session w :
  base_path (tr_BaseURL (cfg_ToolRouter cfg)) = Ok "" → plain_text session = true →
  let '(answer, w') := @orchestrator_close _ (router_transport VerifyPKCS1v15 FetchJWKS clock sys url_hostname schemaFS
      gojsonschema redactor now visit workspaceDir read_file rfc3339 (tool_router_server post cfg env) time st)
    base_path cfg session w in
  is_ok answer = false ∧ w' = w.
Proof.
  intros Hb Hs. unfold orchestrator_close, CloseBoundarySession.
  match goal with |- context [@client_Execute _ ?T ?c ?r w] =>
    pose proof (contextless_refused VerifyPKCS1v15 FetchJWKS clock sys url_hostname schemaFS gojsonschema redactor now visit
      workspaceDir read_file rfc3339 (tool_router_server post cfg env) time st c r w Hb eq_refl eq_refl) as H;
    destruct (@client_Execute _ T c r w) as [[resp|e] w'] end; [by destruct H|]. by destruct H.
Qed.
End unconfigured.

Lemma no_opa_two_ways_witness :
  (refused (run_handler (tools_ServeHTTP (λ _ _ _ _, Err "unchecked") (λ _, Err "no keys") 0 demo_sys no_host no_schema
     any_valid None (λ _, 0%Z) (λ _, []) "" (λ _, Err "no file") itoa
     (tool_router_server (λ _ _, Err "none") no_Config ∅) "" no_stream demo_request) world0).1).
Proof.
  destruct (no_opa_two_ways (λ _ _ _ _, Err "unchecked") (λ _, Err "no keys") 0 demo_sys no_host no_schema any_valid None
    (λ _, 0%Z) (λ _, []) "" (λ _, Err "no file") itoa (λ _ _, Err "none") no_Config ∅ "" no_stream demo_request world0
    eq_refl eq_refl) as [H _].
  destruct (run_handler _ world0). exact (proj1 H).
Defined.
