(* ===== verification/Planner.v ===== *)
(** * Planner: the language models behind the planner

    internal/llm: the clients of the three providers (openai.go, anthropic.go,
    codex.go), the files the Codex token is read from (auth.go, codex_auth.go,
    openclaw_auth.go) and the router's Plan (plan.go).

    The HTTP transport is an interface; a file is what reading it answers, as a
    document; user-written patterns are a parameter (regexp); times are nanoseconds. *)

From S2P Require Import Prelude GoStrings Json ContextRef Steps Policy Http Auth Executor Pollers Prompt.
From Stdlib Require Import Ascii SpecFloat.

Local Open Scope string_scope.
Local Open Scope list_scope.

(** ** The providers' clients *)

Record LLMRequest := mkLLM { lr_URL : string; lr_Headers : list (string * string); lr_Body : json }.

(** http.Client.Do: the status and the bytes of the answer. *)
Class LLMTransport (W : Type) := { llm_do : LLMRequest → W → result (Z * string) * W }.

(** [strings.TrimRight(strings.TrimSpace(base), "/")], or the provider's address. *)
Definition api_base (base fallback : string) : string :=
  let base := trim_right_slashes (TrimSpace base) in if base =? "" then fallback else base.
Definition defaultOpenAIBase : string := "https://api.openai.com".
Definition defaultAnthropicBase : string := "https://api.anthropic.com".
Definition anthropicVersion : string := "2023-06-01".

Definition message_any (prompt : string) : any :=
  ASlice "openAIMessage" [AStruct "openAIMessage" [("role", AStr "user"); ("content", AStr prompt)]].

Definition decode_message (j : json) : result string :=
  fs ← Json.members j; _ ← fld_string "role" fs; fld_string "content" fs.
Definition decode_choice (j : json) : result string :=
  fs ← Json.members j;
  fld (λ _ x, decode_message x) "message" "" fs.
Definition decode_block (j : json) : result string :=
  fs ← Json.members j; _ ← fld_string "type" fs; fld_string "text" fs.

Section clients.
Context {W : Type} `{!LLMTransport W}.

(** json.Decoder.Decode: the first document of the text. *)
Definition decode_first (text : string) : result json :=
  of_option json_error (fst <$> parse_value (2 * String.length text + 2) text).

(** What the answer says, when it came with a 2xx status and is JSON. *)
Definition llm_complete (provider : string) (url : string) (headers : list (string * string)) (body : any)
    (read : json → result string) (w : W) : result string * W :=
  match marshal body with
  | Err e => (Err e, w)
  | Ok data =>
      let '(resp, w) := llm_do (mkLLM url headers data) w in
      (match resp with
       | Err e => Err e
       | Ok (status, text) =>
           if (status <? 200)%Z || (300 <=? status)%Z
           then Err (provider +:+ " status " +:+ itoa status +:+ ": " +:+ TrimSpace (take_bytes 4096 text))
           else j ← decode_first text; read j
       end, w)
  end.

(** OpenAIClient.Complete and CodexClient.Complete: [provider] is in their messages,
    [credential] what they call their key. *)
Definition openai_Complete (provider credential APIBase key model : string) (prompt : string)
    (maxTokens : Z) (w : W) : result string * W :=
  if blank key then (Err (provider +:+ " " +:+ credential +:+ " required"), w)
  else if blank model then (Err (provider +:+ " model required"), w)
  else llm_complete provider (api_base APIBase defaultOpenAIBase +:+ "/v1/chat/completions")
    [("Authorization", "Bearer " +:+ key); ("Content-Type", "application/json")]
    (AStruct "openAIRequest" [("model", AStr model); ("messages", message_any prompt);
                              ("max_tokens", AInt maxTokens)])
    (λ j, fs ← Json.members j;
          choices ← fld_slice decode_choice "choices" fs;
          match choices with
          | content :: _ => if blank content then Err (provider +:+ " empty response") else Ok content
          | [] => Err (provider +:+ " empty response")
          end) w.

Definition anthropic_Complete (APIBase key model : string) (prompt : string) (maxTokens : Z) (w : W) :
    result string * W :=
  if blank key then (Err "anthropic api key required", w)
  else if blank model then (Err "anthropic model required", w)
  else llm_complete "anthropic" (api_base APIBase defaultAnthropicBase +:+ "/v1/messages")
    [("Content-Type", "application/json"); ("x-api-key", key); ("anthropic-version", anthropicVersion)]
    (AStruct "anthropicRequest" [("model", AStr model); ("max_tokens", AInt maxTokens);
                                 ("messages", message_any prompt)])
    (λ j, fs ← Json.members j;
          blocks ← fld_slice decode_block "content" fs;
          of_option "anthropic empty response" (List.find (λ text, negb (blank text)) blocks)) w.
End clients.

(** ** Profiles *)

Record AuthProfile := mkProfile {
  pf_ID : string; pf_Provider : string; pf_AccountID : string; pf_AccessToken : string;
  pf_RefreshToken : string; pf_ExpiresAt : Z; pf_Source : string }.
Record AuthProfiles := mkProfiles { Defaults : gmap string string; Profiles : list AuthProfile }.

Definition codexProvider : string := "openai-codex".

Section profiles.
(** time.Parse and time.MarshalJSON for RFC 3339. *)
Variable time_parse : string → result Z.
Variable time_json : Z → string.

Definition decode_profile (j : json) : result AuthProfile :=
  fs ← Json.members j;
  id ← fld_string "id" fs; p ← fld_string "provider" fs; a ← fld_string "account_id" fs;
  t ← fld_string "access_token" fs; r ← fld_string "refresh_token" fs;
  x ← fld_time time_parse "expires_at" fs; s ← fld_string "source" fs;
  Ok (mkProfile id p a t r x s).

(** A map of strings, read into what it holds so far; null empties it. *)
Definition decode_defaults (a : gmap string string) (j : json) : result (gmap string string) :=
  match j with
  | JNull => Ok ∅
  | JObj fs => fold_left (λ acc '(k, x), m ← acc;
      match x with JStr v => Ok (<[k := v]> m) | JNull => Ok (<[k := ""]> m) | _ => Err json_error end)
      fs (Ok a)
  | _ => Err json_error
  end.
Definition decode_profiles (j : json) : result AuthProfiles :=
  fs ← Json.members j;
  d ← fld decode_defaults "defaults" ∅ fs;
  ps ← fld_slice decode_profile "profiles" fs;
  Ok (mkProfiles d ps).

(** omitempty leaves out empty strings and an empty map, never a time; no profiles are
    written as the empty list (a nil slice is null, which reads back the same). *)
Definition unless_empty (key v : string) : list (string * any) := if v =? "" then [] else [(key, AStr v)].
Definition profile_any (p : AuthProfile) : any :=
  AStruct "AuthProfile" ([("id", AStr (pf_ID p)); ("provider", AStr (pf_Provider p))] ++
    unless_empty "account_id" (pf_AccountID p) ++ unless_empty "access_token" (pf_AccessToken p) ++
    unless_empty "refresh_token" (pf_RefreshToken p) ++
    [("expires_at", AStr (time_json (pf_ExpiresAt p)))] ++ unless_empty "source" (pf_Source p)).
Definition profiles_any (ps : AuthProfiles) : any :=
  AStruct "AuthProfiles" ((if decide (Defaults ps = ∅) then [] else [("defaults", AMap (AStr <$> Defaults ps))]) ++
    [("profiles", ASlice "AuthProfile" (map profile_any (Profiles ps)))]).

(** Replace the profile of that id, or add it. *)
Fixpoint put_profile (p : AuthProfile) (l : list AuthProfile) : list AuthProfile :=
  match l with
  | [] => [p]
  | q :: rest => if pf_ID q =? pf_ID p then p :: rest else q :: put_profile p rest
  end.
Definition UpsertProfile (ps : AuthProfiles) (p : AuthProfile) : result AuthProfiles :=
  _ ← check (negb (blank (pf_ID p))) "profile id required";
  Ok (mkProfiles (Defaults ps) (put_profile p (Profiles ps))).

Definition of_id (id : string) (l : list AuthProfile) : option AuthProfile :=
  List.find (λ p, pf_ID p =? id) l.
Definition of_provider (provider : string) (l : list AuthProfile) : option AuthProfile :=
  List.find (λ p, pf_Provider p =? provider) l.

(** The profile of the preferred id; else the provider's default; else its first. *)
Definition SelectProfile (ps : AuthProfiles) (provider preferredID : string) : option AuthProfile :=
  if negb (preferredID =? "") then of_id preferredID (Profiles ps)
  else
    let id := default "" (Defaults ps !! provider) in
    match (if id =? "" then None else of_id id (Profiles ps)) with
    | Some p => Some p
    | None => of_provider provider (Profiles ps)
    end.

Definition Expired (p : AuthProfile) (at_ : Z) : bool :=
  negb (pf_ExpiresAt p =? zero_time)%Z && (pf_ExpiresAt p <? at_)%Z.

(** *** Files *)

(** The environment, the home directory, the files with their modification times
    (os.Stat's error when there is none), and filepath.Glob. *)
Record machine := mkMachine {
  Getenv : string → string; UserHomeDir : result string;
  ReadFile : string → result (option doc); ModTime : string → option Z;
  Glob : string → list string }.
Variable os : machine.

Definition env_path (name : string) : string := TrimSpace (Getenv os name).

Definition DefaultStateDir : result string :=
  if negb (env_path "CARAPULSE_STATE_DIR" =? "") then Ok (env_path "CARAPULSE_STATE_DIR")
  else home ← UserHomeDir os; Ok (filepath_Join [home; ".carapulse"]).
Definition DefaultAuthPath : result string :=
  dir ← DefaultStateDir; Ok (filepath_Join [dir; "auth-profiles.json"]).
Definition DefaultCodexAuthPath : result string :=
  if negb (env_path "CODEX_HOME" =? "") then Ok (filepath_Join [env_path "CODEX_HOME"; "auth.json"])
  else home ← UserHomeDir os; Ok (filepath_Join [home; ".codex"; "auth.json"]).

Definition or_default (path : string) (fallback : result string) : result string :=
  if blank path then fallback else Ok path.
(** os.ReadFile where a missing file is an error. *)
Definition read_file (path : string) : result doc :=
  o ← ReadFile os path; of_option "file does not exist" o.

Definition LoadAuthProfiles (path : string) : result AuthProfiles :=
  path ← or_default path DefaultAuthPath;
  data ← ReadFile os path;
  match data with
  | None | Some doc_empty => Ok (mkProfiles ∅ [])
  | Some d => j ← unmarshal d; decode_profiles j
  end.

(** The file SaveAuthProfiles writes, and where. *)
Definition SaveAuthProfiles (path : string) (ps : AuthProfiles) : result (string * json) :=
  path ← or_default path DefaultAuthPath;
  data ← marshal (profiles_any ps);
  Ok (path, data).

Definition LoadAuthProfile (path provider preferredID : string) : result AuthProfile :=
  ps ← LoadAuthProfiles path;
  of_option "auth profile not found" (SelectProfile ps provider preferredID).

(** *** Importing other tools' files *)

Definition stringFromAny (v : any) : string := TrimSpace (default "" (as_string v)).

(** int64 of a float64, on amd64. *)
Definition parseIntAny (v : any) : option Z :=
  match v with
  | AFloat f => Some (float_to_int f)
  | AInt z | AInt64 z => Some z
  | AStr s => match Atoi s with Ok z => Some z | Err _ => None end
  | _ => None
  end.

(** Seconds of the Unix clock, or an RFC 3339 text. *)
Definition parseTimeAny (v : any) : option Z :=
  match v with
  | AStr s =>
      if s =? "" then None
      else match time_parse s with
           | Ok t => Some t
           | Err _ => match Atoi s with Ok z => Some (z * nano)%Z | Err _ => None end
           end
  | AFloat f => Some (float_to_int f * nano)%Z
  | AInt z | AInt64 z => Some (z * nano)%Z
  | _ => None
  end.

(** The first of some members that is a time; else the time a positive expires_in
    gives, from [base]; else none. *)
Definition expires_of (keys : list string) (raw : gmap string any) (base : Z) : Z :=
  match list_find (λ o, is_Some o) (map (λ key, v ← raw !! key; parseTimeAny v) keys) with
  | Some (_, Some t) => t
  | _ => match v ← raw !! "expires_in"; parseIntAny v with
         | Some n => if (0 <? n)%Z then (base + wrap64 (n * nano))%Z else zero_time
         | None => zero_time
         end
  end.
Definition parseExpires : gmap string any → Z → Z := expires_of ["expires_at"].
Definition parseOpenClawExpires : gmap string any → Z → Z :=
  expires_of ["expires"; "expires_at"; "expiresAt"].

(** The first of some members that is not blank. *)
Definition first_text (keys : list string) (raw : gmap string any) : string :=
  default "" (List.find (λ s, negb (s =? "")) (map (λ key, stringFromAny (mget raw key)) keys)).

(** The account a JWT names, whatever its signature. *)
Definition extractAccountID (token : string) : string :=
  match split_byte dot token with
  | _ :: part :: _ =>
      match data ← DecodeString part; unmarshal_map (doc_of_text data) with
      | Ok m => first_text ["account_id"; "accountId"; "sub"] m
      | Err _ => ""
      end
  | _ => ""
  end.

Definition ImportCodexAuth (path : string) (now : Z) : result AuthProfile :=
  path ← or_default path DefaultCodexAuthPath;
  data ← read_file path;
  raw ← unmarshal_map data;
  let accessToken := stringFromAny (mget raw "access_token") in
  _ ← check (negb (accessToken =? "")) "codex access token missing";
  let accountID := stringFromAny (mget raw "account_id") in
  let accountID := if accountID =? "" then extractAccountID accessToken else accountID in
  Ok (mkProfile (codexProvider +:+ ":" +:+ (if accountID =? "" then "default" else accountID))
        codexProvider accountID accessToken (stringFromAny (mget raw "refresh_token"))
        (parseExpires raw now) "codex-auth").

(** newestPath: the latest of the files that are there. *)
Definition newestPath (paths : list string) : string :=
  (fold_left (λ '(newest, at_) path,
     match ModTime os path with
     | None => (newest, at_)
     | Some t => if (newest =? "") || (at_ <? t)%Z then (path, t) else (newest, at_)
     end) paths ("", zero_time)).1.

Definition findOpenClawAuthPath (base : string) : string :=
  let newest := newestPath (Glob os (filepath_Join [base; "agents"; "*"; "agent"; "auth-profiles.json"])) in
  let legacy := filepath_Join [base; "agent"; "auth-profiles.json"] in
  if negb (newest =? "") then newest
  else match ModTime os legacy with Some _ => legacy | None => "" end.

Definition DefaultOpenClawAuthPath : result string :=
  let found base := let path := findOpenClawAuthPath base in
                    if path =? "" then filepath_Join [base; "agent"; "auth-profiles.json"] else path in
  if negb (env_path "OPENCLAW_AGENT_DIR" =? "")
  then Ok (filepath_Join [env_path "OPENCLAW_AGENT_DIR"; "auth-profiles.json"])
  else if negb (env_path "OPENCLAW_STATE_DIR" =? "") then Ok (found (env_path "OPENCLAW_STATE_DIR"))
  else home ← UserHomeDir os; Ok (found (filepath_Join [home; ".openclaw"])).

Definition decodeOpenClawProfile (now : Z) (id : string) (raw : gmap string any) : AuthProfile :=
  let provider := stringFromAny (mget raw "provider") in
  let access := first_text ["access"; "access_token"; "accessToken"; "key"] raw in
  let refresh := first_text ["refresh"; "refresh_token"; "refreshToken"] raw in
  let account := first_text ["account_id"; "accountId"; "email"] raw in
  let id := if id =? "" then stringFromAny (mget raw "id") else id in
  let '(id, account) :=
    if negb (id =? "") then (id, account)
    else
      let account := if account =? "" then extractAccountID access else account in
      (if negb (account =? "") && negb (provider =? "") then provider +:+ ":" +:+ account
       else if negb (provider =? "") then provider +:+ ":default" else "", account) in
  mkProfile id provider account access refresh (parseOpenClawExpires raw now) "openclaw-auth".

(** A list, one profile, or an object of them; inside profiles or authProfiles first.
    The nesting of the value bounds the recursion.  The elements of an object have
    no order: these come in [map_to_list]'s. *)
Fixpoint openClawProfilesFromAny (now : Z) (fuel : nat) (raw : any) : list AuthProfile :=
  match fuel, raw with
  | S fuel, AList l => omap (λ v, decodeOpenClawProfile now "" <$> as_map v) l
  | S fuel, AMap m =>
      match m !! "profiles", m !! "authProfiles" with
      | Some nested, _ => openClawProfilesFromAny now fuel nested
      | None, Some nested => openClawProfilesFromAny now fuel nested
      | None, None =>
          if negb (stringFromAny (mget m "provider") =? "") then [decodeOpenClawProfile now "" m]
          else omap (λ '(key, v), decodeOpenClawProfile now key <$> as_map v) (map_to_list m)
      end
  | _, _ => []
  end.

Definition selectOpenClawProfile (l : list AuthProfile) (provider preferredID : string) : option AuthProfile :=
  if negb (preferredID =? "") then of_id preferredID l else of_provider provider l.

(** A file of profiles, when the one it selects holds something. *)
Definition loadAuthProfileFromProfiles (data : doc) (provider preferredID : string) : option AuthProfile :=
  match j ← unmarshal data; decode_profiles j with
  | Err _ => None
  | Ok ps =>
      match Profiles ps with
      | [] => None
      | _ =>
          p ← SelectProfile ps provider preferredID;
          if blank (pf_AccessToken p) && blank (pf_RefreshToken p) && (pf_ExpiresAt p =? zero_time)%Z
          then None else Some p
      end
  end.

Definition finalizeOpenClawProfile (now : Z) (p : AuthProfile) : result AuthProfile :=
  _ ← check (negb (blank (pf_AccessToken p))) "openclaw access token required";
  _ ← check (negb (Expired p now)) "openclaw access token expired";
  Ok p.

(** How deep a value is. *)
Fixpoint depth_json (j : json) : nat :=
  match j with
  | JArr l => S (fold_right (λ x n, max (depth_json x) n) O l)
  | JObj fs => S (fold_right (λ kx n, max (depth_json kx.2) n) O fs)
  | _ => 1
  end.

Definition ImportOpenClawAuth (path provider preferredID : string) (now : Z) : result AuthProfile :=
  path ← or_default path DefaultOpenClawAuthPath;
  data ← read_file path;
  let provider := if provider =? "" then codexProvider else provider in
  match loadAuthProfileFromProfiles data provider preferredID with
  | Some p => finalizeOpenClawProfile now p
  | None =>
      j ← unmarshal data;
      raw ← decode_any j;
      p ← of_option "openclaw auth profile not found"
            (selectOpenClawProfile (openClawProfilesFromAny now (depth_json j) raw) provider preferredID);
      finalizeOpenClawProfile now p
  end.

(** ** The router *)

Record Router := mkRouter {
  lm_Provider : string; lm_Model : string; lm_APIBase : string; lm_APIKey : string; lm_MaxTokens : Z;
  lm_AuthProfile : string; lm_AuthPath : string; lm_RedactPatterns : list string }.

Definition or_env (v name : string) : string := if TrimSpace v =? "" then env_path name else TrimSpace v.

(** The key or the environment's; else the access token of a profile on file. *)
Definition resolveCodexToken (r : Router) (now : Z) : result string :=
  let token := or_env (lm_APIKey r) "OPENAI_ACCESS_TOKEN" in
  if negb (token =? "") then Ok token
  else
    p ← LoadAuthProfile (or_env (lm_AuthPath r) "CARAPULSE_AUTH_PATH") codexProvider
          (or_env (lm_AuthProfile r) "CARAPULSE_AUTH_PROFILE");
    let token := TrimSpace (pf_AccessToken p) in
    _ ← check (negb (token =? "")) "codex access token required";
    _ ← check (negb (Expired p now)) "codex access token expired";
    Ok token.

Variable compile : string → option (string → string).

Definition prompt_of (r : Router) (intent : string) (context evidence : any) : result string :=
  prompt ← buildPrompt intent context evidence;
  Ok (match lm_RedactPatterns r with [] => prompt | patterns => Redact compile prompt patterns end).

Definition Plan {W} `{!LLMTransport W} (r : Router) (now : Z) (intent : string) (context evidence : any)
    (w : W) : result string * W :=
  let intent := TrimSpace intent in
  match (_ ← check (negb (intent =? "")) "intent required"; prompt_of r intent context evidence) with
  | Err e => (Err e, w)
  | Ok prompt =>
      let maxTokens := if (lm_MaxTokens r <=? 0)%Z then 512%Z else lm_MaxTokens r in
      let provider := norm (lm_Provider r) in
      let key name := if lm_APIKey r =? "" then Getenv os name else lm_APIKey r in
      if provider =? "openai" then
        openai_Complete "openai" "api key" (lm_APIBase r) (key "OPENAI_API_KEY") (lm_Model r) prompt maxTokens w
      else if provider =? "anthropic" then
        anthropic_Complete (lm_APIBase r) (key "ANTHROPIC_API_KEY") (lm_Model r) prompt maxTokens w
      else if provider =? codexProvider then
        match resolveCodexToken r now with
        | Err e => (Err e, w)
        | Ok token => openai_Complete "codex" "access token" (lm_APIBase r) token (lm_Model r) prompt maxTokens w
        end
      else (Err ("unknown provider: " +:+ provider), w)
  end.
End profiles.

(** ** Theorems about profiles *)

(** Text that a document keeps. *)
Definition plain_profile (p : AuthProfile) : bool :=
  forallb plain_text [pf_ID p; pf_Provider p; pf_AccountID p; pf_AccessToken p; pf_RefreshToken p; pf_Source p].
Definition plain_defaults (m : gmap string string) : Prop :=
  map_Forall (λ k v, plain_text k = true ∧ plain_text v = true) m.

(** What os.WriteFile does to the files. *)
Definition written (os : machine) (file : string) (j : json) : machine :=
  mkMachine (Getenv os) (UserHomeDir os) (λ p, if p =? file then Ok (Some (doc_json j)) else ReadFile os p)
    (ModTime os) (Glob os).

Section profile_laws.
Variable time_parse : string → result Z.
Variable time_json : Z → string.

Definition kept_time (p : AuthProfile) : Prop :=
  time_parse (time_json (pf_ExpiresAt p)) = Ok (pf_ExpiresAt p) ∧ plain_text (time_json (pf_ExpiresAt p)) = true.

Lemma profile_roundtrip p :
  plain_profile p = true → kept_time p →
  ∃ j, to_json (profile_any time_json p) = Some j ∧ decode_profile time_parse j = Ok p.
Proof.
  destruct p as [id pr acc tok ref x src]. intros Hp [Ht Hx]. unfold plain_profile in Hp.
  cbn [forallb pf_ID pf_Provider pf_AccountID pf_AccessToken pf_RefreshToken pf_Source pf_ExpiresAt] in *.
  apply andb_prop in Hp as [H1 [H2 [H3 [H4 [H5 [H6 _]%andb_prop]%andb_prop]%andb_prop]%andb_prop]%andb_prop].
  apply String.eqb_eq in H1, H2, H3, H4, H5, H6, Hx.
  unfold profile_any, unless_empty.
  cbn [pf_ID pf_Provider pf_AccountID pf_AccessToken pf_RefreshToken pf_Source pf_ExpiresAt].
  destruct (String.eqb_spec acc "") as [->|_], (String.eqb_spec tok "") as [->|_],
    (String.eqb_spec ref "") as [->|_], (String.eqb_spec src "") as [->|_];
    cbn [to_json app opt_map fold_right fmap option_fmap option_map mbind option_bind];
    rewrite ?H1, ?H2, ?H3, ?H4, ?H5, ?H6, ?Hx; eexists; (split; [reflexivity|]);
    vm_compute; rewrite Ht; reflexivity.
Qed.

Lemma profile_list_roundtrip l :
  Forall (λ p, plain_profile p = true ∧ kept_time p) l →
  ∃ js, opt_map to_json (map (profile_any time_json) l) = Some js ∧
    opt_map (λ j, match decode_profile time_parse j with Ok p => Some p | Err _ => None end) js = Some l.
Proof.
  induction 1 as [|p l [Hp Ht] _ (js & E & D)]; [by exists []|].
  destruct (profile_roundtrip p Hp Ht) as (j & Ej & Dj). exists (j :: js).
  rewrite map_cons, !opt_map_cons, Ej, Dj, E, D. done.
Qed.

Lemma decode_defaults_entries ms (m : gmap string string) :
  NoDup (map fst ms) → (∀ k x, (k, x) ∈ ms → ∃ v, x = JStr v) →
  ∃ m', fold_left (λ acc '(k, x), m ← acc;
      match x with JStr v => Ok (<[k := v]> m) | JNull => Ok (<[k := ""]> m) | _ => Err json_error end)
      ms (Ok m) = Ok m' ∧
    ∀ k v, m' !! k = Some v ↔ (k, JStr v) ∈ ms ∨ (k ∉ map fst ms ∧ m !! k = Some v).
Proof.
  revert m. induction ms as [|[k x] ms IH]; intros m.
  { intros _ _. exists m. split; [done|]. intros k v. rewrite elem_of_nil. simpl. set_solver. }
  intros [Hk Hnd]%NoDup_cons Hall. destruct (Hall k x) as [v ->]; [left|].
  destruct (IH (<[k:=v]> m) Hnd) as (m' & E & L); [intros k' x' Hin; apply (Hall k'); by right|].
  exists m'. split; [exact E|]. intros k' v'. rewrite L, elem_of_cons. cbn [map fst]. rewrite not_elem_of_cons.
  destruct (decide (k' = k)) as [->|Hne].
  - rewrite lookup_insert_eq. split.
    + intros [Hin|[_ [= ->]]]; [by left; right|by left; left].
    + intros [[[= ->]|Hin]|[[? _] _]]; [by right|by left|done].
  - rewrite lookup_insert_ne by done. naive_solver.
Qed.

Lemma defaults_roundtrip (m : gmap string string) :
  plain_defaults m → ∃ j, to_json (AMap (AStr <$> m)) = Some j ∧ decode_defaults ∅ j = Ok m.
Proof.
  intros Hm. destruct (to_json_map_ok (AStr <$> m)) as [j Hj].
  { intros k v. rewrite lookup_fmap. intros (s & _ & ->)%fmap_Some. by eexists. }
  exists j. split; [done|]. destruct (to_json_map (AStr <$> m) j) as (ms & -> & Hnd & Hin & _); [|done|].
  { intros k. rewrite lookup_fmap, fmap_is_Some. intros [v Hv]. by apply (Hm k v). }
  assert (∀ k x, (k, x) ∈ ms ↔ ∃ s, m !! k = Some s ∧ x = JStr s) as Hms.
  { intros k x. rewrite Hin, lookup_fmap. split.
    - intros (v & (s & Hs & ->)%fmap_Some & Hx). exists s. split; [done|]. simpl in Hx.
      destruct (Hm k s Hs) as [_ Hp]. apply String.eqb_eq in Hp. congruence.
    - intros (s & Hs & ->). exists (AStr s). rewrite Hs. split; [done|]. simpl.
      destruct (Hm k s Hs) as [_ Hp]. apply String.eqb_eq in Hp. congruence. }
  destruct (decode_defaults_entries ms ∅ Hnd) as (m' & E & L).
  { intros k x (s & _ & ->)%Hms. by exists s. }
  unfold decode_defaults. rewrite E. f_equal. apply map_eq. intros k. apply option_eq. intros v.
  rewrite L, Hms, lookup_empty. naive_solver.
Qed.

Local Ltac fields :=
  unfold decode_profiles, Json.members, fld_slice, fld; cbn [fold_left mbind result_bind];
  change (EqualFold "defaults" "defaults") with true; change (EqualFold "profiles" "profiles") with true;
  change (EqualFold "defaults" "profiles") with false; change (EqualFold "profiles" "defaults") with false;
  cbn [mbind result_bind].

Lemma profiles_roundtrip ps :
  plain_defaults (Defaults ps) → Forall (λ p, plain_profile p = true ∧ kept_time p) (Profiles ps) →
  ∃ j, marshal (profiles_any time_json ps) = Ok j ∧ decode_profiles time_parse j = Ok ps.
Proof.
  destruct ps as [d l]. cbn [Defaults Profiles]. intros Hd Hl.
  destruct (defaults_roundtrip d Hd) as (jd & Ed & Dd). destruct (profile_list_roundtrip l Hl) as (js & Ej & Dj).
  unfold profiles_any, marshal, Defaults, Profiles. destruct (decide (d = ∅)) as [->|Hne].
  - exists (JObj [("profiles", JArr js)]). split.
    + cbn [to_json app]. rewrite opt_map_cons. cbn [to_json]. by rewrite Ej.
    + fields. by rewrite Dj.
  - exists (JObj [("defaults", jd); ("profiles", JArr js)]). split.
    + cbn [to_json app]. rewrite !opt_map_cons. cbn [to_json]. cbn [to_json] in Ed. rewrite Ed, Ej. done.
    + fields. rewrite Dd. fields. by rewrite Dj.
Qed.

Lemma put_profile_id p l : of_id (pf_ID p) (put_profile p l) = Some p.
Proof.
  unfold of_id. induction l as [|q l IH]; simpl; [by rewrite String.eqb_refl|].
  destruct (pf_ID q =? pf_ID p) eqn:E; simpl; [by rewrite String.eqb_refl|]. by rewrite E.
Qed.

Lemma put_profile_other p l id : id ≠ pf_ID p → of_id id (put_profile p l) = of_id id l.
Proof.
  intros Hne. unfold of_id. induction l as [|q l IH]; simpl.
  - by destruct (String.eqb_spec (pf_ID p) id).
  - destruct (String.eqb_spec (pf_ID q) (pf_ID p)) as [E|E]; simpl; [|by rewrite IH].
    rewrite E. by destruct (String.eqb_spec (pf_ID p) id).
Qed.

Lemma put_profile_Forall (P : AuthProfile → Prop) p l : P p → Forall P l → Forall P (put_profile p l).
Proof.
  intros Hp. induction 1 as [|q l Hq Hl IH]; simpl; [by constructor|].
  destruct (pf_ID q =? pf_ID p); by constructor.
Qed.

Lemma saved_profiles_load os path ps :
  plain_defaults (Defaults ps) → Forall (λ p, plain_profile p = true ∧ kept_time p) (Profiles ps) →
  match SaveAuthProfiles time_json os path ps with
  | Ok (file, data) => LoadAuthProfiles time_parse (written os file data) path = Ok ps
  | Err e => blank path = true ∧ DefaultAuthPath os = Err e
  end.
Proof.
  intros Hd Hl. destruct (profiles_roundtrip ps Hd Hl) as (j & Ej & Dj).
  assert (∀ file, ReadFile (written os file j) file = Ok (Some (doc_json j))) as Hread.
  { intros file. simpl. by rewrite String.eqb_refl. }
  unfold SaveAuthProfiles, LoadAuthProfiles, or_default.
  destruct (blank path); [destruct (DefaultAuthPath os) as [file|e] eqn:E; [|done]|]; cbn [mbind result_bind];
    rewrite Ej; cbn [mbind result_bind].
  - change (DefaultAuthPath (written os file j)) with (DefaultAuthPath os). rewrite E. cbn [mbind result_bind].
    rewrite Hread. exact Dj.
  - rewrite Hread. exact Dj.
Qed.

(** A profile that is upserted into a set of profiles and saved is the one that is
    loaded by its id, and every other id is loaded as it would have been before; saving
    is only refused when there is no path and no home directory to put the file in. *)
Theorem upserted_profile_loads os path provider ps p :
  blank (pf_ID p) = false → plain_defaults (Defaults ps) →
  Forall (λ p, plain_profile p = true ∧ kept_time p) (p :: Profiles ps) →
  match ps' ← UpsertProfile ps p; SaveAuthProfiles time_json os path ps' with
  | Ok (file, data) =>
      let load := LoadAuthProfile time_parse (written os file data) path provider in
      load (pf_ID p) = Ok p ∧
      ∀ id, id ≠ "" → id ≠ pf_ID p → load id = of_option "auth profile not found" (SelectProfile ps provider id)
  | Err e => blank path = true ∧ DefaultAuthPath os = Err e
  end.
Proof.
  intros Hid Hd [Hp Hl]%Forall_cons. unfold UpsertProfile. rewrite Hid. cbn [check negb mbind result_bind].
  set (ps' := mkProfiles _ _).
  pose proof (saved_profiles_load os path ps' Hd (put_profile_Forall _ p _ Hp Hl)) as H.
  destruct (SaveAuthProfiles time_json os path ps') as [[file data]|e]; [|done].
  unfold LoadAuthProfile. rewrite H. cbn [mbind result_bind]. unfold SelectProfile. split.
  - destruct (String.eqb_spec (pf_ID p) "") as [E|_]; [by rewrite E in Hid|]. simpl. by rewrite put_profile_id.
  - intros id Hne Hid'. destruct (String.eqb_spec id "") as [E|_]; [done|]. simpl. by rewrite put_profile_other.
Qed.
End profile_laws.

(** A machine with a home directory and no files, where a time is written in digits. *)
Definition empty_machine : machine :=
  mkMachine (λ _, "") (Ok "/home/ops") (λ _, Ok None) (λ _, None) (λ _, []).
Definition some_profile (id provider token : string) : AuthProfile :=
  mkProfile id provider "" token "" 1700000000000000000 "codex-auth".

Lemma upserted_profile_loads_witness :
  let ps := mkProfiles {["openai-codex" := "openai-codex:ops"]} [some_profile "openai-codex:ops" "openai-codex" "t0"] in
  let p := some_profile "openai-codex:dev" "openai-codex" "t1" in
  match ps' ← UpsertProfile ps p; SaveAuthProfiles itoa empty_machine "" ps' with
  | Ok (file, data) => file = "/home/ops/.carapulse/auth-profiles.json" ∧
      LoadAuthProfile Atoi (written empty_machine file data) "" "openai-codex" "openai-codex:dev" = Ok p
  | Err _ => False
  end.
Proof.
  intros ps p.
  assert (plain_defaults (Defaults ps)) as Hd.
  { intros k v. cbn. intros [<- <-]%lookup_singleton_Some. split; vm_compute; reflexivity. }
  assert (Forall (λ p, plain_profile p = true ∧ kept_time Atoi itoa p) (p :: Profiles ps)) as Hl.
  { repeat constructor; vm_compute; reflexivity. }
  pose proof (upserted_profile_loads Atoi itoa empty_machine "" "openai-codex" ps p eq_refl Hd Hl) as H.
  destruct (ps' ← UpsertProfile ps p; SaveAuthProfiles itoa empty_machine "" ps') as [[file data]|e] eqn:E;
    [|by destruct H as [_ ?]].
  split; [|apply H]. vm_compute in E. congruence.
Defined.

(** ** The token and the request *)

(** Which profile is looked at does not depend on its provider: another provider's
    token, made the default or named, is what is sent to OpenAI. *)
Example another_providers_token :
  let file := JObj [("defaults", JObj [("openai-codex", JStr "a:1")]);
                    ("profiles", JArr [JObj [("id", JStr "a:1"); ("provider", JStr "anthropic");
                                             ("access_token", JStr "anthropic-token")]])] in
  resolveCodexToken Atoi (written empty_machine "/home/ops/.carapulse/auth-profiles.json" file)
    (mkRouter "openai-codex" "m" "" "" 0 "" "" []) 0 = Ok "anthropic-token".
Proof. vm_compute. reflexivity. Qed.

(** What the messages of the providers hold. *)
Definition openai_body (model prompt : string) (maxTokens : Z) : json :=
  JObj [("model", JStr (valid_utf8 model));
        ("messages", JArr [JObj [("role", JStr "user"); ("content", JStr (valid_utf8 prompt))]]);
        ("max_tokens", JNum (itoa maxTokens))].
Definition anthropic_body (model prompt : string) (maxTokens : Z) : json :=
  JObj [("model", JStr (valid_utf8 model)); ("max_tokens", JNum (itoa maxTokens));
        ("messages", JArr [JObj [("role", JStr "user"); ("content", JStr (valid_utf8 prompt))]])].
Definition bearer_headers (key : string) : list (string * string) :=
  [("Authorization", "Bearer " +:+ key); ("Content-Type", "application/json")].

Section request.
Variable time_parse : string → result Z.
Variable os : machine.
Variable compile : string → option (string → string).

(** The request a planner sends for a prompt. *)
Definition planned_request (r : Router) (now : Z) (prompt : string) : option LLMRequest :=
  let tokens := if (lm_MaxTokens r <=? 0)%Z then 512%Z else lm_MaxTokens r in
  let key name := if lm_APIKey r =? "" then Getenv os name else lm_APIKey r in
  let openai key := if blank key || blank (lm_Model r) then None
    else Some (mkLLM (api_base (lm_APIBase r) defaultOpenAIBase +:+ "/v1/chat/completions") (bearer_headers key)
                 (openai_body (lm_Model r) prompt tokens)) in
  let provider := norm (lm_Provider r) in
  if provider =? "openai" then openai (key "OPENAI_API_KEY")
  else if provider =? "anthropic" then
    if blank (key "ANTHROPIC_API_KEY") || blank (lm_Model r) then None
    else Some (mkLLM (api_base (lm_APIBase r) defaultAnthropicBase +:+ "/v1/messages")
      [("Content-Type", "application/json"); ("x-api-key", key "ANTHROPIC_API_KEY");
       ("anthropic-version", anthropicVersion)]
      (anthropic_body (lm_Model r) prompt tokens))
  else if provider =? codexProvider then
    match resolveCodexToken time_parse os r now with Ok token => openai token | Err _ => None end
  else None.

(** What asking with a request makes of the answer and the world. *)
Definition asked {W} `{!LLMTransport W} (req : LLMRequest) (w : W) (r : result string * W) : Prop :=
  r.2 = (llm_do req w).2 ∧
  match (llm_do req w).1 with
  | Err e => r.1 = Err e
  | Ok (status, text) =>
      ∀ t, r.1 = Ok t → (200 ≤ status < 300)%Z ∧ is_ok (decode_first text) = true ∧ blank t = false
  end.

Lemma llm_complete_asked {W} `{!LLMTransport W} provider url headers body read (w : W) data :
  marshal body = Ok data → (∀ j t, read j = Ok t → blank t = false) →
  asked (mkLLM url headers data) w (llm_complete provider url headers body read w).
Proof.
  intros Hb Hread. unfold asked, llm_complete. rewrite Hb.
  destruct (llm_do (mkLLM url headers data) w) as [[[status text]|e] w']; cbn [fst snd]; [|done].
  split; [done|]. intros t. destruct (status <? 200)%Z eqn:E1, (300 <=? status)%Z eqn:E2; try done.
  destruct (decode_first text) as [j|e]; cbn [orb mbind result_bind is_ok]; [|done].
  intros Ht. split; [lia|]. split; [done|]. by apply (Hread j).
Qed.

Lemma openai_asked {W} `{!LLMTransport W} provider credential base key model prompt tokens (w : W) :
  blank key || blank model = false →
  asked (mkLLM (api_base base defaultOpenAIBase +:+ "/v1/chat/completions") (bearer_headers key)
           (openai_body model prompt tokens)) w
    (openai_Complete provider credential base key model prompt tokens w).
Proof.
  intros [Hk Hm]%orb_false_iff. unfold openai_Complete. rewrite Hk, Hm.
  apply llm_complete_asked; [reflexivity|]. intros j t.
  destruct (Json.members j) as [fs|]; cbn [mbind result_bind]; [|done].
  destruct (fld_slice decode_choice "choices" fs) as [[|c l]|]; cbn [mbind result_bind]; try done.
  destruct (blank c) eqn:E; [done|]. by intros [= <-].
Qed.

Lemma anthropic_asked {W} `{!LLMTransport W} base key model prompt tokens (w : W) :
  blank key || blank model = false →
  asked (mkLLM (api_base base defaultAnthropicBase +:+ "/v1/messages")
           [("Content-Type", "application/json"); ("x-api-key", key); ("anthropic-version", anthropicVersion)]
           (anthropic_body model prompt tokens)) w
    (anthropic_Complete base key model prompt tokens w).
Proof.
  intros [Hk Hm]%orb_false_iff. unfold anthropic_Complete. rewrite Hk, Hm.
  apply llm_complete_asked; [reflexivity|]. intros j t.
  destruct (Json.members j) as [fs|]; cbn [mbind result_bind]; [|done].
  destruct (fld_slice decode_block "content" fs) as [l|]; cbn [mbind result_bind]; [|done].
  intros H%of_option_Ok. apply List.find_some in H as [_ H]. by apply negb_true_iff.
Qed.

(** No request: nothing asked, and an error. *)
Definition nothing_asked {W} (w : W) (r : result string * W) : Prop := r.2 = w ∧ is_ok r.1 = false.

Lemma openai_outcome {W} `{!LLMTransport W} provider credential base key model prompt tokens (w : W) :
  match (if blank key || blank model then None
         else Some (mkLLM (api_base base defaultOpenAIBase +:+ "/v1/chat/completions") (bearer_headers key)
                      (openai_body model prompt tokens))) with
  | Some req => asked req w (openai_Complete provider credential base key model prompt tokens w)
  | None => nothing_asked w (openai_Complete provider credential base key model prompt tokens w)
  end.
Proof.
  destruct (blank key || blank model) eqn:E; [|by apply openai_asked].
  unfold openai_Complete. by destruct (blank key), (blank model).
Qed.

Lemma anthropic_outcome {W} `{!LLMTransport W} base key model prompt tokens (w : W) :
  match (if blank key || blank model then None
         else Some (mkLLM (api_base base defaultAnthropicBase +:+ "/v1/messages")
           [("Content-Type", "application/json"); ("x-api-key", key); ("anthropic-version", anthropicVersion)]
           (anthropic_body model prompt tokens))) with
  | Some req => asked req w (anthropic_Complete base key model prompt tokens w)
  | None => nothing_asked w (anthropic_Complete base key model prompt tokens w)
  end.
Proof.
  destruct (blank key || blank model) eqn:E; [|by apply anthropic_asked].
  unfold anthropic_Complete. by destruct (blank key), (blank model).
Qed.

(** Planning asks the model at most once: with a prompt (an intent that is not
    blank, parts that can be written as JSON), a key, a model and a known provider, the
    one request is the provider's, with the redacted prompt as its only message and the
    key in its header alone; what is answered comes from a 2xx answer and is not blank.
    Otherwise nothing is asked and the answer is an error. *)
Theorem Plan_asks_once {W} `{!LLMTransport W} r now intent context evidence (w : W) :
  let prompt := if TrimSpace intent =? "" then Err "intent required"
                else prompt_of compile r (TrimSpace intent) context evidence in
  let outcome := Plan time_parse os compile r now intent context evidence w in
  match prompt with
  | Ok p => match planned_request r now p with
            | Some req => asked req w outcome
            | None => nothing_asked w outcome
            end
  | Err e => outcome = (Err e, w)
  end.
Proof.
  unfold Plan, planned_request.
  destruct (TrimSpace intent =? "") eqn:Ei; cbn [negb check mbind result_bind]; [done|].
  destruct (prompt_of compile r (TrimSpace intent) context evidence) as [p|e]; [|done].
  destruct (norm (lm_Provider r) =? "openai"); [apply openai_outcome|].
  destruct (norm (lm_Provider r) =? "anthropic"); [apply anthropic_outcome|].
  destruct (norm (lm_Provider r) =? codexProvider); [|done].
  destruct (resolveCodexToken time_parse os r now) as [token|e]; [apply openai_outcome|done].
Qed.
End request.
