(* ===== verification/GatewayStart.v ===== *)
(** * GatewayStart: from the configuration to a running gateway

    run of cmd/gateway/main.go: the server and its collaborators, the addresses it
    listens on, and the periods and limits of what runs beside it.

    The collaborators are given, and the configuration says which are used; connecting to
    the database and to Temporal is what they answer.  The listeners and the shutdown are
    left out. *)

From S2P Require Import Prelude GoStrings Json ContextRef Steps Policy Constraints Sandbox Auth Http Shelves.
From S2P Require Import EventGate Gateway Remote Pollers Watcher Collectors Config Services Planner Startup.

Local Open Scope string_scope.
Local Open Scope list_scope.

Definition defaultPolicyPackage : string := "policy.assistant.v1".

(** The gateway's policy package has a default; the tool router's has none. *)
Definition gateway_policy_service (p : PolicyConfig) : PolicyService :=
  mkPolicyService (po_OPAURL p) (or_else (po_PolicyPackage p) defaultPolicyPackage).
Definition gateway_checker (post : string → json → result (Z * doc)) (cfg : Config) : option Checker :=
  if po_OPAURL (cfg_Policy cfg) =? "" then None
  else Some (Evaluate post (gateway_policy_service (cfg_Policy cfg))).

Definition newLLMRouter (l : LLMConfig) : Planner.Router :=
  mkRouter (lc_Provider l) (lc_Model l) (lc_APIBase l) (lc_APIKey l) (lc_MaxOutputTokens l) (lc_AuthProfile l)
    (lc_AuthPath l) (lc_RedactPatterns l).
(** The client's timeout in nanoseconds, when there is one. *)
Definition llm_timeout (l : LLMConfig) : option Z :=
  if (0 <? lc_TimeoutMS l)%Z then Some (wrap64 (lc_TimeoutMS l * 1000000)) else None.

Definition gateway_router_client (base_path : string → result string) (t : ToolRouterConfig) : RouterClient :=
  mkRouterClient (tr_BaseURL t) (base_path (tr_BaseURL t)) (tr_AuthToken t).
Definition newObjectStore (o : ObjectStoreConfig) : ObjectStore := mkObjectStore (os_Endpoint o) (os_Bucket o).

(** Approvals go to Linear when it has a token and a team. *)
Definition linear_client (cfg : Config) : option LinearClient :=
  let l := cn_Linear (cfg_Connectors cfg) in
  if (lin_Token l =? "") || (lin_TeamID l =? "") then None
  else Some (mkLinear (or_else (lin_BaseURL l) defaultLinearBaseURL) (lin_Token l) (lin_TeamID l)).

(** The configuration replaces the authentication there is, which refuses everyone, only
    when it says something. *)
Definition gateway_auth (cfg : Config) : AuthConfig :=
  let g := cfg_Gateway cfg in
  if negb (gw_OIDCIssuer g =? "") || negb (gw_OIDCClientID g =? "") || negb (gw_OIDCJWKSURL g =? "") || gw_DevMode g
  then mkAuthConfig (gw_OIDCIssuer g) (gw_OIDCClientID g) (gw_OIDCJWKSURL g) (gw_DevMode g) ""
  else mkAuthConfig "" "" "" false "".

(** A number of seconds or milliseconds, when it is positive. *)
Definition period (unit n default : Z) : Z := if (0 <? n)%Z then wrap64 (n * unit) else default.

Definition gateway_gate (cfg : Config) (db_set : bool) : option EventGate :=
  let g := cfg_Gateway cfg in
  if db_set && gw_EnableEventLoop g then
    Some (mkEventGate true (period nano (gw_EventGateBackoffSecs g) 0)
            (period nano (gw_EventGateWindowSecs g) (period nano (gw_AlertDedupWindowSecs g) 0))
            (if (0 <? gw_EventGateMinCount g)%Z then gw_EventGateMinCount g else 0)
            (gw_EventGateSeverities g))
  else None.

(** The alert poller's period and the window it tells alerts apart in. *)
Definition alert_poller (cfg : Config) : option (Z * Z) :=
  let g := cfg_Gateway cfg in
  if gw_EnableEventLoop g && negb (tr_BaseURL (cfg_ToolRouter cfg) =? "")
     && negb (am_Addr (cn_Alertmanager (cfg_Connectors cfg)) =? "")
  then Some (period nano (gw_AlertPollIntervalSecs g) (30 * nano), period nano (gw_AlertDedupWindowSecs g) (2 * 60 * nano))%Z
  else None.

(** The watcher of approvals: its period and how long an approval may take. *)
Definition approval_watcher (cfg : Config) (db_set : bool) : option (Z * Z) :=
  let l := cn_Linear (cfg_Connectors cfg) in
  match linear_client cfg with
  | Some _ => if db_set then Some (period 1000000 (lin_PollIntervalMS l) (30 * nano),
                                   period (3600 * nano) (lin_TimeoutHours l) (24 * 3600 * nano))%Z
              else None
  | None => None
  end.

Definition gateway_diagnostics (base_path : string → result string) (cfg : Config) : option ToolDiagnostics :=
  if tr_BaseURL (cfg_ToolRouter cfg) =? "" then None
  else Some (mkDiagnostics (Some (gateway_router_client base_path (cfg_ToolRouter cfg)))
               (Some (newObjectStore (sc_ObjectStore (cfg_Storage cfg)))) (15 * 60 * nano)).

(** The address it serves, and those of the pages and the sockets when they are their
    own. *)
Definition gateway_addresses (cfg : Config) : string * option string * option string :=
  let g := cfg_Gateway cfg in
  let addr := or_else (gw_HTTPAddr g) ":8080" in
  (addr,
   if negb (gw_CanvasAddr g =? "") && negb (gw_CanvasAddr g =? addr) then Some (gw_CanvasAddr g) else None,
   if negb (gw_WSAddr g =? "") && negb (gw_WSAddr g =? addr) && negb (gw_WSAddr g =? gw_CanvasAddr g)
   then Some (gw_WSAddr g) else None).

(** *** Connecting *)

Section connect.
Context {DB T : Type}.
Variable newDB : string → result DB.
Variable newTemporalClient : OrchestratorConfig → result T.
Variable CheckHealth : T → result unit.

(** Without a configuration there is nothing to connect to; a Temporal that cannot be
    reached is done without. *)
Definition gateway_connect (ReadFile : string → result string) (configPath : string) :
    result (Config * option DB * option T) :=
  if configPath =? "" then Ok (no_Config, None, None)
  else
    cfg ← LoadConfig ReadFile configPath;
    let dsn := sc_PostgresDSN (cfg_Storage cfg) in
    db ← (if dsn =? "" then Ok None else db ← newDB dsn; Ok (Some db));
    Ok (cfg, db,
        if oc_TemporalAddr (cfg_Orchestrator cfg) =? "" then None
        else match newTemporalClient (cfg_Orchestrator cfg) with Ok c => Some c | Err _ => None end).

(** srv.TemporalHealth, which is always set, and srv.Executor. *)
Definition gateway_temporal (temporal : option T) : option (result unit) :=
  Some (match temporal with None => Ok tt | Some c => CheckHealth c end).
Definition gateway_executor (starter : T → string → list out_event → string → string → result string)
    (cfg : Config) (temporal : option T) : option (list out_event → string → string → result string) :=
  (λ c, starter c (oc_TaskQueue (cfg_Orchestrator cfg))) <$> temporal.

(** A Temporal that is configured and cannot be reached when the gateway starts: the
    gateway runs without an executor and says that Temporal is ok, where the orchestrator
    says that it is not ready. *)
Theorem temporal_unreachable_two_ways ReadFile path cfg db temporal e starter pings :
  gateway_connect ReadFile path = Ok (cfg, db, temporal) →
  oc_TemporalAddr (cfg_Orchestrator cfg) ≠ "" → newTemporalClient (cfg_Orchestrator cfg) = Err e →
  gateway_temporal temporal = Some (Ok tt) ∧ gateway_executor starter cfg temporal = None ∧
  orchestrator_ready cfg pings None = false.
Proof.
  unfold gateway_connect. intros Hc Ha He. apply String.eqb_neq in Ha.
  assert (temporal = None) as ->.
  { destruct (path =? ""); [by injection Hc|].
    apply bind_Ok in Hc as (cfg' & _ & Hc). apply bind_Ok in Hc as (db' & _ & [= -> _ <-]). by rewrite Ha, He. }
  unfold orchestrator_ready. rewrite Ha. by rewrite andb_false_r.
Qed.
End connect.

Section server.
(** The collaborators as they answer. *)
Variable post : string → json → result (Z * doc).
Variable file_issue : LinearClient → list out_event → string → result string.
Variable start_workflow : option (list out_event → string → string → result string).
Variable plan : Planner.Router → list out_event → string → any → list DiagnosticEvidence → result string.
Variable base_path : string → result string.
Variable collect : ToolDiagnostics → list out_event → ContextRef → string → any → result (list DiagnosticEvidence).
Variable graph : list out_event → string → result ServiceGraph.
Variable clock : nat → Z.
Variable rfc3339 : Z → string.
Variable zones : string → option Constraints.zone.

(** The server, whose database is there whatever it is: a nil database is not a nil
    interface. *)
Definition gateway_server (cfg : Config) (db_set : bool) : Server :=
  mkServer_ true (gateway_checker post cfg) (file_issue <$> linear_client cfg) start_workflow
    (if lc_Provider (cfg_LLM cfg) =? "" then None else Some (plan (newLLMRouter (cfg_LLM cfg))))
    (collect <$> gateway_diagnostics base_path cfg) (Some graph) (gateway_gate cfg db_set)
    (ap_AutoApproveLow (cfg_Approvals cfg)) (gw_SessionRequired (cfg_Gateway cfg)) (gw_EnableEventLoop (cfg_Gateway cfg))
    (gw_EventLoopSources (cfg_Gateway cfg)) clock rfc3339 zones.
End server.

(** Where the object store is told to put objects, when it is. *)
Definition gateway_object_store (cfg : Config) : option ObjectStore :=
  if os_Bucket (sc_ObjectStore (cfg_Storage cfg)) =? "" then None else Some (newObjectStore (sc_ObjectStore (cfg_Storage cfg))).
Definition scheduler_period (cfg : Config) (db_set : bool) : option Z :=
  if sd_Enabled (cfg_Scheduler cfg) && db_set then Some (period nano (sd_PollIntervalSecs (cfg_Scheduler cfg)) 0) else None.
Definition gateway_context (visit : gmap string (list string) → list (string * list string)) (cfg : Config)
    (db_set : bool) (extra : result (list ServiceMapping)) : option ContextService :=
  if db_set && negb (tr_BaseURL (cfg_ToolRouter cfg) =? "") then newContextService (context_config visit cfg) true true extra
  else None.

(** ** What the configuration leaves open *)

(** Without a package the gateway asks for its default one, and the tool router for the
    whole document, which is no decision. *)
Theorem policy_packages_differ cfg :
  po_PolicyPackage (cfg_Policy cfg) = "" →
  let base := trim_right_slashes (TrimSpace (po_OPAURL (cfg_Policy cfg))) in
  opa_url (gateway_policy_service (cfg_Policy cfg)) = base +:+ "/v1/data/policy/assistant/v1" ∧
  opa_url (mkPolicyService (po_OPAURL (cfg_Policy cfg)) (po_PolicyPackage (cfg_Policy cfg))) = base +:+ "/v1/data/".
Proof. intros H. unfold gateway_policy_service, opa_url. cbn [ps_OPAURL ps_PolicyPackage]. by rewrite H. Qed.

(** A configuration that names an API provider and a profile instead of a key passes
    the checks, and every plan it is asked for fails: the profile is never read, and
    nothing is sent. *)
Theorem profile_is_no_key {W} `{!LLMTransport W} time_parse os compile l now intent context evidence (w : W) :
  norm (lc_Provider l) ∈ ["openai"; "anthropic"] → blank (lc_Model l) = false → blank (lc_AuthProfile l) = false →
  lc_APIKey l = "" → Getenv os "OPENAI_API_KEY" = "" → Getenv os "ANTHROPIC_API_KEY" = "" →
  validate_llm l = Ok tt ∧
  let '(text, w') := Planner.Plan time_parse os compile (newLLMRouter l) now intent context evidence w in
  is_ok text = false ∧ w' = w.
Proof.
  intros Hp Hm Ha Hk Ho He. split.
  - unfold validate_llm. rewrite Hm, Ha, !andb_false_r. by destruct (blank (lc_Provider l)).
  - unfold Planner.Plan. destruct (_ ← check _ _; prompt_of _ _ _ _ _) as [prompt|]; [|done].
    cbn [newLLMRouter lm_Provider lm_APIKey]. rewrite Hk, Ho, He.
    rewrite !elem_of_cons, elem_of_nil in Hp. destruct Hp as [->|[->|[]]]; cbn [String.eqb Ascii.eqb Bool.eqb]; by split.
Qed.
