(* ===== verification/Ctl.v ===== *)
(** * Ctl: the command line assistantctl

    cmd/assistantctl/main.go: its commands, the flags they read (the flag package's
    parsing), the client of the gateway they call, and llm_auth.go's import and login;
    and cmd/sandbox-exec/main.go, which reads its flags the same way.

    A command answers what it prints, or its error.  Files are a parameter, the network
    is [Transport], and a command line that starts another program is what that answers. *)

From S2P Require Import Prelude GoStrings Json ContextRef Steps Policy Sandbox ToolApi Http Auth Shelves.
From S2P Require Import Store Library EventGate Gateway Plans Registry RegistryLaws Graph Catalogue Admin.
From S2P Require Import Requests Routes Slack Config Services Planner Startup.
From Stdlib Require Import Ascii.

Local Open Scope string_scope.
Local Open Scope list_scope.

(** ** Flags *)

Inductive flag_kind := FString | FBool | FInt | FDuration | FList.

(** An argument: not a flag, the end of the flags, a bad one, or a name with a value. *)
Inductive argument := Positional | Terminator | BadSyntax | Flag (name : string) (value : option string).

Definition read_argument (s : string) : argument :=
  match s with
  | String "-"%char "" => Positional
  | String "-"%char rest =>
      if rest =? "-" then Terminator
      else
        let name := match rest with String "-"%char r => r | _ => rest end in
        match name with
        | "" | String "-"%char _ | String "="%char _ => BadSyntax
        | _ => match cut_at name "=" with
               | Some (n, v) => Flag n (Some v)
               | None => Flag name None
               end
        end
  | _ => Positional
  end.

(** strconv.ParseBool *)
Definition ParseBool (s : string) : option bool :=
  if mem s ["1"; "t"; "T"; "TRUE"; "true"; "True"] then Some true
  else if mem s ["0"; "f"; "F"; "FALSE"; "false"; "False"] then Some false
  else None.

Section flags.
(** strconv.ParseInt with base 0, and time.ParseDuration. *)
Variables parse_int parse_duration : string → option Z.
Variable specs : list (string * flag_kind).

Definition kind_of (name : string) : option flag_kind := snd <$> List.find (λ p, p.1 =? name) specs.

Definition settable (k : flag_kind) (v : string) : bool :=
  match k with
  | FString | FList => true
  | FBool => match ParseBool v with Some _ => true | None => false end
  | FInt => match parse_int v with Some _ => true | None => false end
  | FDuration => match parse_duration v with Some _ => true | None => false end
  end.

Definition set_flag (k : flag_kind) (name v : string) : result (string * string) :=
  if settable k v then Ok (name, v) else Err ("invalid value for flag -" +:+ name).

(** The values set, in order, and the arguments left. *)
Fixpoint Parse (args : list string) : result (list (string * string) * list string) :=
  match args with
  | [] => Ok ([], [])
  | s :: rest =>
      match read_argument s with
      | Positional => Ok ([], args)
      | Terminator => Ok ([], rest)
      | BadSyntax => Err ("bad flag syntax: " +:+ s)
      | Flag name value =>
          match kind_of name, value, rest with
          | None, _, _ => if mem name ["help"; "h"] then Err "flag: help requested"
                          else Err ("flag provided but not defined: -" +:+ name)
          | Some FBool, _, _ =>
              v ← set_flag FBool name (default "true" value);
              '(sets, more) ← Parse rest; Ok (v :: sets, more)
          | Some k, Some v, _ => v ← set_flag k name v; '(sets, more) ← Parse rest; Ok (v :: sets, more)
          | Some k, None, v :: rest' => v ← set_flag k name v; '(sets, more) ← Parse rest'; Ok (v :: sets, more)
          | Some _, None, [] => Err ("flag needs an argument: -" +:+ name)
          end
      end
  end.
End flags.

(** A flag is what it was set to last, or its default. *)
Definition values_of (sets : list (string * string)) (name : string) : list string :=
  omap (λ '(n, v), if n =? name then Some v else None) sets.
Definition flag_text (sets : list (string * string)) (name default_ : string) : string :=
  default default_ (last (values_of sets name)).
Definition flag_bool (sets : list (string * string)) (name : string) (default_ : bool) : bool :=
  default default_ (last (values_of sets name) ≫= ParseBool).

Example flags_ex :
  Parse (λ _, None) (λ _, None) [("name", FString); ("enabled", FBool); ("mount", FList)]
    ["--name"; "-x"; "-enabled=F"; "--mount=/a"; "-mount"; "/b"; "--"; "-name"; "z"]
  = Ok ([("name", "-x"); ("enabled", "F"); ("mount", "/a"); ("mount", "/b")], ["-name"; "z"]).
Proof. vm_compute. reflexivity. Qed.

(** A flag as it may be written: one dash or two, its value joined or the next argument. *)
Record spelling := mkSpelling { sp_Dashes : string; sp_Joined : bool; sp_Name : string; sp_Value : string }.
Definition spelled (s : spelling) : list string :=
  let dashed := sp_Dashes s +:+ sp_Name s in
  if sp_Joined s then [dashed +:+ "=" +:+ sp_Value s] else [dashed; sp_Value s].

(** A name that can be a flag's. *)
Definition flag_name (n : string) : bool :=
  match n with "" | String "-"%char _ => false | _ => negb (string_in "="%char n) end.

Lemma cut_at_name n v : string_in "="%char n = false → cut_at (n +:+ "=" +:+ v) "=" = Some (n, v).
Proof.
  induction n as [|c n IH]; [reflexivity|]. intros [Hc Hn]%orb_false_iff.
  change (String c n +:+ "=" +:+ v) with (String c (n +:+ "=" +:+ v)). cbn [cut_at strip_prefix].
  rewrite Hc. by rewrite (IH Hn).
Qed.
Lemma cut_at_none n : string_in "="%char n = false → cut_at n "=" = None.
Proof.
  induction n as [|c n IH]; [reflexivity|]. intros [Hc Hn]%orb_false_iff. cbn [cut_at strip_prefix].
  rewrite Hc. by rewrite (IH Hn).
Qed.

(** What follows the dashes is read as the name and its value. *)
Lemma read_dashed dashes c n :
  dashes ∈ ["-"; "--"] → c ≠ "-"%char → c ≠ "="%char →
  read_argument (dashes +:+ String c n)
  = match cut_at (String c n) "=" with Some (n, v) => Flag n (Some v) | None => Flag (String c n) None end.
Proof.
  intros Hd H1 H2. apply Ascii.eqb_neq in H1, H2.
  rewrite !elem_of_cons, elem_of_nil in Hd. destruct Hd as [->|[->|[]]].
  - destruct c as [[] [] [] [] [] [] [] []]; try done.
  - destruct c as [[] [] [] [] [] [] [] []]; try done.
Qed.

Section flags_facts.
Variables parse_int parse_duration : string → option Z.
Variable specs : list (string * flag_kind).

(** Any but a boolean flag may have its value in the next argument. *)
Definition well_spelled (s : spelling) : Prop :=
  sp_Dashes s ∈ ["-"; "--"] ∧ flag_name (sp_Name s) = true ∧
  ∃ k, kind_of specs (sp_Name s) = Some k ∧ settable parse_int parse_duration k (sp_Value s) = true ∧
       (sp_Joined s = false → k ≠ FBool).

Lemma read_spelled s (rest : list string) :
  well_spelled s →
  Parse parse_int parse_duration specs (spelled s ++ rest)
  = ('(sets, more) ← Parse parse_int parse_duration specs rest; Ok ((sp_Name s, sp_Value s) :: sets, more)).
Proof.
  intros (Hd & Hn & k & Hk & Hv & Hj). unfold spelled.
  destruct (sp_Name s) as [|c n] eqn:En; [done|].
  assert (c ≠ "-"%char ∧ c ≠ "="%char ∧ string_in "="%char (String c n) = false) as (Hc1 & Hc2 & Heq).
  { assert (c ≠ "-"%char) as Hc by (intros ->; done).
    assert (string_in "="%char (String c n) = false) as H.
    { revert Hn. unfold flag_name. destruct c as [[] [] [] [] [] [] [] []]; try done; by intros ?%negb_true_iff. }
    split_and!; [done| |done]. intros ->. cbn in H. done. }
  destruct (sp_Joined s) eqn:Ej; cbn [app Parse].
  - rewrite !string_app_assoc.
    change (String c n +:+ "=" +:+ sp_Value s) with (String c (n +:+ "=" +:+ sp_Value s)).
    rewrite read_dashed by done.
    change (String c (n +:+ "=" +:+ sp_Value s)) with (String c n +:+ "=" +:+ sp_Value s).
    rewrite cut_at_name by done. rewrite Hk. unfold set_flag.
    change (default "true" (Some (sp_Value s))) with (sp_Value s). destruct k; by rewrite Hv.
  - rewrite read_dashed by done. rewrite cut_at_none by done. rewrite Hk. unfold set_flag.
    destruct k; try (by rewrite Hv). by destruct (Hj eq_refl).
Qed.

(** Whatever values are given to its flags - with dashes, equals signs and all -
    and however they are spelled, a command line is read as exactly those, in order,
    and what follows "--" as its arguments, even when that looks like flags. *)
Theorem flags_roundtrip (sets : list spelling) (rest : list string) :
  Forall well_spelled sets →
  Parse parse_int parse_duration specs (concat (map spelled sets) ++ "--" :: rest)
  = Ok (map (λ s, (sp_Name s, sp_Value s)) sets, rest).
Proof.
  induction 1 as [|s sets Hs _ IH]; [reflexivity|]. cbn [map concat].
  by rewrite <- (assoc_L (++)), read_spelled, IH.
Qed.
End flags_facts.

Lemma flags_roundtrip_witness :
  Parse (λ _, None) (λ _, None) [("name", FString); ("enabled", FBool)]
    ["--name"; "-enabled=F"; "-enabled=0"; "--"; "-name=z"]
  = Ok ([("name", "-enabled=F"); ("enabled", "0")], ["-name=z"]).
Proof.
  apply (flags_roundtrip (λ _, None) (λ _, None) [("name", FString); ("enabled", FBool)]
    [mkSpelling "--" false "name" "-enabled=F"; mkSpelling "-" true "enabled" "0"] ["-name=z"]).
  apply Forall_cons; split; [|apply Forall_cons; split; [|by apply Forall_nil]].
  - split; [right; left|split; [reflexivity|]]. exists FString. by split_and!.
  - split; [left|split; [reflexivity|]]. exists FBool. by split_and!.
Defined.

(** ** Sandbox-exec *)

Definition sandbox_flags : list (string * flag_kind) :=
  [("timeout", FDuration); ("runtime", FString); ("image", FString); ("egress", FString); ("read-only", FBool);
   ("no-new-privs", FBool); ("user", FString); ("seccomp", FString); ("mount", FList); ("tmpfs", FList);
   ("drop-cap", FList)].

Definition comma_list (s : string) : list string :=
  let s := TrimSpace s in
  if s =? "" then [] else List.filter (λ v, negb (v =? "")) (map TrimSpace (split_byte (byte 44) s)).

(** The sandbox the flags describe, and the command; without an image it is the default
    one. *)
Definition exec_sandbox (parse_duration : string → option Z) (args : list string) : result (Sandbox * list string) :=
  '(sets, cmd) ← Parse (λ _, None) parse_duration sandbox_flags args;
  _ ← check (negb (Nat.eqb (length cmd) 0)) "command required";
  let text name := flag_text sets name "" in
  Ok (if blank (text "image") then NewSandbox
      else
        mkSandbox None true true (text "runtime") (text "image") (comma_list (text "egress")) (values_of sets "mount")
          (flag_bool sets "read-only" true) (values_of sets "tmpfs") (text "user") (text "seccomp")
          (flag_bool sets "no-new-privs" true) (values_of sets "drop-cap") ∅
          false false false false false false 0, cmd).

Definition sandbox_exec (sys : system) (parse_duration : string → option Z) (args : list string) (tr : list event) :
    output * list event :=
  match exec_sandbox parse_duration args with
  | Err e => (("", Some e), tr)
  | Ok (s, cmd) => run_handler (Run sys (Some s) cmd) tr
  end.

(** C16: whatever the flags, a process that sandbox-exec starts is the given command in a
    container of the given image, as a user that was named, without new privileges, under
    a seccomp profile and with capabilities dropped; without an image nothing runs. *)
Theorem sandbox_exec_hardened sys (parse_duration : string → option Z) (args : list string) argv env :
  Exec argv env ∈ (sandbox_exec sys parse_duration args []).2 →
  ∃ s cmd, exec_sandbox parse_duration args = Ok (s, cmd) ∧ blank (Image s) = false ∧
    blank (User s) = false ∧ DropCaps s ≠ [] ∧ hardened_argv s cmd argv.
Proof.
  unfold sandbox_exec. destruct (exec_sandbox parse_duration args) as [[s cmd]|e] eqn:E;
    [|by intros ?%elem_of_nil].
  assert (RunFunc s = None ∧ Enforce s = true ∧ (Enabled s = true → blank (Image s) = false)) as (Hf & He & Hi).
  { revert E. unfold exec_sandbox. intros ([sets cmd'] & _ & H)%bind_Ok. apply bind_Ok in H as ([] & _ & H).
    cbv zeta in H. destruct (blank (flag_text sets "image" "")) eqn:Hb; injection H as <- <-; by split_and!. }
  destruct (enforced_Run_adds sys s cmd Hf He []) as (evs & -> & HP). cbn [app]. intros Hin.
  destruct (HP argv env Hin) as (Hen & _ & _ & Hu & Hd & Hargv). exists s, cmd.
  specialize (Hi Hen). split_and!; [done..|].
  destruct (String.eqb_spec (Image s) "") as [Ei|_]; [by rewrite Ei in Hi|done].
Qed.

Definition exec_args : list string :=
  ["--image"; "tools:1"; "-user=1000"; "-seccomp"; "default.json"; "-drop-cap=ALL"; "kubectl"; "version"].
Lemma sandbox_exec_hardened_witness :
  ∃ argv, (sandbox_exec demo_system (λ _, None) exec_args []).2 = [Exec argv []] ∧
    ∃ s cmd, exec_sandbox (λ _, None) exec_args = Ok (s, cmd) ∧ blank (Image s) = false ∧
      blank (User s) = false ∧ DropCaps s ≠ [] ∧ hardened_argv s cmd argv.
Proof.
  eexists. split; [vm_compute; reflexivity|].
  apply (sandbox_exec_hardened demo_system (λ _, None) exec_args _ []).
  replace (sandbox_exec _ _ _ _).2 with
    [Exec (["docker"; "run"; "--rm"; "--read-only"; "--tmpfs"; "/tmp"; "--security-opt"; "no-new-privileges";
            "--security-opt"; "seccomp=default.json"; "--cap-drop"; "ALL"; "--user"; "1000"; "--network=none";
            "tools:1"; "kubectl"; "version"]) []] by (vm_compute; reflexivity).
  left.
Defined.
Example imageless : sandbox_exec demo_system (λ _, None) ["kubectl"; "version"] [] = (("", Some "sandbox required"), []).
Proof. vm_compute. reflexivity. Qed.

(** ** The client of the gateway *)

(** The path the address parses to, or why it does not; the token. *)
Record gatewayClient := mkClientOf { ctl_Base : result string; ctl_Token : string }.

Definition ctl_headers (c : gatewayClient) (has_body : bool) (tenantID name : string) : string :=
  if (name =? "Content-Type") && has_body then "application/json"
  else if (name =? "Authorization") && negb (ctl_Token c =? "") then "Bearer " +:+ ctl_Token c
  else if (name =? "X-Tenant-Id") && negb (blank tenantID) then tenantID
  else "".

Section ctl.
Context {W : Type} `{!Transport W}.
Variable readFile : string → result string.
(** url.Parse: the path of an address. *)
Variable url_path : string → result string.
Variables parse_int parse_duration : string → option Z.

Definition command : Type := W → result string * W.
Definition fails (e : string) : command := λ w, (Err e, w).
Definition prints (s : string) : command := λ w, (Ok s, w).
Definition println (s : string) : string := s +:+ bytes [10].
Definition try {A} (r : result A) (k : A → command) : command :=
  match r with Ok a => k a | Err e => fails e end.

Definition doRequestWithTenant (c : gatewayClient) (method path : string) (req : option any) (tenantID : string) :
    command := λ w,
  match (data ← match req with Some v => j ← marshal v; Ok (doc_json j) | None => Ok doc_empty end;
         base ← ctl_Base c;
         Ok (data, base)) with
  | Err e => (Err e, w)
  | Ok (data, base) =>
      let '(path, rawQuery) := default (path, "") (cut_at path "?") in
      let request := mkReq method (trim_suffix base "/" +:+ path) (values_get (ParseQuery rawQuery).1)
        (ctl_headers c (match req with Some _ => true | None => false end) tenantID) data in
      let '(resp, w) := http_do request w in
      (match resp with
       | Err e => Err e
       | Ok (status, text) =>
           if (status <? 200)%Z || (300 <=? status)%Z then Err ("gateway status " +:+ itoa status +:+ ": " +:+ text)
           else Ok text
       end, w)
  end.
Definition ctl_doRequest (c : gatewayClient) (method path : string) (req : option any) : command :=
  doRequestWithTenant c method path req "".

(** The document of the answer, when there is one to read. *)
Definition ctl_doJSON (c : gatewayClient) (method path : string) (req : any) (read : json → result string) : command :=
  λ w, let '(text, w) := ctl_doRequest c method path (Some req) w in
       (text ← text; j ← unmarshal (doc_of_text text); read j, w).
Definition sent_only (c : gatewayClient) (method path : string) (req : any) : command :=
  λ w, let '(text, w) := ctl_doRequest c method path (Some req) w in (_ ← text; Ok (println "ok"), w).

(** The id of an answer, on a line. *)
Definition answered_id (name : string) (j : json) : result string :=
  fs ← Json.members j;
  id ← fld_string name fs;
  _ ← check (negb (id =? "")) ("missing " +:+ name);
  Ok (println id).
Definition answered_plan (j : json) : result string :=
  '(id, planID) ← decode_plan_response j;
  let id := or_else id planID in
  _ ← check (negb (id =? "")) "missing plan_id";
  Ok (println id).

(** *** Input *)

Definition readInput (value : string) : result string :=
  match strip_prefix "@" value with
  | Some path => _ ← check (negb (blank path)) "input path required"; readFile path
  | None => Ok value
  end.
Definition parseJSONInput {A} (dec : json → result A) (init : A) (value : string) : result A :=
  if blank value then Ok init
  else data ← readInput value; j ← unmarshal (doc_of_text data); dec j.

Definition gateway_flags : list (string * flag_kind) := [("gateway", FString); ("token", FString)].
Definition texts (names : list string) : list (string * flag_kind) := map (λ n, (n, FString)) names.

Definition gatewayClientFromFlags (sets : list (string * string)) : result gatewayClient :=
  let baseURL := TrimSpace (flag_text sets "gateway" "") in
  _ ← check (negb (baseURL =? "")) "gateway required";
  Ok (mkClientOf (url_path (trim_right_slashes baseURL)) (flag_text sets "token" "")).

(** A command with text flags, which must not be blank when they are required. *)
Definition with_flags (specs : list (string * flag_kind)) (required : list string) (args : list string)
    (k : list (string * string) → command) : command :=
  try (Parse parse_int parse_duration (specs ++ gateway_flags) args) (λ '(sets, _),
    match List.find (λ n, blank (flag_text sets n "")) required with
    | Some name => fails (name +:+ " required")
    | None => k sets
    end).
Definition asking (specs : list (string * flag_kind)) (required : list string) (args : list string)
    (k : list (string * string) → gatewayClient → command) : command :=
  with_flags specs required args (λ sets, try (gatewayClientFromFlags sets) (k sets)).

(** *** Plans *)

Definition intent_or (sets : list (string * string)) : string :=
  let intent := flag_text sets "intent" "" in
  if blank intent then flag_text sets "summary" "" else intent.

Definition runPlanCreate (args : list string) : command :=
  with_flags (texts ["summary"; "trigger"; "intent"; "context"; "constraints"]) ["summary"] args (λ sets,
    try (parseJSONInput decode_ref empty_ref (flag_text sets "context" "")) (λ ctxRef,
    try (parseJSONInput decode_any ANil (flag_text sets "constraints" "")) (λ constraints,
    try (gatewayClientFromFlags sets) (λ c,
    ctl_doJSON c "POST" "/v1/plans"
      (plan_request_any (mkPlanReq (flag_text sets "summary" "") (flag_text sets "trigger" "manual") ctxRef
         (intent_or sets) constraints "")) answered_plan)))).

Definition runPlanApprove (args : list string) : command :=
  asking (texts ["plan-id"; "status"; "note"]) ["plan-id"] args (λ sets c,
    sent_only c "POST" "/v1/approvals"
      (approval_request_any (mkApprReq (flag_text sets "plan-id" "") (flag_text sets "note" "")
         (flag_text sets "status" "approved")))).

Definition runPlanGet (args : list string) : command :=
  asking (texts ["plan-id"]) ["plan-id"] args (λ sets c,
    ctl_doRequest c "GET" ("/v1/plans/" +:+ flag_text sets "plan-id" "") None).

Definition runPlanExecute (args : list string) : command :=
  asking (texts ["plan-id"; "approval-token"]) ["plan-id"] args (λ sets c,
    let token := flag_text sets "approval-token" "" in
    ctl_doJSON c "POST" ("/v1/plans/" +:+ flag_text sets "plan-id" "" +:+ ":execute")
      (AMap (if blank token then ∅ else {["approval_token" := AStr token]})) (answered_id "execution_id")).

(** *** Executions, context and schedules *)

Definition runExecLogs (args : list string) : command :=
  asking (texts ["execution-id"; "tool-call-id"; "level"]) ["execution-id"] args (λ sets c,
    let query := (if blank (flag_text sets "level" "") then [] else [("level", flag_text sets "level" "")]) ++
      (if blank (flag_text sets "tool-call-id" "") then [] else [("tool_call_id", flag_text sets "tool-call-id" "")]) in
    ctl_doRequest c "GET" ("/v1/executions/" +:+ flag_text sets "execution-id" "" +:+ "/logs" +:+
      match query with [] => "" | _ => "?" +:+ encode_values query end) None).

Definition runContextRefresh (args : list string) : command :=
  asking (texts ["service"]) ["service"] args (λ sets c,
    sent_only c "POST" "/v1/context/refresh"
      (AStruct "ContextRefreshRequest" [("service", AStr (flag_text sets "service" "")); ("nodes", ANil); ("edges", ANil)])).

Definition runContextSnapshot (args : list string) : command :=
  asking (texts ["tenant-id"]) ["tenant-id"] args (λ sets c,
    doRequestWithTenant c "GET" "/v1/context/snapshots" None (flag_text sets "tenant-id" "")).

Definition schedule_request_any (req : ScheduleCreateRequest) : any :=
  AStruct "ScheduleCreateRequest"
    [("summary", AStr (hq_Summary req)); ("cron", AStr (hq_Cron req)); ("context", ref_any (hq_Context req));
     ("intent", AStr (hq_Intent req)); ("constraints", hq_Constraints req); ("enabled", ABool (hq_Enabled req))].

Definition runScheduleCreate (args : list string) : command :=
  with_flags (texts ["summary"; "cron"; "intent"; "context"; "constraints"] ++ [("enabled", FBool)]) ["summary"; "cron"] args
    (λ sets,
    try (parseJSONInput decode_ref empty_ref (flag_text sets "context" "")) (λ ctxRef,
    try (parseJSONInput decode_any ANil (flag_text sets "constraints" "")) (λ constraints,
    try (gatewayClientFromFlags sets) (λ c,
    ctl_doJSON c "POST" "/v1/schedules"
      (schedule_request_any (mkSchedReq (flag_text sets "summary" "") (flag_text sets "cron" "") ctxRef (intent_or sets)
         constraints (flag_bool sets "enabled" true))) (answered_id "schedule_id"))))).

Definition listed (path : string) (args : list string) : command :=
  asking [] [] args (λ _ c, ctl_doRequest c "GET" path None).
Definition runScheduleList : list string → command := listed "/v1/schedules".

(** *** Workflows, sessions, playbooks, runbooks and the audit log *)

Definition runWorkflowList (args : list string) : command :=
  asking (texts ["tenant-id"]) [] args (λ sets c,
    doRequestWithTenant c "GET" "/v1/workflows" None (flag_text sets "tenant-id" "")).

(** A nil input is null. *)
Definition start_request_any (ctxRef : ContextRef) (input : option (gmap string any)) (constraints : any) : any :=
  AStruct "WorkflowStartRequest"
    [("context", ref_any ctxRef); ("input", match input with Some m => AMap m | None => ANil end);
     ("constraints", constraints)].
Definition decode_input (j : json) : result (option (gmap string any)) :=
  match j with JNull => Ok None | _ => m ← decode_map j; Ok (Some m) end.

Definition runWorkflowStart (args : list string) : command :=
  with_flags (texts ["name"; "context"; "input"; "constraints"]) ["name"] args (λ sets,
    try (parseJSONInput decode_ref empty_ref (flag_text sets "context" "")) (λ ctxRef,
    try (parseJSONInput decode_input None (flag_text sets "input" "")) (λ input,
    try (parseJSONInput decode_any ANil (flag_text sets "constraints" "")) (λ constraints,
    try (gatewayClientFromFlags sets) (λ c,
    ctl_doRequest c "POST" ("/v1/workflows/" +:+ flag_text sets "name" "" +:+ "/start")
      (Some (start_request_any ctxRef input constraints))))))).

(** Replaying a history is Temporal's. *)
Definition runWorkflowReplay (replay : string → result unit) (args : list string) : command :=
  try (Parse parse_int parse_duration (texts ["history"]) args) (λ '(sets, _),
    let history := TrimSpace (flag_text sets "history" "") in
    if history =? "" then fails "history required"
    else
      let path := match strip_prefix "@" history with Some p => TrimSpace p | None => history end in
      try (replay path) (λ _, prints (println "ok"))).

Definition session_request_any (req : SessionRequest) : any :=
  AStruct "SessionRequest"
    [("name", AStr (sq_Name req)); ("tenant_id", AStr (sq_TenantID req)); ("group_id", AStr (sq_GroupID req));
     ("owner_actor_id", AStr (sq_OwnerActorID req));
     ("metadata", match sq_Metadata req with Some m => AMap m | None => ANil end)].
Definition runSessionCreate (args : list string) : command :=
  asking (texts ["name"; "tenant-id"]) ["name"; "tenant-id"] args (λ sets c,
    ctl_doJSON c "POST" "/v1/sessions"
      (session_request_any (mkSessionReq (flag_text sets "name" "") (flag_text sets "tenant-id" "") "" "" None))
      (answered_id "session_id")).
Definition runSessionList : list string → command := listed "/v1/sessions".

Definition runPlaybookList : list string → command := listed "/v1/playbooks".
Definition runPlaybookGet (args : list string) : command :=
  asking (texts ["playbook-id"]) ["playbook-id"] args (λ sets c,
    ctl_doRequest c "GET" ("/v1/playbooks/" +:+ flag_text sets "playbook-id" "") None).
Definition runRunbookList : list string → command := listed "/v1/runbooks".
Definition runRunbookGet (args : list string) : command :=
  asking (texts ["runbook-id"]) ["runbook-id"] args (λ sets c,
    ctl_doRequest c "GET" ("/v1/runbooks/" +:+ flag_text sets "runbook-id" "") None).
Definition runAuditList (args : list string) : command :=
  asking (texts ["tenant-id"]) ["tenant-id"] args (λ sets c,
    doRequestWithTenant c "GET" "/v1/audit/events" None (flag_text sets "tenant-id" "")).

(** *** Policy *)

(** policy.PolicyInput as it is given: any values, and a time. *)
Definition decode_policy_input (j : json) : result any :=
  fs ← Json.members j;
  actor ← fld_any "actor" fs; action ← fld_any "action" fs; ctx ← fld_any "context" fs;
  resources ← fld_any "resources" fs; risk ← fld_any "risk" fs; time ← fld_string "time" fs;
  Ok (AStruct "PolicyInput" [("actor", actor); ("action", action); ("context", ctx); ("resources", resources);
                             ("risk", risk); ("time", AStr time)]).

(** [post]: the policy service within a time; [encode]: json.Encoder of its decision. *)
Definition runPolicyTest (post : Z → string → json → result (Z * doc)) (encode : PolicyDecision → string)
    (args : list string) : command :=
  try (Parse parse_int parse_duration (texts ["opa-url"; "package"; "input"] ++ [("timeout-ms", FInt)]) args)
    (λ '(sets, _),
    let opaURL := flag_text sets "opa-url" "" in
    let input := flag_text sets "input" "" in
    if blank opaURL then fails "opa-url required"
    else if blank input then fails "input required"
    else
      try (parseJSONInput decode_policy_input ANil input) (λ v,
      let timeout := default 5000%Z (last (values_of sets "timeout-ms") ≫= parse_int) in
      try (Evaluate_any (post (wrap64 (timeout * 1000000)))
             (mkPolicyService (trim_right_slashes opaURL) (TrimSpace (flag_text sets "package" "policy.assistant.v1"))) v)
        (λ d, prints (encode d)))).

(** *** Commands *)

Definition is_help (s : string) : bool := mem s ["-h"; "--help"; "help"].

(** A group of subcommands and its usage. *)
Definition group (name usage : string) (subs : list (string * (list string → command))) (args : list string) : command :=
  match args with
  | [] => fails (name +:+ " subcommand required")
  | a :: rest =>
      if is_help a then prints (println usage)
      else match snd <$> List.find (λ s, s.1 =? a) subs with
           | Some run => run rest
           | None => fails ("unknown " +:+ name +:+ " command: " +:+ a)
           end
  end.
Definition usage_of (name subs : string) : string :=
  "Usage: assistantctl " +:+ name +:+ " <" +:+ subs +:+ "> [flags]".

Definition usage : string :=
  println "Usage: assistantctl <command> <subcommand> [flags]" +:+ println "" +:+
  println "Commands: plan, exec, context, policy, llm, schedule, workflow, session, playbook, runbook, audit" +:+
  println "Global flags: --help, --version".

Section run.
Variable post : Z → string → json → result (Z * doc).
Variable encode : PolicyDecision → string.
Variable replay : string → result unit.
Variable runLLM : list string → command.
(** The version the program was built as, and its commit. *)
Variables version commit : string.

Definition groups : list (string * (list string → command)) :=
  [("plan", group "plan" (usage_of "plan" "create|approve|get|execute")
      [("create", runPlanCreate); ("approve", runPlanApprove); ("get", runPlanGet); ("execute", runPlanExecute)]);
   ("exec", group "exec" (usage_of "exec" "logs") [("logs", runExecLogs)]);
   ("context", group "context" (usage_of "context" "refresh|snapshot")
      [("refresh", runContextRefresh); ("snapshot", runContextSnapshot)]);
   ("policy", group "policy" (usage_of "policy" "test") [("test", runPolicyTest post encode)]);
   ("llm", runLLM);
   ("schedule", group "schedule" (usage_of "schedule" "create|list")
      [("create", runScheduleCreate); ("list", runScheduleList)]);
   ("workflow", group "workflow" (usage_of "workflow" "list|start|replay")
      [("replay", runWorkflowReplay replay); ("list", runWorkflowList); ("start", runWorkflowStart)]);
   ("session", group "session" (usage_of "session" "create|list")
      [("create", runSessionCreate); ("list", runSessionList)]);
   ("playbook", group "playbook" (usage_of "playbook" "list|get") [("list", runPlaybookList); ("get", runPlaybookGet)]);
   ("runbook", group "runbook" (usage_of "runbook" "list|get") [("list", runRunbookList); ("get", runRunbookGet)]);
   ("audit", group "audit" (usage_of "audit" "list") [("list", runAuditList)])].

Definition run (args : list string) : command :=
  match args with
  | [] => fails "command required"
  | a :: rest =>
      if is_help a then prints usage
      else if mem a ["--version"; "version"] then
        prints (println (version +:+ (if blank commit then "" else " (" +:+ commit +:+ ")")))
      else match snd <$> List.find (λ g, g.1 =? a) groups with
           | Some g => g rest
           | None => fails ("unknown command: " +:+ a)
           end
  end.
End run.
End ctl.

(** *** In front of the gateway *)

Section in_front.
Variable clock : nat → Z.
Variable fault : nat → option string.
Variable jsonb : json → json.
Variable pick : list approval_row → option approval_row.
Variable time_text : Z → string.
Variable time_parse : string → result Z.
Variable json_text : json → string.
Variable sv : Server.
Variable cfg : AuthConfig.
Variable VerifyPKCS1v15 : Z → Z → string → string → result unit.
Variable FetchJWKS : string → result (list JWK).
Variable gate_fault : nat → option string.
Variable dir : string.
Variable files : list string → file_read.
Variable context_service : option (list (option (result Snapshot))).
Variable checked : health.
Variable metrics : Response.
Variable page : endpoint → Request → Response.
Variable meets : Request → exchange.
Variable text_of : Response → string.
Variables parse_int parse_duration : string → option Z.

#[local] Instance front_db : GatewayDB store := request_db clock fault jsonb pick time_text time_parse.
#[local] Instance front_transport : Transport (gateway store) :=
  gateway_transport clock fault jsonb pick time_text time_parse json_text sv cfg VerifyPKCS1v15 FetchJWKS gate_fault
    dir files context_service checked metrics page meets text_of.

(** A list that only a tenant may read. *)
Lemma untenanted_list_refused path e args w :
  (path, e) ∈ [("/v1/playbooks", PlaybooksRoot); ("/v1/runbooks", RunbooksRoot)] →
  let '(out, w') := listed (λ _, Ok "") parse_int parse_duration path args w in
  is_ok out = false ∧ unchanged_but_audit w w'.
Proof.
  intros Hin. unfold listed, asking, with_flags, try.
  destruct (Parse _ _ _ args) as [[sets more]|er]; [|done]. cbn [List.find].
  unfold gatewayClientFromFlags. destruct (TrimSpace _ =? "") eqn:Hg; cbn [check negb mbind result_bind]; [done|].
  unfold ctl_doRequest, doRequestWithTenant. cbn [mbind result_bind ctl_Base].
  assert (cut_at path "?" = None ∧ trim_suffix "" "/" +:+ path = path) as [-> Hpath].
  { rewrite !elem_of_cons, elem_of_nil in Hin. by destruct Hin as [[= -> ->]|[[= -> ->]|[]]]. }
  change (default (path, "") None) with (path, ""). cbv beta iota zeta. rewrite Hpath. cbn [http_do front_transport gateway_transport].
  match goal with |- context [ServeHTTP _ _ _ _ _ _ _ _ _ _ _ _ _ _ _ _ _ _ ?ex (over_the_wire ?r) w] => set (rq := r) end.
  enough (H : let '(resp, w') := ServeHTTP clock fault jsonb pick time_text time_parse json_text sv cfg VerifyPKCS1v15
      FetchJWKS gate_fault dir files context_service checked metrics page (arriving meets rq) (over_the_wire rq) w in refused resp ∧ unchanged_but_audit w w').
  { destruct (ServeHTTP _ _ _ _ _ _ _ _ _ _ _ _ _ _ _ _ _ _ _ (over_the_wire rq) w) as [resp w']. destruct H as [Hr Hw].
    unfold refused in Hr. destruct (Z.leb_spec 300 (Status resp)); [|lia]. by rewrite orb_true_r. }
  apply (refused_endpoint _ _ _ _ _ _ _ _ _ _ _ _ _ _ _ _ _ _ _ (over_the_wire rq) w (write_route path e)).
  { subst rq. unfold arriving. cbn [over_the_wire ex_escaped Path Method].
    rewrite !elem_of_cons, elem_of_nil in Hin. by destruct Hin as [[= -> ->]|[[= -> ->]|[]]]. }
  { unfold open_endpoints. rewrite !elem_of_cons, elem_of_nil in Hin.
    destruct Hin as [[= -> ->]|[[= -> ->]|[]]]; cbn; rewrite !elem_of_cons; intros [|[|[|?%elem_of_nil]]]; done. }
  intros actor. unfold call_endpoint. cbn [rt_endpoint write_route]. set (cc := mkCall_ (over_the_wire rq) actor).
  match goal with |- let '(_, _) := run_handler ?m w in _ =>
    enough (H : let Q := λ resp w', refused resp ∧ unchanged_but_audit w w' in wp m Q Q w)
      by (cbn zeta in H; apply wp_run in H; by destruct (run_handler m w)) end.
  cbn zeta. rewrite !elem_of_cons, elem_of_nil in Hin.
  destruct Hin as [[= -> ->]|[[= -> ->]|[]]]; cbn [endpoint_handler]; unfold handlePlaybooks, handleRunbooks;
    change (Method (cc_req cc)) with "GET"; cbn [String.eqb Ascii.eqb Bool.eqb];
    (apply wp_bind, wp_return_if; split; intros Hdb; [split; [by vm_compute|done]|]);
    unfold listPlaybooks, listRunbooks; apply wp_bind, (wp_require_tenant cc);
    [intros Hne; exfalso; by apply Hne|split; [by vm_compute|done]
    |intros Hne; exfalso; by apply Hne|split; [by vm_compute|done]].
Qed.

(** The playbook and runbook lists of the command line can never be read: it has no
    flag for the tenant the gateway asks of them.  Whatever the arguments and the state,
    the command fails, and at most an audit event is written. *)
Theorem untenanted_lists_refused (args : list string) (w : gateway store) :
  let fails_on run :=
    let '(out, w') := run args w in is_ok out = false ∧ unchanged_but_audit w w' in
  fails_on (runPlaybookList (λ _, Ok "") parse_int parse_duration) ∧
  fails_on (runRunbookList (λ _, Ok "") parse_int parse_duration).
Proof.
  split; [apply (untenanted_list_refused "/v1/playbooks" PlaybooksRoot)
         |apply (untenanted_list_refused "/v1/runbooks" RunbooksRoot)]; [left|right; left].
Qed.
End in_front.

(** ** Credentials of language models *)

Section llm.
Variable time_parse : string → result Z.
Variable time_json : Z → string.
Variable os : machine.
Variable now : Z.
Variables parse_int parse_duration : string → option Z.

Definition parseExpiryFlag (value : string) : result Z :=
  if blank value then Ok zero_time
  else match time_parse value with Ok ts => Ok ts | Err _ => Err "invalid expires-at" end.

Definition defaultProfileID (provider override : string) : string :=
  if negb (blank override) then TrimSpace override else or_else provider codexProvider +:+ ":manual".

Definition with_id (id : string) (p : AuthProfile) : AuthProfile :=
  if blank id then p
  else mkProfile (TrimSpace id) (pf_Provider p) (pf_AccountID p) (pf_AccessToken p) (pf_RefreshToken p) (pf_ExpiresAt p)
         (pf_Source p).

(** The file written, and what is in it. *)
Definition storeAuthProfile (p : AuthProfile) (authPath : string) (setDefault : bool) : result (string * json) :=
  ps ← LoadAuthProfiles time_parse os authPath;
  ps ← UpsertProfile ps p;
  SaveAuthProfiles time_json os authPath
    (if setDefault then mkProfiles (<[pf_Provider p := pf_ID p]> (Defaults ps)) (Profiles ps) else ps).

(** The profile the flags describe: a token's, else OpenClaw's, else Codex'. *)
Definition imported_profile (sets : list (string * string)) : result AuthProfile :=
  let text name := flag_text sets name "" in
  let provider := flag_text sets "provider" codexProvider in
  if negb (blank (text "access-token")) then
    expiry ← parseExpiryFlag (text "expires-at");
    Ok (mkProfile (defaultProfileID provider (TrimSpace (text "profile-id"))) (TrimSpace provider) ""
          (TrimSpace (text "access-token")) (TrimSpace (text "refresh-token")) expiry "manual")
  else if negb (blank (text "openclaw-auth")) then
    p ← ImportOpenClawAuth time_parse os (text "openclaw-auth") (TrimSpace provider) (TrimSpace (text "profile-id")) now;
    Ok (with_id (text "profile-id") p)
  else
    _ ← check (TrimSpace provider =? codexProvider) "only openai-codex import supported without access-token";
    p ← ImportCodexAuth time_parse os (text "codex-auth") now;
    Ok (with_id (text "profile-id") p).

(** What it prints and writes. *)
Definition stored (sets : list (string * string)) (p : AuthProfile) : result (string * (string * json)) :=
  file ← storeAuthProfile p (flag_text sets "auth-path" "") (flag_bool sets "set-default" true);
  Ok (println (pf_ID p), file).

Definition runLLMAuthImport (args : list string) : result (string * (string * json)) :=
  '(sets, _) ← Parse parse_int parse_duration
    (texts ["provider"; "codex-auth"; "openclaw-auth"; "auth-path"; "profile-id"; "access-token"; "refresh-token"; "expires-at"]
     ++ [("set-default", FBool)]) args;
  p ← imported_profile sets;
  stored sets p.

(** [look_path] finds codex, and [login] is what its login answers. *)
Definition runLLMAuthLogin (look_path : result string) (login : string → result unit) (args : list string) :
    result (string * (string * json)) :=
  '(sets, _) ← Parse parse_int parse_duration
    (texts ["codex-auth"; "auth-path"; "profile-id"] ++ [("set-default", FBool)]) args;
  path ← match look_path with Ok p => Ok p | Err _ => Err "codex CLI not found" end;
  _ ← login path;
  p ← ImportCodexAuth time_parse os (flag_text sets "codex-auth" "") now;
  stored sets (with_id (flag_text sets "profile-id" "") p).

Definition runLLM (look_path : result string) (login : string → result unit) (args : list string) :
    result (string * (string * json)) :=
  match args with
  | [] => Err "llm subcommand required"
  | "auth" :: [] => Err "llm auth subcommand required"
  | "auth" :: a :: rest =>
      if a =? "import" then runLLMAuthImport rest
      else if a =? "login" then runLLMAuthLogin look_path login rest
      else Err ("unknown llm auth command: " +:+ a)
  | a :: _ => Err ("unknown llm command: " +:+ a)
  end.

(** *** An imported token is the one that is sent *)

(** The token the planner finds. *)
Lemma stored_token_found p path file data ps r later :
  LoadAuthProfiles time_parse os path = Ok ps → plain_defaults (Defaults ps) → plain_text codexProvider = true →
  Forall (λ q, plain_profile q = true ∧ kept_time time_parse time_json q) (p :: Profiles ps) →
  pf_Provider p = codexProvider → blank (pf_AccessToken p) = false → Expired p later = false →
  storeAuthProfile p path true = Ok (file, data) →
  blank (lm_APIKey r) = true → blank (lm_AuthProfile r) = true → lm_AuthPath r = path → TrimSpace path = path →
  Forall (λ name, blank (Getenv os name) = true)
    ["OPENAI_ACCESS_TOKEN"; "CARAPULSE_AUTH_PATH"; "CARAPULSE_AUTH_PROFILE"] →
  resolveCodexToken time_parse (written os file data) r later = Ok (TrimSpace (pf_AccessToken p)).
Proof.
  intros Hload Hd Hc Hall Hprov Htok Hexp Hstore Hkey Hprof Hpath Htrim Henv.
  pose proof Hall as [Hp Hl]%Forall_cons. unfold storeAuthProfile in Hstore. rewrite Hload in Hstore.
  unfold UpsertProfile in Hstore. cbn [mbind result_bind] in Hstore.
  destruct (blank (pf_ID p)) eqn:Hid; cbn [check negb mbind result_bind Defaults Profiles] in Hstore; [done|].
  set (ps' := mkProfiles (<[pf_Provider p := pf_ID p]> (Defaults ps)) (put_profile p (Profiles ps))) in Hstore.
  assert (plain_defaults (Defaults ps')) as Hd'.
  { subst ps'. cbn [Defaults]. apply map_Forall_insert_2; [|done]. rewrite Hprov. split; [done|].
    destruct Hp as [Hp _]. unfold plain_profile in Hp. cbn [forallb] in Hp. by apply andb_prop in Hp as [? _]. }
  pose proof (saved_profiles_load time_parse time_json os path ps' Hd' (put_profile_Forall _ p _ Hp Hl)) as Hs.
  rewrite Hstore in Hs.
  unfold resolveCodexToken, or_env, LoadAuthProfile, env_path. apply String.eqb_eq in Hkey, Hprof.
  unfold blank in Hid. rewrite Hkey, Hprof, Hpath, Htrim. cbn [written Getenv String.eqb]. repeat apply Forall_cons in Henv as [?%String.eqb_eq Henv].
  repeat match goal with H : TrimSpace (Getenv os ?n) = "" |- _ => rewrite H end. cbn [String.eqb negb].
  assert ((if path =? "" then "" else path) = path) as -> by (by destruct (String.eqb_spec path "") as [->|]).
  rewrite Hs. cbn [mbind result_bind]. unfold SelectProfile. cbn [String.eqb negb].
  subst ps'. cbn [Defaults Profiles]. rewrite Hprov, lookup_insert_eq. cbn [default id].
  change (id (pf_ID p)) with (pf_ID p).
  destruct (String.eqb_spec (pf_ID p) "") as [E|_]; [by rewrite E in Hid|]. rewrite put_profile_id.
  cbn [of_option mbind result_bind]. unfold blank in Htok. rewrite Htok. cbn [negb check mbind result_bind].
  by rewrite Hexp.
Qed.
(** C15: a Codex credential stored by the command line as the default is what the
    planner sends.  Whatever profiles were in the file (their texts valid UTF-8, their
    times such as their JSON keeps), and on whichever machine: a planner that is
    configured for Codex with a model, that reads this file, and that is given no key
    and no profile by its configuration or by the three variables of the environment
    it looks at, answers a planning request with the one request of its Codex client,
    to the configured address, which carries exactly the token that was stored, as long
    as it has not expired. *)
Theorem stored_token_is_used {W} `{!LLMTransport W} p path file data ps r later compile intent context evidence
    prompt (w : W) :
  LoadAuthProfiles time_parse os path = Ok ps → plain_defaults (Defaults ps) → plain_text codexProvider = true →
  Forall (λ q, plain_profile q = true ∧ kept_time time_parse time_json q) (p :: Profiles ps) →
  pf_Provider p = codexProvider → blank (pf_AccessToken p) = false → Expired p later = false →
  storeAuthProfile p path true = Ok (file, data) →
  norm (lm_Provider r) = codexProvider → blank (lm_Model r) = false →
  blank (lm_APIKey r) = true → blank (lm_AuthProfile r) = true → lm_AuthPath r = path → TrimSpace path = path →
  Forall (λ name, blank (Getenv os name) = true)
    ["OPENAI_ACCESS_TOKEN"; "CARAPULSE_AUTH_PATH"; "CARAPULSE_AUTH_PROFILE"] →
  blank intent = false → prompt_of compile r (TrimSpace intent) context evidence = Ok prompt →
  let tokens := if (lm_MaxTokens r <=? 0)%Z then 512%Z else lm_MaxTokens r in
  asked (mkLLM (api_base (lm_APIBase r) defaultOpenAIBase +:+ "/v1/chat/completions")
           [("Authorization", "Bearer " +:+ TrimSpace (pf_AccessToken p)); ("Content-Type", "application/json")]
           (openai_body (lm_Model r) prompt tokens)) w
    (Plan time_parse (written os file data) compile r later intent context evidence w).
Proof.
  intros Hload Hd Hc Hall Hprov Htok Hexp Hstore Hpr Hmodel Hkey Hprof Hpath Htrim Henv Hi Hprompt tokens.
  pose proof (stored_token_found p path file data ps r later Hload Hd Hc Hall Hprov Htok Hexp Hstore
    Hkey Hprof Hpath Htrim Henv) as Htoken.
  unfold Plan. unfold blank in Hi. rewrite Hi. cbn [negb check mbind result_bind]. rewrite Hprompt, Hpr.
  change (codexProvider =? "openai") with false. change (codexProvider =? "anthropic") with false.
  rewrite String.eqb_refl, Htoken. apply openai_asked. rewrite Hmodel, orb_false_r. unfold blank in *.
  by rewrite TrimSpace_idemp.
Qed.
End llm.

(** A model that answers nothing, and keeps what it was asked. *)
#[local] Instance listening_model : LLMTransport (list LLMRequest) := {| llm_do req w := (Err "silent", w ++ [req]) |}.

Lemma stored_token_is_used_witness :
  let p := mkProfile "openai-codex:manual" codexProvider "" "tok-1" "" 4000000000000000000 "manual" in
  let r := mkRouter "openai-codex" "m" "" "" 0 "" "" [] in
  match storeAuthProfile Atoi itoa empty_machine p "" true with
  | Ok (file, data) =>
      map lr_Headers (Plan Atoi (written empty_machine file data) (λ _, None) r 0 "scale web" ANil ANil []).2
      = [[("Authorization", "Bearer tok-1"); ("Content-Type", "application/json")]]
  | Err _ => False
  end.
Proof.
  intros p r. destruct (storeAuthProfile Atoi itoa empty_machine p "" true) as [[file data]|e] eqn:E; [|vm_compute in E; discriminate].
  destruct (prompt_of (λ _, None) r (TrimSpace "scale web") ANil ANil) as [prompt|e] eqn:Ep; [|vm_compute in Ep; discriminate].
  destruct (stored_token_is_used Atoi itoa empty_machine p "" file data (mkProfiles ∅ []) r 0 (λ _, None) "scale web"
    ANil ANil prompt []) as [H _]; try reflexivity; [..|by rewrite H]; [| |exact E| |exact Ep].
  - intros k v. cbn. rewrite lookup_empty. discriminate.
  - cbn [Profiles]. apply Forall_cons. split; [|by apply Forall_nil].
    repeat split; vm_compute; reflexivity.
  - repeat (apply Forall_cons; split; [reflexivity|]). by apply Forall_nil.
Defined.
