(* ===== verification/Background.v ===== *)
(** * Background: the loops of the gateway and what becomes of them

    Scheduler.Run (internal/web/scheduler.go), AlertPoller.Run (alerts.go), Watcher.Run
    (internal/approvals/watcher.go) and Executor.Run (internal/workflows/executor.go): a
    pass at once and another after every interval, until one fails or the context is done;
    GoroutineTracker.Go, which starts them, and what /readyz says of them (health.go).

    What happens between two passes is the argument of the loop. *)

From S2P Require Import Prelude GoStrings Json ContextRef Steps Policy Hubs Http Store Gateway Admin.
From S2P Require Import Executor Watcher Pollers.

Local Open Scope string_scope.
Local Open Scope list_scope.

(** ** The loop *)

(** What ends the wait after a pass, with what the others did meanwhile: the interval, or
    the end of the context. *)
Inductive wake (W : Type) := Interval (others : W → W) | Done (others : W → W).
Arguments Interval {W}.
Arguments Done {W}.

Definition meanwhile {W} (k : wake W) : W → W := match k with Interval f | Done f => f end.
Definition elapsed {W} (wakes : list (wake W)) (w : W) : W := fold_left (λ w k, meanwhile k w) wakes w.

Section loop.
Context {W : Type}.
Variable once : W → result unit * W.

(** How the loop ended, if it did, and the passes it made; when it has ended the others go
    on. *)
Inductive ending := Failed (e : string) | Cancelled | Waits.

Fixpoint run_loop (wakes : list (wake W)) (w : W) : ending * nat * W :=
  match once w with
  | (Err e, w) => (Failed e, 1%nat, elapsed wakes w)
  | (Ok _, w) =>
      match wakes with
      | [] => (Waits, 1%nat, w)
      | Done f :: rest => (Cancelled, 1%nat, elapsed rest (f w))
      | Interval f :: rest => let '(end_, n, w) := run_loop rest (f w) in (end_, Datatypes.S n, w)
      end
  end.

(** A pass for every interval, each of them well ended, and the state before the next. *)
Inductive kept_up : W → list (wake W) → W → Prop :=
| not_yet w : kept_up w [] w
| passed w w1 f wakes w2 : once w = (Ok tt, w1) → kept_up (f w1) wakes w2 → kept_up w (Interval f :: wakes) w2.
End loop.
Arguments kept_up {W}.

(** ** The four loops

    The checks before the first pass, and the pass. *)

Definition of_count (r : Z * option string) : result unit := match r.2 with None => Ok tt | Some e => Err e end.

(** The interval in nanoseconds. *)
Definition or_interval (default_ d : Z) : Z := if (d <=? 0)%Z then default_ else d.
Definition one_second : Z := 1000000000.
Definition scheduler_interval : Z → Z := or_interval (30 * one_second).
Definition alert_interval : Z → Z := or_interval (30 * one_second).
Definition executor_interval : Z → Z := or_interval (2 * one_second).
Definition step_timeout : Z → Z := or_interval (5 * 60 * one_second).

Section loops.
Context {S C W G : Type} `{!ScheduleStore S} `{!ApprovalClient C} `{!ApprovalStore S} `{!ExecutionStore S} `{!ToolRunner W}.

(** A reading of the clock for each pass. *)
Definition scheduler_pass time_parse time_json rfc3339 cron (clock : scheduling S → Z) (w : scheduling S) :
    result unit * scheduling S :=
  let '(r, w) := run_handler (Scheduler_RunOnce time_parse time_json rfc3339 cron (clock w)) w in (of_count r, w).
Definition Scheduler_Run time_parse time_json rfc3339 cron clock (wakes : list (wake (scheduling S))) :=
  run_loop (scheduler_pass time_parse time_json rfc3339 cron clock) wakes.

Definition alert_pass clock time_parse DedupWindow has_store Handler (w : polling W G) : result unit * polling W G :=
  let '(r, w) := run_handler (AlertPoller_RunOnce clock time_parse DedupWindow has_store Handler) w in (of_count r, w).
Definition AlertPoller_Run clock time_parse DedupWindow has_store Handler (wakes : list (wake (polling W G))) :=
  run_loop (alert_pass clock time_parse DedupWindow has_store Handler) wakes.

Definition watcher_pass (clock : watching C S → Z) timeout (w : watching C S) : result unit * watching C S :=
  run_handler (syncOnce (clock w) (approval_timeout timeout)) w.
Definition Watcher_Run clock timeout (wakes : list (wake (watching C S))) := run_loop (watcher_pass clock timeout) wakes.

Definition executor_pass (e : Executor) (w : xworld S W) : result unit * xworld S W :=
  let '(r, w) := run_handler (RunOnce e) w in (of_count r, w).
Definition Executor_Run (e : Executor) (wakes : list (wake (xworld S W))) (w : xworld S W) : ending * nat * xworld S W :=
  if negb (ex_Runtime e) then (Failed "runtime required", 0%nat, elapsed wakes w) else run_loop (executor_pass e) wakes w.
End loops.

(** GoroutineTracker.Go: the tracker while the loop waits, and after it ended. *)
Definition tracked_loop (name : string) (end_ : ending) (t : GoroutineTracker) : GoroutineTracker :=
  let t := go_start name t in
  match end_ with
  | Waits => t
  | Failed e => go_end name (Some e) false t
  | Cancelled => go_end name (Some "context canceled") true t
  end.

(** What another goroutine does to the tracker. *)
Inductive tracking := Starts (name : string) | Ends (name : string) (err : option string) (done_ : bool).
Definition tracks (t : GoroutineTracker) (k : tracking) : GoroutineTracker :=
  match k with Starts name => go_start name t | Ends name err done_ => go_end name err done_ t end.
Definition tracked_name (k : tracking) : string := match k with Starts name | Ends name _ _ => name end.

(** ** A failed pass is the last *)

Section last.
Context {W : Type}.
Variable once : W → result unit * W.

Lemma kept_up_run w pre w1 post :
  kept_up once w pre w1 →
  run_loop once (pre ++ post) w
  = (let '(end_, n, w2) := run_loop once post w1 in (end_, (length pre + n)%nat, w2)).
Proof.
  induction 1 as [w|w w1 f wakes w2 Ho _ IH]; cbn [app length Nat.add]; [by destruct (run_loop once post w) as [[]]|].
  cbn [run_loop]. rewrite Ho, IH. by destruct (run_loop once post w2) as [[]].
Qed.

(** Every run keeps up with its intervals to where it waits, is cancelled or fails. *)
Lemma run_loop_cases wakes w :
  ∃ pre post w1, wakes = pre ++ post ∧ kept_up once w pre w1 ∧
    match once w1, post with
    | (Ok _, w2), [] => run_loop once wakes w = (Waits, Datatypes.S (length pre), w2)
    | (Ok _, w2), Done f :: rest => run_loop once wakes w = (Cancelled, Datatypes.S (length pre), elapsed rest (f w2))
    | (Ok _, _), Interval _ :: _ => False
    | (Err e, w2), _ => run_loop once wakes w = (Failed e, Datatypes.S (length pre), elapsed post w2)
    end.
Proof.
  revert w. induction wakes as [|k wakes IH]; intros w; cbn [run_loop]; destruct (once w) as [[[]|e] w1] eqn:Ho.
  - exists [], [], w. split_and!; [done|constructor|]. by rewrite Ho.
  - exists [], [], w. split_and!; [done|constructor|]. by rewrite Ho.
  - destruct k as [f|f].
    + destruct (IH (f w1)) as (pre & post & w2 & -> & Hk & Hm). exists (Interval f :: pre), post, w2.
      split; [done|]. split; [by econstructor|]. cbn [length].
      destruct (once w2) as [[[]|e] w3]; [destruct post as [|[g|g] post]; [|done|]|]; by rewrite Hm.
    + exists [], (Done f :: wakes), w. split_and!; [done|constructor|]. by rewrite Ho.
  - exists [], (k :: wakes), w. split_and!; [done|constructor|]. by rewrite Ho.
Qed.
End last.

(** A name that has stopped, with a text that is not ok. *)
Definition stopped (name : string) (t : GoroutineTracker) : Prop :=
  alive t !! name = Some false ∧ lastErr t !! name ≠ Some "ok".

Lemma tracks_stopped name t k : tracked_name k ≠ name → stopped name t → stopped name (tracks t k).
Proof.
  intros Hn [Ha Hl]. unfold stopped. destruct k as [n|n [e|] []]; cbn in *;
    rewrite ?lookup_insert_ne by done; done.
Qed.

Lemma stopped_unready h t name : h_Goroutines h = Some t → stopped name t → Status (handleReadyz h) = 503%Z.
Proof.
  intros Ht [Ha Hl]. unfold handleReadyz. replace (ready h) with false; [done|]. symmetry.
  unfold ready. rewrite Ht. apply andb_false_iff. right.
  destruct (forallb _ _) eqn:E; [|done]. exfalso. rewrite forallb_forall in E.
  assert (In (name, goroutine_status t name false) (map_to_list (Checks t))) as Hi.
  { apply list_elem_of_In, elem_of_map_to_list. unfold Checks. by rewrite map_lookup_imap, Ha. }
  apply E, String.eqb_eq in Hi. revert Hi. unfold goroutine_status.
  destruct (lastErr t !! name) as [msg|]; [|done]. destruct (String.eqb_spec msg ""); [done|]. congruence.
Qed.

(** A pass that fails is the last: the loop makes a pass for every interval up to it, and
    then none, however many intervals follow and whatever happens in them; and the gateway
    is not ready from then on, whatever the other goroutines do, until it is started
    again. *)
Theorem failed_pass_is_last {W} (once : W → result unit * W) name t w pre w1 e w2 post :
  kept_up once w pre w1 → once w1 = (Err e, w2) → e ≠ "ok" →
  run_loop once (pre ++ post) w = (Failed e, Datatypes.S (length pre), elapsed post w2) ∧
  ∀ evs h, Forall (λ k, tracked_name k ≠ name) evs →
    h_Goroutines h = Some (fold_left tracks evs (tracked_loop name (Failed e) t)) → Status (handleReadyz h) = 503%Z.
Proof.
  intros Hk Ho He. split.
  - rewrite (kept_up_run once w pre w1 post Hk). replace (run_loop once post w1) with (Failed e, 1%nat, elapsed post w2)
      by (destruct post; cbn [run_loop]; by rewrite Ho). by rewrite Nat.add_1_r.
  - intros evs h Hevs Hh. apply (stopped_unready h _ name Hh). clear Hh h.
    assert (stopped name (tracked_loop name (Failed e) t)) as Hs.
    { split; cbn; rewrite lookup_insert_eq; [done|congruence]. }
    revert Hs. generalize (tracked_loop name (Failed e) t).
    induction Hevs as [|k evs Hn _ IH]; intros t' Hs; [done|]. cbn [fold_left]. apply IH. by apply tracks_stopped.
Qed.

(** ** A scheduler whose database fails once

    Schedules are created and read back by the store; one statement fails. *)

Definition third_fails (n : nat) : option string := if (n =? 3)%nat then Some "connection reset" else None.
#[local] Instance resetting_store : ScheduleStore store :=
  store_schedules Store.tick_clock third_fails Store.same_json itoa.
Definition resetting_pass : scheduling store → result unit * scheduling store :=
  scheduler_pass (λ _, Ok 0%Z) itoa itoa (λ _, Ok (λ t, t)) (λ _, 0%Z).
Definition idle_interval : wake (scheduling store) := Interval id.

Example one_reset_ends_scheduling :
  (run_loop resetting_pass (replicate 9 idle_interval) (mkScheduling empty_store [])).1 = (Failed "connection reset", 4%nat).
Proof. vm_compute. reflexivity. Qed.
