(* ===== verification/EndToEnd.v ===== *)
(** * EndToEnd: from a request to execute a plan to the tools that run

    The gateway's handler (Plans) tells TemporalStarter of internal/workflows/starter.go
    to start an execution; the workflow that starter asks for is PlanExecutionWorkflow,
    whose activities run the tools (Workflows, Executor).  What the gateway tells is the
    event [Started]; everything between it and the worker is Temporal's. *)

From S2P Require Import Prelude GoStrings Json ContextRef Steps Policy ToolValidate Store Gateway Plans.
From S2P Require Import Http Hubs Executor Workflows Lifecycle.

Local Open Scope string_scope.
Local Open Scope list_scope.

(** ** What an activity asks of a tool *)

(** A call for a step: the step's own, or the one it rolls back with, under the
    execution and in the context. *)
Definition asks_for (execID : string) (ref : ContextRef) (step : PlanStep) (req : ExecuteRequest) : Prop :=
  ∃ callID tool action input,
    ((tool, action, input) = (Tool_ step, Action step, Input step) ∨ rollback_of step = Ok (tool, action, input)) ∧
    req = request execID callID tool action input ref.

Definition activity_asks (a : activity) (req : ExecuteRequest) : Prop :=
  match a with
  | AExecuteStep id step ref | ARollbackStep id step ref => asks_for id ref step req
  | _ => False
  end.

Lemma attempt_runs_asks id ref a evs req ok :
  attempt_runs id ref a evs → ToolRun req ok ∈ evs →
  asks_for id ref (match a with Do s _ | Undo s _ => s end) req.
Proof.
  destruct 1 as [s|s ok' ran callID Hok|s|s ok' ran callID tool action input Hr Hok];
    try (by intros ?%elem_of_nil); intros [= -> ->]%list_elem_of_singleton;
    repeat eexists; [by left|by right].
Qed.

Lemma attempt_events_ask a did evs req ok :
  attempt_events a did evs → ToolRun req ok ∈ evs → activity_asks a req.
Proof.
  destruct a; cbn [attempt_events activity_asks];
    try (intros H Hi; by eapply attempt_runs_asks in H);
    intros H Hi; exfalso; revert Hi;
    (subst evs || destruct H as [[_ ->]| ->]); by first [intros ?%elem_of_nil|intros ?%list_elem_of_singleton].
Qed.

Lemma tries_ask a ok n evs req b : tries a ok n evs → ToolRun req b ∈ evs → activity_asks a req.
Proof.
  induction 1 as [did evs He _|did n evs evs' He _ IH]; [by eapply attempt_events_ask|].
  intros [Hi|Hi]%elem_of_app; [by eapply attempt_events_ask|by apply IH].
Qed.

Lemma history_asks hist evs req b :
  history_log hist evs → ToolRun req b ∈ evs → ∃ a ok, (a, ok) ∈ outline hist ∧ activity_asks a req.
Proof.
  induction 1 as [|h hist evs evs' _ Ht _ IH]; [by intros ?%elem_of_nil|].
  intros [Hi|Hi]%elem_of_app.
  - exists (h_activity h), (h_ok h). split; [by left|by eapply tries_ask].
  - destruct (IH Hi) as (a & ok & Ha & Hr). exists a, ok. split; [by right|done].
Qed.

(** *** The steps of a saga are the plan's *)

Definition step_of (a : attempt) : PlanStep := match a with Do s _ | Undo s _ => s end.

Lemma step_of_done l : step_of <$> map (λ s, Do s true) l = l.
Proof. induction l as [|s l IH]; [done|]. cbn. by rewrite <- IH at 2. Qed.

Lemma step_of_undone l undone : length undone = length l → step_of <$> zip_with Undo l undone = l.
Proof.
  revert undone. induction l as [|s l IH]; intros [|b undone] Hn; try done. cbn. f_equal. apply IH. by injection Hn.
Qed.

Lemma saga_steps act verify l st a :
  saga act verify l st → a ∈ l → step_of a ∈ act ++ verify.
Proof.
  intros Hs Ha. apply (list_elem_of_fmap_2 step_of) in Ha. revert Ha.
  destruct Hs as [|pre step post undone -> |pre step post undone -> Hn].
  - by rewrite step_of_done.
  - rewrite fmap_app, step_of_done. cbn. set_solver.
  - rewrite fmap_app, step_of_done. cbn. rewrite step_of_undone by (by rewrite length_rev).
    intros Hi. assert (step_of a ∈ rev act → step_of a ∈ act) by (rewrite list_elem_of_In, <- in_rev, <- list_elem_of_In; done). set_solver.
Qed.

Lemma splitStepsByStage_in steps step :
  step ∈ (splitStepsByStage steps).1 ++ (splitStepsByStage steps).2 → step ∈ steps.
Proof.
  unfold splitStepsByStage. cbn [fst snd]. rewrite elem_of_app, !list_elem_of_In, !filter_In. tauto.
Qed.

Lemma outline_asks execID ref steps r l a ok req :
  execution_outline execID ref steps r l → (a, ok) ∈ l → activity_asks a req →
  ∃ step, step ∈ steps ∧ asks_for execID ref step req.
Proof.
  destruct 1 as [|l st recorded Hs]; [by intros [= -> ->]%list_elem_of_singleton|].
  intros [[= -> ->]|[Hi|[= -> ->]%list_elem_of_singleton]%elem_of_app]%elem_of_cons; try done.
  apply list_elem_of_In, in_map_iff in Hi as (att & Ha & Hi). apply list_elem_of_In in Hi.
  intros Hq. exists (step_of att). split; [by eapply splitStepsByStage_in, saga_steps|].
  by destruct att; injection Ha as <- <-.
Qed.

(** ** What the engine carries out *)

Section engine.
Context {DB W : Type} `{!ExecutionStore DB} `{!WorkflowStore DB} `{!ToolRunner W}.
Variable acts : Activities.
Variable lost : nat → bool.
Notation world := (tworld DB W).

(** The input of the workflow that TemporalStarter asks for. *)
Definition workflow_of (e : out_event) : option PlanExecutionInput :=
  match e with
  | Started planID execID ref steps =>
      if execID =? "" then None else Some (mkInput planID execID ref (convertPlanSteps steps))
  | _ => None
  end.

Lemma workflow_of_started execute queue planID execID ref steps :
  StartExecution (Some execute) queue planID execID ref steps
  = match workflow_of (Started planID execID ref steps) with
    | Some i => execute ("exec-" +:+ execID) queue i
    | None => Err "execution_id required"
    end.
Proof. unfold StartExecution, workflow_of. by destruct (execID =? ""). Qed.

(** The workflows of what the gateway told, one after the other. *)
Definition carried_out (told : list out_event) (x : world) : world :=
  fold_left (λ x i, (run_handler (PlanExecutionWorkflow acts lost i) x).2) (omap workflow_of told) x.

Lemma workflow_asks i (x : world) :
  ∃ evs, logged (t_x x) (t_x (run_handler (PlanExecutionWorkflow acts lost i) x).2) evs ∧
    ∀ req ok, ToolRun req ok ∈ evs → ∃ step, step ∈ in_Steps i ∧ asks_for (in_Execution i) (in_Ref i) step req.
Proof.
  pose proof (wp_run_plan acts lost (in_Execution i) (in_Ref i) (in_Steps i) x) as H.
  unfold PlanExecutionWorkflow. destruct (in_Execution i =? "").
  { exists []. split; [by apply logged_nil|by intros ???%elem_of_nil]. }
  apply wp_run in H. unfold return_if, mbind, handler_bind, mret, handler_ret. unfold run_handler in *.
  destruct (run_plan _ _ _ _ _ x) as [[r|r] x'];
    destruct H as (l & (hist & evs & _ & <- & Hl & Hh) & Ho); exists evs; (split; [exact Hl|]); intros req ok Hi;
    destruct (history_asks _ _ _ _ Hh Hi) as (a & ok' & Ha & Hq); by eapply outline_asks.
Qed.

Lemma told_asks told planID execID ref steps (x : world) :
  told = [] ∨ told = [Started planID execID ref steps] →
  ∃ evs, logged (t_x x) (t_x (carried_out told x)) evs ∧
    ∀ req ok, ToolRun req ok ∈ evs → told ≠ [] ∧ ∃ step, step ∈ steps ∧ asks_for execID ref step req.
Proof.
  unfold carried_out. intros [->| ->]; cbn [omap list_omap workflow_of fold_left].
  { exists []. split; [by apply logged_nil|by intros ???%elem_of_nil]. }
  destruct (execID =? ""); cbn [fold_left].
  { exists []. split; [by apply logged_nil|by intros ???%elem_of_nil]. }
  destruct (workflow_asks (mkInput planID execID ref (convertPlanSteps steps)) x) as (evs & Hl & Ha).
  exists evs. split; [exact Hl|]. intros req ok Hi. split; [done|].
  rewrite <- (convertPlanSteps_id steps). exact (Ha req ok Hi).
Qed.
End engine.

(** The activities' store is the gateway's database. *)
Definition store_workflow_db (clock : nat → Z) (fault : nat → option string)
    (pick : list approval_row → option approval_row) : WorkflowStore store := {|
  ws_GetApprovalStatus := Some (GetApprovalStatus fault pick);
  ws_CreateExecution := Some (CreateExecution clock fault) |}.

(** ** From the request to the tools *)

(** C1: whatever the engine does with what a request to execute a plan made the gateway
    tell it - any outcome lost, any activity tried again, any answer of the stores and
    the tools - a tool runs only when the request was answered 200, under the one
    execution it created, and for a step that passed the gate: with the tool, action
    and input that the policy and the constraints were checked on and the digest covers,
    or with that step's rollback, and in the context that was checked. *)
Theorem only_admitted_steps_run {DB E DB' W} `{!GatewayDB DB} `{!ExecutionStore DB'} `{!WorkflowStore DB'} `{!ToolRunner W}
    (view : DB → E) (execs : E → list (string * string * string)) (Hview : ExecView view execs)
    (sv : Server) (cc : call_ctx) (path : string) (w : gateway DB)
    (acts : Activities) (lost : nat → bool) (x : tworld DB' W) :
  let planID := trim_prefix (trim_suffix path ":execute") plans_prefix in
  let '(r, w') := run_handler (executePlan_ sv cc path) w in
  ∃ told evs, g_out w' = g_out w ++ told ∧ logged (t_x x) (t_x (carried_out acts lost told x)) evs ∧
    ∀ req ok, ToolRun req ok ∈ evs →
      Status r = 200%Z ∧ ∃ execID token plan steps step,
        execs (view (g_db w')) = execs (view (g_db w)) ++ [(execID, planID, "pending")] ∧
        gate view sv cc w planID token plan steps ∧ step ∈ steps ∧
        asks_for execID (plan_context plan) step req.
Proof.
  intros planID. pose proof (wp_execute_plan view execs sv cc path w) as H.
  apply wp_run in H. destruct (run_handler _ w) as [r w']. cbn [fst snd] in H.
  assert (∃ told, g_out w' = g_out w ++ told ∧
    (told = [] ∨ Status r = 200%Z ∧ ∃ execID token plan steps,
       execs (view (g_db w')) = execs (view (g_db w)) ++ [(execID, planID, "pending")] ∧
       gate view sv cc w planID token plan steps ∧ told = [Started planID execID (plan_context plan) steps]))
    as (told & Ho & Ht).
  { destruct H as [(_ & _ & ->)|(Hr & execID & token & plan & steps & Hg & He & ->)];
      [exists []; rewrite app_nil_r; auto|]. eexists. split; [done|].
    unfold announced. destruct (sv_Executor sv); [right|by left]. naive_solver. }
  exists told. destruct Ht as [->|(Hr & execID & token & plan & steps & He & Hg & ->)].
  - destruct (told_asks acts lost [] "" "" empty_ref [] x (or_introl eq_refl)) as (evs & Hl & Ha).
    exists evs. split_and!; [done|done|]. by intros req ok [? _]%Ha.
  - destruct (told_asks acts lost _ planID execID (plan_context plan) steps x (or_intror eq_refl)) as (evs & Hl & Ha).
    exists evs. split_and!; [done|done|]. intros req ok [_ (step & Hs & Hq)]%Ha.
    split; [done|]. by exists execID, token, plan, steps, step.
Qed.

(** Without an executor nobody is told of an execution: an accepted one stays pending. *)
Lemma untold_without_executor {DB E} `{!GatewayDB DB} (view : DB → E) (execs : E → list (string * string * string))
    `{!ExecView view execs} sv cc path (w : gateway DB) :
  sv_Executor sv = None → g_out (run_handler (executePlan_ sv cc path) w).2 = g_out w.
Proof.
  intros Hs. pose proof (wp_execute_plan view execs sv cc path w) as H. apply wp_run in H.
  destruct (run_handler _ w) as [r w']. cbn [fst snd] in *.
  destruct H as [(_ & _ & ->)|(_ & ? & ? & ? & ? & _ & _ & ->)]; [done|].
  unfold announced. by rewrite Hs, app_nil_r.
Qed.

(** A tool for everything, on the database the gateway left. *)
#[local] Instance willing_tools : ToolRunner () := {| run_router _ w := (Ok "done", w) |}.
#[local] Existing Instance demo_db.
#[local] Instance demo_execution_db : ExecutionStore store :=
  store_executions_db tick_clock no_fault same_json demo_time (λ _, Ok 0%Z).
#[local] Instance demo_workflow_db : WorkflowStore store := store_workflow_db tick_clock no_fault last.
Definition demo_acts : Activities := mkActivities true (mkExecutor true true None None 0 "now").
Definition executed_db : tworld store () := mkT (mkX (g_db executed.2) () []) 0 [].
(** The second attempt's outcome is lost: the step runs twice. *)
Definition second_lost (n : nat) : bool := (n =? 1)%nat.
Definition spoken (ev : xevent) : string :=
  match ev with
  | ToolRun req _ => req_ExecutionID req +:+ " " +:+ req_Tool req +:+ " " +:+ req_Action req
  | SetStatus id st | Completed id st => id +:+ " " +:+ st
  end.

Example demo_log_ex :
  map spoken (x_log (t_x (carried_out demo_acts second_lost (g_out executed.2) executed_db)))
  = ["exec_6 running"; "exec_6 kubectl delete"; "exec_6 kubectl delete"; "exec_6 succeeded"].
Proof. vm_compute. reflexivity. Qed.

Lemma only_admitted_steps_run_witness :
  let '(r, w') := executed in
  ∃ told evs, g_out w' = g_out watched ++ told ∧
    logged (t_x executed_db) (t_x (carried_out demo_acts second_lost told executed_db)) evs ∧
    ∀ req ok, ToolRun req ok ∈ evs →
      Status r = 200%Z ∧ ∃ execID token plan steps step,
        exec_triples (core_of (g_db w')) = exec_triples (core_of (g_db watched)) ++ [(execID, "plan_0", "pending")] ∧
        gate core_of demo (execute_request "plan_0") watched "plan_0" token plan steps ∧ step ∈ steps ∧
        asks_for execID (plan_context plan) step req.
Proof.
  pose proof (only_admitted_steps_run core_of exec_triples
    (store_exec_view tick_clock no_fault same_json last demo_time time_error)
    demo (execute_request "plan_0") "/v1/plans/plan_0:execute" watched demo_acts second_lost executed_db) as H.
  cbv zeta in H. change (trim_prefix (trim_suffix "/v1/plans/plan_0:execute" ":execute") plans_prefix) with "plan_0" in H.
  unfold executed. exact H.
Defined.
