(* ===== verification/Orchestrator.v ===== *)
(** * Orchestrator: the worker that runs the workflows

    run and startWorker of cmd/orchestrator/main.go, the Runtime of
    internal/workflows/runtime.go and the names replay.go replays histories by: the orchestrator starts like a tool router (Startup),
    gives its router, sandbox and clients to the activities, registers the workflows and
    works for Temporal until it ends.  Which activities Temporal gives it, and in which
    order, is the argument of the run; the ticks of its timers come between them.

    Its signals and the server of its health addresses are left out. *)

From S2P Require Import Prelude GoStrings Json ContextRef Steps Policy Hubs Sandbox ToolValidate Artifacts Store.
From S2P Require Import ToolApi Http Auth ToolRouter RouterServer Remote Secrets Pollers Executor Workflows Config Services.
From S2P Require Import Redaction Startup EndToEnd.

Local Open Scope string_scope.
Local Open Scope list_scope.

(** ** The workflows of the worker *)

Inductive flow := PlanFlow (i : PlanExecutionInput) | CatalogueFlow (c : catalogue).

(** The names they are registered under. *)
Definition registered_name (f : flow) : string :=
  match f with
  | PlanFlow _ => "PlanExecutionWorkflow"
  | CatalogueFlow (GitOpsDeploy _) => "GitOpsDeployWorkflow"
  | CatalogueFlow (HelmRelease _) => "HelmReleaseWorkflow"
  | CatalogueFlow (ScaleService _) => "ScaleServiceWorkflow"
  | CatalogueFlow (IncidentRemediation _) => "IncidentRemediationWorkflow"
  | CatalogueFlow (SecretRotation _) => "SecretRotationWorkflow"
  end.

(** The names ReplayHistoryFromJSONFile registers them under (internal/workflows/replay.go):
    those of their functions. *)
Definition replay_name (f : flow) : string :=
  match f with
  | PlanFlow _ => "PlanExecutionWorkflow"
  | CatalogueFlow (GitOpsDeploy _) => "GitOpsDeployWorkflowTemporal"
  | CatalogueFlow (HelmRelease _) => "HelmReleaseWorkflowTemporal"
  | CatalogueFlow (ScaleService _) => "ScaleServiceWorkflowTemporal"
  | CatalogueFlow (IncidentRemediation _) => "IncidentRemediationWorkflowTemporal"
  | CatalogueFlow (SecretRotation _) => "SecretRotationWorkflowTemporal"
  end.

(** The history of a catalogue workflow names a workflow the replayer does not have. *)
Lemma catalogue_history_unknown c f : registered_name (CatalogueFlow c) ≠ replay_name f.
Proof. by destruct c, f as [|[]]. Qed.

(** A workflow with nothing between its activities, an attempt at one activity of a
    workflow that runs among others, or a tick of a timer. *)
Inductive work := Runs (lost : nat → bool) (f : flow) | Attempts (a : activity) | Tick (timer : nat).

Section orchestrator.
Context {H : Type} `{!Host H} {DB : Type} `{!ExecutionStore DB} `{!WorkflowStore DB} {Remote : Type} `{!RouterTransport Remote}.
Variable sys : system.
Variable url_hostname : string → option string.
Variable schemaFS : string → option string.
Variable gojsonschema : any → any → result (list string).
Variable compile : string → option (string → string).
Variable now : list event → Z.
Variable visit : gmap string (list LogLine) → list string.
Variable open : H → string → result string.
Variable base_path : string → result string.
Variable objects : ObjectStoreConfig → BlobStore.
Variable collected_at : string.

Notation world := (xworld DB ToolRouter.world).

Section configured.
Variable cfg : Config.
Variable env : gmap string string.

Let redactor := NewRedactor compile (redact_patterns cfg).

(** Runtime: the program's router, sandbox and clients. *)
#[local] Instance runtime : ToolRunner ToolRouter.world :=
  router_runner sys url_hostname schemaFS gojsonschema redactor now visit (Some (config_sandbox cfg env))
    (BuildHTTPClients cfg (orchestrator_api cfg)).

Definition worker_activities : Activities :=
  mkActivities true (mkExecutor true true (Some (objects (sc_ObjectStore (cfg_Storage cfg)))) redactor 0 collected_at).

Definition run_flow (lost : nat → bool) (f : flow) :
    handler (tworld DB ToolRouter.world) (result unit) (result unit) :=
  match f with
  | PlanFlow i => PlanExecutionWorkflow worker_activities lost i
  | CatalogueFlow c => catalogue_temporal worker_activities lost c
  end.
Definition do_work (x : world) (k : work) : world :=
  match k with
  | Runs lost f => t_x (run_handler (run_flow lost f) (mkT x 0 [])).2
  | Attempts a => (run_handler (run_activity worker_activities a) x).2
  | Tick timer =>
      match vault_timers cfg !! timer with
      | Some (_, req) =>
          mkX (x_db x) (run_handler (own_call sys url_hostname schemaFS gojsonschema compile now visit cfg
                 (orchestrator_api cfg) env req) (x_router x)).2 (x_log x)
      | None => x
      end
  end.

(** [dial] is the connection to Temporal. *)
Definition startWorker (dial : OrchestratorConfig → result unit) (works : list work) (x : world) : result unit * world :=
  if oc_TemporalAddr (cfg_Orchestrator cfg) =? "" then (Err "orchestrator.temporal_addr required", x)
  else match dial (cfg_Orchestrator cfg) with
       | Err e => (Err e, x)
       | Ok _ => (Ok tt, fold_left do_work works x)
       end.

(** *** What every activity keeps, the worker keeps *)

Section kept.
Variable I : world → Prop.
Notation acts := worker_activities.
Hypothesis Hact : ∀ a, preserves I (run_activity acts a).

Lemma retry_kept lost n a w : I (t_x w) → I (t_x (retry acts lost n a w).2).
Proof.
  revert w. induction n as [|n IH]; intros w Hw; cbn [retry]; unfold try_activity;
    pose proof (preserves_run I _ (t_x w) (Hact a) Hw) as Hx;
    destruct (run_handler (run_activity acts a) (t_x w)) as [r x]; cbn [snd] in Hx.
  - by destruct (lost (t_tries w)), r.
  - specialize (IH (mkT x (Datatypes.S (t_tries w)) (t_history w)) Hx).
    destruct (retry acts lost n a _) as [[r' k] w']. by destruct (lost (t_tries w)), r.
Qed.

Notation kept := (preserves (λ w, I (t_x w))).

Lemma activity_kept {R} lost a : kept (ExecuteActivity acts lost a : handler _ R _).
Proof.
  apply preserves_call. intros w Hw. pose proof (retry_kept lost (MaximumAttempts - 1) a w Hw) as Hr.
  by destruct (retry _ _ _ _ _) as [[r k] w'].
Qed.

Ltac keep := unfold fail_workflow; repeat first [apply activity_kept | preserves_step | solve [auto]].

Lemma steps_kept lost execID steps ref undo :
  (∀ step, kept (undo step)) → kept (step_activities acts lost execID steps ref undo).
Proof. intros Hu. induction steps as [|step steps IH]; cbn [step_activities]; keep. Qed.

Lemma rollbacks_kept lost execID steps ref : kept (rollback_activities acts lost execID steps ref).
Proof. induction steps as [|step steps IH]; cbn [rollback_activities]; keep. Qed.

Lemma run_plan_kept lost execID ref steps : kept (run_plan acts lost execID ref steps).
Proof.
  unfold run_plan. keep; apply steps_kept; intros step; keep. apply rollbacks_kept.
Qed.

Lemma flow_kept lost f : kept (run_flow lost f).
Proof.
  destruct f as [i|c]; cbn [run_flow].
  - unfold PlanExecutionWorkflow. keep. apply run_plan_kept.
  - unfold catalogue_temporal, runWorkflowSteps. destruct (catalogue_template c) as [[name input] ref].
    keep. apply run_plan_kept.
Qed.
End kept.

(** *** The processes of the worker *)

Notation contained_ x := (processes_of (config_sandbox cfg ∅) (w_trace (x_router x))).
Hypothesis Henforce : sb_Enforce (cfg_Sandbox cfg) = true.

Lemma on_store_contained {R A} (f : DB → A * DB) :
  preserves (λ x : world, contained_ x) (on_store f : handler world R A).
Proof. apply preserves_call. intros x Hx. by destruct (f (x_db x)). Qed.

Lemma log_contained {R} ev : preserves (λ x : world, contained_ x) (log ev : handler world R unit).
Proof. by apply preserves_effect. Qed.

Lemma runTool_contained {R} e req :
  preserves (λ x : world, contained_ x) (runTool e req : handler world R _).
Proof.
  unfold runTool. repeat first [apply log_contained | preserves_step].
  unfold run_router, runtime, router_runner.
  match goal with |- context [run_handler ?m ?y] =>
    assert (processes_of (config_sandbox cfg ∅) (w_trace (run_handler m y).2)) as Hp by (by apply own_call_processes);
    by destruct (run_handler m y) as [[resp err] w']
  end.
Qed.

Lemma activity_contained a : preserves (λ x, contained_ x) (run_activity worker_activities a).
Proof.
  destruct a; unfold run_activity, set_status, complete;
    repeat first [apply on_store_contained | apply log_contained | preserves_step | progress cbv zeta].
  all: apply preserves_run; [|done].
  all: unfold executeStep, tryRollback, call_tool, insertToolCall, storeInput, storeOutput, fail_call, failed, put,
    recordEvidence, presign.
  all: repeat first [apply on_store_contained | apply log_contained | apply runTool_contained | preserves_step | progress cbv zeta].
Qed.

Lemma do_work_contained x k : contained_ x → contained_ (do_work x k).
Proof.
  intros Hx. destruct k as [lost f|a|timer]; cbn [do_work].
  - apply (preserves_run (λ w, contained_ (t_x w)) (run_flow lost f)); [|exact Hx].
    apply (flow_kept (λ x, contained_ x)), activity_contained.
  - apply (preserves_run (λ x, contained_ x)); [apply activity_contained|done].
  - destruct (vault_timers cfg !! timer) as [[every req]|]; [by apply own_call_processes|done].
Qed.
End configured.

(** How a run ended, and what it left: nothing when it stopped before it started anything. *)
Definition orchestrator_run (ReadFile : string → result string) (configPath : string)
    (newDB : string → result DB) (dial : OrchestratorConfig → result unit) (works : list work) (h : H) (q : Remote) :
    result unit * option world * Remote :=
  match (_ ← check (negb (configPath =? "")) "config required";
         cfg ← LoadConfig ReadFile configPath;
         _ ← check (negb (sc_PostgresDSN (cfg_Storage cfg) =? "")) "storage.postgres_dsn required";
         db ← newDB (sc_PostgresDSN (cfg_Storage cfg)); Ok (cfg, db)) with
  | Err e => (Err e, None, q)
  | Ok (cfg, db) =>
      let '(sd, h, w) := start sys url_hostname schemaFS gojsonschema compile now visit open cfg (orchestrator_api cfg) h
                           (mkWorld (Some NewLogHub) 0 []) in
      let '(r, x) := startWorker cfg (sd_Env sd) dial works (mkX db w []) in
      let q := match sd_Session sd with Some id => (orchestrator_close base_path cfg id q).2 | None => q end in
      (r, Some x, q)
  end.

(** C6: an orchestrator whose configuration enforces the sandbox starts no process of its
    steps on the host: whatever workflows and activities it is given, in whatever order,
    with whatever outcomes lost, each process of its whole run is a container of the
    configured image with the configured profile, user and dropped capabilities - or
    the fetching of an artifact by git or aws. *)
Theorem enforced_orchestrator_contained ReadFile path cfg newDB dial works h q r x q' :
  LoadConfig ReadFile path = Ok cfg → sb_Enforce (cfg_Sandbox cfg) = true →
  orchestrator_run ReadFile path newDB dial works h q = (r, Some x, q') →
  ∀ argv env, Exec argv env ∈ w_trace (x_router x) → contained_process cfg argv.
Proof.
  intros Hl He Hrun argv env Hi. eapply enforced_contained; [done..|].
  enough (processes_of (config_sandbox cfg ∅) (w_trace (x_router x))) as Hp by (by eapply Hp).
  clear argv env Hi. revert Hrun. unfold orchestrator_run. rewrite Hl.
  destruct (check (negb (path =? "")) _); [|done]. cbn [mbind result_bind].
  destruct (check _ "storage.postgres_dsn required"); [|done]. cbn [mbind result_bind].
  destruct (newDB _) as [db|]; [|done]. cbn [mbind result_bind].
  pose proof (start_processes sys url_hostname schemaFS gojsonschema compile now visit open cfg (orchestrator_api cfg) h He) as Hs.
  destruct (start _ _ _ _ _ _ _ _ _ _ h _) as [[sd h1] w1]. cbn [snd] in Hs.
  unfold startWorker. destruct (_ =? ""); [by intros [= _ <- _]|]. destruct (dial _); [|by intros [= _ <- _]].
  intros [= _ <- _]. change w1 with (x_router (mkX db w1 [])) in Hs. revert Hs. generalize (mkX db w1 []) as y.
  induction works as [|k works IH]; intros y Hy; [done|]. cbn [fold_left]. apply IH. by apply do_work_contained.
Qed.
End orchestrator.

(** *** A configured orchestrator *)

Definition worker_config_text : string := dquote_str
  "{'gateway':{'http_addr':':8080'},'storage':{'postgres_dsn':'postgres://db'},'policy':{'opa_url':'http://opa:8181'},
    'orchestrator':{'temporal_addr':'temporal:7233'},
    'sandbox':{'enabled':true,'enforce':true,'image':'tools:1','user':'1000','seccomp_profile':'default.json',
               'no_new_privs':true,'drop_caps':['ALL'],'mounts':null}}".
Definition worker_config : Config :=
  match LoadConfig (λ _, Ok worker_config_text) "/etc/carapulse.json" with Ok c => c | Err _ => no_Config end.

#[local] Existing Instance no_host_programs.
#[local] Instance unreachable_router : RouterTransport () := {| rt_do _ w := (Err "connection refused", w) |}.
#[local] Instance worker_executions : ExecutionStore store :=
  store_executions_db Store.tick_clock Store.no_fault Store.same_json Plans.demo_time (λ _, Ok 0%Z).
#[local] Instance worker_workflows : WorkflowStore store := store_workflow_db Store.tick_clock Store.no_fault last.

(** The plan of one step, approved and executing. *)
Definition get_step : PlanStep :=
  mkStep "step_1" "" "get" "kubectl" (AMap (amap [("resource", AStr "pods")])) ANil ANil.
Definition worker_works : list work :=
  [Runs (λ _, false) (PlanFlow (mkInput "plan_0" "exec_6" prod_ref [get_step])); Tick 0].
Definition worker_run : result unit * option (xworld store ToolRouter.world) * () :=
  orchestrator_run demo_sys no_host no_schema any_valid compile_literal (λ _, 0%Z) (λ _, []) (λ _ _, Err "no file")
    (λ _, Err "no path") (λ _, mkBlobs (λ _ key _, Ok key) (λ _ ref, Ok ref)) "now"
    (λ _, Ok worker_config_text) "/etc/carapulse.json" (λ _, Ok (Gateway.g_db Lifecycle.executed.2)) (λ _, Ok tt)
    worker_works () ().
Definition worker_world : xworld store ToolRouter.world :=
  match worker_run with (_, Some x, _) => x | _ => mkX (Gateway.g_db Lifecycle.executed.2) (mkWorld None 0 []) [] end.

Example worker_run_ex :
  worker_run.1.1 = Ok tt ∧ w_trace (x_router worker_world) = [Exec demo_process []] ∧
  map spoken (x_log worker_world) = ["exec_6 running"; "exec_6 kubectl get"; "exec_6 succeeded"].
Proof. vm_compute. done. Qed.

Lemma worker_run_eq : worker_run = (Ok tt, Some worker_world, ()).
Proof. vm_compute. reflexivity. Qed.

Lemma enforced_orchestrator_contained_witness : contained_process worker_config demo_process.
Proof.
  apply (enforced_orchestrator_contained demo_sys no_host no_schema any_valid compile_literal (λ _, 0%Z) (λ _, [])
    (λ (_ : ()) _, Err "no file") (λ _, Err "no path") (λ _, mkBlobs (λ _ key _, Ok key) (λ _ ref, Ok ref)) "now"
    (λ _, Ok worker_config_text) "/etc/carapulse.json" worker_config
    (λ _, Ok (Gateway.g_db Lifecycle.executed.2)) (λ _, Ok tt) worker_works () () (Ok tt) worker_world ()) with (env := []).
  - vm_compute. reflexivity.
  - vm_compute. reflexivity.
  - exact worker_run_eq.
  - rewrite (proj1 (proj2 worker_run_ex)). apply list_elem_of_singleton. reflexivity.
Defined.
