(* ===== verification/Pages.v ===== *)
(** * Pages: the gateway's pages

    internal/web/ui.go: the list pages, the page of a plan and UIHandler, the listener of
    CanvasAddr.  The pages are the [page] of Routes.ServeHTTP; what a browser runs of them
    is the requests their scripts make. *)

From S2P Require Import Prelude GoStrings Json ContextRef Steps Policy Http Auth Hubs Store.
From S2P Require Import Gateway Graph Admin Registry Streams Routes.

Local Open Scope string_scope.
Local Open Scope list_scope.

(** ** The pages *)

(** fmt.Sprintf of a format whose only verbs are %s, one for each argument: the pieces
    after the first begin with the verb. *)
Fixpoint fill (pieces args : list string) : string :=
  match pieces, args with
  | String _ piece :: pieces, arg :: args => arg +:+ piece +:+ fill pieces args
  | _, _ => ""
  end.
Definition Sprintf (format : string) (args : list string) : string :=
  match split_byte (byte 37) format with [] => "" | piece :: pieces => piece +:+ fill pieces args end.

Definition ui_page_format : string := dquote_str "<!doctype html>
<html>
<head>
  <meta charset='utf-8'/>
  <title>%s</title>
  <style>
    body { font-family: 'SF Mono', ui-monospace, Menlo, Monaco, monospace; margin: 32px; background: #0f1115; color: #f4f4f5; }
    h1 { font-size: 22px; }
    .card { background: #151922; padding: 16px; border-radius: 8px; margin-bottom: 12px; }
    pre { white-space: pre-wrap; word-wrap: break-word; }
  </style>
</head>
<body>
  <h1>%s</h1>
  <div id='content'>Loading...</div>
  <script>
    const params = new URLSearchParams(window.location.search);
    const tenant = params.get('tenant_id');
    const headers = {'Accept': 'application/json'};
    if (tenant) {
      headers['X-Tenant-Id'] = tenant;
    }
    fetch('%s', {headers})
      .then(r => r.text())
      .then(text => {
        let data;
        try { data = JSON.parse(text); } catch (e) { data = text; }
        const el = document.getElementById('content');
        if (Array.isArray(data)) {
          el.innerHTML = data.map(item => '<div class=\'card\'><pre>' + JSON.stringify(item, null, 2) + '</pre></div>').join('');
        } else if (data && data.workflows) {
          el.innerHTML = data.workflows.map(item => '<div class=\'card\'><pre>' + JSON.stringify(item, null, 2) + '</pre></div>').join('');
        } else {
          el.innerHTML = '<div class=\'card\'><pre>' + JSON.stringify(data, null, 2) + '</pre></div>';
        }
      })
      .catch(err => {
        document.getElementById('content').innerText = err.toString();
      });
  </script>
</body>
</html>".

Definition uiPage (title endpoint : string) : string := Sprintf ui_page_format [title; title; endpoint].

Definition ui_plan_format : string := dquote_str "<!doctype html>
<html>
<head>
  <meta charset='utf-8'/>
  <title>Plan %s</title>
  <style>
    body { font-family: 'SF Mono', ui-monospace, Menlo, Monaco, monospace; margin: 32px; background: #0f1115; color: #f4f4f5; }
    h1 { font-size: 22px; }
    .grid { display: grid; grid-template-columns: 1fr 1fr; gap: 16px; }
    .card { background: #151922; padding: 16px; border-radius: 8px; min-height: 200px; }
    pre { white-space: pre-wrap; word-wrap: break-word; }
  </style>
</head>
<body>
  <h1>Plan %s</h1>
  <div class='grid'>
    <div class='card'><h3>Diff</h3><pre id='diff'>Loading...</pre></div>
    <div class='card'><h3>Risk</h3><pre id='risk'>Loading...</pre></div>
  </div>
  <script>
    fetch('/v1/plans/%s/diff').then(r => r.text()).then(t => {document.getElementById('diff').innerText = t;});
    fetch('/v1/plans/%s/risk').then(r => r.text()).then(t => {document.getElementById('risk').innerText = t;});
  </script>
</body>
</html>".

Definition uiPlanPage (planID : string) : string := Sprintf ui_plan_format [planID; planID; planID; planID].

(** ** The handlers *)

Section handlers.
(** fmt.Fprintf of a format without arguments. *)
Variable Fprintf : string → string.

Definition handleUIList (title endpoint : string) (r : Request) : Response :=
  if negb (Method r =? "GET") then StatusMethodNotAllowed else mkResp 200 (Text (uiPage title endpoint)).
Definition handleUIPlaybooks : Request → Response := handleUIList "Playbooks" "/v1/playbooks".
Definition handleUIRunbooks : Request → Response := handleUIList "Runbooks" "/v1/runbooks".
Definition handleUIWorkflows : Request → Response := handleUIList "Workflows" "/v1/workflows".

(** The page of the plan is its own format. *)
Definition handleUIPlan (r : Request) : Response :=
  if negb (Method r =? "GET") then StatusMethodNotAllowed
  else
    let planID := trim_slashes (trim_prefix (Path r) "/ui/plans/") in
    if planID =? "" then http_error "plan id required" 400
    else mkResp 200 (Text (Fprintf (uiPlanPage planID))).

(** The pages of the main listener. *)
Definition pages (e : endpoint) (r : Request) : Response :=
  match e with
  | UIPlaybooks => handleUIPlaybooks r
  | UIRunbooks => handleUIRunbooks r
  | UIPlan => handleUIPlan r
  | _ => not_found
  end.

(** UIHandler, which nothing stands in front of; its workflows page is not on the main
    listener. *)
Definition ui_routes : list route :=
  [public "/ui/playbooks" UIPlaybooks; public "/ui/runbooks" UIRunbooks; public "/ui/workflows" WorkflowsRoot;
   public "/ui/plans/" UIPlan].
Definition UIHandler (escaped : string) (r : Request) : Response :=
  match findHandler ui_routes (Method r) (Path r) escaped with
  | Found rt => if decide (rt_endpoint rt = WorkflowsRoot) then handleUIWorkflows r else pages (rt_endpoint rt) r
  | Moved u => mkResp 301 (Text u)
  | NotFound => not_found
  end.
End handlers.

(** The requests the script of a page makes: GETs with these paths, with the headers
    Accept and X-Tenant-Id only. *)
Definition page_fetches (e : endpoint) (planID : string) : list string :=
  match e with
  | UIPlaybooks => ["/v1/playbooks"]
  | UIRunbooks => ["/v1/runbooks"]
  | WorkflowsRoot => ["/v1/workflows"]
  | UIPlan => ["/v1/plans/" +:+ planID +:+ "/diff"; "/v1/plans/" +:+ planID +:+ "/risk"]
  | _ => []
  end.

Example playbooks_page_ex : contains (uiPage "Playbooks" "/v1/playbooks") (dquote_str "fetch('/v1/playbooks', {headers})") = true.
Proof. vm_compute. reflexivity. Qed.
Example plan_page_ex : contains (uiPlanPage "p1") (dquote_str "fetch('/v1/plans/p1/risk')") = true.
Proof. vm_compute. reflexivity. Qed.

(** ** What a page shows *)

Section shown.
Variable Fprintf : string → string.

Definition no_percent (s : string) : Prop := string_in (byte 37) s = false.
(** A format without a directive is printed as it is. *)
Hypothesis Fprintf_plain : ∀ s, no_percent s → Fprintf s = s.

Lemma uiPlanPage_parts : ∃ p0 p1 p2 p3 p4,
  (∀ id, uiPlanPage id = p0 +:+ id +:+ p1 +:+ id +:+ p2 +:+ id +:+ p3 +:+ id +:+ p4) ∧
  Forall no_percent [p0; p1; p2; p3; p4] ∧
  p1 = trim_suffix p1 "<h1>Plan " +:+ "<h1>Plan " ∧ p2 = "</h1>" +:+ trim_prefix p2 "</h1>".
Proof.
  unfold uiPlanPage, Sprintf. set (l := split_byte _ _). vm_compute in l. subst l.
  do 5 eexists. split; [intros id; cbn [fill]; by rewrite string_app_nil_r|].
  split; [repeat constructor|]. split; vm_compute; reflexivity.
Qed.

(** The id of a path goes into the page of a plan as it came, markup and all. *)
Theorem plan_page_unescaped r id :
  Method r = "GET" → Path r = "/ui/plans/" +:+ id → trim_slashes id = id → id ≠ "" → no_percent id →
  ∃ before after, handleUIPlan Fprintf r = mkResp 200 (Text (before +:+ "<h1>Plan " +:+ id +:+ "</h1>" +:+ after)).
Proof.
  intros Hm Hp Ht Hi Hf. destruct uiPlanPage_parts as (p0 & p1 & p2 & p3 & p4 & Hpage & Hplain & H1 & H2).
  rewrite !Forall_cons in Hplain. unfold no_percent in *. destruct Hplain as (F0 & F1 & F2 & F3 & F4 & _).
  exists (p0 +:+ id +:+ trim_suffix p1 "<h1>Plan "), (trim_prefix p2 "</h1>" +:+ id +:+ p3 +:+ id +:+ p4).
  unfold handleUIPlan. rewrite Hm, Hp. cbn [negb String.eqb Ascii.eqb Bool.eqb].
  replace (trim_prefix ("/ui/plans/" +:+ id) "/ui/plans/") with id.
  2: { symmetry. unfold trim_prefix. replace (strip_prefix _ _) with (Some id); [done|].
       symmetry. by apply strip_prefix_Some. }
  rewrite Ht. destruct (String.eqb_spec id ""); [done|]. do 2 f_equal.
  rewrite Fprintf_plain by (rewrite Hpage, !string_in_app, F0, F1, F2, F3, F4, Hf; done).
  rewrite Hpage, H1 at 1. rewrite H2 at 1. by rewrite !string_app_assoc.
Qed.
End shown.

(** ** What the scripts are answered *)

Section fetched.
Variable clock : nat → Z.
Variable fault : nat → option string.
Variable jsonb : json → json.
Variable pick : list approval_row → option approval_row.
Variable time_text : Z → string.
Variable time_parse : string → result Z.
Variable json_text : json → string.
Variable sv : Server.
Variable cfg : AuthConfig.
Variable VerifyPKCS1v15 : Z → Z → string → string → result unit.
Variable FetchJWKS : string → result (list JWK).
Variable gate_fault : nat → option string.
Variable dir : string.
Variable files : list string → file_read.
Variable context_service : option (list (option (result Snapshot))).
Variable checked : health.
Variable metrics : Response.
Variable Fprintf : string → string.

Notation mux := (ServeHTTP clock fault jsonb pick time_text time_parse json_text sv cfg
  VerifyPKCS1v15 FetchJWKS gate_fault dir files context_service checked metrics (pages Fprintf)).

Lemma v1_segments path : has_prefix path "/v1/" = true → ∃ l, path_segments path = "v1" :: l.
Proof.
  unfold has_prefix. destruct (strip_prefix "/v1/" path) as [rest|] eqn:E; [|done]. intros _.
  apply strip_prefix_Some in E as ->. exists (map pathUnescape (split_byte slash rest)). unfold path_segments.
  change (trim_prefix ("/v1/" +:+ rest) "/") with ("v1/" +:+ rest).
  by change (split_byte slash ("v1/" +:+ rest)) with ("v1" :: split_byte slash rest).
Qed.

(** Nothing of UIHandler is below /v1/. *)
Lemma ui_patterns rt : rt ∈ ui_routes → ∃ seg segs, pattern_segments (rt_pattern rt) = "ui" :: seg :: segs.
Proof.
  unfold ui_routes. rewrite !elem_of_cons, elem_of_nil. by intros [->|[->|[->|[->|[]]]]]; repeat eexists.
Qed.

Lemma v1_unmatched path : has_prefix path "/v1/" = true → mux_match ui_routes path = None.
Proof.
  intros Hp. destruct (v1_segments path Hp) as [l Hl]. unfold mux_match. rewrite Hl.
  destruct (String.eqb_spec path ""); [done|].
  assert (∀ rt, rt ∈ ui_routes → route_matches ("v1" :: l) rt = false) as Hno.
  { intros rt (seg & segs & Hs)%ui_patterns. unfold route_matches. rewrite Hs.
    assert (bool_decide ("v1" :: l = "ui" :: seg :: segs) = false) as -> by by apply bool_decide_eq_false.
    destruct (is_tree rt); [|done]. apply andb_false_iff. right. apply bool_decide_eq_false.
    by change (removelast ("ui" :: seg :: segs)) with ("ui" :: removelast (seg :: segs)). }
  assert (List.filter (route_matches ("v1" :: l)) ui_routes = []) as ->; [|done].
  revert Hno. generalize ui_routes. intros rts Hno. induction rts as [|rt rts IH]; [done|].
  cbn [List.filter]. rewrite Hno by by left. apply IH. intros rt' Hi. apply Hno. by right.
Qed.

(** No page shows anything: a request its script makes is not answered by the listener
    of the pages at all, and by the main listener without a handler behind
    AuthMiddleware, for the script sends no token. *)
Theorem pages_show_nothing ex r w :
  Method r = "GET" → Header r "Authorization" = "" → has_prefix (ex_escaped ex) "/v1/" = true →
  (UIHandler Fprintf (ex_escaped ex) r = not_found ∨ ∃ u, UIHandler Fprintf (ex_escaped ex) r = mkResp 301 (Text u)) ∧
  ∃ resp, mux ex r w = (resp, w) ∧
    (resp = not_found ∨ (∃ u, resp = mkResp 301 (Text u)) ∨ resp = unauthorized ∨
     resp = handleHealthz ∨ resp = handleReadyz checked ∨ resp = metrics).
Proof.
  intros Hm Hh Hp. split.
  - unfold UIHandler, findHandler. rewrite Hm. cbn [String.eqb Ascii.eqb Bool.eqb].
    destruct (slash_redirect _ _ _); [right; eauto|].
    destruct (String.eqb_spec (cleanPath (ex_escaped ex)) (ex_escaped ex)) as [->|]; [|right; eauto].
    rewrite v1_unmatched by done. by left.
  - destruct (serve_cases clock fault jsonb pick time_text time_parse json_text sv cfg VerifyPKCS1v15 FetchJWKS gate_fault
      dir files context_service checked metrics (pages Fprintf) ex r w) as [H|(rt & claims & _ & _ & Ha & _)]; [exact H|].
    destruct Ha as (token & Ht & _). unfold ParseBearer in Ht. by rewrite Hh in Ht.
Qed.

Lemma fetches_below_v1 e id : Forall (λ path, ∃ rest, path = "/v1/" +:+ rest) (page_fetches e id).
Proof. destruct e; repeat constructor; by eexists. Qed.
End fetched.
