(* ===== verification/Programs.v ===== *)
(** * Programs: the agent's start, the migrations, and what every program shares

    cmd/agent/main.go's run and health pages, cmd/migrate/main.go, the levels and formats
    of internal/logging, the connection pool of internal/db/db.go, and the audit store of
    internal/audit, which no program uses.  goose, database/sql and slog are what they are
    asked. *)

From S2P Require Import Prelude GoStrings Json ContextRef Steps Policy Sandbox ToolApi Http Auth Shelves.
From S2P Require Import Store Library EventGate Gateway Plans Registry Graph Admin Streams Routes Serving Slack Config Ctl.

Local Open Scope string_scope.
Local Open Scope list_scope.

(** ** The agent *)

Definition defaultSlackPath : string := "/slack/commands".
Definition agent_flags : list (string * flag_kind) := [("config", FString); ("addr", FString); ("path", FString)].

Record agent := mkAgent {
  ag_Addr : string; ag_SlackPath : string; ag_Gateway : string; ag_Secret : string; ag_Token : string }.

Definition agent_start (ReadFile : string → result string) (args : list string) : result agent :=
  '(sets, _) ← Parse (λ _, None) (λ _, None) agent_flags args;
  let configPath := flag_text sets "config" "" in
  _ ← check (negb (configPath =? "")) "config required";
  cfg ← LoadConfig ReadFile configPath;
  let c := cfg_ChatOps cfg in
  url ← agent_address (cho_SlackSigningSecret c) (cho_GatewayURL c) (gw_HTTPAddr (cfg_Gateway cfg));
  Ok (mkAgent (flag_text sets "addr" ":8090") (Slack.normalizePath (flag_text sets "path" defaultSlackPath)) url
        (cho_SlackSigningSecret c) (cho_GatewayToken c)).

(** Ready is the gateway's being alive; [get] is the status it answers. *)
Definition status_page (status : string) : string := dquote_str ("{'status':'" +:+ status +:+ "'}").
Definition agent_readyz (get : string → result Z) (a : agent) : Response :=
  match get (trim_right_slashes (ag_Gateway a) +:+ "/healthz") with
  | Ok code => if (Z.quot code 100 =? 2)%Z then mkResp 200 (Text (status_page "ok"))
               else mkResp 503 (Text (status_page "unavailable"))
  | Err _ => mkResp 503 (Text (status_page "unavailable"))
  end.

(** ** Migrations *)

Definition migrate_flags : list (string * flag_kind) :=
  [("dsn", FString); ("dir", FString); ("action", FString); ("embed", FBool)].

(** A call of goose: its action, its directory, and whether that is the embedded one. *)
Record migration := mkMigration { mg_Action : string; mg_Dir : string; mg_Embedded : bool }.
Definition migrate_actions : list string := ["up"; "down"; "status"; "version"; "redo"].

(** The error holds the action between quotes, as %q writes one without special
    characters. *)
Definition migrate_run {W} (sql_Open : string → result unit) (goose : migration → W → result unit * W)
    (args : list string) (w : W) : result unit * W :=
  match ('(sets, _) ← Parse (λ _, None) (λ _, None) migrate_flags args;
         let dsn := flag_text sets "dsn" "" in
         let action := flag_text sets "action" "" in
         _ ← check (negb (blank dsn)) "dsn required";
         _ ← check (negb (blank action)) "action required";
         let embedded := flag_bool sets "embed" false in
         _ ← sql_Open dsn;
         Ok (mkMigration action (if embedded then "." else flag_text sets "dir" "./migrations") embedded)) with
  | Err e => (Err e, w)
  | Ok m =>
      if mem (mg_Action m) migrate_actions then goose m w
      else (Err ("unknown action " +:+ dquote_str "'" +:+ mg_Action m +:+ dquote_str "'"), w)
  end.

(** ** Logging *)

Inductive level := LevelDebug | LevelInfo | LevelWarn | LevelError.
Definition parseLevel (s : string) : level :=
  let s := ToLower s in
  if s =? "debug" then LevelDebug
  else if mem s ["warn"; "warning"] then LevelWarn
  else if s =? "error" then LevelError
  else LevelInfo.

(** The level, whether the lines are text instead of JSON, and the service they name. *)
Record logger := mkLogger { lg_Level : level; lg_Text : bool; lg_Service : string }.
Definition Init (getenv : string → string) (service : string) : logger :=
  mkLogger (parseLevel (getenv "LOG_LEVEL")) (EqualFold (getenv "LOG_FORMAT") "text") service.

(** ** The connection pool *)

Record PoolConfig := mkPool { MaxOpenConns : Z; MaxIdleConns : Z; ConnMaxLifetime : Z }.
Definition DefaultPoolConfig : PoolConfig := mkPool 25 5 300.

(** What the pool is told; a setting that is not positive is left as it is. *)
Inductive pool_setting := SetMaxOpenConns (n : Z) | SetMaxIdleConns (n : Z) | SetConnMaxLifetime (seconds : Z).
Definition NewDBWithPool (openDB : string → result unit) (dsn : string) (pool : PoolConfig) :
    result (list pool_setting) :=
  _ ← openDB dsn;
  Ok ((if (0 <? MaxOpenConns pool)%Z then [SetMaxOpenConns (MaxOpenConns pool)] else []) ++
      (if (0 <? MaxIdleConns pool)%Z then [SetMaxIdleConns (MaxIdleConns pool)] else []) ++
      (if (0 <? ConnMaxLifetime pool)%Z then [SetConnMaxLifetime (ConnMaxLifetime pool)] else [])).
Definition NewDB (openDB : string → result unit) (dsn : string) : result (list pool_setting) :=
  NewDBWithPool openDB dsn DefaultPoolConfig.

(** ** The audit store *)

Class AuditWriter (D : Type) := {
  aw_InsertAuditEvent : string → D → result string * D;
  aw_InsertEvidence : string → string → D → result string * D }.

Section audit.
Context {D : Type} `{!AuditWriter D}.

(** Without a database both do nothing, and evidence without an execution is not
    refused either. *)
Definition AppendEvent (payload : string) (db : option D) : result unit * option D :=
  match db with
  | None => (Ok tt, None)
  | Some d => let '(r, d) := aw_InsertAuditEvent payload d in (_ ← r; Ok tt, Some d)
  end.

Definition StoreEvidence (executionID payload : string) (db : option D) : result unit * option D :=
  match db with
  | None => (Ok tt, None)
  | Some d =>
      if executionID =? "" then (Err "execution_id required", Some d)
      else let '(r, d) := aw_InsertEvidence executionID payload d in (_ ← r; Ok tt, Some d)
  end.
End audit.

(** ** Theorems *)

(** goose is called at most once, for one of the five actions, and not at all when the
    flags do not parse or name no database. *)
Theorem migrates_once (sql_Open : string → result unit) (answer : migration → result unit) args :
  let '(r, calls) := migrate_run sql_Open (λ m calls, (answer m, calls ++ [m])) args [] in
  (∃ e, r = Err e ∧ calls = []) ∨
  ∃ m, calls = [m] ∧ r = answer m ∧ mg_Action m ∈ migrate_actions ∧ (mg_Embedded m = true → mg_Dir m = ".").
Proof.
  unfold migrate_run. destruct (Parse _ _ migrate_flags args) as [[sets rest]|e]; [|left; eauto]. cbn [mbind result_bind].
  destruct (check (negb (blank (flag_text sets "dsn" ""))) _); [|left; eauto]. cbn [mbind result_bind].
  destruct (check (negb (blank (flag_text sets "action" ""))) _); [|left; eauto]. cbn [mbind result_bind].
  destruct (sql_Open _); [|left; eauto]. cbn [mbind result_bind].
  destruct (mem _ migrate_actions) eqn:Ha; [right|left; eauto]. eexists. split_and!; [done|done|by apply mem_spec|].
  cbn [mg_Embedded mg_Dir]. by intros ->.
Qed.

(** A level that is not one of the four words is info. *)
Example levels_ex : map parseLevel ["DEBUG"; "Warning"; "error"; "trace"; ""] = [LevelDebug; LevelWarn; LevelError; LevelInfo; LevelInfo].
Proof. vm_compute. reflexivity. Qed.
